(* ===== verification/_CoqProject ===== *)
-Q . S2P
Prelude.v
Html.v
HtmlScan.v
Json.v
JsonSpec.v
JsDate.v
JsNumber.v
JsDecimal.v
JsInteger.v
Uri.v
Url.v
WorkflowDag.v
BridgeState.v
BridgeRoutes.v
BridgePaths.v
BridgeSpec.v
ApiTypes.v
ApiClient.v
ClientServe.v
ClientSpec.v
ClientTypes.v
WikiSearch.v
WikiDialog.v
PlaygroundText.v
Playground.v
PlaygroundSpec.v
PlaygroundChrome.v
ConsoleView.v
ConsoleState.v
ConsoleSpec.v
PlaygroundBus.v
ConsoleClicks.v
ConsoleWidgets.v
ConsoleDetail.v
Exposition.v
ConsoleMetrics.v
ConsoleForms.v
ConsoleAudit.v
ConsoleLists.v
ConsoleListsSpec.v
ConsoleFleet.v
ConsoleLinks.v
ConsoleWorkflow.v
ConsolePages.v
ConsoleScreens.v
ConsoleChrome.v
ConsoleSystem.v
ConsoleOrder.v
BuildLinks.v
ConsoleBuild.v
SampleApp.v
