(* ===== verification/Prelude.v ===== *)
(** * The Relay console, its playground and the wiki search: a verification library

    The program is the JavaScript of the repository: the management console
    (src/console/src) and its build (src/console/build.js), the playground of the
    web site, which runs the console in a frame over a control plane made in the
    browser (src/site/playground), the search dialog of the wiki
    (src/site/internal/sitewiki/search.js), and the sample application
    (src/examples/typescript).

    ** How the parts interact

    The console's page is drawn by templates from JSON answers.  A click on the
    page is read from the data attributes around the element it hits and becomes
    an event of the application object; its handler asks the API client, which
    makes an HTTP request.  In the playground the request is intercepted by
    relay-bridge.js, a control plane in memory over an in-browser database that
    playground.js fills by running a demo workflow.  The development follows this
    way round: templates, page reading, clicks, application object, client,
    control plane, answers, templates.

    ** Files

    Language and browser.
    - [Prelude]: notations, tactics, hint databases; strings, lists, options.
    - [Html]: templates and escaping; the class [Escaper] of the escaping
      functions, and [same_markup], the equivalence under which renderers are
      compared, with its [Proper] instances.
    - [HtmlScan]: the attributes of the elements of a page as the browser's
      tokenizer reads them ([elements]), and the relation [scans] by which a
      template is read piece by piece (tactics [read_page], [offered]).
    - [Json], [JsonSpec], [JsDate], [JsNumber], [JsDecimal], [JsInteger], [Uri],
      [Url]: JSON texts, instants, binary64 numbers and their decimal texts, URI
      components, addresses and query strings, each with its round trips.

    Console components (console/src/lib).
    - [WorkflowDag] (components/WorkflowDAG.js): module [Layout] computes where
      nodes, cards and edges go, module [Svg] writes them, module [Geometry] has
      the lemmas.
    - [ConsoleWidgets], [ConsoleDetail] (StatusPill.js, JsonViewer.js, the step
      drawer of app.js).
    - [ApiTypes], [ApiClient] (api/types.ts, api/client.ts): the types as
      predicates on JSON, the request of every method and what it makes of the
      answer ([Client.operation], [Client.answer]).

    The control plane (site/playground/relay-bridge.js).
    - [BridgeState]: its data as records, its seed, the helpers of its handlers.
    - [BridgeRoutes]: a definition per numbered route, and [fetch], which tries
      them in order.  [BridgePaths]: building and matching its paths.
    - [BridgeSpec]: the abstract machine ([op], [step]) and the refinement: every
      request is one of its steps; the invariants of the reachable states.
    - [ClientServe]: what the control plane is for its client: the reference
      service [serve], which knows operations and names but no paths, encodings
      or JSON texts.  [ClientSpec] proves that client and control plane together
      behave like it; [ClientTypes] that the answers have the declared types.

    The playground's page (site/playground/playground.js): [PlaygroundText] (its
    texts), [Playground] (scripts that run from one [await] to the next, the page
    that interleaves them), [PlaygroundSpec], [PlaygroundChrome] (frame, editor).

    The wiki's search: [WikiSearch] (matching, ranking, rendering), [WikiDialog]
    (the dialog as an event loop with its promises).

    The console's application (console/src/app.js).
    - [ConsoleView]: shell, sidebar, header, dialogs, cards, toasts.
    - [ConsoleState]: [DashboardApp]: its fields and storages, the calls that
      wait for an answer, timers, streams, routing, commands.  [ConsoleSpec]:
      the invariant of its states and what follows from it.
    - [ConsoleClicks]: the listeners of the page.
    - one file per group of screens: [Exposition] and [ConsoleMetrics] (the
      reader of the metrics text and the metrics screen), [ConsoleForms] (settings,
      autoscaling, the dialogs), [ConsoleAudit] (audit log), [ConsoleLists] and
      [ConsoleListsSpec] (workflows, queues, schedules, alert rules, keys, roles
      and members), [ConsoleFleet] (the overview), [ConsoleWorkflow] and
      [ConsolePages] (one workflow).  [ConsoleLinks] follows a link from a drawn
      row to the request of the screen it opens.
    - [ConsoleScreens]: the types of the answers, the screens that were not yet
      followed from their requests, and the switch over all twelve.
    - [ConsoleChrome]: the parts of the frame that are changed in place beside what
      [render] draws, and the toasts.

    The whole: [ConsoleSystem], one machine of user, console, client and control
    plane, in which the data of a screen is the text of its page and requests are
    answered, and calls go on, in any order.  [ConsoleOrder]: the invariant of all
    its interleavings, and the two that break it.

    Playground and console together: [PlaygroundBus] (the event source of the
    frame, the messages of the channel, the frame's address, which both write).

    Around the program: [BuildLinks] and [ConsoleBuild] (console/build.js: the links
    of a page and what replacing them does; the build as a program over a file
    system of finite maps), [SampleApp] (examples/typescript/src/index.ts).

    ** What the theorems show

    - Composition.  Every call of the client over the control plane does what
      the reference service does ([console_calls_served]); the control plane
      refines its abstract machine ([fetch_refines_step]), keeps its registry
      well formed and its audit identifiers distinct; a refused call changes
      nothing and tells why; answers have their declared types.
      What the user asks of the keys, roles and members is on the screen when the
      answers are in ([registry_command_is_shown]), and whatever else goes on at the
      same time, a page of the registry is not stale when nothing waits
      ([quiet_page_is_current]); and the waiting ends ([waiting_ends]).
    - Playground and console.  A run of the demo workflow ends up on the console's
      screen ([demo_run_is_shown]).
    - Pages.  Answers of the declared types never break a screen
      ([typed_answers_make_pages]).  The screens offer exactly the elements their
      data call for, read back from the drawn text by the tokenizer, and a press
      on one leads to the operation of its row ([pages_offer_their_rows],
      [fleet_page_offers], [workflow_page_offers]); a listed workflow opens
      ([listed_workflow_opens]); a step of the diagram shows itself in the drawer ([clicked_step_opens]);
      nothing the user typed becomes markup ([console_markup_independent]).
    - Data.  Rows of all applications, totals of the overview, the family of a
      workflow, the metrics the screen asks for and shows, the audit log page by
      page, unchanged forms that save what was there.
    - The application object.  Live refresh, commands only through their dialog,
      content that follows the route, a reload that keeps the session; what is
      changed in place is what would be drawn ([patched_frame_is_the_drawn_one]).
    - Build and sample.  The pages a build leaves resolve to its one generation of
      bundles; the recorder of steps always comes to an end.
    - Diagram, wiki search and demo run.  Boxes apart and inside the canvas,
      every step once; exactly the matching entries in order of their score; one
      run at a time, and every run ends.

    ** Choices of the model

    - The templates are the ones of the source, chunk by chunk: in them a back
      quote stands for the double quote of the source.
    - A character stands for a code unit below 256; texts of the source are in
      the code page Windows-1252.  Quantities the source keeps as integers far
      below 2^53 are [Z]; numbers that are typed, parsed or divided are binary64
      ([JsNumber]).
    - Parameters: the browser's locale, clock, random identifiers and conversion
      of local time; the network (an answer is any answer); the in-browser
      database (any partial function from statements to rows); esbuild, SHA-256
      and node --check of the build; the DBOS library of the sample.
    - Fuel: the readers of JSON and of highlighted text have as much fuel as the
      text has characters, and every round consumes one; the shortest decimal of
      a number has at most 17 digits and its magnitude at most 1100 binary
      digits; the hours of a setting are bounded by the round trip's own
      hypothesis; the walk through the audit log has one page per entry.
    - The recorder of the sample is a loop over the queries it makes; it is proved
      to stop within 53001 of them, at least one millisecond apart.

    ** Not modelled

    - The Go server and conductor, the database engines and the browser itself:
      other languages, or code the source only calls.
    - The bundles under src/internal/dashboard/dist and src/site/playground/assets:
      built from console/src, which is what is modelled.
    - Effects without a state the program reads back: focus, transitions of
      the toasts, the clipboard, the pan of the diagram by touch.

    ** Extent

    The implementation files are modelled whole but for the effects named above. *)

From Stdlib Require Import ZArith Lia Ascii String.
From stdpp Require Import base list strings gmap sorting.

Open Scope Z_scope.

(** ** Notations and automation of the development *)

Declare Scope js_scope.
Delimit Scope js_scope with js.

Create HintDb relay.
Create Rewrite HintDb relay_str.

(** Case analysis on every boolean test and decision of the goal. *)
Ltac case_tests :=
  repeat match goal with
  | |- context [if decide ?P then _ else _] => destruct (decide P)
  | |- context [if ?b then _ else _] => let E := fresh "E" in destruct b eqn:E
  end.

(** Same for the hypotheses. *)
Ltac case_tests_in H :=
  repeat match type of H with
  | context [if decide ?P then _ else _] => destruct (decide P)
  | context [if ?b then _ else _] => let E := fresh "E" in destruct b eqn:E
  end.

(** Boolean comparisons of [Z] to propositions, then linear arithmetic. *)
Ltac zbool :=
  repeat match goal with
  | H : (_ <? _) = true |- _ => apply Z.ltb_lt in H
  | H : (_ <? _) = false |- _ => apply Z.ltb_ge in H
  | H : (_ <=? _) = true |- _ => apply Z.leb_le in H
  | H : (_ <=? _) = false |- _ => apply Z.leb_gt in H
  | H : (_ =? _) = true |- _ => apply Z.eqb_eq in H
  | H : (_ =? _) = false |- _ => apply Z.eqb_neq in H
  | H : (_ && _)%bool = true |- _ => apply andb_true_iff in H as [? ?]
  | H : (_ || _)%bool = false |- _ => apply orb_false_iff in H as [? ?]
  | H : negb _ = true |- _ => apply negb_true_iff in H
  | H : negb _ = false |- _ => apply negb_false_iff in H
  end; try lia.

(** ** Strings

    A JavaScript string is a [string] whose characters stand for its UTF-16
    code units.  Characters are read in the code page Windows-1252, in which
    every character of the program's own texts is one code unit; the ellipsis
    U+2026 that [truncate] appends is character 133. *)

Definition ellipsis : string := String "133"%char EmptyString.
Definition dquote : ascii := "034"%char.

Fixpoint stake (n : nat) (s : string) : string :=
  match n, s with
  | S n', String c s' => String c (stake n' s')
  | _, _ => ""
  end.

Fixpoint sdrop (n : nat) (s : string) : string :=
  match n, s with
  | S n', String _ s' => sdrop n' s'
  | _, _ => s
  end.

(** [s.slice(i, j)] for [0 <= i]: empty when [j <= i]. *)
Definition slice (i j : nat) (s : string) : string := stake (j - i) (sdrop i s).

Fixpoint is_prefix (p s : string) : bool :=
  match p, s with
  | EmptyString, _ => true
  | String a p', String b s' => Ascii.eqb a b && is_prefix p' s'
  | String _ _, EmptyString => false
  end.

(** [s.startsWith(p)], [s.endsWith(p)]. *)
Definition starts_with (s p : string) : bool := is_prefix p s.
Definition ends_with (s p : string) : bool :=
  (String.length p <=? String.length s)%nat &&
  String.eqb (sdrop (String.length s - String.length p) s) p.

(** [s.indexOf(p)]: the first position, [None] for the code's [-1]. *)
Fixpoint index_of (p s : string) : option nat :=
  if is_prefix p s then Some 0%nat
  else match s with
       | EmptyString => None
       | String _ s' => S <$> index_of p s'
       end.

Definition includes (s p : string) : bool :=
  match index_of p s with Some _ => true | None => false end.

(** [s.replace(/c/g, r)] for a one-character pattern. *)
Fixpoint replace_char (c : ascii) (r s : string) : string :=
  match s with
  | EmptyString => ""
  | String a s' =>
      if Ascii.eqb a c then r +:+ replace_char c r s'
      else String a (replace_char c r s')
  end.

(** Character-wise transformation of a string. *)
Fixpoint smap (f : ascii → ascii) (s : string) : string :=
  match s with EmptyString => "" | String a s' => String (f a) (smap f s') end.

Fixpoint sfilter (f : ascii → bool) (s : string) : string :=
  match s with
  | EmptyString => ""
  | String a s' => if f a then String a (sfilter f s') else sfilter f s'
  end.

Fixpoint sforall (f : ascii → bool) (s : string) : bool :=
  match s with EmptyString => true | String a s' => f a && sforall f s' end.

(** ASCII case conversion: [toLowerCase] and [toUpperCase] on the texts the
    model ranges over (other code units are left as they are). *)
Definition code (a : ascii) : Z := Z.of_nat (nat_of_ascii a).
Definition of_code (z : Z) : ascii := ascii_of_nat (Z.to_nat z).

Definition lower_ascii (a : ascii) : ascii :=
  if (65 <=? code a) && (code a <=? 90) then of_code (code a + 32) else a.
Definition upper_ascii (a : ascii) : ascii :=
  if (97 <=? code a) && (code a <=? 122) then of_code (code a - 32) else a.
Definition to_lower (s : string) : string := smap lower_ascii s.
Definition to_upper (s : string) : string := smap upper_ascii s.

(** White space of [trim] and of the regular expression class [\s]. *)
Definition is_space (a : ascii) : bool :=
  ((9 <=? code a) && (code a <=? 13)) || (code a =? 32) || (code a =? 160).

Fixpoint trim_start (s : string) : string :=
  match s with
  | String a s' => if is_space a then trim_start s' else s
  | EmptyString => ""
  end.

Fixpoint trim_end (s : string) : string :=
  match s with
  | EmptyString => ""
  | String a s' =>
      match trim_end s' with
      | EmptyString => if is_space a then "" else String a ""
      | t => String a t
      end
  end.

Definition trim (s : string) : string := trim_end (trim_start s).

(** [s.split(c)] for a one-character separator. *)
Fixpoint split_char (c : ascii) (s : string) : list string :=
  match s with
  | EmptyString => [""]
  | String a s' =>
      if Ascii.eqb a c then "" :: split_char c s'
      else match split_char c s' with
           | [] => [String a ""]
           | w :: ws => String a w :: ws
           end
  end.

(** [l.join(sep)]. *)
Fixpoint join (sep : string) (l : list string) : string :=
  match l with
  | [] => ""
  | [x] => x
  | x :: l' => x +:+ sep +:+ join sep l'
  end.

(** [s.split(/\s+/).filter(Boolean)]: the maximal runs of non-space characters. *)
Fixpoint words_aux (cur : string) (s : string) : list string :=
  match s with
  | EmptyString => if String.eqb cur "" then [] else [cur]
  | String a s' =>
      if is_space a
      then (if String.eqb cur "" then [] else [cur]) ++ words_aux "" s'
      else words_aux (cur +:+ String a "") s'
  end.
Definition split_words (s : string) : list string := words_aux "" s.

(** [String(n)] for an integer number. *)
Definition digit (n : Z) : ascii := of_code (48 + n).
Fixpoint digits_aux (fuel : nat) (n : Z) (acc : string) : string :=
  match fuel with
  | O => acc
  | S f => let acc' := String (digit (n mod 10)) acc in
           if n <? 10 then acc' else digits_aux f (n / 10) acc'
  end.
Definition string_of_Z (n : Z) : string :=
  if n <? 0 then "-" +:+ digits_aux (S (Z.to_nat (Z.log2 (- n)))) (- n) ""
  else digits_aux (S (Z.to_nat (Z.log2 n))) n "".

(** [parseInt(s, 10)]: leading space, a sign, the longest run of digits;
    [None] is [NaN]. *)
Definition is_digit (a : ascii) : bool := (48 <=? code a) && (code a <=? 57).
Fixpoint digits_value (acc : Z) (s : string) : Z :=
  match s with
  | String a s' => if is_digit a then digits_value (10 * acc + (code a - 48)) s' else acc
  | EmptyString => acc
  end.
Definition parse_digits (s : string) : option Z :=
  match s with
  | String a _ => if is_digit a then Some (digits_value 0 s) else None
  | EmptyString => None
  end.
Definition parse_int (s : string) : option Z :=
  match trim_start s with
  | String "-" s' => Z.opp <$> parse_digits s'
  | String "+" s' => parse_digits s'
  | s' => parse_digits s'
  end.

(** [s || d] on strings: the empty string is falsy. *)
Definition or_else (s d : string) : string := if String.eqb s "" then d else s.

(** *** Lemmas on strings *)

Lemma app_cons_str x a b : String x a +:+ b = String x (a +:+ b).
Proof. done. Qed.

Lemma app_empty_str b : "" +:+ b = b.
Proof. done. Qed.

Lemma app_nil_r_str s : s +:+ "" = s.
Proof. induction s as [|a s IH]; [done|]. by rewrite app_cons_str, IH. Qed.

Lemma app_assoc_str a b c : (a +:+ b) +:+ c = a +:+ (b +:+ c).
Proof. induction a as [|x a IH]; [done|]. by rewrite !app_cons_str, IH. Qed.

Lemma length_app_str a b :
  String.length (a +:+ b) = (String.length a + String.length b)%nat.
Proof. induction a as [|x a IH]; [done|]. rewrite app_cons_str. cbn. by rewrite IH. Qed.

Lemma stake_length n s : String.length (stake n s) = (n `min` String.length s)%nat.
Proof. revert s. induction n as [|n IH]; intros [|a s]; cbn; try done; by rewrite IH. Qed.

Lemma sdrop_length n s : String.length (sdrop n s) = (String.length s - n)%nat.
Proof. revert s. induction n as [|n IH]; intros [|a s]; cbn; try done; by rewrite IH. Qed.

Lemma stake_sdrop n s : stake n s +:+ sdrop n s = s.
Proof.
  revert s. induction n as [|n IH]; intros [|a s]; cbn; auto.
  rewrite app_cons_str. by rewrite IH.
Qed.

Lemma stake_all n s : (String.length s <= n)%nat → stake n s = s.
Proof.
  revert s. induction n as [|n IH]; intros [|a s]; cbn; intros; try done; try lia.
  f_equal. apply IH. lia.
Qed.

Lemma slice_length i j s :
  String.length (slice i j s) = ((j - i) `min` (String.length s - i))%nat.
Proof. unfold slice. by rewrite stake_length, sdrop_length. Qed.

Lemma is_prefix_app p s : is_prefix p (p +:+ s) = true.
Proof.
  induction p as [|a p IH]; [done|]. rewrite app_cons_str. cbn.
  by rewrite Ascii.eqb_refl, IH.
Qed.

Lemma is_prefix_spec p s : is_prefix p s = true ↔ ∃ t, s = p +:+ t.
Proof.
  split.
  - revert s. induction p as [|a p IH]; intros s H; [by exists s|].
    destruct s as [|b s]; [done|]. cbn in H.
    apply andb_true_iff in H as [H1 H2]. apply Ascii.eqb_eq in H1 as ->.
    destruct (IH _ H2) as [t ->]. by exists t.
  - intros [t ->]. apply is_prefix_app.
Qed.

Lemma sdrop_app_len p s : sdrop (String.length p) (p +:+ s) = s.
Proof. induction p as [|a p IH]; [done|exact IH]. Qed.

Lemma stake_app_len p s : stake (String.length p) (p +:+ s) = p.
Proof. induction p as [|a p IH]; [done|]. rewrite app_cons_str. cbn. by rewrite IH. Qed.

Lemma prefix_drop p s : is_prefix p s = true → s = p +:+ sdrop (String.length p) s.
Proof. intros [t ->]%is_prefix_spec. by rewrite sdrop_app_len. Qed.

Lemma index_of_spec p s i :
  index_of p s = Some i → ∃ a b, s = a +:+ p +:+ b ∧ String.length a = i.
Proof.
  revert i. induction s as [|c s IH]; intros i; cbn [index_of].
  - destruct (is_prefix p "") eqn:E; [|done]. intros [= <-].
    apply is_prefix_spec in E as [t ->]. by exists "", t.
  - destruct (is_prefix p (String c s)) eqn:E.
    + intros [= <-]. apply is_prefix_spec in E as [t E]. exists "", t. by rewrite E.
    + destruct (index_of p s) as [k|]; [|done]. cbn. intros [= <-].
      destruct (IH k eq_refl) as (a & b & -> & <-). by exists (String c a), b.
Qed.

Lemma index_of_complete p a b : is_Some (index_of p (a +:+ p +:+ b)).
Proof.
  induction a as [|c a IH].
  - rewrite app_empty_str. destruct (p +:+ b) eqn:E; cbn; rewrite <- E.
    + rewrite is_prefix_app. eauto.
    + rewrite is_prefix_app. eauto.
  - rewrite app_cons_str. cbn. case_tests; [eauto|].
    destruct IH as [k ->]. cbn. eauto.
Qed.

Lemma includes_spec s p : includes s p = true ↔ ∃ a b, s = a +:+ p +:+ b.
Proof.
  unfold includes. split.
  - destruct (index_of p s) as [i|] eqn:E; [|done].
    apply index_of_spec in E as (a & b & -> & _). eauto.
  - intros (a & b & ->). by destruct (index_of_complete p a b) as [i ->].
Qed.

Lemma index_of_bound p s i :
  index_of p s = Some i → (i + String.length p <= String.length s)%nat.
Proof.
  intros (a & b & -> & <-)%index_of_spec. rewrite !length_app_str. lia.
Qed.

Lemma sfilter_app f a b : sfilter f (a +:+ b) = sfilter f a +:+ sfilter f b.
Proof.
  induction a as [|x a IH]; [done|]. rewrite app_cons_str. cbn.
  case_tests; [by rewrite IH|done].
Qed.

Lemma smap_length f s : String.length (smap f s) = String.length s.
Proof. induction s as [|a s IH]; cbn; auto. Qed.

Lemma smap_app f a b : smap f (a +:+ b) = smap f a +:+ smap f b.
Proof. induction a as [|x a IH]; [done|]. rewrite !app_cons_str. cbn. by rewrite IH. Qed.

Lemma sforall_app f a b : sforall f (a +:+ b) = sforall f a && sforall f b.
Proof.
  induction a as [|x a IH]; [done|]. rewrite app_cons_str. cbn.
  by rewrite IH, andb_assoc.
Qed.

Lemma replace_char_app c r a b :
  replace_char c r (a +:+ b) = replace_char c r a +:+ replace_char c r b.
Proof.
  induction a as [|x a IH]; [done|]. rewrite app_cons_str. cbn.
  case_tests; by rewrite IH, ?app_assoc_str.
Qed.

Lemma split_char_nonempty c s : split_char c s ≠ [].
Proof. destruct s; cbn; case_tests; try done. by destruct (split_char _ _). Qed.

Lemma split_char_none c s :
  sforall (λ a, negb (Ascii.eqb a c)) s = true → split_char c s = [s].
Proof.
  induction s as [|a s IH]; [done|]. cbn. intros [H1 H2]%andb_true_iff.
  apply negb_true_iff in H1. by rewrite H1, IH.
Qed.

Lemma split_char_app c s t :
  sforall (λ a, negb (Ascii.eqb a c)) s = true →
  split_char c (s +:+ String c t) = s :: split_char c t.
Proof.
  induction s as [|a s IH]; intros H.
  - rewrite app_empty_str. cbn. by rewrite Ascii.eqb_refl.
  - rewrite app_cons_str. cbn in *. apply andb_true_iff in H as [H1 H2].
    apply negb_true_iff in H1. by rewrite H1, IH.
Qed.

Lemma or_else_nonempty s d : d ≠ "" → or_else s d ≠ "".
Proof. unfold or_else. destruct (String.eqb_spec s ""); congruence. Qed.

(** *** Decimal numbers *)

Lemma digit_ind (P : Z → Prop) :
  P 0 → P 1 → P 2 → P 3 → P 4 → P 5 → P 6 → P 7 → P 8 → P 9 →
  ∀ n, 0 <= n < 10 → P n.
Proof.
  intros H0 H1 H2 H3 H4 H5 H6 H7 H8 H9 n Hn.
  assert (n = 0 ∨ n = 1 ∨ n = 2 ∨ n = 3 ∨ n = 4 ∨ n = 5 ∨ n = 6 ∨
    n = 7 ∨ n = 8 ∨ n = 9) as Hc by lia.
  by repeat destruct Hc as [->|Hc]; subst.
Qed.

Lemma digit_spec n : 0 <= n < 10 →
  is_digit (digit n) = true ∧ code (digit n) - 48 = n ∧ (n ≠ 0 → digit n ≠ "0"%char).
Proof. revert n. apply digit_ind; repeat split; done. Qed.

(** The digits [string_of_Z] writes: not empty, without leading zero, and read
    back to the number whatever follows. *)
Record decimal (n : Z) (D : string) : Prop := {
  dec_digits : sforall is_digit D = true;
  dec_value v rest :
    digits_value v (D +:+ rest) =
    digits_value (v * 10 ^ Z.of_nat (String.length D) + n) rest;
  dec_head : n ≠ 0 → ∃ a D', D = String a D' ∧ a ≠ "0"%char;
  dec_zero : n = 0 → D = "0"
}.

Lemma decimal_one n : 0 <= n < 10 → decimal n (String (digit n) "").
Proof.
  intros Hn. destruct (digit_spec n Hn) as (H1 & H2 & H3). split.
  - cbn. by rewrite H1.
  - intros v rest. rewrite app_cons_str, app_empty_str. cbn [digits_value String.length].
    rewrite H1, H2. f_equal. change (10 ^ Z.of_nat 1) with 10. lia.
  - intros H0. eauto.
  - by intros ->.
Qed.

Lemma decimal_snoc n D :
  10 <= n → decimal (n / 10) D → decimal n (D +:+ String (digit (n mod 10)) "").
Proof.
  intros Hn [H1 H2 H3 H4].
  destruct (digit_spec (n mod 10)) as (E1 & E2 & E3); [apply Z.mod_pos_bound; lia|].
  split.
  - rewrite sforall_app, H1. cbn. by rewrite E1.
  - intros v rest. rewrite app_assoc_str, H2, app_cons_str, app_empty_str.
    cbn [digits_value]. rewrite E1, E2, length_app_str. f_equal. cbn [String.length].
    rewrite Nat2Z.inj_add, Z.pow_add_r by lia. change (10 ^ Z.of_nat 1) with 10.
    pose proof (Z.div_mod n 10). lia.
  - intros _. destruct H3 as (a & D' & -> & Ha).
    + Z.to_euclidean_division_equations. lia.
    + eexists _, _. by rewrite app_cons_str.
  - lia.
Qed.

Lemma digits_aux_spec f n acc : 0 <= n < 10 ^ Z.of_nat (S f) →
  ∃ D, digits_aux (S f) n acc = D +:+ acc ∧ decimal n D.
Proof.
  assert (∀ m a, 0 <= m < 10 →
    ∃ D, String (digit (m mod 10)) a = D +:+ a ∧ decimal m D) as Hone.
  { intros m a Hm. exists (String (digit m) ""). rewrite Z.mod_small by lia.
    by split; [|apply decimal_one; lia]. }
  revert n acc. induction f as [|f IH]; intros n acc Hn; cbn [digits_aux];
    destruct (Z.ltb_spec n 10) as [E|E]; try (apply Hone; lia).
  assert (0 <= n / 10 < 10 ^ Z.of_nat (S f)) as Hd.
  { rewrite Nat2Z.inj_succ, Z.pow_succ_r in Hn by lia. split.
    - apply Z.div_pos; lia.
    - apply Z.div_lt_upper_bound; lia. }
  destruct (IH (n / 10) (String (digit (n mod 10)) acc) Hd) as (D & HD & Hdec).
  cbn [digits_aux] in HD. rewrite HD.
  exists (D +:+ String (digit (n mod 10)) ""). split; [by rewrite app_assoc_str|].
  by apply decimal_snoc.
Qed.

Lemma string_of_Z_decimal n : 0 <= n → decimal n (string_of_Z n).
Proof.
  intros Hn. unfold string_of_Z. rewrite (proj2 (Z.ltb_ge _ _)) by lia.
  destruct (digits_aux_spec (Z.to_nat (Z.log2 n)) n "") as (D & -> & HD).
  - split; [done|]. rewrite Nat2Z.inj_succ, Z2Nat.id by apply Z.log2_nonneg.
    destruct (Z.eq_dec n 0) as [->|]; [done|].
    eapply Z.lt_le_trans; [apply Z.log2_spec; lia|].
    apply Z.pow_le_mono_l. lia.
  - by rewrite app_nil_r_str.
Qed.

Lemma string_of_Z_value n : 0 <= n → digits_value 0 (string_of_Z n) = n.
Proof.
  intros Hn. pose proof (dec_value _ _ (string_of_Z_decimal n Hn) 0 "") as H.
  rewrite app_nil_r_str in H. rewrite H. cbn. lia.
Qed.

Lemma string_of_Z_inj n m : 0 <= n → 0 <= m → string_of_Z n = string_of_Z m → n = m.
Proof.
  intros Hn Hm H. by rewrite <- (string_of_Z_value n), H, string_of_Z_value.
Qed.

Lemma app_inv_head_str a b c : a +:+ b = a +:+ c → b = c.
Proof. induction a as [|x a IH]; [done|]. rewrite !app_cons_str. intros [= H]. auto. Qed.

Lemma smap_split f s x y :
  smap f s = x +:+ y → ∃ a b, s = a +:+ b ∧ smap f a = x ∧ smap f b = y.
Proof.
  revert s. induction x as [|c x IH]; intros s E.
  - exists "", s. by rewrite app_empty_str in *.
  - rewrite app_cons_str in E. destruct s as [|d s]; [done|]. cbn in E. injection E as Ed E.
    apply IH in E as (a & b & -> & Ha & Hb). exists (String d a), b.
    rewrite app_cons_str. split_and!; [done| |done]. cbn. by rewrite Ed, Ha.
Qed.

Lemma sdrop_app_le n a b :
  (n <= String.length a)%nat → sdrop n (a +:+ b) = sdrop n a +:+ b.
Proof.
  revert a. induction n as [|n IH]; intros a Hn; [done|].
  destruct a as [|c a]; cbn in Hn; [lia|]. rewrite app_cons_str. cbn. apply IH. lia.
Qed.

Lemma stake_app_ge n a b :
  (String.length a <= n)%nat → stake n (a +:+ b) = a +:+ stake (n - String.length a) b.
Proof.
  revert n. induction a as [|c a IH]; intros n Hn; [by rewrite Nat.sub_0_r|].
  cbn in Hn. destruct n as [|n]; [lia|]. rewrite app_cons_str. cbn. rewrite app_cons_str.
  f_equal. apply IH. lia.
Qed.
Lemma slice_around a m b i j :
  (i <= String.length a)%nat → (String.length a + String.length m <= j)%nat →
  ∃ x y, slice i j (a +:+ m +:+ b) = x +:+ m +:+ y.
Proof.
  intros Hi Hj. unfold slice. rewrite sdrop_app_le by done. rewrite <- app_assoc_str.
  exists (sdrop i a), (stake (j - i - String.length (sdrop i a +:+ m)) b).
  rewrite stake_app_ge, app_assoc_str; [done|].
  rewrite length_app_str, sdrop_length. lia.
Qed.

(** Comparison of strings by code unit: [a < b] fails both ways along a chain. *)
Lemma ltb_cons a s b t :
  String.ltb (String a s) (String b t) =
  ((N_of_ascii a <? N_of_ascii b)%N || ((N_of_ascii a =? N_of_ascii b)%N && String.ltb s t)).
Proof.
  unfold String.ltb. cbn [String.compare]. unfold Ascii.compare.
  destruct (N.compare_spec (N_of_ascii a) (N_of_ascii b)) as [E|E|E].
  - rewrite E, N.ltb_irrefl, N.eqb_refl. done.
  - apply N.ltb_lt in E. by rewrite E.
  - rewrite (proj2 (N.ltb_ge _ _)), (proj2 (N.eqb_neq _ _)) by lia. done.
Qed.

Lemma ltb_asym s t : String.ltb s t = true → String.ltb t s = false.
Proof.
  revert t. induction s as [|a s IH]; intros [|b t]; try done.
  rewrite !ltb_cons. intros [E|[E H]%andb_true_iff]%orb_true_iff;
    apply orb_false_iff; (split; [|apply andb_false_iff]).
  all: rewrite ?N.ltb_lt, ?N.ltb_ge, ?N.eqb_eq, ?N.eqb_neq in *; try lia; auto.
Qed.

Lemma ltb_ge_trans s t u : String.ltb s t = false → String.ltb t u = false → String.ltb s u = false.
Proof.
  revert t u. induction s as [|a s IH]; intros [|b t] [|c u]; try done.
  rewrite !ltb_cons, !orb_false_iff, !andb_false_iff, !N.ltb_ge, !N.eqb_neq.
  intros [H1 [H2|H2]] [H3 [H4|H4]]; (split; [lia|]); try (left; lia).
  destruct (decide (N_of_ascii a = N_of_ascii c)); [right|by left]. by eapply IH.
Qed.

#[export] Hint Rewrite app_nil_r_str app_assoc_str app_empty_str length_app_str
  sfilter_app smap_length : relay_str.
#[export] Hint Resolve or_else_nonempty split_char_nonempty : relay.

(** ** Lists *)

(** [a.sort(cmp)]: the stable sort.  When [cmp] is a consistent comparator the
    language fixes the result, and this is it; otherwise the order is
    implementation-defined and the result is still a permutation. *)
Section JsSort.
Context {A : Type} (cmp : A → A → Z).

Fixpoint insert_by (x : A) (l : list A) : list A :=
  match l with
  | [] => [x]
  | y :: l' => if cmp x y <=? 0 then x :: y :: l' else y :: insert_by x l'
  end.

Fixpoint js_sort (l : list A) : list A :=
  match l with [] => [] | x :: l' => insert_by x (js_sort l') end.

Lemma insert_by_perm x l : insert_by x l ≡ₚ x :: l.
Proof.
  induction l as [|y l IH]; cbn; [done|]. case_tests; [done|].
  rewrite IH. constructor.
Qed.

Lemma js_sort_perm l : js_sort l ≡ₚ l.
Proof. induction l as [|x l IH]; cbn; [done|]. by rewrite insert_by_perm, IH. Qed.

Lemma js_sort_length l : length (js_sort l) = length l.
Proof. by rewrite js_sort_perm. Qed.

Lemma js_sort_elem x l : x ∈ js_sort l ↔ x ∈ l.
Proof. by rewrite js_sort_perm. Qed.

Context (cmp_total : ∀ x y, 0 < cmp x y → cmp y x <= 0).
Context (cmp_trans : ∀ x y z, cmp x y <= 0 → cmp y z <= 0 → cmp x z <= 0).

Lemma insert_by_sorted x l :
  StronglySorted (λ a b, cmp a b <= 0) l →
  StronglySorted (λ a b, cmp a b <= 0) (insert_by x l).
Proof.
  induction 1 as [|y l Hs IH Hf]; cbn; [by repeat constructor|].
  destruct (cmp x y <=? 0) eqn:E; zbool.
  - constructor; [by constructor|]. constructor; [done|].
    eapply Forall_impl; [exact Hf|]. eauto.
  - constructor; [done|]. apply Forall_forall. intros z Hz.
    rewrite insert_by_perm in Hz. apply elem_of_cons in Hz as [->|Hz].
    + apply cmp_total. lia.
    + by eapply Forall_forall in Hf.
Qed.

Lemma js_sort_sorted l : StronglySorted (λ a b, cmp a b <= 0) (js_sort l).
Proof. induction l; cbn; [constructor|]. by apply insert_by_sorted. Qed.

Lemma js_sort_sorted_by (R : A → A → Prop) l :
  (∀ x y, cmp x y <= 0 → R x y) → StronglySorted R (js_sort l).
Proof.
  intros HR. induction (js_sort_sorted l) as [|x l' Hs IH Hf]; constructor; [done|].
  eapply Forall_impl; eauto.
Qed.

Lemma js_sort_id l :
  StronglySorted (λ a b, cmp a b <= 0) l → js_sort l = l.
Proof.
  induction 1 as [|x l Hs IH Hf]; cbn; [done|]. rewrite IH.
  destruct l as [|y l]; [done|]. cbn. inversion Hf; subst.
  by rewrite (proj2 (Z.leb_le _ _)).
Qed.
End JsSort.

(** Sorting by an integer key, largest first: [(a, b) => key(b) - key(a)]. *)
Lemma js_sort_desc {A} (key : A → Z) (l : list A) :
  StronglySorted (λ a b, key b <= key a) (js_sort (λ a b, key b - key a) l).
Proof. apply js_sort_sorted_by; intros; lia. Qed.

(** ... and smallest first: [(a, b) => key(a) - key(b)]. *)
Lemma js_sort_asc {A} (key : A → Z) (l : list A) :
  StronglySorted (λ a b, key a <= key b) (js_sort (λ a b, key a - key b) l).
Proof. apply js_sort_sorted_by; intros; lia. Qed.

(** [l.slice(i, j)] for [0 <= i <= j]. *)
Definition list_slice {A} (i j : nat) (l : list A) : list A := take (j - i) (drop i l).

Lemma list_slice_length {A} i j (l : list A) : (length (list_slice i j l) <= j - i)%nat.
Proof. unfold list_slice. rewrite length_take. lia. Qed.

Lemma list_slice_elem {A} i j (l : list A) x : x ∈ list_slice i j l → x ∈ l.
Proof.
  unfold list_slice. intros (k & Hk & _)%elem_of_take. rewrite lookup_drop in Hk.
  by apply list_elem_of_lookup_2 in Hk.
Qed.

(** Consecutive slices. *)
Lemma list_slice_app {A} i n (l : list A) :
  list_slice i (i + n) l ++ list_slice (i + n) (i + n + n) l = list_slice i (i + 2 * n) l.
Proof.
  unfold list_slice. replace (i + n - i)%nat with n by lia.
  replace (i + n + n - (i + n))%nat with n by lia.
  replace (i + 2 * n - i)%nat with (n + n)%nat by lia.
  by rewrite <- drop_drop, take_take_drop.
Qed.

Lemma list_slice_sorted {A} (R : A → A → Prop) i j l :
  StronglySorted R l → StronglySorted R (list_slice i j l).
Proof.
  assert (Htake : ∀ n k, StronglySorted R k → StronglySorted R (take n k)).
  { intros n k H. revert n. induction H as [|x k Hs IH Hf]; intros [|n]; cbn; constructor; auto.
    by apply Forall_take. }
  intros H. apply Htake. revert i. induction H as [|x k Hs IH Hf]; intros [|i]; cbn; auto;
    by constructor.
Qed.

(** [l.find(p)], [l.some(p)], [l.every(p)], [l.filter(p)] with a boolean test. *)
Definition find {A} (p : A → bool) (l : list A) : option A := List.find p l.
Definition some {A} (p : A → bool) (l : list A) : bool := existsb p l.
Definition every {A} (p : A → bool) (l : list A) : bool := forallb p l.
Definition keep {A} (p : A → bool) (l : list A) : list A := List.filter p l.

Lemma keep_elem {A} (p : A → bool) l x : x ∈ keep p l ↔ p x = true ∧ x ∈ l.
Proof. unfold keep. rewrite !list_elem_of_In, filter_In. tauto. Qed.

Lemma some_elem {A} (p : A → bool) l : some p l = true ↔ ∃ x, x ∈ l ∧ p x = true.
Proof.
  unfold some. rewrite existsb_exists. by setoid_rewrite list_elem_of_In.
Qed.

Lemma some_false {A} (p : A → bool) l : some p l = false ↔ ∀ x, x ∈ l → p x = false.
Proof.
  rewrite <- not_true_iff_false, some_elem. split.
  - intros H x Hx. apply not_true_iff_false. eauto.
  - intros H (x & Hx & E). by rewrite H in E.
Qed.

Lemma find_some_elem {A} (p : A → bool) l x : find p l = Some x → x ∈ l ∧ p x = true.
Proof. unfold find. intros H%find_some. by rewrite list_elem_of_In. Qed.

Lemma find_none_elem {A} (p : A → bool) l : find p l = None ↔ ∀ x, x ∈ l → p x = false.
Proof.
  unfold find. split.
  - intros H x Hx. eapply find_none; [done|]. by apply list_elem_of_In.
  - induction l as [|y l IH]; intros H; cbn; [done|].
    rewrite H by set_solver. apply IH. set_solver.
Qed.

Lemma keep_length {A} (p : A → bool) l : (length (keep p l) <= length l)%nat.
Proof. unfold keep. induction l; cbn; [done|]. case_tests; cbn; lia. Qed.

#[export] Hint Resolve js_sort_desc js_sort_asc : relay.

(** ** JSON values

    The values [JSON.parse] gives and [JSON.stringify] takes, with [undefined]
    for an absent property.  Numbers are the integers: no number of the
    programs modelled here leaves them except where a file says so. *)
Inductive jval :=
| JUndef
| JNull
| JBool (b : bool)
| JNum (n : Z)
| JStr (s : string)
| JArr (l : list jval)
| JObj (fs : list (string * jval)).

Definition truthy (v : jval) : bool :=
  match v with
  | JUndef | JNull => false
  | JBool b => b
  | JNum n => negb (n =? 0)
  | JStr s => negb (String.eqb s "")
  | JArr _ | JObj _ => true
  end.

(** [v || d]. *)
Definition jor (v d : jval) : jval := if truthy v then v else d.

Fixpoint assoc {A} (k : string) (fs : list (string * A)) : option A :=
  match fs with
  | [] => None
  | (k', v) :: fs' => if String.eqb k k' then Some v else assoc k fs'
  end.

(** [v.k]: a property read throws ([None]) on [null] and [undefined]. *)
Definition jget (v : jval) (k : string) : option jval :=
  match v with
  | JUndef | JNull => None
  | JObj fs => Some (default JUndef (assoc k fs))
  | _ => Some JUndef
  end.

Definition jopt_num (o : option Z) : jval :=
  match o with Some n => JNum n | None => JNull end.

(** The result of an expression that may throw. *)
Notation "'let?' x := e 'in' k" :=
  (match e with Some x => k | None => None end)
  (at level 10, x name, e at level 100, k at level 200) : js_scope.
