(* ===== verification/Html.v ===== *)
(** HTML text: template literals, the escaping of untrusted text shared by
    every renderer, and the equivalence "same markup" under which the
    renderers are compared.

    A JavaScript template literal is a list of chunks: [T] is a piece of its
    text and [H] an interpolated value.  In the text of a [T] chunk the
    backquote, which cannot occur in a template literal, stands for the double
    quote. *)

From Stdlib Require Import ZArith Lia Ascii String.
From stdpp Require Import base list strings gmap.
From S2P Require Import Prelude.

(** ** Template literals *)

Inductive chunk := T (s : string) | H (s : string).

Definition unquote (a : ascii) : ascii := if Ascii.eqb a "`" then dquote else a.
Definition q (s : string) : string := smap unquote s.

Definition chunk_text (c : chunk) : string :=
  match c with T s => q s | H s => s end.

Fixpoint tpl (l : list chunk) : string :=
  match l with [] => "" | c :: l' => chunk_text c +:+ tpl l' end.

(** [l.map(f).join("")]. *)
Fixpoint map_join {A} (f : A → string) (l : list A) : string :=
  match l with [] => "" | x :: l' => f x +:+ map_join f l' end.

(** ** The markup of a text

    The characters that can open or close a tag or an attribute value.  Two
    texts with the same markup differ only in character data. *)

Definition is_markup (a : ascii) : bool :=
  Ascii.eqb a "<" || Ascii.eqb a ">" || Ascii.eqb a dquote || Ascii.eqb a "'".

Definition skeleton (s : string) : string := sfilter is_markup s.

Definition same_markup (s t : string) : Prop := skeleton s = skeleton t.
Infix "≈" := same_markup (at level 70) : js_scope.
Open Scope js_scope.

(** A text without markup characters: what an interpolated value must be. *)
Class Inert (s : string) : Prop := inert : skeleton s = "".

(** The contract of an escaping function: what it gives is inert, the reader
    of the page gets the original text back, and escaping distributes over
    concatenation. *)
Fixpoint decode_entities (s : string) : string :=
  match s with
  | String "&" (String "a" (String "m" (String "p" (String ";" r)))) =>
      String "&" (decode_entities r)
  | String "&" (String "l" (String "t" (String ";" r))) =>
      String "<" (decode_entities r)
  | String "&" (String "g" (String "t" (String ";" r))) =>
      String ">" (decode_entities r)
  | String "&" (String "q" (String "u" (String "o" (String "t" (String ";" r))))) =>
      String dquote (decode_entities r)
  | String "&" (String "#" (String "0" (String "3" (String "9" (String ";" r))))) =>
      String "'" (decode_entities r)
  | String a r => String a (decode_entities r)
  | EmptyString => ""
  end.

Class Escaper (esc : string → string) : Prop := {
  esc_inert s : Inert (esc s);
  esc_decode s : decode_entities (esc s) = s;
  esc_app s t : esc (s +:+ t) = esc s +:+ esc t
}.

(** The chain of replacements every copy of [escapeHtml] performs, in its
    order: the ampersand first. *)
Definition escape_chain (s : string) : string :=
  replace_char "'" "&#039;"
    (replace_char dquote "&quot;"
      (replace_char ">" "&gt;"
        (replace_char "<" "&lt;"
          (replace_char "&" "&amp;" s)))).

(** The same function in one pass over the text. *)
Definition escape_one (a : ascii) : string :=
  if Ascii.eqb a "&" then "&amp;"
  else if Ascii.eqb a "<" then "&lt;"
  else if Ascii.eqb a ">" then "&gt;"
  else if Ascii.eqb a dquote then "&quot;"
  else if Ascii.eqb a "'" then "&#039;"
  else String a "".

Fixpoint escape_all (s : string) : string :=
  match s with EmptyString => "" | String a s' => escape_one a +:+ escape_all s' end.

(** ** Lemmas *)

Lemma escape_chain_cons a s :
  escape_chain (String a s) = escape_one a +:+ escape_chain s.
Proof.
  unfold escape_chain, escape_one.
  change (String a s) with (String a "" +:+ s). rewrite !replace_char_app.
  f_equal.
  destruct (Ascii.eqb_spec a "&") as [->|H1]; [done|].
  destruct (Ascii.eqb_spec a "<") as [->|H2]; [done|].
  destruct (Ascii.eqb_spec a ">") as [->|H3]; [done|].
  destruct (Ascii.eqb_spec a dquote) as [->|H4]; [done|].
  destruct (Ascii.eqb_spec a "'") as [->|H5]; [done|].
  apply Ascii.eqb_neq in H1, H2, H3, H4, H5.
  cbn. rewrite H1. cbn. rewrite H2. cbn. rewrite H3. cbn. rewrite H4. cbn.
  by rewrite H5.
Qed.

Lemma escape_chain_all s : escape_chain s = escape_all s.
Proof.
  induction s as [|a s IH]; [done|]. rewrite escape_chain_cons. cbn. by rewrite IH.
Qed.

Lemma skeleton_app s t : skeleton (s +:+ t) = skeleton s +:+ skeleton t.
Proof. apply sfilter_app. Qed.

Lemma escape_one_inert a : skeleton (escape_one a) = "".
Proof.
  unfold escape_one. case_tests; try done.
  unfold skeleton, is_markup. cbn. rewrite E0, E1, E2, E3. done.
Qed.

Lemma escape_one_decode a s :
  decode_entities (escape_one a +:+ s) = String a (decode_entities s).
Proof.
  unfold escape_one.
  destruct (Ascii.eqb_spec a "&") as [->|H1]; [done|].
  destruct (Ascii.eqb_spec a "<") as [->|H2]; [done|].
  destruct (Ascii.eqb_spec a ">") as [->|H3]; [done|].
  destruct (Ascii.eqb_spec a dquote) as [->|H4]; [done|].
  destruct (Ascii.eqb_spec a "'") as [->|H5]; [done|].
  rewrite app_cons_str, app_empty_str.
  destruct a as [[] [] [] [] [] [] [] []]; try done; congruence.
Qed.

#[export] Instance escape_chain_escaper : Escaper escape_chain.
Proof.
  split.
  - intros s. unfold Inert. rewrite escape_chain_all.
    induction s as [|a s IH]; [done|]. cbn.
    by rewrite skeleton_app, escape_one_inert, IH.
  - intros s. rewrite escape_chain_all.
    induction s as [|a s IH]; [done|]. cbn. by rewrite escape_one_decode, IH.
  - intros s t. induction s as [|a s IH]; [done|].
    by rewrite app_cons_str, !escape_chain_cons, IH, app_assoc_str.
Qed.

#[export] Instance same_markup_equiv : Equivalence same_markup.
Proof. split; unfold same_markup; repeat intro; congruence. Qed.

#[export] Instance append_markup :
  Proper (same_markup ==> same_markup ==> same_markup) String.append.
Proof.
  intros s s' Hs t t' Ht. unfold same_markup in *. by rewrite !skeleton_app, Hs, Ht.
Qed.

Lemma inert_markup s t : Inert s → Inert t → s ≈ t.
Proof. unfold Inert, same_markup. congruence. Qed.

#[export] Instance escape_chain_inert s : Inert (escape_chain s).
Proof. apply esc_inert. Qed.

#[global] Typeclasses Opaque String.append string_of_Z escape_chain replace_char tpl
  map_join or_else skeleton ellipsis.

#[export] Instance inert_append s t : Inert s → Inert t → Inert (s +:+ t).
Proof. unfold Inert. intros Hs Ht. by rewrite skeleton_app, Hs, Ht. Qed.

#[export] Instance inert_or_else s d : Inert s → Inert d → Inert (or_else s d).
Proof. unfold or_else. by case_tests. Qed.

(** Numbers are inert. *)
Lemma digit_inert n : 0 <= n < 10 → is_markup (digit n) = false.
Proof. revert n. by apply digit_ind. Qed.

Lemma digits_aux_inert fuel n acc : Inert acc → Inert (digits_aux fuel n acc).
Proof.
  revert n acc. induction fuel as [|f IH]; intros n acc Ha; [done|]. cbn.
  assert (Inert (String (digit (n mod 10)) acc)) as Ha'.
  { unfold Inert, skeleton. cbn. rewrite digit_inert; [done|].
    apply Z.mod_pos_bound. lia. }
  case_tests; auto.
Qed.

#[export] Instance string_of_Z_inert n : Inert (string_of_Z n).
Proof.
  unfold string_of_Z. case_tests; [apply inert_append; [done|]|];
    by apply digits_aux_inert.
Qed.

(** Literals. *)
#[export] Hint Extern 0 (Inert (String _ _)) => vm_compute; reflexivity : typeclass_instances.
#[export] Instance inert_ellipsis : Inert ellipsis.
Proof. done. Qed.
#[export] Instance inert_empty : Inert EmptyString.
Proof. done. Qed.

(** Two template literals with the same text and inert values have the same
    markup: an interpolated value never opens or closes an element. *)
Inductive chunk_markup : chunk → chunk → Prop :=
| chunk_text_same s : chunk_markup (T s) (T s)
| chunk_hole_same s t : s ≈ t → chunk_markup (H s) (H t).

Lemma tpl_markup l l' : Forall2 chunk_markup l l' → tpl l ≈ tpl l'.
Proof.
  induction 1 as [|c c' l l' Hc _ IH]; cbn; [done|]. rewrite IH.
  destruct Hc as [|s t Hst]; cbn; [done|]. by rewrite Hst.
Qed.

Lemma map_join_markup {A} (f g : A → string) l :
  (∀ x, x ∈ l → f x ≈ g x) → map_join f l ≈ map_join g l.
Proof.
  induction l as [|x l IH]; intros Hf; cbn; [done|].
  rewrite (Hf x), IH; [done| |]; set_solver.
Qed.

Lemma map_join_markup2 {A B} (f : A → string) (g : B → string) l l' :
  Forall2 (λ x y, f x ≈ g y) l l' → map_join f l ≈ map_join g l'.
Proof. induction 1 as [|x y l l' Hxy _ IH]; cbn; [done|]. by rewrite Hxy, IH. Qed.

(** Solve goals [tpl l ≈ tpl l'] on literals with the same text. *)
Ltac markup :=
  lazymatch goal with
  | |- same_markup (tpl _) (tpl _) => apply tpl_markup; repeat (constructor; markup)
  | |- chunk_markup (T _) (T _) => constructor
  | |- chunk_markup (H _) (H _) => constructor; markup
  | |- same_markup ?s ?s => reflexivity
  | |- same_markup _ _ => first [assumption | apply inert_markup; apply _ | idtac]
  | |- _ => idtac
  end.
