(* ===== verification/HtmlScan.v ===== *)
(** Reading a page: the data attributes of the elements a text of HTML opens, in
    the order of the text, as the browser's tokenizer finds them.

    The tokenizer's states are those the console's templates go through: text,
    start and end tags, attributes with or without a value, values in double
    quotes, in apostrophes and without quotes.  Only data attributes are kept.
    Comments, and the elements whose content is not markup, are not read. *)

From Stdlib Require Import ZArith Lia Ascii String.
From stdpp Require Import base list strings sets.
From S2P Require Import Prelude Html.

(** ** The tokenizer *)

(** The data attributes of an element, by their names in the page. *)
Abbreviation dataset := (list (string * string)).

Inductive scan :=
| Text
| TagOpen
| Skipped                                   (* an end tag, up to its ">" *)
| TagName
| BeforeName (d : dataset)
| AttrName (d : dataset) (n : string)
| AfterName (d : dataset) (n : string)
| BeforeValue (d : dataset) (n : string)
| Quoted (by_ : ascii) (d : dataset) (n v : string)
| Unquoted (d : dataset) (n v : string).

Definition is_letter (a : ascii) : bool :=
  (97 <=? code (lower_ascii a)) && (code (lower_ascii a) <=? 122).

Definition is_data (n : string) : bool := is_prefix "data-" n.

(** An attribute that is complete.  Of two with the same name the first counts:
    it is the one a reader finds. *)
Definition keep_attr (n v : string) (d : dataset) : dataset :=
  if is_data n then d ++ [(n, v)] else d.

(** The end of a start tag. *)
Definition opened (d : dataset) : list dataset := match d with [] => [] | _ => [d] end.

Definition more (n v : string) (a : ascii) : string :=
  if is_data n then v +:+ String a "" else v.

Definition scan_step (st : scan) (a : ascii) : list dataset * scan :=
  let gt := Ascii.eqb a ">" in
  let sp := is_space a || Ascii.eqb a "/" in
  match st with
  | Text => ([], if Ascii.eqb a "<" then TagOpen else Text)
  | TagOpen => ([], if is_letter a then TagName
                    else if Ascii.eqb a "/" then Skipped
                    else if Ascii.eqb a "<" then TagOpen else Text)
  | Skipped => ([], if gt then Text else Skipped)
  | TagName => ([], if gt then Text else if sp then BeforeName [] else TagName)
  | BeforeName d =>
      if gt then (opened d, Text)
      else ([], if sp then BeforeName d else AttrName d (String (lower_ascii a) ""))
  | AttrName d n =>
      if gt then (opened (keep_attr n "" d), Text)
      else ([], if Ascii.eqb a "=" then BeforeValue d n
                else if sp then AfterName d n
                else AttrName d (n +:+ String (lower_ascii a) ""))
  | AfterName d n =>
      if gt then (opened (keep_attr n "" d), Text)
      else ([], if Ascii.eqb a "=" then BeforeValue d n
                else if sp then AfterName d n
                else AttrName (keep_attr n "" d) (String (lower_ascii a) ""))
  | BeforeValue d n =>
      if gt then (opened (keep_attr n "" d), Text)
      else ([], if is_space a then BeforeValue d n
                else if Ascii.eqb a dquote || Ascii.eqb a "'" then Quoted a d n ""
                else Unquoted d n (more n "" a))
  | Quoted b d n v =>
      ([], if Ascii.eqb a b then BeforeName (keep_attr n v d) else Quoted b d n (more n v a))
  | Unquoted d n v =>
      if gt then (opened (keep_attr n v d), Text)
      else ([], if is_space a then BeforeName (keep_attr n v d) else Unquoted d n (more n v a))
  end.

Fixpoint run (st : scan) (s : string) : list dataset * scan :=
  match s with
  | EmptyString => ([], st)
  | String a s' =>
      let '(out, st1) := scan_step st a in
      let '(out', st2) := run st1 s' in (out ++ out', st2)
  end.

(** [el.dataset]: the names without their prefix, in camel case, the values with
    their entities decoded. *)
Fixpoint camel (s : string) : string :=
  match s with
  | String "-" (String b s') => String (upper_ascii b) (camel s')
  | String a s' => String a (camel s')
  | EmptyString => ""
  end.

Definition read_attr (kv : string * string) : string * string :=
  (camel (sdrop 5 (fst kv)), decode_entities (snd kv)).

(** The datasets of the elements that have one. *)
Definition elements (html : string) : list dataset := map (map read_attr) (fst (run Text html)).

Example elements_example :
  elements (q "<p class=`a`>x < y</p><button data-delete-rule='a&#039;b' data-rule-app=`shop`>Go</button><i data-x>") =
  [[("deleteRule", "a'b"); ("ruleApp", "shop")]; [("x", "")]].
Proof. vm_compute. reflexivity. Qed.

(** ** Running over templates *)

Lemma run_app st s t :
  run st (s +:+ t) = (fst (run st s) ++ fst (run (snd (run st s)) t), snd (run (snd (run st s)) t)).
Proof.
  revert st. induction s as [|a s IH]; intros st; [change ("" +:+ t) with t; cbn [run fst snd app]; apply surjective_pairing|].
  rewrite app_cons_str. cbn [run]. destruct (scan_step st a) as [o st1]. rewrite IH.
  destruct (run st1 s) as [o1 st2]. cbn [fst snd]. by rewrite app_assoc.
Qed.

(** [run st s = (out, st')], as a relation that follows the chunks of a template. *)
Definition scans (st : scan) (s : string) (out : list dataset) (st' : scan) : Prop :=
  run st s = (out, st').

Lemma scans_app st s t o1 st1 o2 st2 :
  scans st s o1 st1 → scans st1 t o2 st2 → scans st (s +:+ t) (o1 ++ o2) st2.
Proof. unfold scans. intros H1 H2. by rewrite run_app, H1; cbn [fst snd]; rewrite H2. Qed.

Lemma scans_empty st : scans st "" [] st.
Proof. reflexivity. Qed.

Lemma scans_tpl_nil st : scans st (tpl []) [] st.
Proof. reflexivity. Qed.

Lemma scans_tpl st c l o1 st1 o2 st2 :
  scans st (chunk_text c) o1 st1 → scans st1 (tpl l) o2 st2 → scans st (tpl (c :: l)) (o1 ++ o2) st2.
Proof. apply scans_app. Qed.

Lemma scans_map_join {A} (f : A → string) (g : A → list dataset) l st :
  (∀ x, x ∈ l → scans st (f x) (g x) st) → scans st (map_join f l) (concat (map g l)) st.
Proof.
  induction l as [|x l IH]; intros H; [reflexivity|]. cbn [map_join map concat].
  apply scans_app with st; [apply H; set_solver|apply IH; set_solver].
Qed.

(** A text without markup stays where it is. *)
Lemma inert_cons a s : Inert (String a s) → is_markup a = false ∧ Inert s.
Proof. unfold Inert, skeleton. cbn [sfilter]. by destruct (is_markup a). Qed.

Lemma scans_text s : Inert s → scans Text s [] Text.
Proof.
  unfold scans. induction s as [|a s IH]; intros H; [done|]. apply inert_cons in H as [Ha Hs].
  cbn [run scan_step]. unfold is_markup in Ha.
  destruct (Ascii.eqb a "<"); [done|]. by rewrite IH.
Qed.

Definition is_quote (b : ascii) : bool := Ascii.eqb b dquote || Ascii.eqb b "'".

Lemma not_quote a b : is_markup a = false → is_quote b = true → Ascii.eqb a b = false.
Proof.
  unfold is_markup, is_quote. intros Ha Hb. apply not_true_iff_false. intros E%Ascii.eqb_eq. subst b.
  destruct (Ascii.eqb a dquote), (Ascii.eqb a "'"); destruct (Ascii.eqb a "<"), (Ascii.eqb a ">"); done.
Qed.

(** No text that the quotes hold may end them. *)
Definition held (b : ascii) (s : string) : bool := sforall (λ a, negb (Ascii.eqb a b)) s.

Lemma inert_held b s : is_quote b = true → Inert s → held b s = true.
Proof.
  intros Hb. induction s as [|a s IH]; intros H; [done|]. apply inert_cons in H as [Ha Hs].
  change (held b (String a s)) with (negb (Ascii.eqb a b) && held b s).
  by rewrite (not_quote a b Ha Hb), IH.
Qed.

Lemma scans_value b d n v s :
  is_data n = true → held b s = true → scans (Quoted b d n v) s [] (Quoted b d n (v +:+ s)).
Proof.
  unfold scans. intros Hn. revert v. induction s as [|a s IH]; intros v H.
  - cbn [run]. by rewrite app_nil_r_str.
  - change (held b (String a s)) with (negb (Ascii.eqb a b) && held b s) in H.
    apply andb_true_iff in H as [Ha Hs].
    cbn [run scan_step]. rewrite (proj1 (negb_true_iff _) Ha). unfold more. rewrite Hn.
    rewrite IH by done. by rewrite app_assoc_str.
Qed.

Lemma scans_other b d n v s :
  is_data n = false → held b s = true → scans (Quoted b d n v) s [] (Quoted b d n v).
Proof.
  unfold scans. intros Hn. induction s as [|a s IH]; intros H; [done|].
  change (held b (String a s)) with (negb (Ascii.eqb a b) && held b s) in H.
  apply andb_true_iff in H as [Ha Hs]. cbn [run scan_step]. rewrite (proj1 (negb_true_iff _) Ha).
  unfold more. rewrite Hn. by rewrite IH.
Qed.

(** ** Automation *)

Lemma scans_if (b : bool) st s t o1 o2 st' :
  scans st s o1 st' → scans st t o2 st' →
  scans st (if b then s else t) (if b then o1 else o2) st'.
Proof. by destruct b. Qed.

Lemma scans_to st s o o' st' : scans st s o st' → o = o' → scans st s o' st'.
Proof. by intros H <-. Qed.

(** The rows of a table, or the row that says there is none. *)
Definition offers_rows {A} (f : A → string) (g : A → list dataset) (l : list A) : Prop :=
  ∀ x, x ∈ l → scans Text (f x) (g x) Text.

Lemma scans_table {A} (f : A → string) (g : A → list dataset) l empty :
  offers_rows f g l → scans Text empty [] Text →
  scans Text (if 0 <? Z.of_nat (length l) then map_join f l else empty) (concat (map g l)) Text.
Proof.
  intros Hf He. destruct l as [|x l]; [exact He|]. apply (scans_map_join f g (x :: l) Text Hf).
Qed.

Lemma offers_nothing {A} (f : A → string) l :
  (∀ x, scans Text (f x) [] Text) → scans Text (map_join f l) [] Text.
Proof.
  intros H. eapply scans_to; [apply (scans_map_join f (λ _, [])); intros; apply H|].
  induction l; [done|]. cbn [map concat]. by rewrite IHl.
Qed.

Lemma elements_of html out : scans Text html out Text → elements html = map (map read_attr) out.
Proof. unfold scans, elements. by intros ->. Qed.

(** A hole in an attribute's value. *)
Lemma scans_held b d n v s :
  held b s = true → scans (Quoted b d n v) s [] (Quoted b d n (if is_data n then v +:+ s else v)).
Proof. intros Hs. destruct (is_data n) eqn:E; [by apply scans_value|by apply scans_other]. Qed.

Lemma scans_hole b d n v s :
  is_quote b = true → Inert s →
  scans (Quoted b d n v) s [] (Quoted b d n (if is_data n then v +:+ s else v)).
Proof. intros Hb Hs. by apply scans_held, inert_held. Qed.

Create HintDb page discriminated.

(** The conditions that are left change nothing. *)
Ltac same_offer :=
  cbn [app]; repeat match goal with |- context [if ?b then _ else _] => destruct b end; reflexivity.

(** A literal is run, and a hole is read where it stands.  The holes of
    attributes must be variables (see [hide]). *)
Ltac read_literal :=
  lazymatch goal with
  | |- scans ?st (chunk_text (T ?s)) _ _ =>
      let r := eval vm_compute in (run st (q s)) in
      exact (eq_refl r <: run st (chunk_text (T s)) = r)
  end.

Ltac read_constant :=
  lazymatch goal with
  | |- scans ?st ?s _ _ => let r := eval vm_compute in (run st s) in exact (eq_refl r <: run st s = r)
  end.

Ltac read_page :=
  lazymatch goal with
  | |- scans _ (tpl []) _ _ => apply scans_tpl_nil
  | |- scans _ (tpl (T _ :: _)) _ _ => eapply scans_tpl; [read_literal|read_page]
  | |- scans _ (tpl (H _ :: _)) _ _ =>
      eapply scans_tpl; [cbv beta iota delta [chunk_text]; read_hole|read_page]
  | |- _ => read_hole
  end
with read_hole :=
  lazymatch goal with
  | |- scans _ (tpl _) _ _ => read_page
  | |- scans _ (if _ then _ else _) _ _ => first
      [ eassumption
      | lazymatch goal with
        | Ho : offers_rows ?f _ ?l |- scans _ (if 0 <? Z.of_nat (length ?l) then map_join ?f ?l else _) _ _ =>
            eapply (scans_table _ _ _ _ Ho); eapply scans_to; [read_page|same_offer]
        end
      | eapply scans_if; read_hole ]
  | |- scans ?st (String ?a ?s) _ _ => read_constant
  | |- scans ?st EmptyString _ _ => apply scans_empty
  | |- scans (Quoted _ _ _ _) _ _ _ => first [apply scans_held; assumption | apply scans_hole; [reflexivity|first [assumption|apply _]]]
  | |- scans Text _ _ _ => first [apply scans_text; first [assumption|apply _] | eassumption | solve [eauto with page] | idtac]
  | |- _ => idtac
  end.

(** The page is read from the start; what it offers is compared at the end. *)
Ltac read_all := eapply scans_to; [read_page|].

Lemma if_same {A} (b : bool) (x : A) : (if b then x else x) = x.
Proof. by destruct b. Qed.

(** What a page offers, without the parts that offer nothing. *)
Ltac offered := cbn [app]; rewrite ?if_same; cbn [app]; rewrite ?app_nil_r; cbn [map].

(** An inert text becomes a variable. *)
Ltac hide t :=
  let E := fresh "inert" in
  assert (E : Inert t) by apply _; revert E; generalize t; intros ? E.

(** A text without ampersands has no entities. *)
Lemma decode_plain s : held "&" s = true → decode_entities s = s.
Proof.
  induction s as [|a s IH]; intros H; [done|].
  change (held "&" (String a s)) with (negb (Ascii.eqb a "&") && held "&" s) in H.
  apply andb_true_iff in H as [Ha Hs]. rewrite <- (IH Hs) at 2.
  destruct a as [[] [] [] [] [] [] [] []]; try reflexivity. done.
Qed.
