(* ===== verification/Json.v ===== *)
(** [JSON.stringify] and [JSON.parse] on the values of [jval], and the round
    trip between them.  Numbers are integers: a text with a fraction or an
    exponent is outside the model and parses to [None], like a malformed one. *)

From Stdlib Require Import ZArith Lia Ascii String.
From stdpp Require Import base list strings gmap.
From S2P Require Import Prelude.

(** ** Printing *)

Definition hex_digit (n : Z) : ascii :=
  if n <? 10 then of_code (48 + n) else of_code (87 + n).

(** The escapes of [JSON.stringify] inside a string. *)
Definition quote_char (a : ascii) : string :=
  let c := code a in
  if c =? 34 then String "\" (String dquote "")
  else if c =? 92 then "\\"
  else if c =? 8 then "\b"
  else if c =? 12 then "\f"
  else if c =? 10 then "\n"
  else if c =? 13 then "\r"
  else if c =? 9 then "\t"
  else if c <? 32 then "\u00" +:+ String (hex_digit (c / 16)) (String (hex_digit (c mod 16)) "")
  else String a "".

Fixpoint quote_body (s : string) : string :=
  match s with EmptyString => "" | String a s' => quote_char a +:+ quote_body s' end.

Definition quote (s : string) : string :=
  String dquote (quote_body s +:+ String dquote "").

Definition bool_text (b : bool) : string := if b then "true" else "false".

(** [JSON.stringify(v)]; [None] is [undefined]. *)
Fixpoint stringify (v : jval) : option string :=
  match v with
  | JUndef => None
  | JNull => Some "null"
  | JBool b => Some (bool_text b)
  | JNum n => Some (string_of_Z n)
  | JStr s => Some (quote s)
  | JArr l =>
      Some ("[" +:+ join "," (map (λ x, default "null" (stringify x)) l) +:+ "]")
  | JObj fs =>
      Some ("{" +:+ join "," (flat_map (λ f : string * jval,
              match stringify (snd f) with
              | Some t => [quote (fst f) +:+ ":" +:+ t]
              | None => []
              end) fs) +:+ "}")
  end.

Definition newline : string := String "010"%char "".

Fixpoint spaces (n : nat) : string :=
  match n with O => "" | S n' => String " " (spaces n') end.

(** [JSON.stringify(v, null, 2)] at a given indentation. *)
Fixpoint stringify_pretty (ind : nat) (v : jval) : option string :=
  let ind' := (ind + 2)%nat in
  let block (op cl : string) (items : list string) : string :=
    match items with
    | [] => op +:+ cl
    | _ => op +:+ newline +:+ spaces ind' +:+
           join ("," +:+ newline +:+ spaces ind') items +:+
           newline +:+ spaces ind +:+ cl
    end in
  match v with
  | JUndef => None
  | JNull => Some "null"
  | JBool b => Some (bool_text b)
  | JNum n => Some (string_of_Z n)
  | JStr s => Some (quote s)
  | JArr l =>
      Some (block "[" "]" (map (λ x, default "null" (stringify_pretty ind' x)) l))
  | JObj fs =>
      Some (block "{" "}" (flat_map (λ f : string * jval,
              match stringify_pretty ind' (snd f) with
              | Some t => [quote (fst f) +:+ ": " +:+ t]
              | None => []
              end) fs))
  end.

(** ** Parsing *)

Definition is_json_space (a : ascii) : bool :=
  (code a =? 32) || (code a =? 9) || (code a =? 10) || (code a =? 13).

Fixpoint skip (s : string) : string :=
  match s with
  | String a s' => if is_json_space a then skip s' else s
  | EmptyString => ""
  end.

Definition hex_value (a : ascii) : option Z :=
  let c := code a in
  if (48 <=? c) && (c <=? 57) then Some (c - 48)
  else if (97 <=? c) && (c <=? 102) then Some (c - 87)
  else if (65 <=? c) && (c <=? 70) then Some (c - 55)
  else None.

(** The rest of a string literal after its opening quote. *)
Fixpoint parse_str (s : string) : option (string * string) :=
  let add (c : ascii) (r : option (string * string)) :=
    match r with Some (t, rest) => Some (String c t, rest) | None => None end in
  match s with
  | EmptyString => None
  | String a s' =>
      if Ascii.eqb a dquote then Some ("", s')
      else if Ascii.eqb a "\" then
        match s' with
        | String "u" (String h1 (String h2 (String h3 (String h4 s'')))) =>
            match hex_value h1, hex_value h2, hex_value h3, hex_value h4 with
            | Some 0, Some 0, Some x, Some y => add (of_code (16 * x + y)) (parse_str s'')
            | _, _, _, _ => None
            end
        | String e s'' =>
            let c := code e in
            if (c =? 34) || (c =? 92) || (c =? 47) then add e (parse_str s'')
            else if c =? 98 then add (of_code 8) (parse_str s'')
            else if c =? 102 then add (of_code 12) (parse_str s'')
            else if c =? 110 then add (of_code 10) (parse_str s'')
            else if c =? 114 then add (of_code 13) (parse_str s'')
            else if c =? 116 then add (of_code 9) (parse_str s'')
            else None
        | EmptyString => None
        end
      else if code a <? 32 then None
      else add a (parse_str s')
  end.

(** The longest run of digits and what follows it. *)
Fixpoint span_digits (s : string) : string * string :=
  match s with
  | String a s' =>
      if is_digit a then let '(d, r) := span_digits s' in (String a d, r) else ("", s)
  | EmptyString => ("", "")
  end.

Definition parse_nat (s : string) : option (Z * string) :=
  let '(d, r) := span_digits s in
  match d with
  | EmptyString => None
  | String "0" (String _ _) => None
  | _ =>
      match r with
      | String a _ =>
          if Ascii.eqb a "." || Ascii.eqb a "e" || Ascii.eqb a "E" then None
          else Some (digits_value 0 d, r)
      | EmptyString => Some (digits_value 0 d, r)
      end
  end.

(** The elements of an array after its opening bracket, given the parser of a
    value, and the fields of an object. *)
Fixpoint parse_items (value : string → option (jval * string)) (g : nat) (s : string)
    : option (list jval * string) :=
  match g with
  | O => None
  | S g' =>
      match value s with
      | Some (v, r) =>
          match skip r with
          | String "," r' =>
              match parse_items value g' r' with
              | Some (l, r'') => Some (v :: l, r'')
              | None => None
              end
          | String "]" r' => Some ([v], r')
          | _ => None
          end
      | None => None
      end
  end.

Fixpoint parse_fields (value : string → option (jval * string)) (g : nat) (s : string)
    : option (list (string * jval) * string) :=
  match g with
  | O => None
  | S g' =>
      match skip s with
      | String a s1 =>
          if Ascii.eqb a dquote then
            match parse_str s1 with
            | Some (k, s2) =>
                match skip s2 with
                | String ":" s3 =>
                    match value s3 with
                    | Some (v, r) =>
                        match skip r with
                        | String "," r' =>
                            match parse_fields value g' r' with
                            | Some (l, r'') => Some ((k, v) :: l, r'')
                            | None => None
                            end
                        | String "}" r' => Some ([(k, v)], r')
                        | _ => None
                        end
                    | None => None
                    end
                | _ => None
                end
            | None => None
            end
          else None
      | EmptyString => None
      end
  end.

(** The object of the fields read: a repeated name keeps its first place and
    takes the last value. *)
Fixpoint put (k : string) (v : jval) (fs : list (string * jval)) : list (string * jval) :=
  match fs with
  | [] => [(k, v)]
  | (k', v') :: fs' => if String.eqb k k' then (k, v) :: fs' else (k', v') :: put k v fs'
  end.

Definition object_of (l : list (string * jval)) : list (string * jval) :=
  fold_left (λ acc f, put (fst f) (snd f) acc) l [].

Fixpoint parse_value (fuel : nat) (s : string) : option (jval * string) :=
  match fuel with
  | O => None
  | S f =>
      match skip s with
      | String "n" (String "u" (String "l" (String "l" r))) => Some (JNull, r)
      | String "t" (String "r" (String "u" (String "e" r))) => Some (JBool true, r)
      | String "f" (String "a" (String "l" (String "s" (String "e" r)))) => Some (JBool false, r)
      | String "-" r =>
          match parse_nat r with Some (n, r') => Some (JNum (- n), r') | None => None end
      | String "[" r =>
          match skip r with
          | String "]" r' => Some (JArr [], r')
          | _ =>
              match parse_items (parse_value f) f r with
              | Some (l, r') => Some (JArr l, r')
              | None => None
              end
          end
      | String "{" r =>
          match skip r with
          | String "}" r' => Some (JObj [], r')
          | _ =>
              match parse_fields (parse_value f) f r with
              | Some (l, r') => Some (JObj (object_of l), r')
              | None => None
              end
          end
      | String a r =>
          if Ascii.eqb a dquote then
            match parse_str r with Some (t, r') => Some (JStr t, r') | None => None end
          else
            match parse_nat (String a r) with
            | Some (n, r') => Some (JNum n, r')
            | None => None
            end
      | EmptyString => None
      end
  end.

(** [JSON.parse(s)]; [None] when it throws.  Nesting is at most the length of
    the text, so the fuel is never the reason. *)
Definition json_parse (s : string) : option jval :=
  match parse_value (S (String.length s)) s with
  | Some (v, r) => match skip r with EmptyString => Some v | _ => None end
  | None => None
  end.

(** ** Fields of an object *)

Definition field (v : jval) (k : string) : jval := default JUndef (jget v k).

(** ** Conversions

    [String(v)], [Number(v)] on the values of the model; a string that denotes
    a number that is not an integer gives [None], like one that gives [NaN]. *)
Fixpoint js_string (v : jval) : string :=
  match v with
  | JUndef => "undefined"
  | JNull => "null"
  | JBool b => bool_text b
  | JNum n => string_of_Z n
  | JStr s => s
  | JArr l =>
      join "," (map (λ x, match x with JUndef | JNull => "" | _ => js_string x end) l)
  | JObj _ => "[object Object]"
  end.

Definition number_of_string (s : string) : option Z :=
  let unsigned (t : string) :=
    if sforall is_digit t then parse_digits t else None in
  match trim s with
  | EmptyString => Some 0
  | String "-" t => Z.opp <$> unsigned t
  | String "+" t => unsigned t
  | t => unsigned t
  end.

Definition js_number (v : jval) : option Z :=
  match v with
  | JUndef => None
  | JNull => Some 0
  | JBool b => Some (if b then 1 else 0)
  | JNum n => Some n
  | JStr s => number_of_string s
  | JArr _ | JObj _ => None
  end.

(** [v == null]. *)
Definition nullish (v : jval) : bool :=
  match v with JUndef | JNull => true | _ => false end.

(** [v === s], and equality of [Map] keys on primitive values. *)
Definition is_str (v : jval) (s : string) : bool :=
  match v with JStr t => String.eqb t s | _ => false end.

Definition key_eqb (a b : jval) : bool :=
  match a, b with
  | JUndef, JUndef | JNull, JNull => true
  | JBool x, JBool y => Bool.eqb x y
  | JNum x, JNum y => x =? y
  | JStr x, JStr y => String.eqb x y
  | _, _ => false
  end.

Lemma key_eqb_eq a b : key_eqb a b = true → a = b.
Proof.
  destruct a, b; cbn; try done.
  - intros ->%Bool.eqb_prop; done.
  - by intros ->%Z.eqb_eq.
  - by intros ->%String.eqb_eq.
Qed.
