(* ===== verification/JsonSpec.v ===== *)
(** Reading back what [JSON.stringify] writes: every value whose objects have no
    repeated field comes back, less its absent fields. *)

From Stdlib Require Import ZArith Lia Ascii String.
From stdpp Require Import base list strings gmap.
From S2P Require Import Prelude Json.

Definition is_undef (v : jval) : bool := match v with JUndef => true | _ => false end.

(** What a value is after a trip through its text: absent fields are gone and
    absent elements are [null]. *)
Fixpoint clean (v : jval) : jval :=
  match v with
  | JArr l => JArr (map (λ x, if is_undef x then JNull else clean x) l)
  | JObj fs =>
      JObj (flat_map (λ f : string * jval,
              if is_undef (snd f) then [] else [(fst f, clean (snd f))]) fs)
  | _ => v
  end.

Definition distinct (l : list string) : bool := bool_decide (NoDup l).

(** The objects of a value have distinct fields, as every object has. *)
Fixpoint proper_value (v : jval) : bool :=
  match v with
  | JArr l => forallb proper_value l
  | JObj fs => distinct (map fst fs) && forallb (λ f, proper_value (snd f)) fs
  | _ => true
  end.

(** What may follow a number without becoming a part of it. *)
Definition ends_value (rest : string) : bool :=
  match rest with
  | EmptyString => true
  | String a _ =>
      negb (is_digit a || Ascii.eqb a "." || Ascii.eqb a "e" || Ascii.eqb a "E")
  end.

(** The first character of a value's text. *)
Definition opens_value (a : ascii) : bool :=
  is_digit a || some (Ascii.eqb a) ["n"; "t"; "f"; "-"; "["; "{"; dquote]%char.

(** ** Induction on nested values *)
Lemma jval_nested_ind (P : jval → Prop) :
  P JUndef → P JNull → (∀ b, P (JBool b)) → (∀ n, P (JNum n)) → (∀ s, P (JStr s)) →
  (∀ l, Forall P l → P (JArr l)) →
  (∀ fs, Forall (λ f, P (snd f)) fs → P (JObj fs)) →
  ∀ v, P v.
Proof.
  intros Hu Hn Hb Hz Hs Ha Ho. fix IH 1. intros [| |b|n|s|l|fs].
  - exact Hu.
  - exact Hn.
  - apply Hb.
  - apply Hz.
  - apply Hs.
  - apply Ha. induction l as [|x l IHl]; constructor; [apply IH|exact IHl].
  - apply Ho. induction fs as [|x l IHl]; constructor; [apply IH|exact IHl].
Qed.

(** ** Strings *)

Lemma parse_quote_char a t :
  parse_str (quote_char a +:+ t) =
  match parse_str t with Some (u, rest) => Some (String a u, rest) | None => None end.
Proof. destruct a as [[] [] [] [] [] [] [] []]; reflexivity. Qed.

Lemma parse_quote s rest :
  parse_str (quote_body s +:+ String dquote rest) = Some (s, rest).
Proof.
  induction s as [|a s IH]; [done|]. cbn [quote_body].
  by rewrite app_assoc_str, parse_quote_char, IH.
Qed.

Lemma quote_app s rest : quote s +:+ rest = String dquote (quote_body s +:+ String dquote rest).
Proof. unfold quote. by rewrite app_cons_str, app_assoc_str, app_cons_str. Qed.

(** ** Numbers *)

Lemma span_digits_app D rest :
  sforall is_digit D = true → ends_value rest = true →
  span_digits (D +:+ rest) = (D, rest).
Proof.
  intros HD Hr. induction D as [|a D IH].
  - destruct rest as [|a rest]; [done|]. cbn [ends_value] in Hr.
    rewrite app_empty_str. cbn [span_digits]. by destruct (is_digit a).
  - cbn [sforall] in HD. apply andb_true_iff in HD as [Ha HD].
    rewrite app_cons_str. cbn [span_digits]. by rewrite Ha, IH.
Qed.

Lemma parse_decimal n D rest :
  decimal n D → 0 <= n → ends_value rest = true → parse_nat (D +:+ rest) = Some (n, rest).
Proof.
  intros [H1 H2 H3 H4] Hn Hr. unfold parse_nat. rewrite span_digits_app by done.
  assert (digits_value 0 D = n) as Hv.
  { specialize (H2 0 ""). rewrite app_nil_r_str in H2. rewrite H2. cbn. lia. }
  assert (match rest with
          | String a _ =>
              if Ascii.eqb a "." || Ascii.eqb a "e" || Ascii.eqb a "E" then None
              else Some (digits_value 0 D, rest)
          | EmptyString => Some (digits_value 0 D, rest)
          end = Some (n, rest)) as Hend.
  { rewrite Hv. destruct rest as [|a rest]; [done|]. cbn [ends_value] in Hr.
    by destruct (is_digit a), (Ascii.eqb a "."), (Ascii.eqb a "e"), (Ascii.eqb a "E"). }
  destruct (Z.eq_dec n 0) as [->|Hn0]; [pose proof (H4 eq_refl) as ->; exact Hend|].
  destruct (H3 Hn0) as (a & D' & -> & Ha).
  destruct a as [[] [] [] [] [] [] [] []]; try exact Hend. done.
Qed.

Lemma string_of_neg n : n < 0 → string_of_Z n = String "-" (string_of_Z (- n)).
Proof.
  intros Hn. unfold string_of_Z. rewrite (proj2 (Z.ltb_lt n 0)) by lia.
  by rewrite (proj2 (Z.ltb_ge (- n) 0)) by lia.
Qed.

Lemma decimal_opens n D : decimal n D → ∃ a D', D = String a D' ∧ is_digit a = true.
Proof.
  intros [H1 H2 H3 H4]. destruct (Z.eq_dec n 0) as [->|Hn].
  - exists "0"%char, "". by rewrite H4.
  - destruct (H3 Hn) as (a & D' & -> & _). exists a, D'.
    cbn [sforall] in H1. by apply andb_true_iff in H1 as [-> _].
Qed.

(** ** White space *)

Lemma skip_opens a t : opens_value a = true → skip (String a t) = String a t.
Proof. by destruct a as [[] [] [] [] [] [] [] []]. Qed.

(** ** Lists of elements and of fields *)

Lemma join_cons sep x y l : join sep (x :: y :: l) = x +:+ sep +:+ join sep (y :: l).
Proof. done. Qed.

Lemma skip_mark a r : is_json_space a = false → skip (String a "" +:+ r) = String a r.
Proof. intros Ha. rewrite app_cons_str, app_empty_str. cbn [skip]. by rewrite Ha. Qed.

(** A parser of values reads [x] from the text [t]. *)
Definition reads (value : string → option (jval * string)) (x : jval) (t : string) : Prop :=
  ∀ rest, ends_value rest = true → value (t +:+ rest) = Some (x, rest).

Lemma parse_items_join value l ts g rest :
  Forall2 (reads value) l ts → ts ≠ [] → (length ts <= g)%nat →
  parse_items value g (join "," ts +:+ String "]" rest) = Some (l, rest).
Proof.
  intros H. revert g. induction H as [|x t l ts Hx H IH]; intros g Hne Hg; [done|].
  destruct g as [|g]; [cbn in Hg; lia|]. cbn [parse_items].
  destruct ts as [|t' ts].
  - inversion H; subst. cbn [join]. by rewrite Hx.
  - rewrite join_cons, !app_assoc_str, Hx, skip_mark by done.
    rewrite (IH g); [done|done|cbn in Hg |- *; lia].
Qed.

Lemma parse_fields_join value l ts g rest :
  Forall2 (λ f t, reads value (snd f) t) l ts → ts ≠ [] → (length ts <= g)%nat →
  parse_fields value g
    (join "," (zip_with (λ f t, quote (fst f) +:+ ":" +:+ t) l ts) +:+ String "}" rest) =
  Some (l, rest).
Proof.
  intros H. revert g. induction H as [|[k x] t l ts Hx H IH]; intros g Hne Hg; [done|].
  destruct g as [|g]; [cbn in Hg; lia|].
  cbn [zip_with fst snd]. destruct ts as [|t' ts].
  - inversion H; subst. cbn [zip_with join]. rewrite app_assoc_str, quote_app.
    cbn [parse_fields]. rewrite skip_opens by done.
    rewrite Ascii.eqb_refl, parse_quote, app_assoc_str, skip_mark by done. by rewrite Hx.
  - destruct l as [|f' l]; [inversion H|]. cbn [zip_with] in IH |- *.
    rewrite join_cons, !(app_assoc_str (quote k)), quote_app.
    cbn [parse_fields]. rewrite skip_opens by done.
    rewrite Ascii.eqb_refl, parse_quote, !(app_assoc_str ":"), skip_mark by done.
    rewrite !(app_assoc_str t), Hx, app_assoc_str, skip_mark by done.
    rewrite (IH g); [done|done|cbn in Hg |- *; lia].
Qed.

(** ** Sizes *)

Lemma join_bounds ts :
  (length ts <= S (String.length (join "," ts)))%nat ∧
  ∀ t, t ∈ ts → (String.length t <= String.length (join "," ts))%nat.
Proof.
  induction ts as [|t ts [IH1 IH2]]; [by split; [cbn; lia|intros t Ht; inversion Ht]|].
  destruct ts as [|t' ts].
  - cbn. split; [lia|]. intros x Hx. apply list_elem_of_singleton in Hx as ->. lia.
  - rewrite join_cons, !length_app_str. change (String.length ",") with 1%nat.
    split; [cbn [length] in *; lia|].
    intros x Hx. apply elem_of_cons in Hx as [->|Hx]; [lia|].
    specialize (IH2 x Hx). lia.
Qed.

(** ** Objects *)

Lemma put_new k v fs : k ∉ map fst fs → put k v fs = fs ++ [(k, v)].
Proof.
  induction fs as [|[k' v'] fs IH]; intros Hk; [done|]. cbn in *.
  apply not_elem_of_cons in Hk as [Hk Hfs].
  rewrite (proj2 (String.eqb_neq k k')) by done. by rewrite IH.
Qed.

Lemma object_of_distinct l : NoDup (map fst l) → object_of l = l.
Proof.
  unfold object_of. enough (∀ acc, NoDup (map fst (acc ++ l)) →
    fold_left (λ acc f, put f.1 f.2 acc) l acc = acc ++ l) as H.
  { intros Hl. by rewrite H. }
  induction l as [|[k v] l IH]; intros acc Hd; [by rewrite app_nil_r|].
  cbn [fold_left fst snd]. rewrite put_new.
  - rewrite IH; rewrite <- app_assoc; done.
  - rewrite map_app in Hd. apply NoDup_app in Hd as (_ & Hd & _).
    intros Hk. apply (Hd k Hk). by left.
Qed.

(** The fields that reach the text, and their texts. *)
Definition kept_fields (fs : list (string * jval)) : list (string * jval) :=
  flat_map (λ f, if is_undef (snd f) then [] else [(fst f, clean (snd f))]) fs.

Definition field_texts (fs : list (string * jval)) : list string :=
  flat_map (λ f : string * jval,
    match stringify (snd f) with Some t => [t] | None => [] end) fs.

Lemma stringify_undef v : stringify v = None ↔ is_undef v = true.
Proof. by destruct v. Qed.

Lemma fields_text fs :
  flat_map (λ f : string * jval,
    match stringify (snd f) with
    | Some t => [quote (fst f) +:+ ":" +:+ t]
    | None => []
    end) fs =
  zip_with (λ f t, quote (fst f) +:+ ":" +:+ t) (kept_fields fs) (field_texts fs).
Proof.
  unfold kept_fields, field_texts. induction fs as [|[k v] fs IH]; [done|].
  cbn [flat_map fst snd]. rewrite IH. by destruct v.
Qed.

Lemma kept_length fs : length (kept_fields fs) = length (field_texts fs).
Proof.
  unfold kept_fields, field_texts. induction fs as [|[k v] fs IH]; [done|].
  cbn [flat_map fst snd]. rewrite !length_app, IH. by destruct v.
Qed.

Lemma zip_longer (l : list (string * jval)) ts t :
  length l = length ts → t ∈ ts →
  ∃ u, u ∈ zip_with (λ f t, quote (fst f) +:+ ":" +:+ t) l ts ∧
       (String.length t <= String.length u)%nat.
Proof.
  revert ts. induction l as [|x l IH]; intros [|t' ts] Hl Ht; try done; [by inversion Ht|].
  cbn [zip_with]. apply elem_of_cons in Ht as [->|Ht].
  - eexists. split; [by left|]. rewrite !length_app_str. lia.
  - destruct (IH ts) as (u & Hu & Hle); [by injection Hl|done|]. exists u. split; [by right|done].
Qed.

Lemma kept_names fs k : k ∈ map fst (kept_fields fs) → k ∈ map fst fs.
Proof.
  unfold kept_fields. induction fs as [|[k' v] fs IH]; [done|]. cbn [flat_map fst snd map].
  destruct (is_undef v); cbn; rewrite ?elem_of_cons; naive_solver.
Qed.

Lemma kept_distinct fs : NoDup (map fst fs) → NoDup (map fst (kept_fields fs)).
Proof.
  induction fs as [|[k v] fs IH]; [done|]. cbn [map fst]. intros Hd.
  apply NoDup_cons in Hd as [Hk Hd]. unfold kept_fields. cbn [flat_map fst snd].
  fold (kept_fields fs). destruct (is_undef v); cbn; [auto|].
  apply NoDup_cons. split; [|auto]. intros H. by apply Hk, kept_names.
Qed.

(** ** The round trip *)

Lemma stringify_opens v t : stringify v = Some t → ∃ a t', t = String a t' ∧ opens_value a = true.
Proof.
  destruct v as [| |b|n|s|l|fs]; cbn [stringify]; intros [= <-].
  - by eexists _, _.
  - destruct b; by eexists _, _.
  - destruct (Z.neg_nonneg_cases n) as [Hn|Hn].
    + rewrite string_of_neg by done. by eexists _, _.
    + destruct (decimal_opens n _ (string_of_Z_decimal n Hn)) as (a & D & -> & Ha).
      exists a, D. split; [done|]. unfold opens_value. by rewrite Ha.
  - by eexists _, _.
  - by eexists _, _.
  - by eexists _, _.
Qed.

Lemma reads_number f n : reads (parse_value (S f)) (JNum n) (string_of_Z n).
Proof.
  intros rest Hr. destruct (Z.neg_nonneg_cases n) as [Hn|Hn].
  - rewrite string_of_neg, app_cons_str by done. cbn [parse_value].
    rewrite skip_opens by done.
    rewrite (parse_decimal (- n)); [by rewrite Z.opp_involutive| |lia|done].
    apply string_of_Z_decimal. lia.
  - pose proof (string_of_Z_decimal n Hn) as Hd.
    pose proof (parse_decimal n _ rest Hd Hn Hr) as Hp.
    destruct (decimal_opens n _ Hd) as (a & D & HD & Ha). rewrite HD in *.
    rewrite app_cons_str in *. cbn [parse_value]. rewrite skip_opens; [|unfold opens_value; by rewrite Ha].
    destruct a as [[] [] [] [] [] [] [] []]; try done;
      by rewrite (Ascii.eqb_sym _ dquote), Hp.
Qed.

Lemma reads_elements f l :
  Forall (λ v, ∀ t f, proper_value v = true → stringify v = Some t →
    (String.length t < f)%nat → reads (parse_value f) (clean v) t) l →
  forallb proper_value l = true →
  let ts := map (λ x, default "null" (stringify x)) l in
  (∀ t, t ∈ ts → (String.length t < f)%nat) →
  Forall2 (reads (parse_value f)) (map (λ x, if is_undef x then JNull else clean x) l) ts.
Proof.
  intros H Hp ts Hts. subst ts. induction H as [|v l Hv H IH]; [constructor|].
  cbn [map forallb] in *. apply andb_true_iff in Hp as [Hp1 Hp2].
  constructor; [|apply IH; [done|]; intros t Ht; apply Hts; by right].
  specialize (Hts _ (list_elem_of_here _ _)).
  destruct (stringify v) as [t|] eqn:Ev; cbn [default] in *.
  - destruct (is_undef v) eqn:Eu; [apply stringify_undef in Eu; congruence|]. auto.
  - apply stringify_undef in Ev as ->. destruct f as [|f]; [cbn in Hts; lia|].
    intros rest _. done.
Qed.

Lemma reads_fields f fs :
  Forall (λ x, ∀ t f, proper_value (snd x) = true → stringify (snd x) = Some t →
    (String.length t < f)%nat → reads (parse_value f) (clean (snd x)) t) fs →
  forallb (λ x, proper_value (snd x)) fs = true →
  (∀ t, t ∈ field_texts fs → (String.length t < f)%nat) →
  Forall2 (λ x t, reads (parse_value f) (snd x) t) (kept_fields fs) (field_texts fs).
Proof.
  intros H Hp Hts. induction H as [|[k v] l Hv H IH]; [constructor|].
  unfold kept_fields, field_texts in *. cbn [flat_map fst snd forallb] in *.
  apply andb_true_iff in Hp as [Hp1 Hp2].
  destruct (stringify v) as [t|] eqn:Ev.
  - destruct (is_undef v) eqn:Eu; [apply stringify_undef in Eu; congruence|].
    cbn [app] in *. constructor; [apply Hv; auto; apply Hts; by left|].
    apply IH; [done|]. intros t' Ht'. apply Hts. by right.
  - pose proof (proj1 (stringify_undef v) Ev) as ->. by apply IH.
Qed.

Lemma parse_array f a r :
  opens_value a = true →
  parse_value (S f) (String "[" (String a r)) =
  match parse_items (parse_value f) f (String a r) with
  | Some (l, r') => Some (JArr l, r')
  | None => None
  end.
Proof.
  intros Ha. cbn [parse_value]. rewrite (skip_opens "[") by done. rewrite skip_opens by done.
  by destruct a as [[] [] [] [] [] [] [] []].
Qed.

Lemma join_opens ts : ts ≠ [] → (∀ t, t ∈ ts → ∃ a t', t = String a t' ∧ opens_value a = true) →
  ∃ a t', join "," ts = String a t' ∧ opens_value a = true.
Proof.
  intros Hne H. destruct ts as [|t ts]; [done|].
  destruct (H t (list_elem_of_here _ _)) as (a & t' & -> & Ha).
  destruct ts; eexists _, _; split; try done; by rewrite ?join_cons, ?app_cons_str.
Qed.

Lemma reads_array f l ts :
  ts ≠ [] → (length ts <= f)%nat →
  (∀ t, t ∈ ts → ∃ a t', t = String a t' ∧ opens_value a = true) →
  Forall2 (reads (parse_value f)) l ts →
  reads (parse_value (S f)) (JArr l) ("[" +:+ join "," ts +:+ "]").
Proof.
  intros Hne Hn Ho H rest _. rewrite !app_cons_str, !app_assoc_str, app_empty_str.
  destruct (join_opens ts) as (a & t' & E & Ha); [done|done|].
  rewrite E, app_cons_str, parse_array by done. rewrite <- app_cons_str, <- E.
  rewrite app_cons_str, app_empty_str. by rewrite (parse_items_join _ l).
Qed.

Lemma reads_object f l ts :
  NoDup (map fst l) → l ≠ [] → (length ts <= f)%nat →
  Forall2 (λ x t, reads (parse_value f) (snd x) t) l ts →
  reads (parse_value (S f)) (JObj l)
    ("{" +:+ join "," (zip_with (λ f t, quote (fst f) +:+ ":" +:+ t) l ts) +:+ "}").
Proof.
  intros Hd Hne Hn H rest _. rewrite !app_cons_str, !app_assoc_str, app_empty_str.
  rewrite app_cons_str, app_empty_str.
  pose proof (parse_fields_join _ l ts f rest H) as Hp.
  destruct l as [|x l]; [done|]. destruct ts as [|t ts]; [inversion H|].
  remember (join "," _) as u eqn:Hu.
  assert (∃ u', u = String dquote u') as [u' ->].
  { subst u. cbn [zip_with]. destruct (zip_with _ l ts); eexists; done. }
  cbn [parse_value]. rewrite (skip_opens "{") by done. rewrite app_cons_str in *.
  rewrite skip_opens by done. cbn -[parse_fields parse_value object_of] in Hp |- *.
  rewrite Hp; [by rewrite object_of_distinct|done|done].
Qed.

Lemma reads_value v : ∀ t f,
  proper_value v = true → stringify v = Some t → (String.length t < f)%nat →
  reads (parse_value f) (clean v) t.
Proof.
  induction v as [| |b|n|s|l IH|fs IH] using jval_nested_ind; intros t f Hp Hs Hf;
    (destruct f as [|f]; [lia|]); cbn [stringify] in Hs; inversion Hs; subst t; clear Hs.
  - by intros rest _.
  - intros rest _. by destruct b.
  - apply reads_number.
  - intros rest _. rewrite quote_app. cbn [parse_value]. rewrite skip_opens by done.
    by rewrite parse_quote.
  - rewrite !length_app_str in Hf. cbn [String.length] in Hf. cbn [proper_value] in Hp.
    set (ts := map (λ x, default "null" (stringify x)) l) in *.
    destruct (join_bounds ts) as [Hn Ht].
    assert (Forall2 (reads (parse_value f)) (map (λ x, if is_undef x then JNull else clean x) l) ts)
      as Hr by (apply reads_elements; auto; intros t Hin; specialize (Ht t Hin); lia).
    destruct l as [|v l]; [by intros rest _|]. apply reads_array; [done|lia| |done].
    intros t Hin. subst ts. apply list_elem_of_fmap in Hin as (x & -> & _).
    destruct (stringify x) as [t|] eqn:E; [by eapply stringify_opens|]. by eexists _, _.
  - rewrite fields_text, !length_app_str in Hf. cbn [String.length] in Hf.
    cbn [proper_value] in Hp. apply andb_true_iff in Hp as [Hd Hp].
    rewrite fields_text. pose proof (kept_length fs) as Hl.
    set (us := zip_with _ (kept_fields fs) (field_texts fs)) in *.
    destruct (join_bounds us) as [Hn Ht].
    assert (length us = length (field_texts fs)) as Hus.
    { subst us. rewrite length_zip_with, Hl. apply Nat.min_id. }
    cbn [clean]. fold (kept_fields fs).
    destruct (decide (kept_fields fs = [])) as [E|E].
    + subst us. rewrite E. by intros rest _.
    + apply reads_object; [|done|lia|].
      * apply kept_distinct. by apply bool_decide_eq_true in Hd.
      * apply reads_fields; [done|done|]. intros t Hin.
        destruct (zip_longer _ _ t Hl Hin) as (u & Hu & Hle). specialize (Ht u Hu). lia.
Qed.

(** [JSON.parse(JSON.stringify(v))]. *)
Lemma parse_stringify v t :
  proper_value v = true → stringify v = Some t → json_parse t = Some (clean v).
Proof.
  intros Hp Hs. unfold json_parse.
  pose proof (reads_value v t (S (String.length t)) Hp Hs ltac:(lia) "" eq_refl) as H.
  rewrite app_nil_r_str in H. by rewrite H.
Qed.

(** A value without absent parts comes back as it was. *)
Fixpoint full_value (v : jval) : bool :=
  match v with
  | JUndef => false
  | JArr l => forallb full_value l
  | JObj fs => forallb (λ f, full_value (snd f)) fs
  | _ => true
  end.

Lemma clean_full v : full_value v = true → clean v = v.
Proof.
  assert (∀ w, full_value w = true → is_undef w = false) as Hu by by intros [].
  induction v as [| |b|n|s|l IH|fs IH] using jval_nested_ind; intros H; try done;
    cbn [full_value clean] in *; f_equal.
  - induction IH as [|v l Hv _ IHl]; [done|]. cbn [forallb map] in *.
    apply andb_true_iff in H as [H1 H2]. by rewrite Hu, Hv, IHl.
  - induction IH as [|[k v] l Hv _ IHl]; [done|]. cbn [forallb flat_map fst snd] in *.
    apply andb_true_iff in H as [H1 H2]. by rewrite Hu, Hv, IHl.
Qed.

Lemma stringify_full v : full_value v = true → ∃ t, stringify v = Some t.
Proof. destruct v; intros H; try done; by eexists. Qed.

(** Cleaning keeps a value proper. *)
Lemma proper_clean v : proper_value v = true → proper_value (clean v) = true.
Proof.
  induction v as [| |b|n|s|l IH|fs IH] using jval_nested_ind; intros H; try done;
    cbn [clean proper_value] in *.
  - induction IH as [|v l Hv _ IHl]; [done|]. cbn [map forallb] in *.
    apply andb_true_iff in H as [H1 H2]. rewrite IHl by done.
    destruct (is_undef v); [done|]. by rewrite Hv.
  - apply andb_true_iff in H as [Hd H]. fold (kept_fields fs). apply andb_true_iff. split.
    + unfold distinct in *. apply bool_decide_eq_true in Hd.
      by apply bool_decide_eq_true, kept_distinct.
    + clear Hd. unfold kept_fields. induction IH as [|[k v] l Hv _ IHl]; [done|].
      cbn [forallb flat_map fst snd] in *. apply andb_true_iff in H as [H1 H2].
      destruct (is_undef v); cbn [Datatypes.app forallb snd]; [auto|]. by rewrite Hv, IHl.
Qed.

Lemma proper_field v k : proper_value v = true → proper_value (field v k) = true.
Proof.
  destruct v as [| | | | | |fs]; try done. cbn [proper_value]. intros H.
  apply andb_true_iff in H as [_ H]. unfold field. cbn [jget default from_option id].
  induction fs as [|[k' v] fs IH]; [done|]. cbn [forallb assoc snd] in *.
  apply andb_true_iff in H as [H1 H2]. destruct (String.eqb k k'); [done|auto].
Qed.
