(* ===== verification/JsDate.v ===== *)
(** [Date] on the ISO 8601 instants the programs exchange:
    [new Date(s).getTime()] of [YYYY-MM-DDTHH:mm:ss(.sss)Z] and
    [new Date(ms).toISOString()].  Any other text gives [None], for [NaN]: the
    language leaves its meaning to the implementation. *)

From Stdlib Require Import ZArith Lia Ascii String.
From stdpp Require Import base list strings gmap.
From S2P Require Import Prelude.

(** Days since 1970-01-01 of a proleptic Gregorian date, and back. *)
Definition days_of_civil (y m d : Z) : Z :=
  let y' := if m <=? 2 then y - 1 else y in
  let era := y' / 400 in
  let yoe := y' - era * 400 in
  let mp := (m + 9) mod 12 in
  let doy := (153 * mp + 2) / 5 + d - 1 in
  let doe := yoe * 365 + yoe / 4 - yoe / 100 + doy in
  era * 146097 + doe - 719468.

Definition civil_of_days (n : Z) : Z * Z * Z :=
  let z := n + 719468 in
  let era := z / 146097 in
  let doe := z - era * 146097 in
  let yoe := (doe - doe / 1460 + doe / 36524 - doe / 146096) / 365 in
  let doy := doe - (365 * yoe + yoe / 4 - yoe / 100) in
  let mp := (5 * doy + 2) / 153 in
  let d := doy - (153 * mp + 2) / 5 + 1 in
  let m := if mp <? 10 then mp + 3 else mp - 9 in
  let y := yoe + era * 400 in
  (if m <=? 2 then y + 1 else y, m, d).

Definition days_in_month (y m : Z) : Z :=
  if m =? 2 then
    if (y mod 4 =? 0) && (negb (y mod 100 =? 0) || (y mod 400 =? 0)) then 29 else 28
  else if (m =? 4) || (m =? 6) || (m =? 9) || (m =? 11) then 30 else 31.

Definition msPerDay : Z := 86400000.

(** The first [n] characters as a decimal number, and the rest. *)
Fixpoint digits_n (n : nat) (acc : Z) (s : string) : option (Z * string) :=
  match n with
  | O => Some (acc, s)
  | S n' =>
      match s with
      | String a s' => if is_digit a then digits_n n' (10 * acc + (code a - 48)) s' else None
      | EmptyString => None
      end
  end.

Definition expect (c : ascii) (s : string) : option string :=
  match s with String a s' => if Ascii.eqb a c then Some s' else None | _ => None end.

(** [new Date(s).getTime()]. *)
Definition date_ms (s : string) : option Z :=
  match digits_n 4 0 s with None => None | Some (y, s) =>
  match expect "-" s with None => None | Some s =>
  match digits_n 2 0 s with None => None | Some (m, s) =>
  match expect "-" s with None => None | Some s =>
  match digits_n 2 0 s with None => None | Some (d, s) =>
  match expect "T" s with None => None | Some s =>
  match digits_n 2 0 s with None => None | Some (h, s) =>
  match expect ":" s with None => None | Some s =>
  match digits_n 2 0 s with None => None | Some (mi, s) =>
  match expect ":" s with None => None | Some s =>
  match digits_n 2 0 s with None => None | Some (sec, s) =>
    let frac :=
      match s with
      | String "." s' => digits_n 3 0 s'
      | _ => Some (0, s)
      end in
    match frac with
    | Some (ms, String "Z" "") =>
        if (1 <=? m) && (m <=? 12) && (1 <=? d) && (d <=? days_in_month y m) &&
           (h <=? 23) && (mi <=? 59) && (sec <=? 59)
        then Some (days_of_civil y m d * msPerDay + h * 3600000 + mi * 60000 + sec * 1000 + ms)
        else None
    | _ => None
    end
  end end end end end end end end end end end.

Definition pad (n : nat) (z : Z) : string :=
  let s := string_of_Z z in
  Nat.iter (n - String.length s) (String "0") s.

(** [new Date(ms).toISOString()], for the years 0 to 9999. *)
Definition to_iso (ms : Z) : string :=
  let days := ms / msPerDay in
  let t := ms mod msPerDay in
  let '(y, m, d) := civil_of_days days in
  pad 4 y +:+ "-" +:+ pad 2 m +:+ "-" +:+ pad 2 d +:+ "T" +:+
  pad 2 (t / 3600000) +:+ ":" +:+ pad 2 (t / 60000 mod 60) +:+ ":" +:+
  pad 2 (t / 1000 mod 60) +:+ "." +:+ pad 3 (t mod 1000) +:+ "Z".

(** An ISO instant of the epoch survives the round trip. *)
Example to_iso_example : to_iso 1789754401242 = "2026-09-18T18:00:01.242Z".
Proof. vm_compute. reflexivity. Qed.

Example date_ms_example : date_ms "2026-09-18T18:00:01.242Z" = Some 1789754401242.
Proof. vm_compute. reflexivity. Qed.
