(* ===== verification/JsNumber.v ===== *)
(** JavaScript numbers: IEEE 754 binary64 as computed by the specification
    of floating-point arithmetic of the Standard Library ([spec_float], with
    53 bits of precision and [emax = 1024]), with the few operations of [Math]
    and [Number.prototype] the programs use.

    Quantities that stay integers far below 2^53 (pixel coordinates, counters,
    scores) are [Z] in the other files; this file serves the places where
    rounding is visible. *)

From Stdlib Require Import ZArith Lia Ascii String SpecFloat.
From stdpp Require Import base list strings gmap.
From S2P Require Import Prelude.

Notation number := spec_float.

Definition prec : Z := 53.
Definition emax : Z := 1024.

(** The number nearest to an integer, and to a quotient of integers (what a
    decimal literal denotes). *)
Definition num (z : Z) : number := binary_normalize prec emax z 0 false.
Definition nadd : number → number → number := SFadd prec emax.
Definition nsub : number → number → number := SFsub prec emax.
Definition nmul : number → number → number := SFmul prec emax.
Definition ndiv : number → number → number := SFdiv prec emax.
Definition dec (a b : Z) : number := ndiv (num a) (num b).

(** [a < b] and [a <= b]; false as soon as one side is [NaN]. *)
Definition nlt : number → number → bool := SFltb.
Definition nle : number → number → bool := SFleb.

Definition is_nan (x : number) : bool :=
  match x with S754_nan => true | _ => false end.

(** [Math.max(a, b)] and [Math.min(a, b)]: [NaN] wins.  (The sign of a zero is
    not tracked: every use has a positive constant on one side.) *)
Definition nmax (a b : number) : number :=
  if is_nan a || is_nan b then S754_nan else if nlt a b then b else a.
Definition nmin (a b : number) : number :=
  if is_nan a || is_nan b then S754_nan else if nlt b a then b else a.

(** [Math.floor(x)] of a finite number, as an integer. *)
Definition nfloor (x : number) : option Z :=
  match x with
  | S754_zero _ => Some 0
  | S754_finite s m e =>
      let v := if s then - Z.pos m else Z.pos m in
      Some (if 0 <=? e then v * 2 ^ e else v / 2 ^ (- e))
  | _ => None
  end.

(** [floor(x * 10^d + 1/2)], exactly: the integer [toFixed] prints. *)
Definition scaled_round (d : Z) (x : number) : option Z :=
  match x with
  | S754_zero _ => Some 0
  | S754_finite false m e =>
      Some (if 0 <=? e then Z.pos m * 2 ^ e * 10 ^ d
            else (2 * Z.pos m * 10 ^ d + 2 ^ (- e)) / (2 * 2 ^ (- e)))
  | _ => None
  end.

Fixpoint pad_zero (n : nat) (s : string) : string :=
  match n with
  | O => s
  | S n' => if (String.length s <=? n')%nat then "0" +:+ pad_zero n' s else s
  end.

(** [x.toFixed(d)] for [0 <= x] below 10^21. *)
Definition to_fixed (d : nat) (x : number) : string :=
  match scaled_round (Z.of_nat d) x with
  | None => "NaN"
  | Some n =>
      let p := 10 ^ Z.of_nat d in
      string_of_Z (n / p) +:+
      (if (d =? 0)%nat then "" else "." +:+ pad_zero d (string_of_Z (n mod p)))
  end.

(** ** Lemmas *)

(** [Math.min(hi, Math.max(lo, x))] is [x] strictly inside the bounds, a bound
    otherwise. *)
Definition clamp (lo hi x : number) : number := nmin hi (nmax lo x).

Lemma clamp_cases lo hi x :
  is_nan lo = false → is_nan hi = false → is_nan x = false → nlt lo hi = true →
  (clamp lo hi x = x ∧ nlt lo x = true ∧ nlt x hi = true) ∨
  clamp lo hi x = lo ∨ clamp lo hi x = hi.
Proof.
  intros Hlo Hhi Hx Hb. unfold clamp, nmax. rewrite Hlo, Hx. cbn.
  destruct (nlt lo x) eqn:E; unfold nmin; rewrite Hhi, ?Hx, ?Hlo; cbn.
  - destruct (nlt x hi) eqn:E2; auto.
  - rewrite Hb. auto.
Qed.

(** ** Sums of finite numbers are numbers *)

Definition is_finite (x : number) : bool :=
  match x with S754_zero _ | S754_finite _ _ _ => true | _ => false end.

Lemma shr_1_nonneg r : 0 <= shr_m r → 0 <= shr_m (shr_1 r).
Proof. destruct r as [[|[p|p|]|p] rr rs]; cbn; lia. Qed.

Lemma iter_shr_nonneg p r : 0 <= shr_m r → 0 <= shr_m (SpecFloat.iter_pos shr_1 p r).
Proof.
  revert r. induction p as [p IH|p IH|]; intros r Hr; cbn; auto using shr_1_nonneg.
Qed.

Lemma shr_fexp_nonneg m e l : 0 <= m → 0 <= shr_m (fst (shr_fexp prec emax m e l)).
Proof.
  intros Hm. assert (Hr : 0 <= shr_m (shr_record_of_loc m l)).
  { destruct l as [|[]]; exact Hm. }
  unfold shr_fexp, shr. destruct (_ - e); [exact Hr|by apply iter_shr_nonneg|exact Hr].
Qed.

Lemma round_nonneg m l : 0 <= m → 0 <= round_nearest_even m l.
Proof. intros Hm. destruct l as [|[]]; cbn; try lia. destruct (Z.even m); lia. Qed.

Lemma round_aux_not_nan s m e l : 0 <= m → is_nan (binary_round_aux prec emax s m e l) = false.
Proof.
  intros Hm. unfold binary_round_aux.
  pose proof (shr_fexp_nonneg m e l Hm) as H1. destruct (shr_fexp prec emax m e l) as [r1 e1]. cbn in H1.
  pose proof (shr_fexp_nonneg _ e1 loc_Exact (round_nonneg _ (loc_of_shr_record r1) H1)) as H2.
  destruct (shr_fexp prec emax _ e1 loc_Exact) as [r2 e2]. cbn in H2.
  destruct (shr_m r2); [done| |lia]. by destruct (e2 <=? emax - prec).
Qed.

Lemma normalize_not_nan m e s : is_nan (binary_normalize prec emax m e s) = false.
Proof.
  destruct m as [|p|p]; [done| |]; cbn -[binary_round]; unfold binary_round;
    destruct (shl_align p e _) as [mz ez]; by apply round_aux_not_nan.
Qed.

Lemma nadd_not_nan a b : is_finite a = true → is_finite b = true → is_nan (nadd a b) = false.
Proof.
  destruct a as [sa|sa| |sa ma ea], b as [sb|sb| |sb mb eb]; try done; intros _ _; cbn -[binary_normalize].
  - by destruct sa, sb.
  - apply normalize_not_nan.
Qed.

(** Numbers between two finite ones are finite. *)
Lemma clamp_bounds lo hi x :
  is_nan x = false → nlt lo hi = true → is_finite lo = true → is_finite hi = true →
  nle lo lo = true → nle hi hi = true →
  let y := clamp lo hi x in
  is_finite y = true ∧ nle lo y = true ∧ nle y hi = true.
Proof.
  intros Hx Hb Hlo Hhi Hll Hhh y.
  assert (Hle : ∀ a b, nlt a b = true → nle a b = true).
  { intros a b. unfold nlt, nle, SFltb, SFleb. by destruct (SFcompare a b) as [[]|]. }
  assert (Hn : ∀ a, is_finite a = true → is_nan a = false) by (by intros []).
  destruct (clamp_cases lo hi x (Hn _ Hlo) (Hn _ Hhi) Hx Hb) as [(E & H1 & H2)|[E|E]];
    fold y in E; rewrite E.
  - split_and!; auto. destruct x as [s|[]| |s m e]; try done;
      [by destruct lo as [|[]| |]|by destruct hi as [|[]| |]].
  - split_and!; auto.
  - split_and!; auto.
Qed.
