(* ===== verification/JsDecimal.v ===== *)
(** Numbers and their decimal texts: [parseFloat], [Number(s)] of a decimal
    text, [String(x)], [Math.round] and signed [toFixed].

    A decimal text denotes the binary64 number nearest to its exact value, and
    [String(x)] is the shortest text that denotes [x] again (the one nearest to
    [x] among the shortest), as the language specifies. *)

From Stdlib Require Import ZArith Lia Ascii String SpecFloat.
From stdpp Require Import base list strings gmap.
From S2P Require Import Prelude JsNumber.

(** The number nearest to [a / b], for [b] positive: the quotient to at least
    64 significant bits, with a last bit that tells whether there was more. *)
Definition quotient (a b : Z) : number :=
  if a =? 0 then S754_zero false
  else
    let s := Z.max 0 (64 + Z.log2 b - Z.log2 (Z.abs a)) in
    let v := Z.abs a * 2 ^ s in
    let m := 2 * (v / b) + (if v mod b =? 0 then 0 else 1) in
    binary_normalize prec emax (if a <? 0 then - m else m) (- s - 1) (a <? 0).

(** The number of [d * 10^e]. *)
Definition of_decimal (d e : Z) : number :=
  if 0 <=? e then quotient (d * 10 ^ e) 1 else quotient d (10 ^ (- e)).

(** ** Reading *)

(** The digits at the start of a text: their value, their number, the rest. *)
Fixpoint read_digits (acc : Z) (n : Z) (s : string) : Z * Z * string :=
  match s with
  | String a s' =>
      if is_digit a then read_digits (10 * acc + (code a - 48)) (n + 1) s' else (acc, n, s)
  | EmptyString => (acc, n, "")
  end.

(** The exponent part, if there is one: its value and the rest. *)
Definition read_exponent (s : string) : Z * string :=
  match s with
  | String c s' =>
      if Ascii.eqb c "e" || Ascii.eqb c "E" then
        let '(neg, t) :=
          match s' with
          | String "-" t => (true, t)
          | String "+" t => (false, t)
          | _ => (false, s')
          end in
        let '(v, n, rest) := read_digits 0 0 t in
        if n =? 0 then (0, s) else (if neg then - v else v, rest)
      else (0, s)
  | EmptyString => (0, "")
  end.

(** The longest unsigned decimal literal at the start of a text, and the rest;
    [None] when there is none. *)
Definition read_decimal (s : string) : option (Z * Z * string) :=
  let '(i, n, r) := read_digits 0 0 s in
  let '(v, k, r') :=
    match r with
    | String "." t => let '(v, m, r') := read_digits i 0 t in (v, m, r')
    | _ => (i, 0, r)
    end in
  if (n =? 0) && (k =? 0) then None
  else let '(x, r'') := read_exponent r' in Some (v, x - k, r'').

(** Exponents beyond these bounds give infinity and zero: the texts are short,
    so their digits cannot make up for it. *)
Definition decimal_number (v e : Z) : number :=
  if v =? 0 then S754_zero false
  else if 400 <? e then S754_infinity false
  else if e <? - 5000 then S754_zero false
  else of_decimal v e.

Definition negate (x : number) : number := SFopp x.

(** [parseFloat(s)] of a text without leading space. *)
Definition parse_float (s : string) : number :=
  let '(neg, t) :=
    match s with String "-" t => (true, t) | String "+" t => (false, t) | _ => (false, s) end in
  match read_decimal t with
  | Some (v, e, _) => if neg then negate (decimal_number v e) else decimal_number v e
  | None => S754_nan
  end.

(** [Number(s)] of a trimmed decimal text ([NaN] for anything else: the other
    literals of the language cannot be typed into a number field). *)
Definition number_of_text (s : string) : number :=
  match s with
  | EmptyString => S754_zero false
  | _ =>
      let '(neg, t) :=
        match s with String "-" t => (true, t) | String "+" t => (false, t) | _ => (false, s) end in
      match read_decimal t with
      | Some (v, e, EmptyString) => if neg then negate (decimal_number v e) else decimal_number v e
      | _ => S754_nan
      end
  end.

(** ** Rounding *)

(** The exact value of a finite number as a fraction. *)
Definition fraction (x : number) : option (Z * Z) :=
  match x with
  | S754_zero _ => Some (0, 1)
  | S754_finite s m e =>
      let v := if s then - Z.pos m else Z.pos m in
      Some (if 0 <=? e then (v * 2 ^ e, 1) else (v, 2 ^ (- e)))
  | _ => None
  end.

(** [Math.round(x)] of a finite number, as an integer. *)
Definition nround (x : number) : option Z :=
  match fraction x with Some (a, b) => Some ((2 * a + b) / (2 * b)) | None => None end.

(** [Number.isInteger(x)]. *)
Definition is_integer (x : number) : bool :=
  match fraction x with Some (a, b) => a mod b =? 0 | None => false end.

(** ** Printing *)

Definition number_eqb (x y : number) : bool :=
  match SFcompare x y with Some Eq => true | _ => false end.

(** The digits [d] with [d * 10^e = x] after rounding, among the two decimals
    with exponent [e] next to [a / b]: the nearer one that denotes [x]. *)
Definition digits_at (x : number) (a b e : Z) : option Z :=
  let '(p, r) := if 0 <=? e then (a, b * 10 ^ e) else (a * 10 ^ (- e), b) in
  let lo := p / r in
  let near := if 2 * (p mod r) <? r then [lo; lo + 1]
              else if (2 * (p mod r) =? r) && Z.even lo then [lo; lo + 1] else [lo + 1; lo] in
  find (λ d, number_eqb (of_decimal d e) x && (0 <? d)) near.

(** From one significant digit on: [n] is the number of digits before the
    point. *)
Fixpoint shortest (fuel : nat) (x : number) (a b n k : Z) : Z * Z :=
  match fuel with
  | O => (0, 0)
  | S f =>
      match digits_at x a b (n - k) with
      | Some d => (d, n - k)
      | None => shortest f x a b n (k + 1)
      end
  end.

(** The number of digits before the decimal point of [a / b], zero or less for
    a fraction. *)
Fixpoint magnitude (fuel : nat) (a b n : Z) : Z :=
  match fuel with
  | O => n
  | S f =>
      if (if 0 <=? n then a <? b * 10 ^ n else a * 10 ^ (- n) <? b)
      then (if (if 0 <=? n - 1 then a <? b * 10 ^ (n - 1) else a * 10 ^ (1 - n) <? b)
            then magnitude f a b (n - 1) else n)
      else magnitude f a b (n + 1)
  end.

Fixpoint zeros (n : nat) : string :=
  match n with O => "" | S n' => String "0" (zeros n') end.

Fixpoint drop_zeros (fuel : nat) (d e : Z) : Z * Z :=
  match fuel with
  | O => (d, e)
  | S f => if d mod 10 =? 0 then drop_zeros f (d / 10) (e + 1) else (d, e)
  end.

(** The text of [d * 10^e], [d] positive: plain between 1e-7 and 1e21, with an
    exponent outside. *)
Definition decimal_text (d e : Z) : string :=
  let '(d, e) := drop_zeros 25 d e in
  let s := string_of_Z d in
  let k := Z.of_nat (String.length s) in
  let n := k + e in
  if (k <=? n) && (n <=? 21) then s +:+ zeros (Z.to_nat (n - k))
  else if (0 <? n) && (n <=? 21) then stake (Z.to_nat n) s +:+ "." +:+ sdrop (Z.to_nat n) s
  else if (-6 <? n) && (n <=? 0) then "0." +:+ zeros (Z.to_nat (- n)) +:+ s
  else
    let x := n - 1 in
    let sign := if x <? 0 then "-" else "+" in
    (if k =? 1 then s else stake 1 s +:+ "." +:+ sdrop 1 s) +:+ "e" +:+ sign +:+
    string_of_Z (Z.abs x).

(** [String(x)]. *)
Definition number_text (x : number) : string :=
  match x with
  | S754_nan => "NaN"
  | S754_infinity s => if s then "-Infinity" else "Infinity"
  | S754_zero _ => "0"
  | S754_finite s m e =>
      let y := S754_finite false m e in
      match fraction y with
      | Some (a, b) =>
          let n := magnitude 700 a b 0 in
          let '(d, e) := shortest 20 y a b n 1 in
          (if s then "-" else "") +:+ decimal_text d e
      | None => "NaN"
      end
  end.

(** [x.toFixed(d)] of a finite number below 10^21. *)
Definition to_fixed_signed (d : nat) (x : number) : string :=
  match x with
  | S754_finite true m e => "-" +:+ to_fixed d (S754_finite false m e)
  | _ => to_fixed d x
  end.

(** ** Examples *)

Example number_text_examples :
  map (λ s, number_text (parse_float s))
    ["0.42"; "1e21"; "123456789012"; "0.1"; "1e-7"; "5e-324"; "1.7976931348623157e308";
     "-2.50"; "100"; "9007199254740993"; "+"; "1.2.3"; ".5"; "12abc"] =
  ["0.42"; "1e+21"; "123456789012"; "0.1"; "1e-7"; "5e-324"; "1.7976931348623157e+308";
   "-2.5"; "100"; "9007199254740992"; "NaN"; "1.2"; "0.5"; "12"].
Proof. vm_compute. reflexivity. Qed.

Example quotient_examples :
  number_text (nadd (parse_float "0.1") (parse_float "0.2")) = "0.30000000000000004" ∧
  nround (parse_float "2.5") = Some 3 ∧ nround (parse_float "-2.5") = Some (-2) ∧
  to_fixed_signed 1 (parse_float "-0.04") = "-0.0".
Proof. vm_compute. repeat split. Qed.
