(* ===== verification/JsInteger.v ===== *)
(** Integers among the JavaScript numbers: the decimal text of an integer below
    2^53 denotes that integer exactly; and the signs of products and quotients. *)

From Stdlib Require Import ZArith Lia Ascii String SpecFloat.
From stdpp Require Import base list strings gmap.
From S2P Require Import Prelude JsNumber JsDecimal.

(** The binary64 form of an integer [0 < n < 2^53]. *)
Definition int_number (n : Z) : number :=
  if n =? 0 then S754_zero false
  else S754_finite false (Z.to_pos (n * 2 ^ (52 - Z.log2 n))) (Z.log2 n - 52).

Lemma digits2_log2 p : Z.pos (digits2_pos p) = Z.log2 (Z.pos p) + 1.
Proof.
  induction p as [p IH|p IH|]; [| |done]; cbn [digits2_pos]; rewrite Pos2Z.inj_succ, IH.
  - rewrite Pos2Z.inj_xI, Z.log2_succ_double by lia. lia.
  - rewrite Pos2Z.inj_xO, Z.log2_double by lia. lia.
Qed.

Lemma shr_even m : 0 < m →
  shr_1 {| shr_m := 2 * m; shr_r := false; shr_s := false |} =
  {| shr_m := m; shr_r := false; shr_s := false |}.
Proof. destruct m as [|p|p]; [lia|done|lia]. Qed.

Lemma shr_exact k : ∀ m, 0 < m →
  SpecFloat.iter_pos shr_1 k {| shr_m := m * 2 ^ Z.pos k; shr_r := false; shr_s := false |} =
  {| shr_m := m; shr_r := false; shr_s := false |}.
Proof.
  induction k as [k IH|k IH|]; intros m Hm; cbn [SpecFloat.iter_pos].
  - replace (m * 2 ^ Z.pos k~1) with (2 * (m * 2 ^ Z.pos k * 2 ^ Z.pos k)).
    + rewrite shr_even by nia. by rewrite !IH by nia.
    + replace (Z.pos k~1) with (Z.pos k + Z.pos k + 1) by lia. rewrite !Z.pow_add_r by lia. lia.
  - replace (m * 2 ^ Z.pos k~0) with (m * 2 ^ Z.pos k * 2 ^ Z.pos k).
    + by rewrite !IH by nia.
    + replace (Z.pos k~0) with (Z.pos k + Z.pos k) by lia. rewrite !Z.pow_add_r by lia. lia.
  - replace (m * 2 ^ 1) with (2 * m) by lia. by apply shr_even.
Qed.

(** Rounding a number whose last bits are zero loses nothing. *)
Lemma round_exact s m k e :
  0 < m → fexp prec emax (Z.log2 m + 1 + Z.pos k + e) = e + Z.pos k → e + Z.pos k <= emax - prec →
  binary_round_aux prec emax s (m * 2 ^ Z.pos k) e loc_Exact =
  S754_finite s (Z.to_pos m) (e + Z.pos k).
Proof.
  intros Hm Hf He. unfold binary_round_aux, shr_fexp.
  assert (Zdigits2 (m * 2 ^ Z.pos k) = Z.log2 m + 1 + Z.pos k) as Hd.
  { assert (0 < m * 2 ^ Z.pos k) as Hp by nia.
    destruct (m * 2 ^ Z.pos k) as [|p|p] eqn:E; [lia| |lia]. cbn [Zdigits2].
    rewrite digits2_log2, <- E, Z.log2_mul_pow2 by lia. lia. }
  rewrite Hd, Hf. replace (e + Z.pos k - e) with (Z.pos k) by lia. cbn [shr shr_record_of_loc].
  rewrite shr_exact by done. cbn [shr_m loc_of_shr_record round_nearest_even].
  assert (Zdigits2 m = Z.log2 m + 1) as Hd'.
  { destruct m as [|p|p]; [lia| |lia]. apply digits2_log2. }
  rewrite Hd'. replace (Z.log2 m + 1 + (e + Z.pos k)) with (Z.log2 m + 1 + Z.pos k + e) by lia.
  rewrite Hf, Z.sub_diag. cbn [shr shr_m shr_record_of_loc].
  destruct m as [|p|p]; [lia| |lia]. by rewrite (proj2 (Z.leb_le _ _)).
Qed.

Lemma log2_bound n : 0 < n < 2 ^ 53 → 0 <= Z.log2 n <= 52.
Proof.
  intros Hn. split; [apply Z.log2_nonneg|].
  assert (Z.log2 n < 53); [apply Z.log2_lt_pow2; lia|lia].
Qed.

Lemma quotient_integer n : 0 < n < 2 ^ 53 → quotient n 1 = int_number n.
Proof.
  intros Hn. pose proof (log2_bound n Hn) as Hl. unfold quotient, int_number.
  rewrite !(proj2 (Z.eqb_neq n 0)) by lia. rewrite Z.abs_eq by lia. change (Z.log2 1) with 0.
  rewrite Z.max_r by lia. set (l := Z.log2 n) in *. replace (64 + 0 - l) with (64 - l) by lia.
  rewrite Z.div_1_r, Z.mod_1_r, Z.eqb_refl, Z.add_0_r.
  rewrite !(proj2 (Z.ltb_ge n 0)) by lia.
  set (m := n * 2 ^ (52 - l)).
  assert (0 < m) as Hm by (unfold m; pose proof (Z.pow_pos_nonneg 2 (52 - l)); nia).
  assert (2 * (n * 2 ^ (64 - l)) = m * 2 ^ 13) as ->.
  { unfold m. replace (64 - l) with (52 - l + 12) by lia. rewrite Z.pow_add_r by lia. lia. }
  assert (Z.log2 m = 52) as Hlm by (unfold m; rewrite Z.log2_mul_pow2 by lia; lia).
  assert (Hpos : m * 2 ^ 13 = Z.pos (Z.to_pos (m * 2 ^ 13))) by (rewrite Z2Pos.id; lia).
  rewrite Hpos. cbn [binary_normalize]. unfold binary_round.
  rewrite digits2_log2, <- Hpos, Z.log2_mul_pow2, Hlm by lia.
  assert (fexp prec emax (13 + 52 + 1 + (- (64 - l) - 1)) = l - 52) as Hf
    by (unfold fexp, emin, prec, emax; lia).
  rewrite Hf. unfold shl_align. replace (l - 52 - (- (64 - l) - 1)) with 13 by lia.
  rewrite <- Hpos, (round_exact false m 13).
  - f_equal. lia.
  - done.
  - rewrite Hlm. replace (52 + 1 + 13 + (- (64 - l) - 1)) with (13 + 52 + 1 + (- (64 - l) - 1)) by lia.
    rewrite Hf. lia.
  - unfold emax, prec. lia.
Qed.

Lemma read_digits_all D : ∀ acc k,
  sforall is_digit D = true →
  read_digits acc k D = (digits_value acc D, k + Z.of_nat (String.length D), "").
Proof.
  induction D as [|a D IH]; intros acc k H; cbn [read_digits digits_value String.length sforall] in *.
  - by rewrite Z.add_0_r.
  - apply andb_true_iff in H as [Ha H]. rewrite Ha, IH by done. do 2 f_equal. lia.
Qed.

Lemma read_decimal_integer n : 0 <= n → read_decimal (string_of_Z n) = Some (n, 0, "").
Proof.
  intros Hn. pose proof (string_of_Z_decimal n Hn) as Hd. unfold read_decimal.
  rewrite read_digits_all by apply Hd. rewrite string_of_Z_value by done. cbn [read_exponent].
  assert (0 < Z.of_nat (String.length (string_of_Z n))) as Hl.
  { destruct (Z.eq_dec n 0) as [->|H0]; [done|].
    destruct (dec_head _ _ Hd H0) as (a & D & -> & _). cbn [String.length]. lia. }
  by rewrite (proj2 (Z.eqb_neq _ _)) by lia.
Qed.

(** The first character of a number is neither a sign nor missing. *)
Lemma integer_opens n : 0 <= n → ∃ a D, string_of_Z n = String a D ∧ is_digit a = true.
Proof.
  intros Hn. pose proof (string_of_Z_decimal n Hn) as Hd.
  destruct (Z.eq_dec n 0) as [->|H0]; [by exists "0"%char, ""|].
  destruct (dec_head _ _ Hd H0) as (a & D & E & _). exists a, D. split; [done|].
  pose proof (dec_digits _ _ Hd) as H. rewrite E in H. cbn [sforall] in H.
  by apply andb_true_iff in H as [H _].
Qed.

(** [Number(String(n))] and [parseFloat(String(n))]. *)
Lemma number_of_integer n : 0 <= n < 2 ^ 53 → number_of_text (string_of_Z n) = int_number n.
Proof.
  intros Hn. destruct (integer_opens n) as (a & D & E & Ha); [lia|].
  unfold number_of_text. rewrite E.
  assert (match String a D with
          | String "-" t => (true, t) | String "+" t => (false, t) | _ => (false, String a D)
          end = (false, String a D)) as ->.
  { destruct a as [[] [] [] [] [] [] [] []]; try reflexivity; by vm_compute in Ha. }
  rewrite <- E, read_decimal_integer by lia. unfold decimal_number.
  destruct (Z.eq_dec n 0) as [->|H0]; [done|].
  rewrite (proj2 (Z.eqb_neq n 0)) by done. change (400 <? 0) with false. change (0 <? - 5000) with false.
  unfold of_decimal. change (0 <=? 0) with true. cbv iota. rewrite Z.mul_1_r.
  apply quotient_integer. lia.
Qed.

Lemma floor_integer n : 0 <= n < 2 ^ 53 → nfloor (int_number n) = Some n.
Proof.
  intros Hn. unfold int_number. destruct (Z.eqb_spec n 0) as [->|H0]; [done|].
  pose proof (log2_bound n ltac:(lia)) as Hl. cbn [nfloor].
  assert (0 < 2 ^ (52 - Z.log2 n)) as Hp by (apply Z.pow_pos_nonneg; lia).
  rewrite Z2Pos.id by nia. f_equal. destruct (Z.leb_spec 0 (Z.log2 n - 52)) as [H|H].
  - replace (Z.log2 n) with 52 by lia. cbn. lia.
  - replace (- (Z.log2 n - 52)) with (52 - Z.log2 n) by lia. apply Z.div_mul. lia.
Qed.

Lemma finite_integer n : is_finite (int_number n) = true.
Proof. unfold int_number. by destruct (n =? 0). Qed.

(** Comparison with zero and one. *)
Lemma zero_le_integer n : nle (num 0) (int_number n) = true.
Proof. unfold int_number. by destruct (n =? 0). Qed.

Lemma one_le_integer n : 0 < n < 2 ^ 53 → nle (num 1) (int_number n) = true.
Proof.
  intros Hn. pose proof (log2_bound n Hn) as Hl. unfold int_number.
  rewrite (proj2 (Z.eqb_neq n 0)) by lia.
  change (num 1) with (S754_finite false (Z.to_pos (2 ^ 52)) (-52)).
  unfold nle, SFleb. cbn [SFcompare].
  destruct (Z.compare_spec (-52) (Z.log2 n - 52)) as [H|H|H]; [|done|lia].
  assert (n = 1) as ->; [|done].
  assert (Z.log2 n = 0) as H1 by lia. apply Z.log2_null in H1. lia.
Qed.

(** ** Signs *)

(** Zero or more, infinity included, but not [NaN]. *)
Definition nonneg (x : number) : bool :=
  match x with
  | S754_zero _ | S754_finite false _ _ | S754_infinity false => true
  | _ => false
  end.

Lemma round_aux_sign m e l : 0 <= m → nonneg (binary_round_aux prec emax false m e l) = true.
Proof.
  intros Hm. unfold binary_round_aux.
  pose proof (shr_fexp_nonneg m e l Hm) as H1. destruct (shr_fexp prec emax m e l) as [r1 e1]. cbn in H1.
  pose proof (shr_fexp_nonneg _ e1 loc_Exact (round_nonneg _ (loc_of_shr_record r1) H1)) as H2.
  destruct (shr_fexp prec emax _ e1 loc_Exact) as [r2 e2]. cbn in H2.
  destruct (shr_m r2); [done| |lia]. by destruct (e2 <=? emax - prec).
Qed.

Lemma ndiv_nonneg a b : is_finite a = true → nonneg a = true → nlt (num 0) b = true → nonneg (ndiv a b) = true.
Proof.
  destruct a as [sa|sa| |[] ma ea]; try done; destruct b as [sb|[]| |[] mb eb]; try done.
  intros _ _ _. unfold ndiv, SFdiv.
  destruct (SFdiv_core_binary prec emax (Z.pos ma) ea (Z.pos mb) eb) as [[mz ez] lz] eqn:E.
  apply round_aux_sign. unfold SFdiv_core_binary in E.
  match type of E with context [Z.div_eucl ?u ?v] =>
    assert (0 <= u) as Hu; [|pose proof (Z.div_pos u v Hu eq_refl) as Hq] end.
  - match goal with |- 0 <= match ?u with _ => _ end => destruct u end; try lia.
    apply Z.shiftl_nonneg. lia.
  - unfold Z.div in Hq. destruct (Z.div_eucl _ _) as [q0 r0]. by injection E as <- _ _.
Qed.

(** A non-negative number times a positive finite one. *)
Lemma nmul_nonneg a b :
  nonneg a = true → nlt (num 0) b = true → is_finite b = true → nonneg (nmul a b) = true.
Proof.
  destruct a as [sa|[]| |[] ma ea]; try done; destruct b as [sb|[]| |[] mb eb]; try done.
  intros _ _ _. by apply (round_aux_sign (Z.pos (ma * mb))).
Qed.

Lemma nfloor_nonneg x n : nonneg x = true → nfloor x = Some n → 0 <= n.
Proof.
  destruct x as [s|[]| |[] m e]; try done; cbn [nfloor]; intros _ [= <-]; [done|].
  destruct (Z.leb_spec 0 e).
  - pose proof (Z.pow_pos_nonneg 2 e). nia.
  - apply Z.div_pos; [lia|]. apply Z.pow_pos_nonneg; lia.
Qed.

Lemma zero_le_nonneg x : is_finite x = true → nle (num 0) x = true → nonneg x = true.
Proof. by destruct x as [s|[]| |[]]. Qed.
