(* ===== verification/Uri.v ===== *)
(** [encodeURIComponent] and [decodeURIComponent], on code units below 256
    (ASCII exactly; the others as their two-byte UTF-8 form). *)

From Stdlib Require Import ZArith Lia Ascii String.
From stdpp Require Import base list strings gmap.
From S2P Require Import Prelude.

Definition is_alnum (a : ascii) : bool :=
  let c := code a in
  ((48 <=? c) && (c <=? 57)) || ((65 <=? c) && (c <=? 90)) || ((97 <=? c) && (c <=? 122)).

Definition mem_char (a : ascii) (s : string) : bool :=
  negb (sforall (λ b, negb (Ascii.eqb a b)) s).

Definition unreserved (a : ascii) : bool := is_alnum a || mem_char a "-_.!~*'()".

Definition upper_hex (n : Z) : ascii :=
  if n <? 10 then of_code (48 + n) else of_code (55 + n).

Definition percent (n : Z) : string :=
  String "%" (String (upper_hex (n / 16)) (String (upper_hex (n mod 16)) "")).

Definition encode_char (a : ascii) : string :=
  if unreserved a then String a ""
  else if code a <? 128 then percent (code a)
  else percent (192 + code a / 64) +:+ percent (128 + code a mod 64).

Fixpoint encodeURIComponent (s : string) : string :=
  match s with
  | EmptyString => ""
  | String a s' => encode_char a +:+ encodeURIComponent s'
  end.

Definition hex_val (a : ascii) : option Z :=
  let c := code a in
  if (48 <=? c) && (c <=? 57) then Some (c - 48)
  else if (65 <=? c) && (c <=? 70) then Some (c - 55)
  else if (97 <=? c) && (c <=? 102) then Some (c - 87)
  else None.

Definition hex_byte (h l : ascii) : option Z :=
  match hex_val h, hex_val l with Some x, Some y => Some (16 * x + y) | _, _ => None end.

(** [None] when the function throws [URIError] (or the code point is outside
    the model). *)
Fixpoint decodeURIComponent (s : string) : option string :=
  match s with
  | EmptyString => Some ""
  | String "%" (String h (String l s')) =>
      match hex_byte h l with
      | None => None
      | Some b =>
          if b <? 128 then String (of_code b) <$> decodeURIComponent s'
          else if (b =? 194) || (b =? 195) then
            match s' with
            | String "%" (String h2 (String l2 s'')) =>
                match hex_byte h2 l2 with
                | Some c =>
                    if (128 <=? c) && (c <? 192)
                    then String (of_code ((b - 192) * 64 + (c - 128))) <$> decodeURIComponent s''
                    else None
                | None => None
                end
            | _ => None
            end
          else None
      end
  | String "%" _ => None
  | String a s' => String a <$> decodeURIComponent s'
  end.

Lemma decode_encode_char a t :
  decodeURIComponent (encode_char a +:+ t) = String a <$> decodeURIComponent t.
Proof. destruct a as [[] [] [] [] [] [] [] []]; reflexivity. Qed.

(** Whatever is encoded is decoded back. *)
Lemma decode_encode s : decodeURIComponent (encodeURIComponent s) = Some s.
Proof.
  induction s as [|a s IH]; [done|]. cbn [encodeURIComponent].
  by rewrite decode_encode_char, IH.
Qed.

(** An encoded component never contains a separator. *)
Definition no_slash (s : string) : bool := sforall (λ a, negb (Ascii.eqb a "/")) s.

Lemma encode_no_slash s : no_slash (encodeURIComponent s) = true.
Proof.
  induction s as [|a s IH]; [done|]. cbn [encodeURIComponent]. unfold no_slash in *.
  rewrite sforall_app, IH, andb_true_r.
  by destruct a as [[] [] [] [] [] [] [] []].
Qed.

Lemma encode_empty s : encodeURIComponent s = "" → s = "".
Proof.
  destruct s as [|a s]; [done|]. cbn [encodeURIComponent]. intros H.
  exfalso. by destruct a as [[] [] [] [] [] [] [] []].
Qed.

#[export] Hint Rewrite decode_encode : relay_str.
#[export] Hint Resolve encode_no_slash : relay.
