(* ===== verification/Url.v ===== *)
(** Addresses as the browser reads them: [new URL(path, page)] for the
    absolute paths the console asks for, and [URLSearchParams] both ways.

    Only addresses made of unreserved characters, percent escapes and the
    separators are in the model (the console builds no other); any other one
    parses to [None]. *)

From Stdlib Require Import ZArith Lia Ascii String.
From stdpp Require Import base list strings gmap.
From S2P Require Import Prelude Uri.

(** ** [URLSearchParams] *)

(** The serializer of the media type [application/x-www-form-urlencoded]. *)
Definition form_char (a : ascii) : string :=
  if is_alnum a || mem_char a "*-._" then String a ""
  else if Ascii.eqb a " " then "+"
  else if code a <? 128 then percent (code a)
  else percent (192 + code a / 64) +:+ percent (128 + code a mod 64).

Fixpoint form_encode (s : string) : string :=
  match s with EmptyString => "" | String a s' => form_char a +:+ form_encode s' end.

Definition param_text (p : string * string) : string :=
  form_encode (fst p) +:+ "=" +:+ form_encode (snd p).

(** [params.toString()]. *)
Definition params_text (ps : list (string * string)) : string :=
  join "&" (map param_text ps).

(** [params.set(k, v)] for a name that may be there already, [params.append]. *)
Fixpoint params_set (k v : string) (ps : list (string * string)) : list (string * string) :=
  match ps with
  | [] => [(k, v)]
  | (k', v') :: ps' =>
      if String.eqb k k' then (k, v) :: keep (λ p, negb (String.eqb (fst p) k)) ps'
      else (k', v') :: params_set k v ps'
  end.

Definition params_append (k v : string) (ps : list (string * string)) : list (string * string) :=
  ps ++ [(k, v)].

(** The text up to the first [c] and the text after it. *)
Fixpoint cut_at (c : ascii) (s : string) : string * string :=
  match s with
  | EmptyString => ("", "")
  | String a s' =>
      if Ascii.eqb a c then ("", s')
      else let '(x, y) := cut_at c s' in (String a x, y)
  end.

Definition form_decode (s : string) : option string :=
  decodeURIComponent (smap (λ a, if Ascii.eqb a "+" then " "%char else a) s).

Definition read_param (s : string) : option (string * string) :=
  let '(k, v) := cut_at "=" s in
  match form_decode k, form_decode v with
  | Some k, Some v => Some (k, v)
  | _, _ => None
  end.

(** The parameters of a query text; [None] when a percent escape is malformed
    (the browser replaces it, which the model leaves out). *)
Definition parse_params (q : string) : option (list (string * string)) :=
  mapM read_param (keep (λ s, negb (String.eqb s "")) (split_char "&" q)).

(** ** [new URL(path, page)] *)

Definition url_char (a : ascii) : bool := unreserved a || mem_char a "%/?&=+".

(** The path segments the parser removes: with every segment [..] the one
    before it. *)
Definition single_dot (x : string) : bool := some (String.eqb x) ["."; "%2e"; "%2E"].
Definition double_dot (x : string) : bool :=
  some (String.eqb x) [".."; ".%2e"; ".%2E"; "%2e."; "%2E."; "%2e%2e"; "%2e%2E"; "%2E%2e"; "%2E%2E"].

(** [kept] holds the segments kept so far, the last one first. *)
Fixpoint normal_segments (kept l : list string) : list string :=
  match l with
  | [] => rev kept
  | x :: l' =>
      let end_of (k : list string) : list string := match l' with [] => "" :: k | _ => k end in
      if double_dot x then normal_segments (end_of (tl kept)) l'
      else if single_dot x then normal_segments (end_of kept) l'
      else normal_segments (x :: kept) l'
  end.

(** The [pathname] and the query of an absolute path; a text that starts with
    two slashes names a host, and is not a path. *)
Definition parse_url (url : string) : option (string * string) :=
  let '(p, q) := cut_at "?" url in
  if sforall url_char url then
    match split_char "/" p with
    | "" :: x :: l =>
        if String.eqb x "" && negb (match l with [] => true | _ => false end) then None
        else Some ("/" +:+ join "/" (normal_segments [] (x :: l)), q)
    | _ => None
    end
  else None.

(** ** Reading back the parameters *)

Lemma sforall_join f sep l :
  sforall f sep = true → Forall (λ x, sforall f x = true) l → sforall f (join sep l) = true.
Proof.
  intros Hs H. induction H as [|x l Hx H IH]; [done|]. destruct l as [|y l]; [done|].
  change (join sep (x :: y :: l)) with (x +:+ sep +:+ join sep (y :: l)).
  by rewrite !sforall_app, Hx, Hs, IH.
Qed.

Lemma form_decode_char a t :
  form_decode (form_char a +:+ t) = String a <$> form_decode t.
Proof. destruct a as [[] [] [] [] [] [] [] []]; reflexivity. Qed.

Lemma form_decode_encode s : form_decode (form_encode s) = Some s.
Proof.
  induction s as [|a s IH]; [done|]. cbn [form_encode].
  by rewrite form_decode_char, IH.
Qed.

Definition lacks (c : ascii) (s : string) : bool := sforall (λ a, negb (Ascii.eqb a c)) s.

Lemma form_char_plain a :
  lacks "&" (form_char a) && lacks "=" (form_char a) && sforall url_char (form_char a) = true.
Proof. destruct a as [[] [] [] [] [] [] [] []]; reflexivity. Qed.

Lemma form_encode_plain s :
  lacks "&" (form_encode s) && lacks "=" (form_encode s) && sforall url_char (form_encode s) = true.
Proof.
  unfold lacks. induction s as [|a s IH]; [done|]. cbn [form_encode]. rewrite !sforall_app.
  pose proof (form_char_plain a) as Ha. unfold lacks in Ha.
  rewrite !andb_true_iff in *. intuition.
Qed.

Lemma cut_at_app c a b : lacks c a = true → cut_at c (a +:+ String c b) = (a, b).
Proof.
  unfold lacks. induction a as [|x a IH]; intros H.
  - rewrite app_empty_str. cbn [cut_at]. by rewrite Ascii.eqb_refl.
  - cbn [sforall] in H. apply andb_true_iff in H as [Hx Ha]. rewrite app_cons_str.
    cbn [cut_at]. apply negb_true_iff in Hx. by rewrite Hx, IH.
Qed.

Lemma cut_at_none c a : lacks c a = true → cut_at c a = (a, "").
Proof.
  unfold lacks. induction a as [|x a IH]; intros H; [done|].
  cbn [sforall] in H. apply andb_true_iff in H as [Hx Ha].
  cbn [cut_at]. apply negb_true_iff in Hx. by rewrite Hx, IH.
Qed.

Lemma read_param_text p : read_param (param_text p) = Some p.
Proof.
  destruct p as [k v]. unfold read_param, param_text. cbn [fst snd].
  pose proof (form_encode_plain k) as Hk. rewrite !andb_true_iff in Hk.
  rewrite app_cons_str, app_empty_str, cut_at_app by apply Hk.
  by rewrite !form_decode_encode.
Qed.

Lemma split_join c l :
  l ≠ [] → Forall (λ x, lacks c x = true) l → split_char c (join (String c "") l) = l.
Proof.
  intros Hl H. induction H as [|x l Hx H IH]; [done|].
  destruct l as [|y l]; [by apply split_char_none|].
  change (join (String c "") (x :: y :: l)) with (x +:+ String c (join (String c "") (y :: l))).
  rewrite split_char_app by done. f_equal. by apply IH.
Qed.

Lemma param_text_plain p :
  lacks "&" (param_text p) && sforall url_char (param_text p) && negb (String.eqb (param_text p) "") = true.
Proof.
  destruct p as [k v]. unfold param_text. cbn [fst snd].
  pose proof (form_encode_plain k) as Hk. pose proof (form_encode_plain v) as Hv.
  unfold lacks in *. rewrite !sforall_app. rewrite !andb_true_iff in *.
  split; [intuition|]. apply negb_true_iff, String.eqb_neq. by destruct (form_encode k).
Qed.

Lemma parse_params_text ps : parse_params (params_text ps) = Some ps.
Proof.
  unfold parse_params, params_text.
  destruct ps as [|p ps]; [done|].
  rewrite (split_join "&").
  - generalize (p :: ps) as l. induction l as [|x l IH]; [done|]. cbn [map].
    pose proof (param_text_plain x) as Hx. rewrite !andb_true_iff in Hx.
    destruct Hx as [_ Hx]. unfold keep in *. cbn [List.filter]. rewrite Hx. cbn [mapM]. rewrite read_param_text.
    cbn. by rewrite IH.
  - done.
  - apply Forall_forall. intros x Hx. apply list_elem_of_fmap in Hx as (y & -> & _).
    pose proof (param_text_plain y) as Hy. rewrite !andb_true_iff in Hy. apply Hy.
Qed.

(** C1: the query string the client writes for a list of parameters is read
    back by the server's [URLSearchParams] as the same list: names and values,
    order and repetitions included, whatever characters they contain; and none
    of its characters can end the query of an address. *)
Theorem params_round_trip ps :
  parse_params (params_text ps) = Some ps ∧ sforall url_char (params_text ps) = true.
Proof.
  split; [apply parse_params_text|]. apply sforall_join; [done|].
  apply Forall_forall. intros x Hx. apply list_elem_of_fmap in Hx as (y & -> & _).
  pose proof (param_text_plain y) as Hy. rewrite !andb_true_iff in Hy. apply Hy.
Qed.

(** ** Reading back the paths *)

(** A path segment the parser leaves alone. *)
Definition plain_segment (x : string) : bool :=
  sforall url_char x && lacks "/" x && lacks "?" x && negb (String.eqb x "") &&
  negb (single_dot x) && negb (double_dot x).

(** A name that can be a path segment once it is encoded. *)
Definition usable (a : string) : bool :=
  negb (some (String.eqb a) [""; "."; ".."]).

Lemma encode_char_plain a :
  sforall url_char (encode_char a) && lacks "/" (encode_char a) && lacks "?" (encode_char a) = true.
Proof. destruct a as [[] [] [] [] [] [] [] []]; reflexivity. Qed.

(** An encoded name is a dot segment only if the name is one. *)
Lemma encode_literal x a b :
  decodeURIComponent x = Some b → encodeURIComponent b ≠ x → encodeURIComponent a ≠ x.
Proof.
  intros Hd Hne <-. rewrite decode_encode in Hd. injection Hd as ->. done.
Qed.

Lemma eqb_literal x a b :
  decodeURIComponent x = Some b → encodeURIComponent b ≠ x →
  String.eqb (encodeURIComponent a) x = false.
Proof. intros. apply String.eqb_neq. by eapply encode_literal. Qed.

Lemma encode_eqb a x : encodeURIComponent x = x → String.eqb (encodeURIComponent a) x = String.eqb a x.
Proof.
  intros Hx. destruct (String.eqb_spec a x) as [->|Hne]; [by rewrite Hx, String.eqb_refl|].
  apply String.eqb_neq. intros H. rewrite <- Hx in H.
  apply (f_equal decodeURIComponent) in H. rewrite !decode_encode in H. congruence.
Qed.

Lemma encode_plain a : usable a = true → plain_segment (encodeURIComponent a) = true.
Proof.
  unfold usable. cbn [some existsb]. intros H. rewrite !negb_orb, !andb_true_iff in H.
  destruct H as (H1 & H2 & H3 & _).
  unfold plain_segment, single_dot, double_dot. cbn [some existsb].
  rewrite (encode_eqb a ""), (encode_eqb a "."), (encode_eqb a "..") by done.
  apply negb_true_iff in H1, H2, H3. rewrite H1, H2, H3.
  rewrite !(eqb_literal _ a ".") by done. rewrite !(eqb_literal _ a "..") by done.
  cbn. rewrite !andb_true_r. clear. unfold lacks.
  induction a as [|c a IH]; [done|]. cbn [encodeURIComponent]. rewrite !sforall_app.
  pose proof (encode_char_plain c) as Hc. unfold lacks in Hc.
  rewrite !andb_true_iff in *. intuition.
Qed.

Lemma normal_plain kept l :
  Forall (λ x, plain_segment x = true) l → normal_segments kept l = rev kept ++ l.
Proof.
  intros H. revert kept. induction H as [|x l Hx H IH]; intros kept; cbn [normal_segments].
  - by rewrite app_nil_r.
  - unfold plain_segment in Hx. rewrite !andb_true_iff in Hx.
    destruct Hx as [[_ Hs] Hd]. apply negb_true_iff in Hs, Hd. rewrite Hs, Hd, IH.
    cbn. by rewrite <- app_assoc.
Qed.

Definition with_query (path q : string) : string :=
  path +:+ (if String.eqb q "" then "" else "?" +:+ q).

Lemma plain_parts x : plain_segment x = true →
  sforall url_char x = true ∧ lacks "/" x = true ∧ lacks "?" x = true ∧ x ≠ "".
Proof.
  unfold plain_segment. rewrite !andb_true_iff. intros [[[[[? ?] ?] Hx] _] _].
  repeat split; try done. by apply negb_true_iff, String.eqb_neq in Hx.
Qed.

(** The path and the query of an address built from plain segments. *)
Lemma parse_url_path l q :
  l ≠ [] → Forall (λ x, plain_segment x = true) l → sforall url_char q = true →
  parse_url (with_query ("/" +:+ join "/" l) q) = Some ("/" +:+ join "/" l, q).
Proof.
  intros Hl H Hq. unfold parse_url, with_query.
  assert (lacks "?" ("/" +:+ join "/" l) = true) as Hp.
  { unfold lacks. rewrite sforall_app. apply andb_true_iff. split; [done|]. apply sforall_join; [done|].
    eapply Forall_impl; [exact H|]. intros x Hx. by apply plain_parts. }
  assert (sforall url_char ("/" +:+ join "/" l) = true) as Hu.
  { rewrite sforall_app. apply andb_true_iff. split; [done|]. apply sforall_join; [done|].
    eapply Forall_impl; [exact H|]. intros x Hx. by apply plain_parts. }
  assert (split_char "/" ("/" +:+ join "/" l) = "" :: l) as Hsp.
  { rewrite app_cons_str, app_empty_str. cbn [split_char]. rewrite Ascii.eqb_refl.
    f_equal. apply split_join; [done|]. eapply Forall_impl; [exact H|].
    intros x Hx. by apply plain_parts. }
  assert (cut_at "?" (("/" +:+ join "/" l) +:+ (if String.eqb q "" then "" else "?" +:+ q)) =
          ("/" +:+ join "/" l, q)) as Hc.
  { destruct (String.eqb_spec q "") as [->|Hq0].
    - rewrite app_nil_r_str. by apply cut_at_none.
    - change ("?" +:+ q) with (String "?" q). by apply cut_at_app. }
  rewrite Hc, Hsp, sforall_app, Hu.
  assert (sforall url_char (if String.eqb q "" then "" else "?" +:+ q) = true) as ->.
  { destruct (String.eqb q ""); [done|]. by rewrite sforall_app, Hq. }
  cbn [andb]. destruct l as [|x l]; [done|].
  pose proof (Forall_inv H) as Hx. apply plain_parts in Hx as (_ & _ & _ & Hx).
  rewrite (proj2 (String.eqb_neq x "") Hx). cbn [andb].
  by rewrite normal_plain.
Qed.

Lemma params_text_chars ps : sforall url_char (params_text ps) = true.
Proof.
  apply sforall_join; [done|]. apply Forall_forall. intros x Hx.
  apply list_elem_of_fmap in Hx as (y & -> & _).
  pose proof (param_text_plain y) as Hy. rewrite !andb_true_iff in Hy. apply Hy.
Qed.

(** ** Looking parameters up *)

Lemma assoc_set k k' v ps :
  assoc k (params_set k' v ps) = if String.eqb k k' then Some v else assoc k ps.
Proof.
  induction ps as [|[k0 v0] ps IH]; [done|]. cbn [params_set].
  destruct (String.eqb_spec k' k0) as [->|Hne]; cbn [assoc].
  - destruct (String.eqb_spec k k0) as [->|Hk]; [done|]. clear IH.
    induction ps as [|[k1 v1] ps IH]; [done|]. unfold keep in *. cbn [List.filter fst].
    destruct (String.eqb_spec k1 k0) as [->|Hk1]; cbn [negb assoc].
    + by rewrite (proj2 (String.eqb_neq k k0) Hk).
    + by rewrite IH.
  - rewrite IH. destruct (String.eqb_spec k k0) as [->|]; [|done].
    by rewrite (proj2 (String.eqb_neq k0 k')) by done.
Qed.

Lemma assoc_app {A} k (l l' : list (string * A)) :
  assoc k (l ++ l') = match assoc k l with Some v => Some v | None => assoc k l' end.
Proof.
  induction l as [|[k0 v0] l IH]; [done|]. cbn [Datatypes.app assoc].
  destruct (String.eqb k k0); [done|apply IH].
Qed.

#[export] Hint Resolve encode_plain params_text_chars : relay.
