(* ===== verification/WorkflowDag.v ===== *)
(** The step diagram of a workflow family: the geometry and the SVG text of
    console/src/lib/components/WorkflowDAG.js.

    Module [Layout] computes where every node, card and edge goes, in the order
    of the source; module [Svg] writes the text.  Coordinates are integers: the
    halves the source computes (half a node, the middle of an edge) are halves
    of even numbers. *)

From Stdlib Require Import ZArith Lia Ascii String.
From stdpp Require Import base list strings gmap.
From S2P Require Import Prelude Json JsDate JsNumber Html.

Module Layout.

Definition nodeWidth : Z := 180.
Definition nodeHeight : Z := 62.
Definition gapX : Z := 30.

(** A step drawn at the top left corner [(n_x, n_y)]. *)
Record node := Node { n_step : jval; n_x : Z; n_y : Z }.

(** A sequential edge: from [(e_x1, e_y)] to [(e_x2, e_y)] bending at [e_mid]. *)
Record edge := Edge { e_x1 : Z; e_mid : Z; e_x2 : Z; e_y : Z }.

(** The connection from a parent step to the card of a child workflow. *)
Record family_edge := FamilyEdge {
  f_fromX : Z; f_fromY : Z; f_toX : Z; f_toY : Z; f_midY : Z }.

(** A placed child workflow card with its steps. *)
Record card := Card {
  c_child : jval; c_wf : jval; c_steps : list jval; c_title : string;
  c_x : Z; c_y : Z; c_w : Z; c_h : Z;
  c_nodes : list node; c_edges : list edge; c_family : option family_edge }.

Record layout := MkLayout {
  l_rootWf : jval; l_nodes : list node; l_edges : list edge;
  l_rootCard : option (Z * Z); (* width and height *)
  l_cards : list card; l_width : Z; l_height : Z }.

Definition as_array (v : jval) : option (list jval) :=
  match v with JArr l => Some l | _ => None end.

(** The comparator [(a.stepId || 0) - (b.stepId || 0)]; [NaN] counts as 0. *)
Definition step_order (a b : jval) : Z :=
  match js_number (jor (field a "stepId") (JNum 0)),
        js_number (jor (field b "stepId") (JNum 0)) with
  | Some x, Some y => x - y
  | _, _ => 0
  end.

Definition default_workflow : jval :=
  JObj [("workflowName", JStr "Workflow"); ("workflowId", JStr ""); ("status", JStr "UNKNOWN")].

(** Both accepted inputs: an array of steps, or [{root, steps, children}]. *)
Definition read_input (input : jval) : jval * list jval * list jval :=
  match input with
  | JArr l => (default_workflow, l, [])
  | JObj _ =>
      let root := field input "root" in
      let '(rootWf, rootSteps) :=
        if truthy root then
          (jor (field root "workflow") default_workflow,
           default [] (as_array (field root "steps")))
        else (default_workflow, default [] (as_array (field input "steps"))) in
      (rootWf, rootSteps, default [] (as_array (field input "children")))
  | _ => (default_workflow, [], [])
  end.

(** A row of steps from [(x0, y)], one every [nodeWidth + gapX]. *)
Definition place_row (x0 y : Z) (steps : list jval) : list node :=
  imap (λ i s, Node s (x0 + Z.of_nat i * (nodeWidth + gapX)) y) steps.

(** The edges between neighbours of a row of [n] steps. *)
Definition row_edges (x0 y : Z) (n : nat) : list edge :=
  map (λ i, let x := x0 + Z.of_nat i * (nodeWidth + gapX) in
            let nextX := x0 + (Z.of_nat i + 1) * (nodeWidth + gapX) in
            let startPointX := x + nodeWidth in
            Edge startPointX ((startPointX + nextX) / 2) nextX (y + nodeHeight / 2))
      (seq 0 (n - 1)).

(** [parentStepCoords]: a [Map] from step ids (as given and as strings) and
    child workflow ids to the position of the step; a later [set] wins. *)
Notation coords := (list (jval * (Z * Z))).

Definition coord_set (m : coords) (k : jval) (p : Z * Z) : coords := (k, p) :: m.

Fixpoint coord_get (m : coords) (k : jval) : option (Z * Z) :=
  match m with
  | [] => None
  | (k', p) :: m' => if key_eqb k k' then Some p else coord_get m' k
  end.

Definition record_step (m : coords) (n : node) : coords :=
  let p := (n_x n, n_y n) in
  let id := field (n_step n) "stepId" in
  let m := coord_set m id p in
  let m := coord_set m (JStr (js_string id)) p in
  let child := field (n_step n) "childWorkflowId" in
  if truthy child then coord_set m child p else m.

Definition parent_coords (nodes : list node) : coords :=
  fold_left record_step nodes [].

Definition parent_of (m : coords) (child : jval) : option (Z * Z) :=
  let id := field child "stepId" in
  match coord_get m id with
  | Some p => Some p
  | None =>
      match coord_get m (JStr (js_string id)) with
      | Some p => Some p
      | None => coord_get m (field child "childWorkflowId")
      end
  end.

(** [Math.ceil(titleText.length * 7.5 + 130)]. *)
Definition header_width (title : string) : Z :=
  (15 * Z.of_nat (String.length title) + 261) / 2.

(** One iteration of the loop over the children, from [currentChildX]. *)
Definition place_child (m : coords) (childY currentChildX : Z) (child : jval) : card :=
  let childWf := jor (field child "workflow") (JObj []) in
  let childSteps :=
    js_sort step_order (default [] (as_array (field child "steps"))) in
  let childStepCount := Z.of_nat (length childSteps) in
  let titleText :=
    "Child Workflow: " +:+
    js_string (jor (jor (field childWf "workflowName") (field child "childWorkflowId"))
                   (JStr "unnamed")) in
  let childCardWidth :=
    Z.max (Z.max 380 (header_width titleText))
          (48 + Z.max 1 childStepCount * (nodeWidth + gapX) - gapX) in
  let childCardHeight := if 0 <? childStepCount then nodeHeight + 84 else 96 in
  let parentCoord := parent_of m child in
  let childCardX :=
    match parentCoord with
    | Some (px, _) => Z.max currentChildX (px - 20)
    | None => currentChildX
    end in
  let family :=
    match parentCoord with
    | Some (px, py) =>
        let fromY := py + nodeHeight in
        Some (FamilyEdge (px + nodeWidth / 2) fromY (childCardX + 40) childY
                ((fromY + childY) / 2))
    | None => None
    end in
  Card child childWf childSteps titleText childCardX childY childCardWidth childCardHeight
    (place_row (childCardX + 24) (childY + 54) childSteps)
    (row_edges (childCardX + 24) (childY + 54) (length childSteps))
    family.

(** The loop: [currentChildX = childCardX + childCardWidth + 40]. *)
Fixpoint place_children (m : coords) (childY currentChildX : Z) (children : list jval)
  : list card :=
  match children with
  | [] => []
  | child :: children' =>
      let c := place_child m childY currentChildX child in
      c :: place_children m childY (c_x c + c_w c + 40) children'
  end.

Definition right_edge (maxX : Z) (nodes : list node) : Z :=
  fold_left (λ acc n, Z.max acc (n_x n + nodeWidth)) nodes maxX.

Definition cards_right (maxX : Z) (cards : list card) : Z :=
  fold_left (λ acc c, Z.max acc (c_x c + c_w c)) cards maxX.

Definition cards_bottom (maxY : Z) (cards : list card) : Z :=
  fold_left (λ acc c, Z.max acc (c_y c + c_h c)) cards maxY.

(** [None] when nothing is to be drawn. *)
Definition compute (input : jval) : option layout :=
  if negb (truthy input) then None else
  let '(rootWf, rootSteps0, children) := read_input input in
  match rootSteps0, children with
  | [], [] => None
  | _, _ =>
      let rootSteps := js_sort step_order rootSteps0 in
      let hasChildren := match children with [] => false | _ => true end in
      let startX := if hasChildren then 44 else 32 in
      let startY := if hasChildren then 74 else 36 in
      let nodes := place_row startX startY rootSteps in
      let edges := row_edges startX startY (length rootSteps) in
      let maxX := right_edge startX nodes in
      let maxY := startY + nodeHeight in
      if hasChildren then
        let rootCardWidth := Z.max (maxX + startX - 20) 560 in
        let rootCardHeight := nodeHeight + 80 in
        let maxY := Z.max maxY (20 + rootCardHeight) in
        let childY := maxY + 60 in
        let cards := place_children (parent_coords nodes) childY 24 children in
        let maxX := cards_right maxX cards in
        let maxY := cards_bottom maxY cards in
        Some (MkLayout rootWf nodes edges (Some (rootCardWidth, rootCardHeight)) cards
                (Z.max (maxX + 60) 780) (Z.max (maxY + 60) 180))
      else
        Some (MkLayout rootWf nodes edges None []
                (Z.max (maxX + 60) 780) (Z.max (maxY + 60) 180))
  end.

(** ** Rectangles *)

Record rect := Rect { r_x : Z; r_y : Z; r_w : Z; r_h : Z }.

Definition node_rect (n : node) : rect := Rect (n_x n) (n_y n) nodeWidth nodeHeight.
Definition card_rect (c : card) : rect := Rect (c_x c) (c_y c) (c_w c) (c_h c).

Definition apart (a b : rect) : Prop :=
  r_x a + r_w a <= r_x b ∨ r_x b + r_w b <= r_x a ∨
  r_y a + r_h a <= r_y b ∨ r_y b + r_h b <= r_y a.

Definition inside (a b : rect) : Prop :=
  r_x b <= r_x a ∧ r_x a + r_w a <= r_x b + r_w b ∧
  r_y b <= r_y a ∧ r_y a + r_h a <= r_y b + r_h b.

(** Every node of the diagram, the root row and the rows of the cards. *)
Definition all_nodes (l : layout) : list node :=
  l_nodes l ++ concat (map c_nodes (l_cards l)).

Definition canvas (l : layout) : rect := Rect 0 0 (l_width l) (l_height l).

Inductive pairwise {A} (R : A → A → Prop) : list A → Prop :=
| pw_nil : pairwise R []
| pw_cons x l : Forall (R x) l → pairwise R l → pairwise R (x :: l).

End Layout.

(** ** Geometry of the layout *)
Module Geometry.
Import Layout.

Lemma pairwise_app {A} (R : A → A → Prop) l1 l2 :
  pairwise R l1 → pairwise R l2 →
  (∀ x y, x ∈ l1 → y ∈ l2 → R x y) → pairwise R (l1 ++ l2).
Proof.
  induction 1 as [|x l1 Hx _ IH]; intros H2 H12; [done|]. cbn. constructor.
  - apply Forall_app. split; [done|]. apply Forall_forall. intros y Hy.
    apply H12; set_solver.
  - apply IH; [done|]. intros; apply H12; set_solver.
Qed.

Lemma pairwise_lookup {A} (R : A → A → Prop) l :
  (∀ i j x y, (i < j)%nat → l !! i = Some x → l !! j = Some y → R x y) → pairwise R l.
Proof.
  induction l as [|x l IH]; intros Hl; constructor.
  - apply Forall_lookup. intros i y Hy. by apply (Hl 0%nat (S i) x y); [lia| |].
  - apply IH. intros i j a b Hij Ha Hb. by apply (Hl (S i) (S j) a b); [lia| |].
Qed.

Lemma pairwise_concat {A} (R : A → A → Prop) (ls : list (list A)) :
  Forall (pairwise R) ls →
  pairwise (λ a b, ∀ x y, x ∈ a → y ∈ b → R x y) ls →
  pairwise R (concat ls).
Proof.
  intros H1 H2. induction H2 as [|a ls Ha _ IH]; cbn; [constructor|].
  inversion_clear H1 as [|? ? Hpa Hps]. apply pairwise_app; auto.
  intros x y Hx Hy. apply list_elem_of_In, in_concat in Hy as (b & Hb & Hy).
  apply list_elem_of_In in Hb, Hy. eapply Forall_forall in Ha; eauto.
Qed.

Lemma pairwise_map {A B} (f : A → B) (R : B → B → Prop) l :
  pairwise (λ a b, R (f a) (f b)) l → pairwise R (map f l).
Proof.
  induction 1 as [|x l Hx _ IH]; cbn; constructor; [|done].
  by apply Forall_map.
Qed.

Lemma place_row_lookup x0 y steps i n :
  place_row x0 y steps !! i = Some n →
  (i < length steps)%nat ∧ n_x n = x0 + Z.of_nat i * 210 ∧ n_y n = y.
Proof.
  unfold place_row. rewrite list_lookup_imap.
  destruct (steps !! i) as [s|] eqn:E; cbn; [|done]. intros [= <-].
  apply lookup_lt_Some in E. split; [done|]. unfold nodeWidth, gapX. split; cbn; lia.
Qed.

Lemma place_row_elem x0 y steps n :
  n ∈ place_row x0 y steps →
  n_y n = y ∧ x0 <= n_x n <= x0 + (Z.of_nat (length steps) - 1) * 210.
Proof.
  intros [i Hi]%list_elem_of_lookup.
  apply place_row_lookup in Hi as (Hi & -> & ->). split; [done|nia].
Qed.

Lemma place_row_steps x0 y steps : map n_step (place_row x0 y steps) = steps.
Proof.
  apply list_eq. intros i. rewrite list_lookup_fmap. unfold place_row.
  rewrite list_lookup_imap. by destruct (steps !! i).
Qed.

Lemma place_row_apart x0 y steps :
  pairwise (λ a b, apart (node_rect a) (node_rect b)) (place_row x0 y steps).
Proof.
  apply pairwise_lookup. intros i j a b Hij Ha Hb.
  apply place_row_lookup in Ha as (_ & Ha & _).
  apply place_row_lookup in Hb as (_ & Hb & _).
  left. cbn. rewrite Ha, Hb. unfold nodeWidth. lia.
Qed.

(** What the loop over the children guarantees of every card. *)
Record card_ok (m : coords) (childY cur : Z) (c : card) : Prop := {
  co_x : cur <= c_x c;
  co_y : c_y c = childY;
  co_w : 380 <= c_w c;
  co_h : 96 <= c_h c;
  co_nodes : Forall (λ n, inside (node_rect n) (card_rect c)) (c_nodes c);
  co_low : Forall (λ n, childY + 54 <= n_y n) (c_nodes c);
  co_apart : pairwise (λ a b, apart (node_rect a) (node_rect b)) (c_nodes c)
}.

Lemma place_child_ok m childY cur child :
  card_ok m childY cur (place_child m childY cur child).
Proof.
  unfold place_child. set (steps := js_sort _ _).
  set (title := String.append _ _).
  set (x := match parent_of m child with Some _ => _ | None => _ end).
  assert (cur <= x) as Hx by (subst x; destruct (parent_of m child) as [[px py]|]; lia).
  assert (0 <= header_width title) as Hh.
  { unfold header_width. apply Z.div_pos; lia. }
  split; cbn -[place_row]; try lia.
  - case_tests; unfold nodeHeight; zbool.
  - apply Forall_forall. intros n Hn.
    assert (0 < Z.of_nat (length steps)) as Hl.
    { destruct steps; [by apply not_elem_of_nil in Hn|]. cbn. lia. }
    apply place_row_elem in Hn as [Hy Hxn]. unfold inside; cbn.
    rewrite (proj2 (Z.ltb_lt 0 _)) by lia.
    unfold nodeWidth, nodeHeight, gapX. lia.
  - apply Forall_forall. intros n Hn. apply place_row_elem in Hn as [Hy _]. lia.
  - apply place_row_apart.
Qed.

Lemma place_children_ok m childY cur children :
  Forall (card_ok m childY cur) (place_children m childY cur children) ∧
  pairwise (λ a b, c_x a + c_w a + 40 <= c_x b) (place_children m childY cur children).
Proof.
  revert cur. induction children as [|child children IH]; intros cur; cbn.
  - split; constructor.
  - pose proof (place_child_ok m childY cur child) as Hc.
    set (c := place_child _ _ _ _) in *.
    destruct (IH (c_x c + c_w c + 40)) as [H1 H2].
    assert (cur <= c_x c + c_w c + 40) by (destruct Hc; lia).
    split; (constructor; [|]); try done.
    + eapply Forall_impl; [exact H1|]. intros d []; split; auto; lia.
    + eapply Forall_impl; [exact H1|]. intros d []; lia.
Qed.

Lemma fold_max_ge {A} (f : A → Z) l acc : acc <= fold_left (λ a x, Z.max a (f x)) l acc.
Proof.
  revert acc. induction l as [|x l IH]; intros acc; cbn; [lia|].
  etrans; [|apply IH]. lia.
Qed.

Lemma fold_max_elem {A} (f : A → Z) l acc x :
  x ∈ l → f x <= fold_left (λ a x, Z.max a (f x)) l acc.
Proof.
  revert acc. induction l as [|y l IH]; intros acc; cbn; [set_solver|].
  intros [->|Hx]%elem_of_cons; [|auto]. etrans; [|apply fold_max_ge]. lia.
Qed.

Lemma inside_trans a b c : inside a b → inside b c → inside a c.
Proof. unfold inside. lia. Qed.

Lemma apart_sym a b : apart a b → apart b a.
Proof. unfold apart. tauto. Qed.

(** The layout in one equation, for any drawn input. *)
Lemma compute_shape input l :
  compute input = Some l →
  ∃ rootWf root0 children, read_input input = (rootWf, root0, children) ∧
  ∃ sx sy : Z,
    let hasChildren := negb (length children =? 0)%nat in
    let root := js_sort step_order root0 in
    let nodes := place_row sx sy root in
    let mx := right_edge sx nodes in
    let cards := place_children (parent_coords nodes) 222 24 children in
    ((hasChildren = true ∧ sx = 44 ∧ sy = 74) ∨
     (hasChildren = false ∧ sx = 32 ∧ sy = 36)) ∧
    l_rootWf l = rootWf ∧ l_nodes l = nodes ∧
    l_edges l = row_edges sx sy (length root) ∧
    l_cards l = cards ∧
    l_rootCard l = (if hasChildren then Some (Z.max (mx + 24) 560, 142) else None) ∧
    l_width l = Z.max (cards_right mx cards + 60) 780 ∧
    l_height l = Z.max (cards_bottom (if hasChildren then 162 else 98) cards + 60) 180.
Proof.
  unfold compute. destruct (truthy input); cbn; [|done].
  destruct (read_input input) as [[rootWf root0] children].
  intros Hl. exists rootWf, root0, children. split; [done|].
  destruct children as [|child children].
  - exists 32, 36. destruct root0 as [|s0 root0]; [done|].
    injection Hl as <-. cbn -[js_sort place_row Z.max]. repeat split; auto.
  - exists 44, 74. revert Hl. generalize (js_sort step_order root0) as root.
    intros root Hl.
    destruct root0 as [|s0 root0]; injection Hl as <-;
      cbn -[place_row Z.max place_children]; repeat split; auto.
    all: do 2 f_equal; lia.
Qed.

Lemma nodes_apart_lemma input l :
  compute input = Some l →
  pairwise (λ a b, apart (node_rect a) (node_rect b)) (all_nodes l).
Proof.
  intros (? & root0 & children & _ & sx & sy & Hs & _ & Hn & _ & Hc & _)%compute_shape.
  unfold all_nodes. rewrite Hn, Hc.
  destruct (place_children_ok (parent_coords (place_row sx sy (js_sort step_order root0)))
              222 24 children) as [Hok Hpw].
  apply pairwise_app; [apply place_row_apart| |].
  - apply pairwise_concat.
    + apply Forall_map. eapply Forall_impl; [exact Hok|]. by intros c [].
    + apply pairwise_map. clear -Hok Hpw.
      induction Hpw as [|c cs Hc _ IH]; constructor; inversion_clear Hok as [|? ? Hc0 Hcs].
      * apply Forall_forall. intros d Hd a b Ha Hb.
        pose proof (proj1 (Forall_forall _ _) Hc d Hd) as Hcd. cbn in Hcd.
        pose proof (proj1 (Forall_forall _ _) Hcs d Hd) as Hd0.
        pose proof (proj1 (Forall_forall _ _) (co_nodes _ _ _ _ Hc0) a Ha) as Ha'.
        pose proof (proj1 (Forall_forall _ _) (co_nodes _ _ _ _ Hd0) b Hb) as Hb'.
        unfold inside in *. left. cbn in *. lia.
      * by apply IH.
  - intros a b Ha Hb. apply place_row_elem in Ha as [Ha _].
    apply list_elem_of_In, in_concat in Hb as (ns & Hns & Hb).
    apply in_map_iff in Hns as (c & <- & Hin).
    apply list_elem_of_In in Hin, Hb.
    pose proof (proj1 (Forall_forall _ _) Hok c Hin) as Hc0.
    pose proof (proj1 (Forall_forall _ _) (co_low _ _ _ _ Hc0) b Hb) as Hlow.
    right. right. left. cbn in *. unfold nodeHeight. lia.
Qed.

Lemma in_canvas_lemma input l :
  compute input = Some l →
  Forall (λ c, inside (card_rect c) (canvas l) ∧
               Forall (λ n, inside (node_rect n) (card_rect c)) (c_nodes c)) (l_cards l) ∧
  Forall (λ n, inside (node_rect n) (canvas l)) (all_nodes l).
Proof.
  intros (? & root0 & children & _ & sx & sy & Hs & _ & Hn & _ & Hc & _ & Hw & Hh)%compute_shape.
  cbn -[right_edge cards_right cards_bottom] in *.
  set (nodes := place_row sx sy (js_sort step_order root0)) in *.
  set (cards := place_children (parent_coords nodes) 222 24 children) in *.
  destruct (place_children_ok (parent_coords nodes) 222 24 children) as [Hok _].
  fold cards in Hok.
  assert (Hcards : Forall (λ c, inside (card_rect c) (canvas l) ∧
    Forall (λ n, inside (node_rect n) (card_rect c)) (c_nodes c)) cards).
  { apply Forall_forall. intros c Hin.
    pose proof (proj1 (Forall_forall _ _) Hok c Hin) as [].
    pose proof (fold_max_elem (λ c, c_x c + c_w c) cards (right_edge sx nodes) c Hin).
    pose proof (fold_max_elem (λ c, c_y c + c_h c) cards
      (if negb (length children =? 0)%nat then 162 else 98) c Hin).
    split; [|done]. unfold inside; cbn. rewrite Hw, Hh.
    unfold cards_right, cards_bottom. cbv beta in *. lia. }
  split; [by rewrite Hc|].
  unfold all_nodes. rewrite Hn, Hc. apply Forall_app. split.
  - apply Forall_forall. intros n Hin.
    pose proof (fold_max_elem (λ n, n_x n + nodeWidth) nodes sx n Hin) as Hr.
    pose proof (fold_max_ge (λ c, c_x c + c_w c) cards (right_edge sx nodes)) as Hg.
    pose proof (fold_max_ge (λ c, c_y c + c_h c) cards
      (if negb (length children =? 0)%nat then 162 else 98)) as Hg2.
    apply place_row_elem in Hin as [Hy Hx].
    unfold inside; cbn. rewrite Hw, Hh. unfold cards_right, cards_bottom, right_edge in *.
    unfold nodeWidth, nodeHeight in *.
    cbv beta in *. destruct Hs as [(Hc' & -> & ->)|(Hc' & -> & ->)]; rewrite Hc' in *; lia.
  - apply Forall_concat, Forall_map. eapply Forall_impl; [exact Hcards|].
    intros c [Hcc Hns]. eapply Forall_impl; [exact Hns|].
    intros n Hn'. by apply inside_trans with (card_rect c).
Qed.

(** ** Which step a child workflow hangs from *)

(** The keys under which a step is recorded, and those a child is looked up
    by, in order. *)
Definition step_keys (s : jval) : list jval :=
  field s "stepId" :: JStr (js_string (field s "stepId")) ::
  (if truthy (field s "childWorkflowId") then [field s "childWorkflowId"] else []).

Definition child_keys (c : jval) : list jval :=
  [field c "stepId"; JStr (js_string (field c "stepId")); field c "childWorkflowId"].

Definition linked (n : node) (child : jval) : Prop :=
  ∃ k, k ∈ child_keys child ∧ k ∈ step_keys (n_step n).

Lemma coord_get_elem m k p : coord_get m k = Some p → (k, p) ∈ m.
Proof.
  induction m as [|[k' p'] m IH]; cbn; [done|].
  destruct (key_eqb k k') eqn:E.
  - apply key_eqb_eq in E as ->. intros [= ->]. set_solver.
  - intros H%IH. set_solver.
Qed.

Lemma record_step_elem m n k p :
  (k, p) ∈ record_step m n →
  (k, p) ∈ m ∨ (p = (n_x n, n_y n) ∧ k ∈ step_keys (n_step n)).
Proof.
  unfold record_step, coord_set, step_keys.
  case_tests; rewrite !elem_of_cons; intros; naive_solver set_solver.
Qed.

Lemma parent_coords_elem nodes k p :
  (k, p) ∈ parent_coords nodes →
  ∃ n, n ∈ nodes ∧ p = (n_x n, n_y n) ∧ k ∈ step_keys (n_step n).
Proof.
  unfold parent_coords.
  assert (∀ m, (k, p) ∈ fold_left record_step nodes m →
    (k, p) ∈ m ∨ ∃ n, n ∈ nodes ∧ p = (n_x n, n_y n) ∧ k ∈ step_keys (n_step n)) as Hg.
  { induction nodes as [|n nodes IH]; intros m; cbn; [auto|].
    intros [H|(n' & ? & ?)]%IH.
    - apply record_step_elem in H as [|[? ?]]; [auto|]. right. exists n. set_solver.
    - right. exists n'. set_solver. }
  intros [H%not_elem_of_nil|H]%Hg; done.
Qed.

Lemma parent_of_linked nodes child p :
  parent_of (parent_coords nodes) child = Some p →
  ∃ n, n ∈ nodes ∧ p = (n_x n, n_y n) ∧ linked n child.
Proof.
  unfold parent_of. intros Hp.
  assert (∃ k, k ∈ child_keys child ∧ (k, p) ∈ parent_coords nodes)
    as (k & Hk & (n & Hn & -> & Hks)%parent_coords_elem).
  { unfold child_keys.
    destruct (coord_get _ (field child "stepId")) eqn:E1;
      [|destruct (coord_get _ (JStr _)) eqn:E2].
    - injection Hp as ->. apply coord_get_elem in E1. eexists; split; [|done]. set_solver.
    - injection Hp as ->. apply coord_get_elem in E2. eexists; split; [|done]. set_solver.
    - apply coord_get_elem in Hp. eexists; split; [|done]. set_solver. }
  exists n. repeat split; [done..|]. by exists k.
Qed.

Lemma place_children_elem m childY cur children c :
  c ∈ place_children m childY cur children →
  ∃ cur' child, child ∈ children ∧ c = place_child m childY cur' child.
Proof.
  revert cur. induction children as [|child children IH]; intros cur; cbn.
  - by intros ?%not_elem_of_nil.
  - intros [->|H]%elem_of_cons.
    + exists cur, child. set_solver.
    + apply IH in H as (cur' & ch & ? & ->). exists cur', ch. set_solver.
Qed.

Lemma place_child_family nodes childY cur child f :
  c_family (place_child (parent_coords nodes) childY cur child) = Some f →
  ∃ n, n ∈ nodes ∧ linked n child ∧
    f_fromX f = n_x n + nodeWidth / 2 ∧ f_fromY f = n_y n + nodeHeight ∧
    f_toX f = c_x (place_child (parent_coords nodes) childY cur child) + 40 ∧
    f_toY f = childY ∧
    n_x n - 20 <= c_x (place_child (parent_coords nodes) childY cur child).
Proof.
  unfold place_child. destruct (parent_of _ child) as [[px py]|] eqn:E; cbn; [|done].
  intros [= <-]. apply parent_of_linked in E as (n & Hn & [= -> ->] & Hl).
  exists n. cbn. repeat split; auto. lia.
Qed.

Lemma place_child_steps m childY cur child :
  c_child (place_child m childY cur child) = child ∧
  map n_step (c_nodes (place_child m childY cur child)) =
    js_sort step_order (default [] (as_array (field child "steps"))).
Proof. split; [done|]. apply place_row_steps. Qed.

Lemma place_children_steps m childY cur children :
  map n_step (concat (map c_nodes (place_children m childY cur children))) =
  concat (map (λ c, js_sort step_order (default [] (as_array (field c "steps")))) children).
Proof.
  revert cur. induction children as [|child children IH]; intros cur; [done|].
  cbn -[place_child]. rewrite map_app, IH.
  by rewrite (proj2 (place_child_steps _ _ _ _)).
Qed.
End Geometry.

(** ** The properties of the layout *)
Section LayoutTheorems.
Import Layout Geometry.

(** C35: no two boxes of a diagram overlap: for every input that is drawn, the
    rectangles of any two step nodes - in the root row, in one child card or in
    different cards - are apart, and so are any two child cards. *)
Theorem boxes_apart input l :
  compute input = Some l →
  pairwise (λ a b, apart (node_rect a) (node_rect b)) (all_nodes l) ∧
  pairwise (λ a b, apart (card_rect a) (card_rect b)) (l_cards l).
Proof.
  intros Hl. split; [by eapply nodes_apart_lemma|].
  apply compute_shape in Hl as (? & root0 & children & _ & sx & sy & _ & _ & _ & _ & -> & _).
  destruct (place_children_ok (parent_coords (place_row sx sy (js_sort step_order root0)))
              222 24 children) as [_ Hpw].
  induction Hpw as [|c cs Hc _ IH]; constructor; [|done].
  eapply Forall_impl; [exact Hc|]. intros d Hd. left. cbn in *. lia.
Qed.

(** C36: nothing is cut off: every child card lies in the [viewBox] the diagram
    is given, every step of a child lies in its card, and every step node of
    the diagram lies in the [viewBox]. *)
Theorem drawing_in_canvas input l :
  compute input = Some l →
  Forall (λ c, inside (card_rect c) (canvas l) ∧
               Forall (λ n, inside (node_rect n) (card_rect c)) (c_nodes c)) (l_cards l) ∧
  Forall (λ n, inside (node_rect n) (canvas l)) (all_nodes l).
Proof. apply in_canvas_lemma. Qed.

(** C37: the diagram shows exactly the steps it is given: the nodes carry, each
    once, the steps of the root followed by the steps of the children. *)
Theorem steps_drawn_once input l rootWf rootSteps children :
  read_input input = (rootWf, rootSteps, children) →
  compute input = Some l →
  map n_step (all_nodes l) ≡ₚ
    rootSteps ++ concat (map (λ c, default [] (as_array (field c "steps"))) children).
Proof.
  intros Hr (? & root0 & ch & Hr' & sx & sy & _ & _ & Hn & _ & Hc & _)%compute_shape.
  rewrite Hr in Hr'. injection Hr' as <- <- <-.
  unfold all_nodes. rewrite map_app, Hn, Hc, place_row_steps, place_children_steps.
  apply Permutation_app; [apply js_sort_perm|]. clear.
  induction children as [|c cs IH]; cbn; [done|]. by rewrite IH, js_sort_perm.
Qed.

(** A connection between a step and a child workflow is drawn from the
    middle of the bottom side of a node of the root row whose step names that
    child (by step id or by child workflow id), to the top side of the card of
    that child, which starts at most 20 pixels left of the step. *)
Theorem family_edge_links input l c f :
  compute input = Some l → c ∈ l_cards l → c_family c = Some f →
  ∃ n, n ∈ l_nodes l ∧ linked n (c_child c) ∧
    f_fromX f = n_x n + nodeWidth / 2 ∧ f_fromY f = n_y n + nodeHeight ∧
    c_x c <= f_toX f <= c_x c + c_w c ∧ f_toY f = c_y c ∧ n_x n - 20 <= c_x c.
Proof.
  intros (? & root0 & ch & _ & sx & sy & _ & _ & Hn & _ & Hc & _)%compute_shape Hin Hf.
  rewrite Hc in Hin. rewrite Hn. apply place_children_elem in Hin as (cur & child & _ & ->).
  pose proof (place_child_ok (parent_coords (place_row sx sy (js_sort step_order root0)))
                222 cur child) as [].
  apply place_child_family in Hf as (n & ? & ? & ? & ? & Hx & Hy & ?).
  exists n. rewrite (proj1 (place_child_steps _ _ _ _)). repeat split; auto; lia.
Qed.
End LayoutTheorems.

(** ** The SVG text *)
Module Svg.
Import Layout.

(** WorkflowDAG.js keeps its own copy of the escaping function; [v] may be any
    value. *)
Definition escapeHtml (v : jval) : string :=
  replace_char "'" "&#039;"
    (replace_char dquote "&quot;"
      (replace_char ">" "&gt;"
        (replace_char "<" "&lt;"
          (replace_char "&" "&amp;" (js_string v))))).

Definition truncate (str : string) (maxLen : nat) : string :=
  if String.eqb str "" then ""
  else if (maxLen <? String.length str)%nat
       then stake (maxLen - 1) str +:+ ellipsis else str.

Definition upper_of (status : jval) : string :=
  to_upper (js_string (jor status (JStr ""))).

Record status_meta := Meta { statusClass : string; statusText : string; statusColor : string }.

Definition getStepStatusMeta (step : jval) : status_meta :=
  let status := field step "status" in
  if truthy (field step "error") ||
     (truthy status && String.eqb (to_upper (js_string status)) "ERROR")
  then Meta "step-error" "ERROR" "var(--error)"
  else
    let statusStr := upper_of status in
    if String.eqb statusStr "SUCCESS" || String.eqb statusStr "COMPLETED" ||
       truthy (field step "completedAt")
    then Meta "step-success" "COMPLETED" "var(--success)"
    else if String.eqb statusStr "RUNNING" ||
            (negb (truthy (field step "completedAt")) && truthy (field step "startedAt"))
    then Meta "step-running" "RUNNING" "var(--info)"
    else Meta "step-pending" "PENDING" "var(--faint)".

(** [ms < 1000 ? `${ms}ms` : `${(ms / 1000).toFixed(2)}s`]. *)
Definition duration_text (ms : Z) : string :=
  if ms <? 1000 then string_of_Z ms +:+ "ms"
  else to_fixed 2 (dec ms 1000) +:+ "s".

(** [new Date(v).getTime()] of a time stamp of a step. *)
Definition time_of (v : jval) : option Z :=
  match v with JStr s => date_ms s | JNum n => Some n | _ => None end.

Definition getStepDurationText (step : jval) : string :=
  let durationMs := field step "durationMs" in
  let duration_ms := field step "duration_ms" in
  let from_ms :=
    if negb (nullish durationMs) || negb (nullish duration_ms) then
      match js_number (if negb (nullish durationMs) then durationMs else duration_ms) with
      | Some ms => if 0 <? ms then Some (duration_text ms) else None
      | None => None
      end
    else None in
  match from_ms with
  | Some t => t
  | None =>
      if truthy (field step "startedAt") && truthy (field step "completedAt") then
        match time_of (field step "startedAt"), time_of (field step "completedAt") with
        | Some start, Some end_ => duration_text (Z.max 0 (end_ - start))
        | _, _ => "NaNs"
        end
      else ""
  end.

Definition getWorkflowStatusColor (status : jval) : string :=
  let s := upper_of status in
  if String.eqb s "SUCCESS" then "var(--success)"
  else if String.eqb s "ERROR" then "var(--error)"
  else if String.eqb s "PENDING" || String.eqb s "ENQUEUED" then "var(--info)"
  else "var(--faint)".

Definition getOutcomeClass (status : jval) : string :=
  let s := upper_of status in
  if String.eqb s "SUCCESS" then "edge-success"
  else if String.eqb s "ERROR" then "edge-error"
  else if String.eqb s "PENDING" || String.eqb s "ENQUEUED" then "edge-running"
  else "edge-default".

Definition getMarkerSuffix (status : jval) : string :=
  let s := upper_of status in
  if String.eqb s "SUCCESS" then "success"
  else if String.eqb s "ERROR" then "error"
  else if String.eqb s "PENDING" || String.eqb s "ENQUEUED" then "running"
  else "default".

Definition Zs : Z → string := string_of_Z.

Definition step_label (step : jval) : jval :=
  jor (jor (jor (jor (field step "stepName") (field step "name"))
                (field step "functionName"))
           (field step "step_name"))
      (JStr "step").

(** The step id shown: unlike every other value of the node it is interpolated
    without escaping. *)
Definition step_id_text (step : jval) : string :=
  js_string
    (if negb (nullish (field step "stepId")) then field step "stepId"
     else if negb (nullish (field step "functionId")) then field step "functionId"
     else if negb (nullish (field step "function_id")) then field step "function_id"
     else JStr "0").

Definition renderStepNodeSvg (step : jval) (x y width height : Z)
    (statusClass statusText statusColor durationText : string) : string :=
  let stepName := step_label step in
  let stepId := step_id_text step in
  tpl [T "
  <g class=`dag-node "; H statusClass; T "` transform=`translate("; H (Zs x); T ", "; H (Zs y); T ")`
     data-step-json=`"; H (escapeHtml (JStr (default "undefined" (stringify step)))); T "`
     cursor=`pointer` tabindex=`0` role=`button`
     aria-label=`Step "; H stepId; T ": "; H (escapeHtml stepName); T " ("; H statusText; T ")`>
    <rect width=`"; H (Zs width); T "` height=`"; H (Zs height); T "` rx=`2` class=`node-bg` />
    <circle cx=`18` cy=`20` r=`4.5` fill=`"; H statusColor; T "` />

    <text x=`28` y=`24` class=`node-step-id`>#"; H stepId; T "</text>
    <text x=`48` y=`24` class=`node-name` width=`"; H (Zs (width - 55)); T "`>
      "; H (truncate (escapeHtml stepName) 20); T "
    </text>

    <text x=`18` y=`48` class=`node-status` fill=`"; H statusColor; T "`>"; H statusText; T "</text>
    "; H (if String.eqb durationText "" then "" else
          tpl [T "<text x=`"; H (Zs (width - 12)); T "` y=`48` class=`node-duration` text-anchor=`end`>";
               H durationText; T "</text>"]); T "

  </g>
"].

Definition node_svg (n : node) : string :=
  let meta := getStepStatusMeta (n_step n) in
  renderStepNodeSvg (n_step n) (n_x n) (n_y n) nodeWidth nodeHeight
    (statusClass meta) (statusText meta) (statusColor meta)
    (getStepDurationText (n_step n)).

Definition root_edge_svg (e : edge) : string :=
  let y := Zs (e_y e) in
  tpl [T "
      <path d=`M "; H (Zs (e_x1 e)); T " "; H y; T " C "; H (Zs (e_mid e)); T " "; H y; T ", ";
      H (Zs (e_mid e)); T " "; H y; T ", "; H (Zs (e_x2 e)); T " "; H y; T "`
            class=`dag-edge` marker-end=`url(#arrowhead-default)` />
    "].

Definition child_edge_svg (e : edge) : string :=
  let y := Zs (e_y e) in
  tpl [T "
            <path d=`M "; H (Zs (e_x1 e)); T " "; H y; T " C "; H (Zs (e_mid e)); T " "; H y; T ", ";
            H (Zs (e_mid e)); T " "; H y; T ", "; H (Zs (e_x2 e)); T " "; H y; T "`
                  class=`dag-edge` marker-end=`url(#arrowhead-default)` />
          "].

Definition root_card_svg (l : layout) (w h : Z) : string :=
  let rootWf := l_rootWf l in
  tpl [T "
    <g class=`dag-group-card root-group` transform=`translate(16, 20)`>
      <rect width=`"; H (Zs w); T "` height=`"; H (Zs h); T "` rx=`2` class=`group-card-bg` />
      <rect width=`"; H (Zs w); T "` height=`36` rx=`2` class=`group-card-header-bg` />
      <rect y=`26` width=`"; H (Zs w); T "` height=`10` class=`group-card-header-fill` />
      <circle cx=`16` cy=`18` r=`4.5` fill=`"; H (getWorkflowStatusColor (field rootWf "status")); T "` />
      <text x=`28` y=`22` class=`group-card-title`>Root Workflow: ";
      H (escapeHtml (jor (jor (field rootWf "workflowName") (field rootWf "workflowId")) (JStr "unnamed")));
      T "</text>
      <text x=`"; H (Zs (w - 16)); T "` y=`22` class=`group-card-meta` text-anchor=`end`>";
      H (Zs (Z.of_nat (length (l_nodes l)))); T " steps</text>
    </g>
  "].

(** [Math.max(16, Math.floor(availableTitleWidth / 7.5))]. *)
Definition max_title_chars (cardWidth : Z) : nat :=
  Z.to_nat (Z.max 16 (2 * (cardWidth - 116) / 15)).

Definition card_svg (c : card) : string :=
  let w := c_w c in
  let displayTitle := truncate (c_title c) (max_title_chars w) in
  tpl [T "
      <g class=`dag-group-card child-group` transform=`translate("; H (Zs (c_x c)); T ", "; H (Zs (c_y c)); T ")`>
        <rect width=`"; H (Zs w); T "` height=`"; H (Zs (c_h c)); T "` rx=`2` class=`group-card-bg child-card-border` />
        <rect width=`"; H (Zs w); T "` height=`36` rx=`2` class=`group-card-header-bg` />
        <rect y=`26` width=`"; H (Zs w); T "` height=`10` class=`group-card-header-fill` />
        <circle cx=`16` cy=`18` r=`4.5` fill=`"; H (getWorkflowStatusColor (field (c_wf c) "status")); T "` />
        <text x=`28` y=`22` class=`group-card-title`>"; H (escapeHtml (JStr displayTitle)); T "<title>";
        H (escapeHtml (JStr (c_title c))); T "</title></text>
        <g class=`child-card-action` data-action=`viewChildWorkflow` data-child-wf-id=`";
        H (escapeHtml (field (c_child c) "childWorkflowId")); T "` cursor=`pointer` role=`button` tabindex=`0` aria-label=`Inspect child workflow`>
          <rect x=`"; H (Zs (w - 84)); T "` y=`7` width=`72` height=`22` rx=`4` class=`action-pill-bg` />
          <text x=`"; H (Zs (w - 48)); T "` y=`21` class=`action-pill-text` text-anchor=`middle`>Inspect</text>
        </g>
      </g>
    "] +:+
  (match c_steps c with
   | [] => tpl [T "
        <text x=`"; H (Zs (c_x c + 24)); T "` y=`"; H (Zs (c_y c + 65)); T "` class=`child-empty-text`>
          No step executions recorded for child workflow
        </text>
      "]
   | _ => ""
   end).

Definition family_edge_svg (c : card) : string :=
  match c_family c with
  | None => ""
  | Some f =>
      let status := field (c_wf c) "status" in
      tpl [T "
        <path d=`M "; H (Zs (f_fromX f)); T " "; H (Zs (f_fromY f)); T " C "; H (Zs (f_fromX f)); T " ";
        H (Zs (f_midY f)); T ", "; H (Zs (f_toX f)); T " "; H (Zs (f_midY f)); T ", ";
        H (Zs (f_toX f)); T " "; H (Zs (f_toY f)); T "`
              class=`dag-family-edge "; H (getOutcomeClass status); T "`
              marker-end=`url(#arrowhead-"; H (getMarkerSuffix status); T ")` />
      "]
  end.

Definition renderEmptyDAG : string :=
  tpl [T "
  <div class=`dag-empty`>
    <svg class=`dag-empty-icon` viewBox=`0 0 24 24` fill=`none` stroke=`currentColor` stroke-width=`1.5`>
      <rect x=`3` y=`3` width=`18` height=`18` rx=`2` stroke-dasharray=`4 4` />
      <circle cx=`8.5` cy=`8.5` r=`1.5` />
      <polyline points=`21 15 16 10 5 21` />
    </svg>
    <p>No step executions recorded for this workflow.</p>
  </div>
"].

Definition render_layout (l : layout) : string :=
      let hasChildren := match l_cards l with [] => false | _ => true end in
      let nodesSvg := map_join node_svg (l_nodes l) +:+
                      map_join (λ c, map_join node_svg (c_nodes c)) (l_cards l) in
      let edgesSvg := map_join root_edge_svg (l_edges l) +:+
                      map_join (λ c, map_join child_edge_svg (c_edges c)) (l_cards l) in
      let familyEdgesSvg := map_join family_edge_svg (l_cards l) in
      let cardsSvg :=
        match l_rootCard l with Some (w, h) => root_card_svg l w h | None => "" end +:+
        map_join card_svg (l_cards l) in
      tpl [T "
  <div class=`dag-container` role=`region` aria-label=`Workflow Execution Steps DAG` id=`dag-container`>
    <div class=`dag-toolbar` role=`toolbar` aria-label=`DAG Viewport Controls`>
      <div class=`dag-legend`>
        <span class=`legend-item`><span class=`legend-dot status-success`></span> Completed</span>
        <span class=`legend-item`><span class=`legend-dot status-running`></span> Running</span>
        <span class=`legend-item`><span class=`legend-dot status-error`></span> Error</span>
        ";
  H (if hasChildren then tpl [T "<span class=`legend-item`><span class=`legend-dot status-child`></span> Child WF</span>"] else "");
  T "
      </div>
      <div class=`dag-controls`>
        <button class=`dag-btn` data-action=`dagZoomIn` title=`Zoom in` aria-label=`Zoom in`>
          <svg width=`12` height=`12` viewBox=`0 0 24 24` fill=`none` stroke=`currentColor` stroke-width=`2` aria-hidden=`true`><circle cx=`11` cy=`11` r=`8`/><line x1=`21` y1=`21` x2=`16.65` y2=`16.65`/><line x1=`11` y1=`8` x2=`11` y2=`14`/><line x1=`8` y1=`11` x2=`14` y2=`11`/></svg>
        </button>
        <button class=`dag-btn` data-action=`dagZoomOut` title=`Zoom out` aria-label=`Zoom out`>
          <svg width=`12` height=`12` viewBox=`0 0 24 24` fill=`none` stroke=`currentColor` stroke-width=`2` aria-hidden=`true`><circle cx=`11` cy=`11` r=`8`/><line x1=`21` y1=`21` x2=`16.65` y2=`16.65`/><line x1=`8` y1=`11` x2=`14` y2=`11`/></svg>
        </button>
        <button class=`dag-btn` data-action=`dagReset` title=`Reset view` aria-label=`Reset view`>
          <svg width=`12` height=`12` viewBox=`0 0 24 24` fill=`none` stroke=`currentColor` stroke-width=`2` aria-hidden=`true`><path d=`M3 12a9 9 0 1 0 9-9 9.75 9.75 0 0 0-6.74 2.74L3 8`/><polyline points=`3 3 3 8 8 8`/></svg>
          <span style=`margin-left:4px; font-size:11px;`>Reset</span>
        </button>
      </div>
    </div>
    <div class=`dag-viewport` id=`dag-viewport` tabindex=`0` role=`region` aria-label=`Workflow DAG Canvas. Use mouse or buttons to zoom and pan.`>
      <svg class=`dag-canvas` id=`dag-canvas` viewBox=`0 0 ";
  H (Zs (l_width l));
  T " ";
  H (Zs (l_height l));
  T "` xmlns=`http://www.w3.org/2000/svg`>
        <defs>
          <marker id=`arrowhead-default` markerWidth=`8` markerHeight=`6` refX=`7` refY=`3` orient=`auto`>
            <polygon points=`0 0, 8 3, 0 6` fill=`var(--line)` />
          </marker>
          <marker id=`arrowhead-success` markerWidth=`8` markerHeight=`6` refX=`7` refY=`3` orient=`auto`>
            <polygon points=`0 0, 8 3, 0 6` fill=`var(--success)` />
          </marker>
          <marker id=`arrowhead-error` markerWidth=`8` markerHeight=`6` refX=`7` refY=`3` orient=`auto`>
            <polygon points=`0 0, 8 3, 0 6` fill=`var(--error)` />
          </marker>
          <marker id=`arrowhead-running` markerWidth=`8` markerHeight=`6` refX=`7` refY=`3` orient=`auto`>
            <polygon points=`0 0, 8 3, 0 6` fill=`var(--info)` />
          </marker>
        </defs>
        <g class=`dag-zoom-layer` id=`dag-zoom-layer`>
          <g class=`dag-cards`>";
  H cardsSvg;
  T "</g>
          <g class=`dag-family-edges`>";
  H familyEdgesSvg;
  T "</g>
          <g class=`dag-edges`>";
  H edgesSvg;
  T "</g>
          <g class=`dag-nodes`>";
  H nodesSvg;
  T "</g>
        </g>
      </svg>
    </div>
  </div>
"].

Definition renderWorkflowDAG (input : jval) : string :=
  match compute input with
  | None => renderEmptyDAG
  | Some l => render_layout l
  end.
End Svg.

(** ** Markup of the text *)
Section SvgMarkup.
Import Layout Geometry Svg.

Lemma dag_escapeHtml_chain v : escapeHtml v = escape_chain (js_string v).
Proof. reflexivity. Qed.

#[export] Instance dag_escapeHtml_inert v : Inert (escapeHtml v).
Proof. rewrite dag_escapeHtml_chain. apply _. Qed.

Lemma skeleton_stake n s : Inert s → Inert (stake n s).
Proof.
  unfold Inert, skeleton. revert n. induction s as [|a s IH]; intros [|n]; cbn; try done.
  destruct (is_markup a); [done|]. apply IH.
Qed.

#[export] Instance truncate_inert s n : Inert s → Inert (truncate s n).
Proof.
  intros Hs. unfold truncate. case_tests; [apply _| |done].
  apply inert_append; [by apply skeleton_stake|apply _].
Qed.

Lemma meta_inert step :
  Inert (statusClass (getStepStatusMeta step)) ∧
  Inert (statusText (getStepStatusMeta step)) ∧
  Inert (statusColor (getStepStatusMeta step)).
Proof. unfold getStepStatusMeta. case_tests; cbn; repeat split; apply _. Qed.

#[export] Instance color_inert v : Inert (getWorkflowStatusColor v).
Proof. unfold getWorkflowStatusColor. case_tests; apply _. Qed.
#[export] Instance outcome_inert v : Inert (getOutcomeClass v).
Proof. unfold getOutcomeClass. case_tests; apply _. Qed.
#[export] Instance marker_inert v : Inert (getMarkerSuffix v).
Proof. unfold getMarkerSuffix. case_tests; apply _. Qed.

Lemma pad_zero_inert n s : Inert s → Inert (pad_zero n s).
Proof.
  intros Hs. induction n as [|n IH]; cbn; [done|].
  case_tests; [apply inert_append; [apply _|done]|done].
Qed.

#[global] Typeclasses Opaque escapeHtml truncate getWorkflowStatusColor
  getOutcomeClass getMarkerSuffix to_fixed duration_text getStepDurationText dec.

#[export] Instance to_fixed_inert d x : Inert (to_fixed d x).
Proof.
  unfold to_fixed. destruct (scaled_round _ _); [|apply _].
  case_tests; repeat apply inert_append; try apply _.
  apply pad_zero_inert, _.
Qed.

#[export] Instance duration_text_inert ms : Inert (duration_text ms).
Proof. unfold duration_text. case_tests; apply _. Qed.

#[export] Instance step_duration_inert step : Inert (getStepDurationText step).
Proof.
  unfold getStepDurationText.
  match goal with |- Inert (match ?x with _ => _ end) => set (o := x) end.
  assert (∀ t, o = Some t → Inert t) as Ho.
  { subst o. intros t. case_tests; try done; destruct (js_number _); try done;
      case_tests; try done; intros [= <-]; apply _. }
  destruct o as [t|]; [by apply Ho|].
  case_tests; [|apply _]. destruct (time_of (field step "startedAt")), (time_of (field step "completedAt")); apply _.
Qed.

(** A step whose displayed id is harmless: a number, say. *)
Definition id_safe (step : jval) : Prop := Inert (step_id_text step).

(** Two steps drawn with the same elements. *)
Definition step_shape (s s' : jval) : Prop :=
  id_safe s ∧ id_safe s' ∧ (getStepDurationText s = "" ↔ getStepDurationText s' = "").

Definition node_shape (n n' : node) : Prop := step_shape (n_step n) (n_step n').

Definition card_shape (c c' : card) : Prop :=
  (c_steps c = [] ↔ c_steps c' = []) ∧
  (c_family c = None ↔ c_family c' = None) ∧
  Forall2 node_shape (c_nodes c) (c_nodes c') ∧
  length (c_edges c) = length (c_edges c').

Definition layout_shape (l l' : layout) : Prop :=
  Forall2 node_shape (l_nodes l) (l_nodes l') ∧
  length (l_edges l) = length (l_edges l') ∧
  (l_rootCard l = None ↔ l_rootCard l' = None) ∧
  Forall2 card_shape (l_cards l) (l_cards l').

Lemma node_svg_markup n n' : node_shape n n' → node_svg n ≈ node_svg n'.
Proof.
  intros (Hi & Hi' & Hd). unfold node_svg, renderStepNodeSvg, id_safe in *.
  destruct (meta_inert (n_step n)) as (? & ? & ?).
  destruct (meta_inert (n_step n')) as (? & ? & ?).
  pose proof (step_duration_inert (n_step n)).
  pose proof (step_duration_inert (n_step n')).
  unfold Zs. markup.
  destruct (String.eqb_spec (getStepDurationText (n_step n)) "") as [E|E];
  destruct (String.eqb_spec (getStepDurationText (n_step n')) "") as [E'|E'];
    [reflexivity|tauto|tauto|markup].
Qed.

Lemma edge_svg_markup e e' : root_edge_svg e ≈ root_edge_svg e'.
Proof. unfold root_edge_svg, Zs. markup. Qed.

Lemma child_edge_svg_markup e e' : child_edge_svg e ≈ child_edge_svg e'.
Proof. unfold child_edge_svg, Zs. markup. Qed.

Lemma Forall2_length_any {A} (l l' : list A) :
  length l = length l' → Forall2 (λ _ _, True) l l'.
Proof.
  revert l'. induction l as [|x l IH]; intros [|y l']; cbn; try done.
  intros [= H]. constructor; auto.
Qed.

Lemma map_join_any {A} (f : A → string) l l' :
  (∀ x y, f x ≈ f y) → length l = length l' → map_join f l ≈ map_join f l'.
Proof.
  intros Hf Hl. apply map_join_markup2.
  eapply Forall2_impl; [by apply Forall2_length_any|]. auto.
Qed.

Lemma card_svg_markup c c' : card_shape c c' → card_svg c ≈ card_svg c'.
Proof.
  intros (Hs & _). unfold card_svg, Zs.
  apply append_markup.
  - markup.
  - destruct (c_steps c), (c_steps c'); [markup|naive_solver|naive_solver|done].
Qed.

Lemma family_edge_markup c c' : card_shape c c' → family_edge_svg c ≈ family_edge_svg c'.
Proof.
  intros (_ & Hf & _). unfold family_edge_svg, Zs.
  destruct (c_family c), (c_family c'); [markup|naive_solver|naive_solver|done].
Qed.

Lemma card_nodes_markup c c' :
  card_shape c c' → map_join node_svg (c_nodes c) ≈ map_join node_svg (c_nodes c').
Proof.
  intros (_ & _ & Hn & _). apply map_join_markup2.
  eapply Forall2_impl; [exact Hn|]. apply node_svg_markup.
Qed.

(** The page structure of a diagram does not depend on the data it shows:
    two diagrams with the same number of steps, cards and connections, whose
    step ids are harmless, have exactly the same markup characters in the same
    order, whatever the names, ids, statuses, payloads and errors contain. *)
Theorem diagram_markup_independent l l' :
  layout_shape l l' → render_layout l ≈ render_layout l'.
Proof.
  intros (Hn & He & Hr & Hc). unfold render_layout, Zs.
  assert (∀ f : card → string, (∀ c c', card_shape c c' → f c ≈ f c') →
    map_join f (l_cards l) ≈ map_join f (l_cards l')) as Hmap.
  { intros f Hf. apply map_join_markup2. eapply Forall2_impl; [exact Hc|]. auto. }
  markup.
  - inversion Hc; subst; reflexivity.
  - apply append_markup; [|apply Hmap, card_svg_markup].
    destruct (l_rootCard l) as [[w h]|], (l_rootCard l') as [[w' h']|];
      [|naive_solver|naive_solver|done].
    unfold root_card_svg, Zs. markup.
  - apply Hmap, family_edge_markup.
  - apply append_markup; [apply map_join_any; [apply edge_svg_markup|done]|].
    apply Hmap. intros c c' (_ & _ & _ & Hl).
    apply map_join_any; [apply child_edge_svg_markup|done].
  - apply append_markup; [|apply Hmap, card_nodes_markup].
    apply map_join_markup2. eapply Forall2_impl; [exact Hn|]. apply node_svg_markup.
Qed.
End SvgMarkup.

(** ** Titles, and what escaping one value less costs *)
Section SvgText.
Import Layout Geometry Svg.

(** The shortened title of a card is always the whole title: a card is
    made wide enough for it, whatever its length. *)
Theorem title_never_truncated input l c :
  compute input = Some l → c ∈ l_cards l →
  truncate (c_title c) (max_title_chars (c_w c)) = c_title c.
Proof.
  intros (? & root0 & ch & _ & sx & sy & _ & _ & _ & _ & Hc & _)%compute_shape Hin.
  rewrite Hc in Hin. apply place_children_elem in Hin as (cur & child & _ & ->).
  unfold place_child. cbn [c_title c_w].
  set (title := String.append _ _). set (n := Z.of_nat _).
  unfold truncate. destruct (String.eqb_spec title "") as [->|_]; [done|].
  rewrite (proj2 (Nat.ltb_ge _ _)); [done|].
  unfold max_title_chars. set (w := Z.max (Z.max 380 _) _).
  assert (header_width title <= w) as Hw by lia.
  unfold header_width in Hw.
  assert (Z.of_nat (String.length title) <= 2 * (w - 116) / 15); [|lia].
  apply Z.div_le_lower_bound; [lia|].
  assert (15 * Z.of_nat (String.length title) + 261 <= 2 * w + 1); [|lia].
  revert Hw. Z.to_euclidean_division_equations. lia.
Qed.

(** [truncate] never gives more than [maxLen] characters. *)
Lemma truncate_length s n :
  (1 <= n)%nat → (String.length (truncate s n) <= n)%nat.
Proof.
  intros Hn. unfold truncate. case_tests; [cbn; lia| |].
  - rewrite length_app_str, stake_length. cbn. lia.
  - apply Nat.ltb_ge in E0. lia.
Qed.

(** The step id is the one value of a node written without [escapeHtml]: a
    step whose id is a text with an element in it adds that element. *)
Lemma unescaped_step_id :
  ¬ (node_svg (Node (JObj [("stepId", JStr "<img src=x onerror=alert(1)>")]) 0 0)
     ≈ node_svg (Node (JObj [("stepId", JStr "1")]) 0 0)).
Proof. vm_compute. discriminate. Qed.

(** The name is escaped before it is shortened to 20 characters, so the cut
    can fall inside an entity and the reader sees the entity's source. *)
Lemma truncated_entity :
  decode_entities (truncate (escapeHtml (JStr "reserve-stock & bill-customer")) 20) =
    "reserve-stock &amp;" +:+ ellipsis ∨
  decode_entities (truncate (escapeHtml (JStr "reserve-stocks & bill-customer")) 20) =
    "reserve-stocks &amp" +:+ ellipsis.
Proof. right. vm_compute. reflexivity. Qed.
End SvgText.

(** ** Witnesses *)
Section DagWitnesses.
Import Layout Geometry Svg.

Definition demo_steps : list jval :=
  [JObj [("stepId", JNum 2); ("stepName", JStr "chargeCard"); ("durationMs", JNum 1250);
         ("childWorkflowId", JStr "wf-pay-1")];
   JObj [("stepId", JNum 1); ("stepName", JStr "validateCart"); ("status", JStr "SUCCESS")]].

Definition demo_family (name child : string) : jval :=
  JObj [("root", JObj [("workflow", JObj [("workflowName", JStr name)]);
                       ("steps", JArr demo_steps)]);
        ("children", JArr
          [JObj [("stepId", JNum 2); ("childWorkflowId", JStr child);
                 ("workflow", JObj [("workflowName", JStr "AuthorizePayment")]);
                 ("steps", JArr [JObj [("stepId", JNum 0)]; JObj [("stepId", JNum 1)]])];
           JObj [("stepId", JNum 9); ("childWorkflowId", JStr "wf-x")]])].

Definition no_layout : layout := MkLayout JNull [] [] None [] 0 0.
Definition layout_of (input : jval) : layout := default no_layout (compute input).

Lemma boxes_apart_witness :
  let l := layout_of (demo_family "Checkout" "wf-pay-1") in
  length (all_nodes l) = 4%nat ∧
  pairwise (λ a b, apart (node_rect a) (node_rect b)) (all_nodes l).
Proof.
  split; [vm_compute; reflexivity|].
  apply (boxes_apart (demo_family "Checkout" "wf-pay-1")). vm_compute. reflexivity.
Defined.

Lemma drawing_in_canvas_witness :
  let l := layout_of (demo_family "Checkout" "wf-pay-1") in
  Forall (λ n, inside (node_rect n) (canvas l)) (all_nodes l).
Proof.
  apply (drawing_in_canvas (demo_family "Checkout" "wf-pay-1")). vm_compute. reflexivity.
Defined.

Lemma steps_drawn_once_witness :
  map n_step (all_nodes (layout_of (demo_family "Checkout" "wf-pay-1"))) ≡ₚ
    demo_steps ++ [JObj [("stepId", JNum 0)]; JObj [("stepId", JNum 1)]].
Proof.
  apply (steps_drawn_once (demo_family "Checkout" "wf-pay-1")
           (layout_of (demo_family "Checkout" "wf-pay-1"))
           (JObj [("workflowName", JStr "Checkout")]) demo_steps
           [JObj [("stepId", JNum 2); ("childWorkflowId", JStr "wf-pay-1");
                  ("workflow", JObj [("workflowName", JStr "AuthorizePayment")]);
                  ("steps", JArr [JObj [("stepId", JNum 0)]; JObj [("stepId", JNum 1)]])];
            JObj [("stepId", JNum 9); ("childWorkflowId", JStr "wf-x")]]);
    vm_compute; reflexivity.
Defined.

Lemma family_edge_links_witness :
  let l := layout_of (demo_family "Checkout" "wf-pay-1") in
  ∃ c f n, c_family c = Some f ∧ n ∈ l_nodes l ∧ linked n (c_child c) ∧
    f_fromX f = n_x n + nodeWidth / 2.
Proof.
  pose (l := layout_of (demo_family "Checkout" "wf-pay-1")).
  pose (c := default (place_child [] 0 0 JNull) (head (l_cards l))).
  pose (f := default (FamilyEdge 0 0 0 0 0) (c_family c)).
  destruct (family_edge_links (demo_family "Checkout" "wf-pay-1") l c f)
    as (n & H1 & H2 & H3 & _).
  - vm_compute. reflexivity.
  - vm_compute. left.
  - vm_compute. reflexivity.
  - exists c, f, n. split; [vm_compute; reflexivity|]. split; [exact H1|]. split; assumption.
Defined.

Lemma step_shape_num : ∀ s s', step_id_text s = "1" ∨ step_id_text s = "2" ∨ step_id_text s = "0" →
  step_id_text s' = "1" ∨ step_id_text s' = "2" ∨ step_id_text s' = "0" →
  getStepDurationText s = getStepDurationText s' → step_shape s s'.
Proof.
  unfold step_shape, id_safe, Inert.
  intros s s' Hs Hs' ->. split; [|split; [|done]].
  - destruct Hs as [->|[->| ->]]; done.
  - destruct Hs' as [->|[->| ->]]; done.
Qed.

Ltac computed t :=
  let v := eval vm_compute in t in replace t with v by (vm_compute; reflexivity).

Ltac same_nodes :=
  repeat (constructor; [apply step_shape_num; vm_compute; tauto|]); constructor.

Lemma diagram_markup_independent_witness :
  render_layout (layout_of (demo_family "Checkout" "wf-pay-1")) ≈
  render_layout (layout_of (demo_family "</svg><script>" "wf-pay-1")).
Proof.
  set (a := layout_of (demo_family "Checkout" "wf-pay-1")).
  set (b := layout_of (demo_family "</svg><script>" "wf-pay-1")).
  apply diagram_markup_independent. split; [|split; [|split]].
  - computed (l_nodes a). computed (l_nodes b). same_nodes.
  - vm_compute. reflexivity.
  - computed (l_rootCard a). computed (l_rootCard b). split; discriminate.
  - computed (l_cards a). computed (l_cards b).
    constructor; [|constructor; [|constructor]]; (split; [|split; [|split]]);
      cbn [c_steps c_family c_nodes c_edges].
    + split; discriminate.
    + split; discriminate.
    + same_nodes.
    + reflexivity.
    + split; reflexivity.
    + split; reflexivity.
    + constructor.
    + reflexivity.
Defined.

Lemma title_never_truncated_witness :
  let c := default (place_child [] 0 0 JNull)
             (head (l_cards (layout_of (demo_family "Checkout" "wf-pay-1")))) in
  truncate (c_title c) (max_title_chars (c_w c)) = "Child Workflow: AuthorizePayment".
Proof.
  intros c. rewrite (title_never_truncated (demo_family "Checkout" "wf-pay-1")
    (layout_of (demo_family "Checkout" "wf-pay-1")) c).
  - vm_compute. reflexivity.
  - vm_compute. reflexivity.
  - vm_compute. left.
Defined.
End DagWitnesses.
