(* ===== verification/BridgeState.v ===== *)
(** The in-memory control plane of the playground: the data of
    site/playground/relay-bridge.js, its seed, and the helpers its handlers
    share (object properties, path patterns, requests and responses). *)

From Stdlib Require Import ZArith Lia Ascii String.
From stdpp Require Import base list strings gmap.
From S2P Require Import Prelude Json JsDate Html Uri.

(** ** Records *)

Record app := App {
  app_name : string; app_organization : string; app_status : string;
  app_runtime : string; app_createdAt : string }.

Record executor := Executor {
  ex_executorId : string; ex_id : string; ex_name : string; ex_appName : string;
  ex_status : string; ex_hostname : string; ex_ipAddress : string; ex_version : string;
  ex_appVersion : string; ex_language : string; ex_createdAt : string;
  ex_updatedAt : string; ex_lastHeartbeat : string }.

Record queue := Queue {
  q_name : string; q_appName : string; q_concurrency : Z; q_workerConcurrency : Z;
  q_partitionQueue : bool; q_activeCount : Z }.

Record schedule := Schedule {
  sc_name : string; sc_appName : string; sc_schedule : string;
  sc_workflowName : string; sc_status : string; sc_lastRun : string }.

Record alert := Alert {
  al_id : string; al_name : string; al_appName : string; al_ruleType : string;
  al_minIntervalSecs : Z; al_ruleMetadata : jval; al_status : string;
  al_lastFiredAt : jval }.

Record role := Role { ro_name : string; ro_isGlobal : bool; ro_permissions : jval }.

Record key := Key {
  k_id : string; k_tokenName : string; k_name : string; k_prefix : string;
  k_token : jval; k_createdAt : string;
  k_permissions : jval; k_appIds : jval; k_appNames : jval }.

Record appConfig := AppConfig {
  cf_privateMode : bool; cf_executorTimeoutSecs : Z; cf_gcRowsThreshold : option Z;
  cf_gcTimeThresholdMs : option Z; cf_globalTimeoutMs : option Z }.

(** An autoscaling policy as stored; [JUndef] is an absent property. *)
Record policy := Policy { po_queue : jval; po_rollout : jval; po_schema : jval }.

Record subject := Subject { su_type : string; su_id : string; su_display : string }.
Record target := Target { ta_type : string; ta_id : string }.

Record audit := Audit {
  au_id : string; au_emitTime : string; au_operation : string; au_status : string;
  au_subject : subject; au_target : option target; au_sourceIp : string;
  au_details : jval }.

(** The closure's [state] object, with the audit counter. *)
Record state := State {
  s_apps : list app; s_executors : list executor; s_queues : list queue;
  s_schedules : list schedule; s_alerts : list alert; s_roles : list role;
  s_members : gmap string string; s_keys : list key;
  s_appConfigs : gmap string appConfig; s_autoscaling : gmap string policy;
  s_auditLog : list audit; s_workflows : list jval; s_steps : list jval;
  s_auditSeq : Z }.

(** Functional updates of the components the handlers write. *)
Definition set_roles (r : list role) (s : state) : state :=
  State (s_apps s) (s_executors s) (s_queues s) (s_schedules s) (s_alerts s) r
    (s_members s) (s_keys s) (s_appConfigs s) (s_autoscaling s) (s_auditLog s)
    (s_workflows s) (s_steps s) (s_auditSeq s).
Definition set_members (m : gmap string string) (s : state) : state :=
  State (s_apps s) (s_executors s) (s_queues s) (s_schedules s) (s_alerts s) (s_roles s)
    m (s_keys s) (s_appConfigs s) (s_autoscaling s) (s_auditLog s)
    (s_workflows s) (s_steps s) (s_auditSeq s).
Definition set_keys (k : list key) (s : state) : state :=
  State (s_apps s) (s_executors s) (s_queues s) (s_schedules s) (s_alerts s) (s_roles s)
    (s_members s) k (s_appConfigs s) (s_autoscaling s) (s_auditLog s)
    (s_workflows s) (s_steps s) (s_auditSeq s).
Definition set_appConfigs (c : gmap string appConfig) (s : state) : state :=
  State (s_apps s) (s_executors s) (s_queues s) (s_schedules s) (s_alerts s) (s_roles s)
    (s_members s) (s_keys s) c (s_autoscaling s) (s_auditLog s)
    (s_workflows s) (s_steps s) (s_auditSeq s).
Definition set_autoscaling (p : gmap string policy) (s : state) : state :=
  State (s_apps s) (s_executors s) (s_queues s) (s_schedules s) (s_alerts s) (s_roles s)
    (s_members s) (s_keys s) (s_appConfigs s) p (s_auditLog s)
    (s_workflows s) (s_steps s) (s_auditSeq s).
Definition set_audit (l : list audit) (n : Z) (s : state) : state :=
  State (s_apps s) (s_executors s) (s_queues s) (s_schedules s) (s_alerts s) (s_roles s)
    (s_members s) (s_keys s) (s_appConfigs s) (s_autoscaling s) l
    (s_workflows s) (s_steps s) n.

(** ** Plain objects used as maps

    [obj[k]] finds an own property, or one every object inherits from
    [Object.prototype] (a function or an object, so truthy), or nothing. *)
Definition object_prototype : list string :=
  ["constructor"; "__defineGetter__"; "__defineSetter__"; "hasOwnProperty";
   "__lookupGetter__"; "__lookupSetter__"; "isPrototypeOf"; "propertyIsEnumerable";
   "toString"; "valueOf"; "__proto__"; "toLocaleString"].

Definition inherited (k : string) : bool := some (String.eqb k) object_prototype.

Inductive prop (V : Type) := Own (v : V) | Inherited | Absent.
Arguments Own {V} v.
Arguments Inherited {V}.
Arguments Absent {V}.

Definition get_prop {V} (m : gmap string V) (k : string) : prop V :=
  match m !! k with
  | Some v => Own v
  | None => if inherited k then Inherited else Absent
  end.

(** [Boolean(obj[k])] when the own values are truthy. *)
Definition has_prop {V} (m : gmap string V) (k : string) : bool :=
  match get_prop m k with Absent => false | _ => true end.

(** [obj[k] = v]: an assignment to [__proto__] creates no property. *)
Definition set_prop {V} (k : string) (v : V) (m : gmap string V) : gmap string V :=
  if String.eqb k "__proto__" then m else <[k := v]> m.

(** ** Requests and responses *)

(** The instant and the random text a handler reads, one request at a time. *)
Record env := Env {
  now_ms : Z; now_iso : string; audit_iso : string; random_text : string }.

(** A request the page makes: the path and query of its URL, [init.method]
    (or the request's own), and what [JSON.parse(init.body)] gives, [None] when
    there is no body or the parse fails. *)
Record request := Request {
  rq_path : string; rq_method : option string;
  rq_params : list (string * string); rq_body : option jval }.

Inductive body := NoBody | JsonBody (v : jval) | TextBody (s : string).
Record response := Response { rs_status : Z; rs_body : body }.

(** What [window.fetch] does: answer, hand over to the browser, or reject. *)
Inductive outcome := Respond (r : response) | NativeFetch | Rejected.

Definition json (status : Z) (v : jval) : outcome := Respond (Response status (JsonBody v)).
Definition no_content : outcome := Respond (Response 204 NoBody).

(** The error documents [{ title, status, detail }]. *)
Definition problem (status : Z) (title detail : string) : outcome :=
  json status (JObj [("title", JStr title); ("status", JNum status); ("detail", JStr detail)]).

Definition method_of (r : request) : string :=
  to_upper (match rq_method r with Some m => or_else m "GET" | None => "GET" end).

(** [let body = {}; try { if (init && init.body) body = JSON.parse(init.body); } catch (_) {}] *)
Definition body_of (r : request) : jval := default (JObj []) (rq_body r).

(** [q.get(k) || ""] on the query. *)
Definition param (r : request) (k : string) : string := default "" (assoc k (rq_params r)).

(** ** Path patterns: the anchored regular expressions over [/]-segments *)
Inductive pat :=
| Lit (s : string)          (* a fixed segment *)
| OneOf (l : list string)   (* (?:a|b) *)
| Seg                       (* [^/]+ *)
| Cap                       (* ([^/]+) *)
| Rest.                     (* (.+) up to the end *)

Fixpoint pmatch (p : list pat) (segs : list string) : option (list string) :=
  match p, segs with
  | [], [] => Some []
  | [Rest], _ :: _ =>
      let t := join "/" segs in if String.eqb t "" then None else Some [t]
  | Lit s :: p', x :: segs' => if String.eqb s x then pmatch p' segs' else None
  | OneOf l :: p', x :: segs' => if some (String.eqb x) l then pmatch p' segs' else None
  | Seg :: p', x :: segs' => if String.eqb x "" then None else pmatch p' segs'
  | Cap :: p', x :: segs' =>
      if String.eqb x "" then None
      else match pmatch p' segs' with Some caps => Some (x :: caps) | None => None end
  | _, _ => None
  end.

Definition segments (path : string) : list string := split_char "/"%char path.

(** [path.match(/^\/v2\/orgs\/[^/]+ ... $/)]: every pattern below an organization. *)
Definition org_match (p : list pat) (path : string) : option (list string) :=
  pmatch (Lit "" :: Lit "v2" :: Lit "orgs" :: Seg :: p) (segments path).

(** ** JSON of the records *)

Definition app_fields (a : app) : list (string * jval) :=
  [("name", JStr (app_name a)); ("organization", JStr (app_organization a));
   ("status", JStr (app_status a)); ("runtime", JStr (app_runtime a));
   ("createdAt", JStr (app_createdAt a))].

Definition executor_json (e : executor) : jval :=
  JObj [("executorId", JStr (ex_executorId e)); ("id", JStr (ex_id e));
        ("name", JStr (ex_name e)); ("appName", JStr (ex_appName e));
        ("status", JStr (ex_status e)); ("hostname", JStr (ex_hostname e));
        ("ipAddress", JStr (ex_ipAddress e)); ("version", JStr (ex_version e));
        ("appVersion", JStr (ex_appVersion e)); ("language", JStr (ex_language e));
        ("createdAt", JStr (ex_createdAt e)); ("updatedAt", JStr (ex_updatedAt e));
        ("lastHeartbeat", JStr (ex_lastHeartbeat e))].

Definition queue_json (q : queue) : jval :=
  JObj [("name", JStr (q_name q)); ("appName", JStr (q_appName q));
        ("concurrency", JNum (q_concurrency q));
        ("workerConcurrency", JNum (q_workerConcurrency q));
        ("partitionQueue", JBool (q_partitionQueue q));
        ("activeCount", JNum (q_activeCount q))].

Definition role_json (r : role) : jval :=
  JObj [("name", JStr (ro_name r)); ("isGlobal", JBool (ro_isGlobal r));
        ("permissions", ro_permissions r)].

Definition key_json (k : key) : jval :=
  JObj [("id", JStr (k_id k)); ("tokenName", JStr (k_tokenName k));
        ("name", JStr (k_name k)); ("prefix", JStr (k_prefix k)); ("token", k_token k);
        ("createdAt", JStr (k_createdAt k)); ("permissions", k_permissions k);
        ("appIds", k_appIds k); ("appNames", k_appNames k)].

Definition config_fields (c : appConfig) : list (string * jval) :=
  [("privateMode", JBool (cf_privateMode c));
   ("executorTimeoutSecs", JNum (cf_executorTimeoutSecs c));
   ("gcRowsThreshold", jopt_num (cf_gcRowsThreshold c));
   ("gcTimeThresholdMs", jopt_num (cf_gcTimeThresholdMs c));
   ("globalTimeoutMs", jopt_num (cf_globalTimeoutMs c))].

Definition policy_json (p : policy) : jval :=
  JObj [("queue", po_queue p); ("rollout", po_rollout p); ("$schema", po_schema p)].

Definition audit_json (a : audit) : jval :=
  JObj [("id", JStr (au_id a)); ("emitTime", JStr (au_emitTime a));
        ("operation", JStr (au_operation a)); ("status", JStr (au_status a));
        ("subject", JObj [("type", JStr (su_type (au_subject a)));
                          ("id", JStr (su_id (au_subject a)));
                          ("display", JStr (su_display (au_subject a)))]);
        ("target", match au_target a with
                   | Some t => JObj [("type", JStr (ta_type t)); ("id", JStr (ta_id t))]
                   | None => JNull
                   end);
        ("sourceIp", JStr (au_sourceIp a)); ("details", au_details a)].

(** ** The seed *)

Definition strs (l : list string) : jval := JArr (map JStr l).

Definition full_permissions : jval :=
  strs ["application.read"; "application.write"; "websocket.connect"; "metric.read";
        "organization.read"; "organization.write"; "token.read"; "token.write"].

Definition default_config : appConfig := AppConfig false 10 None None None.

Definition seed_step (n : Z) (name output : string) (child : list (string * jval))
    (dur : Z) (started completed : string) : jval :=
  JObj ([("functionId", JNum n); ("function_id", JNum n); ("stepId", JStr (string_of_Z n));
         ("stepName", JStr name); ("name", JStr name); ("status", JStr "SUCCESS");
         ("output", JStr (Html.q output))] ++ child ++
        [("durationMs", JNum dur); ("duration_ms", JNum dur);
         ("startedAt", JStr started); ("completedAt", JStr completed)]).

(** The state when the script starts; [t] is the time of the executor's
    heartbeat. *)
Definition initial_state (t : string) : state :=
  State
    [App "ecommerce-checkout" "default" "AVAILABLE" "typescript" "2026-09-18T18:00:00Z"]
    [Executor "wasm-executor-1" "wasm-executor-1" "ecommerce-checkout" "ecommerce-checkout"
       "HEALTHY" "browser-wasm" "127.0.0.1" "1.0.0" "1.0.0" "typescript"
       "2026-09-18T18:00:00Z" t t]
    [Queue "orders-vip" "ecommerce-checkout" 20 4 false 1;
     Queue "orders-standard" "ecommerce-checkout" 50 5 false 2]
    [Schedule "nightly-invoices-cron" "ecommerce-checkout" "0 2 * * *"
       "ReconcileDailyInvoices" "ACTIVE" "2026-11-06T02:00:00Z";
     Schedule "hourly-warehouse-sync" "ecommerce-checkout" "0 * * * *"
       "SyncWarehouseStock" "ACTIVE" "2026-11-06T05:00:00Z"]
    [Alert "rule-1" "High Error Rate" "ecommerce-checkout" "WorkflowFailure" 60
       (JObj [("channel", JStr "slack"); ("severity", JStr "critical")]) "ACTIVE"
       (JStr "2026-11-06T04:43:37Z");
     Alert "rule-2" "Slow Queue" "ecommerce-checkout" "SlowQueue" 120
       (JObj [("channel", JStr "pagerduty"); ("threshold_ms", JNum 5000)]) "ACTIVE" JNull]
    [Role "admin" true full_permissions;
     Role "operator" true full_permissions;
     Role "viewer" true
       (strs ["application.read"; "metric.read"; "organization.read"; "token.read"]);
     Role "deploy-operator" false
       (strs ["application.read"; "application.write"; "websocket.connect"])]
    {["alice@example.com" := "admin"; "bob@example.com" := "viewer"]}
    [Key "key-1" "dev-local-key" "dev-local-key" "dbos_sec_dev" JUndef
       "2026-09-18T18:00:00Z" (strs ["*"]) (strs ["*"]) (strs ["*"])]
    {["ecommerce-checkout" := default_config]}
    ∅
    [Audit "audit-seed-1" "2026-09-18T18:05:00Z" "workflow.cancel" "success"
       (Subject "user" "user_alice" "alice@example.com")
       (Some (Target "workflow" "wf-ord-89214")) "127.0.0.1"
       (JObj [("application_name", JStr "ecommerce-checkout")]);
     Audit "audit-seed-2" "2026-09-18T18:06:00Z" "token.create" "success"
       (Subject "api_key" "key-1" "dev-local-key")
       (Some (Target "token" "dev-local-key")) "127.0.0.1" (JObj [])]
    [JObj [("workflowId", JStr "wf-ord-89214"); ("workflow_id", JStr "wf-ord-89214");
           ("workflowName", JStr "ProcessCheckoutWorkflow");
           ("workflow_name", JStr "ProcessCheckoutWorkflow");
           ("name", JStr "ProcessCheckoutWorkflow"); ("status", JStr "SUCCESS");
           ("createdAt", JStr "2026-09-18T18:00:00Z"); ("created_at", JStr "2026-09-18T18:00:00Z");
           ("updatedAt", JStr "2026-09-18T18:00:01.242Z");
           ("updated_at", JStr "2026-09-18T18:00:01.242Z");
           ("completedAt", JStr "2026-09-18T18:00:01.242Z");
           ("completed_at", JStr "2026-09-18T18:00:01.242Z");
           ("durationMs", JNum 1242); ("duration_ms", JNum 1242);
           ("authenticatedUser", JStr "alice@example.com");
           ("authenticated_user", JStr "alice@example.com");
           ("output", JStr (Html.q "{`orderId`:`wf-ord-89214`,`status`:`FULFILLED`}"))]]
    [seed_step 1 "validateCart" "{`valid`:true,`items`:2}" [] 310
       "2026-09-18T18:00:00.000Z" "2026-09-18T18:00:00.310Z";
     seed_step 2 "reserveInventory" "{`reserved`:true,`sku`:`DBOS-RELAY-KEY`}" [] 245
       "2026-09-18T18:00:00.310Z" "2026-09-18T18:00:00.555Z";
     seed_step 3 "authorizePaymentGateway" "{`authId`:`wf-child-auth-01`}"
       [("childWorkflowId", JStr "wf-child-auth-01"); ("child_workflow_id", JStr "wf-child-auth-01")]
       412 "2026-09-18T18:00:00.555Z" "2026-09-18T18:00:00.967Z";
     seed_step 4 "scheduleShipping" "{`carrier`:`FastTrack`,`tracking`:`FT-99124`}" [] 180
       "2026-09-18T18:00:00.967Z" "2026-09-18T18:00:01.147Z";
     seed_step 5 "sendReceiptNotification" "{`delivered`:true}" [] 95
       "2026-09-18T18:00:01.147Z" "2026-09-18T18:00:01.242Z"]
    100.

(** [pushAudit(operation, status, target)]: newest first. *)
Definition pushAudit (e : env) (operation status : string) (t : option target) (s : state) : state :=
  set_audit
    (Audit ("audit-play-" +:+ string_of_Z (s_auditSeq s)) (audit_iso e) operation status
       (Subject "user" "user_playground" "playground-user") t "127.0.0.1" (JObj [])
     :: s_auditLog s)
    (s_auditSeq s + 1) s.

(** ** Lemmas on the object maps *)

#[global] Arguments inherited : simpl never.

Lemma has_prop_cases {V} (m : gmap string V) k :
  (∃ v, m !! k = Some v ∧ has_prop m k = true) ∨
  (m !! k = None ∧ inherited k = true ∧ has_prop m k = true) ∨
  (m !! k = None ∧ inherited k = false ∧ has_prop m k = false).
Proof.
  unfold has_prop, get_prop. destruct (m !! k) as [v|]; [left; eauto|].
  destruct (inherited k); auto.
Qed.

Lemma set_prop_own {V} (m : gmap string V) k v :
  inherited k = false → set_prop k v m = <[k := v]> m.
Proof. unfold set_prop. by destruct (String.eqb_spec k "__proto__") as [->|]. Qed.
