(* ===== verification/BridgeRoutes.v ===== *)
(** The request handlers of site/playground/relay-bridge.js, one per numbered
    route of the source, and [fetch], which tries them in order.

    A handler is a function of the state and the request: [None] when its
    pattern (or its method test) does not apply and the next one is tried,
    otherwise the new state and the outcome.  The database the bridge finds in
    the page (PGlite, or the playground's stand-in) is a parameter. *)

From Stdlib Require Import ZArith Lia Ascii String.
From stdpp Require Import base list strings gmap.
From S2P Require Import Prelude Json JsDate Html Uri BridgeState.

Section Routes.
(** [window.pgliteDb]: absent, or its [query] method; the inner [None] is a
    query that throws. *)
Context (pgliteDb : option (string → list jval → option (list jval))).
Context (e : env).

Notation result := (option (state * outcome)).

Definition queryDb (sql : string) (params : list jval) : option (list jval) :=
  match pgliteDb with Some query => query sql params | None => None end.

(** [rows && rows.length > 0 ? rows : nothing]. *)
Definition some_rows (rows : option (list jval)) : option (list jval) :=
  match rows with Some (r :: rs) => Some (r :: rs) | _ => None end.

Definition static_asset (path : string) : bool :=
  includes path "/assets/" || ends_with path ".js" || ends_with path ".css" ||
  ends_with path ".svg" || ends_with path ".png".

(** ** Reading routes *)

Definition route_assets (s : state) (r : request) : result :=
  if static_asset (rq_path r) then Some (s, NativeFetch) else None.

Definition route_users (s : state) (r : request) : result :=
  if String.eqb (rq_path r) "/v2/users/me" || String.eqb (rq_path r) "/v2/users" then
    Some (s, json 404 (JObj
      [("type", JStr "https://relay.dbos.dev/errors/not-found");
       ("title", JStr "Not Found"); ("status", JNum 404);
       ("detail", JStr "User endpoint disabled in self-hosted no-auth playground mode")]))
  else None.

Definition app_row (r : jval) : jval :=
  JObj [("name", field r "name"); ("organization", field r "organization");
        ("status", field r "status"); ("runtime", field r "runtime");
        ("language", field r "runtime"); ("createdAt", field r "created_at")].

Definition list_apps (s : state) : outcome :=
  let rows := queryDb "SELECT name, organization, status, runtime, created_at FROM applications;" [] in
  json 200 (JArr
    match some_rows rows with
    | Some rs => map app_row rs
    | None => map (λ a, JObj (app_fields a)) (s_apps s)
    end).

Definition route_apps (s : state) (r : request) : result :=
  match org_match [Lit "apps"] (rq_path r) with
  | None => None
  | Some _ => Some (s, list_apps s)
  end.

Definition executor_row (appName : string) (r : jval) : jval :=
  let heartbeat := jor (field r "last_heartbeat") (JStr (now_iso e)) in
  JObj [("executorId", field r "id"); ("id", field r "id");
        ("name", jor (field r "name") (JStr appName));
        ("appName", jor (field r "name") (JStr appName));
        ("status", JStr (to_upper (js_string (jor (field r "status") (JStr "HEALTHY")))));
        ("hostname", jor (field r "hostname") (JStr "browser-wasm"));
        ("ipAddress", field r "ip_address");
        ("version", jor (field r "version") (JStr "1.0.0"));
        ("appVersion", jor (field r "version") (JStr "1.0.0"));
        ("language", jor (field r "language") (JStr "typescript"));
        ("createdAt", JStr "2026-09-18T18:00:00Z");
        ("updatedAt", heartbeat); ("lastHeartbeat", heartbeat)].

Definition list_executors (s : state) (appName : string) : outcome :=
  let rows := queryDb
    ("SELECT e.id, e.name, e.status, e.hostname, e.ip_address, e.version, e.last_heartbeat, a.runtime AS language " +:+
     "FROM executors e LEFT JOIN applications a ON a.name = e.name WHERE e.name = $1;")
    [JStr appName] in
  json 200 (JArr
    match some_rows rows with
    | Some rs => map (executor_row appName) rs
    | None => map executor_json
                (keep (λ x, String.eqb (ex_appName x) appName) (s_executors s))
    end).

Definition route_executors (s : state) (r : request) : result :=
  match org_match [Lit "apps"; Cap; Lit "executors"] (rq_path r) with
  | Some [a] =>
      match decodeURIComponent a with
      | None => Some (s, Rejected)
      | Some appName => Some (s, list_executors s appName)
      end
  | _ => None
  end.

Definition is_terminal (status : jval) : bool :=
  let st := to_upper (js_string (jor status (JStr ""))) in
  some (String.eqb st) ["SUCCESS"; "ERROR"; "CANCELLED"].

(** [new Date(new Date(v).getTime() + dur).toISOString()]: throws on an
    invalid date. *)
Definition shifted (v dur : jval) : option jval :=
  match v, dur with
  | JStr t, JNum d =>
      match date_ms t with Some ms => Some (JStr (to_iso (ms + d))) | None => None end
  | _, _ => None
  end.

Definition completed_at (r : jval) : option jval :=
  if is_terminal (field r "status") then
    if truthy (field r "updated_at") then Some (field r "updated_at")
    else if truthy (field r "created_at")
    then shifted (field r "created_at") (jor (field r "duration_ms") (JNum 0))
    else Some JNull
  else Some JNull.

(** A row of [dbos.workflow_status] as the API gives it; [None] when the date
    arithmetic throws. *)
Definition workflow_row (r : jval) : option jval :=
  match completed_at r with
  | None => None
  | Some completedAt =>
      let dur := jor (field r "duration_ms") (JNum 0) in
      let user := jor (field r "authenticated_user") (JStr "playground-user") in
      let version := jor (jor (field r "app_version") (field r "application_version")) (JStr "-") in
      Some (JObj
        [("workflowId", field r "workflow_id"); ("workflow_id", field r "workflow_id");
         ("workflowName", field r "name"); ("workflow_name", field r "name");
         ("name", field r "name"); ("status", field r "status");
         ("createdAt", field r "created_at"); ("created_at", field r "created_at");
         ("updatedAt", field r "updated_at"); ("updated_at", field r "updated_at");
         ("completedAt", completedAt); ("completed_at", completedAt);
         ("durationMs", dur); ("duration_ms", dur);
         ("authenticatedUser", user); ("authenticated_user", user);
         ("appVersion", version); ("applicationVersion", version);
         ("output", field r "output"); ("error", field r "error")])
  end.

Definition sql_list_workflows : string :=
  "SELECT workflow_id, status, name, authenticated_user, output, error, duration_ms, created_at, updated_at, app_version, application_version " +:+
  "FROM dbos.workflow_status WHERE app_id = $1 ORDER BY created_at DESC LIMIT 50;".

Definition list_workflows (appName : string) : outcome :=
  match mapM workflow_row (default [] (queryDb sql_list_workflows [JStr appName])) with
  | Some data => json 200 (JArr data)
  | None => Rejected
  end.

Definition route_workflows (s : state) (r : request) : result :=
  match org_match [Lit "apps"; Cap; Lit "workflows"] (rq_path r) with
  | Some [a] =>
      match decodeURIComponent a with
      | None => Some (s, Rejected)
      | Some appName => Some (s, list_workflows appName)
      end
  | _ => None
  end.

Definition step_row (r : jval) : option jval :=
  let dur := jor (field r "duration_ms") (JNum 100) in
  let status := to_upper (js_string (jor (field r "status") (JStr "SUCCESS"))) in
  let createdAt :=
    if truthy (field r "created_at") then shifted (field r "created_at") (JNum 0)
    else Some (JStr (now_iso e)) in
  match createdAt with
  | None => None
  | Some createdAt =>
      let completed :=
        if String.eqb status "SUCCESS" then shifted createdAt dur else Some JNull in
      match completed with
      | None => None
      | Some completedAt =>
          Some (JObj
            [("functionId", field r "function_id"); ("function_id", field r "function_id");
             ("stepId", field r "function_id"); ("stepName", field r "name");
             ("name", field r "name"); ("status", JStr status);
             ("output", field r "output"); ("error", field r "error");
             ("childWorkflowId", field r "child_workflow_id");
             ("child_workflow_id", field r "child_workflow_id");
             ("durationMs", dur); ("duration_ms", dur);
             ("startedAt", createdAt); ("completedAt", completedAt)])
      end
  end.

Definition list_steps (s : state) (workflowId : string) : outcome :=
  let rows := queryDb
    ("SELECT function_id, name, status, output, error, child_workflow_id, duration_ms, created_at " +:+
     "FROM dbos.operation_execution WHERE workflow_id = $1 ORDER BY function_id ASC;")
    [JStr workflowId] in
  match some_rows rows with
  | Some rs =>
      match mapM step_row rs with
      | Some data => json 200 (JArr data)
      | None => Rejected
      end
  | None => json 200 (JArr (if String.eqb workflowId "wf-ord-89214" then s_steps s else []))
  end.

(** The captured segment is the identifier as it stands, not decoded. *)
Definition route_steps (s : state) (r : request) : result :=
  match org_match [Lit "apps"; Seg; Lit "workflows"; Cap; Lit "steps"] (rq_path r) with
  | Some [workflowId] => Some (s, list_steps s workflowId)
  | _ => None
  end.

Definition list_events (workflowId : string) : outcome :=
  let rows := queryDb "SELECT key, value FROM dbos.workflow_events WHERE workflow_id = $1;"
                [JStr workflowId] in
  json 200 (JArr (default [] rows)).

Definition route_events (s : state) (r : request) : result :=
  match org_match [Lit "apps"; Seg; Lit "workflows"; Cap; Lit "events"] (rq_path r) with
  | Some [workflowId] => Some (s, list_events workflowId)
  | _ => None
  end.

Definition route_notifications (s : state) (r : request) : result :=
  match org_match [Lit "apps"; Seg; Lit "workflows"; Cap; Lit "notifications"] (rq_path r) with
  | Some [_] => Some (s, json 200 (JArr []))
  | _ => None
  end.

Definition get_workflow (s : state) (workflowId : string) : outcome :=
  let rows := queryDb
    ("SELECT workflow_id, status, name, authenticated_user, output, error, duration_ms, created_at, updated_at " +:+
     "FROM dbos.workflow_status WHERE workflow_id = $1;") [JStr workflowId] in
  match some_rows rows with
  | Some (r0 :: _) =>
      match workflow_row r0 with
      | Some data => json 200 data
      | None => Rejected
      end
  | _ =>
      match find (λ w, is_str (jor (field w "workflowId") (field w "workflow_id")) workflowId)
                 (s_workflows s) with
      | Some w => json 200 w
      | None => json 404 (JObj [("title", JStr "Workflow not found"); ("status", JNum 404)])
      end
  end.

Definition route_workflow (s : state) (r : request) : result :=
  match org_match [Lit "apps"; Seg; Lit "workflows"; Cap] (rq_path r) with
  | Some [workflowId] => Some (s, get_workflow s workflowId)
  | _ => None
  end.

Definition list_queues (s : state) (appName : string) : outcome :=
  json 200 (JArr (map queue_json (keep (λ x, String.eqb (q_appName x) appName) (s_queues s)))).

Definition route_queues (s : state) (r : request) : result :=
  match org_match [Lit "apps"; Cap; Lit "queues"] (rq_path r) with
  | Some [a] =>
      match decodeURIComponent a with
      | None => Some (s, Rejected)
      | Some appName => Some (s, list_queues s appName)
      end
  | _ => None
  end.

Definition schedule_view (x : schedule) : jval :=
  JObj [("scheduleName", JStr (sc_name x)); ("name", JStr (sc_name x));
        ("appName", JStr (sc_appName x)); ("workflowName", JStr (sc_workflowName x));
        ("cronExpression", JStr (sc_schedule x)); ("schedule", JStr (sc_schedule x));
        ("status", JStr (sc_status x)); ("lastFiredAt", JStr (sc_lastRun x));
        ("lastRun", JStr (sc_lastRun x))].

Definition list_schedules (s : state) (appName : string) : outcome :=
  json 200 (JArr (map schedule_view
    (keep (λ x, String.eqb (sc_appName x) appName) (s_schedules s)))).

Definition route_schedules (s : state) (r : request) : result :=
  match org_match [Lit "apps"; Cap; Lit "schedules"] (rq_path r) with
  | Some [a] =>
      match decodeURIComponent a with
      | None => Some (s, Rejected)
      | Some appName => Some (s, list_schedules s appName)
      end
  | _ => None
  end.

(** [{ ...a, ruleType: a.ruleType || a.metric || .., .. }]; no alert has a
    [metric]. *)
Definition alert_view (x : alert) : jval :=
  JObj [("id", JStr (al_id x)); ("name", JStr (al_name x)); ("appName", JStr (al_appName x));
        ("ruleType", JStr (or_else (al_ruleType x) "WorkflowFailure"));
        ("minIntervalSecs", jor (JNum (al_minIntervalSecs x)) (JNum 60));
        ("ruleMetadata", jor (al_ruleMetadata x)
          (JObj [("channel", JStr "slack"); ("severity", JStr "warning")]));
        ("status", JStr (al_status x)); ("lastFiredAt", al_lastFiredAt x)].

Definition list_alerts (s : state) (appName : string) : outcome :=
  json 200 (JArr (map alert_view
    (keep (λ x, String.eqb (al_appName x) appName) (s_alerts s)))).

(** Whatever the method. *)
Definition route_alerts (s : state) (r : request) : result :=
  match org_match [Lit "apps"; Cap; OneOf ["alerts"; "alerting-rules"]] (rq_path r) with
  | Some [a] =>
      match decodeURIComponent a with
      | None => Some (s, Rejected)
      | Some appName => Some (s, list_alerts s appName)
      end
  | _ => None
  end.

(** ** API keys *)

Definition route_list_keys (s : state) (r : request) : result :=
  match org_match [OneOf ["tokens"; "keys"]] (rq_path r) with
  | Some _ =>
      if String.eqb (method_of r) "GET" then Some (s, json 200 (JArr (map key_json (s_keys s))))
      else None
  | None => None
  end.

Definition revoke_key (s : state) (name : string) : state * outcome :=
  let s := set_keys (keep (λ k, negb (String.eqb (k_tokenName k) name) &&
                                negb (String.eqb (k_name k) name)) (s_keys s)) s in
  (pushAudit e "token.revoke" "success" (Some (Target "token" name)) s, no_content).

Definition new_key (name : string) (perms apps : jval) : key :=
  Key ("key-" +:+ string_of_Z (now_ms e)) name name "dbos_sec_browser"
    (JStr ("dbos_sec_" +:+ random_text e)) (now_iso e)
    (jor perms (strs ["*"])) (jor apps (strs ["*"])) (jor apps (strs ["*"])).

Definition create_key (s : state) (name : string) (body : jval) : state * outcome :=
  match jget body "permissions", jget body "appNames" with
  | Some perms, Some apps =>
      let newKey := new_key name perms apps in
      let s := set_keys (s_keys s ++ [newKey]) s in
      (pushAudit e "token.create" "success" (Some (Target "token" name)) s,
       json 201 (key_json newKey))
  | _, _ => (s, Rejected)
  end.

Definition route_token (s : state) (r : request) : result :=
  match org_match [Lit "tokens"; Cap] (rq_path r) with
  | Some [a] =>
      match decodeURIComponent a with
      | None => Some (s, Rejected)
      | Some name =>
          if String.eqb (method_of r) "DELETE" then Some (revoke_key s name)
          else if String.eqb (method_of r) "POST" then Some (create_key s name (body_of r))
          else None
      end
  | _ => None
  end.

(** ** Workflow operations *)

(** [path.match(/\/workflows\/([^/]+)\/(cancel|resume|fork)$/)]. *)
Definition wf_op_match (path : string) : option (string * string) :=
  match rev (segments path) with
  | op :: id :: w :: _ :: _ =>
      if String.eqb w "workflows" && negb (String.eqb id "") &&
         some (String.eqb op) ["cancel"; "resume"; "fork"]
      then Some (id, op) else None
  | _ => None
  end.

Definition workflow_op (s : state) (op wf : string) : state * outcome :=
  (pushAudit e ("workflow." +:+ op) "success" (Some (Target "workflow" wf)) s,
   json 200 (JObj [("status", JStr "SUCCESS")])).

Definition unknown_op : outcome := problem 404 "Not Found" "unknown workflow operation".

(** The paths the handler claims. *)
Definition op_word (path : string) : bool :=
  includes path "/cancel" || includes path "/resume" || includes path "/fork".

Definition route_wf_op (s : state) (r : request) : result :=
  let path := rq_path r in
  if op_word path then
    match wf_op_match path with
    | None => Some (s, unknown_op)
    | Some (id, op) =>
        match decodeURIComponent id with
        | None => Some (s, Rejected)
        | Some wf => Some (workflow_op s op wf)
        end
    end
  else None.

(** ** Application settings *)

(** [apply(key, pred)] for each of the five settings: a value of the right
    type replaces the setting, anything else is ignored.  [None] when reading
    the body throws. *)
Definition apply_bool (v : jval) (old : bool) : bool * bool :=
  match v with JBool b => (b, true) | _ => (old, false) end.
Definition apply_num (v : jval) (old : Z) : Z * bool :=
  match v with JNum n => (n, true) | _ => (old, false) end.
Definition apply_opt (v : jval) (old : option Z) : option Z * bool :=
  match v with JNum n => (Some n, true) | JNull => (None, true) | _ => (old, false) end.

Definition apply_settings (b : jval) (c : appConfig) : option (appConfig * bool) :=
  match jget b "privateMode", jget b "executorTimeoutSecs", jget b "gcRowsThreshold",
        jget b "gcTimeThresholdMs", jget b "globalTimeoutMs" with
  | Some v1, Some v2, Some v3, Some v4, Some v5 =>
      let '(pm, c1) := apply_bool v1 (cf_privateMode c) in
      let '(et, c2) := apply_num v2 (cf_executorTimeoutSecs c) in
      let '(gr, c3) := apply_opt v3 (cf_gcRowsThreshold c) in
      let '(gt, c4) := apply_opt v4 (cf_gcTimeThresholdMs c) in
      let '(gl, c5) := apply_opt v5 (cf_globalTimeoutMs c) in
      Some (AppConfig pm et gr gt gl, c1 || c2 || c3 || c4 || c5)
  | _, _, _, _, _ => None
  end.

(** [Object.assign({}, app, config)]: the names do not overlap. *)
Definition app_with_config (a : list (string * jval)) (c : option appConfig) : jval :=
  JObj (a ++ match c with Some c => config_fields c | None => [] end).

(** The registry row of an application: the bridge's own, else the database's. *)
Definition find_app (s : state) (appName : string) : option (list (string * jval)) :=
  match find (λ a, String.eqb (app_name a) appName) (s_apps s) with
  | Some a => Some (app_fields a)
  | None =>
      match some_rows (queryDb
              "SELECT name, organization, status, runtime, created_at FROM applications WHERE name = $1;"
              [JStr appName]) with
      | Some (r :: _) =>
          Some [("name", field r "name"); ("organization", field r "organization");
                ("status", field r "status"); ("runtime", field r "runtime");
                ("createdAt", field r "created_at")]
      | _ => None
      end
  end.

(** The application's record is written on its first visit. *)
Definition with_default_config (s : state) (appName : string) : state :=
  if has_prop (s_appConfigs s) appName then s
  else set_appConfigs (set_prop appName default_config (s_appConfigs s)) s.

Definition app_not_found : outcome := problem 404 "Not Found" "application not found".

Definition patch_app (s : state) (appName : string) (body : jval) : state * outcome :=
  let cfg := s_appConfigs s !! appName in
  match apply_settings body (default default_config cfg) with
  | None => (s, Rejected)
  | Some (cfg', changed) =>
      let s := match cfg with
               | Some _ => set_appConfigs (<[appName := cfg']> (s_appConfigs s)) s
               | None => s (* an inherited object, not tracked *)
               end in
      (if changed
       then pushAudit e "application.update" "success" (Some (Target "application" appName)) s
       else s,
       no_content)
  end.

Definition serve_app (s : state) (appName method : string) (body : jval) : state * outcome :=
  match find_app s appName with
  | None => (s, app_not_found)
  | Some fields =>
      let s := with_default_config s appName in
      if String.eqb method "PATCH" then patch_app s appName body
      else (s, json 200 (app_with_config fields (s_appConfigs s !! appName)))
  end.

Definition route_app (s : state) (r : request) : result :=
  match org_match [Lit "apps"; Cap] (rq_path r) with
  | Some [a] =>
      let method := method_of r in
      if String.eqb method "GET" || String.eqb method "PATCH" then
        match decodeURIComponent a with
        | None => Some (s, Rejected)
        | Some appName => Some (serve_app s appName method (body_of r))
        end
      else None
  | _ => None
  end.

(** ** Autoscaling *)

Definition no_policy : outcome :=
  problem 404 "Not Found" "no autoscaling policy configured for application".

Definition put_policy (s : state) (appName : string) (body : jval) : state * outcome :=
  match jget body "queue" with
  | None => (s, Rejected)
  | Some bqueue =>
      if negb (truthy bqueue) then
        (s, problem 400 "Bad Request" "autoscaling policy must name a queue")
      else
        match find (λ x, is_str bqueue (q_name x)) (s_queues s) with
        | None => (s, problem 400 "Bad Request" "unknown queue")
        | Some queue =>
            if q_partitionQueue queue then
              (s, problem 400 "Bad Request" "queue is partitioned and cannot drive autoscaling")
            else if negb (0 <? q_workerConcurrency queue) then
              (s, problem 400 "Bad Request" "queue has no worker concurrency set")
            else
              let rollout := field body "rollout" in
              let stored := Policy bqueue (if truthy rollout then rollout else JUndef)
                              (field body "$schema") in
              let s := set_autoscaling (set_prop appName stored (s_autoscaling s)) s in
              (pushAudit e "autoscaling_policy.set" "success"
                 (Some (Target "application" appName)) s,
               json 200 (JObj [("policy", policy_json stored)]))
        end
  end.

Definition get_policy (s : state) (appName : string) : outcome :=
  match get_prop (s_autoscaling s) appName with
  | Absent => no_policy
  | Own stored => json 200 (JObj [("policy", policy_json stored)])
  | Inherited => json 200 (JObj [("policy", JUndef)])
  end.

Definition delete_policy (s : state) (appName : string) : state * outcome :=
  let removed := has_prop (s_autoscaling s) appName in
  let s := set_autoscaling (delete appName (s_autoscaling s)) s in
  (if removed
   then pushAudit e "autoscaling_policy.delete" "success" (Some (Target "application" appName)) s
   else s,
   no_content).

Definition route_policy (s : state) (r : request) : result :=
  match org_match [Lit "apps"; Cap; Lit "autoscaling-policy"] (rq_path r) with
  | Some [a] =>
      match decodeURIComponent a with
      | None => Some (s, Rejected)
      | Some appName =>
          let method := method_of r in
          if String.eqb method "GET" then Some (s, get_policy s appName)
          else if String.eqb method "PUT" then Some (put_policy s appName (body_of r))
          else if String.eqb method "DELETE" then Some (delete_policy s appName)
          else None
      end
  | _ => None
  end.

(** [Math.ceil(a / b)] for integers, [b] positive. *)
Definition ceil_div (a b : Z) : Z := - ((- a) / b).

Definition desired_executors (depth workerConcurrency concurrency : Z) : Z :=
  let desired := Z.max 1 (ceil_div depth workerConcurrency) in
  if 0 <? concurrency then Z.min desired (ceil_div concurrency workerConcurrency) else desired.

Definition queue_depth : Z :=
  match some_rows (queryDb
    "SELECT COUNT(*) AS n FROM dbos.workflow_status WHERE status IN ('ENQUEUED','PENDING');" []) with
  | Some (r :: _) =>
      match field r "n" with
      | JUndef => 0
      | n => default 0 (js_number n)
      end
  | _ => 0
  end.

Definition recommend (s : state) (queueName : jval) : Z * Z * jval :=
  let queue := find (λ x, is_str queueName (q_name x)) (s_queues s) in
  let workerConcurrency :=
    match queue with
    | Some x => if 0 <? q_workerConcurrency x then q_workerConcurrency x else 1
    | None => 1
    end in
  let concurrency := match queue with Some x => q_concurrency x | None => 0 end in
  let depth := queue_depth in
  let desired := desired_executors depth workerConcurrency concurrency in
  (desired, depth,
   JObj [("applicationVersion", JStr "1.0.0"); ("isLatest", JBool true);
         ("desiredExecutors", JNum desired); ("queueName", queueName);
         ("queueDepth", JNum depth); ("observedAt", JNum (now_ms e))]).

Definition autoscale (s : state) (appName : string) (version : option string) : outcome :=
  match (match get_prop (s_autoscaling s) appName with
         | Absent => None
         | Own p => Some (po_queue p)
         | Inherited => Some JUndef
         end) with
  | None => no_policy
  | Some queueName =>
      let '(_, _, rec) := recommend s queueName in
      match version with
      | None => json 200 (JArr [rec])
      | Some v =>
          match decodeURIComponent v with
          | None => Rejected
          | Some version =>
              if negb (String.eqb version "latest") && negb (String.eqb version "1.0.0")
              then problem 404 "Not Found" "application version was never registered"
              else json 200 rec
          end
      end
  end.

Definition route_autoscale (s : state) (r : request) : result :=
  let m :=
    match org_match [Lit "apps"; Cap; Lit "autoscale"] (rq_path r) with
    | Some [a] => Some (a, None)
    | _ =>
        match org_match [Lit "apps"; Cap; Lit "autoscale"; Lit "versions"; Rest] (rq_path r) with
        | Some [a; v] => Some (a, Some v)
        | _ => None
        end
    end in
  match m with
  | None => None
  | Some (a, version) =>
      if String.eqb (method_of r) "GET" then
        match decodeURIComponent a with
        | None => Some (s, Rejected)
        | Some appName => Some (s, autoscale s appName version)
        end
      else None
  end.

(** ** Audit log *)

(** What the query string asks for; [None] is the 400 answer. *)
Record audit_query := AuditQuery {
  aq_operation : string; aq_subject : string; aq_target : string;
  aq_startTime : string; aq_endTime : string; aq_limit : Z; aq_offset : Z }.

Definition read_audit_query (r : request) : option audit_query :=
  match parse_int (or_else (param r "limit") "100"), parse_int (or_else (param r "offset") "0") with
  | Some limitRaw, Some offsetRaw =>
      if (limitRaw <? 0) || (offsetRaw <? 0) || (1000 <? limitRaw) then None
      else Some (AuditQuery (param r "operation") (param r "subject") (param r "target")
                   (param r "startTime") (param r "endTime")
                   (if limitRaw =? 0 then 100 else limitRaw) offsetRaw)
  | _, _ => None
  end.

(** The successive filters: one per query value that is not empty. *)
Definition audit_matches (q : audit_query) (a : audit) : bool :=
  (String.eqb (aq_operation q) "" || String.eqb (au_operation a) (aq_operation q)) &&
  (String.eqb (aq_subject q) "" || String.eqb (su_display (au_subject a)) (aq_subject q) ||
   String.eqb (su_id (au_subject a)) (aq_subject q)) &&
  (String.eqb (aq_target q) "" ||
   match au_target a with Some t => String.eqb (ta_id t) (aq_target q) | None => false end) &&
  (String.eqb (aq_startTime q) "" || negb (String.ltb (au_emitTime a) (aq_startTime q))) &&
  (String.eqb (aq_endTime q) "" || String.ltb (au_emitTime a) (aq_endTime q)).

(** [(a, b) => (a.emitTime < b.emitTime ? 1 : -1)]. *)
Definition audit_order (a b : audit) : Z :=
  if String.ltb (au_emitTime a) (au_emitTime b) then 1 else -1.

Definition audit_page (q : audit_query) (log : list audit) : list audit :=
  list_slice (Z.to_nat (aq_offset q)) (Z.to_nat (aq_offset q + aq_limit q))
    (js_sort audit_order (keep (audit_matches q) log)).

Definition list_audit (s : state) (q : option audit_query) : outcome :=
  match q with
  | None => problem 400 "Bad Request" "invalid limit or offset"
  | Some q => json 200 (JArr (map audit_json (audit_page q (s_auditLog s))))
  end.

Definition route_audit (s : state) (r : request) : result :=
  match org_match [Lit "audit-logs"] (rq_path r) with
  | None => None
  | Some _ => Some (s, list_audit s (read_audit_query r))
  end.

(** ** Metrics scrape *)

Definition exposition : list string :=
  [Html.q "# HELP dbos_conductor_v1_executor_count Number of registered executors.";
   Html.q "# TYPE dbos_conductor_v1_executor_count gauge";
   Html.q "dbos_conductor_v1_executor_count{application=`ecommerce-checkout`,application_version=`1.0.0`,status=`HEALTHY`} 1";
   Html.q "# HELP dbos_conductor_v1_workflow_success_rate Workflows that completed successfully per second.";
   Html.q "# TYPE dbos_conductor_v1_workflow_success_rate gauge";
   Html.q "dbos_conductor_v1_workflow_success_rate{application=`ecommerce-checkout`,workflow_name=`ProcessCheckoutWorkflow`,queue_name=`orders-standard`} 0.42";
   Html.q "# HELP dbos_conductor_v1_workflow_failed_rate Workflows that terminated with an error per second.";
   Html.q "# TYPE dbos_conductor_v1_workflow_failed_rate gauge";
   Html.q "dbos_conductor_v1_workflow_failed_rate{application=`ecommerce-checkout`,workflow_name=`ProcessCheckoutWorkflow`,queue_name=`orders-standard`} 0.01";
   Html.q "# HELP dbos_conductor_v1_workflow_started_rate Workflows created per second.";
   Html.q "# TYPE dbos_conductor_v1_workflow_started_rate gauge";
   Html.q "dbos_conductor_v1_workflow_started_rate{application=`ecommerce-checkout`,workflow_name=`ProcessCheckoutWorkflow`,queue_name=`orders-standard`} 0.45";
   Html.q "# HELP dbos_conductor_v1_workflow_enqueued_count Workflows currently in the ENQUEUED state.";
   Html.q "# TYPE dbos_conductor_v1_workflow_enqueued_count gauge";
   Html.q "dbos_conductor_v1_workflow_enqueued_count{application=`ecommerce-checkout`,workflow_name=`ProcessCheckoutWorkflow`,queue_name=`orders-standard`} 3";
   Html.q "# HELP dbos_conductor_v1_workflow_pending_count Workflows currently in the PENDING state.";
   Html.q "# TYPE dbos_conductor_v1_workflow_pending_count gauge";
   Html.q "dbos_conductor_v1_workflow_pending_count{application=`ecommerce-checkout`,workflow_name=`ProcessCheckoutWorkflow`} 2";
   Html.q "# HELP dbos_conductor_v1_workflow_max_queue_wait_seconds Maximum queue wait across workflows completed successfully in the window.";
   Html.q "# TYPE dbos_conductor_v1_workflow_max_queue_wait_seconds gauge";
   Html.q "dbos_conductor_v1_workflow_max_queue_wait_seconds{application=`ecommerce-checkout`,workflow_name=`ProcessCheckoutWorkflow`,queue_name=`orders-standard`} 1.8";
   Html.q "# HELP dbos_conductor_v1_workflow_max_total_latency_seconds Maximum end-to-end latency across workflows completed successfully in the window.";
   Html.q "# TYPE dbos_conductor_v1_workflow_max_total_latency_seconds gauge";
   Html.q "dbos_conductor_v1_workflow_max_total_latency_seconds{application=`ecommerce-checkout`,workflow_name=`ProcessCheckoutWorkflow`,queue_name=`orders-standard`} 4.2";
   Html.q "# HELP dbos_conductor_v1_step_success_rate Workflow steps that completed successfully per second.";
   Html.q "# TYPE dbos_conductor_v1_step_success_rate gauge";
   Html.q "dbos_conductor_v1_step_success_rate{application=`ecommerce-checkout`,step_name=`validate_customer`} 0.4";
   Html.q "# HELP dbos_conductor_v1_step_failed_rate Workflow steps that terminated with an error per second.";
   Html.q "# TYPE dbos_conductor_v1_step_failed_rate gauge";
   Html.q "dbos_conductor_v1_step_failed_rate{application=`ecommerce-checkout`,step_name=`charge_card`} 0.005"].

(** The body of a quoted label value, up to its closing quote. *)
Fixpoint label_body (s : string) : option string :=
  match s with
  | EmptyString => None
  | String a s' =>
      if Ascii.eqb a dquote then Some ""
      else if Ascii.eqb a "\" then
        match s' with
        | String b s'' =>
            match label_body s'' with Some t => Some (String a (String b t)) | None => None end
        | EmptyString => None
        end
      else match label_body s' with Some t => Some (String a t) | None => None end
  end.

(** The value of label [key] in an exposition line: the first occurrence of the
    name, an equal sign and a quoted text in which a backslash escapes the next
    character; the empty string when there is none. *)
Fixpoint labelValue (line key : string) : string :=
  let here :=
    if is_prefix (key +:+ Html.q "=`") line
    then label_body (sdrop (String.length key + 2) line) else None in
  match here with
  | Some v => v
  | None => match line with EmptyString => "" | String _ line' => labelValue line' key end
  end.

Definition metric_name (line : string) : string := default "" (head (split_char "{"%char line)).

Definition is_sample (only : list string) (appFilter wfFilter line : string) : bool :=
  negb (starts_with line "#") &&
  (match only with [] => true | _ => some (String.eqb (metric_name line)) only end) &&
  (String.eqb appFilter "" || String.eqb (labelValue line "application") appFilter) &&
  (String.eqb wfFilter "" || String.eqb (labelValue line "workflow_name") wfFilter ||
   String.eqb (labelValue line "step_name") wfFilter).

Definition metric_lines (only : list string) (appFilter wfFilter : string) : list string :=
  let samples := keep (is_sample only appFilter wfFilter) exposition in
  let live := map metric_name samples in
  keep (λ line,
          if negb (starts_with line "#") then some (String.eqb line) samples
          else some (String.eqb (default "" (split_char " "%char line !! 2%nat))) live)
       exposition.

Definition scrape (only : list string) (appFilter wfFilter : string) : outcome :=
  Respond (Response 200 (TextBody
    (join newline (metric_lines only appFilter wfFilter) +:+ newline))).

Definition route_metrics (s : state) (r : request) : result :=
  if String.eqb (rq_path r) "/v1/metrics" then
    let only := map snd (keep (λ kv, String.eqb (fst kv) "metrics") (rq_params r)) in
    Some (s, scrape only (param r "applications") (param r "workflow_names"))
  else None.

(** ** Roles and members *)

Definition route_permissions (s : state) (r : request) : result :=
  match org_match [Lit "permissions"] (rq_path r) with
  | Some _ => Some (s, json 200 full_permissions)
  | None => None
  end.

(** [(body.name || "").trim()]: [None] when the body is [null] or the name is
    not a string. *)
Definition read_role_name (b : jval) : option string :=
  match jget b "name" with
  | None => None
  | Some v =>
      match jor v (JStr "") with JStr s => Some (trim s) | _ => None end
  end.

Definition post_role (s : state) (body : jval) : state * outcome :=
  match read_role_name body with
  | None => (s, Rejected)
  | Some name =>
      if (String.length name <? 3)%nat || (30 <? String.length name)%nat then
        (s, problem 400 "Bad Request" "Role name must be between 3 and 30 characters")
      else if some (λ x, String.eqb (ro_name x) name) (s_roles s) then
        (s, problem 400 "Bad Request" "Role already exists")
      else
        let role := Role name false (jor (field body "permissions") (JArr [])) in
        let s := set_roles (s_roles s ++ [role]) s in
        (pushAudit e "role.create" "success" (Some (Target "role" name)) s,
         json 201 (JObj [("name", JStr (ro_name role)); ("permissions", ro_permissions role)]))
  end.

Definition route_roles (s : state) (r : request) : result :=
  match org_match [Lit "roles"] (rq_path r) with
  | None => None
  | Some _ =>
      if String.eqb (method_of r) "POST" then Some (post_role s (body_of r))
      else Some (s, json 200 (JArr (map role_json (s_roles s))))
  end.

Definition delete_role (s : state) (name : string) : state * outcome :=
  match find (λ x, String.eqb (ro_name x) name) (s_roles s) with
  | None => (s, problem 500 "Internal Server Error" "role not found")
  | Some role =>
      if ro_isGlobal role then
        (s, problem 403 "Forbidden" "Cannot delete built-in global role")
      else
        let s := set_roles (keep (λ x, negb (String.eqb (ro_name x) name)) (s_roles s)) s in
        (pushAudit e "role.delete" "success" (Some (Target "role" name)) s, no_content)
  end.

Definition route_delete_role (s : state) (r : request) : result :=
  match org_match [Lit "roles"; Cap] (rq_path r) with
  | Some [a] =>
      if String.eqb (method_of r) "DELETE" then
        match decodeURIComponent a with
        | None => Some (s, Rejected)
        | Some name => Some (delete_role s name)
        end
      else None
  | _ => None
  end.

(** The role of a member: the role of that name, else a name without rights. *)
Definition member_role (s : state) (roleName : string) : role :=
  default (Role roleName false (JArr []))
    (find (λ x, String.eqb (ro_name x) roleName) (s_roles s)).

Definition list_members (s : state) (org : string) : outcome :=
  json 200 (JObj
    [("orgName", JStr org);
     ("users", JObj (map (λ '(u, n), (u, role_json (member_role s n)))
                         (map_to_list (s_members s))))]).

(** [path.split("/")[3] || "default"]: the segment as it stands. *)
Definition route_members (s : state) (r : request) : result :=
  match org_match [Lit "members"] (rq_path r) with
  | None => None
  | Some _ => Some (s, list_members s (or_else (default "" (segments (rq_path r) !! 3%nat)) "default"))
  end.

(** [!state.members[username]]: the stored names are not empty. *)
Definition is_member (s : state) (username : string) : bool :=
  match get_prop (s_members s) username with
  | Own n => negb (String.eqb n "")
  | Inherited => true
  | Absent => false
  end.

Definition user_not_found : outcome := problem 404 "Not Found" "user not found".

Definition grant (s : state) (username roleName : string) : state * outcome :=
  if negb (is_member s username) then (s, user_not_found)
  else if negb (some (λ x, String.eqb (ro_name x) roleName) (s_roles s)) then
    (s, problem 500 "Internal Server Error" "role not found")
  else
    let s := set_members (set_prop username roleName (s_members s)) s in
    (pushAudit e "role.grant" "success" (Some (Target "user" username)) s, no_content).

Definition route_grant (s : state) (r : request) : result :=
  match org_match [Lit "members"; Cap; Lit "roles"; Cap] (rq_path r) with
  | Some [a; b] =>
      if String.eqb (method_of r) "PUT" then
        match decodeURIComponent a, decodeURIComponent b with
        | Some username, Some roleName => Some (grant s username roleName)
        | _, _ => Some (s, Rejected)
        end
      else None
  | _ => None
  end.

Definition remove_member (s : state) (username : string) : state * outcome :=
  if negb (is_member s username) then (s, user_not_found)
  else
    let s := set_members (delete username (s_members s)) s in
    (pushAudit e "user.remove" "success" (Some (Target "user" username)) s,
     json 200 (JObj [("name", JStr username)])).

Definition route_remove_member (s : state) (r : request) : result :=
  match org_match [Lit "members"; Cap] (rq_path r) with
  | Some [a] =>
      if String.eqb (method_of r) "DELETE" then
        match decodeURIComponent a with
        | None => Some (s, Rejected)
        | Some username => Some (remove_member s username)
        end
      else None
  | _ => None
  end.

(** ** [window.fetch] *)

Definition routes : list (state → request → result) :=
  [route_assets; route_users; route_apps; route_executors; route_workflows;
   route_steps; route_events; route_notifications; route_workflow; route_queues;
   route_schedules; route_alerts; route_list_keys; route_token; route_wf_op;
   route_app; route_policy; route_autoscale; route_audit; route_metrics;
   route_permissions; route_roles; route_delete_role; route_members;
   route_grant; route_remove_member].

Fixpoint first_match (rs : list (state → request → result)) (s : state) (r : request)
  : state * outcome :=
  match rs with
  | [] => (s, NativeFetch)
  | route :: rs' =>
      match route s r with Some res => res | None => first_match rs' s r end
  end.

Definition fetch (s : state) (r : request) : state * outcome := first_match routes s r.
End Routes.
