(* ===== verification/BridgePaths.v ===== *)
(** The paths of the control plane's resources: how they are built from encoded
    components, and that the path patterns read the components back. *)

From Stdlib Require Import ZArith Lia Ascii String.
From stdpp Require Import base list strings gmap.
From S2P Require Import Prelude Uri BridgeState.

(** The path of a resource below an organization, as the page builds it: fixed
    words and encoded components between slashes. *)
Definition org_path (org : string) (l : list string) : string :=
  join "/" (["" ; "v2"; "orgs"; org] ++ l).

Lemma segments_join l : l ≠ [] → Forall (λ x, no_slash x = true) l → segments (join "/" l) = l.
Proof.
  intros Hl H. induction H as [|x l Hx H IH]; [done|].
  destruct l as [|y l]; [by apply split_char_none|].
  change (join "/" (x :: y :: l)) with (x +:+ String "/" (join "/" (y :: l))).
  unfold segments. rewrite split_char_app by done. f_equal. by apply IH.
Qed.

Lemma org_match_path org p l :
  org ≠ "" → no_slash org = true → Forall (λ x, no_slash x = true) l →
  org_match p (org_path org l) = pmatch p l.
Proof.
  intros Ho Hn Hl. unfold org_match, org_path. rewrite segments_join; [|done|].
  - cbn. by destruct (String.eqb_spec org "").
  - by repeat constructor.
Qed.

Lemma eqb_encode a : a ≠ "" → String.eqb (encodeURIComponent a) "" = false.
Proof. intros Ha. apply String.eqb_neq. by intros ?%encode_empty. Qed.
