(* ===== verification/BridgeSpec.v ===== *)
(** What the playground's control plane promises: an abstract step relation
    over its state, the proof that [BridgeRoutes.fetch] only ever takes such
    steps, and the invariants of every state reachable through requests. *)

From Stdlib Require Import ZArith Lia Ascii String.
From stdpp Require Import base list strings sorting gmap.
From S2P Require Import Prelude Json Html Uri BridgeState BridgeRoutes BridgePaths.

(** ** The abstract steps *)

(** A queue that may drive autoscaling. *)
Definition eligible (s : state) (name : string) : Prop :=
  ∃ x, x ∈ s_queues s ∧ q_name x = name ∧ q_partitionQueue x = false ∧
       0 < q_workerConcurrency x.

(** An application whose stored configuration may be written. *)
Definition member (s : state) (u : string) : Prop := is_member s u = true.

Inductive step (e : env) (s : state) : state → Prop :=
| step_read : step e s s
| step_default_config a :
    s_appConfigs s !! a = None →
    step e s (set_appConfigs (<[a := default_config]> (s_appConfigs s)) s)
| step_update_config a c :
    step e s (pushAudit e "application.update" "success" (Some (Target "application" a))
                (set_appConfigs (<[a := c]> (s_appConfigs s)) s))
| step_update_inherited a :
    inherited a = true →
    step e s (pushAudit e "application.update" "success" (Some (Target "application" a)) s)
| step_revoke_key n :
    step e s (pushAudit e "token.revoke" "success" (Some (Target "token" n))
                (set_keys (keep (λ k, negb (String.eqb (k_tokenName k) n) &&
                                      negb (String.eqb (k_name k) n)) (s_keys s)) s))
| step_create_key k :
    k_tokenName k = k_name k →
    step e s (pushAudit e "token.create" "success" (Some (Target "token" (k_name k)))
                (set_keys (s_keys s ++ [k]) s))
| step_workflow op id :
    op ∈ ["cancel"; "resume"; "fork"] →
    step e s (pushAudit e ("workflow." +:+ op) "success" (Some (Target "workflow" id)) s)
| step_set_policy a queue rollout schema :
    eligible s queue →
    step e s (pushAudit e "autoscaling_policy.set" "success" (Some (Target "application" a))
                (set_autoscaling
                   (set_prop a (Policy (JStr queue) rollout schema) (s_autoscaling s)) s))
| step_delete_policy a :
    has_prop (s_autoscaling s) a = true →
    step e s (pushAudit e "autoscaling_policy.delete" "success" (Some (Target "application" a))
                (set_autoscaling (delete a (s_autoscaling s)) s))
| step_create_role n perms :
    (3 <= String.length n <= 30)%nat →
    (∀ x, x ∈ s_roles s → ro_name x ≠ n) →
    step e s (pushAudit e "role.create" "success" (Some (Target "role" n))
                (set_roles (s_roles s ++ [Role n false perms]) s))
| step_delete_role n x :
    x ∈ s_roles s → ro_name x = n → ro_isGlobal x = false →
    step e s (pushAudit e "role.delete" "success" (Some (Target "role" n))
                (set_roles (keep (λ x, negb (String.eqb (ro_name x) n)) (s_roles s)) s))
| step_grant u x :
    member s u → x ∈ s_roles s →
    step e s (pushAudit e "role.grant" "success" (Some (Target "user" u))
                (set_members (set_prop u (ro_name x) (s_members s)) s))
| step_remove_member u :
    member s u →
    step e s (pushAudit e "user.remove" "success" (Some (Target "user" u))
                (set_members (delete u (s_members s)) s)).

#[export] Hint Constructors step : relay.

(** ** The handlers only take these steps *)
Section Refinement.
Context (db : option (string → list jval → option (list jval))).
Context (e : env).

(** A handler refines the specification. *)
Definition refines (route : state → request → option (state * outcome)) : Prop :=
  ∀ s r s' o, route s r = Some (s', o) → step e s s'.

(** Handlers that leave the state alone. *)
Ltac reads :=
  intros s r s' o H;
  repeat match type of H with
  | context [match ?x with _ => _ end] => destruct x; try discriminate
  end; injection H as <- <-; apply step_read.

Lemma refines_assets : refines route_assets.
Proof. unfold route_assets. reads. Qed.
Lemma refines_users : refines route_users.
Proof. unfold route_users. reads. Qed.
Lemma refines_apps : refines (route_apps db).
Proof. unfold route_apps. reads. Qed.
Lemma refines_executors : refines (route_executors db e).
Proof. unfold route_executors. reads. Qed.
Lemma refines_workflows : refines (route_workflows db).
Proof. unfold route_workflows. reads. Qed.
Lemma refines_steps : refines (route_steps db e).
Proof. unfold route_steps. reads. Qed.
Lemma refines_events : refines (route_events db).
Proof. unfold route_events. reads. Qed.
Lemma refines_notifications : refines route_notifications.
Proof. unfold route_notifications. reads. Qed.
Lemma refines_workflow : refines (route_workflow db).
Proof. unfold route_workflow. reads. Qed.
Lemma refines_queues : refines route_queues.
Proof. unfold route_queues. reads. Qed.
Lemma refines_schedules : refines route_schedules.
Proof. unfold route_schedules. reads. Qed.
Lemma refines_alerts : refines route_alerts.
Proof. unfold route_alerts. reads. Qed.
Lemma refines_list_keys : refines route_list_keys.
Proof. unfold route_list_keys. reads. Qed.
Lemma refines_audit : refines route_audit.
Proof. unfold route_audit. reads. Qed.
Lemma refines_metrics : refines route_metrics.
Proof. unfold route_metrics. reads. Qed.
Lemma refines_permissions : refines route_permissions.
Proof. unfold route_permissions. reads. Qed.
Lemma refines_members : refines route_members.
Proof. unfold route_members. reads. Qed.
Lemma refines_autoscale : refines (route_autoscale db e).
Proof. unfold route_autoscale. reads. Qed.

(** The handlers that write. *)

Lemma set_autoscaling_id s : set_autoscaling (s_autoscaling s) s = s.
Proof. by destruct s. Qed.

Lemma is_str_eq v n : is_str v n = true → v = JStr n.
Proof. destruct v; cbn; try done. by intros ->%String.eqb_eq. Qed.

Lemma refines_token : refines (route_token e).
Proof.
  intros s r s' o. unfold route_token. destruct (org_match _ _) as [[|a [|]]|]; try done.
  destruct (decodeURIComponent a) as [n|]; [|intros [= <- <-]; constructor].
  destruct (method_of r =? "DELETE")%string; [intros [= <- <-]; constructor|].
  destruct (method_of r =? "POST")%string; [|done]. unfold create_key.
  destruct (jget (body_of r) "permissions"), (jget (body_of r) "appNames");
    intros [= <- <-]; try constructor.
  done.
Qed.

Lemma wf_op_match_op path id op :
  wf_op_match path = Some (id, op) → op ∈ ["cancel"; "resume"; "fork"].
Proof.
  unfold wf_op_match. destruct (rev _) as [|op' [|id' [|w [|x l]]]]; try done.
  destruct (_ && _) eqn:E; [|done]. intros [= <- <-].
  apply andb_true_iff in E as [_ (y & Hy & ->%String.eqb_eq)%some_elem]. done.
Qed.

Lemma refines_wf_op : refines (route_wf_op e).
Proof.
  intros s r s' o. unfold route_wf_op. case_tests; [|done].
  destruct (wf_op_match _) as [[id op]|] eqn:Ew; [|intros [= <- <-]; constructor].
  apply wf_op_match_op in Ew.
  destruct (decodeURIComponent id); intros [= <- <-]; [by constructor|constructor].
Qed.

(** One settings request is at most one step: a first read of an application
    and its update are one write of the configuration. *)
Lemma app_update_step s a (changed : bool) (c : appConfig) (cfg : option appConfig) :
  let s1 := with_default_config s a in
  s_appConfigs s1 !! a = cfg →
  (changed = false → cfg = Some c ∨ cfg = None) →
  step e s
    (let s2 := match cfg with
               | Some _ => set_appConfigs (<[a := c]> (s_appConfigs s1)) s1
               | None => s1
               end in
     if changed
     then pushAudit e "application.update" "success" (Some (Target "application" a)) s2
     else s2).
Proof.
  unfold with_default_config. destruct (has_prop_cases (s_appConfigs s) a)
    as [(c0 & Ec & ->)|[(Ec & Ei & ->)|(Ec & Ei & ->)]]; cbv zeta.
  - rewrite Ec. intros <- Hc. destruct changed; [apply step_update_config|].
    destruct Hc as [[= ->]|]; [done| |done].
    rewrite (insert_id _ _ _ Ec). destruct s; apply step_read.
  - rewrite Ec. intros <- Hc. destruct changed; [by apply step_update_inherited|apply step_read].
  - rewrite (set_prop_own _ _ _ Ei). cbn [s_appConfigs set_appConfigs].
    rewrite lookup_insert_eq. intros <- Hc.
    rewrite insert_insert_eq. destruct changed; [apply (step_update_config e s a c)|].
    destruct Hc as [[= <-]|]; [done| |done].
    exact (step_default_config e s a Ec).
Qed.

Lemma apply_bool_kept v old x : apply_bool v old = (x, false) → x = old.
Proof. by destruct v; intros [=]. Qed.
Lemma apply_num_kept v old x : apply_num v old = (x, false) → x = old.
Proof. by destruct v; intros [=]. Qed.
Lemma apply_opt_kept v old x : apply_opt v old = (x, false) → x = old.
Proof. by destruct v; intros [=]. Qed.

Lemma apply_settings_unchanged b c c' :
  apply_settings b c = Some (c', false) → c' = c.
Proof.
  unfold apply_settings.
  destruct (jget b "privateMode") as [v1|]; [|done].
  destruct (jget b "executorTimeoutSecs") as [v2|]; [|done].
  destruct (jget b "gcRowsThreshold") as [v3|]; [|done].
  destruct (jget b "gcTimeThresholdMs") as [v4|]; [|done].
  destruct (jget b "globalTimeoutMs") as [v5|]; [|done].
  destruct (apply_bool v1 _) as [pm c1] eqn:E1, (apply_num v2 _) as [et c2] eqn:E2,
    (apply_opt v3 _) as [gr c3] eqn:E3, (apply_opt v4 _) as [gt c4] eqn:E4,
    (apply_opt v5 _) as [gl c5] eqn:E5.
  intros [= <- Hc]. repeat apply orb_false_iff in Hc as [Hc ?]. subst.
  apply apply_bool_kept in E1 as ->. apply apply_num_kept in E2 as ->.
  apply apply_opt_kept in E3 as ->. apply apply_opt_kept in E4 as ->.
  apply apply_opt_kept in E5 as ->. by destruct c.
Qed.

Lemma app_default_step s a :
  step e s (with_default_config s a).
Proof.
  unfold with_default_config.
  destruct (has_prop_cases (s_appConfigs s) a)
    as [(c0 & Ec & ->)|[(Ec & Ei & ->)|(Ec & Ei & ->)]]; [apply step_read..|].
  rewrite (set_prop_own _ _ _ Ei). by apply step_default_config.
Qed.

Lemma refines_app : refines (route_app db e).
Proof.
  intros s r s' o. unfold route_app. destruct (org_match _ _) as [[|a [|]]|]; try done.
  destruct (_ || _); [|done].
  destruct (decodeURIComponent a) as [n|]; [|intros [= <- <-]; constructor].
  unfold serve_app. destruct (find_app db s n) as [fs|]; [|intros [= <- <-]; constructor].
  destruct (method_of r =? "PATCH")%string; [|intros [= <- <-]; apply app_default_step].
  unfold patch_app. destruct (apply_settings _ _) as [[c changed]|] eqn:Ea; cbn -[pushAudit];
    [|intros [= <- <-]; apply app_default_step].
  intros [= <- <-]. apply (app_update_step s n changed c _ eq_refl).
  intros ->. apply apply_settings_unchanged in Ea as ->.
  destruct (_ !! n); [by left|by right].
Qed.

Lemma refines_policy : refines (route_policy e).
Proof.
  intros s r s' o. unfold route_policy. destruct (org_match _ _) as [[|a [|]]|]; try done.
  destruct (decodeURIComponent a) as [n|]; [|intros [= <- <-]; constructor].
  destruct (_ =? "GET")%string; [intros [= <- <-]; constructor|].
  destruct (_ =? "PUT")%string.
  - unfold put_policy. destruct (jget (body_of r) "queue") as [bq|]; [|intros [= <- <-]; constructor].
    destruct (negb (truthy bq)); [intros [= <- <-]; constructor|].
    destruct (find _ _) as [x|] eqn:Ef; [|intros [= <- <-]; constructor].
    destruct (q_partitionQueue x) eqn:Ep; [intros [= <- <-]; constructor|].
    destruct (0 <? q_workerConcurrency x) eqn:Ew; [|intros [= <- <-]; constructor].
    apply find_some_elem in Ef as [Hx ->%is_str_eq]. zbool.
    intros [= <- <-]. apply step_set_policy. by exists x.
  - destruct (_ =? "DELETE")%string; [|done]. unfold delete_policy. intros [= <- <-].
    destruct (has_prop _ _) eqn:Eh; [by constructor|].
    unfold has_prop, get_prop in Eh. destruct (_ !! n) eqn:El; [done|].
    rewrite (delete_id _ _ El), set_autoscaling_id. constructor.
Qed.

Lemma refines_roles : refines (route_roles e).
Proof.
  intros s r s' o. unfold route_roles. destruct (org_match _ _); [|done].
  destruct (_ =? "POST")%string; [|intros [= <- <-]; constructor].
  unfold post_role. destruct (read_role_name _) as [n|]; [|intros [= <- <-]; constructor].
  destruct (_ || _) eqn:El; [intros [= <- <-]; constructor|].
  destruct (some _ _) eqn:Es; [intros [= <- <-]; constructor|].
  intros [= <- <-]. apply orb_false_iff in El as [H1%Nat.ltb_ge H2%Nat.ltb_ge].
  apply step_create_role; [lia|].
  intros x Hx Hn. rewrite some_false in Es. specialize (Es x Hx). cbn in Es.
  by rewrite Hn, String.eqb_refl in Es.
Qed.

Lemma refines_delete_role : refines (route_delete_role e).
Proof.
  intros s r s' o. unfold route_delete_role. destruct (org_match _ _) as [[|a [|]]|]; try done.
  destruct (_ =? "DELETE")%string; [|done].
  destruct (decodeURIComponent a) as [n|]; [|intros [= <- <-]; constructor].
  unfold delete_role. destruct (find _ _) as [x|] eqn:Ef; [|intros [= <- <-]; constructor].
  destruct (ro_isGlobal x) eqn:Eg; [intros [= <- <-]; constructor|].
  apply find_some_elem in Ef as [Hx Hn%String.eqb_eq].
  intros [= <- <-]. by apply (step_delete_role _ _ _ x).
Qed.

Lemma refines_grant : refines (route_grant e).
Proof.
  intros s r s' o. unfold route_grant. destruct (org_match _ _) as [[|a [|b [|]]]|]; try done.
  destruct (_ =? "PUT")%string; [|done].
  destruct (decodeURIComponent a) as [u|], (decodeURIComponent b) as [n|];
    try (intros [= <- <-]; constructor).
  unfold grant. destruct (is_member s u) eqn:Em; [|intros [= <- <-]; constructor].
  destruct (some _ _) eqn:Es; [|intros [= <- <-]; constructor].
  apply some_elem in Es as (x & Hx & <-%String.eqb_eq).
  intros [= <- <-]. by apply step_grant.
Qed.

Lemma refines_remove_member : refines (route_remove_member e).
Proof.
  intros s r s' o. unfold route_remove_member. destruct (org_match _ _) as [[|a [|]]|]; try done.
  destruct (_ =? "DELETE")%string; [|done].
  destruct (decodeURIComponent a) as [u|]; [|intros [= <- <-]; constructor].
  unfold remove_member. destruct (is_member s u) eqn:Em; [|intros [= <- <-]; constructor].
  intros [= <- <-]. by apply step_remove_member.
Qed.

Lemma first_match_refines rs :
  Forall refines rs →
  ∀ s r s' o, first_match rs s r = (s', o) → step e s s'.
Proof.
  induction 1 as [|route rs Hr _ IH]; intros s r s' o; cbn; [intros [= <- <-]; constructor|].
  destruct (route s r) as [[s1 o1]|] eqn:E; [|apply IH].
  intros [= <- <-]. by eapply Hr.
Qed.

Lemma routes_refine : Forall refines (routes db e).
Proof.
  unfold routes. repeat constructor; auto using refines_assets, refines_users, refines_apps,
    refines_executors, refines_workflows, refines_steps, refines_events,
    refines_notifications, refines_workflow, refines_queues, refines_schedules,
    refines_alerts, refines_list_keys, refines_token, refines_wf_op, refines_app,
    refines_policy, refines_autoscale, refines_audit, refines_metrics,
    refines_permissions, refines_roles, refines_delete_role, refines_members,
    refines_grant, refines_remove_member.
Qed.
End Refinement.

(** ** What every step keeps *)

(** The sandbox's registry is fixed. *)
Lemma step_frame e s s' :
  step e s s' →
  s_apps s' = s_apps s ∧ s_executors s' = s_executors s ∧ s_queues s' = s_queues s ∧
  s_schedules s' = s_schedules s ∧ s_alerts s' = s_alerts s ∧
  s_workflows s' = s_workflows s ∧ s_steps s' = s_steps s.
Proof. by destruct 1. Qed.

(** Either nothing but default configurations is written, or one record of a
    success is put in front of the log. *)
Definition same_control (s s' : state) : Prop :=
  s_roles s' = s_roles s ∧ s_members s' = s_members s ∧ s_keys s' = s_keys s ∧
  s_autoscaling s' = s_autoscaling s ∧ s_appConfigs s ⊆ s_appConfigs s' ∧
  s_auditLog s' = s_auditLog s ∧ s_auditSeq s' = s_auditSeq s.

Definition audited (e : env) (s s' : state) : Prop :=
  ∃ op t, s_auditLog s' =
    Audit ("audit-play-" +:+ string_of_Z (s_auditSeq s)) (audit_iso e) op "success"
      (Subject "user" "user_playground" "playground-user") (Some t) "127.0.0.1" (JObj [])
    :: s_auditLog s ∧
    s_auditSeq s' = s_auditSeq s + 1.

Lemma step_audit e s s' : step e s s' → same_control s s' ∨ audited e s s'.
Proof.
  destruct 1; [left; done|left|right; do 2 eexists; split; reflexivity..].
  repeat split; try done. cbn. by apply insert_subseteq.
Qed.

(** The three built-in roles, as they are seeded. *)
Definition builtin (x : role) : Prop :=
  x = Role "admin" true full_permissions ∨ x = Role "operator" true full_permissions ∨
  x = Role "viewer" true
        (strs ["application.read"; "metric.read"; "organization.read"; "token.read"]).

Definition audit_origin (n : Z) (a : audit) : Prop :=
  au_id a = "audit-seed-1" ∨ au_id a = "audit-seed-2" ∨
  ∃ k, 100 <= k < n ∧ au_id a = "audit-play-" +:+ string_of_Z k.

(** The invariant of the registry. *)
Record registry_ok (s : state) : Prop := {
  ok_role_names : NoDup (map ro_name (s_roles s));
  ok_role_length : ∀ x, x ∈ s_roles s → (3 <= String.length (ro_name x) <= 30)%nat;
  ok_builtin : ∀ x, builtin x → x ∈ s_roles s;
  ok_policies : ∀ a p, s_autoscaling s !! a = Some p →
                  ∃ n, po_queue p = JStr n ∧ eligible s n;
  ok_members : ∀ u n, s_members s !! u = Some n → n ≠ "" }.

(** The invariant of the audit log: no two records share an id, because the
    counter has passed every id that it gave out. *)
Record log_ok (s : state) : Prop := {
  ok_seq : 100 <= s_auditSeq s;
  ok_origin : ∀ a, a ∈ s_auditLog s → audit_origin (s_auditSeq s) a;
  ok_ids : NoDup (map au_id (s_auditLog s)) }.

Lemma NoDup_map_keep {A B} (f : A → B) (p : A → bool) (l : list A) :
  NoDup (map f l) → NoDup (map f (keep p l)).
Proof.
  induction l as [|x l IH]; [done|]. cbn. rewrite NoDup_cons. intros [Hx Hl].
  destruct (p x); [|by apply IH]. cbn. apply NoDup_cons. split; [|by apply IH].
  intros (y & E & Hy)%list_elem_of_fmap. apply keep_elem in Hy as [_ Hy].
  apply Hx, list_elem_of_fmap. eauto.
Qed.

Lemma NoDup_map_inj {A B} (f : A → B) (l : list A) x y :
  NoDup (map f l) → x ∈ l → y ∈ l → f x = f y → x = y.
Proof.
  induction l as [|z l IH]; [by intros _ ?%elem_of_nil|]. cbn. rewrite NoDup_cons.
  intros [Hz Hl] [->|Hx]%elem_of_cons [->|Hy]%elem_of_cons E; auto; destruct Hz.
  - rewrite E. by apply list_elem_of_fmap_2.
  - rewrite <- E. by apply list_elem_of_fmap_2.
Qed.

Lemma NoDup_map_snoc {A B} (f : A → B) (l : list A) (x : A) :
  (∀ y, y ∈ l → f y ≠ f x) → NoDup (map f l) → NoDup (map f (l ++ [x])).
Proof.
  intros Hx Hl. rewrite map_app. apply NoDup_app. split_and!; [done| |apply NoDup_singleton].
  intros b (y & -> & Hy)%list_elem_of_fmap Hb%list_elem_of_singleton. by apply (Hx y).
Qed.

Lemma initial_registry_ok t : registry_ok (initial_state t).
Proof.
  split.
  - cbn. repeat (apply NoDup_cons; split; [set_solver|]). apply NoDup_nil_2.
  - apply Forall_forall. cbn. repeat constructor; lia.
  - intros x [->|[->| ->]]; cbn; set_solver.
  - intros a p. cbn. by rewrite lookup_empty.
  - intros u n H. cbn in H. apply lookup_insert_Some in H as [[_ <-]|[_ H]]; [done|].
    by apply lookup_singleton_Some in H as [_ <-].
Qed.

Lemma eligible_frame s s' n : s_queues s' = s_queues s → eligible s n → eligible s' n.
Proof. unfold eligible. by intros ->. Qed.

(** A step that leaves roles, members and policies as they are. *)
Lemma registry_ok_same s s' :
  s_roles s' = s_roles s → s_members s' = s_members s → s_autoscaling s' = s_autoscaling s →
  s_queues s' = s_queues s → registry_ok s → registry_ok s'.
Proof.
  intros Er Em Ea Eq [H1 H2 H3 H4 H5]. split; rewrite ?Er, ?Em, ?Ea; try done.
  intros a p Hp. destruct (H4 a p Hp) as (n & E & He). exists n. split; [done|].
  by eapply eligible_frame.
Qed.

Lemma set_prop_lookup {V} (m : gmap string V) k v k' v' :
  set_prop k v m !! k' = Some v' → v' = v ∨ m !! k' = Some v'.
Proof.
  unfold set_prop. destruct (String.eqb k "__proto__"); [by right|].
  intros [[_ <-]|[_ ?]]%lookup_insert_Some; auto.
Qed.

Lemma step_registry_ok e s s' : step e s s' → registry_ok s → registry_ok s'.
Proof.
  intros Hs Hok.
  destruct Hs as [|a Ha|a c|a Ha|n|k Hk|op id Hop|a queue rollout schema Hq|a Ha
                 |n perms Hlen Hnew|n x Hx Hn Hg|u x Hu Hx|u Hu];
    try (by apply (registry_ok_same s)); destruct Hok as [H1 H2 H3 H4 H5]; split; cbn; try done.
  - intros a' p [->|Hp]%set_prop_lookup; [by eexists|by eapply H4].
  - intros a' p [_ Hp]%lookup_delete_Some. by eapply H4.
  - by apply NoDup_map_snoc.
  - intros y [Hy| ->%list_elem_of_singleton]%elem_of_app; [by apply H2|done].
  - intros y Hy. apply elem_of_app. left. by apply H3.
  - by apply NoDup_map_keep.
  - intros y [_ Hy]%keep_elem. by apply H2.
  - intros y Hy. apply keep_elem. split; [|by apply H3].
    apply negb_true_iff, String.eqb_neq. intros E.
    assert (x = y) as -> by (eapply (NoDup_map_inj); eauto; congruence).
    by destruct Hy as [->|[->| ->]].
  - intros v m [->|Hv]%set_prop_lookup; [|by eapply H5].
    intros E. apply H2 in Hx. rewrite E in Hx. cbn in Hx. lia.
  - intros v m [_ Hv]%lookup_delete_Some. by eapply H5.
Qed.

Lemma initial_log_ok t : log_ok (initial_state t).
Proof.
  split; [done| |].
  - intros a. cbn. rewrite !elem_of_cons. unfold audit_origin.
    intros [->|[->|?%elem_of_nil]]; [auto..|done].
  - cbn. repeat (apply NoDup_cons; split; [set_solver|]). apply NoDup_nil_2.
Qed.

Lemma audit_origin_mono n a : audit_origin n a → audit_origin (n + 1) a.
Proof.
  unfold audit_origin. intros [?|[?|(k & Hk & E)]]; auto.
  right. right. exists k. split; [lia|done].
Qed.

Lemma fresh_id n a : 100 <= n → audit_origin n a → au_id a ≠ "audit-play-" +:+ string_of_Z n.
Proof.
  intros Hn [->|[->|(k & Hk & ->)]]; [done..|].
  intros E%app_inv_head_str%string_of_Z_inj; lia.
Qed.

Lemma step_log_ok e s s' : step e s s' → log_ok s → log_ok s'.
Proof.
  intros [Hs|(op & t & El & Es)]%step_audit [H1 H2 H3].
  - destruct Hs as (_ & _ & _ & _ & _ & El & Es). by split; rewrite ?El, ?Es.
  - split; rewrite ?El, ?Es; [lia| |].
    + intros a [->|Ha]%elem_of_cons; [|by apply audit_origin_mono, H2].
      right. right. exists (s_auditSeq s). split; [lia|done].
    + cbn. apply NoDup_cons. split; [|done].
      intros (a & E & Ha)%list_elem_of_fmap. symmetry in E. by apply (fresh_id (s_auditSeq s) a); auto.
Qed.

(** ** Serving requests *)

(** The states the page can bring the control plane to: any requests, at any
    times, with any database behind them. *)
Inductive served : state → Prop :=
| served_init t : served (initial_state t)
| served_next s db e r : served s → served (fst (fetch db e s r)).

(** C5: every request is served by at most one abstract step: whatever
    [window.fetch] does to the control plane is one of the listed changes, each
    under its guard, and the route order never composes two of them. *)
Theorem fetch_refines_step db e s r s' o :
  fetch db e s r = (s', o) → step e s s'.
Proof. apply (first_match_refines e _ (routes_refine db e)). Qed.

(** A database that holds nothing. *)
Definition no_db : option (string → list jval → option (list jval)) := None.

Definition sample_env : env :=
  Env 1790000000000 "2026-09-21T13:33:20.000Z" "2026-09-21T13:33:21.000Z" "x7k2".

Definition new_role_request : request :=
  Request "/v2/orgs/default/roles" (Some "POST") []
    (Some (JObj [("name", JStr "  release-manager ")])).

Lemma fetch_refines_step_witness :
  ∃ s', fetch no_db sample_env (initial_state "t") new_role_request = (s', json 201
          (JObj [("name", JStr "release-manager"); ("permissions", JArr [])])) ∧
        step sample_env (initial_state "t") s'.
Proof.
  eexists. split; [vm_compute; reflexivity|].
  eapply (fetch_refines_step no_db sample_env (initial_state "t") new_role_request).
  vm_compute. reflexivity.
Defined.

Lemma fetch_step db e s r : step e s (fst (fetch db e s r)).
Proof.
  destruct (fetch db e s r) as [s' o] eqn:E.
  exact (first_match_refines e _ (routes_refine db e) s r s' o E).
Qed.

(** C6: in every state the page can bring the control plane to, role names are
    unique and of legal length, the three built-in roles are still there with
    their seeded rights, every stored autoscaling policy names a queue that can
    drive it, and no member holds a nameless role. *)
Theorem served_registry_ok s : served s → registry_ok s.
Proof.
  induction 1 as [t|s db e r _ IH]; [apply initial_registry_ok|].
  exact (step_registry_ok _ _ _ (fetch_step db e s r) IH).
Qed.

Lemma served_registry_ok_witness :
  registry_ok (fst (fetch no_db sample_env (initial_state "t") new_role_request)).
Proof. apply served_registry_ok. apply served_next, served_init. Defined.

(** C7: in every such state the audit log never holds two records with one id:
    the counter is beyond every id it gave out, and none is a seeded one. *)
Theorem served_audit_ids s :
  served s → NoDup (map au_id (s_auditLog s)) ∧
             ∀ a, a ∈ s_auditLog s → audit_origin (s_auditSeq s) a.
Proof.
  intros Hs. assert (log_ok s) as [_ H2 H3]; [|done].
  induction Hs as [t|s db e r _ IH]; [apply initial_log_ok|].
  exact (step_log_ok _ _ _ (fetch_step db e s r) IH).
Qed.

Lemma served_audit_ids_witness :
  NoDup (map au_id (s_auditLog (fst (fetch no_db sample_env (initial_state "t") new_role_request)))).
Proof. apply served_audit_ids. apply served_next, served_init. Defined.


(** ** Roles and members *)

Lemma find_none_of {A} (p : A → bool) l : (∀ x, x ∈ l → p x = false) → find p l = None.
Proof.
  intros H. destruct (find p l) as [x|] eqn:E; [|done].
  apply find_some_elem in E as [Hx Hp]. by rewrite (H x Hx) in Hp.
Qed.

Lemma find_keep_other {A} (p q : A → bool) l :
  (∀ x, p x = true → q x = true) → find p (keep q l) = find p l.
Proof.
  intros H. induction l as [|x l IH]; [done|]. cbn.
  destruct (q x) eqn:Eq, (p x) eqn:Ep; cbn; rewrite ?Ep; try done.
  by rewrite (H x Ep) in Eq.
Qed.

Lemma member_role_found s x :
  x ∈ s_roles s →
  ro_name (member_role s (ro_name x)) = ro_name x ∧ member_role s (ro_name x) ∈ s_roles s.
Proof.
  intros Hx. unfold member_role.
  destruct (find (λ y, String.eqb (ro_name y) (ro_name x)) (s_roles s)) as [y|] eqn:Ef.
  - by apply find_some_elem in Ef as [? ?%String.eqb_eq].
  - rewrite find_none_elem in Ef. specialize (Ef x Hx). by rewrite String.eqb_refl in Ef.
Qed.

(** Deleting a role that is not built in takes every right away from the
    members that hold it, and leaves the rights of every other role name. *)
Theorem deleted_role_has_no_rights e s n :
  snd (delete_role e s n) = no_content →
  s_members (fst (delete_role e s n)) = s_members s ∧
  ro_permissions (member_role (fst (delete_role e s n)) n) = JArr [] ∧
  ∀ m, m ≠ n → member_role (fst (delete_role e s n)) m = member_role s m.
Proof.
  unfold delete_role. destruct (find _ _) as [x|]; [|done].
  destruct (ro_isGlobal x); [done|]. intros _. cbn. split_and!; [done| |].
  - unfold member_role. cbn. rewrite find_none_of; [done|].
    intros y [Hy _]%keep_elem. by apply negb_true_iff in Hy.
  - intros m Hm. unfold member_role. cbn. rewrite find_keep_other; [done|].
    intros y ->%String.eqb_eq. by apply negb_true_iff, String.eqb_neq.
Qed.

Definition with_operator : state :=
  fst (grant sample_env (initial_state "t") "bob@example.com" "deploy-operator").

Lemma deleted_role_has_no_rights_witness :
  snd (delete_role sample_env with_operator "deploy-operator") = no_content ∧
  ro_permissions (member_role (fst (delete_role sample_env with_operator "deploy-operator"))
                    "deploy-operator") = JArr [].
Proof.
  assert (H : snd (delete_role sample_env with_operator "deploy-operator") = no_content)
    by reflexivity.
  split; [exact H|].
  exact (proj1 (proj2 (deleted_role_has_no_rights sample_env with_operator "deploy-operator" H))).
Defined.

(** A grant that succeeds makes the member hold exactly the named role, in
    a name that is a role of the organization, and touches no other member. *)
Theorem grant_sets_the_role e s u n :
  u ≠ "__proto__" → snd (grant e s u n) = no_content →
  s_members (fst (grant e s u n)) = <[u := n]> (s_members s) ∧
  ro_name (member_role (fst (grant e s u n)) n) = n ∧
  member_role (fst (grant e s u n)) n ∈ s_roles s.
Proof.
  intros Hu. unfold grant. destruct (negb (is_member s u)); [done|].
  destruct (negb (some _ _)) eqn:Es; [done|]. intros _. cbn. split.
  - unfold set_prop. by destruct (String.eqb_spec u "__proto__").
  - apply negb_false_iff, some_elem in Es as (x & Hx & <-%String.eqb_eq).
    by apply member_role_found.
Qed.

Lemma grant_sets_the_role_witness :
  s_members with_operator !! "bob@example.com" = Some "deploy-operator".
Proof.
  unfold with_operator.
  rewrite (proj1 (grant_sets_the_role sample_env (initial_state "t") "bob@example.com"
                    "deploy-operator" ltac:(done) eq_refl)).
  reflexivity.
Defined.

(** ** Autoscaling *)

Lemma ceil_div_spec a b : 0 < b → a <= ceil_div a b * b < a + b.
Proof. intros Hb. unfold ceil_div. pose proof (Z.mul_div_le (-a) b Hb).
  pose proof (Z.mul_succ_div_gt (-a) b Hb). lia. Qed.

Lemma ceil_div_least a b k : 0 < b → a <= k * b → ceil_div a b <= k.
Proof. intros Hb Hk. pose proof (ceil_div_spec a b Hb). nia. Qed.

(** The recommendation for a queue is at least one executor, drains the
    queue in one round of its workers unless the queue's concurrency cap stops
    it, never goes past what the cap can keep busy, and is the least such
    number. *)
Theorem recommendation_bounds db e s qn x d depth rec :
  find (λ x, is_str qn (q_name x)) (s_queues s) = Some x →
  0 < q_workerConcurrency x →
  recommend db e s qn = (d, depth, rec) →
  1 <= d ∧
  (depth <= d * q_workerConcurrency x ∨
   0 < q_concurrency x <= d * q_workerConcurrency x) ∧
  (0 < q_concurrency x → (d - 1) * q_workerConcurrency x < q_concurrency x) ∧
  ∀ k, 1 <= k → depth <= k * q_workerConcurrency x → d <= k.
Proof.
  intros Hf Hw. unfold recommend. rewrite Hf, (proj2 (Z.ltb_lt _ _) Hw).
  intros [= <- <- _]. unfold desired_executors.
  set (n := queue_depth db). set (w := q_workerConcurrency x) in *.
  set (c := q_concurrency x).
  pose proof (ceil_div_spec n w Hw). pose proof (ceil_div_spec c w Hw).
  pose proof (λ k, ceil_div_least n w k Hw) as Hleast.
  destruct (Z.ltb_spec 0 c) as [Hc|Hc].
  - assert (1 <= ceil_div c w) by nia. split_and!; [lia| |nia|].
    + destruct (Z.le_gt_cases (Z.max 1 (ceil_div n w)) (ceil_div c w)); [left|right]; nia.
    + intros k Hk ?%Hleast. lia.
  - split_and!; [lia|left; nia|lia|]. intros k Hk ?%Hleast. lia.
Qed.

(** A database whose every query counts nine waiting workflows. *)
Definition nine_waiting : option (string → list jval → option (list jval)) :=
  Some (λ _ _, Some [JObj [("n", JNum 9)]]).

Definition vip_queue : queue := Queue "orders-vip" "ecommerce-checkout" 20 4 false 1.

Lemma recommendation_bounds_witness :
  ∃ rec,
    recommend nine_waiting sample_env (initial_state "t") (JStr "orders-vip") = (3, 9, rec) ∧
    9 <= 3 * q_workerConcurrency vip_queue.
Proof.
  eexists. split; [vm_compute; reflexivity|].
  destruct (recommendation_bounds nine_waiting sample_env (initial_state "t") (JStr "orders-vip")
              vip_queue 3 9 _ ltac:(vm_compute; reflexivity) ltac:(reflexivity)
              ltac:(vm_compute; reflexivity)) as (_ & [H|H] & _); [exact H|cbn in H |- *; lia].
Defined.

(** ** The audit log's pages *)

Lemma audit_order_ge a b :
  audit_order a b <= 0 ↔ String.ltb (au_emitTime a) (au_emitTime b) = false.
Proof. unfold audit_order. case_tests; split; (done || lia). Qed.

Definition newest_first : list audit → Prop :=
  StronglySorted (λ a b, String.ltb (au_emitTime a) (au_emitTime b) = false).

Lemma audit_sorted l : newest_first (js_sort audit_order l).
Proof.
  apply js_sort_sorted_by.
  - unfold audit_order. intros x y. destruct (String.ltb _ _) eqn:E; [|lia].
    intros _. by rewrite (ltb_asym _ _ E).
  - intros x y z. rewrite !audit_order_ge. apply ltb_ge_trans.
  - intros x y. apply audit_order_ge.
Qed.

(** The query for the following page. *)
Definition next_page (q : audit_query) : audit_query :=
  AuditQuery (aq_operation q) (aq_subject q) (aq_target q) (aq_startTime q) (aq_endTime q)
    (aq_limit q) (aq_offset q + aq_limit q).

(** ... and for two pages at once. *)
Definition double_page (q : audit_query) : audit_query :=
  AuditQuery (aq_operation q) (aq_subject q) (aq_target q) (aq_startTime q) (aq_endTime q)
    (2 * aq_limit q) (aq_offset q).

(** An accepted audit query asks for 1 to 1000 records, and its page holds
    at most that many, all of them records of the log that match every filter,
    newest first; following the offset by the limit continues the list where the
    page stopped. *)
Theorem audit_page_correct r q log :
  read_audit_query r = Some q →
  1 <= aq_limit q <= 1000 ∧ 0 <= aq_offset q ∧
  Z.of_nat (length (audit_page q log)) <= aq_limit q ∧
  (∀ a, a ∈ audit_page q log → a ∈ log ∧ audit_matches q a = true) ∧
  newest_first (audit_page q log) ∧
  audit_page q log ++ audit_page (next_page q) log = audit_page (double_page q) log.
Proof.
  unfold read_audit_query. destruct (parse_int _) as [lim|]; [|done].
  destruct (parse_int _) as [off|]; [|done].
  destruct (_ || _) eqn:E; [done|]. apply orb_false_iff in E as [[E1 E2]%orb_false_iff E3].
  set (lim' := if lim =? 0 then 100 else lim).
  assert (Hl : 1 <= lim' <= 1000) by (subst lim'; case_tests; zbool; lia). clearbody lim'. zbool.
  intros [= <-]. cbn. split; [done|]. split; [lia|]. split_and!.
  - unfold audit_page. etrans; [apply inj_le, list_slice_length|]. cbn. lia.
  - intros a Ha%list_slice_elem%js_sort_elem%keep_elem. tauto.
  - apply list_slice_sorted, audit_sorted.
  - unfold audit_page, next_page, double_page, audit_matches.
    cbn [aq_operation aq_subject aq_target aq_startTime aq_endTime aq_limit aq_offset].
    generalize (js_sort audit_order (keep
      (audit_matches (AuditQuery (param r "operation") (param r "subject") (param r "target")
         (param r "startTime") (param r "endTime") lim' off)) log)). intros l.
    rewrite !Z2Nat.inj_add, Z2Nat.inj_mul by lia.
    apply list_slice_app.
Qed.



Definition audit_request : request :=
  Request "/v2/orgs/default/audit-logs" (Some "GET") [("limit", "1"); ("operation", "token.create")] None.

Lemma audit_page_correct_witness :
  ∃ q, read_audit_query audit_request = Some q ∧
       map au_id (audit_page q (s_auditLog (initial_state "t"))) = ["audit-seed-2"] ∧
       Z.of_nat (length (audit_page q (s_auditLog (initial_state "t")))) <= aq_limit q.
Proof.
  eexists. split; [vm_compute; reflexivity|]. split; [vm_compute; reflexivity|].
  exact (proj1 (proj2 (proj2 (audit_page_correct audit_request _ (s_auditLog (initial_state "t"))
                                ltac:(vm_compute; reflexivity))))).
Defined.

(** ** Writing and reading back, at the handlers *)

Lemma find_app_frame db s s' a : s_apps s' = s_apps s → find_app db s' a = find_app db s a.
Proof. unfold find_app. by intros ->. Qed.

(** The configuration the API shows for an application. *)
Definition config_of (s : state) (a : string) : appConfig :=
  default default_config (s_appConfigs s !! a).

Lemma default_config_lookup s a :
  inherited a = false → s_appConfigs (with_default_config s a) !! a = Some (config_of s a).
Proof.
  intros Hi. unfold config_of, with_default_config.
  destruct (has_prop_cases (s_appConfigs s) a)
    as [(c & Ec & ->)|[(_ & Hi' & _)|(Ec & _ & ->)]]; [by rewrite Ec|congruence|].
  rewrite Ec, set_prop_own by done. apply lookup_insert_eq.
Qed.

Lemma default_config_frame s a :
  s_apps (with_default_config s a) = s_apps s ∧
  s_auditLog (with_default_config s a) = s_auditLog s.
Proof. unfold with_default_config. by case_tests. Qed.

Lemma put_then_get_policy e s a s' b v :
  inherited a = false →
  put_policy e s a b = (s', json 200 v) →
  get_policy s' a = json 200 v ∧
  (∃ n, jget b "queue" = Some (JStr n) ∧ eligible s n) ∧
  snd (delete_policy e s' a) = no_content ∧
  get_policy (fst (delete_policy e s' a)) a = no_policy.
Proof.
  intros Hi. unfold put_policy. destruct (jget b "queue") as [bq|] eqn:Eb; [|done].
  destruct (negb (truthy bq)); [done|].
  destruct (find _ _) as [x|] eqn:Ef; [|done].
  destruct (q_partitionQueue x) eqn:Ep; [done|].
  destruct (0 <? q_workerConcurrency x) eqn:Ew; [|done].
  apply find_some_elem in Ef as [Hx ->%is_str_eq]. zbool.
  intros [= <- <-]. rewrite (set_prop_own _ _ _ Hi). split_and!.
  - unfold get_policy, get_prop. cbn. by rewrite lookup_insert_eq.
  - exists (q_name x). split; [done|]. by exists x.
  - done.
  - unfold get_policy, delete_policy, has_prop, get_prop. cbn. rewrite lookup_insert_eq. cbn.
    by rewrite lookup_delete_eq, Hi.
Qed.

Lemma patch_then_get_app db e s a s' b fields :
  inherited a = false → find_app db s a = Some fields →
  serve_app db e s a "PATCH" b = (s', no_content) →
  ∃ c changed,
    apply_settings b (config_of s a) = Some (c, changed) ∧
    config_of s' a = c ∧
    serve_app db e s' a "GET" (JObj []) = (s', json 200 (app_with_config fields (Some c))) ∧
    (changed = false → c = config_of s a ∧ s_auditLog s' = s_auditLog s).
Proof.
  intros Hi Hf. unfold serve_app. rewrite Hf. cbn [String.eqb Ascii.eqb Bool.eqb].
  unfold patch_app. rewrite default_config_lookup by done.
  cbn [default from_option]. change (id (config_of s a)) with (config_of s a).
  destruct (apply_settings b (config_of s a)) as [[c changed]|] eqn:Ea; [|done].
  destruct (default_config_frame s a) as [Hs1 Hl1].
  remember (with_default_config s a) as s1.
  intros [= <-]. exists c, changed. split; [done|].
  assert (Hc : ∀ s2, s_appConfigs s2 = <[a:=c]> (s_appConfigs s1) → s_apps s2 = s_apps s →
            config_of s2 a = c ∧
            find_app db s2 a = Some fields ∧ with_default_config s2 a = s2 ∧
            s_appConfigs s2 !! a = Some c).
  { intros s2 E2 E2'. unfold config_of, with_default_config, has_prop, get_prop.
    rewrite E2, lookup_insert_eq, (find_app_frame _ _ _ _ E2'). done. }
  destruct (Hc (if changed then pushAudit e "application.update" "success"
              (Some (Target "application" a)) (set_appConfigs (<[a:=c]> (s_appConfigs s1)) s1)
              else set_appConfigs (<[a:=c]> (s_appConfigs s1)) s1))
    as (H1 & H2 & H3 & H4); [by destruct changed|destruct changed; exact Hs1|].
  rewrite H1, H2, H3, H4. split_and!; [done..|]. intros ->. split; [|exact Hl1].
  by apply apply_settings_unchanged in Ea.
Qed.

Lemma revoked_keys e s a k :
  k ∈ s_keys (fst (revoke_key e s a)) ↔ k ∈ s_keys s ∧ k_tokenName k ≠ a ∧ k_name k ≠ a.
Proof.
  cbn. rewrite keep_elem, andb_true_iff, !negb_true_iff, !String.eqb_neq. tauto.
Qed.

(** ** What the route order hides *)

(** The operation route tests for a substring of the path: an application whose
    name starts with the name of an operation is answered by it, although the
    application exists. *)
Lemma cancel_app_unreadable :
  let db := Some (λ (_ : string) (_ : list jval), Some [JObj [("name", JStr "cancel-service")]]) in
  let r := Request (org_path "default" ["apps"; "cancel-service"]) (Some "GET") [] None in
  fetch db sample_env (initial_state "t") r =
    (initial_state "t", problem 404 "Not Found" "unknown workflow operation") ∧
  ∃ s v, route_app db sample_env (initial_state "t") r = Some (s, json 200 v).
Proof. split; [vm_compute; reflexivity|]. do 2 eexists. vm_compute. reflexivity. Qed.

(** Membership is read off a plain object, so a name that every object inherits
    is a member: removing it is answered with success and audited. *)
Lemma inherited_member_removed :
  snd (remove_member sample_env (initial_state "t") "constructor") =
    json 200 (JObj [("name", JStr "constructor")]) ∧
  s_members (fst (remove_member sample_env (initial_state "t") "constructor")) =
    s_members (initial_state "t").
Proof. split; reflexivity. Qed.

(** The operation route does not look at the method: reading the path of an
    operation writes to the audit log. *)
Lemma reading_an_operation_is_audited :
  length (s_auditLog (fst (fetch no_db sample_env (initial_state "t")
    (Request "/v2/orgs/default/apps/a/workflows/w/cancel" (Some "GET") [] None)))) = 3%nat.
Proof. vm_compute. reflexivity. Qed.
