(* ===== verification/ApiTypes.v ===== *)
(** The types of the API (console/src/lib/api/types.ts) as predicates on JSON
    values.  A type of TypeScript is structural: an object may have more fields
    than its type names, and an optional field may be absent. *)

From Stdlib Require Import ZArith Lia Ascii String.
From stdpp Require Import base list strings gmap.
From S2P Require Import Prelude Json JsonSpec.

(** ** Types and conformance *)

Inductive shape :=
| TString | TNumber | TBoolean | TNull | TUnknown
| TLit (s : string)
| TUnion (l : list shape)
| TArray (t : shape)
| TRecord (t : shape)                              (* Record<string, T> *)
| TObject (fs : list (string * (bool * shape))).   (* true: the field is optional *)

Definition req (k : string) (t : shape) : string * (bool * shape) := (k, (false, t)).
Definition opt (k : string) (t : shape) : string * (bool * shape) := (k, (true, t)).
Definition nullable (t : shape) : shape := TUnion [t; TNull].
Definition literals (l : list string) : shape := TUnion (map TLit l).

Fixpoint conforms (t : shape) (v : jval) : bool :=
  match t, v with
  | TString, JStr _ | TNumber, JNum _ | TBoolean, JBool _ | TNull, JNull | TUnknown, _ => true
  | TLit s, JStr x => String.eqb s x
  | TUnion l, _ => existsb (λ t, conforms t v) l
  | TArray t, JArr l => forallb (conforms t) l
  | TRecord t, JObj fs => forallb (λ f, conforms t (snd f)) fs
  | TObject ts, JObj fs =>
      forallb (λ f : string * (bool * shape),
        match assoc (fst f) fs with
        | None | Some JUndef => fst (snd f)
        | Some x => conforms (snd (snd f)) x
        end) ts
  | _, _ => false
  end.

(** ** The interfaces *)

Definition WorkflowStatus : shape :=
  literals ["PENDING"; "SUCCESS"; "ERROR"; "CANCELLED"; "ENQUEUED"; "DELAYED";
            "MAX_RECOVERY_ATTEMPTS_EXCEEDED"].

Definition ExecutorStatus : shape := literals ["HEALTHY"; "DISCONNECTED"; "DEAD"].

Definition Application : shape := TObject
  [req "id" TString; req "name" TString; req "orgId" TString;
   req "status" (literals ["AVAILABLE"; "UNAVAILABLE"]);
   req "dbosCloud" TBoolean; req "privateMode" TBoolean; req "executorTimeoutSecs" TNumber;
   opt "gcRowsThreshold" (nullable TNumber); opt "gcTimeThresholdMs" (nullable TNumber);
   opt "globalTimeoutMs" (nullable TNumber); opt "language" (nullable TString)].

Definition Executor : shape := TObject
  [req "executorId" TString; req "appId" TString; req "appVersion" TString;
   req "status" ExecutorStatus; opt "hostId" (nullable TString);
   opt "hostname" (nullable TString); req "createdAt" TString; req "updatedAt" TString;
   opt "language" (nullable TString); opt "dbosVersion" (nullable TString);
   opt "executorMetadata" (nullable (TRecord TUnknown))].

Definition Workflow : shape := TObject
  [req "workflowId" TString; req "status" WorkflowStatus;
   opt "workflowName" (nullable TString); opt "workflowClass" (nullable TString);
   opt "workflowConfig" (nullable TString); opt "user" (nullable TString);
   opt "assumedRole" (nullable TString); opt "roles" (nullable TString);
   opt "input" (nullable TString); opt "output" (nullable TString);
   opt "error" (nullable TString); req "createdAt" TString; req "updatedAt" TString;
   opt "queueName" (nullable TString); opt "appVersion" (nullable TString);
   opt "executorId" (nullable TString); opt "timeoutMs" (nullable TNumber);
   opt "deadline" (nullable TString); opt "deduplicationId" (nullable TString);
   req "priority" TNumber; opt "queuePartitionKey" (nullable TString);
   opt "forkedFrom" (nullable TString); req "wasForkedFrom" TBoolean;
   opt "parentWorkflowId" (nullable TString); opt "dequeuedAt" (nullable TString);
   opt "delayUntil" (nullable TString); opt "completedAt" (nullable TString);
   opt "attributes" (nullable TString); opt "scheduleName" (nullable TString);
   opt "applicationName" (nullable TString)].

Definition Step : shape := TObject
  [req "stepId" TNumber; req "stepName" TString; opt "output" (nullable TString);
   opt "error" (nullable TString); opt "childWorkflowId" (nullable TString);
   opt "startedAt" (nullable TString); opt "completedAt" (nullable TString)].

Definition Event : shape := TObject [req "key" TString; req "value" TString].

Definition WorkflowEvent : shape := TObject [req "key" TString; req "value" TUnknown].

Definition Notification : shape := TObject
  [opt "topic" (nullable TString); req "message" TString; req "createdAt" TString;
   req "consumed" TBoolean].

Definition StreamEntry : shape := TObject [req "key" TString; req "values" (TArray TString)].

Definition Queue : shape := TObject
  [req "name" TString; opt "concurrency" (nullable TNumber);
   opt "workerConcurrency" (nullable TNumber); opt "rateLimitMax" (nullable TNumber);
   opt "rateLimitPeriodSecs" (nullable TNumber); req "priorityEnabled" TBoolean;
   req "partitionQueue" TBoolean; req "pollingIntervalSecs" TNumber;
   opt "applicationName" (nullable TString)].

Definition Schedule : shape := TObject
  [req "scheduleId" TString; req "scheduleName" TString; req "workflowName" TString;
   opt "workflowClass" (nullable TString); req "cronExpression" TString;
   opt "cronTimezone" (nullable TString); req "status" TString;
   opt "context" (nullable TString); opt "lastFiredAt" (nullable TString);
   req "automaticBackfill" TBoolean; opt "applicationName" (nullable TString)].

Definition AlertingRule : shape := TObject
  [req "id" TString; req "appId" TString; req "receivingAppId" TString;
   req "ruleType" TString; req "ruleMetadata" (TRecord TUnknown);
   opt "minIntervalSecs" (nullable TNumber); opt "lastFiredAt" (nullable TString)].

Definition CreateAlertInput : shape := TObject
  [req "ruleType" TString; opt "receivingAppName" TString; opt "minIntervalSecs" TNumber;
   req "ruleMetadata" (TRecord TUnknown)].

Definition Token : shape := TObject
  [req "tokenName" TString; req "createdAt" TString; req "permissions" (TArray TString);
   req "appIds" (TArray TString)].

Definition TokenCreated : shape := TObject [req "token" TString; req "tokenName" TString].

Definition UpdateAppInput : shape := TObject
  [opt "privateMode" TBoolean; opt "executorTimeoutSecs" TNumber; opt "gcRowsThreshold" TNumber;
   opt "gcTimeThresholdMs" TNumber; opt "globalTimeoutMs" TNumber].

Definition RolloutPolicy : shape := TObject
  [opt "maxOldApplicationVersions" (nullable TNumber);
   opt "maxExecutorsForOldApplicationVersions" (nullable TNumber)].

Definition AutoscalePolicy : shape := TObject
  [req "queue" TString; opt "rollout" (nullable RolloutPolicy)].

Definition QueueAutoscale : shape := TObject
  [req "applicationVersion" TString; req "isLatest" TBoolean; req "desiredExecutors" TNumber;
   req "queueName" TString; req "queueDepth" TNumber; req "observedAt" TNumber].

Definition AuditSubjectType : shape := literals ["user"; "api_key"].

Definition AuditTargetType : shape :=
  literals ["application"; "workflow"; "schedule"; "alerting_rule"; "token"; "role"; "user";
            "organization"; "domain_claim"].

Definition AuditLogEntry : shape := TObject
  [req "id" TString; req "emitTime" TString; req "operation" TString;
   req "status" (literals ["success"; "failure"]);
   req "subject" (TObject [req "id" TString; req "display" TString; req "type" AuditSubjectType]);
   opt "target" (nullable (TObject [req "id" TString; req "type" AuditTargetType]));
   req "sourceIp" TString; opt "details" (nullable (TRecord TUnknown))].

Definition Role : shape := TObject
  [req "name" TString; req "isGlobal" TBoolean; req "permissions" (TArray TString)].

Definition OrgMembers : shape := TObject [req "orgName" TString; req "users" (TRecord Role)].

(** ** A value that conforms still does after its trip through JSON *)

Lemma shape_nested_ind (P : shape → Prop) :
  P TString → P TNumber → P TBoolean → P TNull → P TUnknown → (∀ s, P (TLit s)) →
  (∀ l, Forall P l → P (TUnion l)) → (∀ t, P t → P (TArray t)) → (∀ t, P t → P (TRecord t)) →
  (∀ fs, Forall (λ f, P (snd (snd f))) fs → P (TObject fs)) → ∀ t, P t.
Proof.
  intros H1 H2 H3 H4 H5 H6 Hu Ha Hr Ho. fix IH 1. intros [| | | | |s|l|t|t|fs].
  - exact H1.
  - exact H2.
  - exact H3.
  - exact H4.
  - exact H5.
  - apply H6.
  - apply Hu. induction l as [|x l IHl]; constructor; [apply IH|exact IHl].
  - apply Ha, IH.
  - apply Hr, IH.
  - apply Ho. induction fs as [|x l IHl]; constructor; [apply IH|exact IHl].
Qed.

Lemma assoc_clean k fs :
  assoc k (flat_map (λ f : string * jval,
    if is_undef (snd f) then [] else [(fst f, clean (snd f))]) fs) =
  match assoc k (keep (λ f, negb (is_undef (snd f))) fs) with
  | Some x => Some (clean x)
  | None => None
  end.
Proof.
  induction fs as [|[k' x] fs IH]; [done|]. unfold keep in *. cbn [flat_map List.filter fst snd].
  destruct (is_undef x); cbn [negb]; [done|]. cbn [Datatypes.app assoc].
  by destruct (String.eqb k k').
Qed.

Lemma conforms_undef t : conforms t JUndef = true → ∀ v, conforms t v = true.
Proof.
  induction t as [| | | | |s|l IH|t IH|t IH|fs IH] using shape_nested_ind; try done.
  intros H v. cbn [conforms] in *. rewrite existsb_exists in *. destruct H as (t & Ht & H).
  exists t. split; [done|]. rewrite Forall_forall in IH. apply (IH t); [by apply list_elem_of_In|done].
Qed.

Lemma clean_undef v : clean v = JUndef ↔ v = JUndef.
Proof. by destruct v. Qed.

Lemma assoc_distinct k (fs : list (string * jval)) x :
  NoDup (map fst fs) → assoc k fs = Some x → is_undef x = false →
  assoc k (keep (λ f, negb (is_undef (snd f))) fs) = Some x.
Proof.
  intros _ H Hx. induction fs as [|[k' y] fs IH]; [done|]. unfold keep in *.
  cbn [assoc List.filter snd] in *. destruct (String.eqb_spec k k') as [->|Hk].
  - injection H as ->. rewrite Hx. cbn. by rewrite String.eqb_refl.
  - destruct (is_undef y); cbn [negb assoc]; [auto|].
    rewrite (proj2 (String.eqb_neq k k') Hk). auto.
Qed.

Lemma assoc_undef k (fs : list (string * jval)) :
  NoDup (map fst fs) → assoc k fs = None ∨ assoc k fs = Some JUndef →
  assoc k (keep (λ f, negb (is_undef (snd f))) fs) = None.
Proof.
  intros Hd H. induction fs as [|[k' y] fs IH]; [done|]. unfold keep in *.
  cbn [map fst] in Hd. apply NoDup_cons in Hd as [Hn Hd].
  cbn [assoc List.filter snd] in *. destruct (String.eqb_spec k k') as [->|Hk].
  - destruct H as [H|H]; [done|]. injection H as ->. cbn. apply IH; [done|]. left.
    clear -Hn. induction fs as [|[k y] fs IH]; [done|]. cbn [map fst assoc] in *.
    apply not_elem_of_cons in Hn as [H1 H2]. rewrite (proj2 (String.eqb_neq k' k)) by done. auto.
  - destruct (is_undef y); cbn [negb assoc]; [auto|].
    rewrite (proj2 (String.eqb_neq k k') Hk). auto.
Qed.

Lemma conforms_clean t : ∀ v,
  proper_value v = true → conforms t v = true → conforms t (clean v) = true.
Proof.
  induction t as [| | | | |s|l IH|t IH|t IH|fs IH] using shape_nested_ind; intros v Hp H;
    try (destruct v; cbn in H |- *; done).
  - cbn [conforms] in *. rewrite existsb_exists in *. destruct H as (t & Ht & H).
    exists t. split; [done|]. rewrite Forall_forall in IH. apply (IH t); auto.
    by apply list_elem_of_In.
  - destruct v as [| | | | |vs|]; try done. cbn [clean conforms proper_value] in *.
    rewrite forallb_forall in *. intros x (y & <- & Hy)%in_map_iff.
    specialize (H y Hy). specialize (Hp y Hy). destruct (is_undef y) eqn:E; [|auto].
    destruct y; try done. by apply conforms_undef.
  - destruct v as [| | | | | |vs]; try done. cbn [clean conforms proper_value] in *.
    apply andb_true_iff in Hp as [_ Hp]. rewrite forallb_forall in *.
    intros x (y & Hy & Hx)%in_flat_map. destruct (is_undef (snd y)); [done|].
    destruct Hx as [<-|[]]. cbn. auto.
  - destruct v as [| | | | | |vs]; try done. cbn [clean conforms proper_value] in *.
    apply andb_true_iff in Hp as [Hd Hp]. apply bool_decide_eq_true in Hd.
    rewrite forallb_forall in *. intros [k [o t]] Hf. specialize (H _ Hf). cbn [fst snd] in *.
    rewrite assoc_clean. destruct (assoc k vs) as [x|] eqn:Ex.
    + destruct (is_undef x) eqn:Eu.
      * destruct x; try done. rewrite (assoc_undef k vs Hd (or_intror Ex)). done.
      * rewrite (assoc_distinct k vs x Hd Ex Eu).
        assert (conforms t x = true) as Hc by (destruct x; done).
        assert (proper_value x = true) as Hx.
        { clear -Ex Hp. induction vs as [|[k' y] vs IH]; [done|]. cbn [assoc] in Ex.
          destruct (String.eqb k k').
          - injection Ex as ->. apply (Hp (k', x)). by left.
          - apply IH; [|done]. intros z Hz. apply Hp. by right. }
        rewrite Forall_forall in IH.
        specialize (IH (k, (o, t)) ltac:(by apply list_elem_of_In) x Hx Hc). cbn in IH.
        destruct (clean x) eqn:Ec; try done. apply clean_undef in Ec as ->. done.
    + rewrite (assoc_undef k vs Hd (or_introl Ex)). done.
Qed.
