(* ===== verification/ApiClient.v ===== *)
(** The console's API client (console/src/lib/api/client.ts): the call each
    method of [ApiClient] makes, and what it returns or throws for an answer of
    the server.  The query types are those of console/src/lib/api/types.ts. *)

From Stdlib Require Import ZArith Lia Ascii String.
From stdpp Require Import base list strings gmap.
From S2P Require Import Prelude Html Json Uri Url.

(** A caught error: [err.status], which only a server's answer has, and
    [err.message]. *)
Record err := Err { e_status : option Z; e_message : string }.

Module Client.

(** ** The object *)

Record client := Api { baseUrl : string; apiKey : option string }.

(** [s.replace(/\/+$/, "")]. *)
Fixpoint strip_slashes (s : string) : string :=
  match s with
  | EmptyString => ""
  | String a s' =>
      match strip_slashes s' with
      | EmptyString => if Ascii.eqb a "/" then "" else String a ""
      | t => String a t
      end
  end.

Definition new_client (base : string) (key : option string) : client :=
  Api (strip_slashes base) key.

Definition setApiKey (key : option string) (c : client) : client := Api (baseUrl c) key.

(** ** Calls *)

(** What a method passes to [request]: the path, and the options' method and
    body. *)
Record rpc := Rpc { r_path : string; r_method : option string; r_body : option string }.

Definition get (path : string) : rpc := Rpc path None None.
Definition send (method path : string) (body : option string) : rpc := Rpc path (Some method) body.

(** What [fetch] is called with. *)
Record call := Call {
  url : string; method : option string; headers : list (string * string);
  body : option string }.

Definition text_of (o : option string) : string := default "" o.

(** [this.apiKey] in a test: a key that is not empty. *)
Definition authorization (c : client) : list (string * string) :=
  match apiKey c with
  | Some k => if String.eqb k "" then [] else [("Authorization", "Bearer " +:+ k)]
  | None => []
  end.

Definition request (c : client) (r : rpc) : call :=
  Call (baseUrl c +:+ r_path r) (r_method r)
    ([("Accept", "application/json")] ++
     (if String.eqb (text_of (r_body r)) "" then [] else [("Content-Type", "application/json")]) ++
     authorization c)
    (r_body r).

(** ** Answers *)

(** An answer of the server: its status and reason, its body as a text and as
    what [JSON.parse] makes of it ([None] when it throws). *)
Record http := Http {
  h_status : Z; h_statusText : string; h_text : string; h_json : option jval }.

(** What a method returns, the error of an answer it refuses, or another
    exception (a body that is not JSON). *)
Inductive answer := Got (v : jval) | GotText (s : string) | Refused (e : err) | Broken.

Definition ok (h : http) : bool := (200 <=? h_status h) && (h_status h <? 300).

Definition status_line (h : http) : string :=
  "HTTP " +:+ string_of_Z (h_status h) +:+ " " +:+ h_statusText h.

(** The message of the thrown error: the first of the three fields that is
    truthy; reading a field of [null] throws, and the status line stays. *)
Definition errorDetail (h : http) : string :=
  match h_json h with
  | None => status_line h
  | Some errorJson =>
      match jget errorJson "detail", jget errorJson "title", jget errorJson "message" with
      | Some detail, Some title, Some message =>
          if truthy detail then js_string detail
          else if truthy title then js_string title
          else if truthy message then js_string message
          else status_line h
      | _, _, _ => status_line h
      end
  end.

Definition read_answer (h : http) : answer :=
  if negb (ok h) then Refused (Err (Some (h_status h)) (errorDetail h))
  else if h_status h =? 204 then Got JUndef
  else match h_json h with Some v => Got v | None => Broken end.

(** ** Queries *)

Record WorkflowSearchQuery := Search {
  s_workflowIds : list string; s_workflowName : list string;
  s_workflowIdPrefix : list string; s_status : list string; s_queueName : list string;
  s_appVersion : list string; s_executorId : list string;
  s_startTime : string; s_endTime : string;
  s_limit : option Z; s_offset : option Z; s_sortDesc : option bool }.

Record AuditLogQuery := AuditQuery {
  a_startTime : string; a_endTime : string; a_operation : string; a_subject : string;
  a_target : string; a_limit : option Z; a_offset : option Z }.

Record MetricsQuery := Metrics {
  m_applications : string; m_workflowNames : string; m_metrics : list string }.

(** [for (const x of l) params.append(k, x)]. *)
Definition append_all (k : string) (l : list string) (ps : list (string * string)) :=
  fold_left (λ ps x, params_append k x ps) l ps.

(** [if (n) params.append(k, n.toString())]: zero is left out. *)
Definition append_number (k : string) (n : option Z) (ps : list (string * string)) :=
  match n with
  | Some n => if n =? 0 then ps else params_append k (string_of_Z n) ps
  | None => ps
  end.

Definition set_text (k v : string) (ps : list (string * string)) :=
  if String.eqb v "" then ps else params_set k v ps.

Definition set_number (k : string) (n : option Z) (ps : list (string * string)) :=
  match n with Some n => params_set k (string_of_Z n) ps | None => ps end.

Definition search_params (q : WorkflowSearchQuery) : list (string * string) :=
  let ps := append_all "workflowIds" (s_workflowIds q) [] in
  let ps := append_all "workflowName" (s_workflowName q) ps in
  let ps := append_all "status" (s_status q) ps in
  let ps := append_all "queueName" (s_queueName q) ps in
  let ps := append_all "appVersion" (s_appVersion q) ps in
  let ps := append_number "limit" (s_limit q) ps in
  let ps := append_number "offset" (s_offset q) ps in
  match s_sortDesc q with
  | Some b => params_append "sortDesc" (bool_text b) ps
  | None => ps
  end.

Definition audit_params (q : AuditLogQuery) : list (string * string) :=
  let ps := set_text "startTime" (a_startTime q) [] in
  let ps := set_text "endTime" (a_endTime q) ps in
  let ps := set_text "operation" (a_operation q) ps in
  let ps := set_text "subject" (a_subject q) ps in
  let ps := set_text "target" (a_target q) ps in
  let ps := set_number "limit" (a_limit q) ps in
  set_number "offset" (a_offset q) ps.

Definition metrics_params (q : MetricsQuery) : list (string * string) :=
  let ps := set_text "applications" (m_applications q) [] in
  let ps := set_text "workflow_names" (m_workflowNames q) ps in
  append_all "metrics" (m_metrics q) ps.

(** [${qs ? "?" + qs : ""}]. *)
Definition query_suffix (ps : list (string * string)) : string :=
  let qs := params_text ps in if String.eqb qs "" then "" else "?" +:+ qs.

Notation enc := encodeURIComponent.

(** ** Health, applications *)

Definition getHealth : rpc := get "/healthz".

Definition listApplications (orgName : string) : rpc :=
  get (tpl [T "/v2/orgs/"; H (enc orgName); T "/apps"]).

Definition getApplication (orgName appName : string) : rpc :=
  get (tpl [T "/v2/orgs/"; H (enc orgName); T "/apps/"; H (enc appName)]).

Definition listExecutors (orgName appName : string) : rpc :=
  get (tpl [T "/v2/orgs/"; H (enc orgName); T "/apps/"; H (enc appName); T "/executors"]).

(** ** Workflows *)

Definition listWorkflows (orgName appName : string) (query : WorkflowSearchQuery) : rpc :=
  get (tpl [T "/v2/orgs/"; H (enc orgName); T "/apps/"; H (enc appName); T "/workflows";
            H (query_suffix (search_params query))]).

Definition getWorkflow (orgName appName workflowId : string) : rpc :=
  get (tpl [T "/v2/orgs/"; H (enc orgName); T "/apps/"; H (enc appName); T "/workflows/";
            H (enc workflowId)]).

Definition listSteps (orgName appName workflowId : string) : rpc :=
  get (tpl [T "/v2/orgs/"; H (enc orgName); T "/apps/"; H (enc appName); T "/workflows/";
            H (enc workflowId); T "/steps"]).

Definition getWorkflowEvents (orgName appName workflowId : string) : rpc :=
  get (tpl [T "/v2/orgs/"; H (enc orgName); T "/apps/"; H (enc appName); T "/workflows/";
            H (enc workflowId); T "/events"]).

Definition getWorkflowEvent (orgName appName workflowId key : string) : rpc :=
  get (tpl [T "/v2/orgs/"; H (enc orgName); T "/apps/"; H (enc appName); T "/workflows/";
            H (enc workflowId); T "/event?key="; H (enc key)]).

(** [topic || undefined]. *)
Definition sendWorkflowMessage (orgName appName workflowId : string) (payload : jval)
    (topic : string) : rpc :=
  send "POST"
    (tpl [T "/v2/orgs/"; H (enc orgName); T "/apps/"; H (enc appName); T "/workflows/";
          H (enc workflowId); T "/send"])
    (stringify (JObj [("topic", if String.eqb topic "" then JUndef else JStr topic);
                      ("payload", payload)])).

Definition getWorkflowNotifications (orgName appName workflowId : string) : rpc :=
  get (tpl [T "/v2/orgs/"; H (enc orgName); T "/apps/"; H (enc appName); T "/workflows/";
            H (enc workflowId); T "/notifications"]).

Definition getWorkflowStreams (orgName appName workflowId key : string) : rpc :=
  get (tpl [T "/v2/orgs/"; H (enc orgName); T "/apps/"; H (enc appName); T "/workflows/";
            H (enc workflowId); T "/streams";
            H (if String.eqb key "" then "" else "?key=" +:+ enc key)]).

Definition cancelWorkflow (orgName appName workflowId : string) : rpc :=
  send "POST"
    (tpl [T "/v2/orgs/"; H (enc orgName); T "/apps/"; H (enc appName); T "/workflows/";
          H (enc workflowId); T "/cancel"])
    (Some "{}").

Definition resumeWorkflow (orgName appName workflowId : string) : rpc :=
  send "POST"
    (tpl [T "/v2/orgs/"; H (enc orgName); T "/apps/"; H (enc appName); T "/workflows/";
          H (enc workflowId); T "/resume"])
    (Some "{}").

Definition forkWorkflow (org app id : string) (startStep : Z) : rpc :=
  send "POST"
    (tpl [T "/v2/orgs/"; H (enc org); T "/apps/"; H (enc app); T "/workflows/";
          H (enc id); T "/fork"])
    (stringify (JObj [("startStep", JNum startStep)])).

(** ** Queues, schedules, alerting rules *)

Definition listQueues (orgName appName : string) : rpc :=
  get (tpl [T "/v2/orgs/"; H (enc orgName); T "/apps/"; H (enc appName); T "/queues"]).

Definition listSchedules (orgName appName : string) : rpc :=
  get (tpl [T "/v2/orgs/"; H (enc orgName); T "/apps/"; H (enc appName); T "/schedules"]).

Definition pauseSchedule (orgName appName scheduleName : string) : rpc :=
  send "POST"
    (tpl [T "/v2/orgs/"; H (enc orgName); T "/apps/"; H (enc appName); T "/schedules/";
          H (enc scheduleName); T "/pause"]) None.

Definition resumeSchedule (orgName appName scheduleName : string) : rpc :=
  send "POST"
    (tpl [T "/v2/orgs/"; H (enc orgName); T "/apps/"; H (enc appName); T "/schedules/";
          H (enc scheduleName); T "/resume"]) None.

Definition triggerSchedule (orgName appName scheduleName : string) : rpc :=
  send "POST"
    (tpl [T "/v2/orgs/"; H (enc orgName); T "/apps/"; H (enc appName); T "/schedules/";
          H (enc scheduleName); T "/trigger"]) None.

Definition listAlertingRules (orgName appName : string) : rpc :=
  get (tpl [T "/v2/orgs/"; H (enc orgName); T "/apps/"; H (enc appName); T "/alerting-rules"]).

Definition createAlertingRule (orgName appName : string) (rule : jval) : rpc :=
  send "POST"
    (tpl [T "/v2/orgs/"; H (enc orgName); T "/apps/"; H (enc appName); T "/alerting-rules"])
    (stringify rule).

Definition deleteAlertingRule (orgName appName ruleId : string) : rpc :=
  send "DELETE"
    (tpl [T "/v2/orgs/"; H (enc orgName); T "/apps/"; H (enc appName); T "/alerting-rules/";
          H (enc ruleId)]) None.

(** ** API keys *)

Definition json_strings (l : list string) : jval := JArr (map JStr l).

Definition listAPIKeys (orgName : string) : rpc :=
  get (tpl [T "/v2/orgs/"; H (enc orgName); T "/tokens"]).

Definition createAPIKey (orgName name : string) (permissions appNames : list string) : rpc :=
  send "POST" (tpl [T "/v2/orgs/"; H (enc orgName); T "/tokens/"; H (enc name)])
    (stringify (JObj [("permissions", json_strings permissions);
                      ("appNames", json_strings appNames)])).

Definition revokeAPIKey (orgName name : string) : rpc :=
  send "DELETE" (tpl [T "/v2/orgs/"; H (enc orgName); T "/tokens/"; H (enc name)]) None.

(** ** Settings and autoscaling *)

Definition updateApp (orgName appName : string) (input : jval) : rpc :=
  send "PATCH" (tpl [T "/v2/orgs/"; H (enc orgName); T "/apps/"; H (enc appName)])
    (stringify input).

Definition getAutoscalingPolicy (orgName appName : string) : rpc :=
  get (tpl [T "/v2/orgs/"; H (enc orgName); T "/apps/"; H (enc appName); T "/autoscaling-policy"]).

Definition setAutoscalingPolicy (orgName appName : string) (policy : jval) : rpc :=
  send "PUT"
    (tpl [T "/v2/orgs/"; H (enc orgName); T "/apps/"; H (enc appName); T "/autoscaling-policy"])
    (stringify policy).

Definition deleteAutoscalingPolicy (orgName appName : string) : rpc :=
  send "DELETE"
    (tpl [T "/v2/orgs/"; H (enc orgName); T "/apps/"; H (enc appName); T "/autoscaling-policy"])
    None.

Definition getAutoscale (orgName appName : string) : rpc :=
  get (tpl [T "/v2/orgs/"; H (enc orgName); T "/apps/"; H (enc appName); T "/autoscale"]).

(** ** Audit log and metrics *)

Definition listAuditLogs (orgName : string) (query : AuditLogQuery) : rpc :=
  get (tpl [T "/v2/orgs/"; H (enc orgName); T "/audit-logs";
            H (query_suffix (audit_params query))]).

(** The metrics are a text, and their call does not go through [request]. *)
Definition getMetricsText (c : client) (query : MetricsQuery) : call :=
  Call (tpl [H (baseUrl c); T "/v1/metrics"; H (query_suffix (metrics_params query))]) None
    ([("Accept", "text/plain")] ++ authorization c) None.

Definition read_metrics (h : http) : answer :=
  if negb (ok h) then Refused (Err (Some (h_status h)) (status_line h))
  else GotText (h_text h).

(** ** Roles, members, organizations *)

Definition listRoles (orgName : string) : rpc :=
  get (tpl [T "/v2/orgs/"; H (enc orgName); T "/roles"]).

Definition createRole (orgName name : string) (permissions : list string) : rpc :=
  send "POST" (tpl [T "/v2/orgs/"; H (enc orgName); T "/roles"])
    (stringify (JObj [("name", JStr name); ("permissions", json_strings permissions)])).

Definition deleteRole (orgName roleName : string) : rpc :=
  send "DELETE" (tpl [T "/v2/orgs/"; H (enc orgName); T "/roles/"; H (enc roleName)]) None.

Definition listMembers (orgName : string) : rpc :=
  get (tpl [T "/v2/orgs/"; H (enc orgName); T "/members"]).

Definition grantMemberRole (orgName username roleName : string) : rpc :=
  send "PUT"
    (tpl [T "/v2/orgs/"; H (enc orgName); T "/members/"; H (enc username); T "/roles/";
          H (enc roleName)]) None.

Definition removeMember (orgName username : string) : rpc :=
  send "DELETE" (tpl [T "/v2/orgs/"; H (enc orgName); T "/members/"; H (enc username)]) None.

Definition listPermissions (orgName : string) : rpc :=
  get (tpl [T "/v2/orgs/"; H (enc orgName); T "/permissions"]).

Definition listOrganizations : rpc := get "/v2/orgs".

(** ** The address of the event stream *)

Definition getEventsUrl (c : client) (orgName : string) (appName : string) : string :=
  let base :=
    if String.eqb appName "" then tpl [T "/v2/orgs/"; H (enc orgName); T "/events"]
    else tpl [T "/v2/orgs/"; H (enc orgName); T "/apps/"; H (enc appName); T "/events"] in
  match apiKey c with
  | Some k =>
      if String.eqb k "" then tpl [H (baseUrl c); H base]
      else tpl [H (baseUrl c); H base; T "?token="; H (enc k)]
  | None => tpl [H (baseUrl c); H base]
  end.

End Client.
