(* ===== verification/ClientServe.v ===== *)
(** The calls of the console's client as the playground's control plane receives
    them: the request of each operation, and the reference service [serve], which
    knows operations and names but no paths, no encodings and no JSON text. *)

From Stdlib Require Import ZArith Lia Ascii String.
From stdpp Require Import base list strings gmap.
From S2P Require Import Prelude Html Json JsonSpec Uri Url ApiClient.
From S2P Require Import BridgeState BridgeRoutes BridgePaths BridgeSpec.
Import Client.

(** ** The operations: a method of the client with its arguments *)
Inductive operation :=
| GetHealth
| ListApplications (org : string)
| GetApplication (org app : string)
| ListExecutors (org app : string)
| ListWorkflows (org app : string) (query : WorkflowSearchQuery)
| GetWorkflow (org app id : string)
| ListSteps (org app id : string)
| GetWorkflowEvents (org app id : string)
| GetWorkflowEvent (org app id key : string)
| SendWorkflowMessage (org app id : string) (payload : jval) (topic : string)
| GetWorkflowNotifications (org app id : string)
| GetWorkflowStreams (org app id key : string)
| CancelWorkflow (org app id : string)
| ResumeWorkflow (org app id : string)
| ForkWorkflow (org app id : string) (startStep : Z)
| ListQueues (org app : string)
| ListSchedules (org app : string)
| PauseSchedule (org app name : string)
| ResumeSchedule (org app name : string)
| TriggerSchedule (org app name : string)
| ListAlertingRules (org app : string)
| CreateAlertingRule (org app : string) (rule : jval)
| DeleteAlertingRule (org app id : string)
| ListAPIKeys (org : string)
| CreateAPIKey (org name : string) (permissions appNames : list string)
| RevokeAPIKey (org name : string)
| UpdateApp (org app : string) (input : jval)
| GetAutoscalingPolicy (org app : string)
| SetAutoscalingPolicy (org app : string) (policy : jval)
| DeleteAutoscalingPolicy (org app : string)
| GetAutoscale (org app : string)
| ListAuditLogs (org : string) (query : AuditLogQuery)
| GetMetricsText (query : MetricsQuery)
| ListRoles (org : string)
| CreateRole (org name : string) (permissions : list string)
| DeleteRole (org name : string)
| ListMembers (org : string)
| GrantMemberRole (org user role : string)
| RemoveMember (org user : string)
| ListPermissions (org : string)
| ListOrganizations.

Definition rpc_of (op : operation) : rpc :=
  match op with
  | GetHealth => getHealth
  | ListApplications org => listApplications org
  | GetApplication org app => getApplication org app
  | ListExecutors org app => listExecutors org app
  | ListWorkflows org app query => listWorkflows org app query
  | GetWorkflow org app id => getWorkflow org app id
  | ListSteps org app id => listSteps org app id
  | GetWorkflowEvents org app id => getWorkflowEvents org app id
  | GetWorkflowEvent org app id key => getWorkflowEvent org app id key
  | SendWorkflowMessage org app id payload topic => sendWorkflowMessage org app id payload topic
  | GetWorkflowNotifications org app id => getWorkflowNotifications org app id
  | GetWorkflowStreams org app id key => getWorkflowStreams org app id key
  | CancelWorkflow org app id => cancelWorkflow org app id
  | ResumeWorkflow org app id => resumeWorkflow org app id
  | ForkWorkflow org app id startStep => forkWorkflow org app id startStep
  | ListQueues org app => listQueues org app
  | ListSchedules org app => listSchedules org app
  | PauseSchedule org app name => pauseSchedule org app name
  | ResumeSchedule org app name => resumeSchedule org app name
  | TriggerSchedule org app name => triggerSchedule org app name
  | ListAlertingRules org app => listAlertingRules org app
  | CreateAlertingRule org app rule => createAlertingRule org app rule
  | DeleteAlertingRule org app id => deleteAlertingRule org app id
  | ListAPIKeys org => listAPIKeys org
  | CreateAPIKey org name permissions appNames => createAPIKey org name permissions appNames
  | RevokeAPIKey org name => revokeAPIKey org name
  | UpdateApp org app input => updateApp org app input
  | GetAutoscalingPolicy org app => getAutoscalingPolicy org app
  | SetAutoscalingPolicy org app policy => setAutoscalingPolicy org app policy
  | DeleteAutoscalingPolicy org app => deleteAutoscalingPolicy org app
  | GetAutoscale org app => getAutoscale org app
  | ListAuditLogs org query => listAuditLogs org query
  | GetMetricsText query => get ("/v1/metrics" +:+ query_suffix (metrics_params query))
  | ListRoles org => listRoles org
  | CreateRole org name permissions => createRole org name permissions
  | DeleteRole org name => deleteRole org name
  | ListMembers org => listMembers org
  | GrantMemberRole org user role => grantMemberRole org user role
  | RemoveMember org user => removeMember org user
  | ListPermissions org => listPermissions org
  | ListOrganizations => listOrganizations
  end.

Definition call_of (c : client) (op : operation) : call :=
  match op with
  | GetMetricsText query => getMetricsText c query
  | _ => Client.request c (rpc_of op)
  end.

Definition read_of (op : operation) : http → answer :=
  match op with GetMetricsText _ => read_metrics | _ => read_answer end.

(** ** What the control plane receives and sends back *)

(** [init.body] as [JSON.parse] reads it, when it is not empty. *)
Definition read_body (b : option string) : option jval :=
  match b with
  | Some t => if String.eqb t "" then None else json_parse t
  | None => None
  end.

Definition received (cl : call) : option BridgeState.request :=
  match parse_url (url cl) with
  | Some (path, q) =>
      match parse_params q with
      | Some ps => Some (Request path (method cl) ps (read_body (body cl)))
      | None => None
      end
  | None => None
  end.

(** A [Response] of the control plane, whose reason is empty, as the client
    sees it; [network] answers what the control plane hands over. *)
Definition http_of (r : response) : http :=
  match rs_body r with
  | NoBody => Http (rs_status r) "" "" None
  | JsonBody v =>
      let t := default "" (stringify v) in Http (rs_status r) "" t (json_parse t)
  | TextBody t => Http (rs_status r) "" t (json_parse t)
  end.

Definition answer_to (network : option http) (op : operation) (o : outcome) : answer :=
  match o with
  | Respond r => read_of op (http_of r)
  | NativeFetch => match network with Some h => read_of op h | None => Broken end
  | Rejected => Broken
  end.

(** ** The reference service *)
Section Service.
Context (db : option (string → list jval → option (list jval))) (e : env).

(** What reaches the server of a value put in a body. *)
Definition sent_value (v : jval) : jval :=
  match v with JUndef => JObj [] | _ => clean v end.

Definition audit_query_of (q : AuditLogQuery) : option audit_query :=
  let limit := default 100 (a_limit q) in
  let offset := default 0 (a_offset q) in
  if (limit <? 0) || (offset <? 0) || (1000 <? limit) then None
  else Some (BridgeRoutes.AuditQuery (a_operation q) (a_subject q) (a_target q)
               (a_startTime q) (a_endTime q) (if limit =? 0 then 100 else limit) offset).

Definition serve (s : state) (op : operation) : state * outcome :=
  match op with
  | ListApplications _ => (s, list_apps db s)
  | GetApplication _ app => serve_app db e s app "GET" (JObj [])
  | UpdateApp _ app input => serve_app db e s app "PATCH" (sent_value input)
  | ListExecutors _ app => (s, list_executors db e s app)
  | ListWorkflows _ app _ => (s, list_workflows db app)
  | GetWorkflow _ _ id => (s, get_workflow db s (encodeURIComponent id))
  | ListSteps _ _ id => (s, list_steps db e s (encodeURIComponent id))
  | GetWorkflowEvents _ _ id => (s, list_events db (encodeURIComponent id))
  | GetWorkflowNotifications _ _ _ => (s, json 200 (JArr []))
  | CancelWorkflow _ _ id => workflow_op e s "cancel" id
  | ResumeWorkflow _ _ id => workflow_op e s "resume" id
  | ForkWorkflow _ _ id _ => workflow_op e s "fork" id
  | ListQueues _ app => (s, list_queues s app)
  | ListSchedules _ app => (s, list_schedules s app)
  | ResumeSchedule _ _ _ => (s, unknown_op)
  | ListAlertingRules _ app | CreateAlertingRule _ app _ => (s, list_alerts s app)
  | ListAPIKeys _ => (s, json 200 (JArr (map key_json (s_keys s))))
  | CreateAPIKey _ name permissions appNames =>
      create_key e s name (JObj [("permissions", json_strings permissions);
                                 ("appNames", json_strings appNames)])
  | RevokeAPIKey _ name => revoke_key e s name
  | GetAutoscalingPolicy _ app => (s, get_policy s app)
  | SetAutoscalingPolicy _ app policy => put_policy e s app (sent_value policy)
  | DeleteAutoscalingPolicy _ app => delete_policy e s app
  | GetAutoscale _ app => (s, autoscale db e s app None)
  | ListAuditLogs _ query => (s, list_audit s (audit_query_of query))
  | GetMetricsText query =>
      (s, scrape (m_metrics query) (m_applications query) (m_workflowNames query))
  | ListRoles _ => (s, json 200 (JArr (map role_json (s_roles s))))
  | CreateRole _ name permissions =>
      post_role e s (JObj [("name", JStr name); ("permissions", json_strings permissions)])
  | DeleteRole _ name => delete_role e s name
  | ListMembers org => (s, list_members s (encodeURIComponent org))
  | GrantMemberRole _ user role => grant e s user role
  | RemoveMember _ user => remove_member e s user
  | ListPermissions _ => (s, json 200 full_permissions)
  | GetHealth | GetWorkflowEvent _ _ _ _ | SendWorkflowMessage _ _ _ _ _
  | GetWorkflowStreams _ _ _ _ | PauseSchedule _ _ _ | TriggerSchedule _ _ _
  | DeleteAlertingRule _ _ _ | ListOrganizations => (s, NativeFetch)
  end.
End Service.

(** ** The request of an operation *)

Notation enc := encodeURIComponent.

Definition app_words (org app : string) (l : list string) : list string :=
  "v2" :: "orgs" :: enc org :: "apps" :: enc app :: l.
Definition org_words (org : string) (l : list string) : list string :=
  "v2" :: "orgs" :: enc org :: l.

(** The segments of its path. *)
Definition words (op : operation) : list string :=
  match op with
  | GetHealth => ["healthz"]
  | ListApplications org => org_words org ["apps"]
  | GetApplication org app | UpdateApp org app _ => app_words org app []
  | ListExecutors org app => app_words org app ["executors"]
  | ListWorkflows org app _ => app_words org app ["workflows"]
  | GetWorkflow org app id => app_words org app ["workflows"; enc id]
  | ListSteps org app id => app_words org app ["workflows"; enc id; "steps"]
  | GetWorkflowEvents org app id => app_words org app ["workflows"; enc id; "events"]
  | GetWorkflowEvent org app id _ => app_words org app ["workflows"; enc id; "event"]
  | SendWorkflowMessage org app id _ _ => app_words org app ["workflows"; enc id; "send"]
  | GetWorkflowNotifications org app id => app_words org app ["workflows"; enc id; "notifications"]
  | GetWorkflowStreams org app id _ => app_words org app ["workflows"; enc id; "streams"]
  | CancelWorkflow org app id => app_words org app ["workflows"; enc id; "cancel"]
  | ResumeWorkflow org app id => app_words org app ["workflows"; enc id; "resume"]
  | ForkWorkflow org app id _ => app_words org app ["workflows"; enc id; "fork"]
  | ListQueues org app => app_words org app ["queues"]
  | ListSchedules org app => app_words org app ["schedules"]
  | PauseSchedule org app name => app_words org app ["schedules"; enc name; "pause"]
  | ResumeSchedule org app name => app_words org app ["schedules"; enc name; "resume"]
  | TriggerSchedule org app name => app_words org app ["schedules"; enc name; "trigger"]
  | ListAlertingRules org app | CreateAlertingRule org app _ =>
      app_words org app ["alerting-rules"]
  | DeleteAlertingRule org app id => app_words org app ["alerting-rules"; enc id]
  | ListAPIKeys org => org_words org ["tokens"]
  | CreateAPIKey org name _ _ | RevokeAPIKey org name => org_words org ["tokens"; enc name]
  | GetAutoscalingPolicy org app | SetAutoscalingPolicy org app _
  | DeleteAutoscalingPolicy org app => app_words org app ["autoscaling-policy"]
  | GetAutoscale org app => app_words org app ["autoscale"]
  | ListAuditLogs org _ => org_words org ["audit-logs"]
  | GetMetricsText _ => ["v1"; "metrics"]
  | ListRoles org | CreateRole org _ _ => org_words org ["roles"]
  | DeleteRole org name => org_words org ["roles"; enc name]
  | ListMembers org => org_words org ["members"]
  | GrantMemberRole org user role => org_words org ["members"; enc user; "roles"; enc role]
  | RemoveMember org user => org_words org ["members"; enc user]
  | ListPermissions org => org_words org ["permissions"]
  | ListOrganizations => ["v2"; "orgs"]
  end.

Definition path_of (op : operation) : string := "/" +:+ join "/" (words op).

(** The names in its path. *)
Definition names (op : operation) : list string :=
  match op with
  | GetHealth | GetMetricsText _ | ListOrganizations => []
  | ListApplications org | ListAPIKeys org | ListAuditLogs org _ | ListRoles org
  | CreateRole org _ _ | ListMembers org | ListPermissions org => [org]
  | GetApplication org x | UpdateApp org x _ | ListExecutors org x | ListWorkflows org x _
  | ListQueues org x | ListSchedules org x | ListAlertingRules org x
  | CreateAlertingRule org x _ | CreateAPIKey org x _ _ | RevokeAPIKey org x
  | GetAutoscalingPolicy org x | SetAutoscalingPolicy org x _
  | DeleteAutoscalingPolicy org x | GetAutoscale org x | DeleteRole org x
  | RemoveMember org x => [org; x]
  | GetWorkflow org x y | ListSteps org x y | GetWorkflowEvents org x y
  | GetWorkflowEvent org x y _ | SendWorkflowMessage org x y _ _
  | GetWorkflowNotifications org x y | GetWorkflowStreams org x y _
  | CancelWorkflow org x y | ResumeWorkflow org x y | ForkWorkflow org x y _
  | PauseSchedule org x y | ResumeSchedule org x y | TriggerSchedule org x y
  | DeleteAlertingRule org x y | GrantMemberRole org x y => [org; x; y]
  end.

Definition params_of (op : operation) : list (string * string) :=
  match op with
  | ListWorkflows _ _ query => search_params query
  | ListAuditLogs _ query => audit_params query
  | GetMetricsText query => metrics_params query
  | GetWorkflowEvent _ _ _ key => [("key", key)]
  | GetWorkflowStreams _ _ _ key => if String.eqb key "" then [] else [("key", key)]
  | _ => []
  end.

Definition verb (op : operation) : option string :=
  match op with
  | SendWorkflowMessage _ _ _ _ _ | CancelWorkflow _ _ _ | ResumeWorkflow _ _ _
  | ForkWorkflow _ _ _ _ | PauseSchedule _ _ _ | ResumeSchedule _ _ _
  | TriggerSchedule _ _ _ | CreateAlertingRule _ _ _ | CreateAPIKey _ _ _ _
  | CreateRole _ _ _ => Some "POST"
  | DeleteAlertingRule _ _ _ | RevokeAPIKey _ _ | DeleteAutoscalingPolicy _ _
  | DeleteRole _ _ | RemoveMember _ _ => Some "DELETE"
  | UpdateApp _ _ _ => Some "PATCH"
  | SetAutoscalingPolicy _ _ _ | GrantMemberRole _ _ _ => Some "PUT"
  | _ => None
  end.

(** The value in its body. *)
Definition payload_of (op : operation) : option jval :=
  match op with
  | SendWorkflowMessage _ _ _ payload topic =>
      Some (JObj [("topic", if String.eqb topic "" then JUndef else JStr topic);
                  ("payload", payload)])
  | CancelWorkflow _ _ _ | ResumeWorkflow _ _ _ => Some (JObj [])
  | ForkWorkflow _ _ _ n => Some (JObj [("startStep", JNum n)])
  | CreateAlertingRule _ _ rule => Some rule
  | CreateAPIKey _ _ permissions appNames =>
      Some (JObj [("permissions", json_strings permissions); ("appNames", json_strings appNames)])
  | UpdateApp _ _ input => Some input
  | SetAutoscalingPolicy _ _ policy => Some policy
  | CreateRole _ name permissions =>
      Some (JObj [("name", JStr name); ("permissions", json_strings permissions)])
  | _ => None
  end.

Definition received_body (op : operation) : option jval :=
  match payload_of op with
  | None | Some JUndef => None
  | Some v => Some (clean v)
  end.

Definition request_of (op : operation) : BridgeState.request :=
  Request (path_of op) (verb op) (params_of op) (received_body op).

(** The arguments that are JSON values are values JavaScript can have. *)
Definition proper_arguments (op : operation) : bool :=
  match payload_of op with Some v => proper_value v | None => true end.

(** *** The client builds that request *)

(** The query of its address. *)
Definition query_of (op : operation) : string :=
  match op with
  | GetWorkflowEvent _ _ _ key => "key=" +:+ enc key
  | GetWorkflowStreams _ _ _ key => if String.eqb key "" then "" else "key=" +:+ enc key
  | _ => params_text (params_of op)
  end.

Lemma query_suffix_text ps path :
  path +:+ query_suffix ps = with_query path (params_text ps).
Proof. done. Qed.

Ltac flat_path := repeat (progress (cbn -[encodeURIComponent String.eqb];
  rewrite ?app_nil_r_str, ?app_assoc_str)); try reflexivity.

Lemma rpc_path op : r_path (rpc_of op) = with_query (path_of op) (query_of op).
Proof.
  unfold path_of, with_query.
  destruct op; cbn [query_of params_of]; try (rewrite app_nil_r_str).
  all: try (cbn; rewrite ?app_nil_r_str; reflexivity).
  - flat_path.
  - flat_path.
  - destruct (String.eqb_spec key "") as [->|Hk]; [flat_path|].
    cbn -[encodeURIComponent String.eqb]. rewrite (proj2 (String.eqb_neq key "") Hk). flat_path.
  - flat_path.
Qed.

Lemma words_plain op :
  forallb usable (names op) = true → Forall (λ x, plain_segment x = true) (words op).
Proof.
  intros H. rewrite forallb_forall in H.
  assert (∀ x, x ∈ names op → plain_segment (enc x) = true) as Hn.
  { intros x Hx. apply encode_plain. by apply H, list_elem_of_In. }
  destruct op; cbn [words names] in *; unfold org_words, app_words;
    repeat constructor; apply Hn; rewrite ?elem_of_cons; tauto.
Qed.

Lemma form_decode_component s : form_decode (enc s) = Some s.
Proof.
  induction s as [|a s IH]; [done|]. cbn [encodeURIComponent].
  assert (∀ t, form_decode (encode_char a +:+ t) = String a <$> form_decode t) as ->.
  { intros t. by destruct a as [[] [] [] [] [] [] [] []]. }
  by rewrite IH.
Qed.

Lemma component_plain s :
  sforall url_char (enc s) = true ∧ lacks "=" (enc s) = true ∧ lacks "&" (enc s) = true.
Proof.
  unfold lacks. induction s as [|a s IH]; [done|]. cbn [encodeURIComponent].
  rewrite !sforall_app, !andb_true_iff.
  split_and!; try apply IH; by destruct a as [[] [] [] [] [] [] [] []].
Qed.

Lemma key_query key : parse_params ("key=" +:+ enc key) = Some [("key", key)].
Proof.
  destruct (component_plain key) as (_ & He & Ha). unfold parse_params.
  rewrite split_char_none by (unfold lacks in Ha; rewrite sforall_app, Ha; done).
  change (mapM read_param ["key" +:+ String "=" (enc key)] = Some [("key", key)]).
  assert (read_param ("key" +:+ String "=" (enc key)) = Some ("key", key)) as E.
  { unfold read_param. rewrite cut_at_app by done. by rewrite form_decode_component. }
  cbn [mapM]. by rewrite E.
Qed.

Lemma query_read op :
  sforall url_char (query_of op) = true ∧ parse_params (query_of op) = Some (params_of op).
Proof.
  assert (∀ ps, sforall url_char (params_text ps) = true ∧ parse_params (params_text ps) = Some ps)
    as H by (intros ps; split; [apply params_text_chars|apply parse_params_text]).
  destruct op; try apply H; cbn [query_of params_of].
  - split; [|apply key_query]. rewrite sforall_app. by rewrite (proj1 (component_plain key)).
  - destruct (String.eqb key ""); [done|]. split; [|apply key_query].
    rewrite sforall_app. by rewrite (proj1 (component_plain key)).
Qed.

Lemma body_read op :
  proper_arguments op = true → read_body (r_body (rpc_of op)) = received_body op.
Proof.
  unfold proper_arguments, received_body.
  assert (∀ v, proper_value v = true → read_body (stringify v) =
    match v with JUndef => None | _ => Some (clean v) end) as Hv.
  { intros v Hp. destruct (stringify v) as [t|] eqn:E.
    - pose proof (parse_stringify v t Hp E) as Ht.
      destruct (stringify_opens v t E) as (a & t' & -> & _).
      cbn [read_body]. cbn [String.eqb]. rewrite Ht. by destruct v.
    - apply stringify_undef in E. by destruct v. }
  destruct op; intros Hp; cbn [rpc_of payload_of] in *; try reflexivity; try (exact (Hv _ Hp)).
Qed.

Lemma call_url op :
  url (call_of (new_client "" None) op) = url (Client.request (new_client "" None) (rpc_of op)).
Proof. destruct op; try reflexivity. cbn. by rewrite app_nil_r_str. Qed.

(** Whatever the key, the call arrives as the operation's request. *)
Lemma received_call k op :
  forallb usable (names op) = true → proper_arguments op = true →
  received (call_of (new_client "" k) op) = Some (request_of op).
Proof.
  intros Hn Hp. unfold received.
  assert (url (call_of (new_client "" k) op) = r_path (rpc_of op)) as ->.
  { destruct op; try reflexivity. cbn. by rewrite app_nil_r_str. }
  assert (Client.body (call_of (new_client "" k) op) = r_body (rpc_of op) ∧
          method (call_of (new_client "" k) op) = r_method (rpc_of op)) as [-> ->]
    by by destruct op.
  destruct (query_read op) as [Hq Hr]. rewrite rpc_path. unfold path_of.
  rewrite parse_url_path, Hr, body_read; [|done| |by apply words_plain|done].
  - unfold request_of. by destruct op.
  - by destruct op.
Qed.

(** ** The control plane serves the operation *)

(** Handlers tried before the workflow operations' (or reached through it):
    for them a path that holds the name of an operation is no obstacle. *)
Definition early (op : operation) : bool :=
  match op with
  | ListApplications _ | ListExecutors _ _ | ListWorkflows _ _ _ | GetWorkflow _ _ _
  | ListSteps _ _ _ | GetWorkflowEvents _ _ _ | GetWorkflowNotifications _ _ _
  | ListQueues _ _ | ListSchedules _ _ | ListAlertingRules _ _ | CreateAlertingRule _ _ _
  | ListAPIKeys _ | CreateAPIKey _ _ _ _ | RevokeAPIKey _ _
  | CancelWorkflow _ _ _ | ResumeWorkflow _ _ _ | ForkWorkflow _ _ _ _
  | ResumeSchedule _ _ _ => true
  | _ => false
  end.

(** The operations whose path the control plane can tell apart: every name in
    it survives as a path segment, it does not look like a static asset's, and
    it does not hold the name of a workflow operation by accident. *)
Definition addressable (op : operation) : bool :=
  forallb usable (names op) && negb (static_asset (path_of op)) &&
  (early op || negb (op_word (path_of op))) && proper_arguments op.

Lemma org_words_match p org l :
  usable org = true → Forall (λ x, plain_segment x = true) l →
  org_match p ("/" +:+ join "/" ("v2" :: "orgs" :: enc org :: l)) = pmatch p l.
Proof.
  intros Ho Hl. apply (org_match_path (enc org) p l).
  - apply encode_plain, plain_parts in Ho. apply Ho.
  - apply encode_no_slash.
  - eapply Forall_impl; [exact Hl|]. intros x Hx. apply plain_parts in Hx as (_ & Hx & _). exact Hx.
Qed.

Lemma usable_eqb a : usable a = true → String.eqb (enc a) "" = false.
Proof. intros H. apply encode_plain, plain_parts in H as (_ & _ & _ & H). by apply String.eqb_neq. Qed.

Ltac head_of t := lazymatch t with ?f _ => head_of f | _ => t end.

Lemma segments_words l :
  l ≠ [] → Forall (λ x, plain_segment x = true) l → segments ("/" +:+ join "/" l) = "" :: l.
Proof.
  intros Hne Hl. destruct l as [|x l]; [done|].
  apply (segments_join ("" :: x :: l)); [done|]. constructor; [done|].
  eapply Forall_impl; [exact Hl|]. intros y Hy. apply plain_parts in Hy as (_ & Hy & _). exact Hy.
Qed.

(** The path of an operation on something below an application. *)
Lemma op_path_match org app id kind op :
  usable org = true → usable app = true → usable id = true →
  plain_segment kind = true → op ∈ ["cancel"; "resume"; "fork"] →
  let path := "/" +:+ join "/" ["v2"; "orgs"; enc org; "apps"; enc app; kind; enc id; op] in
  op_word path = true ∧
  wf_op_match path = if String.eqb kind "workflows" then Some (enc id, op) else None.
Proof.
  intros Ho Ha Hi Hk Hop path.
  assert (path = (("/" +:+ join "/" ["v2"; "orgs"; enc org; "apps"; enc app; kind; enc id]) +:+
                  ("/" +:+ op) +:+ "")) as Hpath.
  { subst path. cbn [join]. by rewrite !app_assoc_str, !app_nil_r_str. }
  split.
  - assert (includes path (String "/" op) = true) as Hin by (rewrite includes_spec; eauto).
    unfold op_word. clear Hpath.
    apply elem_of_cons in Hop as [->|Hop]; [by rewrite Hin|].
    apply elem_of_cons in Hop as [->|Hop]; [by rewrite Hin, orb_true_r|].
    apply list_elem_of_singleton in Hop as ->. by rewrite Hin, !orb_true_r.
  - unfold wf_op_match. subst path. rewrite segments_words; [|done|].
    + cbn [rev Datatypes.app]. rewrite (usable_eqb id Hi).
      assert (some (String.eqb op) ["cancel"; "resume"; "fork"] = true) as ->.
      { apply some_elem. exists op. split; [done|apply String.eqb_refl]. }
      by destruct (String.eqb kind "workflows").
    + repeat constructor; auto with relay.
      apply elem_of_cons in Hop as [->|Hop]; [done|]. apply elem_of_cons in Hop as [->|Hop]; [done|].
      by apply list_elem_of_singleton in Hop as ->.
Qed.

(** Tries the next handler: its pattern against the words of the path. *)
Ltac next_route :=
  match goal with
  | |- match ?t with Some res => res | None => _ end = _ =>
      let h := head_of t in unfold h; cbn [rq_path rq_params];
      rewrite ?org_words_match by (first [assumption | repeat constructor; auto with relay]);
      cbn [pmatch some existsb String.eqb Ascii.eqb Bool.eqb orb];
      repeat match goal with
        | H : String.eqb (enc _) "" = false |- _ => rewrite H
        | H : op_word _ = _ |- _ => rewrite H
        | H : wf_op_match _ = _ |- _ => rewrite H
        | |- context [String.eqb ("/" +:+ join "/" ("v2" :: ?l)) "/v1/metrics"] =>
            change (String.eqb ("/" +:+ join "/" ("v2" :: l)) "/v1/metrics") with false
        | |- context [method_of ?r] =>
            let v := eval vm_compute in (method_of r) in change (method_of r) with v
        end;
      cbn [String.eqb Ascii.eqb Bool.eqb orb]; cbn iota; rewrite ?decode_encode; cbn iota
  end.

Lemma clean_strings l : clean (json_strings l) = json_strings l.
Proof.
  apply clean_full. unfold json_strings. cbn [full_value]. induction l; [done|]. by cbn.
Qed.

(** *** Queries *)

Lemma assoc_set_text k k' v ps :
  assoc k (set_text k' v ps) =
  if String.eqb k k' then if String.eqb v "" then assoc k ps else Some v else assoc k ps.
Proof.
  unfold set_text. destruct (String.eqb v ""); [by destruct (String.eqb k k')|]. apply assoc_set.
Qed.

Lemma assoc_set_number k k' n ps :
  assoc k (set_number k' n ps) =
  if String.eqb k k' then match n with Some n => Some (string_of_Z n) | None => assoc k ps end
  else assoc k ps.
Proof. destruct n; cbn [set_number]; [apply assoc_set|]. by destruct (String.eqb k k'). Qed.

Lemma append_all_app k l ps : append_all k l ps = ps ++ map (λ x, (k, x)) l.
Proof.
  unfold append_all. revert ps. induction l as [|x l IH]; intros ps; [by rewrite app_nil_r|].
  cbn [fold_left]. rewrite IH. unfold params_append. by rewrite <- app_assoc.
Qed.

Lemma string_of_Z_opens n : ∃ a D, string_of_Z n = String a D ∧ opens_value a = true.
Proof. apply (stringify_opens (JNum n)). done. Qed.

Lemma parse_int_text n : parse_int (string_of_Z n) = Some n.
Proof.
  assert (∀ m, 0 <= m → ∃ a D, string_of_Z m = String a D ∧ is_digit a = true ∧
            parse_digits (string_of_Z m) = Some m) as Hm.
  { intros m Hm. destruct (decimal_opens m _ (string_of_Z_decimal m Hm)) as (a & D & HD & Ha).
    exists a, D. split_and!; [done|done|]. rewrite HD. unfold parse_digits.
    by rewrite Ha, <- HD, string_of_Z_value. }
  destruct (Z.neg_nonneg_cases n) as [Hn|Hn].
  - destruct (Hm (- n) ltac:(lia)) as (a & D & _ & _ & Hp).
    rewrite string_of_neg by done. unfold parse_int. cbn [trim_start].
    change (is_space "-") with false. cbn iota. rewrite Hp. cbn. by rewrite Z.opp_involutive.
  - destruct (Hm n Hn) as (a & D & HD & Ha & Hp). rewrite HD in *. unfold parse_int.
    cbn [trim_start]. by destruct a as [[] [] [] [] [] [] [] []].
Qed.

Lemma or_else_text n d : or_else (string_of_Z n) d = string_of_Z n.
Proof. destruct (string_of_Z_opens n) as (a & D & -> & _). done. Qed.

Lemma read_audit_params r q :
  rq_params r = audit_params q → read_audit_query r = audit_query_of q.
Proof.
  intros H. unfold read_audit_query, param. rewrite H. unfold audit_params.
  rewrite !assoc_set_number, !assoc_set_text. cbn [String.eqb Ascii.eqb Bool.eqb assoc].
  assert (∀ v, default "" (if String.eqb v "" then None else Some v) = v) as Hd.
  { intros v. by destruct (String.eqb_spec v "") as [->|]. }
  rewrite !Hd. unfold audit_query_of.
  destruct (a_limit q) as [l|], (a_offset q) as [o|]; cbn [default from_option id];
    rewrite ?or_else_text, ?parse_int_text; reflexivity.
Qed.

Lemma metrics_read q :
  map snd (keep (λ kv, String.eqb (fst kv) "metrics") (metrics_params q)) = m_metrics q ∧
  default "" (assoc "applications" (metrics_params q)) = m_applications q ∧
  default "" (assoc "workflow_names" (metrics_params q)) = m_workflowNames q.
Proof.
  unfold metrics_params. rewrite append_all_app, !assoc_app.
  rewrite !assoc_set_text. cbn [String.eqb Ascii.eqb Bool.eqb assoc].
  assert (∀ l k, String.eqb k "metrics" = false →
    assoc k (map (λ x : string, ("metrics", x)) l) = None) as Hk.
  { intros l k E. induction l as [|x l IH]; [done|]. cbn [map assoc]. by rewrite E. }
  rewrite !Hk by done. split_and!.
  - unfold keep. rewrite List.filter_app, map_app.
    assert (List.filter (λ kv : string * string, String.eqb (fst kv) "metrics")
      (set_text "workflow_names" (m_workflowNames q)
         (set_text "applications" (m_applications q) [])) = []) as ->.
    { unfold set_text. destruct (String.eqb (m_applications q) ""),
        (String.eqb (m_workflowNames q) ""); reflexivity. }
    cbn [map Datatypes.app]. induction (m_metrics q) as [|x l IH]; [done|].
    cbn. by rewrite IH.
  - by destruct (String.eqb_spec (m_applications q) "") as [->|].
  - by destruct (String.eqb_spec (m_workflowNames q) "") as [->|].
Qed.

Section Served.
Context (db : option (string → list jval → option (list jval))) (e : env).

Lemma fetch_operation s op :
  addressable op = true → fetch db e s (request_of op) = serve db e s op.
Proof.
  unfold addressable. rewrite !andb_true_iff. intros [[[Hn Hs] Hw] Hp].
  apply negb_true_iff in Hs.
  unfold fetch, routes. cbn [first_match].
  unfold route_assets. cbn [rq_path request_of]. rewrite Hs.
  assert (route_users s (request_of op) = None) as -> by by destruct op.
  unfold request_of. destruct op.
  all: cbn [names forallb early orb] in *; rewrite ?andb_true_iff in Hn; unfold path_of in *;
    cbn [words] in *; unfold app_words in *;
    repeat match goal with
    | H : _ ∧ _ |- _ => destruct H
    | H : usable ?a = true |- _ =>
        lazymatch goal with
        | _ : String.eqb (enc a) "" = false |- _ => fail
        | _ => pose proof (usable_eqb a H)
        end
    end.
  all: unfold org_words in *; cbn [early orb] in Hw;
    try (apply negb_true_iff in Hw).
  all: try match goal with
    | _ : true = true |- context [["v2"; "orgs"; enc ?o; "apps"; enc ?a; ?kind; enc ?i; ?w]] =>
        lazymatch kind with
        | context [encodeURIComponent] => fail
        | _ => destruct (op_path_match o a i kind w ltac:(done) ltac:(done) ltac:(done) eq_refl
                 ltac:(rewrite ?elem_of_cons; tauto)) as [Ew Em]
        end
    end.
  all: try (repeat next_route; cbn [clean flat_map is_undef fst snd Datatypes.app];
            rewrite ?clean_strings; reflexivity).
  - repeat next_route. unfold body_of, received_body. cbn [rq_body payload_of].
    cbn [clean flat_map is_undef fst snd Datatypes.app default from_option id].
    by rewrite !clean_strings.
  - repeat next_route. cbn [serve]. f_equal. by destruct input.
  - repeat next_route. cbn [serve]. f_equal. by destruct policy.
  - repeat next_route. cbn [serve]. f_equal. f_equal. by apply read_audit_params.
  - destruct (metrics_read query) as (E1 & E2 & E3). cbn [serve].
    rewrite <- E1, <- E2, <- E3. reflexivity.
  - repeat next_route. unfold body_of, received_body. cbn [rq_body payload_of].
    cbn [clean flat_map is_undef fst snd Datatypes.app default from_option id].
    by rewrite !clean_strings.
  - repeat next_route. cbn [serve]. f_equal. f_equal.
    rewrite segments_words; [|done|repeat constructor; auto with relay].
    cbn. unfold or_else. by rewrite usable_eqb.
Qed.
End Served.
