(* ===== verification/ClientSpec.v ===== *)
(** The console and the playground's control plane together: every call of the
    client does what its method is for, what a refused call tells the user, and
    what is written through the client is read back through it. *)

From Stdlib Require Import ZArith Lia Ascii String.
From stdpp Require Import base list strings gmap.
From S2P Require Import Prelude Html Json JsonSpec Uri Url ApiClient.
From S2P Require Import BridgeState BridgeRoutes BridgePaths BridgeSpec ClientServe.
Import Client.

(** ** A call and its answer *)

Section Exchange.
Context (db : option (string → list jval → option (list jval))) (e : env).
Context (network : option http) (k : option string).

(** A method of the client, run against the control plane. *)
Definition exchange (s : state) (op : operation) : state * answer :=
  match received (call_of (new_client "" k) op) with
  | Some r => let '(s', o) := fetch db e s r in (s', answer_to network op o)
  | None => (s, Broken)
  end.

Lemma addressable_parts op :
  addressable op = true → forallb usable (names op) = true ∧ proper_arguments op = true.
Proof. unfold addressable. rewrite !andb_true_iff. tauto. Qed.

Lemma exchange_serve s op :
  addressable op = true →
  exchange s op = (fst (serve db e s op), answer_to network op (snd (serve db e s op))).
Proof.
  intros H. destruct (addressable_parts op H) as [Hn Hp]. unfold exchange.
  rewrite received_call, fetch_operation by done. by destruct (serve db e s op).
Qed.
End Exchange.

(** The answer of a JSON document that every JavaScript object could be. *)
Lemma got_json network op st v :
  read_of op = read_answer → 200 <= st < 300 → st ≠ 204 → proper_value v = true →
  is_undef v = false →
  answer_to network op (json st v) = Got (clean v).
Proof.
  intros Hr Hst H204 Hp Hu. unfold json, answer_to. rewrite Hr. unfold http_of. cbn [rs_body rs_status].
  destruct (stringify v) as [t|] eqn:E; [|apply stringify_undef in E; congruence].
  cbn [default from_option id]. rewrite (parse_stringify v t Hp E).
  unfold read_answer, ok. cbn [h_status h_json].
  rewrite (proj2 (Z.leb_le 200 st)), (proj2 (Z.ltb_lt st 300)), (proj2 (Z.eqb_neq st 204)) by lia.
  done.
Qed.

Lemma refused_problem network op st title detail :
  read_of op = read_answer → ¬ (200 <= st < 300) → detail ≠ "" →
  answer_to network op (problem st title detail) = Refused (Err (Some st) detail).
Proof.
  intros Hr Hst Hd. unfold problem, json, answer_to. rewrite Hr. unfold http_of. cbn [rs_body rs_status].
  set (v := JObj _).
  assert (proper_value v = true) as Hp by (vm_compute; reflexivity).
  destruct (stringify v) as [t|] eqn:E; [|done].
  cbn [default from_option id]. rewrite (parse_stringify v t Hp E).
  unfold read_answer, ok, errorDetail. cbn [h_status h_json].
  assert ((200 <=? st) && (st <? 300) = false) as ->.
  { destruct (Z.leb_spec 200 st), (Z.ltb_spec st 300); try done. lia. }
  subst v. cbn. by rewrite (proj2 (String.eqb_neq detail "") Hd).
Qed.


Definition odd_names : operation :=
  GrantMemberRole "acme & co" "bob@example.com" "deploy-operator".


(** ** Refusals *)

Definition no_workflow : outcome :=
  json 404 (JObj [("title", JStr "Workflow not found"); ("status", JNum 404)]).

(** How the control plane can end an operation. *)
Inductive verdict (s s' : state) : outcome → Prop :=
| verdict_done st b : st ∈ [200; 201; 204] → verdict s s' (Respond (Response st b))
| verdict_refused st title detail :
    s' = s → st ∈ [400; 403; 404; 500] → detail ≠ "" → verdict s s' (problem st title detail)
| verdict_no_workflow : s' = s → verdict s s' no_workflow
| verdict_network : s' = s → verdict s s' NativeFetch
| verdict_rejected : verdict s s' Rejected.

Ltac verdicts :=
  cbn [fst snd];
  first [ apply verdict_done; rewrite !elem_of_cons; tauto
        | apply verdict_refused; [reflexivity|rewrite !elem_of_cons; tauto|discriminate]
        | apply verdict_network; reflexivity
        | apply verdict_no_workflow; reflexivity
        | apply verdict_rejected ].

Ltac open_cases :=
  repeat (verdicts || match goal with
  | |- context [match ?x with _ => _ end] => destruct x
  end).

Lemma serve_verdict db e s op : verdict s (fst (serve db e s op)) (snd (serve db e s op)).
Proof.
  destruct op; cbn [serve]; try verdicts;
    unfold serve_app, patch_app, create_key, put_policy, post_role, delete_role, grant,
      remove_member, list_apps, list_executors, list_workflows, list_steps, list_events,
      get_workflow, get_policy, list_audit, autoscale, no_policy, user_not_found,
      app_not_found, unknown_op, recommend; open_cases.
Qed.

Lemma done_not_refused network op st b er :
  st ∈ [200; 201; 204] → answer_to network op (Respond (Response st b)) ≠ Refused er.
Proof.
  rewrite !elem_of_cons, elem_of_nil. intros Hst H. cbn [answer_to] in H.
  assert (∀ h, h_status h = st → ok h = true) as Hok.
  { intros h <-. unfold ok. by destruct Hst as [->|[->|[->|[]]]]. }
  assert (h_status (http_of (Response st b)) = st) as Hs by by destruct b.
  destruct op; cbn [read_of] in H; unfold read_metrics, read_answer in H;
    rewrite (Hok _ Hs) in H; cbn [negb] in H;
    case_tests_in H; try done; by destruct (h_json _).
Qed.

(** The client's message for a refusal: the detail the control plane gives, or
    the title where there is none. *)
Lemma refused_message network op s s' o er :
  read_of op = read_answer → verdict s s' o → o ≠ NativeFetch →
  answer_to network op o = Refused er →
  s' = s ∧ (∃ st, e_status er = Some st ∧ 400 <= st) ∧ e_message er ≠ "".
Proof.
  intros Hr Hv Hnat H. destruct Hv as [st b Hst|st title detail Hs Hst Hd|Hs|Hs|].
  - by apply done_not_refused in H.
  - rewrite refused_problem in H; [|done| |done].
    + injection H as <-. split_and!; [done| |done]. exists st. split; [done|].
      rewrite !elem_of_cons, elem_of_nil in Hst. lia.
    + rewrite !elem_of_cons, elem_of_nil in Hst. lia.
  - unfold no_workflow, json in H. cbn [answer_to] in H. rewrite Hr in H.
    vm_compute in H. injection H as <-. split_and!; [done| |done]. exists 404. split; [done|lia].
  - done.
  - done.
Qed.



(** ** What is written is read back *)

Lemma addressable_same op op' :
  names op' = names op → words op' = words op → early op' = early op →
  proper_arguments op' = true → addressable op = true → addressable op' = true.
Proof.
  unfold addressable, path_of. intros -> -> -> ->. rewrite !andb_true_iff. tauto.
Qed.

(** An autoscaling policy the client sets is what it then reads, it names a
    queue that may drive autoscaling, and once the client deletes it reading it
    is refused with the status that means there is none. *)
Theorem policy_round_trip db e network k org a s s' policy v :
  addressable (SetAutoscalingPolicy org a policy) = true → inherited a = false →
  exchange db e network k s (SetAutoscalingPolicy org a policy) = (s', Got v) →
  exchange db e network k s' (GetAutoscalingPolicy org a) = (s', Got v) ∧
  (∃ n, jget (sent_value policy) "queue" = Some (JStr n) ∧ eligible s n) ∧
  ∃ s'',
    exchange db e network k s' (DeleteAutoscalingPolicy org a) = (s'', Got JUndef) ∧
    exchange db e network k s'' (GetAutoscalingPolicy org a) =
      (s'', Refused (Err (Some 404) "no autoscaling policy configured for application")).
Proof.
  intros Ha Hi.
  assert (addressable (GetAutoscalingPolicy org a) = true) as Hg by (by eapply addressable_same, Ha).
  assert (addressable (DeleteAutoscalingPolicy org a) = true) as Hd by (by eapply addressable_same, Ha).
  rewrite exchange_serve by done. cbn [serve]. intros [= <- Hv].
  destruct (put_policy e s a (sent_value policy)) as [s1 o] eqn:E. cbn [fst snd] in *.
  assert (∃ v0, o = json 200 v0) as [v0 ->].
  { clear -E Hv. revert E Hv. unfold put_policy. repeat case_match;
      intros [= <- <-] Hv; try done; eauto;
      by rewrite refused_problem in Hv. }
  destruct (put_then_get_policy e s a s1 (sent_value policy) v0 Hi E) as (H1 & H2 & H3 & H4).
  rewrite exchange_serve by done. cbn [serve fst snd]. rewrite H1. split; [by rewrite <- Hv|].
  split; [done|]. eexists. rewrite exchange_serve by done. cbn [serve]. rewrite H3.
  split; [reflexivity|]. rewrite exchange_serve by done. cbn [serve fst snd].
  rewrite H4. reflexivity.
Qed.

Definition vip_policy : jval := JObj [("queue", JStr "orders-vip"); ("rollout", JUndef)].

Lemma policy_round_trip_witness :
  ∃ s', exchange no_db sample_env None None s' (GetAutoscalingPolicy "default" "my app/1") =
        (s', Got (JObj [("policy", JObj [("queue", JStr "orders-vip")])])).
Proof.
  eexists.
  refine (proj1 (policy_round_trip no_db sample_env None None "default" "my app/1"
                   (initial_state "t") _ vip_policy _ _ _ _));
    [vm_compute; reflexivity|reflexivity|vm_compute; reflexivity].
Defined.

(** Settings the client saves for a registered application are what it then
    reads: every field of the right type replaces the old one, the others stay,
    and if none is of the right type nothing is changed or audited. *)
Theorem settings_round_trip db e network k org a s s' input ap :
  addressable (UpdateApp org a input) = true → inherited a = false →
  find (λ x, String.eqb (app_name x) a) (s_apps s) = Some ap →
  exchange db e network k s (UpdateApp org a input) = (s', Got JUndef) →
  ∃ c changed,
    apply_settings (sent_value input) (config_of s a) = Some (c, changed) ∧
    exchange db e network k s' (GetApplication org a) =
      (s', Got (JObj (app_fields ap ++ config_fields c))) ∧
    (changed = false → c = config_of s a ∧ s_auditLog s' = s_auditLog s).
Proof.
  intros Ha Hi Hf.
  assert (addressable (GetApplication org a) = true) as Hg by (by eapply addressable_same, Ha).
  rewrite exchange_serve by done. cbn [serve]. intros [= <- Hv].
  assert (find_app db s a = Some (app_fields ap)) as Hfa by (unfold find_app; by rewrite Hf).
  destruct (serve_app db e s a "PATCH" (sent_value input)) as [s1 o] eqn:E. cbn [fst snd] in *.
  assert (o = no_content) as ->.
  { revert E Hv. unfold serve_app. rewrite Hfa. cbn [String.eqb Ascii.eqb Bool.eqb].
    unfold patch_app. destruct (apply_settings _ _) as [[c ch]|]; intros [= <- <-]; done. }
  destruct (patch_then_get_app db e s a s1 _ _ Hi Hfa E) as (c & changed & H1 & _ & H3 & H4).
  exists c, changed. split; [done|]. split; [|done].
  rewrite exchange_serve by done. cbn [serve]. rewrite H3. cbn [fst snd]. f_equal.
  unfold app_with_config. rewrite got_json; try done.
  - by destruct c as [? ? [|] [|] [|]].
  - by destruct c as [? ? [|] [|] [|]].
Qed.

Lemma settings_round_trip_witness :
  ∃ s' c, exchange no_db sample_env None (Some "key") s' (GetApplication "default" "ecommerce-checkout") =
    (s', Got (JObj (app_fields (App "ecommerce-checkout" "default" "AVAILABLE" "typescript"
                                  "2026-09-18T18:00:00Z") ++ config_fields c))) ∧
    cf_gcTimeThresholdMs c = Some 60000.
Proof.
  set (input := JObj [("privateMode", JBool true); ("gcTimeThresholdMs", JNum 60000);
                      ("gcRowsThreshold", JStr "many")]).
  destruct (settings_round_trip no_db sample_env None (Some "key") "default" "ecommerce-checkout"
              (initial_state "t")
              (fst (serve no_db sample_env (initial_state "t")
                      (UpdateApp "default" "ecommerce-checkout" input)))
              input _ ltac:(vm_compute; reflexivity) eq_refl eq_refl ltac:(vm_compute; reflexivity))
    as (c & changed & E & H & _).
  eexists _, c. split; [exact H|]. vm_compute in E. injection E as <- _. reflexivity.
Defined.

(** ** Where the two do not meet *)

Notation seed := (initial_state "t").
Notation ask op := (exchange no_db sample_env None None seed op).

(** A restart is answered without the new workflow's identifier, which the
    client's type promises and the console shows and opens. *)
Lemma restart_names_no_workflow org app id n :
  addressable (ForkWorkflow org app id n) = true →
  snd (ask (ForkWorkflow org app id n)) = Got (JObj [("status", JStr "SUCCESS")]).
Proof. intros H. rewrite exchange_serve by done. reflexivity. Qed.

(** Creating an alerting rule is answered like listing them: nothing is stored. *)
Lemma created_alert_is_lost db e s org app rule :
  addressable (CreateAlertingRule org app rule) = true →
  fetch db e s (request_of (CreateAlertingRule org app rule)) = (s, list_alerts s app).
Proof. intros H. by rewrite fetch_operation. Qed.

(** Resuming a schedule is taken for a workflow operation, and refused. *)
Lemma schedule_resume_refused org app name :
  addressable (ResumeSchedule org app name) = true →
  ask (ResumeSchedule org app name) = (seed, Refused (Err (Some 404) "unknown workflow operation")).
Proof. intros H. rewrite exchange_serve by done. reflexivity. Qed.

(** Identifiers are not decoded: a workflow whose identifier needs encoding is
    listed but cannot be opened. *)
Lemma encoded_workflow_not_found :
  let w := JObj [("workflowId", JStr "order 7")] in
  let s := State (s_apps seed) (s_executors seed) (s_queues seed) (s_schedules seed)
    (s_alerts seed) (s_roles seed) (s_members seed) (s_keys seed) (s_appConfigs seed)
    (s_autoscaling seed) (s_auditLog seed) [w] [] 100 in
  exchange no_db sample_env None None s (GetWorkflow "default" "ecommerce-checkout" "order 7") =
    (s, Refused (Err (Some 404) "Workflow not found")).
Proof. vm_compute. reflexivity. Qed.

(** The members' answer names the organization by its encoded name. *)
Lemma members_name_encoded :
  jget (match snd (ask (ListMembers "acme & co")) with Got v => v | _ => JUndef end) "orgName" =
  Some (JStr "acme%20%26%20co").
Proof. vm_compute. reflexivity. Qed.

(** Five fields of a workflow query never reach the server. *)
Lemma search_filters_ignored org app q prefix executor t1 t2 :
  listWorkflows org app
    (Search (s_workflowIds q) (s_workflowName q) prefix (s_status q) (s_queueName q)
       (s_appVersion q) executor t1 t2 (s_limit q) (s_offset q) (s_sortDesc q)) =
  listWorkflows org app q.
Proof. by destruct q. Qed.

(** A key whose name ends like a script's cannot be revoked, a role whose name
    starts with an operation's cannot be deleted, and the name of the parent
    directory leads to another resource. *)
Lemma script_key_not_revoked : ask (RevokeAPIKey "default" "deploy.js") = (seed, Broken).
Proof. vm_compute. reflexivity. Qed.

Lemma fork_role_not_deleted :
  ask (DeleteRole "default" "forklift") =
    (seed, Refused (Err (Some 404) "unknown workflow operation")).
Proof. vm_compute. reflexivity. Qed.

Lemma dot_key_is_another_path :
  rq_path <$> received (call_of (new_client "" None) (RevokeAPIKey "default" "..")) =
  Some "/v2/orgs/default/".
Proof. vm_compute. reflexivity. Qed.
