(* ===== verification/ClientTypes.v ===== *)
(** The answers of the playground's control plane have the types the client
    declares for them, as long as it is used through the client with arguments
    of the declared types; and the answers that do not. *)

From Stdlib Require Import ZArith Lia Ascii String.
From stdpp Require Import base list strings gmap.
From S2P Require Import Prelude Html Json JsonSpec Uri ApiTypes ApiClient.
From S2P Require Import BridgeState BridgeRoutes BridgeSpec ClientServe ClientSpec.
Import Client.

(** The types of the arguments that are JSON values. *)
Definition typed_arguments (op : operation) : bool :=
  match op with
  | UpdateApp _ _ input => conforms UpdateAppInput input
  | SetAutoscalingPolicy _ _ policy => conforms AutoscalePolicy policy
  | CreateAlertingRule _ _ rule => conforms CreateAlertInput rule
  | _ => true
  end.

(** The control planes the console can leave behind. *)
Inductive used : state → Prop :=
| used_start t : used (initial_state t)
| used_call s db e network k op :
    used s → addressable op = true → typed_arguments op = true →
    used (fst (exchange db e network k s op)).

(** The declared type of an answer, where the control plane keeps to it.  An
    application named like a property of every object has no policy of its own. *)
Definition result_type (op : operation) : option shape :=
  match op with
  | GetWorkflowNotifications _ _ _ => Some (TArray Notification)
  | ListAPIKeys _ => Some (TArray Token)
  | CreateAPIKey _ _ _ _ => Some TokenCreated
  | GetAutoscalingPolicy _ app =>
      if inherited app then None else Some (TObject [req "policy" AutoscalePolicy])
  | SetAutoscalingPolicy _ _ _ => Some (TObject [req "policy" AutoscalePolicy])
  | GetAutoscale _ app => if inherited app then None else Some (TArray QueueAutoscale)
  | ListAuditLogs _ _ => Some (TArray AuditLogEntry)
  | ListRoles _ => Some (TArray ApiTypes.Role)
  | CreateRole _ _ _ => Some (TObject [req "name" TString; req "permissions" (TArray TString)])
  | ListMembers _ => Some OrgMembers
  | ListPermissions _ => Some (TArray TString)
  | _ => None
  end.

(** ** What is stored *)

Notation strings := (TArray TString).

Definition typed_role (r : role) : Prop := conforms strings (ro_permissions r) = true.

Definition typed_key (k : key) : Prop :=
  conforms strings (k_permissions k) = true ∧ conforms strings (k_appIds k) = true ∧
  conforms strings (k_appNames k) = true ∧ proper_value (k_token k) = true.

Definition typed_policy (p : policy) : Prop :=
  conforms AutoscalePolicy (policy_json p) = true ∧ proper_value (policy_json p) = true.

Definition typed_audit (a : audit) : Prop :=
  conforms AuditLogEntry (audit_json a) = true ∧ proper_value (audit_json a) = true.

Record typed_state (s : state) : Prop := {
  ty_roles : Forall typed_role (s_roles s);
  ty_keys : Forall typed_key (s_keys s);
  ty_policies : map_Forall (λ _ p, typed_policy p) (s_autoscaling s);
  ty_audit : Forall typed_audit (s_auditLog s) }.

Lemma initial_typed t : typed_state (initial_state t).
Proof.
  split; [repeat constructor..| |].
  - apply map_Forall_empty.
  - repeat constructor.
Qed.

Definition target_types : list string := ["application"; "workflow"; "token"; "role"; "user"].

Ltac target := unfold target_types; rewrite !elem_of_cons; tauto.

Lemma push_typed e operation ty id s :
  ty ∈ target_types → typed_state s →
  typed_state (pushAudit e operation "success" (Some (Target ty id)) s).
Proof.
  intros Ht [H1 H2 H3 H4]. split; try done. cbn [pushAudit s_auditLog set_audit].
  constructor; [|done]. unfold target_types in Ht. rewrite !elem_of_cons, elem_of_nil in Ht.
  by destruct Ht as [->|[->|[->|[->|[->|[]]]]]].
Qed.

(** ** Values of a type are values JavaScript can have *)

Lemma strings_value v : conforms strings v = true → ∃ l, v = json_strings l.
Proof.
  destruct v as [| | | | |vs|]; try done. cbn [conforms]. intros H.
  assert (∃ l, vs = map JStr l) as [l ->]; [|by exists l].
  induction vs as [|x vs IH]; [by exists []|]. cbn [forallb] in H.
  apply andb_true_iff in H as [Hx H]. destruct x; try done.
  destruct (IH H) as [l ->]. by exists (s :: l).
Qed.

Lemma json_strings_proper l : proper_value (json_strings l) = true ∧ conforms strings (json_strings l) = true.
Proof. unfold json_strings. by split; induction l. Qed.

Lemma strings_proper v : conforms strings v = true → proper_value v = true.
Proof. intros [l ->]%strings_value. apply json_strings_proper. Qed.

Lemma role_value r :
  typed_role r → conforms ApiTypes.Role (role_json r) = true ∧ proper_value (role_json r) = true.
Proof.
  unfold typed_role. destruct r as [n g p]. cbn [ro_permissions]. intros [l ->]%strings_value.
  destruct (json_strings_proper l) as [Hp Hc]. split; cbn -[json_strings distinct] in *.
  - by rewrite Hc.
  - by rewrite Hp.
Qed.

Lemma key_value k :
  typed_key k → conforms Token (key_json k) = true ∧ proper_value (key_json k) = true.
Proof.
  unfold typed_key. destruct k as [i tn n p t c ps ai an].
  cbn [k_permissions k_appIds k_appNames k_token].
  intros ([l1 ->]%strings_value & [l2 ->]%strings_value & [l3 ->]%strings_value & Ht).
  destruct (json_strings_proper l1) as [Hp1 Hc1], (json_strings_proper l2) as [Hp2 Hc2],
    (json_strings_proper l3) as [Hp3 Hc3].
  split; cbn -[json_strings distinct] in *.
  - by rewrite Hc1, Hc2.
  - by rewrite Hp1, Hp2, Hp3, Ht.
Qed.

Lemma values_proper (f : jval → bool) {A} (g : A → jval) (P : A → Prop) l :
  (∀ x, P x → f (g x) = true) → Forall P l → forallb f (map g l) = true.
Proof. intros Hg H. induction H; [done|]. cbn [map forallb]. by rewrite Hg, IHForall. Qed.

(** ** Every operation keeps the types *)

Lemma jor_strings v l : conforms strings v = true → conforms strings (jor v (json_strings l)) = true.
Proof. intros [l' ->]%strings_value. apply json_strings_proper. Qed.

Lemma create_key_typed e s name permissions appNames :
  typed_state s →
  typed_state (fst (create_key e s name
    (JObj [("permissions", json_strings permissions); ("appNames", json_strings appNames)]))).
Proof.
  intros Hs. unfold create_key. cbn [jget assoc String.eqb Ascii.eqb Bool.eqb default from_option id fst].
  apply push_typed; [target|]. destruct Hs as [H1 H2 H3 H4].
  split; try done. cbn [s_keys set_keys]. apply Forall_app. split; [done|].
  constructor; [|constructor]. unfold typed_key, new_key. cbn [k_permissions k_appIds k_appNames k_token].
  split_and!; try done; by apply jor_strings, json_strings_proper.
Qed.

Lemma post_role_typed e s name permissions :
  typed_state s →
  typed_state (fst (post_role e s
    (JObj [("name", JStr name); ("permissions", json_strings permissions)]))).
Proof.
  intros Hs. unfold post_role. destruct (read_role_name _) as [n|]; [|done].
  case_tests; [done|done|]. cbn [fst]. apply push_typed; [target|].
  destruct Hs as [H1 H2 H3 H4]. split; try done. cbn [s_roles set_roles]. apply Forall_app.
  split; [done|]. constructor; [|constructor]. unfold typed_role. cbn [ro_permissions].
  change (JArr []) with (json_strings []). by apply jor_strings, json_strings_proper.
Qed.

(** A policy the client may send, as the control plane stores it. *)
Lemma sent_policy policy queue :
  conforms AutoscalePolicy policy = true → proper_value policy = true →
  jget (sent_value policy) "queue" = Some (JStr queue) →
  let rollout := field (sent_value policy) "rollout" in
  typed_policy (Policy (JStr queue) (if truthy rollout then rollout else JUndef)
                  (field (sent_value policy) "$schema")).
Proof.
  intros Hc Hp Hq rollout.
  assert (sent_value policy = clean policy) as Hs by (by destruct policy).
  pose proof (conforms_clean _ _ Hp Hc) as Hc'. pose proof (proper_clean _ Hp) as Hp'.
  subst rollout. rewrite Hs in *. clear Hc Hp Hs. remember (clean policy) as v. clear Heqv.
  pose proof (proper_field v "rollout" Hp') as Hr. pose proof (proper_field v "$schema" Hp') as Hd.
  assert (truthy (field v "rollout") = true →
    conforms (nullable RolloutPolicy) (field v "rollout") = true) as Hroll.
  { destruct v as [| | | | | |fs]; try done. unfold AutoscalePolicy in Hc'.
    cbn [conforms forallb fst snd opt req] in Hc'. rewrite !andb_true_iff in Hc'.
    destruct Hc' as (_ & Hc & _). unfold field. cbn [jget default from_option id].
    destruct (assoc "rollout" fs) as [x|]; [|done]. cbn [default]. by destruct x. }
  unfold typed_policy, policy_json. cbn [po_queue po_rollout po_schema].
  destruct (truthy (field v "rollout")) eqn:Et; [|split; [done|]].
  - specialize (Hroll eq_refl). split.
    + unfold AutoscalePolicy. cbn [conforms forallb fst snd opt req assoc String.eqb Ascii.eqb Bool.eqb].
      rewrite Hroll. by destruct (field v "rollout").
    + cbn -[distinct field]. by rewrite Hr, Hd.
  - cbn -[distinct field]. by rewrite Hd.
Qed.

Lemma put_policy_typed e s app policy :
  conforms AutoscalePolicy policy = true → proper_value policy = true →
  typed_state s → typed_state (fst (put_policy e s app (sent_value policy))).
Proof.
  intros Hc Hp Hs. unfold put_policy.
  destruct (jget (sent_value policy) "queue") as [bq|] eqn:Eq; [|done].
  destruct (negb (truthy bq)); [done|]. destruct (find _ _) as [x|] eqn:Ef; [|done].
  apply find_some_elem in Ef as [_ ->%is_str_eq].
  destruct (q_partitionQueue x); [done|]. destruct (negb _); [done|]. cbn [fst].
  apply push_typed; [target|]. pose proof (sent_policy policy (q_name x) Hc Hp Eq) as Ht.
  destruct Hs as [H1 H2 H3 H4]. split; try done. cbn [s_autoscaling set_autoscaling].
  unfold set_prop. destruct (String.eqb app "__proto__"); [done|].
  by apply map_Forall_insert_2.
Qed.

Lemma serve_typed db e s op :
  addressable op = true → typed_arguments op = true →
  typed_state s → typed_state (fst (serve db e s op)).
Proof.
  intros [_ Hp]%addressable_parts Ht Hs.
  destruct op; cbn [serve fst]; try done; cbn [typed_arguments proper_arguments payload_of] in *.
  - unfold serve_app. destruct (find_app _ _ _); [|done]. cbn [String.eqb Ascii.eqb Bool.eqb fst].
    unfold with_default_config. by case_tests; destruct Hs; split.
  - apply push_typed; [target|done].
  - apply push_typed; [target|done].
  - apply push_typed; [target|done].
  - by apply create_key_typed.
  - apply push_typed; [target|]. destruct Hs as [H1 H2 H3 H4]. split; try done.
    cbn. rewrite Forall_forall in *. intros k [_ Hk]%keep_elem. auto.
  - unfold serve_app. destruct (find_app _ _ _); [|done]. cbn [String.eqb Ascii.eqb Bool.eqb].
    assert (typed_state (with_default_config s app)) as Hs'.
    { unfold with_default_config. by case_tests; destruct Hs; split. }
    unfold patch_app. destruct (apply_settings _ _) as [[c changed]|]; [|done]. cbn [fst].
    assert (typed_state (match s_appConfigs (with_default_config s app) !! app with
      | Some _ => set_appConfigs (<[app:=c]> (s_appConfigs (with_default_config s app)))
                    (with_default_config s app)
      | None => with_default_config s app
      end)) as Hs'' by (case_match; [by destruct Hs'; split|done]).
    destruct changed; [|done]. apply push_typed; [target|done].
  - by apply put_policy_typed.
  - unfold delete_policy. cbn [fst].
    assert (typed_state (set_autoscaling (delete app (s_autoscaling s)) s)) as Hs'.
    { destruct Hs as [H1 H2 H3 H4]. split; try done. by apply map_Forall_delete. }
    destruct (has_prop _ _); [|done]. apply push_typed; [target|done].
  - by apply post_role_typed.
  - unfold delete_role. destruct (find _ _) as [x|]; [|done]. destruct (ro_isGlobal x); [done|].
    cbn [fst]. apply push_typed; [target|]. destruct Hs as [H1 H2 H3 H4]. split; try done.
    cbn. rewrite Forall_forall in *. intros k [_ Hk]%keep_elem. auto.
  - unfold grant. case_tests; [done|done|]. cbn [fst]. apply push_typed; [target|].
    by destruct Hs; split.
  - unfold remove_member. case_tests; [done|]. cbn [fst]. apply push_typed; [target|].
    by destruct Hs; split.
Qed.

Lemma used_typed s : used s → typed_state s.
Proof.
  induction 1 as [t|s db e network k op _ IH Ha Ht]; [apply initial_typed|].
  rewrite exchange_serve by done. by apply serve_typed.
Qed.

(** ** The answers *)

(** A document of the type, a refusal, or a failure. *)
Definition answers (t : shape) (o : outcome) : Prop :=
  o = Rejected ∨
  ∃ st v, o = json st v ∧
    (200 <= st < 300 →
     st ≠ 204 ∧ conforms t v = true ∧ proper_value v = true ∧ is_undef v = false).

Lemma answers_json t st v :
  st ≠ 204 → conforms t v = true → proper_value v = true → is_undef v = false →
  answers t (json st v).
Proof. intros. right. by exists st, v. Qed.

Lemma answers_problem t st title detail : ¬ (200 <= st < 300) → answers t (problem st title detail).
Proof. intros H. right. eexists st, _. by split. Qed.

Lemma answers_rejected t : answers t Rejected.
Proof. by left. Qed.

Lemma array_answer {A} t (f : A → jval) (P : A → Prop) l :
  (∀ x, P x → conforms t (f x) = true ∧ proper_value (f x) = true) → Forall P l →
  answers (TArray t) (json 200 (JArr (map f l))).
Proof.
  intros Hf Hl. apply answers_json; try done; cbn [conforms proper_value];
    eapply values_proper; try done; intros x Hx; by apply Hf.
Qed.

Lemma member_role_typed s n : typed_state s → typed_role (member_role s n).
Proof.
  intros [H _ _ _]. unfold member_role. destruct (find _ _) as [x|] eqn:E; [|done].
  apply find_some_elem in E as [Hx _]. rewrite Forall_forall in H. by apply H.
Qed.

Lemma members_answer s org : typed_state s → answers OrgMembers (list_members s org).
Proof.
  intros Hs. unfold list_members.
  set (us := map _ (map_to_list (s_members s))).
  assert (forallb (λ f : string * jval, conforms ApiTypes.Role (snd f)) us = true ∧
          forallb (λ f : string * jval, proper_value (snd f)) us = true ∧
          distinct (map fst us) = true) as (H1 & H2 & H3).
  { subst us. split_and!.
    - induction (map_to_list (s_members s)) as [|[u n] l IH]; [done|].
      cbn [map forallb snd]. rewrite IH, andb_true_r. by apply role_value, member_role_typed.
    - induction (map_to_list (s_members s)) as [|[u n] l IH]; [done|].
      cbn [map forallb snd]. rewrite IH, andb_true_r. by apply role_value, member_role_typed.
    - apply bool_decide_eq_true. rewrite map_map. pose proof (NoDup_fst_map_to_list (s_members s)) as Hd.
      erewrite map_ext; [exact Hd|]. by intros []. }
  apply answers_json; try done.
  - unfold OrgMembers. cbn [conforms forallb fst snd req assoc String.eqb Ascii.eqb Bool.eqb].
    by rewrite H1.
  - cbn [proper_value forallb snd map fst]. rewrite H2, H3. reflexivity.
Qed.

Lemma policy_answer s app :
  typed_state s → inherited app = false →
  answers (TObject [req "policy" AutoscalePolicy]) (get_policy s app).
Proof.
  intros [_ _ H _] Hi. unfold get_policy, get_prop. destruct (s_autoscaling s !! app) as [p|] eqn:E.
  - destruct (H _ _ E) as [H1 H2]. apply answers_json; try done.
    + cbn [conforms forallb fst snd req assoc String.eqb Ascii.eqb Bool.eqb].
      cbn [policy_json] in *. by rewrite H1.
    + cbn [proper_value forallb map fst snd]. rewrite H2. reflexivity.
  - rewrite Hi. apply answers_problem. lia.
Qed.

Lemma put_answer e s app policy :
  conforms AutoscalePolicy policy = true → proper_value policy = true →
  answers (TObject [req "policy" AutoscalePolicy]) (snd (put_policy e s app (sent_value policy))).
Proof.
  intros Hc Hp. unfold put_policy.
  destruct (jget (sent_value policy) "queue") as [bq|] eqn:Eq; [|apply answers_rejected].
  destruct (negb (truthy bq)); [apply answers_problem; lia|].
  destruct (find _ _) as [x|] eqn:Ef; [|apply answers_problem; lia].
  apply find_some_elem in Ef as [_ ->%is_str_eq].
  destruct (q_partitionQueue x); [apply answers_problem; lia|].
  destruct (negb _); [apply answers_problem; lia|]. cbn [snd].
  destruct (sent_policy policy (q_name x) Hc Hp Eq) as [H1 H2].
  apply answers_json; try done.
  - cbn [conforms forallb fst snd req assoc String.eqb Ascii.eqb Bool.eqb].
    cbn [policy_json] in *. by rewrite H1.
  - cbn [proper_value forallb map fst snd]. rewrite H2. reflexivity.
Qed.

Lemma autoscale_answer db e s app :
  typed_state s → inherited app = false →
  answers (TArray QueueAutoscale) (autoscale db e s app None).
Proof.
  intros [_ _ H _] Hi. unfold autoscale, get_prop.
  destruct (s_autoscaling s !! app) as [p|] eqn:E; [|rewrite Hi; apply answers_problem; lia].
  destruct (H _ _ E) as [H1 _].
  assert (∃ n, po_queue p = JStr n) as [n ->].
  { destruct p as [[] ? ?]; cbn in H1; try done. by eexists. }
  unfold recommend. by apply answers_json.
Qed.

Lemma audit_answer s q : typed_state s → answers (TArray AuditLogEntry) (list_audit s q).
Proof.
  intros [_ _ _ H]. unfold list_audit. destruct q as [q|]; [|apply answers_problem; lia].
  apply (array_answer _ _ typed_audit); [done|]. rewrite Forall_forall in *.
  intros x Hx. apply H. unfold audit_page in Hx. apply list_slice_elem in Hx.
  rewrite js_sort_elem in Hx. by apply keep_elem in Hx as [_ Hx].
Qed.

Lemma create_key_answer e s name permissions appNames :
  answers TokenCreated (snd (create_key e s name
    (JObj [("permissions", json_strings permissions); ("appNames", json_strings appNames)]))).
Proof.
  unfold create_key. cbn [jget assoc String.eqb Ascii.eqb Bool.eqb default from_option id snd].
  assert (∀ l, proper_value (jor (json_strings l) (strs ["*"])) = true) as Hj.
  { intros l. by apply strings_proper, jor_strings, json_strings_proper. }
  apply answers_json; [done|reflexivity| |done].
  cbn -[distinct jor json_strings]. by rewrite !Hj.
Qed.

Lemma post_role_answer e s name permissions :
  answers (TObject [req "name" TString; req "permissions" strings])
    (snd (post_role e s (JObj [("name", JStr name); ("permissions", json_strings permissions)]))).
Proof.
  unfold post_role. destruct (read_role_name _) as [n|]; [|apply answers_rejected].
  case_tests; [apply answers_problem; lia..|]. cbn [snd ro_name ro_permissions].
  assert (∃ l, jor (field (JObj [("name", JStr name); ("permissions", json_strings permissions)])
    "permissions") (JArr []) = json_strings l) as [l ->] by (by exists permissions).
  destruct (json_strings_proper l) as [Hp Hc].
  apply answers_json; try done; cbn -[distinct json_strings] in *; by rewrite ?Hp, ?Hc.
Qed.

Lemma serve_answers db e s op t :
  typed_state s → typed_arguments op = true → proper_arguments op = true →
  result_type op = Some t → answers t (snd (serve db e s op)).
Proof.
  intros Hs Ht Hp. destruct op; cbn [result_type serve]; try done;
    try (destruct (inherited _) eqn:Hi; [done|]); intros [= <-]; cbn [snd].
  - by apply answers_json.
  - apply (array_answer _ _ typed_key); [apply key_value|apply Hs].
  - apply create_key_answer.
  - by apply policy_answer.
  - by apply put_answer.
  - by apply autoscale_answer.
  - by apply audit_answer.
  - apply (array_answer _ _ typed_role); [apply role_value|apply Hs].
  - apply post_role_answer.
  - by apply members_answer.
  - by apply answers_json.
Qed.

(** C10: as long as the control plane is used through the client with arguments
    of their declared types, what the methods for keys, roles, members, rights,
    audit entries, policies, recommendations and notifications return has the
    type the client declares. *)
Theorem answers_conform db e network k s op s' v t :
  used s → addressable op = true → typed_arguments op = true →
  exchange db e network k s op = (s', Got v) → result_type op = Some t →
  conforms t v = true.
Proof.
  intros Hu Ha Ht Hx Hr. pose proof (used_typed s Hu) as Hs.
  destruct (addressable_parts op Ha) as [_ Hp]. rewrite exchange_serve in Hx by done.
  injection Hx as _ Hv. pose proof (serve_answers db e s op t Hs Ht Hp Hr) as Hans.
  assert (read_of op = read_answer) as Hread by (destruct op; try done).
  destruct Hans as [Ho|(st & v0 & Ho & Hv0)]; rewrite Ho in Hv; [done|].
  destruct (decide (200 <= st < 300)) as [Hst|Hst].
  - destruct (Hv0 Hst) as (H204 & Hc & Hpv & Hundef).
    rewrite got_json in Hv by done. injection Hv as <-. by apply conforms_clean.
  - unfold json in Hv. cbn [answer_to] in Hv. rewrite Hread in Hv. unfold read_answer, ok in Hv.
    cbn [http_of rs_body rs_status h_status] in Hv.
    destruct (Z.leb_spec 200 st), (Z.ltb_spec st 300); try done. lia.
Qed.

(** A console session: a role is created, a key is made. *)
Definition session : state :=
  fst (exchange no_db sample_env None None
         (fst (exchange no_db sample_env None None (initial_state "t")
                 (CreateRole "default" "release" ["application.read"])))
         (CreateAPIKey "default" "ci key" ["*"] [])).

Lemma answers_conform_witness :
  ∃ v, exchange no_db sample_env None None session (ListAPIKeys "default") = (session, Got v) ∧
       conforms (TArray Token) v = true.
Proof.
  assert (H : ∃ v, exchange no_db sample_env None None session (ListAPIKeys "default") =
                (session, Got v)) by (eexists; vm_compute; reflexivity).
  destruct H as [v H]. exists v. split; [exact H|].
  refine (answers_conform no_db sample_env None None session (ListAPIKeys "default") session v _
            _ _ _ H eq_refl); try (vm_compute; reflexivity).
  unfold session. apply used_call; [apply used_call; [apply used_start| |]| |];
    vm_compute; reflexivity.
Defined.

(** ** The answers that are not of their type *)

(** An answer of the seeded control plane that is not of the declared type. *)
Definition off_type (op : operation) (t : shape) : bool :=
  match snd (exchange no_db sample_env None None (initial_state "t") op) with
  | Got v => negb (conforms t v)
  | _ => false
  end.

(** The screens read these answers, so their gaps are the screens' to bridge:
    applications without identifiers, executors without application, steps
    numbered by texts, queues without polling, schedules without identifiers,
    rules without applications. *)
Lemma untyped_answers :
  let org := "default" in let app := "ecommerce-checkout" in
  off_type (ListApplications org) (TArray Application) = true ∧
  off_type (GetApplication org app) Application = true ∧
  off_type (ListExecutors org app) (TArray ApiTypes.Executor) = true ∧
  off_type (GetWorkflow org app "wf-ord-89214") Workflow = true ∧
  off_type (ListSteps org app "wf-ord-89214") (TArray Step) = true ∧
  off_type (ListQueues org app) (TArray ApiTypes.Queue) = true ∧
  off_type (ListSchedules org app) (TArray ApiTypes.Schedule) = true ∧
  off_type (ListAlertingRules org app) (TArray AlertingRule) = true.
Proof. vm_compute. repeat split. Qed.
