(* ===== verification/WikiSearch.v ===== *)
(** The matching, ranking and rendering of the wiki's search dialog
    (internal/sitewiki/search.js): what a query finds, how an entry is scored,
    the snippet and the highlighting of a hit, and the text of the dialog.

    A character stands for a code unit below 256; [toLowerCase] and the [i] flag
    fold the ASCII letters.  An absent field of an index entry reads as the empty string, which
    the code treats alike. *)

From Stdlib Require Import ZArith Lia Ascii String.
From stdpp Require Import base list strings sorting gmap.
From S2P Require Import Prelude Html.

(** ** Escaping *)

(** [escapeHTML(str)]. *)
Definition escapeHTML (s : string) : string :=
  if String.eqb s "" then "" else escape_chain s.

(** The class [[.*+?^${}()|[\]\\]] of the pattern's syntax characters. *)
Definition is_special (a : ascii) : bool :=
  some (Ascii.eqb a) [".";"*";"+";"?";"^";"$";"{";"}";"(";")";"|";"[";"]";"\"]%char.

(** [str.replace(special, '\\$&')]. *)
Fixpoint escapeRegExp (s : string) : string :=
  match s with
  | EmptyString => ""
  | String a s' => if is_special a then String "\" (String a (escapeRegExp s'))
                   else String a (escapeRegExp s')
  end.

(** ** Highlighting *)

(** What the regular expression engine makes of a pattern that consists of
    literal characters, escaped syntax characters and alternation: its
    alternatives, in order.  [None] for a pattern with any other construct. *)
Fixpoint read_alternatives (cur p : string) : option (list string) :=
  match p with
  | EmptyString => Some [cur]
  | String "\" p' =>
      match p' with
      | String a p'' => if is_special a then read_alternatives (cur +:+ String a "") p'' else None
      | EmptyString => None
      end
  | String "|" p' =>
      match read_alternatives "" p' with Some l => Some (cur :: l) | None => None end
  | String a p' => if is_special a then None else read_alternatives (cur +:+ String a "") p'
  end.

(** One literal alternative against the start of the text, ignoring case. *)
Fixpoint prefix_ci (p s : string) : bool :=
  match p, s with
  | EmptyString, _ => true
  | String a p', String b s' => Ascii.eqb (lower_ascii a) (lower_ascii b) && prefix_ci p' s'
  | _, EmptyString => false
  end.

(** The first alternative that matches at the start of the text. *)
Definition match_here (alts : list string) (s : string) : option string :=
  find (λ p, prefix_ci p s) alts.

Definition mark_open : string := q "<mark class=`search-match`>".
Definition mark_close : string := "</mark>".

(** [escaped.replace(regex, '<mark class="search-match">$1</mark>')] with the [g]
    flag: leftmost matches, each in a mark.  The fuel is the length of the text;
    every round consumes at least one character. *)
Fixpoint mark_all (fuel : nat) (alts : list string) (s : string) : string :=
  match fuel, s with
  | O, _ => s
  | _, EmptyString => ""
  | S f, String a s' =>
      match match_here alts s with
      | Some (String _ _ as p) =>
          let n := String.length p in
          mark_open +:+ stake n s +:+ mark_close +:+ mark_all f alts (sdrop n s)
      | _ => String a (mark_all f alts s')
      end
  end.

Definition replace_marks (alts : list string) (s : string) : string :=
  mark_all (String.length s) alts s.

Definition pattern (terms : list string) : string :=
  join "|" (map (λ t, escapeRegExp (escapeHTML t)) terms).

(** [highlight(text, terms)]. *)
Definition highlight (text : string) (terms : list string) : string :=
  if String.eqb text "" then escapeHTML text
  else match terms with
       | [] => escapeHTML text
       | _ =>
           let escaped := escapeHTML text in
           if String.eqb (pattern terms) "" then escaped
           else match read_alternatives "" (pattern terms) with
                | Some alts => replace_marks alts escaped
                | None => escaped
                end
       end.

(** ** The snippet of a hit *)

(** The smallest position at which a term occurs. *)
Fixpoint first_pos (lower : string) (terms : list string) (firstPos : option nat) : option nat :=
  match terms with
  | [] => firstPos
  | t :: terms' =>
      first_pos lower terms'
        match index_of t lower, firstPos with
        | Some pos, Some p => if (pos <? p)%nat then Some pos else Some p
        | Some pos, None => Some pos
        | None, _ => firstPos
        end
  end.

(** The window of the content around the first hit: [start] and [end]. *)
Definition window (content : string) (p : nat) : nat * nat :=
  ((p - 35)%nat, Nat.min (String.length content) (p + 95)).

Definition dots (b : bool) : string := if b then "..." else "".

(** [extractSnippet(content, terms)]. *)
Definition extractSnippet (content : string) (terms : list string) : string :=
  if String.eqb content "" then ""
  else match first_pos (to_lower content) terms None with
       | None =>
           highlight (slice 0 110 content +:+ dots (110 <? String.length content)%nat) terms
       | Some p =>
           let '(start, end_) := window content p in
           dots (0 <? start)%nat +:+ highlight (slice start end_ content) terms +:+
           dots (end_ <? String.length content)%nat
       end.

(** ** Matching and ranking *)

(** An entry of the index: url, title, document, section, content. *)
Record entry := Entry { en_u : string; en_t : string; en_d : string; en_s : string; en_c : string }.

(** The score one term adds, [None] when it occurs nowhere in the entry. *)
Definition term_score (e : entry) (term : string) : option Z :=
  let titleLower := to_lower (en_t e) in
  let inTitle := includes titleLower term in
  let inDoc := includes (to_lower (en_d e)) term in
  let inSec := includes (to_lower (en_s e)) term in
  let inContent := includes (to_lower (en_c e)) term in
  if inTitle || inDoc || inSec || inContent then
    Some ((if inTitle
           then 45 + (if String.eqb titleLower term || starts_with titleLower (term +:+ " ")
                      then 40 else 0)
           else 0) +
          (if inDoc then 25 else 0) + (if inSec then 15 else 0) + (if inContent then 10 else 0))
  else None.

(** The loop over the terms, which stops at the first that does not match. *)
Fixpoint terms_score (e : entry) (terms : list string) (score : Z) : option Z :=
  match terms with
  | [] => Some score
  | term :: terms' =>
      match term_score e term with
      | Some n => terms_score e terms' (score + n)
      | None => None
      end
  end.

(** What an entry that holds the whole query adds. *)
Definition query_bonus (e : entry) (query : string) : Z :=
  if includes (to_lower (en_t e)) query then 80
  else if includes (to_lower (en_d e)) query then 40
  else if includes (to_lower (en_c e)) query then 30
  else 0.

Definition entry_score (query : string) (terms : list string) (e : entry) : option Z :=
  match terms_score e terms 0 with
  | Some score => Some (score + query_bonus e query)
  | None => None
  end.

(** A match: the entry and its score. *)
Record hit := Hit { h_entry : entry; h_score : Z }.

Fixpoint matches (query : string) (terms : list string) (index : list entry) : list hit :=
  match index with
  | [] => []
  | e :: index' =>
      match entry_score query terms e with
      | Some n => Hit e n :: matches query terms index'
      | None => matches query terms index'
      end
  end.

(** [matches.sort((a, b) => b.score - a.score)]. *)
Definition ranked (query : string) (terms : list string) (index : list entry) : list hit :=
  js_sort (λ a b, h_score b - h_score a) (matches query terms index).

Definition search (index : list entry) (query : string) (terms : list string) : list entry :=
  map h_entry (list_slice 0 12 (ranked query terms index)).

(** ** The text of the dialog *)

Definition initial_html : string := tpl
  [T "<div class=`search-empty-state`>"; T "<p>Type a search term or browse documentation topics...</p>";
   T "<div class=`search-quick-links`>"; T "<span>Popular:</span>";
   T "<a href=`/wiki/usage/quickstart.html`>Quickstart</a>";
   T "<a href=`/wiki/protocol/executor-ws.html`>Protocol Spec</a>";
   T "<a href=`/wiki/architecture/recovery.html`>Lease Fencing</a>";
   T "<a href=`/wiki/adr/0011-dual-engine-storage-architecture.html`>Dual Engine</a>";
   T "</div>"; T "</div>"].

Definition loading_html : string := tpl
  [T "<div class=`search-empty-state`><p>Loading search index...</p></div>"].

Definition no_results_html (query : string) : string := tpl
  [T "<div class=`search-empty-state`>"; T "<p>No results found for `<b>"; H (escapeHTML query);
   T "</b>`</p>";
   T "<p class=`search-empty-hint`>Try searching for keywords like <code>quickstart</code>, <code>fencing</code>, <code>websocket</code>, or <code>storage</code>.</p>";
   T "</div>"].

Definition result_html (terms : list string) (i : nat) (item : entry) : string :=
  let snippet := extractSnippet (en_c item) terms in
  let titleHtml := highlight (or_else (en_t item) (en_d item)) terms in
  tpl
  [T "<a href=`"; H (escapeHTML (en_u item)); T "` class=`search-result-item";
   H (if (i =? 0)%nat then " selected" else ""); T "` role=`option` aria-selected=`";
   H (if (i =? 0)%nat then "true" else "false"); T "` data-index=`"; H (string_of_Z (Z.of_nat i));
   T "`>"; T "  <div class=`search-result-top`>";
   T "    <span class=`search-result-section`>"; H (escapeHTML (en_s item)); T "</span>";
   T "    <span class=`search-result-sep`>/</span>";
   T "    <span class=`search-result-doc`>"; H (escapeHTML (en_d item)); T "</span>";
   T "  </div>"; T "  <div class=`search-result-title`>";
   T "    <svg class=`search-result-icon` width=`14` height=`14` viewBox=`0 0 24 24` fill=`none` stroke=`currentColor` stroke-width=`2` aria-hidden=`true`><path d=`M14 2H6a2 2 0 0 0-2 2v16a2 2 0 0 0 2 2h12a2 2 0 0 0 2-2V8z`/><polyline points=`14 2 14 8 20 8`/></svg>";
   T "    <span>"; H titleHtml; T "</span>"; T "  </div>";
   H (if String.eqb snippet "" then ""
      else tpl [T "  <div class=`search-result-snippet`>"; H snippet; T "</div>"]);
   T "</a>"].

Fixpoint results_from (terms : list string) (i : nat) (l : list entry) : string :=
  match l with
  | [] => ""
  | item :: l' => result_html terms i item +:+ results_from terms (S i) l'
  end.

Definition results_html (terms : list string) (currentResults : list entry) : string :=
  tpl [T "<div class=`search-results-list` role=`listbox`>"; H (results_from terms 0 currentResults);
       T "</div>"].

(** ** The pattern is the literal text of the terms *)

Lemma read_escaped cur s p :
  read_alternatives cur (escapeRegExp s +:+ p) = read_alternatives (cur +:+ s) p.
Proof.
  revert cur. induction s as [|a s IH]; intros cur.
  - by rewrite app_nil_r_str.
  - replace (cur +:+ String a s) with ((cur +:+ String a "") +:+ s)
      by (by rewrite app_assoc_str).
    rewrite <- IH. cbn [escapeRegExp]. destruct (is_special a) eqn:E.
    + rewrite !app_cons_str. cbn [read_alternatives]. by rewrite E.
    + rewrite app_cons_str.
      destruct a as [[] [] [] [] [] [] [] []]; try discriminate E; reflexivity.
Qed.

Lemma read_pattern cur l :
  l ≠ [] →
  read_alternatives cur (join "|" (map escapeRegExp l)) =
    match l with x :: l' => Some ((cur +:+ x) :: l') | [] => None end.
Proof.
  revert cur. induction l as [|x l IH]; intros cur Hl; [done|]. destruct l as [|y l].
  - cbn [map join]. rewrite <- (app_nil_r_str (escapeRegExp x)), read_escaped. done.
  - change (join "|" (map escapeRegExp (x :: y :: l)))
      with (escapeRegExp x +:+ String "|" (join "|" (map escapeRegExp (y :: l)))).
    rewrite read_escaped. cbn [read_alternatives]. by rewrite IH.
Qed.

Lemma escapeRegExp_nil s : escapeRegExp s = "" → s = "".
Proof. destruct s as [|a s]; [done|]. cbn [escapeRegExp]. by destruct (is_special a). Qed.

Lemma escapeHTML_chain s : escapeHTML s = escape_chain s.
Proof. unfold escapeHTML. by destruct (String.eqb_spec s "") as [->|]. Qed.

Lemma escapeHTML_nil s : escapeHTML s = "" → s = "".
Proof.
  rewrite escapeHTML_chain. intros H. rewrite <- (esc_decode (esc:=escape_chain) s), H. done.
Qed.

#[export] Instance escapeHTML_inert s : Inert (escapeHTML s).
Proof. rewrite escapeHTML_chain. apply _. Qed.

(** For every list of terms the pattern that [highlight] builds is read back as
    exactly the escaped terms: no character of a query is taken for syntax. *)
Lemma pattern_literal terms :
  terms ≠ [] → read_alternatives "" (pattern terms) = Some (map escapeHTML terms).
Proof.
  intros Ht. unfold pattern.
  replace (map (λ t, escapeRegExp (escapeHTML t)) terms) with (map escapeRegExp (map escapeHTML terms))
    by apply map_map.
  rewrite read_pattern by (by destruct terms). by destruct terms.
Qed.

(** ** What highlighting does to a text *)

(** The escaped text with some substrings put in marks: every marked piece is,
    up to case, one of the alternatives, and a character stays unmarked only
    where no alternative matches. *)
Inductive marked (alts : list string) : string → string → Prop :=
| marked_end : marked alts "" ""
| marked_char a s t :
    (∀ p, p ∈ alts → prefix_ci p (String a s) = false) →
    marked alts s t → marked alts (String a s) (String a t)
| marked_match p m s t :
    p ∈ alts → to_lower m = to_lower p → m ≠ "" →
    marked alts s t → marked alts (m +:+ s) (mark_open +:+ m +:+ mark_close +:+ t).

Lemma prefix_ci_spec p s :
  prefix_ci p s = true →
  s = stake (String.length p) s +:+ sdrop (String.length p) s ∧
  to_lower (stake (String.length p) s) = to_lower p.
Proof.
  revert s. induction p as [|a p IH]; intros s H; [by destruct s|].
  destruct s as [|b s]; [done|]. cbn in H. apply andb_true_iff in H as [E%Ascii.eqb_eq H].
  apply IH in H as [H1 H2]. cbn [String.length stake sdrop]. split.
  - rewrite app_cons_str. by rewrite <- H1.
  - unfold to_lower in *. cbn. by rewrite E, H2.
Qed.

Lemma sdrop_shorter n s : (String.length (sdrop n s) <= String.length s)%nat.
Proof. revert s. induction n as [|n IH]; intros [|a s]; cbn; auto. Qed.

(** Enough fuel: the length of the text. *)
Lemma mark_all_marked alts fuel s :
  Forall (λ p, p ≠ "") alts → (String.length s <= fuel)%nat → marked alts s (mark_all fuel alts s).
Proof.
  intros Hne. revert s. induction fuel as [|f IH]; intros s Hf.
  - destruct s; [constructor|cbn in Hf; lia].
  - destruct s as [|a s]; [constructor|]. cbn [mark_all].
    destruct (match_here alts (String a s)) as [p|] eqn:E.
    + apply find_some_elem in E as [Hp Hm].
      rewrite Forall_forall in Hne. pose proof (Hne p Hp) as Hp0.
      destruct p as [|b p]; [done|]. apply prefix_ci_spec in Hm as [Hs Hl].
      rewrite Hs at 1. apply (marked_match _ (String b p)); [done|done|done|].
      apply IH. cbn [String.length sdrop] in *. pose proof (sdrop_shorter (String.length p) s). lia.
    + unfold match_here in E. rewrite find_none_elem in E.
      constructor; [done|]. apply IH. cbn in Hf. lia.
Qed.

(** Highlighting never loses or changes a character: the result is the
    escaped text in which exactly the leftmost occurrences of the (escaped)
    terms, whatever characters they hold and in whatever case, are put in
    marks. *)
Theorem highlight_marks_terms text terms :
  Forall (λ t, t ≠ "") terms →
  marked (map escapeHTML terms) (escapeHTML text) (highlight text terms).
Proof.
  intros Ht. unfold highlight.
  assert (Hnone : ∀ s, marked [] s s).
  { induction s; constructor; [|done]. by intros p ?%elem_of_nil. }
  destruct (String.eqb_spec text "") as [->|Hx]; [constructor|].
  destruct terms as [|t terms]; [apply Hnone|].
  rewrite pattern_literal by done.
  destruct (String.eqb_spec (pattern (t :: terms)) "") as [E|_].
  - exfalso. pose proof (pattern_literal (t :: terms) ltac:(done)) as H. rewrite E in H.
    cbn in H. injection H as H _. symmetry in H. apply escapeHTML_nil in H.
    by apply Forall_inv in Ht.
  - apply mark_all_marked; [|done]. apply Forall_map. eapply Forall_impl; [exact Ht|].
    intros x Hx0 E%escapeHTML_nil. done.
Qed.

Lemma highlight_marks_terms_witness :
  highlight "if a<B.c" ["<"; "B.C"] =
    "if a" +:+ mark_open +:+ "&lt;" +:+ mark_close +:+ mark_open +:+ "B.c" +:+ mark_close ∧
  marked ["&lt;"; "B.C"] "if a&lt;B.c" (highlight "if a<B.c" ["<"; "B.C"]).
Proof.
  split; [vm_compute; reflexivity|].
  exact (highlight_marks_terms "if a<B.c" ["<"; "B.C"] ltac:(by repeat constructor)).
Defined.

(** The markup of a mark. *)
Fixpoint repeat_text (n : nat) (s : string) : string :=
  match n with O => "" | S n' => s +:+ repeat_text n' s end.

Lemma inert_app_inv s t : Inert (s +:+ t) → Inert s ∧ Inert t.
Proof.
  unfold Inert. rewrite skeleton_app. destruct (skeleton s); [done|]. by rewrite app_cons_str.
Qed.

Lemma inert_cons_inv a s : Inert (String a s) → is_markup a = false ∧ Inert s.
Proof. unfold Inert, skeleton. cbn. by destruct (is_markup a). Qed.

Lemma marked_skeleton alts s t :
  marked alts s t → Inert s →
  ∃ n, skeleton t = repeat_text n (skeleton mark_open +:+ skeleton mark_close).
Proof.
  induction 1 as [|a s t _ _ IH|p m s t _ _ _ _ IH]; intros Hs.
  - by exists 0%nat.
  - apply inert_cons_inv in Hs as [Ha Hs]. destruct (IH Hs) as [n Hn]. exists n.
    unfold skeleton in *. cbn. by rewrite Ha.
  - apply inert_app_inv in Hs as [Hm Hs]. destruct (IH Hs) as [n Hn]. exists (S n).
    unfold Inert in Hm. rewrite !skeleton_app, Hm, Hn. cbn [repeat_text].
    by rewrite app_empty_str, app_assoc_str.
Qed.

(** ** The snippet *)

Lemma first_pos_spec lower terms acc r :
  first_pos lower terms acc = r →
  (∀ p, acc = Some p → ∃ p', r = Some p' ∧ (p' <= p)%nat) ∧
  (∀ t p, t ∈ terms → index_of t lower = Some p → ∃ p', r = Some p' ∧ (p' <= p)%nat) ∧
  (∀ p, r = Some p → acc = Some p ∨ ∃ t, t ∈ terms ∧ index_of t lower = Some p).
Proof.
  revert acc. induction terms as [|t terms IH]; intros acc; cbn [first_pos].
  - intros <-. split_and!; [eauto|by intros ? ? ?%elem_of_nil|auto].
  - intros H%IH. destruct H as (H1 & H2 & H3). split_and!.
    + intros p ->. destruct (index_of t lower) as [q|]; [|by apply H1].
      destruct (Nat.ltb_spec q p); [|by apply H1].
      destruct (H1 q eq_refl) as (p' & ? & ?). exists p'. split; [done|lia].
    + intros u p [->|Hu]%elem_of_cons Hp; [|by eapply H2].
      rewrite Hp in H1. destruct acc as [q|]; [|by apply H1].
      destruct (Nat.ltb_spec p q) as [Hlt|Hlt]; [by apply H1|].
      destruct (H1 q eq_refl) as (p' & ? & ?). exists p'. split; [done|lia].
    + intros p Hp. destruct (H3 p Hp) as [Ha|(u & Hu & Hi)]; [|right; exists u; by split; [right|]].
      destruct (index_of t lower) as [q|] eqn:Eq; [|by left].
      destruct acc as [q'|]; [|injection Ha as ->; right; exists t; by split; [left|]].
      destruct (q <? q')%nat; [injection Ha as ->; right; exists t; by split; [left|]|by left].
Qed.

(** The snippet shows the first hit: when some term occurs in the content,
    the window starts at most 35 characters before the first occurrence of any
    term and is at most 130 long, and the whole occurrence is inside it (for a
    term of up to 95 characters). *)
Theorem snippet_shows_first_hit content terms p :
  first_pos (to_lower content) terms None = Some p →
  let w := slice (fst (window content p)) (snd (window content p)) content in
  (String.length w <= 130)%nat ∧
  (∀ t q, t ∈ terms → index_of t (to_lower content) = Some q → (p <= q)%nat) ∧
  ∃ t, t ∈ terms ∧ index_of t (to_lower content) = Some p ∧
       ((String.length t <= 95)%nat → includes (to_lower w) t = true).
Proof.
  intros H. pose proof (first_pos_spec _ _ _ _ H) as (_ & H2 & H3). cbn [window fst snd].
  split_and!.
  - rewrite slice_length. lia.
  - intros t q Ht Hq. destruct (H2 t q Ht Hq) as (p' & [= <-] & ?). done.
  - destruct (H3 p eq_refl) as [?|(t & Ht & Hi)]; [done|]. exists t. split_and!; [done..|].
    intros Hlen. apply index_of_spec in Hi as (x & y & E & Hx).
    apply smap_split in E as (a & b' & -> & Ha & Hb).
    apply smap_split in Hb as (m & b & -> & Hm & Hb).
    assert (String.length a = p) as Hla by (by rewrite <- Ha, smap_length in Hx).
    assert (String.length m = String.length t) as Hlm by (by rewrite <- Hm, smap_length).
    destruct (slice_around a m b (p - 35)
                (String.length (a +:+ m +:+ b) `min` (p + 95))) as (u & v & ->).
    { lia. }
    { rewrite !length_app_str. lia. }
    apply includes_spec. exists (to_lower u), (to_lower v).
    unfold to_lower. rewrite !smap_app. by rewrite Hm.
Qed.

Lemma snippet_shows_first_hit_witness :
  first_pos (to_lower "Leases are fenced by a Token") ["token"; "fenced"] None = Some 11%nat ∧
  ∃ t, t ∈ ["token"; "fenced"] ∧
       index_of t (to_lower "Leases are fenced by a Token") = Some 11%nat.
Proof.
  split; [vm_compute; reflexivity|].
  destruct (snippet_shows_first_hit "Leases are fenced by a Token" ["token"; "fenced"] 11
              ltac:(vm_compute; reflexivity)) as (_ & _ & t & Ht & Hi & _).
  exists t. split; [exact Ht|exact Hi].
Defined.

(** ** Ranking *)

(** A term occurs in an entry, up to case. *)
Definition occurs (e : entry) (term : string) : Prop :=
  ∃ f, f ∈ [en_t e; en_d e; en_s e; en_c e] ∧ includes (to_lower f) term = true.

Lemma term_score_occurs e t : is_Some (term_score e t) ↔ occurs e t.
Proof.
  unfold term_score, occurs. split.
  - destruct (_ || _) eqn:E; [|by intros [? ?]]. intros _.
    repeat (apply orb_true_iff in E as [E|E]); eexists; (split; [|exact E]); set_solver.
  - intros (f & Hf & H). rewrite !elem_of_cons in Hf.
    destruct Hf as [->|[->|[->|[->|?%elem_of_nil]]]]; [..|done]; rewrite H, ?orb_true_r; eauto.
Qed.

Lemma term_score_bounds e t n : term_score e t = Some n → 10 <= n <= 135.
Proof.
  unfold term_score.
  generalize (String.eqb (to_lower (en_t e)) t || starts_with (to_lower (en_t e)) (t +:+ " ")).
  generalize (includes (to_lower (en_t e)) t) (includes (to_lower (en_d e)) t)
    (includes (to_lower (en_s e)) t) (includes (to_lower (en_c e)) t).
  intros [] [] [] [] []; cbn; intros [= <-]; lia.
Qed.

Lemma terms_score_occurs e terms acc :
  is_Some (terms_score e terms acc) ↔ Forall (occurs e) terms.
Proof.
  revert acc. induction terms as [|t terms IH]; intros acc; cbn [terms_score].
  - split; [constructor|eauto].
  - rewrite Forall_cons, <- term_score_occurs. destruct (term_score e t) as [n|].
    + rewrite IH. split; [eauto|by intros [_ ?]].
    + split; [by intros [? ?]|by intros [[? ?] _]].
Qed.

Lemma terms_score_bounds e terms acc n :
  terms_score e terms acc = Some n →
  acc + 10 * Z.of_nat (length terms) <= n <= acc + 135 * Z.of_nat (length terms).
Proof.
  revert acc. induction terms as [|t terms IH]; intros acc; cbn [terms_score length].
  - intros [= <-]. lia.
  - destruct (term_score e t) as [k|] eqn:E; [|done]. intros H%IH.
    apply term_score_bounds in E. lia.
Qed.

Lemma entry_score_occurs query terms e :
  is_Some (entry_score query terms e) ↔ Forall (occurs e) terms.
Proof.
  rewrite <- (terms_score_occurs e terms 0). unfold entry_score.
  destruct (terms_score e terms 0); split; intros [? ?]; eauto; done.
Qed.

Lemma matches_elem query terms index h :
  h ∈ matches query terms index ↔
  h_entry h ∈ index ∧ entry_score query terms (h_entry h) = Some (h_score h).
Proof.
  induction index as [|e index IH]; cbn [matches].
  - split; [by intros ?%elem_of_nil|by intros [?%elem_of_nil _]].
  - destruct (entry_score query terms e) as [n|] eqn:E; rewrite ?elem_of_cons, IH.
    + split.
      * intros [->|[? ?]]; cbn; auto.
      * intros [[He|He] Hs]; [left|auto]. destruct h as [e0 n0]. cbn in *. congruence.
    + split; [intros [? ?]; auto|]. intros [[He|He] Hs]; [congruence|auto].
Qed.

Lemma ranked_sorted query terms index :
  StronglySorted (λ a b, h_score b <= h_score a) (ranked query terms index).
Proof. apply (js_sort_desc h_score). Qed.

Lemma sorted_prefix {A} (R : A → A → Prop) n l x y :
  StronglySorted R l → x ∈ take n l → y ∈ drop n l → R x y.
Proof.
  intros H. revert n. induction H as [|z l Hs IH Hf]; intros [|n]; cbn; [by intros ?%elem_of_nil..|].
  intros [->|Hx]%elem_of_cons Hy; [|by eapply IH]. rewrite Forall_forall in Hf.
  apply Hf. rewrite <- (take_drop n l). apply elem_of_app. by right.
Qed.

Lemma list_slice_0 {A} n (l : list A) : list_slice 0 n l = take n l.
Proof. unfold list_slice. by rewrite Nat.sub_0_r. Qed.

Lemma StronglySorted_map_in {A B} (R : A → A → Prop) (S : B → B → Prop) (f : A → B) l :
  (∀ a b, a ∈ l → b ∈ l → R a b → S (f a) (f b)) →
  StronglySorted R l → StronglySorted S (map f l).
Proof.
  intros HRS H. induction H as [|x l Hs IH Hf]; cbn; constructor.
  - apply IH. intros a b Ha Hb. apply HRS; by right.
  - apply Forall_map. rewrite Forall_forall in *. intros b Hb.
    apply HRS; [by left|by right|by apply Hf].
Qed.

(** The score by which an entry is ranked. *)
Definition rank (query : string) (terms : list string) (e : entry) : Z :=
  default 0 (entry_score query terms e).

(** C34: a search shows at most twelve entries; each is an entry of the index in
    which every term occurs; they are ordered by descending score; and an entry
    in which every term occurs is left out only when twelve entries that score at
    least as high are shown. *)
Theorem search_correct index query terms :
  let rs := search index query terms in
  (length rs <= 12)%nat ∧
  (∀ e, e ∈ rs → e ∈ index ∧ Forall (occurs e) terms) ∧
  StronglySorted (λ a b, rank query terms b <= rank query terms a) rs ∧
  (∀ e, e ∈ index → Forall (occurs e) terms →
        e ∈ rs ∨ length rs = 12%nat ∧ Forall (λ r, rank query terms e <= rank query terms r) rs).
Proof.
  cbv zeta. unfold search. rewrite list_slice_0. set (l := ranked query terms index).
  assert (Hl : ∀ h, h ∈ l ↔ h_entry h ∈ index ∧ entry_score query terms (h_entry h) = Some (h_score h)).
  { intros h. unfold l, ranked. by rewrite js_sort_elem, matches_elem. }
  assert (Hr : ∀ h, h ∈ l → rank query terms (h_entry h) = h_score h).
  { intros h [_ Hh]%Hl. unfold rank. by rewrite Hh. }
  assert (Htake : ∀ h, h ∈ take 12 l → h ∈ l).
  { intros h Hh. rewrite <- (take_drop 12 l). apply elem_of_app. by left. }
  split_and!.
  - rewrite length_map, length_take. lia.
  - intros e (h & -> & Hh%Htake%Hl)%list_elem_of_fmap. destruct Hh as [? Hs].
    split; [done|]. by eapply entry_score_occurs, mk_is_Some.
  - apply (StronglySorted_map_in (λ a b, h_score b <= h_score a)).
    + intros a b Ha Hb. by rewrite !Hr by auto.
    + rewrite <- (list_slice_0 12 l). apply list_slice_sorted, ranked_sorted.
  - intros e He [n Hn]%(entry_score_occurs query).
    assert (Hh : Hit e n ∈ l) by (by apply Hl).
    rewrite <- (take_drop 12 l) in Hh. apply elem_of_app in Hh as [Hh|Hh].
    + left. apply list_elem_of_fmap. by exists (Hit e n).
    + right. assert (length l > 12)%nat.
      { apply list_elem_of_lookup in Hh as [i Hi%lookup_lt_Some]. rewrite length_drop in Hi. lia. }
      split; [rewrite length_map, length_take; lia|].
      apply Forall_map, Forall_forall. intros h Hin. rewrite Hr by auto.
      unfold rank. rewrite Hn. cbn.
      apply (sorted_prefix _ 12 l h (Hit e n) (ranked_sorted _ _ _) Hin Hh).
Qed.

Definition sample_index : list entry :=
  [Entry "/a" "Recovery" "Architecture" "Design" "leases are fenced";
   Entry "/b" "Lease Fencing" "Architecture" "Design" "a fencing token";
   Entry "/c" "Quickstart" "Usage" "Guides" "run the server"].

(** ** Words of a query *)

Lemma words_aux_nonempty cur s : cur ≠ "" → words_aux cur s ≠ [].
Proof.
  revert cur. induction s as [|a s IH]; intros cur Hc; cbn.
  - by destruct (String.eqb_spec cur "").
  - destruct (is_space a); [by destruct (String.eqb_spec cur "")|].
    apply IH. by destruct cur.
Qed.

Lemma words_aux_words cur s : Forall (λ w, w ≠ "") (words_aux cur s).
Proof.
  revert cur. induction s as [|a s IH]; intros cur; cbn.
  - destruct (String.eqb_spec cur ""); by repeat constructor.
  - destruct (is_space a); [|apply IH]. apply Forall_app. split; [|apply IH].
    destruct (String.eqb_spec cur ""); by repeat constructor.
Qed.

Lemma trim_start_head s a r : trim_start s = String a r → is_space a = false.
Proof.
  induction s as [|b s IH]; [done|]. cbn [trim_start].
  destruct (is_space b) eqn:E; [done|]. by intros [= -> _].
Qed.

Lemma trim_end_head a s : is_space a = false → ∃ r, trim_end (String a s) = String a r.
Proof. intros Ha. cbn [trim_end]. destruct (trim_end s); [rewrite Ha|]; eauto. Qed.

Lemma lower_not_space a : is_space a = false → is_space (lower_ascii a) = false.
Proof. by destruct a as [[] [] [] [] [] [] [] []]. Qed.

(** A query that is not blank has at least one term, and no term is empty. *)
Lemma query_terms input :
  to_lower (trim input) ≠ "" →
  split_words (to_lower (trim input)) ≠ [] ∧
  Forall (λ t, t ≠ "") (split_words (to_lower (trim input))).
Proof.
  intros H. split; [|apply words_aux_words]. unfold trim in *.
  destruct (trim_start input) as [|a r] eqn:E; [done|].
  apply trim_start_head in E. destruct (trim_end_head a r E) as [r' ->].
  unfold split_words, to_lower. cbn [smap words_aux]. rewrite lower_not_space by done.
  by apply words_aux_nonempty.
Qed.
