(* ===== verification/WikiDialog.v ===== *)
(** The wiki's search dialog as the page runs it (internal/sitewiki/search.js):
    the variables of the script, the parts of the document it writes, the index
    that is loaded on demand, and the event loop that interleaves the user's
    events with the callbacks of the script's promises.

    Callbacks of settled promises are microtasks: they all run, in order, before
    the browser delivers the next event, timer or network answer.  The dialog is
    a transition system whose steps are those. *)

From Stdlib Require Import ZArith Lia Ascii String Relations.
From stdpp Require Import base list strings gmap relations.
From S2P Require Import Prelude Html WikiSearch.

(** What has the focus: the search box, another editable element, the rest. *)
Inductive element := SearchInput | Editable (n : nat) | Plain (n : nat).

(** The callback given to [fetchIndex().then]. *)
Inductive callback :=
| AfterOpen     (* of openSearch: search again when something was typed *)
| AfterLoad     (* of runSearch: run it again *)
| Ignored.      (* the button's hover and focus listeners *)

(** What [resultsContainer] shows; for a list of results, the terms and the item
    that carries the class [selected]. *)
Inductive view :=
| ShowInitial | ShowLoading | ShowNone (query : string) | ShowResults (terms : list string) (marked : Z).

Record dialog := Dialog {
  d_index : option (list entry);     (* searchIndex *)
  d_loading : bool;                  (* isLoading *)
  d_selected : Z;                    (* selectedIndex *)
  d_results : list entry;            (* currentResults *)
  d_last : option element;           (* lastActiveElement *)
  d_active : element;                (* document.activeElement *)
  d_open : bool;                     (* the class open of the backdrop *)
  d_aria_hidden : bool;
  d_scroll_locked : bool;            (* document.body.style.overflow *)
  d_input : string;                  (* input.value *)
  d_view : view;
  d_location : option string;        (* where the page was sent *)
  d_microtasks : list callback;
  d_request : option callback;       (* the load in flight and who waits for it *)
  d_timers : nat }.                  (* pending focus timers *)

Definition set_index (i : option (list entry)) (l : bool) (d : dialog) : dialog :=
  Dialog i l (d_selected d) (d_results d) (d_last d) (d_active d) (d_open d) (d_aria_hidden d)
    (d_scroll_locked d) (d_input d) (d_view d) (d_location d) (d_microtasks d) (d_request d)
    (d_timers d).
Definition set_result (sel : Z) (rs : list entry) (v : view) (d : dialog) : dialog :=
  Dialog (d_index d) (d_loading d) sel rs (d_last d) (d_active d) (d_open d) (d_aria_hidden d)
    (d_scroll_locked d) (d_input d) v (d_location d) (d_microtasks d) (d_request d) (d_timers d).
Definition set_view (v : view) (d : dialog) : dialog :=
  set_result (d_selected d) (d_results d) v d.
Definition set_shown (open hidden locked : bool) (d : dialog) : dialog :=
  Dialog (d_index d) (d_loading d) (d_selected d) (d_results d) (d_last d) (d_active d) open hidden
    locked (d_input d) (d_view d) (d_location d) (d_microtasks d) (d_request d) (d_timers d).
Definition set_focus (last : option element) (active : element) (d : dialog) : dialog :=
  Dialog (d_index d) (d_loading d) (d_selected d) (d_results d) last active (d_open d)
    (d_aria_hidden d) (d_scroll_locked d) (d_input d) (d_view d) (d_location d) (d_microtasks d)
    (d_request d) (d_timers d).
Definition set_input (s : string) (d : dialog) : dialog :=
  Dialog (d_index d) (d_loading d) (d_selected d) (d_results d) (d_last d) (d_active d) (d_open d)
    (d_aria_hidden d) (d_scroll_locked d) s (d_view d) (d_location d) (d_microtasks d)
    (d_request d) (d_timers d).
Definition set_location (l : option string) (d : dialog) : dialog :=
  Dialog (d_index d) (d_loading d) (d_selected d) (d_results d) (d_last d) (d_active d) (d_open d)
    (d_aria_hidden d) (d_scroll_locked d) (d_input d) (d_view d) l (d_microtasks d)
    (d_request d) (d_timers d).
Definition set_tasks (m : list callback) (r : option callback) (t : nat) (d : dialog) : dialog :=
  Dialog (d_index d) (d_loading d) (d_selected d) (d_results d) (d_last d) (d_active d) (d_open d)
    (d_aria_hidden d) (d_scroll_locked d) (d_input d) (d_view d) (d_location d) m r t.

(** The script as it starts. *)
Definition initial_dialog : dialog :=
  Dialog None false (-1) [] None (Plain 0) false true false "" ShowInitial None [] None 0.

(** ** The functions of the script *)

(** [fetchIndex().then(cb)]: while the index is there or being loaded the promise
    is settled already, so the callback is a microtask; otherwise the load starts
    and the callback waits for its answer. *)
Definition fetchIndex (cb : callback) (d : dialog) : dialog :=
  match d_index d, d_loading d with
  | None, false => set_tasks (d_microtasks d) (Some cb) (d_timers d) (set_index None true d)
  | _, _ => set_tasks (d_microtasks d ++ [cb]) (d_request d) (d_timers d) d
  end.

(** [renderResults(terms, query)], with the results it stores before. *)
Definition renderResults (terms : list string) (query : string) (rs : list entry) (d : dialog)
  : dialog :=
  match rs with
  | [] => set_result (-1) rs (ShowNone query) d
  | _ => set_result 0 rs (ShowResults terms 0) d
  end.

Definition runSearch (d : dialog) : dialog :=
  let query := to_lower (trim (d_input d)) in
  if String.eqb query "" then set_result (-1) [] ShowInitial d
  else match d_index d with
       | None => fetchIndex AfterLoad (set_view ShowLoading d)
       | Some index =>
           match split_words query with
           | [] => set_view ShowInitial d
           | terms => renderResults terms query (search index query terms) d
           end
       end.

Definition openSearch (d : dialog) : dialog :=
  let d := set_focus (Some (d_active d)) (d_active d) d in
  let d := set_shown true false true d in
  let d := fetchIndex AfterOpen d in
  let d := set_input "" d in
  let d := set_result (-1) [] ShowInitial d in
  set_tasks (d_microtasks d) (d_request d) (S (d_timers d)) d.

Definition closeSearch (d : dialog) : dialog :=
  if negb (d_open d) then d
  else
    let d := set_shown false true false d in
    match d_last d with
    | Some el => set_focus (d_last d) el d
    | None => d
    end.

(** [updateSelection()]: the mark follows [selectedIndex], when items are shown. *)
Definition updateSelection (d : dialog) : dialog :=
  match d_view d with
  | ShowResults terms _ => set_view (ShowResults terms (d_selected d)) d
  | _ => d
  end.

Definition moveSelection (delta : Z) (d : dialog) : dialog :=
  match d_results d with
  | [] => d
  | _ =>
      let n := Z.of_nat (length (d_results d)) in
      let i := d_selected d + delta in
      let i := if i <? 0 then n - 1 else if n <=? i then 0 else i in
      updateSelection (set_result i (d_results d) (d_view d) d)
  end.

Definition openSelected (d : dialog) : dialog :=
  if (0 <=? d_selected d) && (d_selected d <? Z.of_nat (length (d_results d))) then
    match d_results d !! Z.to_nat (d_selected d) with
    | Some item => set_location (Some (en_u item)) d
    | None => d
    end
  else d.

Definition isEditable (el : element) : bool :=
  match el with SearchInput | Editable _ => true | Plain _ => false end.

(** ** Events *)

Inductive key_name := ArrowDown | ArrowUp | Enter | Escape | KeyK | Slash | OtherKey.

Inductive event :=
| ClickButton            (* either search button *)
| HoverButton            (* its mouseenter and focus listeners *)
| ClickClose
| ClickBackdrop (on_backdrop : bool)
| Typed (value : string)
| KeyDown (k : key_name) (ctrl : bool)
| MouseMove (item : option nat)    (* data-index of the item under the mouse *)
| Focused (el : element).          (* the user moves the focus *)

(** The listener of the search box. *)
Definition input_keydown (k : key_name) (d : dialog) : dialog :=
  match k with
  | ArrowDown => moveSelection 1 d
  | ArrowUp => moveSelection (-1) d
  | Enter => openSelected d
  | Escape => closeSearch d
  | _ => d
  end.

(** The listener of the document. *)
Definition document_keydown (k : key_name) (ctrl : bool) (d : dialog) : dialog :=
  match k, ctrl with
  | KeyK, true => if d_open d then closeSearch d else openSearch d
  | Slash, _ => if negb (d_open d) && negb (isEditable (d_active d)) then openSearch d else d
  | Escape, _ => if d_open d then closeSearch d else d
  | _, _ => d
  end.

(** A key goes to the focused element and then up to the document. *)
Definition keydown (k : key_name) (ctrl : bool) (d : dialog) : dialog :=
  let d' := match d_active d with SearchInput => input_keydown k d | _ => d end in
  document_keydown k ctrl d'.

(** The items the document holds. *)
Definition items (d : dialog) : nat :=
  match d_view d with ShowResults _ _ => length (d_results d) | _ => 0 end.

Definition mousemove (item : option nat) (d : dialog) : dialog :=
  match item with
  | Some idx =>
      if Z.of_nat idx =? d_selected d then d
      else updateSelection (set_result (Z.of_nat idx) (d_results d) (d_view d) d)
  | None => d
  end.

Definition handle (ev : event) (d : dialog) : dialog :=
  match ev with
  | ClickButton => openSearch d
  | HoverButton => fetchIndex Ignored d
  | ClickClose => closeSearch d
  | ClickBackdrop on_backdrop => if on_backdrop then closeSearch d else d
  | Typed value => runSearch (set_input value d)
  | KeyDown k ctrl => keydown k ctrl d
  | MouseMove item => mousemove item d
  | Focused el => set_focus (d_last d) el d
  end.

(** The mouse is only ever over an item that is there. *)
Definition possible (ev : event) (d : dialog) : Prop :=
  match ev with MouseMove (Some idx) => (idx < items d)%nat | _ => True end.

Definition run_callback (cb : callback) (d : dialog) : dialog :=
  match cb with
  | AfterOpen => if String.eqb (trim (d_input d)) "" then d else runSearch d
  | AfterLoad => runSearch d
  | Ignored => d
  end.

(** ** The event loop *)
Inductive step : dialog → dialog → Prop :=
| step_microtask d cb rest :
    d_microtasks d = cb :: rest →
    step d (run_callback cb (set_tasks rest (d_request d) (d_timers d) d))
| step_event d ev :
    d_microtasks d = [] → possible ev d → step d (handle ev d)
| step_timer d n :
    d_microtasks d = [] → d_timers d = S n →
    step d (set_focus (d_last d) SearchInput (set_tasks [] (d_request d) n d))
| step_loaded d cb index :
    d_microtasks d = [] → d_request d = Some cb →
    step d (set_tasks [cb] None (d_timers d) (set_index (Some index) false d))
| step_failed d cb :
    d_microtasks d = [] → d_request d = Some cb →
    step d (set_tasks [cb] None (d_timers d) (set_index (d_index d) false d)).

Definition steps : dialog → dialog → Prop := rtc step.

(** ** The invariant of the dialog *)

Definition query_of (d : dialog) : string := to_lower (trim (d_input d)).

(** What is shown is the answer to what is typed, and the selection is in it. *)
Definition view_ok (d : dialog) : Prop :=
  match d_view d with
  | ShowResults terms marked =>
      terms = split_words (query_of d) ∧ query_of d ≠ "" ∧
      (∃ index, d_index d = Some index ∧ d_results d = search index (query_of d) terms) ∧
      marked = d_selected d ∧ 0 <= d_selected d < Z.of_nat (length (d_results d))
  | ShowNone query =>
      query = query_of d ∧ query_of d ≠ "" ∧ d_results d = [] ∧ d_selected d = -1 ∧
      ∃ index, d_index d = Some index ∧ search index query (split_words query) = []
  | ShowInitial => d_results d = [] ∧ d_selected d = -1
  | ShowLoading => d_results d = [] ∧ d_selected d = -1 ∧ query_of d ≠ ""
  end.

Record dialog_ok (d : dialog) : Prop := {
  ok_view : view_ok d;
  ok_index : d_index d = None → d_results d = [] ∧ d_selected d = -1;
  ok_loading : d_loading d = true ↔ d_request d ≠ None;
  ok_shown : d_aria_hidden d = negb (d_open d) ∧ d_scroll_locked d = d_open d;
  ok_last : d_open d = true → d_last d ≠ None;
  ok_once : d_index d ≠ None → d_loading d = false }.

Lemma fetchIndex_ok cb d : dialog_ok d → dialog_ok (fetchIndex cb d).
Proof.
  intros Hok. unfold fetchIndex.
  destruct (d_index d) as [i|] eqn:Ei; [by destruct Hok; split|].
  destruct (d_loading d) eqn:El; [by destruct Hok; split|].
  destruct Hok as [H1 H2 H3 H4 H5 H6]. split; try done.
  - unfold view_ok, query_of in *. cbn. destruct (d_view d); rewrite ?Ei in *; auto.
  - intros _. by apply H2.
Qed.

Lemma fetchIndex_frame cb d :
  d_index (fetchIndex cb d) = d_index d ∧ d_results (fetchIndex cb d) = d_results d ∧
  d_selected (fetchIndex cb d) = d_selected d ∧ d_input (fetchIndex cb d) = d_input d ∧
  d_view (fetchIndex cb d) = d_view d.
Proof. unfold fetchIndex. destruct (d_index d) eqn:E, (d_loading d); cbn; auto. Qed.

(** Replacing what is shown. *)
Lemma set_result_ok sel rs v d :
  dialog_ok d → view_ok (set_result sel rs v d) →
  (d_index d = None → rs = [] ∧ sel = -1) → dialog_ok (set_result sel rs v d).
Proof. intros [H1 H2 H3 H4 H5 H6] Hv Hi. by split. Qed.

Lemma runSearch_ok d v : dialog_ok d → dialog_ok (runSearch (set_input v d)).
Proof.
  intros Hok. unfold runSearch. cbn [d_input set_input d_index].
  assert (Hok' : ∀ sel rs w, view_ok (set_result sel rs w (set_input v d)) →
    (d_index d = None → rs = [] ∧ sel = -1) → dialog_ok (set_result sel rs w (set_input v d))).
  { intros sel rs w Hv Hi. destruct Hok as [H1 H2 H3 H4 H5 H6]. by split. }
  destruct (String.eqb_spec (to_lower (trim v)) "") as [E|E]; [by apply Hok'|].
  destruct (d_index d) as [index|] eqn:Ei.
  - destruct (query_terms v E) as [Hne _].
    destruct (split_words (to_lower (trim v))) as [|t ts] eqn:Et; [done|]. rewrite <- Et.
    unfold renderResults. destruct (search _ _ _) as [|r rs] eqn:Es; apply Hok'; try done;
      unfold view_ok, query_of; cbn [d_index d_results d_selected d_input d_view set_result set_input].
    + split_and!; [done..|]. by exists index.
    + split_and!; [done..| |done|lia|cbn; lia]. exists index. by rewrite Es.
  - destruct (ok_index _ Hok Ei) as [Er Es]. apply fetchIndex_ok, Hok'; [|by split].
    unfold view_ok, query_of. cbn [d_index d_results d_selected d_input d_view set_result set_input].
    by split_and!.
Qed.

Lemma runSearch_same_ok d : dialog_ok d → dialog_ok (runSearch d).
Proof. intros H. replace d with (set_input (d_input d) d) by (by destruct d). by apply runSearch_ok. Qed.

Lemma openSearch_ok d : dialog_ok d → dialog_ok (openSearch d).
Proof.
  intros [H1 H2 H3 H4 H5 H6]. unfold openSearch.
  set (d1 := set_shown _ _ _ _).
  assert (Hok : dialog_ok d1) by (by split).
  destruct (fetchIndex_ok AfterOpen d1 Hok) as [K1 K2 K3 K4 K5 K6]. by split.
Qed.

Lemma closeSearch_ok d : dialog_ok d → dialog_ok (closeSearch d).
Proof.
  intros Hok. unfold closeSearch. destruct (negb (d_open d)); [done|].
  destruct Hok as [H1 H2 H3 H4 H5 H6]. cbn. destruct (d_last d); by split.
Qed.

Lemma select_ok i d :
  dialog_ok d → 0 <= i < Z.of_nat (length (d_results d)) →
  dialog_ok (updateSelection (set_result i (d_results d) (d_view d) d)).
Proof.
  intros Hok Hi. destruct Hok as [H1 H2 H3 H4 H5 H6].
  assert (Hr : d_index d = None → d_results d = [] ∧ i = -1).
  { intros E. destruct (H2 E) as [Er _]. rewrite Er in Hi. cbn in Hi. lia. }
  unfold updateSelection. cbn [d_view set_result].
  destruct (d_view d) as [| |query|terms marked] eqn:Ev;
    unfold view_ok, query_of in H1; rewrite Ev in H1.
  - destruct H1 as [Er _]. rewrite Er in Hi. cbn in Hi. lia.
  - destruct H1 as [Er _]. rewrite Er in Hi. cbn in Hi. lia.
  - destruct H1 as (_ & _ & Er & _). rewrite Er in Hi. cbn in Hi. lia.
  - split; try done. unfold view_ok, query_of. cbn. tauto.
Qed.

Lemma moveSelection_ok delta d :
  -1 <= delta <= 1 → dialog_ok d → dialog_ok (moveSelection delta d).
Proof.
  intros Hd Hok. unfold moveSelection. destruct (d_results d) as [|r rs] eqn:Er; [done|].
  rewrite <- Er. apply select_ok; [done|].
  assert (0 < Z.of_nat (length (d_results d))) by (rewrite Er; cbn; lia).
  destruct (Z.ltb_spec (d_selected d + delta) 0); [lia|].
  destruct (Z.leb_spec (Z.of_nat (length (d_results d))) (d_selected d + delta)); lia.
Qed.

Lemma openSelected_ok d : dialog_ok d → dialog_ok (openSelected d).
Proof.
  intros Hok. unfold openSelected. destruct (_ && _); [|done].
  destruct (_ !! _); [|done]. by destruct Hok; split.
Qed.

Lemma focus_ok last el d :
  (d_open d = true → last ≠ None) → dialog_ok d → dialog_ok (set_focus last el d).
Proof. intros Hl [H1 H2 H3 H4 H5 H6]. by split. Qed.

Lemma keydown_ok k ctrl d : dialog_ok d → dialog_ok (keydown k ctrl d).
Proof.
  intros Hok. unfold keydown.
  set (d' := match d_active d with SearchInput => input_keydown k d | _ => d end).
  assert (Hok' : dialog_ok d').
  { unfold d'. destruct (d_active d); [|done..].
    destruct k; cbn; try done;
      [by apply moveSelection_ok|by apply moveSelection_ok|by apply openSelected_ok
      |by apply closeSearch_ok]. }
  clearbody d'. unfold document_keydown.
  destruct k, ctrl; try done; case_tests; auto using closeSearch_ok, openSearch_ok.
Qed.

Lemma handle_ok ev d : possible ev d → dialog_ok d → dialog_ok (handle ev d).
Proof.
  intros Hp Hok. destruct ev as [| | |[]|v|k ctrl|[idx|]|el]; cbn; try done;
    auto using openSearch_ok, fetchIndex_ok, closeSearch_ok, runSearch_ok, keydown_ok.
  - destruct (Z.of_nat idx =? d_selected d); [done|]. apply select_ok; [done|].
    cbn in Hp. unfold items in Hp. destruct (d_view d); lia.
  - apply focus_ok; [|done]. apply (ok_last _ Hok).
Qed.

Lemma tasks_ok m t d : dialog_ok d → dialog_ok (set_tasks m (d_request d) t d).
Proof. intros [H1 H2 H3 H4 H5 H6]. by split. Qed.

(** A load that ends, with or without an index. *)
Lemma loaded_ok i cb d :
  dialog_ok d → d_request d = Some cb → i = d_index d ∨ i ≠ None →
  dialog_ok (set_tasks [cb] None (d_timers d) (set_index i false d)).
Proof.
  intros [H1 H2 H3 H4 H5 H6] Hr Hi.
  assert (El : d_loading d = true) by (apply H3; congruence).
  assert (Ei : d_index d = None).
  { destruct (d_index d); [|done]. rewrite H6 in El; done. }
  destruct (H2 Ei) as [Er Es]. split; try done.
  unfold view_ok, query_of in *. cbn. rewrite Ei in H1.
  destruct (d_view d); try done.
  - by destruct H1 as (_ & _ & _ & _ & ? & ? & _).
  - by destruct H1 as (_ & _ & (? & ? & _) & _).
Qed.

Lemma step_ok d d' : step d d' → dialog_ok d → dialog_ok d'.
Proof.
  destruct 1 as [d cb rest Hm|d ev Hm Hp|d n Hm Ht|d cb index Hm Hr|d cb Hm Hr]; intros Hok.
  - destruct cb; cbn; [|by apply runSearch_same_ok, tasks_ok|by apply tasks_ok].
    destruct (String.eqb _ _); [by apply tasks_ok|by apply runSearch_same_ok, tasks_ok].
  - by apply handle_ok.
  - apply focus_ok; [by apply (ok_last _ Hok)|by apply tasks_ok].
  - apply loaded_ok; auto.
  - apply loaded_ok; auto.
Qed.

Lemma initial_ok : dialog_ok initial_dialog.
Proof. by split. Qed.

Lemma steps_ok d : steps initial_dialog d → dialog_ok d.
Proof.
  intros H. pose proof initial_ok as Hok. induction H as [|x y z Hs _ IH]; [done|].
  apply IH. by eapply step_ok.
Qed.

(** C30: in every state of the dialog, whatever the order of typing, keys, mouse,
    loads and callbacks: the results shown are the answer of the loaded index to
    the text in the box, the item marked as selected is the selected one and is
    one of them; a blank box shows no results; and the dialog is open exactly
    when it is announced and the page behind it does not scroll. *)
Theorem dialog_shows_the_answer d :
  steps initial_dialog d →
  view_ok d ∧ d_aria_hidden d = negb (d_open d) ∧ d_scroll_locked d = d_open d ∧
  (query_of d = "" → d_results d = []) ∧ (length (d_results d) <= 12)%nat.
Proof.
  intros Hok%steps_ok. destruct (ok_shown _ Hok) as [H1 H2].
  pose proof (ok_view _ Hok) as Hv. split_and!; [done..| |];
    unfold view_ok in Hv; destruct (d_view d).
  - by intros _; destruct Hv.
  - by intros _; destruct Hv.
  - by intros _; destruct Hv as (_ & _ & ? & _).
  - by destruct Hv as (_ & ? & _).
  - by destruct Hv as [-> _]; cbn; lia.
  - by destruct Hv as [-> _]; cbn; lia.
  - by destruct Hv as (_ & _ & -> & _); cbn; lia.
  - destruct Hv as (_ & _ & (index & _ & ->) & _). apply search_correct.
Qed.

(** The index is there and nothing is pending. *)
Definition demo_loaded : dialog :=
  set_tasks [] None 0 (set_index (Some sample_index) false initial_dialog).

Lemma demo_loaded_steps : steps initial_dialog demo_loaded.
Proof.
  eapply rtc_l; [by apply (step_event initial_dialog HoverButton)|].
  eapply rtc_l; [by eapply (step_loaded _ Ignored sample_index)|].
  eapply rtc_l; [by eapply step_microtask|]. apply rtc_refl.
Qed.

Lemma dialog_shows_the_answer_witness :
  let d := handle (Typed "lease") demo_loaded in
  map en_u (d_results d) = ["/b"; "/a"] ∧ view_ok d.
Proof.
  split; [vm_compute; reflexivity|].
  apply (dialog_shows_the_answer (handle (Typed "lease") demo_loaded)).
  eapply rtc_r; [exact demo_loaded_steps|]. apply step_event; [reflexivity|exact I].
Defined.

(** When a list of results is shown, the Enter key opens the item that is
    marked, and an arrow key moves the mark to the next or previous item, around
    the ends of the list. *)
Theorem keys_follow_the_mark d terms marked :
  steps initial_dialog d → d_view d = ShowResults terms marked →
  (∃ item, d_results d !! Z.to_nat marked = Some item ∧
           d_location (openSelected d) = Some (en_u item)) ∧
  ∀ delta, -1 <= delta <= 1 →
    d_view (moveSelection delta d) =
      ShowResults terms ((marked + delta) mod Z.of_nat (length (d_results d))).
Proof.
  intros Hok%steps_ok Ev. pose proof (ok_view _ Hok) as Hv. unfold view_ok in Hv. rewrite Ev in Hv.
  destruct Hv as (_ & _ & _ & -> & Hs). split.
  - assert (Hlt : (Z.to_nat (d_selected d) < length (d_results d))%nat) by lia.
    apply lookup_lt_is_Some in Hlt as [item Hi]. exists item. split; [done|].
    unfold openSelected. rewrite Hi.
    by rewrite (proj2 (Z.leb_le _ _)), (proj2 (Z.ltb_lt _ _)) by lia.
  - intros delta Hd. unfold moveSelection. destruct (d_results d) as [|r rs] eqn:Er; [cbn in Hs; lia|].
    rewrite <- Er in *. clear Er. unfold updateSelection. cbn [d_view set_result]. rewrite Ev.
    cbn [d_view set_view set_result d_selected]. f_equal.
    set (n := Z.of_nat (length (d_results d))) in *. set (i := d_selected d) in *.
    destruct (Z.ltb_spec (i + delta) 0); [|destruct (Z.leb_spec n (i + delta))].
    + replace (i + delta) with (n - 1 + (-1) * n) by lia.
      rewrite Z.mod_add by lia. rewrite Z.mod_small; lia.
    + replace (i + delta) with (0 + 1 * n) by lia.
      rewrite Z.mod_add by lia. rewrite Z.mod_small; lia.
    + rewrite Z.mod_small; lia.
Qed.

Lemma keys_follow_the_mark_witness :
  let d := handle (Typed "lease") demo_loaded in
  d_view (moveSelection (-1) d) = ShowResults ["lease"] 1.
Proof.
  assert (H : steps initial_dialog (handle (Typed "lease") demo_loaded)).
  { eapply rtc_r; [exact demo_loaded_steps|]. apply step_event; [reflexivity|exact I]. }
  exact (proj2 (keys_follow_the_mark (handle (Typed "lease") demo_loaded) ["lease"] 0 H
                  ltac:(vm_compute; reflexivity)) (-1) ltac:(lia)).
Defined.

(** With the index loaded, a keystroke is answered at once: the results are
    the search for the text in the box, the first one is selected, and no
    callback is left to run. *)
Theorem typing_is_answered d index value :
  d_index d = Some index → d_microtasks d = [] → to_lower (trim value) ≠ "" →
  let d' := handle (Typed value) d in
  let query := to_lower (trim value) in
  step d d' ∧ d_results d' = search index query (split_words query) ∧
  d_selected d' = (if decide (d_results d' = []) then -1 else 0) ∧ d_microtasks d' = [].
Proof.
  intros Hi Hm Hq. split; [by apply step_event|]. cbn [handle].
  unfold runSearch. cbn [d_input set_input d_index]. rewrite Hi.
  destruct (String.eqb_spec (to_lower (trim value)) ""); [done|].
  destruct (query_terms value Hq) as [Hne _].
  destruct (split_words _) as [|t ts] eqn:Et; [done|]. unfold renderResults.
  destruct (search _ _ _) as [|r rs] eqn:Es; cbn; by rewrite Hm.
Qed.

Lemma typing_is_answered_witness :
  d_selected (handle (Typed "lease") demo_loaded) = 0.
Proof.
  destruct (typing_is_answered demo_loaded sample_index "lease" ltac:(reflexivity)
              ltac:(reflexivity) ltac:(vm_compute; discriminate)) as (_ & _ & H & _).
  rewrite H. vm_compute. reflexivity.
Defined.

(** ** Typing while the index loads *)

(** A callback of the search runs forever. *)
Definition hung (d : dialog) : Prop :=
  d_index d = None ∧ d_loading d = true ∧ query_of d ≠ "" ∧ AfterLoad ∈ d_microtasks d.

Lemma runSearch_hung d :
  d_index d = None → d_loading d = true → query_of d ≠ "" → hung (runSearch d).
Proof.
  intros Hi Hl Hq. unfold runSearch, query_of in *.
  destruct (String.eqb_spec (to_lower (trim (d_input d))) ""); [done|]. rewrite Hi.
  unfold fetchIndex. cbn. rewrite Hi, Hl. unfold hung, query_of. cbn -[trim to_lower].
  split_and!; [done..|]. set_solver.
Qed.

Lemma blank_query s : trim s = "" → to_lower (trim s) = "".
Proof. by intros ->. Qed.

Lemma hung_step d d' : hung d → step d d' → hung d'.
Proof.
  intros (Hi & Hl & Hq & Hin) H.
  destruct H as [d cb rest Hm|d ev Hm _|d n Hm _|d cb index Hm _|d cb Hm _];
    rewrite Hm in Hin; try by apply elem_of_nil in Hin.
  destruct cb; cbn [run_callback].
  - destruct (String.eqb_spec (trim (d_input (set_tasks rest (d_request d) (d_timers d) d))) "")
      as [E|_]; [by apply blank_query in E|by apply runSearch_hung].
  - by apply runSearch_hung.
  - split_and!; [done..|]. apply elem_of_cons in Hin as [Hin|Hin]; [done|by cbn].
Qed.

(** Once the user types a letter while the index is being loaded, the tab
    never recovers: the search callback re-schedules itself forever, so a
    microtask is always waiting, the answer of the server is never delivered and
    no later event is handled. *)
Theorem typing_while_loading_hangs d value d' :
  d_index d = None → d_loading d = true → to_lower (trim value) ≠ "" →
  steps (handle (Typed value) d) d' →
  d_microtasks d' ≠ [] ∧ d_index d' = None ∧ ∃ d'', step d' d''.
Proof.
  intros Hi Hl Hq Hs.
  assert (Hh : hung d').
  { assert (H0 : hung (handle (Typed value) d)) by (by apply runSearch_hung).
    induction Hs as [|x y z Hxy _ IH]; [done|]. apply IH. by eapply hung_step. }
  destruct Hh as (H1 & _ & _ & H4). split_and!; [|done|].
  - intros E. rewrite E in H4. by apply elem_of_nil in H4.
  - destruct (d_microtasks d') as [|cb rest] eqn:E; [by apply elem_of_nil in H4|].
    eexists. by eapply step_microtask.
Qed.

Lemma typing_while_loading_hangs_witness :
  steps initial_dialog (openSearch initial_dialog) ∧
  d_index (handle (Typed "l") (openSearch initial_dialog)) = None.
Proof.
  split.
  - eapply rtc_l; [exact (step_event initial_dialog ClickButton eq_refl I)|]. apply rtc_refl.
  - exact (proj1 (proj2 (typing_while_loading_hangs (openSearch initial_dialog) "l" _
             ltac:(reflexivity) ltac:(reflexivity) ltac:(vm_compute; discriminate) (rtc_refl _ _)))).
Defined.

(** A load that fails while the box holds text is followed by another load, for
    as long as the text stays. *)
Lemma failed_load_is_retried d :
  d_index d = None → d_request d = Some AfterLoad → d_microtasks d = [] → query_of d ≠ "" →
  ∃ d1 d2, step d d1 ∧ step d1 d2 ∧
    d_index d2 = None ∧ d_request d2 = Some AfterLoad ∧ d_microtasks d2 = [] ∧ query_of d2 ≠ "".
Proof.
  intros Hi Hr Hm Hq. do 2 eexists. split; [by eapply step_failed|].
  split; [by eapply step_microtask|]. cbn [run_callback]. unfold runSearch, query_of in *.
  cbn -[trim to_lower]. destruct (String.eqb_spec (to_lower (trim (d_input d))) ""); [done|].
  rewrite Hi. unfold fetchIndex. cbn -[trim to_lower]. by rewrite ?Hi.
Qed.

(** A term that is the name of an entity is marked inside the entities that
    escaping made. *)
Lemma mark_inside_entity :
  highlight "a & b" ["amp"] = "a &" +:+ mark_open +:+ "amp" +:+ mark_close +:+ "; b".
Proof. vm_compute. reflexivity. Qed.
