(* ===== verification/PlaygroundText.v ===== *)
(** The texts the playground's page (site/playground/playground.js) holds: its
    demo scripts, its SQL statements and the labels of its buttons, as they are
    written there.  Placeholders of the statements are bound by the parameters
    given with them. *)

From Stdlib Require Import ZArith Ascii String.
From stdpp Require Import base list strings gmap.
From S2P Require Import Prelude Html.

(** [DEMO_SCRIPTS.checkout]. *)
Definition demo_checkout : string := tpl [T "// DBOS Transact E-Commerce Checkout Workflow
// All steps and child workflows are persisted to in-browser PGlite (Postgres 16 WASM)

import { DBOS } from `@dbos-inc/dbos-sdk`;

export class OrderService {
  @DBOS.workflow()
  static async processOrder(orderId: string, amount: number) {
    // Step 1: Validate customer cart items & prices
    const cart = await DBOS.runStep(`validateCart`, () => ({
      orderId,
      valid: true,
      items: [`dbos-pro-license`, `relay-support-tier`]
    }));

    // Step 2: Reserve warehouse inventory
    await DBOS.runStep(`reserveInventory`, () => {
      return { reserved: true, sku: `DBOS-RELAY-KEY`, qty: 2 };
    });

    // Step 3: Authorize payment gateway (Child Workflow)
    const payment = await DBOS.startWorkflow(PaymentService.authorizePayment, orderId, amount);
    await payment.getResult();

    // Step 4: Schedule carrier shipping & tracking
    await DBOS.runStep(`scheduleShipping`, () => ({
      carrier: `FastTrack`,
      trackingNumber: `FT-` + Math.floor(Math.random() * 1000000)
    }));

    // Step 5: Send transactional email receipt
    await DBOS.runStep(`sendReceiptNotification`, () => ({
      delivered: true,
      email: `operator@example.com`
    }));

    return { status: `ORDER_FULFILLED`, orderId };
  }
}"].

(** [DEMO_SCRIPTS.payment]. *)
Definition demo_payment : string := tpl [T "// DBOS Transact Payment Processing with Idempotency & Retries
import { DBOS } from `@dbos-inc/dbos-sdk`;

export class PaymentService {
  @DBOS.workflow()
  static async processPayment(paymentId: string, amount: number) {
    // Step 1: Verify token idempotency key in database
    await DBOS.runStep(`checkIdempotencyKey`, () => ({
      key: paymentId,
      status: `NEW`
    }));

    // Step 2: Risk and fraud velocity scoring
    const risk = await DBOS.runStep(`riskScoring`, () => ({
      score: 12,
      riskLevel: `LOW`
    }));

    // Step 3: Card network authorization with automatic exponential backoff
    await DBOS.runStep(`authorizeCard`, () => ({
      authCode: `AUTH-` + Math.floor(Math.random() * 900000 + 100000),
      amountCharged: amount
    }));

    return { paymentId, status: `SETTLED` };
  }
}"].

(** The schema [createSchema] executes. *)
Definition ddl : string := tpl [T "
      CREATE SCHEMA IF NOT EXISTS dbos;

      CREATE TABLE IF NOT EXISTS applications (
        name TEXT PRIMARY KEY,
        organization TEXT NOT NULL,
        status TEXT NOT NULL,
        runtime TEXT NOT NULL,
        created_at TIMESTAMPTZ DEFAULT CURRENT_TIMESTAMP
      );

      CREATE TABLE IF NOT EXISTS executors (
        id TEXT PRIMARY KEY,
        name TEXT NOT NULL,
        status TEXT NOT NULL,
        hostname TEXT NOT NULL,
        ip_address TEXT NOT NULL,
        version TEXT NOT NULL,
        last_heartbeat TIMESTAMPTZ DEFAULT CURRENT_TIMESTAMP
      );

      CREATE TABLE IF NOT EXISTS dbos.workflow_status (
        workflow_id TEXT PRIMARY KEY,
        status TEXT NOT NULL,
        name TEXT NOT NULL,
        class_name TEXT,
        config_name TEXT,
        authenticated_user TEXT DEFAULT 'playground-user',
        assumed_role TEXT,
        authenticated_roles JSONB DEFAULT '[]',
        request TEXT,
        output TEXT,
        error TEXT,
        executor_id TEXT,
        app_id TEXT DEFAULT 'ecommerce-checkout',
        app_version TEXT DEFAULT '1.0.0',
        application_version TEXT DEFAULT '1.0.0',
        application_id TEXT DEFAULT 'ecommerce-checkout',
        created_at TIMESTAMPTZ DEFAULT CURRENT_TIMESTAMP,
        updated_at TIMESTAMPTZ DEFAULT CURRENT_TIMESTAMP,
        duration_ms INTEGER DEFAULT 0
      );

      CREATE TABLE IF NOT EXISTS dbos.operation_execution (
        workflow_id TEXT NOT NULL,
        function_id INTEGER NOT NULL,
        name TEXT NOT NULL,
        type TEXT DEFAULT 'step',
        status TEXT NOT NULL,
        input TEXT,
        output TEXT,
        error TEXT,
        child_workflow_id TEXT,
        duration_ms INTEGER DEFAULT 0,
        created_at TIMESTAMPTZ DEFAULT CURRENT_TIMESTAMP,
        PRIMARY KEY (workflow_id, function_id)
      );

      CREATE TABLE IF NOT EXISTS dbos.workflow_events (
        workflow_id TEXT NOT NULL,
        key TEXT NOT NULL,
        value TEXT,
        PRIMARY KEY (workflow_id, key)
      );
    "].

(** The statements [seedInitialData] executes. *)
Definition seed_sql (wfId : string) (childAuthId : string) (childShipId : string) : string := tpl [T "
      DELETE FROM dbos.workflow_status;
      DELETE FROM dbos.operation_execution;
      DELETE FROM applications;
      DELETE FROM executors;

      INSERT INTO applications (name, organization, status, runtime)
      VALUES ('ecommerce-checkout', 'default', 'AVAILABLE', 'typescript');

      INSERT INTO executors (id, name, status, hostname, ip_address, version)
      VALUES ('wasm-executor-1', 'ecommerce-checkout', 'healthy', 'browser-wasm', '127.0.0.1', '1.0.0');

      -- Root Workflow
      INSERT INTO dbos.workflow_status (workflow_id, status, name, duration_ms, authenticated_user, output)
      VALUES ('";
    H (wfId);
    T "', 'SUCCESS', 'ProcessCheckoutWorkflow', 1242, 'alice@example.com', '{`orderId`:`";
    H (wfId);
    T "`,`status`:`FULFILLED`}');

      -- Root Steps
      INSERT INTO dbos.operation_execution (workflow_id, function_id, name, status, output, duration_ms)
      VALUES
        ('";
    H (wfId);
    T "', 1, 'validateCart', 'SUCCESS', '{`valid`:true,`items`:2}', 310),
        ('";
    H (wfId);
    T "', 2, 'reserveInventory', 'SUCCESS', '{`reserved`:true,`sku`:`DBOS-RELAY-KEY`}', 245),
        ('";
    H (wfId);
    T "', 3, 'authorizePaymentGateway', 'SUCCESS', '{`authId`:`";
    H (childAuthId);
    T "`}', 412),
        ('";
    H (wfId);
    T "', 4, 'scheduleShipping', 'SUCCESS', '{`carrier`:`FastTrack`,`tracking`:`FT-99124`}', 180),
        ('";
    H (wfId);
    T "', 5, 'sendReceiptNotification', 'SUCCESS', '{`delivered`:true}', 95);

      -- Child 1: Payment
      INSERT INTO dbos.workflow_status (workflow_id, status, name, duration_ms, authenticated_user, output)
      VALUES ('";
    H (childAuthId);
    T "', 'SUCCESS', 'AuthorizePaymentGateway', 412, 'alice@example.com', '{`authorized`:true}');

      INSERT INTO dbos.operation_execution (workflow_id, function_id, name, status, output, duration_ms)
      VALUES
        ('";
    H (childAuthId);
    T "', 1, 'checkFraudVelocity', 'SUCCESS', '{`score`:10,`cleared`:true}', 120),
        ('";
    H (childAuthId);
    T "', 2, 'chargeCard', 'SUCCESS', '{`card`:`*4242`,`captured`:true}', 292);

      -- Link Child 1 to Root Step 3
      UPDATE dbos.operation_execution SET child_workflow_id = '";
    H (childAuthId);
    T "' WHERE workflow_id = '";
    H (wfId);
    T "' AND function_id = 3;

      -- Child 2: Shipping
      INSERT INTO dbos.workflow_status (workflow_id, status, name, duration_ms, authenticated_user, output)
      VALUES ('";
    H (childShipId);
    T "', 'SUCCESS', 'ReserveWarehouseInventory', 180, 'alice@example.com', '{`allocated`:true}');

      INSERT INTO dbos.operation_execution (workflow_id, function_id, name, status, output, duration_ms)
      VALUES
        ('";
    H (childShipId);
    T "', 1, 'locateOptimalBin', 'SUCCESS', '{`bin`:`A-12-04`}', 85),
        ('";
    H (childShipId);
    T "', 2, 'lockInventorySlot', 'SUCCESS', '{`locked`:true}', 95);

      -- Link Child 2 to Root Step 4
      UPDATE dbos.operation_execution SET child_workflow_id = '";
    H (childShipId);
    T "' WHERE workflow_id = '";
    H (wfId);
    T "' AND function_id = 4;
    "].

(** The row of the run itself. *)
Definition insert_root_sql : string := tpl [T "
        INSERT INTO dbos.workflow_status (
          workflow_id, status, name, class_name, config_name,
          authenticated_user, assumed_role, authenticated_roles,
          request, output, error, executor_id, app_id, app_version,
          created_at, updated_at
        ) VALUES (
          $1, 'PENDING', 'ProcessCheckoutWorkflow', 'OrderService', 'default',
          'customer-portal', 'customer', '[`customer`]',
          $2, NULL, NULL, 'exec-inbrowser-1', 'app-ecommerce', '1.0.0',
          $3, $3
        )
      "].

(** Step 1. *)
Definition insert_validate_sql : string := tpl [T "
        INSERT INTO dbos.operation_execution (
          workflow_id, function_id, name, type, status,
          input, output, error, duration_ms, created_at
        ) VALUES (
          $1, 0, 'validateCart', 'step', 'SUCCESS',
          $2, $3, NULL, 450, $4
        )
      "].

(** Step 2 when the failure is injected. *)
Definition insert_reserve_failed_sql : string := tpl [T "
          INSERT INTO dbos.operation_execution (
            workflow_id, function_id, name, type, status,
            input, output, error, duration_ms, created_at
          ) VALUES (
            $1, 1, 'reserveInventory', 'step', 'ERROR',
            $2, NULL, $3, 320, $4
          )
        "].

(** ... and the end of that run. *)
Definition fail_root_sql : string := tpl [T "
          UPDATE dbos.workflow_status
          SET status = 'ERROR',
              error = $1,
              duration_ms = 1220,
              updated_at = $2
          WHERE workflow_id = $3
        "].

(** Step 2. *)
Definition insert_reserve_sql : string := tpl [T "
        INSERT INTO dbos.operation_execution (
          workflow_id, function_id, name, type, status,
          input, output, error, duration_ms, created_at
        ) VALUES (
          $1, 1, 'reserveInventory', 'step', 'SUCCESS',
          $2, $3, NULL, 400, $4
        )
      "].

(** The child workflow of step 3. *)
Definition insert_child_sql : string := tpl [T "
        INSERT INTO dbos.workflow_status (
          workflow_id, status, name, class_name, config_name,
          authenticated_user, assumed_role, authenticated_roles,
          request, output, error, executor_id, app_id, app_version,
          created_at, updated_at
        ) VALUES (
          $1, 'SUCCESS', 'AuthorizePaymentGateway', 'PaymentService', 'default',
          'customer-portal', 'customer', '[`customer`]',
          $2, $3, NULL, 'exec-inbrowser-1', 'app-ecommerce', '1.0.0',
          $4, $4
        )
      "].

(** Step 3. *)
Definition insert_authorize_sql : string := tpl [T "
        INSERT INTO dbos.operation_execution (
          workflow_id, function_id, name, type, status,
          input, output, error, duration_ms, created_at, child_workflow_id
        ) VALUES (
          $1, 2, 'authorizePayment', 'child_workflow', 'SUCCESS',
          $2, $3, NULL, 650, $4, $5
        )
      "].

(** The steps of the child workflow. *)
Definition insert_child_steps_sql : string := tpl [T "
        INSERT INTO dbos.operation_execution (
          workflow_id, function_id, name, type, status,
          input, output, error, duration_ms, created_at
        ) VALUES
          ($1, 0, 'checkFraudVelocity', 'step', 'SUCCESS', $2, $3, NULL, 180, $4),
          ($1, 1, 'chargeCard', 'step', 'SUCCESS', $5, $6, NULL, 470, $4)
      "].

(** Step 4. *)
Definition insert_schedule_sql : string := tpl [T "
        INSERT INTO dbos.operation_execution (
          workflow_id, function_id, name, type, status,
          input, output, error, duration_ms, created_at
        ) VALUES (
          $1, 3, 'scheduleShipping', 'step', 'SUCCESS',
          $2, $3, NULL, 380, $4
        )
      "].

(** Step 5. *)
Definition insert_receipt_sql : string := tpl [T "
        INSERT INTO dbos.operation_execution (
          workflow_id, function_id, name, type, status,
          input, output, error, duration_ms, created_at
        ) VALUES (
          $1, 4, 'sendReceiptNotification', 'step', 'SUCCESS',
          $2, $3, NULL, 220, $4
        )
      "].

(** The end of a run that succeeds. *)
Definition complete_root_sql : string := tpl [T "
        UPDATE dbos.workflow_status
        SET status = 'SUCCESS',
            output = $1,
            duration_ms = $2,
            updated_at = $3
        WHERE workflow_id = $4
      "].

(** The label of the run button while a run is in progress. *)
Definition running_button : string := tpl [T "
      <svg width=`13` height=`13` viewBox=`0 0 24 24` fill=`none` stroke=`currentColor` stroke-width=`2` class=`spin` aria-hidden=`true`><circle cx=`12` cy=`12` r=`10`/><polyline points=`12 6 12 12 16 14`/></svg>
    "].

(** ... and otherwise. *)
Definition idle_button : string := tpl [T "
        <svg width=`13` height=`13` viewBox=`0 0 24 24` fill=`currentColor` aria-hidden=`true`><polygon points=`5 3 19 12 5 21 5 3`/></svg>
      "].

(** The label of the failure toggle, armed ... *)
Definition fail_on_button : string := tpl [T "
        <svg width=`13` height=`13` viewBox=`0 0 24 24` fill=`none` stroke=`currentColor` stroke-width=`2` aria-hidden=`true`><polygon points=`13 2 3 14 12 14 11 22 21 10 12 10 13 2`/></svg>
        <span>Step Failure: ON</span>
      "].

(** ... and cleared. *)
Definition fail_off_button : string := tpl [T "
        <svg width=`13` height=`13` viewBox=`0 0 24 24` fill=`none` stroke=`currentColor` stroke-width=`2` aria-hidden=`true`><polygon points=`13 2 3 14 12 14 11 22 21 10 12 10 13 2`/></svg>
        <span>Inject Step Failure</span>
      "].

(** The icon of the theme button for the dark theme ... *)
Definition sun_icon : string := tpl [T "
          <svg class=`theme-icon-sun` width=`13` height=`13` viewBox=`0 0 24 24` fill=`none` stroke=`currentColor` stroke-width=`2` aria-hidden=`true`><circle cx=`12` cy=`12` r=`5`/><line x1=`12` y1=`1` x2=`12` y2=`3`/><line x1=`12` y1=`21` x2=`12` y2=`23`/><line x1=`4.22` y1=`4.22` x2=`5.64` y2=`5.64`/><line x1=`18.36` y1=`18.36` x2=`19.78` y2=`19.78`/><line x1=`1` y1=`12` x2=`3` y2=`12`/><line x1=`21` y1=`12` x2=`23` y2=`12`/><line x1=`4.22` y1=`19.78` x2=`5.64` y2=`18.36`/><line x1=`18.36` y1=`5.64` x2=`19.78` y2=`4.22`/></svg>
        "].

(** ... for the light theme. *)
Definition moon_icon : string := tpl [T "
          <svg class=`theme-icon-moon` width=`13` height=`13` viewBox=`0 0 24 24` fill=`none` stroke=`currentColor` stroke-width=`2` aria-hidden=`true`><path d=`M21 12.79A9 9 0 1 1 11.21 3 7 7 0 0 0 21 12.79z`/></svg>
        "].

(** The label of the fold button, folded ... *)
Definition show_editor_button : string := tpl [T "
        <svg width=`13` height=`13` viewBox=`0 0 24 24` fill=`none` stroke=`currentColor` stroke-width=`2` aria-hidden=`true`><rect x=`3` y=`3` width=`18` height=`18` rx=`2`/><line x1=`15` y1=`3` x2=`15` y2=`21`/></svg>
        <span>Show Code Panel</span>
      "].

(** ... and unfolded. *)
Definition fold_editor_button : string := tpl [T "
        <svg width=`13` height=`13` viewBox=`0 0 24 24` fill=`none` stroke=`currentColor` stroke-width=`2` aria-hidden=`true`><rect x=`3` y=`3` width=`18` height=`18` rx=`2`/><line x1=`9` y1=`3` x2=`9` y2=`21`/></svg>
        <span>Fold Code Panel</span>
      "].
