(* ===== verification/Playground.v ===== *)
(** The playground's page (site/playground/playground.js): the demo workflow it
    runs against the in-browser database, the fallback database it makes when
    that one cannot be loaded, and the controls of the page.

    The asynchronous functions of the controller are programs ([script]) that
    run from one [await] to the next; the page interleaves the suspended ones
    with the user's events.  PGlite, which the page loads from a CDN, is a
    parameter: any type with a [query] and an [exec] that may throw. *)

From Stdlib Require Import ZArith Lia Ascii String.
From stdpp Require Import base list strings gmap.
From S2P Require Import Prelude Html Json JsDate PlaygroundText.

(** ** Databases *)

(** [db.query(sql, params)] gives rows or throws a message; [db.exec(sql)]. *)
Class Database (S : Type) := {
  db_query : S → string → list jval → S * (string + list jval);
  db_exec : S → string → S * option string }.

(** The fallback engine's store and its two functions. *)
Record store := Store { st_workflows : list jval; st_steps : list jval; st_events : list jval }.

Definition empty_store : store := Store [] [] [].

(** [step.workflow_id === params[0]]. *)
Definition same_value (a b : jval) : bool :=
  match a, b with
  | JStr x, JStr y => String.eqb x y
  | JNum x, JNum y => x =? y
  | JBool x, JBool y => Bool.eqb x y
  | JNull, JNull | JUndef, JUndef => true
  | _, _ => false
  end.

Definition fallback_query (st : store) (sql : string) (params : list jval) : list jval :=
  let s := to_lower sql in
  if includes s "dbos.workflow_status" then st_workflows st
  else if includes s "dbos.operation_execution" then
    match params with
    | p :: _ => keep (λ step, same_value (field step "workflow_id") p) (st_steps st)
    | [] => st_steps st
    end
  else [].

#[export] Instance fallback_database : Database store := {|
  db_query st sql params := (st, inr (fallback_query st sql params));
  db_exec st sql := (st, None) |}.

(** ** The results table *)

Definition null_cell : string := tpl [T "<span style=`color: var(--text-muted)`>null</span>"].

(** One cell: [JSON.stringify] of an object, the text of anything else. *)
Definition cell (v : jval) : string :=
  match v with
  | JNull | JUndef => null_cell
  | JObj _ | JArr _ => default "undefined" (stringify v)
  | _ => js_string v
  end.

Definition columns (r : jval) : list string :=
  match r with JObj fs => map fst fs | _ => [] end.

Definition renderTable (rows : list jval) : string :=
  match rows with
  | [] => tpl [T "<div style=`color: var(--text-muted); padding: 12px; font-size: 12px;`>(0 rows returned)</div>"]
  | r0 :: _ =>
      let cols := columns r0 in
      tpl [T "<table class=`data-table`><thead><tr>";
           H (map_join (λ c, tpl [T "<th>"; H c; T "</th>"]) cols);
           T "</tr></thead><tbody>";
           H (map_join (λ r, tpl [T "<tr>";
                H (map_join (λ c, tpl [T "<td>"; H (cell (field r c)); T "</td>"]) cols);
                T "</tr>"]) rows);
           T "</tbody></table>"]
  end.

Definition sql_error (message : string) : string :=
  tpl [T "<div style=`color: var(--accent-red); padding: 12px; font-family: var(--font-mono); font-size: 12px;`>SQL Error: ";
       H message; T "</div>"].

(** ** Programs with awaits *)

Inductive script :=
| Done
| Log (msg type : string) (k : script)
| Query (sql : string) (params : Z → list jval) (k : script)   (* await this.db.query(..) *)
| Exec (sql : string) (k : script)                             (* await window.pgliteDb.exec(..) *)
| ExecuteSql (overrideQuery : option string) (k : script)      (* await this.executeSql(..) *)
| Sleep (ms : Z) (k : script)
| Broadcast (event : string) (data : list (string * jval)) (k : script)
| RefreshConsole (k : script)
| SetHash (hash : string) (k : script)
| IfFailure (armed normal : script).                           (* if (this.injectFailure) *)

(** A suspended call and what its caller does when it ends. *)
Inductive caller := FromRun | FromReset | FromInit | FromFallback.
Record job := Job { j_caller : caller; j_rest : script }.

Section Page.
Context {S : Type} `{Database S}.

(** [window.pgliteDb]: not there yet, PGlite, or the fallback. *)
Inductive engine := NoEngine | PGlite (s : S) | Fallback (st : store).

(** What the engine of the browser says when [query] is read off [null]. *)
Context (null_message : string).

Definition engine_query (g : engine) (sql : string) (params : list jval)
  : engine * (string + list jval) :=
  match g with
  | NoEngine => (g, inl null_message)
  | PGlite s => let '(s', r) := db_query s sql params in (PGlite s', r)
  | Fallback st => let '(st', r) := db_query st sql params in (Fallback st', r)
  end.

Definition engine_exec (g : engine) (sql : string) : engine * option string :=
  match g with
  | NoEngine => (g, Some null_message)
  | PGlite s => let '(s', r) := db_exec s sql in (PGlite s', r)
  | Fallback st => let '(st', r) := db_exec st sql in (Fallback st', r)
  end.

(** The controller's fields and the parts of the document it writes. *)
Record page := Page {
  g_engine : engine;
  g_failure : bool;                        (* injectFailure *)
  g_failBtn : bool * string;               (* its class active and its label *)
  g_running : bool;                        (* isRunning *)
  g_runBtn : bool * string;                (* disabled, label *)
  g_active : option string;                (* activeWorkflowId *)
  g_log : list (string * string);          (* class and text of every line *)
  g_sql : string;                          (* the text of the SQL box *)
  g_results : string;                      (* queryResults.innerHTML *)
  g_sent : list jval;                      (* messages on the channel *)
  g_hash : string;                         (* the console frame's location hash *)
  g_status : string * string;              (* text and class of the status *)
  g_jobs : list job;
  g_issued : list (string * list jval) }.  (* the queries of the runs, oldest first *)

Definition set_engine (g : engine) (p : page) : page :=
  Page g (g_failure p) (g_failBtn p) (g_running p) (g_runBtn p) (g_active p) (g_log p) (g_sql p)
    (g_results p) (g_sent p) (g_hash p) (g_status p) (g_jobs p) (g_issued p).
Definition set_failure (f : bool) (b : bool * string) (p : page) : page :=
  Page (g_engine p) f b (g_running p) (g_runBtn p) (g_active p) (g_log p) (g_sql p)
    (g_results p) (g_sent p) (g_hash p) (g_status p) (g_jobs p) (g_issued p).
Definition set_running (r : bool) (b : bool * string) (a : option string) (p : page) : page :=
  Page (g_engine p) (g_failure p) (g_failBtn p) r b a (g_log p) (g_sql p)
    (g_results p) (g_sent p) (g_hash p) (g_status p) (g_jobs p) (g_issued p).
Definition set_log (l : list (string * string)) (p : page) : page :=
  Page (g_engine p) (g_failure p) (g_failBtn p) (g_running p) (g_runBtn p) (g_active p) l (g_sql p)
    (g_results p) (g_sent p) (g_hash p) (g_status p) (g_jobs p) (g_issued p).
Definition set_sql (q r : string) (p : page) : page :=
  Page (g_engine p) (g_failure p) (g_failBtn p) (g_running p) (g_runBtn p) (g_active p) (g_log p) q
    r (g_sent p) (g_hash p) (g_status p) (g_jobs p) (g_issued p).
Definition set_sent (m : list jval) (h : string) (p : page) : page :=
  Page (g_engine p) (g_failure p) (g_failBtn p) (g_running p) (g_runBtn p) (g_active p) (g_log p)
    (g_sql p) (g_results p) m h (g_status p) (g_jobs p) (g_issued p).
Definition set_status (t : string * string) (p : page) : page :=
  Page (g_engine p) (g_failure p) (g_failBtn p) (g_running p) (g_runBtn p) (g_active p) (g_log p)
    (g_sql p) (g_results p) (g_sent p) (g_hash p) t (g_jobs p) (g_issued p).
Definition set_jobs (j : list job) (p : page) : page :=
  Page (g_engine p) (g_failure p) (g_failBtn p) (g_running p) (g_runBtn p) (g_active p) (g_log p)
    (g_sql p) (g_results p) (g_sent p) (g_hash p) (g_status p) j (g_issued p).
Definition set_issued (l : list (string * list jval)) (p : page) : page :=
  Page (g_engine p) (g_failure p) (g_failBtn p) (g_running p) (g_runBtn p) (g_active p) (g_log p)
    (g_sql p) (g_results p) (g_sent p) (g_hash p) (g_status p) (g_jobs p) l.

(** ** The functions that do not await *)

(** [log(msg, type)]: the time is characters 11 to 18 of the ISO date. *)
Definition log (now : Z) (msg type : string) (p : page) : page :=
  set_log (g_log p ++ [("log-line " +:+ type, "[" +:+ slice 11 19 (to_iso now) +:+ "] " +:+ msg)]) p.

Definition telemetry (payload : list (string * jval)) : jval :=
  JObj [("type", JStr "relay_telemetry"); ("payload", JObj payload)].

Definition refreshConsole (now : Z) (p : page) : page :=
  set_sent (g_sent p ++ [telemetry [("type", JStr "workflow_update"); ("timestamp", JNum now)]])
    (g_hash p) p.

Definition broadcastUpdate (now : Z) (event : string) (data : list (string * jval)) (p : page) : page :=
  set_sent (g_sent p ++ [telemetry [("type", JStr event); ("data", JObj data); ("timestamp", JNum now)]])
    (g_hash p) p.

Definition setDbStatus (text state : string) (p : page) : page :=
  set_status (text, "status-dot " +:+ state) p.

Definition toggleFailure (now : Z) (p : page) : page :=
  if negb (g_failure p) then
    log now "Step failure injection armed: reserveInventory will throw InventoryShortageError" "warn"
      (set_failure true (true, fail_on_button) p)
  else
    log now "Step failure injection cleared: normal workflow execution" "info"
      (set_failure false (false, fail_off_button) p).

(** [executeSql(overrideQuery)]: the query and the table, or its error. *)
Definition executeSql (overrideQuery : option string) (p : page) : page :=
  let query := trim (match overrideQuery with Some q => or_else q (g_sql p) | None => g_sql p end) in
  if String.eqb query "" then p
  else
    let '(g', r) := engine_query (g_engine p) query [] in
    set_sql (g_sql p) (match r with inr rows => renderTable rows | inl err => sql_error err end)
      (set_engine g' p).

(** ** Running a program to its next await *)

Inductive progress := Suspended (k : script) | Finished | Threw (message : string).

Fixpoint resume (now : Z) (k : script) (p : page) : page * progress :=
  match k with
  | Done => (p, Finished)
  | Log msg type k' => resume now k' (log now msg type p)
  | Query sql params k' =>
      let '(g', r) := engine_query (g_engine p) sql (params now) in
      let p' := set_issued (g_issued p ++ [(sql, params now)]) (set_engine g' p) in
      (p', match r with inr _ => Suspended k' | inl err => Threw err end)
  | Exec sql k' =>
      let '(g', r) := engine_exec (g_engine p) sql in
      (set_engine g' p, match r with None => Suspended k' | Some err => Threw err end)
  | ExecuteSql o k' => (executeSql o p, Suspended k')
  | Sleep _ k' => (p, Suspended k')
  | Broadcast event data k' => resume now k' (broadcastUpdate now event data p)
  | RefreshConsole k' => resume now k' (refreshConsole now p)
  | SetHash h k' => resume now k' (set_sent (g_sent p) h p)
  | IfFailure armed normal => if g_failure p then resume now armed p else resume now normal p
  end.

(** ** The programs *)

Definition wfId (n : Z) : string := "wf-ord-" +:+ string_of_Z n.
Definition childAuthId (n : Z) : string := "wf-pay-" +:+ string_of_Z n.

(** [JSON.stringify] of the objects the run passes. *)
Definition text_of (v : jval) : jval := match stringify v with Some s => JStr s | None => JUndef end.

Definition cart_items : jval := JArr [JStr "dbos-pro-license"; JStr "relay-support-tier"].

Definition outcome_data (id status : string) : list (string * jval) :=
  [("workflowId", JStr id); ("status", JStr status)].

(** The branch of an injected failure, up to its [return]. *)
Definition failed_step2 (id : string) : script :=
  Query insert_reserve_failed_sql (λ now,
    [JStr id; text_of (JObj [("sku", JStr "DBOS-RELAY-KEY"); ("qty", JNum 2)]);
     text_of (JObj [("code", JStr "INVENTORY_SHORTAGE");
       ("message", JStr "Requested stock SKU DBOS-RELAY-KEY exhausted in regional warehouse")]);
     JNum now])
  (Query fail_root_sql (λ now,
    [text_of (JObj [("message", JStr "Step reserveInventory failed: InventoryShortageError")]);
     JNum now; JStr id])
  (Log "✗ Step 2: reserveInventory FAILED (Simulated Failure Injected)" "error"
  (Log ("[DBOS] Workflow " +:+ id +:+ " entered ERROR state. Transaction rolled back cleanly.") "error"
  (Broadcast "workflow_failed" (outcome_data id "ERROR")
  (ExecuteSql None Done))))).

Definition step3 (id child : string) (k : script) : script :=
  Log ("[Step 3/5] Spawning Child Workflow AuthorizePaymentGateway (" +:+ child +:+ ")...") "step"
  (Query insert_child_sql (λ now,
    [JStr child;
     text_of (JObj [("parentId", JStr id); ("amount", JNum 299); ("currency", JStr "USD")]);
     text_of (JObj [("authCode", JStr "AUTH-89214-OK"); ("gateway", JStr "Stripe-Mock")]); JNum now])
  (Query insert_authorize_sql (λ now,
    [JStr id; text_of (JObj [("amount", JNum 299)]);
     text_of (JObj [("authorized", JBool true); ("transactionId", JStr "tx_mock_9921")]);
     JNum now; JStr child])
  (Query insert_child_steps_sql (λ now,
    [JStr child; text_of (JObj [("score", JNum 5)]); text_of (JObj [("cleared", JBool true)]);
     JNum now; text_of (JObj [("card", JStr "*4242"); ("amount", JNum 299)]);
     text_of (JObj [("captured", JBool true); ("authCode", JStr "AUTH-89214-OK")])])
  (Log ("✓ Step 3: Child Workflow AuthorizePaymentGateway (" +:+ child +:+ ") completed in 650ms") "success"
  (ExecuteSql None (Sleep 400 k)))))).

Definition step4 (id : string) (k : script) : script :=
  Log "[Step 4/5] Executing scheduleShipping..." "step"
  (Query insert_schedule_sql (λ now,
    [JStr id; text_of (JObj [("carrier", JStr "FastTrack"); ("orderId", JStr id)]);
     text_of (JObj [("trackingNumber", JStr "FT-9912048"); ("status", JStr "DISPATCHED")]); JNum now])
  (Log "✓ Step 4: scheduleShipping completed in 380ms (Tracking: FT-9912048)" "success"
  (ExecuteSql None (Sleep 350 k)))).

Definition step5 (id : string) (k : script) : script :=
  Log "[Step 5/5] Executing sendReceiptNotification..." "step"
  (Query insert_receipt_sql (λ now,
    [JStr id; text_of (JObj [("recipient", JStr "operator@example.com"); ("orderId", JStr id)]);
     text_of (JObj [("delivered", JBool true); ("timestamp", JNum now)]); JNum now])
  (Log "✓ Step 5: sendReceiptNotification completed in 220ms" "success" k)).

Definition complete (id : string) : script :=
  Query complete_root_sql (λ now,
    [text_of (JObj [("status", JStr "ORDER_FULFILLED"); ("orderId", JStr id);
       ("invoiceUrl", JStr ("https://relay.local/invoices/" +:+ id))]);
     JNum 2100; JNum now; JStr id])
  (Log ("✓ [DBOS] Workflow " +:+ id +:+ " completed with status SUCCESS (2100ms total duration)") "success"
  (Broadcast "workflow_completed" (outcome_data id "SUCCESS")
  (ExecuteSql None Done))).

(** Step 2 when no failure is injected, and the rest of the run. *)
Definition from_step2 (id child : string) : script :=
  Query insert_reserve_sql (λ now,
    [JStr id; text_of (JObj [("sku", JStr "DBOS-RELAY-KEY"); ("qty", JNum 2)]);
     text_of (JObj [("reserved", JBool true); ("sku", JStr "DBOS-RELAY-KEY");
       ("warehouse", JStr "us-west-primary")]); JNum now])
  (Log "✓ Step 2: reserveInventory completed in 400ms" "success"
  (ExecuteSql None (Sleep 500 (step3 id child (step4 id (step5 id (complete id))))))).

(** The body of the [try] of [runWorkflow]. *)
Definition run_script (id child : string) : script :=
  Query insert_root_sql (λ now,
    [JStr id;
     text_of (JObj [("orderId", JStr id); ("items", cart_items); ("amount", JNum 299)]); JNum now])
  (Broadcast "workflow_created" (outcome_data id "PENDING")
  (SetHash ("#/workflow/" +:+ id)
  (ExecuteSql None (Sleep 450
  (Log "[Step 1/5] Executing validateCart..." "step"
  (Query insert_validate_sql (λ now,
    [JStr id; text_of (JObj [("orderId", JStr id); ("amount", JNum 299)]);
     text_of (JObj [("valid", JBool true); ("items", cart_items)]); JNum now])
  (Log "✓ Step 1: validateCart completed in 450ms" "success"
  (ExecuteSql None (Sleep 400
  (Log "[Step 2/5] Executing reserveInventory..." "step"
  (IfFailure (failed_step2 id) (from_step2 id child)))))))))))).

Definition all_workflows : string := "SELECT * FROM dbos.workflow_status;".

(** [seedInitialData()]. *)
Definition seed_script (k : script) : script :=
  Exec (seed_sql "wf-ord-89214" "wf-child-auth-01" "wf-child-ship-02")
  (Log "Pre-populated demo workflow wf-ord-89214 with 2 child workflows into PGlite" "info"
  (RefreshConsole k)).

Definition reset_script : script :=
  seed_script
  (ExecuteSql (Some all_workflows)
  (SetHash "#fleet" (Log "Database reset complete" "success" Done))).

(** [createSchema()] and what follows it in [initDatabase]. *)
Definition init_script : script :=
  Exec ddl
  (Log "DBOS system schema (dbos.workflow_status, dbos.operation_execution) created" "success"
  (seed_script (ExecuteSql (Some all_workflows) Done))).

(** ** Calls *)

Definition add_job (j : job) (p : page) : page := set_jobs (g_jobs p ++ [j]) p.

(** The [finally] of [runWorkflow]. *)
Definition finish_run (p : page) : page := set_running false (false, idle_button) (g_active p) p.

(** Runs a call to its next await and does what its caller does with the
    result.  The seed of the fallback engine is not awaited. *)
Definition advance_fallback (now : Z) (k : script) (p : page) : page :=
  let '(p', r) := resume now k p in
  match r with Suspended k' => add_job (Job FromFallback k') p' | _ => p' end.

Definition initFallbackEngine (now : Z) (p : page) : page :=
  advance_fallback now (seed_script Done)
    (setDbStatus "In-Memory Engine Ready" "ready" (set_engine (Fallback empty_store) p)).

(** The [catch] of [initDatabase]. *)
Definition init_failed (now : Z) (message : string) (p : page) : page :=
  initFallbackEngine now
    (log now ("PGlite CDN load failed: " +:+ message +:+
       ". Initializing fallback in-memory SQLite emulator...") "warn" p).

Definition advance (now : Z) (j : job) (p : page) : page :=
  match j_caller j with
  | FromFallback => advance_fallback now (j_rest j) p
  | c =>
      let '(p', r) := resume now (j_rest j) p in
      match r, c with
      | Suspended k', _ => add_job (Job c k') p'
      | Finished, FromRun => finish_run p'
      | Threw e, FromRun => finish_run (log now ("Execution error: " +:+ e) "error" p')
      | Threw e, FromInit => init_failed now e p'
      | _, _ => p'
      end
  end.

Definition dashes : string := "--------------------------------------------------".

(** [runWorkflow()]; [n] is the random suffix. *)
Definition runWorkflow (now n : Z) (p : page) : page :=
  if g_running p then p
  else
    let p := set_running true (true, running_button) (Some (wfId n)) p in
    let p := log now dashes "step" p in
    let p := log now ("[DBOS] Starting workflow ProcessCheckoutWorkflow (" +:+ wfId n +:+ ")") "step" p in
    advance now (Job FromRun (run_script (wfId n) (childAuthId n))) p.

Definition resetDatabase (now : Z) (p : page) : page :=
  advance now (Job FromReset reset_script)
    (log now "Resetting in-browser database to pristine demo state..." "info" p).

(** The continuation of [initDatabase] when the import has loaded. *)
Definition initDatabase (now : Z) (s : S) (p : page) : page :=
  let p := set_engine (PGlite s) p in
  let p := log now "PGlite WASM engine started successfully in browser memory" "success" p in
  let p := setDbStatus "PGlite (Postgres 16 WASM) Ready" "ready" p in
  advance now (Job FromInit init_script) p.

(** ** Events *)

Inductive event :=
| Loaded (s : S)                (* the import of PGlite succeeds ... *)
| LoadFailed (message : string) (* ... or fails *)
| ClickRun (n : Z)
| ClickFail
| ClickReset
| TypeSql (q : string)
| ClickExecute                  (* the button, or Enter in the box *)
| ClickPreset (q : string)
| Wake (i : nat).               (* a suspended call goes on *)

Definition handle (now : Z) (ev : event) (p : page) : page :=
  match ev with
  | Loaded s => initDatabase now s p
  | LoadFailed message => init_failed now message p
  | ClickRun n => runWorkflow now n p
  | ClickFail => toggleFailure now p
  | ClickReset => resetDatabase now p
  | TypeSql q => set_sql q (g_results p) p
  | ClickExecute => executeSql None p
  | ClickPreset q => executeSql None (set_sql q (g_results p) p)
  | Wake i =>
      match g_jobs p !! i with
      | Some j => advance now j (set_jobs (delete i (g_jobs p)) p)
      | None => p
      end
  end.

(** The page when its scripts have started and the import is under way. *)
Definition initial_page (now : Z) (sql : string) : page :=
  log now "Initializing in-browser PGlite (PostgreSQL 16 WebAssembly)..." "info"
    (Page NoEngine false (false, fail_off_button) false (false, idle_button) None [] sql "" [] ""
       ("", "") [] []).

Inductive reachable : page → Prop :=
| reachable_init now sql : reachable (initial_page now sql)
| reachable_next p now ev : reachable p → reachable (handle now ev p).
End Page.
