(* ===== verification/PlaygroundSpec.v ===== *)
(** Properties of the playground's page: one run at a time, runs that always
    end, the statements a run issues, and what is lost on the fallback engine. *)

From Stdlib Require Import ZArith Lia Ascii String.
From stdpp Require Import base list strings gmap.
From S2P Require Import Prelude Html Json Uri BridgeState BridgeRoutes BridgePaths PlaygroundText Playground.

(** ** Runs *)
Section Runs.
Context {S : Type} `{Database S} (null_message : string).

Notation page := (@page S).
Notation handle := (handle null_message).
Notation resume := (resume null_message).
Notation advance := (advance null_message).

Definition is_run (j : job) : bool := match j_caller j with FromRun => true | _ => false end.
(** The suspended calls of [runWorkflow]. *)
Definition runs (l : list job) : list job := keep is_run l.

#[local] Arguments runs : simpl never.

(** What a program run to its next await leaves alone. *)
Lemma resume_frame now k (p : page) :
  let p' := fst (resume now k p) in
  g_running p' = g_running p ∧ g_runBtn p' = g_runBtn p ∧ g_jobs p' = g_jobs p ∧
  g_failure p' = g_failure p ∧ g_failBtn p' = g_failBtn p.
Proof.
  revert p. induction k; intros p; cbn [Playground.resume].
  - done.
  - apply (IHk (log now msg type p)).
  - by destruct (engine_query null_message (g_engine p) sql (params now)).
  - by destruct (engine_exec null_message (g_engine p) sql).
  - unfold executeSql. case_tests; [done|].
    by destruct (engine_query null_message (g_engine p) _ []).
  - done.
  - apply (IHk (broadcastUpdate now event data p)).
  - apply (IHk (refreshConsole now p)).
  - apply (IHk (set_sent (g_sent p) hash p)).
  - pose proof (IHk1 p). pose proof (IHk2 p). by destruct (g_failure p).
Qed.

(** ... and so the controls agree. *)
Definition same_controls (p p' : page) : Prop :=
  g_running p' = g_running p ∧ g_runBtn p' = g_runBtn p ∧ g_failure p' = g_failure p ∧
  g_failBtn p' = g_failBtn p ∧ runs (g_jobs p') = runs (g_jobs p).

Lemma same_controls_trans p q r : same_controls p q → same_controls q r → same_controls p r.
Proof. unfold same_controls. intuition congruence. Qed.

Lemma runs_app l l' : runs (l ++ l') = runs l ++ runs l'.
Proof. apply List.filter_app. Qed.

Lemma runs_one j : runs [j] = if is_run j then [j] else [].
Proof. done. Qed.

Lemma resume_controls now k p : same_controls p (fst (resume now k p)).
Proof.
  destruct (resume_frame now k p) as (H1 & H2 & H3 & H4 & H5).
  unfold same_controls. by rewrite H3.
Qed.

Lemma add_job_controls j p : is_run j = false → same_controls p (add_job j p).
Proof.
  intros Hj. unfold same_controls, add_job. cbn. rewrite runs_app, runs_one, Hj.
  by rewrite app_nil_r.
Qed.

Lemma advance_fallback_controls now k p : same_controls p (advance_fallback null_message now k p).
Proof.
  unfold advance_fallback. pose proof (resume_controls now k p) as Hr.
  destruct (resume now k p) as [p' r]. cbn in Hr. destruct r as [k'| |e]; try done.
  eapply same_controls_trans; [exact Hr|]. by apply add_job_controls.
Qed.

Lemma init_failed_controls now e p : same_controls p (init_failed null_message now e p).
Proof.
  unfold init_failed, initFallbackEngine.
  eapply same_controls_trans; [|apply advance_fallback_controls]. done.
Qed.

Lemma advance_controls now j p : is_run j = false → same_controls p (advance now j p).
Proof.
  intros Hj. unfold advance. destruct j as [c k]. cbn [j_caller j_rest].
  pose proof (resume_controls now k p) as Hr.
  destruct c; [done| | |apply advance_fallback_controls];
    destruct (resume now k p) as [p' r]; cbn in Hr; destruct r as [k'| |e]; try done.
  - eapply same_controls_trans; [exact Hr|by apply add_job_controls].
  - eapply same_controls_trans; [exact Hr|by apply add_job_controls].
  - eapply same_controls_trans; [exact Hr|apply init_failed_controls].
Qed.

(** What every program of a run is: a bounded number of awaits, and only the
    statements of the source, each with the values its placeholders need. *)
Fixpoint awaits (k : script) : nat :=
  match k with
  | Done => 0
  | Log _ _ k' | Broadcast _ _ k' | RefreshConsole k' | SetHash _ k' => awaits k'
  | Query _ _ k' | Exec _ k' | ExecuteSql _ k' | Sleep _ k' => Datatypes.S (awaits k')
  | IfFailure a b => Nat.max (awaits a) (awaits b)
  end.

(** The placeholders [$1], [$2], ... of a statement. *)
Fixpoint placeholders (s : string) : list Z :=
  match s with
  | String "$" (String d s' as t) => if is_digit d then (code d - 48) :: placeholders s' else placeholders t
  | String _ t => placeholders t
  | EmptyString => []
  end.

(** Exactly the placeholders [$1] to [$n] occur, for [n] values. *)
Definition arity_ok (sql : string) (n : nat) : bool :=
  every (λ i, (1 <=? i) && (i <=? Z.of_nat n)) (placeholders sql) &&
  every (λ i, some (Z.eqb (Z.of_nat i)) (placeholders sql)) (seq 1 n).

Definition run_statements : list string :=
  [insert_root_sql; insert_validate_sql; insert_reserve_failed_sql; fail_root_sql;
   insert_reserve_sql; insert_child_sql; insert_authorize_sql; insert_child_steps_sql;
   insert_schedule_sql; insert_receipt_sql; complete_root_sql].

Definition statement_ok (sql : string) (params : list jval) : Prop :=
  sql ∈ run_statements ∧ arity_ok sql (length params) = true.

Fixpoint statements_ok (k : script) : Prop :=
  match k with
  | Done => True
  | Log _ _ k' | Broadcast _ _ k' | RefreshConsole k' | SetHash _ k'
  | ExecuteSql _ k' | Sleep _ k' => statements_ok k'
  | Query sql params k' => (∀ now, statement_ok sql (params now)) ∧ statements_ok k'
  | Exec _ _ => False
  | IfFailure a b => statements_ok a ∧ statements_ok b
  end.

Definition run_ok (k : script) : Prop := (awaits k <= 20)%nat ∧ statements_ok k.

Lemma run_script_ok id child : run_ok (run_script id child).
Proof.
  split; [cbn; lia|]. cbn [run_script failed_step2 from_step2 step3 step4 step5 complete statements_ok].
  repeat split; try (by vm_compute; repeat constructor); vm_compute; reflexivity.
Qed.

(** The invariant of the controls. *)
Record controls_ok (p : page) : Prop := {
  ok_runs : if g_running p then ∃ k, runs (g_jobs p) = [Job FromRun k] ∧ run_ok k
            else runs (g_jobs p) = [];
  ok_runBtn : g_runBtn p = (g_running p, if g_running p then running_button else idle_button);
  ok_failBtn : g_failBtn p = (g_failure p, if g_failure p then fail_on_button else fail_off_button) }.

Lemma same_controls_ok p p' : same_controls p p' → controls_ok p → controls_ok p'.
Proof. intros (H1 & H2 & H3 & H4 & H5) [K1 K2 K3]. split; by rewrite ?H1, ?H2, ?H3, ?H4, ?H5. Qed.

Definition issued_ok (l : list (string * list jval)) : Prop :=
  Forall (λ x, statement_ok (fst x) (snd x)) l.

Lemma resume_run now k p :
  statements_ok k → issued_ok (g_issued p) →
  issued_ok (g_issued (fst (resume now k p))) ∧
  ∀ k', snd (resume now k p) = Suspended k' → statements_ok k' ∧ (awaits k' < awaits k)%nat.
Proof.
  revert p. induction k as [|msg type k IH|sql params k IH|sql k IH|o k IH|ms k IH|ev data k IH
    |k IH|h k IH|a IHa b IHb]; intros p Hk Hi; cbn [Playground.resume statements_ok awaits] in *.
  - done.
  - by apply IH.
  - destruct Hk as [Hq Hk]. destruct (engine_query _ _ _ _) as [g' r]. cbn. split.
    + apply Forall_app. split; [done|]. constructor; [apply Hq|constructor].
    + destruct r; [done|]. intros k' [= <-]. split; [done|lia].
  - done.
  - split; [|by intros k' [= <-]; split; [|lia]]. unfold executeSql.
    destruct (_ =? "")%string; [done|]. by destruct (engine_query _ _ _ _).
  - split; [done|]. by intros k' [= <-]; split; [|lia].
  - by apply IH.
  - by apply IH.
  - by apply IH.
  - destruct Hk as [Ha Hb]. destruct (g_failure p).
    + destruct (IHa p Ha Hi) as [H1 H2]. split; [done|]. intros k' Hk'.
      destruct (H2 k' Hk'). split; [done|lia].
    + destruct (IHb p Hb Hi) as [H1 H2]. split; [done|]. intros k' Hk'.
      destruct (H2 k' Hk'). split; [done|lia].
Qed.

(** A run goes on while its job is out of the list. *)
Lemma advance_run_ok now k p :
  g_running p = true → runs (g_jobs p) = [] → g_runBtn p = (true, running_button) →
  g_failBtn p = (g_failure p, if g_failure p then fail_on_button else fail_off_button) →
  run_ok k → issued_ok (g_issued p) →
  let p' := advance now (Job FromRun k) p in
  controls_ok p' ∧ issued_ok (g_issued p') ∧
  (g_running p' = false ∨
   ∃ k', runs (g_jobs p') = [Job FromRun k'] ∧ (awaits k' < awaits k)%nat).
Proof.
  intros Hr Hj Hb Hf [Ha Hs] Hi. unfold advance. cbn [j_caller j_rest].
  destruct (resume_controls now k p) as (H1 & H2 & H3 & H4 & H5).
  destruct (resume_run now k p Hs Hi) as [H6 H7].
  destruct (resume now k p) as [p' r]. cbn [fst snd] in *.
  destruct r as [k'| |e]; [|split_and!; [split; cbn; by rewrite ?H5, ?H4, ?H3|done|by left]..].
  destruct (H7 k' eq_refl) as [Hs' Ha'].
  assert (Hruns : runs (g_jobs (add_job (Job FromRun k') p')) = [Job FromRun k'])
    by (cbn; by rewrite runs_app, H5, Hj).
  split_and!; [|done|right; eauto].
  split; [|cbn; by rewrite ?H4, ?H3, ?H2, ?H1, ?Hr..]. cbn [g_running add_job set_jobs]. rewrite H1, Hr.
  exists k'. split; [done|]. split; [lia|done].
Qed.

(** The other calls issue none of the run's queries. *)
Fixpoint quiet (k : script) : Prop :=
  match k with
  | Done => True
  | Log _ _ k' | Broadcast _ _ k' | RefreshConsole k' | SetHash _ k'
  | ExecuteSql _ k' | Sleep _ k' | Exec _ k' => quiet k'
  | Query _ _ _ | IfFailure _ _ => False
  end.

Definition quiet_jobs (l : list job) : Prop :=
  Forall (λ j, is_run j = false → quiet (j_rest j)) l.

Lemma resume_quiet now k p :
  quiet k →
  g_issued (fst (resume now k p)) = g_issued p ∧
  ∀ k', snd (resume now k p) = Suspended k' → quiet k'.
Proof.
  revert p. induction k as [|msg type k IH|sql params k IH|sql k IH|o k IH|ms k IH|ev data k IH
    |k IH|h k IH|a IHa b IHb]; intros p Hk; cbn [Playground.resume quiet] in *; try done.
  - apply (IH (log now msg type p) Hk).
  - destruct (engine_exec _ _ _) as [g' [e|]]; cbn; split; try done. by intros k' [= <-].
  - split; [|by intros k' [= <-]]. unfold executeSql.
    destruct (_ =? "")%string; [done|]. by destruct (engine_query _ _ _ _).
  - split; [done|]. by intros k' [= <-].
  - apply (IH (broadcastUpdate now ev data p) Hk).
  - apply (IH (refreshConsole now p) Hk).
  - apply (IH (set_sent (g_sent p) h p) Hk).
Qed.

(** What a call that is not a run does to the log of queries and to the jobs. *)
Definition keeps_quiet (p p' : page) : Prop :=
  g_issued p' = g_issued p ∧ (quiet_jobs (g_jobs p) → quiet_jobs (g_jobs p')).

Lemma keeps_quiet_trans p q r : keeps_quiet p q → keeps_quiet q r → keeps_quiet p r.
Proof. unfold keeps_quiet. intuition congruence. Qed.

Lemma settle_quiet now c k p p' r :
  quiet k → resume now k p = (p', r) →
  keeps_quiet p p' ∧ ∀ k', r = Suspended k' → keeps_quiet p (add_job (Job c k') p').
Proof.
  intros Hk E. pose proof (resume_quiet now k p Hk) as [H1 H2].
  destruct (resume_frame now k p) as (_ & _ & H3 & _). rewrite E in *. cbn [fst snd] in *.
  split; [split; [done|by rewrite H3]|]. intros k' ->. split; [done|].
  cbn. rewrite H3. intros Hq. apply Forall_app. split; [done|].
  constructor; [|constructor]. intros _. by apply H2.
Qed.

Lemma advance_fallback_quiet now k p :
  quiet k → keeps_quiet p (advance_fallback null_message now k p).
Proof.
  intros Hk. unfold advance_fallback. destruct (resume now k p) as [p' r] eqn:E.
  destruct (settle_quiet _ FromFallback _ _ _ _ Hk E) as [H1 H2]. destruct r; auto.
Qed.

Lemma init_failed_quiet now e p : keeps_quiet p (init_failed null_message now e p).
Proof.
  unfold init_failed, initFallbackEngine.
  eapply keeps_quiet_trans; [|by apply advance_fallback_quiet]. done.
Qed.

Lemma advance_quiet now j p :
  is_run j = false → quiet (j_rest j) → keeps_quiet p (advance now j p).
Proof.
  intros Hj Hk. destruct j as [c k]. unfold advance. cbn [j_caller j_rest] in *.
  destruct c; [done| | |by apply advance_fallback_quiet];
    destruct (resume now k p) as [p' r] eqn:E.
  - destruct (settle_quiet _ FromReset _ _ _ _ Hk E) as [H1 H2]. destruct r; auto.
  - destruct (settle_quiet _ FromInit _ _ _ _ Hk E) as [H1 H2]. destruct r; auto.
    eapply keeps_quiet_trans; [exact H1|apply init_failed_quiet].
Qed.

(** The invariant of the page. *)
Record page_ok (p : page) : Prop := {
  ok_controls : controls_ok p;
  ok_issued : issued_ok (g_issued p);
  ok_quiet : quiet_jobs (g_jobs p) }.

(** Calls that are not runs keep it, and the run with them. *)
Lemma other_ok p p' :
  same_controls p p' → keeps_quiet p p' → page_ok p →
  page_ok p' ∧ g_running p' = g_running p ∧ runs (g_jobs p') = runs (g_jobs p).
Proof.
  intros Hc [Hi Hq] [K1 K2 K3]. split; [|by destruct Hc as (? & _ & _ & _ & ?)].
  split; [by eapply same_controls_ok|by rewrite Hi|auto].
Qed.

Lemma executeSql_ok o p :
  same_controls p (executeSql null_message o p) ∧ keeps_quiet p (executeSql null_message o p).
Proof.
  unfold executeSql. destruct (_ =? "")%string; [done|]. by destruct (engine_query _ _ _ _).
Qed.

(** Whether an event lets the run go on. *)
Definition wakes_run (p : page) (ev : @event S) : bool :=
  match ev with
  | Wake i => match g_jobs p !! i with Some j => is_run j | None => false end
  | _ => false
  end.

Lemma handle_other now ev p :
  page_ok p → wakes_run p ev = false → (∀ n, ev = ClickRun n → g_running p = true) →
  let p' := handle now ev p in
  page_ok p' ∧ g_running p' = g_running p ∧ runs (g_jobs p') = runs (g_jobs p).
Proof.
  intros Hok Hw Hr. cbv zeta.
  destruct ev as [s|e|n| | |q| |q|i]; cbn [Playground.handle] in *.
  - apply (other_ok p); [| |done].
    + eapply same_controls_trans; [|by apply advance_controls]. done.
    + eapply keeps_quiet_trans; [|by apply advance_quiet]. done.
  - apply other_ok; [apply init_failed_controls|apply init_failed_quiet|done].
  - pose proof (Hr n eq_refl) as E. unfold runWorkflow. rewrite E. by split_and!.
  - destruct Hok as [[K1 K2 K3] H2 H3]. unfold toggleFailure.
    destruct (g_failure p); cbn; split_and!; try done; by repeat split.
  - apply (other_ok p); [| |done].
    + eapply same_controls_trans; [|by apply advance_controls]. done.
    + eapply keeps_quiet_trans; [|by apply advance_quiet]. done.
  - by apply other_ok.
  - destruct (executeSql_ok None p). by apply other_ok.
  - destruct (executeSql_ok None (set_sql q (g_results p) p)). by apply other_ok.
  - cbn in Hw. destruct (g_jobs p !! i) as [j|] eqn:Ej; [|done].
    set (p0 := set_jobs (delete i (g_jobs p)) p).
    assert (Hruns : runs (delete i (g_jobs p)) = runs (g_jobs p)).
    { rewrite <- (take_drop_middle _ _ _ Ej) at 2. rewrite delete_take_drop, !runs_app.
      unfold runs, keep. cbn. by rewrite Hw. }
    pose proof (ok_quiet _ Hok) as Hq.
    assert (Hj : quiet (j_rest j)).
    { unfold quiet_jobs in Hq. rewrite Forall_forall in Hq. apply Hq; [|done].
      by eapply list_elem_of_lookup_2. }
    assert (H0' : same_controls p p0 ∧ keeps_quiet p p0).
    { split; [by unfold same_controls; cbn; rewrite Hruns|]. split; [done|]. cbn.
      intros _. rewrite delete_take_drop. apply Forall_app.
      split; [by apply Forall_take|by apply Forall_drop]. }
    destruct H0' as [Hc0 Hq0]. apply (other_ok p); [|eapply keeps_quiet_trans; [exact Hq0|]|done].
    + eapply same_controls_trans; [exact Hc0|by apply advance_controls].
    + by apply advance_quiet.
Qed.

(** An event that lets the run go on, or starts one. *)
Lemma wake_run now i k p :
  page_ok p → g_jobs p !! i = Some (Job FromRun k) →
  let p' := handle now (Wake i) p in
  page_ok p' ∧ (g_running p' = false ∨
    ∃ k', runs (g_jobs p') = [Job FromRun k'] ∧ (awaits k' < awaits k)%nat).
Proof.
  intros [[K1 K2 K3] Hi Hq] Ej. cbn [Playground.handle]. rewrite Ej.
  set (p0 := set_jobs (delete i (g_jobs p)) p).
  assert (Hruns : runs (g_jobs p) = runs (take i (g_jobs p)) ++ [Job FromRun k] ++ runs (drop (Datatypes.S i) (g_jobs p))).
  { rewrite <- (take_drop_middle _ _ _ Ej) at 1. by rewrite !runs_app. }
  assert (Hdel : runs (g_jobs p0) = runs (take i (g_jobs p)) ++ runs (drop (Datatypes.S i) (g_jobs p))).
  { cbn. by rewrite delete_take_drop, runs_app. }
  destruct (g_running p) eqn:Er; rewrite Hruns in K1; [|by destruct (runs (take _ _))].
  destruct K1 as (k0 & E & Hk). destruct (runs (take i (g_jobs p))) as [|x l]; [|by destruct l].
  cbn in E, Hdel. injection E as -> E. rewrite E in Hdel.
  destruct (advance_run_ok now k0 p0 Er Hdel K2 K3 Hk Hi) as (H1 & H2 & H3).
  split; [split; [done|done|]|].
  - unfold advance. cbn [j_caller j_rest].
    destruct (resume_frame now k0 p0) as (_ & _ & Hj & _).
    assert (Hq0 : quiet_jobs (g_jobs p0)).
    { cbn. rewrite delete_take_drop. apply Forall_app. split; [by apply Forall_take|by apply Forall_drop]. }
    destruct (resume now k0 p0) as [p' [k'| |e]]; cbn in *; rewrite Hj; try done.
    apply Forall_app. split; [done|]. by constructor.
  - destruct H3 as [H3|H3]; auto.
Qed.

Lemma start_run now n p :
  page_ok p → g_running p = false → page_ok (handle now (ClickRun n) p).
Proof.
  intros [[K1 K2 K3] Hi Hq] Er. cbn [Playground.handle]. unfold runWorkflow. rewrite Er in *.
  set (p0 := log _ _ _ (log _ _ _ _)).
  destruct (advance_run_ok now (run_script (wfId n) (childAuthId n)) p0 eq_refl K1 eq_refl K3
              (run_script_ok _ _) Hi) as (H1 & H2 & _).
  split; [done|done|]. unfold advance. cbn [j_caller j_rest].
  destruct (resume_frame now (run_script (wfId n) (childAuthId n)) p0) as (_ & _ & Hj & _).
  destruct (resume now _ p0) as [p' [k'| |e]]; cbn [fst] in *; cbn -[p0]; rewrite Hj; try done.
  apply Forall_app. split; [done|]. by constructor.
Qed.

Lemma page_handle_ok now ev p : page_ok p → page_ok (handle now ev p).
Proof.
  intros Hok. destruct (wakes_run p ev) eqn:Hw.
  - destruct ev as [| | | | | | | |i]; try done. cbn in Hw.
    destruct (g_jobs p !! i) as [[[] k]|] eqn:Ej; try done. by apply (wake_run now i k p).
  - destruct (g_running p) eqn:Er.
    + by apply handle_other.
    + destruct ev; try (by apply handle_other). by apply start_run.
Qed.

Lemma reachable_ok p : reachable null_message p → page_ok p.
Proof. induction 1; [by repeat split; constructor|by apply page_handle_ok]. Qed.
End Runs.

(** C27: the page never runs two workflows at once: a run is in progress exactly
    when one call of it is suspended, the run button is disabled and shows the
    spinner exactly then, and the failure toggle shows what the next run will
    do - whatever is clicked, in whatever order the suspended calls go on, and
    whatever the database answers or throws. *)
Theorem one_run_at_a_time {S} `{Database S} null_message (p : @page S) :
  reachable null_message p →
  length (runs (g_jobs p)) = (if g_running p then 1 else 0)%nat ∧
  g_runBtn p = (g_running p, if g_running p then running_button else idle_button) ∧
  g_failBtn p = (g_failure p, if g_failure p then fail_on_button else fail_off_button).
Proof.
  intros [[K1 K2 K3] _ _]%reachable_ok. split; [|done].
  destruct (g_running p); [by destruct K1 as (k & -> & _)|by rewrite K1].
Qed.

(** C29: every run ends.  While one is in progress some suspended call is its own;
    waking that one ends the run or brings it at least one await closer to its
    end, no other event takes it away or sets it back, and it is never more than
    twenty awaits from the end. *)
Theorem run_ends {S} `{Database S} null_message (p : @page S) :
  reachable null_message p → g_running p = true →
  ∃ i k, g_jobs p !! i = Some (Job FromRun k) ∧ runs (g_jobs p) = [Job FromRun k] ∧
    (awaits k <= 20)%nat ∧
    (∀ now, let p' := handle null_message now (Wake i) p in
       g_running p' = false ∨ ∃ k', runs (g_jobs p') = [Job FromRun k'] ∧ (awaits k' < awaits k)%nat) ∧
    (∀ now ev, wakes_run p ev = false →
       let p' := handle null_message now ev p in
       g_running p' = true ∧ runs (g_jobs p') = [Job FromRun k]).
Proof.
  intros Hok%reachable_ok Hr. pose proof (ok_runs _ (ok_controls _ Hok)) as K. rewrite Hr in K.
  destruct K as (k & Hk & Ha & _).
  assert (Hin : Job FromRun k ∈ runs (g_jobs p)) by (rewrite Hk; by left).
  apply keep_elem in Hin as [_ [i Hi]%list_elem_of_lookup].
  exists i, k. split_and!; [done..| |].
  - intros now. by apply (wake_run null_message now i k p).
  - intros now ev Hw. destruct (handle_other null_message now ev p Hok Hw (λ _ _, Hr)) as (_ & H1 & H2).
    split; [by etrans|by etrans].
Qed.

(** The queries a run sends are the statements of the source and nothing
    else - the generated ids reach the database only as values - and each comes
    with exactly the values its placeholders name. *)
Theorem run_queries_are_parameterised {S} `{Database S} null_message (p : @page S) :
  reachable null_message p →
  Forall (λ x, fst x ∈ run_statements ∧ arity_ok (fst x) (length (snd x)) = true) (g_issued p).
Proof. intros [_ Hi _]%reachable_ok. exact Hi. Qed.

(** ** What a run does when nothing interferes *)

Section Alone.
Context {S : Type} `{Database S} (null_message : string).
Notation page := (@page S).

(** The queries and the messages of a program, for either setting of the
    failure toggle. *)
Fixpoint queries (failure : bool) (k : script) : list string :=
  match k with
  | Done => []
  | Query sql _ k' => sql :: queries failure k'
  | Log _ _ k' | Broadcast _ _ k' | RefreshConsole k' | SetHash _ k'
  | ExecuteSql _ k' | Sleep _ k' | Exec _ k' => queries failure k'
  | IfFailure a b => if failure then queries failure a else queries failure b
  end.

Fixpoint messages (now : Z) (failure : bool) (k : script) : list jval :=
  match k with
  | Done => []
  | Broadcast ev data k' =>
      telemetry [("type", JStr ev); ("data", JObj data); ("timestamp", JNum now)]
      :: messages now failure k'
  | RefreshConsole k' =>
      telemetry [("type", JStr "workflow_update"); ("timestamp", JNum now)] :: messages now failure k'
  | Log _ _ k' | Query _ _ k' | SetHash _ k' | ExecuteSql _ k' | Sleep _ k' | Exec _ k' =>
      messages now failure k'
  | IfFailure a b => if failure then messages now failure a else messages now failure b
  end.

Fixpoint wake_all (now : Z) (n : nat) (p : page) : page :=
  match n with
  | O => p
  | Datatypes.S n' => wake_all now n' (handle null_message now (Wake 0) p)
  end.

(** The database answers every query. *)
Definition answers : Prop := ∀ s sql params, ∃ rows, snd (db_query (S:=S) s sql params) = inr rows.

Lemma wake_none now n p : g_jobs p = [] → wake_all now n p = p.
Proof. induction n as [|n IH]; intros Hj; [done|]. cbn. rewrite Hj. by apply IH. Qed.

Lemma engine_answers g sql params :
  answers → g ≠ NoEngine → ∃ g' rows, engine_query null_message g sql params = (g', inr rows) ∧ g' ≠ NoEngine.
Proof.
  intros Ha Hg. destruct g as [|s|st]; [done| |by do 2 eexists]. cbn.
  destruct (Ha s sql params) as [rows Hr]. destruct (db_query s sql params) as [s' r]. cbn in Hr.
  subst r. by exists (PGlite s'), rows.
Qed.

Definition alone (p : page) : Prop :=
  g_jobs p = [] ∧ g_running p = true ∧ g_engine p ≠ NoEngine.

Lemma executeSql_alone o p :
  answers → alone p →
  alone (executeSql null_message o p) ∧
  g_issued (executeSql null_message o p) = g_issued p ∧
  g_sent (executeSql null_message o p) = g_sent p ∧
  g_failure (executeSql null_message o p) = g_failure p.
Proof.
  intros Ha (H1 & H2 & H3). unfold executeSql. destruct (_ =? "")%string; [done|].
  destruct (engine_answers (g_engine p) (trim match o with Some q => or_else q (g_sql p) | None => g_sql p end) [] Ha H3)
    as (g' & rows & -> & Hg). done.
Qed.

(** A suspended run, woken. *)
Lemma wake_one now n k p :
  g_jobs p = [] →
  wake_all now (Datatypes.S n) (add_job (Job FromRun k) p) =
  wake_all now n (advance null_message now (Job FromRun k) p).
Proof.
  intros Hj. cbn [wake_all handle]. unfold add_job. cbn [g_jobs set_jobs]. rewrite Hj. cbn.
  do 3 f_equal. destruct p. cbn in *. by subst.
Qed.

Lemma run_alone now k p n :
  answers → alone p → statements_ok k → (awaits k <= n)%nat →
  let p' := wake_all now n (advance null_message now (Job FromRun k) p) in
  g_running p' = false ∧ g_jobs p' = [] ∧
  map fst (g_issued p') = map fst (g_issued p) ++ queries (g_failure p) k ∧
  g_sent p' = g_sent p ++ messages now (g_failure p) k.
Proof.
  intros Ha. revert p n. induction k as [|msg type k IH|sql params k IH|sql k IH|o k IH|ms k IH
    |ev data k IH|k IH|h k IH|a IHa b IHb]; intros p n Hp Hs Hn; cbn [statements_ok awaits] in *.
  - destruct Hp as (Hj & _ & _). cbv zeta. unfold advance. cbn.
    rewrite wake_none by (by destruct p). cbn. by rewrite !app_nil_r.
  - apply (IH (log now msg type p) n); [by destruct Hp|done|done].
  - destruct Hp as (Hj & Hr & He). destruct n as [|n]; [lia|].
    destruct (engine_answers (g_engine p) sql (params now) Ha He) as (g' & rows & E & Hg).
    cbv zeta. unfold advance. cbn [j_caller j_rest resume]. rewrite E.
    rewrite wake_one by done.
    destruct (IH (set_issued (g_issued p ++ [(sql, params now)]) (set_engine g' p)) n)
      as (H1 & H2 & H3 & H4); [done|apply Hs|lia|].
    split_and!; [done|done| |exact H4]. rewrite H3. cbn. by rewrite map_app, <- app_assoc.
  - done.
  - destruct n as [|n]; [lia|]. destruct (executeSql_alone o p Ha Hp) as (H1 & H2 & H3 & H4).
    cbv zeta. unfold advance. cbn [j_caller j_rest resume]. rewrite wake_one by apply H1.
    destruct (IH (executeSql null_message o p) n H1 Hs ltac:(lia)) as (K1 & K2 & K3 & K4).
    rewrite H2, H4 in K3. rewrite H3, H4 in K4. by split_and!.
  - destruct n as [|n]; [lia|]. cbv zeta. unfold advance. cbn [j_caller j_rest resume].
    rewrite wake_one by apply Hp. apply (IH p n Hp Hs). lia.
  - destruct (IH (broadcastUpdate now ev data p) n) as (H1 & H2 & H3 & H4); [by destruct Hp|done|done|].
    split_and!; [done..|]. etrans; [exact H4|]. cbn. by rewrite <- app_assoc.
  - destruct (IH (refreshConsole now p) n) as (H1 & H2 & H3 & H4); [by destruct Hp|done|done|].
    split_and!; [done..|]. etrans; [exact H4|]. cbn. by rewrite <- app_assoc.
  - apply (IH (set_sent (g_sent p) h p) n); [by destruct Hp|done|done].
  - destruct Hs as [Hsa Hsb]. pose proof (IHa p n Hp Hsa ltac:(lia)) as Ka.
    pose proof (IHb p n Hp Hsb ltac:(lia)) as Kb. unfold advance in *.
    cbn [j_caller j_rest resume queries messages] in *. destruct (g_failure p); [exact Ka|exact Kb].
Qed.
End Alone.

(** The statements of the two runs. *)
Definition successful_run : list string :=
  [insert_root_sql; insert_validate_sql; insert_reserve_sql; insert_child_sql;
   insert_authorize_sql; insert_child_steps_sql; insert_schedule_sql; insert_receipt_sql;
   complete_root_sql].
Definition failing_run : list string :=
  [insert_root_sql; insert_validate_sql; insert_reserve_failed_sql; fail_root_sql].

Definition notice (now : Z) (event id status : string) : jval :=
  telemetry [("type", JStr event); ("data", JObj (outcome_data id status)); ("timestamp", JNum now)].

(** With a database that answers, a run that nothing interrupts ends within
    twenty wake-ups with the page idle again; it has sent the statements of a
    successful checkout, or with the failure armed those of a checkout that stops
    at the second step, and has announced the workflow's creation and exactly one
    outcome, which is the one it stored. *)
Theorem undisturbed_run {S} `{Database S} null_message now n (p : @page S) :
  answers (S:=S) → g_jobs p = [] → g_running p = false → g_engine p ≠ NoEngine →
  let p' := wake_all null_message now 20 (handle null_message now (ClickRun n) p) in
  g_running p' = false ∧ g_jobs p' = [] ∧
  map fst (g_issued p') =
    map fst (g_issued p) ++ (if g_failure p then failing_run else successful_run) ∧
  g_sent p' = g_sent p ++
    [notice now "workflow_created" (wfId n) "PENDING";
     if g_failure p then notice now "workflow_failed" (wfId n) "ERROR"
     else notice now "workflow_completed" (wfId n) "SUCCESS"].
Proof.
  intros Ha Hj Hr He. cbn [handle]. unfold runWorkflow. rewrite Hr.
  set (p0 := log _ _ _ (log _ _ _ _)).
  destruct (run_script_ok (wfId n) (childAuthId n)) as [Hn Hs].
  destruct (run_alone null_message now _ p0 20 Ha ltac:(done) Hs Hn) as (H1 & H2 & H3 & H4).
  split_and!; [exact H1|exact H2| |].
  - etrans; [exact H3|]. unfold p0. cbn. by destruct (g_failure p).
  - etrans; [exact H4|]. unfold p0. cbn. by destruct (g_failure p).
Qed.

(** ** The fallback engine *)

Section Fallback.
Context {S : Type} `{Database S} (null_message : string).
Notation page := (@page S).

(** Nothing is ever stored in it. *)
Definition fallback_empty (g : @engine S) : Prop :=
  match g with Fallback st => st = empty_store | _ => True end.

Lemma resume_fallback now k (p : page) :
  fallback_empty (g_engine p) → fallback_empty (g_engine (fst (resume null_message now k p))).
Proof.
  assert (Hquery : ∀ g sql params, fallback_empty g →
            fallback_empty (fst (engine_query null_message g sql params))).
  { intros [|s|st] sql params Hg; cbn; [done| |done]. by destruct (db_query s sql params). }
  assert (Hexec : ∀ g sql, fallback_empty g → fallback_empty (fst (engine_exec null_message g sql))).
  { intros [|s|st] sql Hg; cbn; [done| |done]. by destruct (db_exec s sql). }
  revert p. induction k as [|msg type k IH|sql params k IH|sql k IH|o k IH|ms k IH|ev data k IH
    |k IH|h k IH|a IHa b IHb]; intros p Hp; cbn [resume]; try done.
  - by apply IH.
  - specialize (Hquery (g_engine p) sql (params now) Hp). by destruct (engine_query _ _ _ _).
  - specialize (Hexec (g_engine p) sql Hp). by destruct (engine_exec _ _ _).
  - unfold executeSql. destruct (_ =? "")%string; [done|].
    match goal with |- context [engine_query _ _ ?q []] =>
      specialize (Hquery (g_engine p) q [] Hp) end.
    by destruct (engine_query _ _ _ _).
  - by apply IH.
  - by apply IH.
  - by apply IH.
  - destruct (g_failure p); auto.
Qed.

Lemma advance_fallback_empty now k (p : page) :
  fallback_empty (g_engine p) → fallback_empty (g_engine (advance_fallback null_message now k p)).
Proof.
  intros Hp%(resume_fallback now k). unfold advance_fallback.
  by destruct (resume null_message now k p) as [p' []].
Qed.

Lemma init_failed_empty now e (p : page) :
  fallback_empty (g_engine (init_failed null_message now e p)).
Proof. unfold init_failed, initFallbackEngine. by apply advance_fallback_empty. Qed.

Lemma advance_empty now j (p : page) :
  fallback_empty (g_engine p) → fallback_empty (g_engine (advance null_message now j p)).
Proof.
  intros Hp. unfold advance. destruct j as [c k]. cbn [j_caller j_rest].
  pose proof (resume_fallback now k p Hp) as Hr.
  destruct c; [| | |by apply advance_fallback_empty];
    destruct (resume null_message now k p) as [p' [k'| |e]]; done.
Qed.

Lemma handle_fallback now ev (p : page) :
  fallback_empty (g_engine p) → fallback_empty (g_engine (handle null_message now ev p)).
Proof.
  intros Hp.
  assert (Hsql : ∀ o (p : page), fallback_empty (g_engine p) →
            fallback_empty (g_engine (executeSql null_message o p))).
  { intros o p1 H1. by apply (resume_fallback 0 (ExecuteSql o Done)). }
  destruct ev as [s|e|n| | |q| |q|i]; cbn [handle]; auto.
  - by apply advance_empty.
  - apply init_failed_empty.
  - unfold runWorkflow. destruct (g_running p); [done|]. by apply advance_empty.
  - unfold toggleFailure. by destruct (g_failure p).
  - by apply advance_empty.
  - destruct (g_jobs p !! i) as [j|]; [|done]. by apply advance_empty.
Qed.
End Fallback.

(** What the console's bridge finds in the page. *)
Definition bridge_db {S} `{Database S} (g : @engine S)
  : option (string → list jval → option (list jval)) :=
  match g with
  | NoEngine => None
  | PGlite s => Some (λ sql params, match snd (db_query s sql params) with inr r => Some r | inl _ => None end)
  | Fallback st => Some (λ sql params, Some (fallback_query st sql params))
  end.

(** On the fallback engine no workflow is ever visible: after any sequence of
    runs, resets and queries the console's request for the workflows of an
    application is answered with an empty list, and the queue depth the
    autoscaler sees is zero, because the engine drops every statement that
    writes. *)
Theorem fallback_shows_no_workflow {S} `{Database S} null_message (p : @page S) st s org app :
  reachable null_message p → g_engine p = Fallback st →
  org ≠ "" → no_slash org = true → app ≠ "" →
  route_workflows (bridge_db (g_engine p)) s
    (Request (org_path org ["apps"; encodeURIComponent app; "workflows"]) (Some "GET") [] None)
  = Some (s, json 200 (JArr [])) ∧
  queue_depth (bridge_db (g_engine p)) = 0.
Proof.
  intros Hr Eg Ho Hs Ha.
  assert (Hst : fallback_empty (g_engine p)).
  { clear Eg. induction Hr as [|p now ev _ IH]; [done|by apply handle_fallback]. }
  rewrite Eg in Hst |- *. cbn in Hst. subst st. split; [|reflexivity].
  unfold route_workflows. cbn [rq_path].
  rewrite org_match_path by (auto; repeat constructor; apply encode_no_slash).
  cbn [pmatch String.eqb Ascii.eqb Bool.eqb]. rewrite eqb_encode, decode_encode by done.
  reflexivity.
Qed.

(** ** Witnesses *)

Definition idle_fallback : @page store := handle "" 0 (LoadFailed "offline") (initial_page 0 "SELECT 1").

Lemma idle_fallback_reachable : reachable "" idle_fallback.
Proof. apply reachable_next, reachable_init. Qed.

Definition mid_run : @page store := handle "" 0 (ClickRun 12345) idle_fallback.

Lemma mid_run_reachable : reachable "" mid_run.
Proof. apply reachable_next, idle_fallback_reachable. Qed.

Lemma one_run_at_a_time_witness : g_running mid_run = true ∧ length (runs (g_jobs mid_run)) = 1%nat.
Proof.
  split; [reflexivity|]. exact (proj1 (one_run_at_a_time "" mid_run mid_run_reachable)).
Defined.

Lemma run_ends_witness : ∃ i k, g_jobs mid_run !! i = Some (Job FromRun k) ∧ (awaits k <= 20)%nat.
Proof.
  destruct (run_ends "" mid_run mid_run_reachable eq_refl) as (i & k & H1 & _ & H2 & _).
  exists i, k. split; [exact H1|exact H2].
Defined.

Lemma run_queries_are_parameterised_witness :
  length (g_issued mid_run) = 1%nat ∧
  Forall (λ x, fst x ∈ run_statements ∧ arity_ok (fst x) (length (snd x)) = true) (g_issued mid_run).
Proof.
  split; [reflexivity|]. exact (run_queries_are_parameterised "" mid_run mid_run_reachable).
Defined.

(** The fallback page once its seed has gone through. *)
Definition seeded : @page store := handle "" 0 (Wake 0) idle_fallback.

Lemma undisturbed_run_witness :
  let p' := wake_all "" 0 20 (handle "" 0 (ClickRun 12345) (handle "" 0 ClickFail seeded)) in
  g_running p' = false ∧ map fst (g_issued p') = failing_run.
Proof.
  assert (Ha : answers (S:=store)) by (intros s sql params; eexists; reflexivity).
  destruct (undisturbed_run "" 0 12345 (handle "" 0 ClickFail seeded) Ha ltac:(vm_compute; reflexivity)
              ltac:(vm_compute; reflexivity) ltac:(vm_compute; discriminate)) as (H1 & _ & H2 & _).
  split; [exact H1|]. exact H2.
Defined.

Lemma fallback_shows_no_workflow_witness :
  queue_depth (bridge_db (g_engine mid_run)) = 0.
Proof.
  exact (proj2 (fallback_shows_no_workflow "" mid_run empty_store (initial_state "t") "default" "a"
    mid_run_reachable eq_refl ltac:(discriminate) eq_refl ltac:(discriminate))).
Defined.

(** The table shows what the database returns as markup, not as text. *)
Lemma table_unescaped :
  includes (renderTable [JObj [("name", JStr "<img onerror=x>")]]) "<td><img onerror=x></td>" = true.
Proof. vm_compute. reflexivity. Qed.

(** A run stores its workflow under an application that is not the one the
    console lists. *)
Lemma run_under_other_app :
  includes insert_root_sql "'app-ecommerce'" = true ∧
  includes insert_root_sql "ecommerce-checkout" = false.
Proof. split; vm_compute; reflexivity. Qed.
