(* ===== verification/PlaygroundChrome.v ===== *)
(** The frame of the playground's page (site/playground/playground.js): the theme
    it shares with the console, the foldable code pane and the code editor with
    its highlighted overlay.  The elements are those of the page; the storage is
    the part of [localStorage] the script uses. *)

From Stdlib Require Import ZArith Lia Ascii String.
From stdpp Require Import base list strings gmap.
From S2P Require Import Prelude Html Json PlaygroundText.

Record chrome := Chrome {
  c_theme : option string;        (* data-theme of the document *)
  c_label : string;               (* .theme-label of the button *)
  c_icon : string;
  c_posted : list string;         (* set_theme messages to the console frame *)
  c_folded : bool;                (* editorFolded *)
  c_pane : bool;                  (* the class folded of the pane *)
  c_fold_btn : string * string;   (* its label and its title *)
  c_storage : gmap string string;
  c_code : string;                (* codeEditor.value *)
  c_caret : nat * nat;            (* selectionStart, selectionEnd *)
  c_overlay : string }.           (* codeHighlightingContent.textContent *)

Definition set_theme_of (t : option string) (l i : string) (p : list string)
    (s : gmap string string) (c : chrome) : chrome :=
  Chrome t l i p (c_folded c) (c_pane c) (c_fold_btn c) s (c_code c) (c_caret c) (c_overlay c).
Definition set_fold_of (f p : bool) (b : string * string) (s : gmap string string) (c : chrome) : chrome :=
  Chrome (c_theme c) (c_label c) (c_icon c) (c_posted c) f p b s (c_code c) (c_caret c) (c_overlay c).
Definition set_code_of (v : string) (k : nat * nat) (o : string) (c : chrome) : chrome :=
  Chrome (c_theme c) (c_label c) (c_icon c) (c_posted c) (c_folded c) (c_pane c) (c_fold_btn c)
    (c_storage c) v k o.

Definition theme_key : string := "relay-theme".
Definition fold_key : string := "relay-playground-editor-folded".

(** [setTheme(theme, notifyIframe)]. *)
Definition setTheme (theme : string) (notifyIframe : bool) (c : chrome) : chrome :=
  let dark := String.eqb theme "dark" in
  set_theme_of (Some theme) (if dark then "Light Mode" else "Dark Mode")
    (if dark then sun_icon else moon_icon)
    (if notifyIframe then c_posted c ++ [theme] else c_posted c)
    (<[theme_key := theme]> (c_storage c)) c.

(** [getAttribute("data-theme") || "dark"]. *)
Definition current_theme (c : chrome) : string := or_else (default "" (c_theme c)) "dark".

Definition toggleTheme (c : chrome) : chrome :=
  let next := if String.eqb (current_theme c) "dark" then "light" else "dark" in
  setTheme next true c.

(** [applyEditorFold(folded)]. *)
Definition applyEditorFold (folded : bool) (c : chrome) : chrome :=
  set_fold_of (c_folded c) folded
    (if folded then (show_editor_button, "Expand code editor panel")
     else (fold_editor_button, "Fold code editor panel")) (c_storage c) c.

Definition toggleEditorFold (c : chrome) : chrome :=
  let folded := negb (c_folded c) in
  applyEditorFold folded
    (set_fold_of folded (c_pane c) (c_fold_btn c)
       (<[fold_key := if folded then "true" else "false"]> (c_storage c)) c).

(** [updateHighlighting()]: the overlay ends in a newline. *)
Definition overlay_of (text : string) : string :=
  text +:+ (if ends_with text newline then "" else newline).

Definition updateHighlighting (c : chrome) : chrome :=
  set_code_of (c_code c) (c_caret c) (overlay_of (c_code c)) c.

(** The listener of the Tab key: two spaces replace the selection. *)
Definition tab_key (c : chrome) : chrome :=
  let '(start, end_) := c_caret c in
  let value := stake start (c_code c) +:+ "  " +:+ sdrop end_ (c_code c) in
  updateHighlighting (set_code_of value (start + 2, start + 2)%nat (c_overlay c) c).

(** [DEMO_SCRIPTS[key]]; the keys are the options of the select. *)
Definition demo_script (key : string) : option string :=
  if String.eqb key "checkout" then Some demo_checkout
  else if String.eqb key "payment" then Some demo_payment
  else None.

Definition switchDemo (key : string) (c : chrome) : chrome :=
  match demo_script key with
  | Some text => updateHighlighting (set_code_of text (c_caret c) (c_overlay c) c)
  | None => c
  end.

(** The start of the page: [editor] is the parameter of the page's query. *)
Definition initElements (editor : option string) (c : chrome) : chrome :=
  let saved := match c_storage c !! fold_key with Some v => String.eqb v "true" | None => false end in
  let folded :=
    match editor with
    | Some e => if String.eqb e "folded" then true
                else if String.eqb e "expanded" then false else saved
    | None => saved
    end in
  let c := set_fold_of folded (c_pane c) (c_fold_btn c) (c_storage c) c in
  let c := if folded then applyEditorFold true c else c in
  let theme := or_else (default "" (c_storage c !! theme_key)) "dark" in
  let c := setTheme theme false c in
  updateHighlighting (set_code_of demo_checkout (c_caret c) (c_overlay c) c).

(** The page as it is delivered, with what the browser has stored. *)
Definition delivered (storage : gmap string string) : chrome :=
  Chrome None "" "" [] false false (fold_editor_button, "Fold code editor panel") storage "" (0, 0)%nat "".

Inductive event :=
| ClickTheme
| ThemeChanged (theme : string)     (* a theme_changed message of the console *)
| ClickFold
| Type_ (value : string) (caret : nat * nat)
| Select_ (caret : nat * nat)
| TabKey
| SwitchDemo (key : string).

Definition handle (ev : event) (c : chrome) : chrome :=
  match ev with
  | ClickTheme => toggleTheme c
  | ThemeChanged theme => setTheme theme false c
  | ClickFold => toggleEditorFold c
  | Type_ value caret => updateHighlighting (set_code_of value caret (c_overlay c) c)
  | Select_ caret => set_code_of (c_code c) caret (c_overlay c) c
  | TabKey => tab_key c
  | SwitchDemo key => switchDemo key c
  end.

Definition session (storage : gmap string string) (editor : option string) (evs : list event) : chrome :=
  fold_left (λ c ev, handle ev c) evs (initElements editor (delivered storage)).

(** ** Properties *)

Record chrome_ok (c : chrome) : Prop := {
  ok_theme : ∃ t, c_theme c = Some t ∧ c_storage c !! theme_key = Some t ∧
               c_label c = (if String.eqb t "dark" then "Light Mode" else "Dark Mode");
  ok_pane : c_pane c = c_folded c;
  ok_button : c_fold_btn c = if c_folded c then (show_editor_button, "Expand code editor panel")
                             else (fold_editor_button, "Fold code editor panel");
  ok_overlay : c_overlay c = overlay_of (c_code c) }.

Lemma setTheme_ok t n c :
  c_pane c = c_folded c →
  c_fold_btn c = (if c_folded c then (show_editor_button, "Expand code editor panel")
                  else (fold_editor_button, "Fold code editor panel")) →
  c_overlay c = overlay_of (c_code c) → chrome_ok (setTheme t n c).
Proof. intros H1 H2 H3. split; try done. exists t. cbn. by rewrite lookup_insert_eq. Qed.

Lemma chrome_handle_ok ev c : chrome_ok c → chrome_ok (handle ev c).
Proof.
  intros [H1 H2 H3 H4]. destruct ev as [|t| |v k|k| |key]; cbn [handle].
  - by apply setTheme_ok.
  - by apply setTheme_ok.
  - destruct H1 as (t & Ht & Hs & Hl). unfold toggleEditorFold.
    destruct (c_folded c); split; try done; exists t; cbn; by rewrite lookup_insert_ne.
  - by split.
  - by split.
  - unfold tab_key. destruct (c_caret c). by split.
  - unfold switchDemo. by destruct (demo_script key); split.
Qed.

Lemma initElements_ok storage editor : chrome_ok (initElements editor (delivered storage)).
Proof.
  unfold initElements.
  set (folded := match editor with Some _ => _ | None => _ end). clearbody folded.
  set (c1 := setTheme _ _ _).
  assert (Hok : ∃ t, c_theme c1 = Some t ∧ c_storage c1 !! theme_key = Some t ∧
            c_label c1 = (if String.eqb t "dark" then "Light Mode" else "Dark Mode")).
  { eexists. split; [reflexivity|]. cbn. by rewrite lookup_insert_eq. }
  split; [exact Hok|by destruct folded..|done].
Qed.

(** Through any use of the page the theme of the document, the stored theme
    and the label of the button agree, the pane and its button show the fold
    state, and the highlighted overlay shows exactly the text of the editor. *)
Theorem frame_consistent storage editor evs : chrome_ok (session storage editor evs).
Proof.
  unfold session. pose proof (initElements_ok storage editor) as Hok. revert Hok.
  generalize (initElements editor (delivered storage)).
  induction evs as [|ev evs IH]; intros c Hok; [done|]. cbn. by apply IH, chrome_handle_ok.
Qed.

(** A reload keeps what the user chose: the theme, and once the pane has been
    folded or unfolded by hand also that, unless the page's address says
    otherwise. *)
Theorem reload_keeps_choices storage editor evs t :
  let c := session storage editor evs in
  c_theme c = Some t → t ≠ "" →
  let c' := initElements None (delivered (c_storage c)) in
  c_theme c' = Some t ∧ c_label c' = c_label c ∧
  (c_folded (toggleEditorFold c) = negb (c_folded c) ∧
   c_folded (initElements None (delivered (c_storage (toggleEditorFold c)))) = negb (c_folded c)).
Proof.
  intros c Ht Hne. destruct (frame_consistent storage editor evs) as [(t' & H1 & H2 & H3) _ _ _].
  fold c in H1, H2, H3. rewrite Ht in H1. injection H1 as <-. cbv zeta. split_and!.
  - unfold initElements. cbn -[theme_key]. destruct (match _ with Some v => _ | None => _ end);
      cbn -[theme_key]; rewrite H2; cbn; unfold or_else; by destruct (String.eqb_spec t "").
  - unfold initElements. cbn -[theme_key]. destruct (match _ with Some v => _ | None => _ end);
      cbn -[theme_key]; rewrite H2; cbn; unfold or_else; destruct (String.eqb_spec t ""); done.
  - done.
  - unfold initElements. cbn -[fold_key]. rewrite lookup_insert_eq. by destruct (c_folded c).
Qed.

Lemma reload_keeps_choices_witness :
  let c := session ∅ None [ClickTheme] in
  c_theme (initElements None (delivered (c_storage c))) = Some "light".
Proof.
  assert (Ht : c_theme (session ∅ None [ClickTheme]) = Some "light") by (vm_compute; reflexivity).
  exact (proj1 (reload_keeps_choices ∅ None [ClickTheme] "light" Ht ltac:(discriminate))).
Defined.
