(* ===== verification/ConsoleView.v ===== *)
(** The console's page (console/src/app.js): the shell with its sidebar and
    header, the dialogs, the toasts and the cards a screen shows instead of its
    data.  Each template is the one of the source, with the fields of the
    application it reads as arguments. *)

From Stdlib Require Import ZArith Lia Ascii String.
From stdpp Require Import base list strings gmap.
From S2P Require Import Prelude Html.

(** ** What the templates read *)

(** [this.pollInterval]: the string stream, or a number of milliseconds. *)
Inductive poll_mode := Stream | Every (ms : Z).

#[export] Instance poll_mode_eq_dec : EqDecision poll_mode.
Proof. solve_decision. Defined.

Definition poll_is (m p : poll_mode) : bool := bool_decide (m = p).
Definition poll_active (p : poll_mode) : bool :=
  match p with Stream => true | Every ms => 0 <? ms end.

(** The fields of [DashboardApp] that the page shows. *)
Record shell := Shell {
  h_key : option string;      (* apiKey *)
  h_route : string;           (* currentRoute *)
  h_org : string;             (* orgName *)
  h_orgs : list string;       (* organizations *)
  h_app : string;             (* appName, empty for all applications *)
  h_apps : list string;       (* the names of apps *)
  h_wf : option string;       (* selectedWorkflowId *)
  h_theme : string;
  h_poll : poll_mode;
  h_mobile : bool;            (* mobileNavOpen *)
  h_folded : bool }.          (* sidebarFolded *)

(** [Boolean(this.apiKey)]. *)
Definition has_key (key : option string) : bool :=
  match key with Some s => negb (String.eqb s "") | None => false end.

Definition escapeHtml (s : string) : string := escape_chain s.

(** ** Toasts, dialogs and cards *)

(** The icons of [showToast]. *)
Definition toast_success_icon : string :=
  tpl [T "<svg width=`14` height=`14` viewBox=`0 0 24 24` fill=`none` stroke=`currentColor` stroke-width=`2` aria-hidden=`true`><polyline points=`20 6 9 17 4 12`/></svg>"].

Definition toast_error_icon : string :=
  tpl [T "<svg width=`14` height=`14` viewBox=`0 0 24 24` fill=`none` stroke=`currentColor` stroke-width=`2` aria-hidden=`true`><circle cx=`12` cy=`12` r=`10`/><line x1=`12` y1=`8` x2=`12` y2=`12`/><line x1=`12` y1=`16` x2=`12.01` y2=`16`/></svg>"].

Definition toast_info_icon : string :=
  tpl [T "<svg width=`14` height=`14` viewBox=`0 0 24 24` fill=`none` stroke=`currentColor` stroke-width=`2` aria-hidden=`true`><circle cx=`12` cy=`12` r=`10`/><line x1=`12` y1=`16` x2=`12` y2=`12`/><line x1=`12` y1=`8` x2=`12.01` y2=`8`/></svg>"].

(** [showToast(message, type)]: the class and the text of the new element. *)
Definition toast_icon (type : string) : string :=
  if String.eqb type "success" then toast_success_icon
  else if String.eqb type "error" then toast_error_icon else toast_info_icon.

Definition toast_html (message type : string) : string :=
  tpl [T "<span aria-hidden=`true` style=`display:inline-flex; align-items:center;`>";
    H (toast_icon type);
    T "</span><span>";
    H (escapeHtml message);
    T "</span>"].

(** The argument of [showConfirm], without the closure. *)
Record dialog := Dialog {
  d_title : string; d_message : string; d_consequence : string;
  d_details : list (string * string); d_confirm : string; d_class : string }.

Definition confirm_html (d : dialog) : string :=
  tpl [T "
      <div class=`modal-overlay` data-action=`closeModalOverlay` role=`alertdialog` aria-modal=`true` aria-labelledby=`confirm-dialog-title` aria-describedby=`confirm-dialog-desc`>
        <div class=`modal-dialog`>
          <div class=`modal-header`>
            <span id=`confirm-dialog-title`>";
    H (escapeHtml (d_title d));
    T "</span>
            <button class=`btn btn-xs btn-secondary` data-action=`closeModal` aria-label=`Cancel`>
              <svg width=`14` height=`14` viewBox=`0 0 24 24` fill=`none` stroke=`currentColor` stroke-width=`2` aria-hidden=`true`><line x1=`18` y1=`6` x2=`6` y2=`18`/><line x1=`6` y1=`6` x2=`18` y2=`18`/></svg>
            </button>
          </div>
          <div class=`modal-body`>
            <p id=`confirm-dialog-desc` style=`font-size: 13px; color: var(--ink);`>
              ";
    H (escapeHtml (d_message d));
    T "
            </p>

            ";
    H (if negb (length (d_details d) =? 0)%nat then tpl [T "
              <table class=`confirm-meta-table`>
                <tbody>
                  ";
    H (map_join (λ r, tpl [T "
                    <tr>
                      <td>";
    H (escapeHtml (fst r));
    T "</td>
                      <td><code>";
    H (escapeHtml (snd r));
    T "</code></td>
                    </tr>
                  "])
      (d_details d));
    T "
                </tbody>
              </table>
            "] else "");
    T "

            ";
    H (if negb (String.eqb (d_consequence d) "") then tpl [T "
              <div class=`confirm-consequence` role=`alert`>
                <strong>Warning:</strong> ";
    H (escapeHtml (d_consequence d));
    T "
              </div>
            "] else "");
    T "
          </div>
          <div class=`modal-footer`>
            <button class=`btn btn-sm btn-secondary` id=`confirm-cancel-btn` data-action=`closeModal`>Cancel</button>
            <button class=`btn btn-sm ";
    H (d_class d);
    T "` id=`confirm-action-btn` data-action=`executePendingConfirm`>";
    H (escapeHtml (d_confirm d));
    T "</button>
          </div>
        </div>
      </div>
    "].

(** [renderAuthRequired(el, actionName)], with [this.apiKey]. *)
Definition auth_required_html (key : option string) (actionName : string) : string :=
  tpl [T "
      <div class=`card`>
        <div class=`card-header`>
          <span class=`card-title`>Authentication Required</span>
        </div>
        <div class=`card-body`>
          <p style=`margin-bottom: 12px; color: var(--muted);`>
            This Relay instance requires an API key or bearer token to ";
    H (escapeHtml actionName);
    T ".
          </p>
          <div class=`form-field` style=`max-width: 480px;`>
            <label class=`form-label` for=`auth-key-input`>API Key / Bearer Token</label>
            <input type=`password` id=`auth-key-input` class=`input-text` placeholder=`dbos_sec_... or JWT token` value=`";
    H (escapeHtml (default "" key));
    T "`>
          </div>
          <div style=`margin-top: 16px; display: flex; gap: 8px;`>
            <button class=`btn btn-sm btn-primary` data-action=`submitSignIn`>Save & Retry</button>
            ";
    H (if has_key key then tpl [T "<button class=`btn btn-sm btn-secondary` data-action=`signOut`>Clear Credential</button>"] else "");
    T "
          </div>
        </div>
      </div>
    "].

(** [openSignInModal()]. *)
Definition sign_in_html (key : option string) : string :=
  tpl [T "
      <div class=`modal-overlay` data-action=`closeModalOverlay` role=`dialog` aria-modal=`true` aria-labelledby=`signin-modal-title`>
        <div class=`modal-dialog`>
          <div class=`modal-header`>
            <span id=`signin-modal-title`>Relay Authentication</span>
            <button class=`btn btn-xs btn-secondary` data-action=`closeModal` aria-label=`Close dialog`>
              <svg width=`14` height=`14` viewBox=`0 0 24 24` fill=`none` stroke=`currentColor` stroke-width=`2` aria-hidden=`true`><line x1=`18` y1=`6` x2=`6` y2=`18`/><line x1=`6` y1=`6` x2=`18` y2=`18`/></svg>
            </button>
          </div>
          <div class=`modal-body`>
            <p style=`font-size: 13px; color: var(--muted); margin-bottom: 12px;`>
              Provide an API key or OIDC bearer token to authenticate with the Relay control plane.
            </p>
            <div class=`form-field`>
              <label class=`form-label` for=`modal-auth-key-input`>API Key / Bearer Token</label>
              <input type=`password` id=`modal-auth-key-input` class=`input-text` placeholder=`dbos_sec_... or JWT token` value=`";
    H (escapeHtml (default "" key));
    T "`>
            </div>
          </div>
          <div class=`modal-footer`>
            <button class=`btn btn-sm btn-secondary` data-action=`closeModal`>Cancel</button>
            <button class=`btn btn-sm btn-primary` data-action=`submitModalSignIn`>Sign In</button>
          </div>
        </div>
      </div>
    "].

(** [renderErrorState(el, title, message)]. *)
Definition error_html (title message : string) : string :=
  tpl [T "
      <div class=`card`>
        <div class=`card-header`>
          <span class=`card-title`>";
    H (escapeHtml title);
    T "</span>
        </div>
        <div class=`card-body`>
          <div class=`empty-state`>
            <div class=`empty-state-icon icon-error`>
              <svg width=`24` height=`24` viewBox=`0 0 24 24` fill=`none` stroke=`currentColor` stroke-width=`2` stroke-linecap=`round` stroke-linejoin=`round` aria-hidden=`true`>
                <circle cx=`12` cy=`12` r=`10`></circle>
                <line x1=`12` y1=`8` x2=`12` y2=`12`></line>
                <line x1=`12` y1=`16` x2=`12.01` y2=`16`></line>
              </svg>
            </div>
            <h4 class=`empty-state-title`>Unable to Load Data</h4>
            <p class=`empty-state-desc`>";
    H (escapeHtml message);
    T "</p>
            <div class=`empty-state-actions`>
              <button class=`btn btn-sm btn-secondary` data-action=`refresh`>Retry</button>
            </div>
          </div>
        </div>
      </div>
    "].

(** [renderNoExecutorState(el, entityName)]. *)
Definition no_executor_desc (isQueue : bool) (appName : string) : string :=
  if isQueue
  then tpl [T "Queue configurations and worker concurrency limits are reported dynamically by active application executors. Once an executor for <strong>";
    H (escapeHtml (or_else appName "this application"));
    T "</strong> connects to Relay, its active queues will appear here."]
  else tpl [T "Scheduled workflow jobs and cron triggers are discovered dynamically from connected application executors. Start an executor for <strong>";
    H (escapeHtml (or_else appName "this application"));
    T "</strong> to view and trigger scheduled workflows."].

Definition no_executor_html (entityName appName : string) : string :=
  let isQueue := String.eqb entityName "queues" in
  tpl [T "
      <div class=`card`>
        <div class=`card-header`>
          <span class=`card-title`>";
    H (if isQueue then "Queues" else "Scheduled Jobs");
    T " (";
    H (escapeHtml (or_else appName "No app"));
    T ")</span>
          <button class=`btn btn-xs btn-secondary` data-action=`refresh`>Check Again</button>
        </div>
        <div class=`card-body`>
          <div class=`empty-state`>
            <div class=`empty-state-icon icon-offline`>
              ";
    H (if isQueue then tpl [T "
                <svg width=`24` height=`24` viewBox=`0 0 24 24` fill=`none` stroke=`currentColor` stroke-width=`2` stroke-linecap=`round` stroke-linejoin=`round` aria-hidden=`true`>
                  <rect x=`2` y=`2` width=`20` height=`8` rx=`2` ry=`2`></rect>
                  <rect x=`2` y=`14` width=`20` height=`8` rx=`2` ry=`2`></rect>
                  <line x1=`6` y1=`6` x2=`6.01` y2=`6`></line>
                  <line x1=`6` y1=`18` x2=`6.01` y2=`18`></line>
                </svg>
              "] else tpl [T "
                <svg width=`24` height=`24` viewBox=`0 0 24 24` fill=`none` stroke=`currentColor` stroke-width=`2` stroke-linecap=`round` stroke-linejoin=`round` aria-hidden=`true`>
                  <circle cx=`12` cy=`12` r=`10`></circle>
                  <polyline points=`12 6 12 12 16 14`></polyline>
                </svg>
              "]);
    T "
            </div>
            <h4 class=`empty-state-title`>No Connected Executors</h4>
            <p class=`empty-state-desc`>";
    H (no_executor_desc isQueue appName);
    T "</p>
            <div class=`empty-state-hint`>
              <div style=`color:var(--faint); margin-bottom:4px;`>Connect your application by configuring its Conductor URL:</div>
              <code>conductor_url: `ws://&lt;relay-host&gt;:8080`</code>
            </div>
            <div class=`empty-state-actions`>
              <button class=`btn btn-sm btn-secondary` data-action=`refresh`>Check Again</button>
            </div>
          </div>
        </div>
      </div>
    "].

(** The groups of [renderSidebar]. *)
Record item := Item { i_id : string; i_label : string; i_title : string; i_icon : string }.

Definition navGroups : list (string * list item) := [
  ("Operate", [
    Item "fleet" "Fleet" "Fleet & Applications" "<path d=`M4 6h16M4 12h16M4 18h16`/>";
    Item "workflows" "Workflows" "Workflows" "<path d=`M22 12h-4l-3 9L9 3l-3 9H2`/>";
    Item "queues" "Queues" "Queues" "<rect x=`3` y=`3` width=`7` height=`7`/><rect x=`14` y=`3` width=`7` height=`7`/><rect x=`14` y=`14` width=`7` height=`7`/><rect x=`3` y=`14` width=`7` height=`7`/>";
    Item "schedules" "Schedules" "Schedules" "<circle cx=`12` cy=`12` r=`10`/><polyline points=`12 6 12 12 16 14`/>";
    Item "autoscaling" "Autoscaling" "Autoscaling" "<polyline points=`23 6 13.5 15.5 8.5 10.5 1 18`/><polyline points=`17 6 23 6 23 12`/>"]);
  ("Observe", [
    Item "metrics" "Metrics" "Metrics" "<polyline points=`22 12 18 12 15 21 9 3 6 12 2 12`/>";
    Item "alerting" "Alerts" "Alert Rules" "<path d=`M18 8A6 6 0 0 0 6 8c0 7-3 9-3 9h18s-3-2-3-9`/><path d=`M13.73 21a2 2 0 0 1-3.46 0`/>"]);
  ("Administer", [
    Item "keys" "API Keys" "API Keys" "<circle cx=`7.5` cy=`15.5` r=`5.5`/><path d=`m21 2-9.6 9.6`/><path d=`m15.5 7.5 3 3L22 7l-3-3`/>";
    Item "roles" "Roles" "Roles" "<path d=`M17 21v-2a4 4 0 0 0-4-4H5a4 4 0 0 0-4 4v2`/><circle cx=`9` cy=`7` r=`4`/><path d=`M23 21v-2a4 4 0 0 0-3-3.87`/><path d=`M16 3.13a4 4 0 0 1 0 7.75`/>";
    Item "audit" "Audit" "Audit Log" "<path d=`M14 2H6a2 2 0 0 0-2 2v16a2 2 0 0 0 2 2h12a2 2 0 0 0 2-2V8z`/><polyline points=`14 2 14 8 20 8`/><line x1=`16` y1=`13` x2=`8` y2=`13`/><line x1=`16` y1=`17` x2=`8` y2=`17`/>";
    Item "settings" "Settings" "Settings" "<circle cx=`12` cy=`12` r=`3`/><path d=`M19.4 15a1.65 1.65 0 0 0 .33 1.82l.06.06a2 2 0 1 1-2.83 2.83l-.06-.06a1.65 1.65 0 0 0-1.82-.33 1.65 1.65 0 0 0-1 1.51V21a2 2 0 1 1-4 0v-.09A1.65 1.65 0 0 0 9 19.4a1.65 1.65 0 0 0-1.82.33l-.06.06a2 2 0 1 1-2.83-2.83l.06-.06a1.65 1.65 0 0 0 .33-1.82 1.65 1.65 0 0 0-1.51-1H3a2 2 0 1 1 0-4h.09A1.65 1.65 0 0 0 4.6 9a1.65 1.65 0 0 0-.33-1.82l-.06-.06a2 2 0 1 1 2.83-2.83l.06.06a1.65 1.65 0 0 0 1.82.33H9a1.65 1.65 0 0 0 1-1.51V3a2 2 0 1 1 4 0v.09a1.65 1.65 0 0 0 1 1.51 1.65 1.65 0 0 0 1.82-.33l.06-.06a2 2 0 1 1 2.83 2.83l-.06.06a1.65 1.65 0 0 0-.33 1.82V9a1.65 1.65 0 0 0 1.51 1H21a2 2 0 1 1 0 4h-.09a1.65 1.65 0 0 0-1.51 1z`/>"])].

Definition isActive (route id : string) : bool :=
  String.eqb route id || (String.eqb route "workflow-detail" && String.eqb id "workflows").

(** [getRouteTitle()]. *)
Definition getRouteTitle (h : shell) : string :=
  let route := h_route h in
  if String.eqb route "fleet" then (if String.eqb (h_app h) "" then "Fleet & Applications" else "Fleet: " +:+ h_app h)
  else if String.eqb route "workflows" then (if String.eqb (h_app h) "" then "Workflows" else "Workflows: " +:+ h_app h)
  else if String.eqb route "workflow-detail" then ("Workflow: " +:+ default "" (h_wf h))
  else if String.eqb route "queues" then (if String.eqb (h_app h) "" then "Queues" else "Queues: " +:+ h_app h)
  else if String.eqb route "schedules" then (if String.eqb (h_app h) "" then "Schedules" else "Schedules: " +:+ h_app h)
  else if String.eqb route "alerting" then (if String.eqb (h_app h) "" then "Alerting Rules" else "Alert Rules: " +:+ h_app h)
  else if String.eqb route "metrics" then ("Metrics")
  else if String.eqb route "keys" then ("API Keys")
  else if String.eqb route "roles" then ("Roles: " +:+ h_org h)
  else if String.eqb route "autoscaling" then (if String.eqb (h_app h) "" then "Autoscaling" else "Autoscaling: " +:+ h_app h)
  else if String.eqb route "settings" then (if String.eqb (h_app h) "" then "Settings" else "Settings: " +:+ h_app h)
  else if String.eqb route "audit" then ("Audit Log: " +:+ h_org h)
  else "Relay Console".

(** [getRouteDescription()]. *)
Definition getRouteDescription (h : shell) : string :=
  let route := h_route h in
  if String.eqb route "fleet" then "Fleet health, application inventory, and recent execution."
  else if String.eqb route "workflows" then "Search and inspect workflow executions across the active application scope."
  else if String.eqb route "workflow-detail" then "Execution lineage, steps, and payloads."
  else if String.eqb route "queues" then "Queue configuration and worker concurrency reported by live executors."
  else if String.eqb route "schedules" then "Cron schedules and manual triggers."
  else if String.eqb route "alerting" then "Rules that watch workflow health and notify operators."
  else if String.eqb route "metrics" then "Rates, queue depth, latency, and executor distribution."
  else if String.eqb route "keys" then "Organization API keys and their scope."
  else if String.eqb route "roles" then "Role definitions and permissions."
  else if String.eqb route "autoscaling" then "Executor recommendations for external scalers."
  else if String.eqb route "settings" then "Per-application runtime and retention settings."
  else if String.eqb route "audit" then "A chronological record of control-plane operations."
  else "Relay control plane.".

(** [renderSidebar()], [renderTopHeader()], [render()]. *)
Definition renderSidebar (h : shell) : string :=
  tpl [T "
      <aside class=`sidebar ";
    H (if h_mobile h then "mobile-open" else "");
    T " ";
    H (if h_folded h then "folded" else "");
    T "`>
        <div class=`sidebar-header`>
          <a href=`#/fleet` class=`brand-logo` aria-label=`Relay home` title=`Relay home`>
            <svg viewBox=`0 0 32 32` fill=`none` xmlns=`http://www.w3.org/2000/svg` class=`brand-logo-svg` aria-hidden=`true`>
              <rect width=`32` height=`32` rx=`8` fill=`#1f4ed8`/>
              <rect x=`6.5` y=`6.5` width=`9` height=`9` rx=`2.5` fill=`#ffffff`/>
              <rect x=`17` y=`17` width=`9` height=`9` rx=`2.5` fill=`#ffffff`/>
              <path d=`M13.5 13.5L15.5 15.5` stroke=`#ffffff` stroke-width=`2.4` stroke-linecap=`round`/>
            </svg>
            <span class=`brand-text`>Relay</span>
          </a>
        </div>
        <nav class=`sidebar-nav` aria-label=`Main navigation`>
          ";
    H (map_join (λ group, tpl [T "
            <div class=`nav-group`>
              <span class=`nav-group-label`>";
    H (fst group);
    T "</span>
              ";
    H (map_join (λ item, tpl [T "
                <a href=`#/";
    H (i_id item);
    T "`
                   class=`nav-item ";
    H (if isActive (h_route h) (i_id item) then "active" else "");
    T "`
                   data-navigate=`";
    H (i_id item);
    T "`
                   title=`";
    H (i_title item);
    T "`
                   ";
    H (if isActive (h_route h) (i_id item) then q "aria-current=`page`" else "");
    T ">
                  <svg viewBox=`0 0 24 24` fill=`none` stroke=`currentColor` stroke-width=`2` aria-hidden=`true`>
                    ";
    H (q (i_icon item));
    T "
                  </svg>
                  <span class=`nav-label`>";
    H (i_label item);
    T "</span>
                </a>
              "]) (snd group));
    T "
            </div>
          "]) navGroups);
    T "
        </nav>
        <div class=`sidebar-footer`>
          <div class=`sidebar-footer-actions`>
            <button class=`btn btn-xs btn-secondary` type=`button` data-action=`toggleTheme` aria-label=`";
    H (if String.eqb (h_theme h) "dark" then "Switch to light theme" else "Switch to dark theme");
    T "` title=`";
    H (if String.eqb (h_theme h) "dark" then "Switch to light theme" else "Switch to dark theme");
    T "`>
              ";
    H (if String.eqb (h_theme h) "dark" then tpl [T "
                <svg width=`12` height=`12` viewBox=`0 0 24 24` fill=`none` stroke=`currentColor` stroke-width=`1.8` aria-hidden=`true`><path d=`M20 14.2A8.2 8.2 0 0 1 9.8 4a8.5 8.5 0 1 0 10.2 10.2Z`/></svg>
              "] else tpl [T "
                <svg width=`12` height=`12` viewBox=`0 0 24 24` fill=`none` stroke=`currentColor` stroke-width=`1.8` aria-hidden=`true`><circle cx=`12` cy=`12` r=`4`/><path d=`M12 2.8V5M12 19v2.2M21.2 12H19M5 12H2.8M18.5 5.5l-1.6 1.6M7.1 16.9l-1.6 1.6M18.5 18.5l-1.6-1.6M7.1 7.1 5.5 5.5`/></svg>
              "]);
    T "
            </button>
            <button class=`btn btn-xs btn-secondary sidebar-collapse-btn` type=`button` data-action=`toggleSidebarFold` aria-label=`";
    H (if h_folded h then "Expand sidebar" else "Fold sidebar");
    T "` title=`";
    H (if h_folded h then "Expand sidebar" else "Fold sidebar");
    T "`>
              <svg width=`12` height=`12` viewBox=`0 0 24 24` fill=`none` stroke=`currentColor` stroke-width=`1.8` aria-hidden=`true`>
                ";
    H (if h_folded h then q "<polyline points=`9 18 15 12 9 6`/>" else q "<polyline points=`15 18 9 12 15 6`/>");
    T "
              </svg>
            </button>
          </div>
        </div>
      </aside>
    "].

Definition renderTopHeader (h : shell) : string :=
  tpl [T "
      <header class=`top-header`>
        <div class=`header-left`>
          <button class=`mobile-nav-toggle` type=`button` data-action=`toggleMobileNav` aria-label=`Open navigation`>
            <svg viewBox=`0 0 24 24` fill=`none` stroke=`currentColor` stroke-width=`1.8` aria-hidden=`true`>
              <path d=`M4 6h16M4 12h16M4 18h16`/>
            </svg>
          </button>
          <div>
            <h1 class=`header-title` title=`";
    H (escapeHtml (getRouteTitle h));
    T "`>";
    H (escapeHtml (getRouteTitle h));
    T "</h1>
            <p class=`header-subtitle`>";
    H (escapeHtml (getRouteDescription h));
    T "</p>
          </div>
        </div>
        <div class=`header-right`>
          <div class=`selector-group`>
            <label class=`form-label` for=`header-org-select`>Org</label>
            <select id=`header-org-select` class=`select-sm` data-change=`org` aria-label=`Active organization`>
              ";
    H (if negb (length (h_orgs h) =? 0)%nat then map_join (λ o, tpl [T "<option value=`";
    H (escapeHtml o);
    T "` ";
    H (if String.eqb o (h_org h) then "selected" else "");
    T ">";
    H (escapeHtml o);
    T "</option>"]) (h_orgs h)
      else tpl [T "<option value=`";
    H (escapeHtml (h_org h));
    T "` selected>";
    H (escapeHtml (h_org h));
    T "</option>"]);
    T "
            </select>
          </div>
          ";
    H (if String.eqb (h_route h) "audit" || String.eqb (h_route h) "keys" then "" else tpl [T "
          <div class=`selector-group`>
            <label class=`form-label` for=`header-app-select`>App</label>
            <select id=`header-app-select` class=`select-sm` data-change=`app` aria-label=`Active application`>
              <option value=`` ";
    H (if String.eqb (h_app h) "" then "selected" else "");
    T ">All applications</option>
              ";
    H (map_join (λ a, tpl [T "<option value=`";
    H (escapeHtml a);
    T "` ";
    H (if String.eqb a (h_app h) then "selected" else "");
    T ">";
    H (escapeHtml a);
    T "</option>"]) (h_apps h));
    T "
            </select>
          </div>"]);
    T "
          <div class=`selector-group`>
            <span class=`poll-indicator` title=`Live telemetry refresh`>
              <span class=`poll-dot ";
    H (if poll_active (h_poll h) then "active" else "");
    T "`></span>
              <span>Live</span>
            </span>
            <select class=`select-sm` data-change=`pollInterval` aria-label=`Live telemetry mode`>
              <option value=`0` ";
    H (if poll_is (Every 0) (h_poll h) then "selected" else "");
    T ">Off</option>
              <option value=`stream` ";
    H (if poll_is Stream (h_poll h) then "selected" else "");
    T ">Stream</option>
              <option value=`2000` ";
    H (if poll_is (Every 2000) (h_poll h) then "selected" else "");
    T ">2s</option>
              <option value=`5000` ";
    H (if poll_is (Every 5000) (h_poll h) then "selected" else "");
    T ">5s</option>
              <option value=`15000` ";
    H (if poll_is (Every 15000) (h_poll h) then "selected" else "");
    T ">15s</option>
            </select>
          </div>
          <button class=`btn btn-xs btn-secondary` type=`button` data-action=`refresh` aria-label=`Refresh telemetry (shortcut R)`>
            <svg width=`12` height=`12` viewBox=`0 0 24 24` fill=`none` stroke=`currentColor` stroke-width=`1.8` aria-hidden=`true`><path d=`M21.5 2v6h-6M21.34 15.57a10 10 0 1 1-.57-8.38l5.67-5.67`/></svg>
            <span>Refresh</span>
            <span class=`hotkey-badge`>R</span>
          </button>
          ";
    H (if has_key (h_key h) then tpl [T "
            <button class=`btn btn-xs btn-secondary` type=`button` data-action=`signOut` title=`Clear saved credential`>Sign out</button>
          "] else tpl [T "
            <button class=`btn btn-xs btn-primary` type=`button` data-action=`openSignIn` title=`Set API key or bearer token`>Sign in</button>
          "]);
    T "
        </div>
      </header>
    "].

Definition shell_html (h : shell) : string :=
  tpl [T "
      <div class=`mobile-overlay ";
    H (if h_mobile h then "active" else "");
    T "` data-action=`closeMobileNav`></div>
      ";
    H (renderSidebar h);
    T "
      <div class=`main-wrapper`>
        ";
    H (renderTopHeader h);
    T "
        <main class=`content-area` id=`content-view`>
          <div class=`loading-spinner`>Loading...</div>
        </main>
      </div>
      <div id=`modal-root`></div>
    "].

(** ** Properties *)

#[export] Instance escapeHtml_inert s : Inert (escapeHtml s).
Proof. apply escape_chain_inert. Qed.

(** Two states of the application that differ only in texts that come from
    outside: the key, the names of organizations and applications, the
    identifier of the workflow. *)
Record same_shape (h h' : shell) : Prop := {
  sh_key : has_key (h_key h) = has_key (h_key h');
  sh_route : h_route h = h_route h';
  sh_orgs : Forall2 (λ o o', String.eqb o (h_org h) = String.eqb o' (h_org h')) (h_orgs h) (h_orgs h');
  sh_app : String.eqb (h_app h) "" = String.eqb (h_app h') "";
  sh_apps : Forall2 (λ a a', String.eqb a (h_app h) = String.eqb a' (h_app h')) (h_apps h) (h_apps h');
  sh_theme : String.eqb (h_theme h) "dark" = String.eqb (h_theme h') "dark";
  sh_poll : h_poll h = h_poll h';
  sh_mobile : h_mobile h = h_mobile h';
  sh_folded : h_folded h = h_folded h' }.

Lemma sidebar_markup h h' : same_shape h h' → renderSidebar h = renderSidebar h'.
Proof.
  intros [? Hr ? ? ? Ht ? Hm Hf]. unfold renderSidebar. by rewrite Hr, Ht, Hm, Hf.
Qed.

Lemma header_markup h h' : same_shape h h' → renderTopHeader h ≈ renderTopHeader h'.
Proof.
  intros [Hk Hr Ho Ha Has Ht Hp Hm Hf]. unfold renderTopHeader. rewrite Hk, Hr, Ha, Hp, (Forall2_length _ _ _ Ho).
  markup.
  - destruct (negb _); [|markup]. eapply map_join_markup2, Forall2_impl; [exact Ho|].
    intros o o' E. cbv beta. rewrite E. markup.
  - destruct (_ || _); [reflexivity|]. markup.
    eapply map_join_markup2, Forall2_impl; [exact Has|]. intros a a' E. cbv beta. rewrite E. markup.
Qed.


Definition acme : shell :=
  Shell (Some "k") "roles" "acme" ["acme"; "beta"] "shop" ["shop"] None "dark" Stream false true.
Definition hostile : shell :=
  Shell (Some "x") "roles" "<script>" ["<script>"; "it's"] "a&b" ["a&b"] None "dark" Stream false true.


(** The screens the sidebar leads to, and the one of a workflow. *)
Definition screens : list string :=
  concat (map (λ g, map i_id (snd g)) navGroups) ++ ["workflow-detail"].

Fixpoint occurrences (p s : string) : nat :=
  match s with
  | EmptyString => 0
  | String _ s' => (if is_prefix p s then 1 else 0) + occurrences p s'
  end.

(** The start of the link of the sidebar that is marked as the current page. *)
Definition current_link (id : string) : string :=
  q "<a href=`#/" +:+ id +:+ q "`
                   class=`nav-item active`
                   data-navigate=`" +:+ id +:+ q "`".

Lemma sidebar_of h : renderSidebar h =
  renderSidebar (Shell None (h_route h) "" [] "" [] None
    (if String.eqb (h_theme h) "dark" then "dark" else "") (Every 0) (h_mobile h) (h_folded h)).
Proof. unfold renderSidebar. cbn [h_mobile h_folded h_route h_theme]. by destruct (String.eqb (h_theme h) "dark"). Qed.

(** The sidebar marks exactly one link as the current page on every screen:
    the link of the screen, and on the screen of one workflow that of the
    workflows. *)
Theorem sidebar_marks_the_screen h :
  h_route h ∈ screens →
  occurrences (q "aria-current=`page`") (renderSidebar h) = 1%nat ∧
  occurrences (q "nav-item active") (renderSidebar h) = 1%nat ∧
  includes (renderSidebar h)
    (current_link (if String.eqb (h_route h) "workflow-detail" then "workflows" else h_route h)) = true.
Proof.
  rewrite sidebar_of. destruct h as [k r o os a l w t p m f]. cbn [h_route h_theme h_mobile h_folded].
  intros Hin. vm_compute in Hin.
  assert (Hb : ∃ b : bool, String.eqb t "dark" = b) by eauto. destruct Hb as [b ->].
  repeat (apply elem_of_cons in Hin as [->|Hin];
    [destruct b, m, f; vm_compute; by split_and!|]).
  by apply elem_of_nil in Hin.
Qed.

Lemma sidebar_marks_the_screen_witness :
  "roles" ∈ screens ∧ occurrences (q "aria-current=`page`") (renderSidebar acme) = 1%nat.
Proof.
  assert (Hin : h_route acme ∈ screens) by (vm_compute; repeat constructor).
  split; [exact Hin|]. exact (proj1 (sidebar_marks_the_screen acme Hin)).
Defined.
