(* ===== verification/ConsoleState.v ===== *)
(** The console's application object (console/src/app.js, [DashboardApp]): its
    fields, the browser's storages, the page it has rendered, its timers and
    event streams, and the calls that wait for an answer of the server.

    An asynchronous method runs to its first [await]; what is left of it is a
    [task], which goes on when the answer arrives.  The server is not part of
    the model: an answer is any value.  Whether the browser accepts the address
    of an event stream is a parameter. *)

From Stdlib Require Import ZArith Lia Ascii String.
From stdpp Require Import base list strings gmap.
From S2P Require Import Prelude Html Uri ApiClient ConsoleView.

(** ** Errors *)

Definition status_is (n : Z) (e : err) : bool :=
  match e_status e with Some s => s =? n | None => false end.

(** [isAuthError(err)]. *)
Definition isAuthError (e : err) : bool :=
  let msg := e_message e in
  includes msg "401" || includes msg "Unauthorized" || includes msg "Authorization header required".

(** [isNoExecutorError(err)]. *)
Definition isNoExecutorError (e : err) : bool :=
  let msg := to_lower (e_message e) in
  (status_is 503 e && (includes msg "executor" || includes msg "unavailable")) ||
  (includes msg "no live executor" || includes msg "no executors available").

(** ** What a screen shows *)

(** The requests of a screen: the screen, and the organization, application and
    workflow they are about. *)
Record ask := Ask { a_route : string; a_org : string; a_app : string; a_wf : option string }.

Inductive card :=
| DataCard (a : ask) (app : string) (data : string) (* [app]: the application the text names *)
| NeedsKey (actionName : string)
| NoExecutor (entityName : string)
| ErrorCard (title message : string)
| NoApplication
| SelectView.

(** The element content-view: the loading text, or the card of a screen. *)
Inductive content := Loading | Card (route : string) (c : card).

(** The [catch] of each screen. *)
Definition failed_card (route : string) (h : shell) (e : err) : card :=
  let app := h_app h in
  let all := escapeHtml (or_else app "All Applications") in
  if String.eqb route "fleet" then
    ErrorCard (if String.eqb app "" then "Fleet & Applications" else "Fleet (" +:+ escapeHtml app +:+ ")") (e_message e)
  else if String.eqb route "workflows" then ErrorCard ("Workflows (" +:+ all +:+ ")") (e_message e)
  else if String.eqb route "workflow-detail" then
    ErrorCard ("Workflow Details (" +:+ escapeHtml (or_else (default "" (h_wf h)) "Unknown") +:+ ")") (e_message e)
  else if String.eqb route "queues" then
    if isNoExecutorError e then NoExecutor "queues" else ErrorCard ("Queues (" +:+ all +:+ ")") (e_message e)
  else if String.eqb route "schedules" then
    if isNoExecutorError e then NoExecutor "schedules" else ErrorCard ("Scheduled Jobs (" +:+ all +:+ ")") (e_message e)
  else if String.eqb route "alerting" then
    if isAuthError e then NeedsKey "load alert rules" else ErrorCard ("Alert Rules (" +:+ all +:+ ")") (e_message e)
  else if String.eqb route "keys" then
    if isAuthError e then NeedsKey "load API keys" else ErrorCard "API Keys" (e_message e)
  else if String.eqb route "roles" then
    if isAuthError e then NeedsKey "load roles" else ErrorCard ("Roles (" +:+ escapeHtml (h_org h) +:+ ")") (e_message e)
  else if String.eqb route "settings" then
    if isAuthError e then NeedsKey "load application settings"
    else ErrorCard ("Settings (" +:+ escapeHtml app +:+ ")") (e_message e)
  else if String.eqb route "autoscaling" then
    if isAuthError e then NeedsKey "load autoscaling policy"
    else ErrorCard ("Autoscaling (" +:+ escapeHtml app +:+ ")")
           (if isNoExecutorError e then "No healthy executor connected: " +:+ e_message e else e_message e)
  else if String.eqb route "metrics" then
    if isAuthError e || status_is 403 e then NeedsKey "load metrics" else ErrorCard "Metrics" (e_message e)
  else
    if isAuthError e ||
       (status_is 404 e && (includes (to_lower (e_message e)) "oauth" || includes (to_lower (e_message e)) "no-auth"))
    then NeedsKey "load audit log"
    else ErrorCard ("Audit Log (" +:+ escapeHtml (h_org h) +:+ ")") (e_message e).

(** The text of the cards that are not data.  The cards of an application that
    is not chosen differ in one sentence. *)
Definition no_application_html (desc : string) : string :=
  tpl [T "
        <div class=`empty-state`>
          <div class=`empty-state-title`>No application selected</div>
          <p class=`empty-state-desc`>"; H desc; T "</p>
        </div>"].

Definition card_html (h : shell) (route : string) (c : card) : option string :=
  match c with
  | DataCard _ _ _ => None
  | NeedsKey actionName => Some (auth_required_html (h_key h) actionName)
  | NoExecutor entityName => Some (no_executor_html entityName (h_app h))
  | ErrorCard title message => Some (error_html title message)
  | NoApplication => Some (no_application_html
      (if String.eqb route "settings"
       then "Choose an application in the header to view and edit its retention and timeout settings."
       else "Choose an application in the header to review and set its autoscaling policy."))
  | SelectView => Some (tpl [T "<div class=`card`><div class=`card-body`>Select a view from the sidebar.</div></div>"])
  end.

(** ** Commands to the server *)

Inductive command :=
| CancelWorkflow (app id : string)
| RevokeKey (name : string)
| DeleteRole (name : string)
| RemoveMember (username : string)
| DeleteRule (app id : string)
| DeletePolicy (app : string)
| ResumeWorkflow (app id : string)
| RestartWorkflow (app id : string)
| PauseSchedule (app name : string)
| ResumeSchedule (app name : string)
| TriggerSchedule (app name : string)
| GrantRole (username role : string)
| CreateRole (name : string) (permissions : list string)
| CreateKey (name : string) (apps : list string).

(** The commands that go through [showConfirm]. *)
Definition needs_confirm (c : command) : bool :=
  match c with
  | CancelWorkflow _ _ | RevokeKey _ | DeleteRole _ | RemoveMember _ | DeleteRule _ _ | DeletePolicy _ => true
  | _ => false
  end.

(** A text between double quotes. *)
Definition quoted (s : string) : string := q "`" +:+ s +:+ q "`".

(** What the dialog of a command says, in the organization [org]. *)
Definition dialog_of (org : string) (c : command) : option dialog :=
  match c with
  | CancelWorkflow app id => Some (Dialog "Cancel Workflow Execution"
      ("Are you sure you want to cancel workflow " +:+ id +:+ "?")
      "Execution will halt immediately. In-flight and pending steps will be cancelled and cannot be resumed without explicit operator intervention."
      [("Workflow ID", id); ("Application", or_else app "default"); ("Transition", "-> CANCELLED")]
      "Cancel Workflow" "btn-danger")
  | RevokeKey name => Some (Dialog "Revoke API Key"
      ("Are you sure you want to revoke API key " +:+ quoted name +:+ "?")
      "Any application, executor, or service authenticating with this key will immediately receive 401 Unauthorized errors."
      [("Key Name", name); ("Organization", org); ("Effect", "Immediate revocation")]
      "Revoke Key" "btn-danger")
  | DeleteRole name => Some (Dialog "Delete Role"
      ("Are you sure you want to delete role " +:+ quoted name +:+ "?")
      "Members holding this role lose its permissions immediately."
      [("Role", name); ("Organization", org)] "Delete Role" "btn-danger")
  | RemoveMember username => Some (Dialog "Remove Member"
      ("Are you sure you want to remove " +:+ username +:+ " from this organization?")
      "The user loses all access to this organization immediately."
      [("User", username); ("Organization", org)] "Remove Member" "btn-danger")
  | DeleteRule app id => Some (Dialog "Delete Alert Rule"
      ("Are you sure you want to delete alert rule " +:+ quoted id +:+ "?")
      "Alert notifications defined by this rule will immediately stop firing. This action cannot be undone."
      [("Rule ID", id); ("Application", app); ("Action", "Permanent deletion")] "Delete Rule" "btn-danger")
  | DeletePolicy app => Some (Dialog "Delete Autoscaling Policy"
      ("Turn off autoscaling for " +:+ quoted app +:+ "?")
      "Scalers polling the recommendation endpoints will receive 404 responses until a new policy is attached."
      [("Application", app); ("Action", "Delete policy")] "Delete Policy" "btn-danger")
  | _ => None
  end.

(** The toasts of a command: [answer] is the identifier a new workflow has. *)
Definition success_toast (c : command) (answer : string) : string :=
  match c with
  | CancelWorkflow _ id => "Workflow " +:+ id +:+ " cancelled"
  | RevokeKey name => "API key " +:+ quoted name +:+ " revoked"
  | DeleteRole name => "Role " +:+ quoted name +:+ " deleted"
  | RemoveMember username => username +:+ " removed"
  | DeleteRule _ _ => "Alert rule deleted"
  | DeletePolicy _ => "Autoscaling policy deleted"
  | ResumeWorkflow _ id => "Resumed workflow " +:+ id
  | RestartWorkflow _ _ => "Restarted workflow! New ID: " +:+ answer
  | PauseSchedule _ name => "Schedule " +:+ quoted name +:+ " paused"
  | ResumeSchedule _ name => "Schedule " +:+ quoted name +:+ " resumed"
  | TriggerSchedule _ name => "Triggered schedule " +:+ quoted name +:+ ". New Workflow: " +:+ answer
  | GrantRole username role => "Granted " +:+ quoted role +:+ " to " +:+ username
  | CreateRole name _ => "Role " +:+ quoted name +:+ " created"
  | CreateKey _ _ => ""
  end.

Definition failure_toast (c : command) (e : err) : string :=
  match c with
  | CancelWorkflow _ _ => "Failed to cancel: "
  | RevokeKey _ => "Failed to revoke key: "
  | DeleteRole _ => "Failed to delete role: "
  | RemoveMember _ => "Failed to remove member: "
  | DeleteRule _ _ => "Failed to delete rule: "
  | DeletePolicy _ => "Failed to delete policy: "
  | ResumeWorkflow _ _ => "Failed to resume: "
  | RestartWorkflow _ _ => "Failed to restart: "
  | PauseSchedule _ _ => "Failed to pause schedule: "
  | ResumeSchedule _ _ => "Failed to resume schedule: "
  | TriggerSchedule _ _ => "Failed to trigger schedule: "
  | GrantRole _ _ => "Failed to grant role: "
  | CreateRole _ _ => "Failed to create role: "
  | CreateKey _ _ => "Failed to create key: "
  end +:+ e_message e.

(** ** State *)

Inductive request :=
| ListOrganizations
| ListApplications (org : string)
| ScreenRequests (a : ask)
| Command (org : string) (c : command).

Inductive answer := Names (l : list string) | Answer (data : string) | Failed (e : err).

(** What is left of a call, by the answer it waits for. *)
Inductive after_orgs := OrgsThenRender | OrgsThenInit (appParam : string).
Inductive after_apps := AppsThenInit (appParam : string) | AppsThenRender | AppsThenFleet (el : nat).
Inductive task :=
| AwaitOrgs (next : after_orgs)
| AwaitApps (next : after_apps)
| AwaitScreen (el : nat) (a : ask)
| AwaitCommand (c : command).

(** The content of modal-root. *)
Inductive modal :=
| NoModal
| ConfirmModal (d : dialog)
| SignInModal
| KeyCreatedModal (name token : string)
| OtherModal.       (* the forms and the drawer of a step *)

(** What [render] has put into the page. *)
Record page := Page {
  p_el : nat;               (* which content-view element this is *)
  p_content : content;
  p_modal : modal;
  p_title : string;         (* .header-title *)
  p_app : string;           (* the value of the application select *)
  p_mobile : bool;          (* .sidebar.mobile-open *)
  p_folded : bool }.        (* .sidebar.folded *)

(** Timers and streams.  A stream remembers the scope of its address. *)
Record live := Live {
  v_timer : option nat;                       (* pollTimer *)
  v_timers : list (nat * Z);                  (* the intervals that are set *)
  v_source : option nat;                      (* sseSource *)
  v_sources : list (nat * (string * string)); (* the streams that are open *)
  v_armed : list nat }.                       (* streams whose debounce timer runs *)

Record console := Console {
  k_shell : shell;
  k_client : option string;                   (* client.apiKey *)
  k_session : option string;                  (* sessionStorage relay_api_key *)
  k_local : gmap string string;               (* localStorage *)
  k_attr : string;                            (* data-theme of the document *)
  k_hash : string;                            (* location.hash *)
  k_wfApp : string;                           (* selectedWorkflowApp *)
  k_wfApps : gmap string string;              (* workflowAppMap *)
  k_pending : option command;                 (* pendingConfirmAction *)
  k_page : option page;
  k_live : live;
  k_tasks : list task;
  k_sent : list (option string * request);    (* with the key of the client *)
  k_toasts : list (string * string);
  k_next : nat }.                             (* fresh numbers *)

Definition set_shell (h : shell) (k : console) : console :=
  Console h (k_client k) (k_session k) (k_local k) (k_attr k) (k_hash k) (k_wfApp k) (k_wfApps k)
    (k_pending k) (k_page k) (k_live k) (k_tasks k) (k_sent k) (k_toasts k) (k_next k).
Definition set_keys (c s : option string) (k : console) : console :=
  Console (k_shell k) c s (k_local k) (k_attr k) (k_hash k) (k_wfApp k) (k_wfApps k)
    (k_pending k) (k_page k) (k_live k) (k_tasks k) (k_sent k) (k_toasts k) (k_next k).
Definition set_local (l : gmap string string) (k : console) : console :=
  Console (k_shell k) (k_client k) (k_session k) l (k_attr k) (k_hash k) (k_wfApp k) (k_wfApps k)
    (k_pending k) (k_page k) (k_live k) (k_tasks k) (k_sent k) (k_toasts k) (k_next k).
Definition set_attr (a : string) (k : console) : console :=
  Console (k_shell k) (k_client k) (k_session k) (k_local k) a (k_hash k) (k_wfApp k) (k_wfApps k)
    (k_pending k) (k_page k) (k_live k) (k_tasks k) (k_sent k) (k_toasts k) (k_next k).
Definition set_hash (x : string) (k : console) : console :=
  Console (k_shell k) (k_client k) (k_session k) (k_local k) (k_attr k) x (k_wfApp k) (k_wfApps k)
    (k_pending k) (k_page k) (k_live k) (k_tasks k) (k_sent k) (k_toasts k) (k_next k).
Definition set_wf_app (a : string) (m : gmap string string) (k : console) : console :=
  Console (k_shell k) (k_client k) (k_session k) (k_local k) (k_attr k) (k_hash k) a m
    (k_pending k) (k_page k) (k_live k) (k_tasks k) (k_sent k) (k_toasts k) (k_next k).
Definition set_pending (c : option command) (k : console) : console :=
  Console (k_shell k) (k_client k) (k_session k) (k_local k) (k_attr k) (k_hash k) (k_wfApp k) (k_wfApps k)
    c (k_page k) (k_live k) (k_tasks k) (k_sent k) (k_toasts k) (k_next k).
Definition set_page (p : option page) (k : console) : console :=
  Console (k_shell k) (k_client k) (k_session k) (k_local k) (k_attr k) (k_hash k) (k_wfApp k) (k_wfApps k)
    (k_pending k) p (k_live k) (k_tasks k) (k_sent k) (k_toasts k) (k_next k).
Definition set_live (l : live) (k : console) : console :=
  Console (k_shell k) (k_client k) (k_session k) (k_local k) (k_attr k) (k_hash k) (k_wfApp k) (k_wfApps k)
    (k_pending k) (k_page k) l (k_tasks k) (k_sent k) (k_toasts k) (k_next k).
Definition set_tasks (t : list task) (k : console) : console :=
  Console (k_shell k) (k_client k) (k_session k) (k_local k) (k_attr k) (k_hash k) (k_wfApp k) (k_wfApps k)
    (k_pending k) (k_page k) (k_live k) t (k_sent k) (k_toasts k) (k_next k).
Definition set_sent (s : list (option string * request)) (k : console) : console :=
  Console (k_shell k) (k_client k) (k_session k) (k_local k) (k_attr k) (k_hash k) (k_wfApp k) (k_wfApps k)
    (k_pending k) (k_page k) (k_live k) (k_tasks k) s (k_toasts k) (k_next k).
Definition set_toasts (t : list (string * string)) (k : console) : console :=
  Console (k_shell k) (k_client k) (k_session k) (k_local k) (k_attr k) (k_hash k) (k_wfApp k) (k_wfApps k)
    (k_pending k) (k_page k) (k_live k) (k_tasks k) (k_sent k) t (k_next k).
Definition set_next (n : nat) (k : console) : console :=
  Console (k_shell k) (k_client k) (k_session k) (k_local k) (k_attr k) (k_hash k) (k_wfApp k) (k_wfApps k)
    (k_pending k) (k_page k) (k_live k) (k_tasks k) (k_sent k) (k_toasts k) n.

(** The fields of the shell, one at a time or in the groups that change together. *)
Definition with_key (key : option string) (h : shell) : shell :=
  Shell key (h_route h) (h_org h) (h_orgs h) (h_app h) (h_apps h) (h_wf h) (h_theme h) (h_poll h) (h_mobile h) (h_folded h).
Definition with_route (r : string) (wf : option string) (h : shell) : shell :=
  Shell (h_key h) r (h_org h) (h_orgs h) (h_app h) (h_apps h) wf (h_theme h) (h_poll h) (h_mobile h) (h_folded h).
Definition with_orgs (o : string) (os : list string) (h : shell) : shell :=
  Shell (h_key h) (h_route h) o os (h_app h) (h_apps h) (h_wf h) (h_theme h) (h_poll h) (h_mobile h) (h_folded h).
Definition with_apps (a : string) (l : list string) (h : shell) : shell :=
  Shell (h_key h) (h_route h) (h_org h) (h_orgs h) a l (h_wf h) (h_theme h) (h_poll h) (h_mobile h) (h_folded h).
Definition with_theme (t : string) (h : shell) : shell :=
  Shell (h_key h) (h_route h) (h_org h) (h_orgs h) (h_app h) (h_apps h) (h_wf h) t (h_poll h) (h_mobile h) (h_folded h).
Definition with_poll (p : poll_mode) (h : shell) : shell :=
  Shell (h_key h) (h_route h) (h_org h) (h_orgs h) (h_app h) (h_apps h) (h_wf h) (h_theme h) p (h_mobile h) (h_folded h).
Definition with_nav (mobile folded : bool) (h : shell) : shell :=
  Shell (h_key h) (h_route h) (h_org h) (h_orgs h) (h_app h) (h_apps h) (h_wf h) (h_theme h) (h_poll h) mobile folded.

Definition set_content (c : content) (k : console) : console :=
  set_page ((λ p, Page (p_el p) c (p_modal p) (p_title p) (p_app p) (p_mobile p) (p_folded p)) <$> k_page k) k.
Definition set_modal (m : modal) (k : console) : console :=
  set_page ((λ p, Page (p_el p) (p_content p) m (p_title p) (p_app p) (p_mobile p) (p_folded p)) <$> k_page k) k.
Definition set_header (t a : string) (k : console) : console :=
  set_page ((λ p, Page (p_el p) (p_content p) (p_modal p) t a (p_mobile p) (p_folded p)) <$> k_page k) k.
Definition set_nav (m f : bool) (k : console) : console :=
  set_page ((λ p, Page (p_el p) (p_content p) (p_modal p) (p_title p) (p_app p) m f) <$> k_page k) k.

(** A request goes out with the key of the client; the call waits. *)
Definition send (r : request) (t : task) (k : console) : console :=
  set_sent (k_sent k ++ [(k_client k, r)]) (set_tasks (k_tasks k ++ [t]) k).

Definition org_key : string := "relay_selected_org".
Definition app_key : string := "relay_selected_app".
Definition theme_key : string := "relay-theme".
Definition fold_key : string := "relay-sidebar-folded".

(** A stored text that is there and not empty. *)
Definition stored (key : string) (l : gmap string string) : option string :=
  match l !! key with
  | Some s => if String.eqb s "" then None else Some s
  | None => None
  end.

Definition mem (s : string) (l : list string) : bool := some (String.eqb s) l.

(** ** Operations *)

(** [setApiKey(key)]. *)
Definition setApiKey (key : option string) (k : console) : console :=
  set_keys key (if has_key key then key else None) (set_shell (with_key key (k_shell k)) k).

Definition showToast (message type : string) (k : console) : console :=
  set_toasts (k_toasts k ++ [(message, type)]) k.

Definition closeModal (k : console) : console := set_modal NoModal k.

(** [showConfirm(..)] of a command. *)
Definition showConfirm (c : command) (k : console) : console :=
  match k_page k, dialog_of (h_org (k_shell k)) c with
  | Some _, Some d => set_modal (ConfirmModal d) (set_pending (Some c) k)
  | _, _ => k
  end.

Definition run_command (c : command) (k : console) : console :=
  send (Command (h_org (k_shell k)) c) (AwaitCommand c) k.

(** [executePendingConfirm()]. *)
Definition executePendingConfirm (k : console) : console :=
  let action := k_pending k in
  let k := closeModal (set_pending None k) in
  match action with Some c => run_command c k | None => k end.

Definition openSignInModal (k : console) : console := set_modal SignInModal k.

(** The screens that ask the server about their data in the same way. *)
Definition data_routes : list string :=
  ["workflows"; "queues"; "schedules"; "alerting"; "metrics"; "keys"; "roles"; "audit"].

(** The screen of one workflow: the application it is looked up in. *)
Definition known_app (k : console) (id : option string) : string :=
  match id with Some i => default "" (k_wfApps k !! i) | None => "" end.

Definition target_app (k : console) : string :=
  or_else (k_wfApp k) (or_else (known_app k (h_wf (k_shell k))) (h_app (k_shell k))).

Definition ask_of (route app : string) (k : console) : ask :=
  Ask route (h_org (k_shell k)) app (h_wf (k_shell k)).

(** [renderWorkflowDetailScreen(el)] on the element of the page, up to its
    requests. *)
Definition renderWorkflowDetailScreen (silent : bool) (k : console) : console :=
  match k_page k with
  | None => k
  | Some p =>
      let k := if silent then k else set_content Loading k in
      let app := target_app k in
      let a := ask_of "workflow-detail" app k in
      send (ScreenRequests a) (AwaitScreen (p_el p) a) (set_wf_app app (k_wfApps k) k)
  end.

(** [renderContentView(silent)] with the first part of the screen it calls. *)
Definition renderContentView (silent : bool) (k : console) : console :=
  match k_page k with
  | None => k
  | Some p =>
      let k := if silent then k else set_content Loading k in
      let h := k_shell k in
      let route := h_route h in
      if String.eqb route "fleet" then
        send (ListApplications (h_org h)) (AwaitApps (AppsThenFleet (p_el p))) k
      else if String.eqb route "workflow-detail" then renderWorkflowDetailScreen silent k
      else if (String.eqb route "settings" || String.eqb route "autoscaling") && String.eqb (h_app h) "" then
        set_content (Card route NoApplication) k
      else if mem route ("settings" :: "autoscaling" :: data_routes) then
        let a := ask_of route (h_app h) k in
        send (ScreenRequests a) (AwaitScreen (p_el p) a) k
      else set_content (Card route SelectView) k
  end.

(** [render()]: new elements, then their content. *)
Definition render (k : console) : console :=
  let h := k_shell k in
  renderContentView false
    (set_next (S (k_next k))
      (set_page (Some (Page (k_next k) Loading NoModal (getRouteTitle h) (h_app h) (h_mobile h) (h_folded h))) k)).

(** [navigate(route)], and [handleRouting()] when the browser reports the new
    hash.  [decodeURIComponent] throws after the route has been set. *)
Definition navigate (route : string) (k : console) : console := set_hash ("#/" +:+ route) k.

Definition strip_hash (x : string) : string :=
  match x with
  | String "#" (String "/" r) => r
  | String "#" r => r
  | _ => x
  end.

Definition handleRouting (k : console) : console :=
  let h := k_shell k in
  let parts := split_char "/" (or_else (strip_hash (k_hash k)) "fleet") in
  let route := default "" (head parts) in
  match parts with
  | _ :: id :: _ =>
      if String.eqb route "workflow" && negb (String.eqb id "") then
        match decodeURIComponent id with
        | Some wf => render (set_shell (with_route "workflow-detail" (Some wf) h) k)
        | None => set_shell (with_route "workflow-detail" (h_wf h) h) k
        end
      else render (set_shell (with_route route (h_wf h) h) k)
  | _ => render (set_shell (with_route route (h_wf h) h) k)
  end.

(** *** Live telemetry *)

(** Whether [new EventSource] accepts the address of a scope. *)
Section Live.
Context (can_open : string → string → bool).

Definition drop_key {A} (i : nat) (l : list (nat * A)) : list (nat * A) :=
  keep (λ x, negb (fst x =? i)%nat) l.

(** [clearInterval(this.pollTimer)], [this.sseSource.close()]. *)
Definition clear_timer (l : live) : live :=
  match v_timer l with
  | Some i => Live None (drop_key i (v_timers l)) (v_source l) (v_sources l) (v_armed l)
  | None => l
  end.
Definition close_source (l : live) : live :=
  match v_source l with
  | Some i => Live (v_timer l) (v_timers l) None (drop_key i (v_sources l)) (v_armed l)
  | None => l
  end.

(** [setPollInterval] of a number. *)
Definition poll_every (ms : Z) (k : console) : console :=
  let k := set_shell (with_poll (Every ms) (k_shell k)) (set_live (close_source (clear_timer (k_live k))) k) in
  if 0 <? ms then
    let l := k_live k in
    set_next (S (k_next k))
      (set_live (Live (Some (k_next k)) (v_timers l ++ [(k_next k, ms)]) (v_source l) (v_sources l) (v_armed l)) k)
  else k.

(** [startSSE()]. *)
Definition startSSE (k : console) : console :=
  let k := set_live (close_source (k_live k)) k in
  let h := k_shell k in
  if can_open (h_org h) (h_app h) then
    let l := k_live k in
    set_next (S (k_next k))
      (set_live (Live (v_timer l) (v_timers l) (Some (k_next k))
         (v_sources l ++ [(k_next k, (h_org h, h_app h))]) (v_armed l)) k)
  else poll_every 5000 k.

(** [setPollInterval(mode)]. *)
Definition setPollInterval (mode : string) (k : console) : console :=
  if String.eqb mode "stream" then
    startSSE (set_shell (with_poll Stream (k_shell k)) (set_live (close_source (clear_timer (k_live k))) k))
  else poll_every (default 0 (parse_int mode)) k.

(** [poll()]; [focused]: a form field has the focus. *)
Definition poll (focused : bool) (k : console) : console :=
  match k_page k with
  | Some p =>
      match p_modal p with
      | NoModal => if focused then k else renderContentView true k
      | _ => k
      end
  | None => if focused then k else renderContentView true k
  end.

(** [scheduleRefresh] of a stream, and its timer. *)
Definition stream_message (i : nat) (k : console) : console :=
  let l := k_live k in
  if some (λ s, (fst s =? i)%nat) (v_sources l) then
    set_live (Live (v_timer l) (v_timers l) (v_source l) (v_sources l)
      (i :: keep (λ j, negb (j =? i)%nat) (v_armed l))) k
  else k.

Definition debounce_fires (i : nat) (focused : bool) (k : console) : console :=
  let l := k_live k in
  if some (Nat.eqb i) (v_armed l) then
    poll focused (set_live (Live (v_timer l) (v_timers l) (v_source l) (v_sources l)
      (keep (λ j, negb (j =? i)%nat) (v_armed l))) k)
  else k.

(** *** Scope *)

(** [onOrgChange(newOrgName)], up to its [await]. *)
Definition onOrgChange (newOrgName : string) (k : console) : console :=
  let next := or_else newOrgName "default" in
  let h := k_shell k in
  if String.eqb next (h_org h) then k
  else
    let k :=
      match h_key h with
      | Some key =>
          if starts_with key "dbos_" then
            showToast ("Switched to organization " +:+ quoted next +:+ ". Enter its API key to continue.")
              "info" (setApiKey None k)
          else k
      | None => k
      end in
    let k := set_shell (with_apps "" (h_apps h) (with_orgs next (h_orgs h) (k_shell k))) k in
    let k := set_local (delete app_key (<[org_key := next]> (k_local k))) k in
    send (ListApplications next) (AwaitApps AppsThenRender) k.

(** [onAppChange(newAppName)]. *)
Definition onAppChange (newAppName : string) (k : console) : console :=
  let h := with_apps newAppName (h_apps (k_shell k)) (k_shell k) in
  let k := set_shell h k in
  let k := set_local (if String.eqb newAppName "" then delete app_key (k_local k)
                      else <[app_key := newAppName]> (k_local k)) k in
  let k := set_header (getRouteTitle h) newAppName k in
  let k := match h_poll h with Stream => startSSE k | Every _ => k end in
  renderContentView false k.

(** [submitSignIn(token)] and [signOut()], up to their [await]. *)
Definition submitSignIn (token : string) (k : console) : console :=
  let given := negb (String.eqb token "") in
  let k := closeModal (setApiKey (if given then Some token else None) k) in
  let k := if given then showToast "Saved credential successfully" "success" k
           else showToast "Cleared saved credential" "info" k in
  send ListOrganizations (AwaitOrgs OrgsThenRender) k.

Definition signOut (k : console) : console :=
  send ListOrganizations (AwaitOrgs OrgsThenRender)
    (showToast "Signed out. Using unauthenticated public access" "info" (closeModal (setApiKey None k))).

(** [loadOrganizations()] after its request. *)
Definition loadOrganizations (r : answer) (k : console) : console :=
  let h := k_shell k in
  let chosen := stored org_key (k_local k) in
  let settle (names : list string) :=
    match names with
    | n0 :: _ =>
        let org :=
          match chosen with
          | Some s => if mem s names then s else if mem "default" names then "default" else n0
          | None => if mem "default" names then "default" else n0
          end in
        set_local (<[org_key := org]> (k_local k)) (set_shell (with_orgs org names h) k)
    | [] => set_shell (with_orgs (default (h_org h) chosen) [] h) k
    end in
  match r with
  | Names l => settle l
  | Failed e => if status_is 404 e then settle [] else set_shell (with_orgs (h_org h) [] h) k
  | Answer _ => settle []
  end.

(** [loadApplications()] after its request. *)
Definition loadApplications (r : answer) (k : console) : console :=
  let h := k_shell k in
  match r with
  | Names l =>
      let app := match stored app_key (k_local k) with
                 | Some s => if mem s l then s else ""
                 | None => ""
                 end in
      set_shell (with_apps app l h) k
  | _ => set_shell (with_apps "" [] h) k
  end.

(** *** The frame *)

(** [applyTheme(theme)], [toggleTheme()]. *)
Definition applyTheme (theme : string) (k : console) : console :=
  set_local (<[theme_key := theme]> (k_local k))
    (set_attr theme (set_shell (with_theme theme (k_shell k)) k)).

Definition toggleTheme (k : console) : console :=
  applyTheme (if String.eqb (h_theme (k_shell k)) "dark" then "light" else "dark") k.

(** [toggleMobileNav()], [closeMobileNav()], [toggleSidebarFold()]: only the
    class they are about changes. *)
Definition set_mobile (m : bool) (k : console) : console :=
  set_nav m (match k_page k with Some p => p_folded p | None => false end)
    (set_shell (with_nav m (h_folded (k_shell k)) (k_shell k)) k).

Definition toggleMobileNav (k : console) : console := set_mobile (negb (h_mobile (k_shell k))) k.
Definition closeMobileNav (k : console) : console := set_mobile false k.

Definition toggleSidebarFold (k : console) : console :=
  let f := negb (h_folded (k_shell k)) in
  let k := set_shell (with_nav (h_mobile (k_shell k)) f (k_shell k)) k in
  let k := set_local (<[fold_key := if f then "true" else "false"]> (k_local k)) k in
  set_nav (match k_page k with Some p => p_mobile p | None => false end) f k.

(** *** Commands *)

(** [appName || this.selectedWorkflowApp || this.workflowAppMap.get(id) || this.appName]. *)
Definition workflow_app (id app : string) (k : console) : string :=
  or_else app (or_else (k_wfApp k) (or_else (known_app k (Some id)) (h_app (k_shell k)))).

Definition cancelWorkflow (id app : string) (k : console) : console :=
  showConfirm (CancelWorkflow (workflow_app id app k) id) k.
Definition resumeWorkflow (id app : string) (k : console) : console :=
  run_command (ResumeWorkflow (workflow_app id app k) id) k.
Definition restartWorkflow (id app : string) (k : console) : console :=
  run_command (RestartWorkflow (workflow_app id app k) id) k.

Definition pauseSchedule (name app : string) (k : console) : console :=
  run_command (PauseSchedule (or_else app (h_app (k_shell k))) name) k.
Definition resumeSchedule (name app : string) (k : console) : console :=
  run_command (ResumeSchedule (or_else app (h_app (k_shell k))) name) k.
Definition triggerSchedule (name app : string) (k : console) : console :=
  run_command (TriggerSchedule (or_else app (h_app (k_shell k))) name) k.

Definition deleteAlertRule (id app : string) (k : console) : console :=
  let h := k_shell k in
  showConfirm (DeleteRule (or_else app (or_else (h_app h) (default "default" (head (h_apps h))))) id) k.

Definition revokeKey (name : string) (k : console) : console := showConfirm (RevokeKey name) k.
Definition deleteRole (name : string) (k : console) : console := showConfirm (DeleteRole name) k.
Definition removeMember (username : string) (k : console) : console := showConfirm (RemoveMember username) k.
Definition deleteAutoscalingPolicy (k : console) : console :=
  showConfirm (DeletePolicy (h_app (k_shell k))) k.

(** [grantMemberRole(username)]: [role] is the value of the member's select. *)
Definition grantMemberRole (username role : string) (k : console) : console :=
  if String.eqb role "" then showToast "Select a role to grant" "error" k
  else run_command (GrantRole username role) k.

Definition submitCreateRole (nameInput : string) (permissions : list string) (k : console) : console :=
  let name := trim nameInput in
  if (String.length name <? 3)%nat || (30 <? String.length name)%nat
  then showToast "Role name must be between 3 and 30 characters" "error" k
  else run_command (CreateRole name permissions) k.

Definition submitCreateKey (nameInput scope : string) (k : console) : console :=
  let name := trim nameInput in
  if String.eqb name "" then showToast "Key name is required" "error" k
  else run_command (CreateKey name (if String.eqb scope "" then [] else [scope])) k.

(** What follows the [await] of a command in its [try]. *)
Definition opened_workflow (app id : string) (k : console) : console :=
  let k := if String.eqb id "" || String.eqb app "" then k
           else set_wf_app app (<[id := app]> (k_wfApps k)) k in
  navigate ("workflow/" +:+ encodeURIComponent id) k.

Definition command_done (c : command) (data : string) (k : console) : console :=
  match c with
  | CreateKey name _ => set_modal (KeyCreatedModal name data) k
  | CreateRole _ _ => renderContentView false (showToast (success_toast c data) "success" (closeModal k))
  | CancelWorkflow _ _ | ResumeWorkflow _ _ =>
      renderWorkflowDetailScreen false (showToast (success_toast c data) "success" k)
  | RestartWorkflow app _ | TriggerSchedule app _ =>
      opened_workflow app data (showToast (success_toast c data) "success" k)
  | _ => renderContentView false (showToast (success_toast c data) "success" k)
  end.

(** *** Answers *)

Definition answer_data (r : answer) : string := match r with Answer d => d | _ => "" end.

(** A screen writes into the element it was called with. *)
Definition write_screen (el : nat) (a : ask) (r : answer) (k : console) : console :=
  match k_page k with
  | Some p =>
      if (p_el p =? el)%nat then
        set_content (Card (a_route a)
          (match r with
           | Failed e => failed_card (a_route a) (k_shell k) e
           | _ => DataCard a (h_app (k_shell k)) (answer_data r)
           end)) k
      else k
  | None => k
  end.

Definition resume (t : task) (r : answer) (k : console) : console :=
  match t with
  | AwaitOrgs next =>
      let k := loadOrganizations r k in
      match next with
      | OrgsThenRender => render k
      | OrgsThenInit p => send (ListApplications (h_org (k_shell k))) (AwaitApps (AppsThenInit p)) k
      end
  | AwaitApps next =>
      let k := loadApplications r k in
      let h := k_shell k in
      match next with
      | AppsThenInit p =>
          handleRouting
            (if negb (String.eqb p "") && mem p (h_apps h) then set_shell (with_apps p (h_apps h) h) k else k)
      | AppsThenRender =>
          let k := render k in
          match h_poll h with Stream => startSSE k | Every _ => k end
      | AppsThenFleet el =>
          let a := ask_of "fleet" (h_app h) k in
          send (ScreenRequests a) (AwaitScreen el a) k
      end
  | AwaitScreen el a => write_screen el a r k
  | AwaitCommand c =>
      match r with
      | Failed e => showToast (failure_toast c e) "error" k
      | _ => command_done c (answer_data r) k
      end
  end.

(** ** Start and events *)

(** The constructor, over the browser's storages; [dark]: the system prefers the
    dark scheme. *)
Definition constructor (session : option string) (local : gmap string string) (dark : bool) (hash : string) : console :=
  let key := if has_key session then session else None in
  let org := default "default" (stored org_key local) in
  let theme := default (if dark then "dark" else "light") (stored theme_key local) in
  let folded := match local !! fold_key with Some s => String.eqb s "true" | None => false end in
  Console (Shell key "fleet" org [] "" [] None theme (Every 0) false folded) key session local "" hash "" ∅ None None
    (Live None [] None [] []) [] [] [] 1.

(** [init()] up to its first [await].  A parameter that is missing reads as the
    empty string. *)
Definition init (themeParam sidebarParam appParam orgParam : string) (k : console) : console :=
  let h := k_shell k in
  let theme := if String.eqb themeParam "light" || String.eqb themeParam "dark" then themeParam else h_theme h in
  let folded := if String.eqb sidebarParam "folded" then true
                else if String.eqb sidebarParam "expanded" then false else h_folded h in
  let local1 := if String.eqb appParam "" then k_local k else <[app_key := appParam]> (k_local k) in
  let local2 := if String.eqb orgParam "" then local1 else <[org_key := orgParam]> local1 in
  let h := Shell (h_key h) (h_route h) (or_else orgParam (h_org h)) (h_orgs h) (or_else appParam (h_app h)) (h_apps h)
             (h_wf h) theme (h_poll h) (h_mobile h) folded in
  send ListOrganizations (AwaitOrgs (OrgsThenInit appParam)) (applyTheme theme (set_local local2 (set_shell h k))).

Definition start (session : option string) (local : gmap string string) (dark : bool)
    (hash themeParam sidebarParam appParam orgParam : string) : console :=
  init themeParam sidebarParam appParam orgParam (constructor session local dark hash).

Inductive event :=
| HashSet (x : string)               (* a link, or the address bar *)
| HashChange                         (* the browser reports the hash *)
| ClickNavigate (route app : string) (* data-navigate, with the data-wf-app around it *)
| Answered (i : nat) (r : answer)
| SelectOrg (v : string)
| SelectApp (v : string)
| SelectPoll (v : string)
| PollTick (i : nat) (focused : bool)
| StreamMessage (i : nat)
| DebounceFires (i : nat) (focused : bool)
| ClickRefresh
| KeyRefresh
| ClickSignIn
| SubmitSignIn (token : string)
| ClickSignOut
| ClickCancel (id app : string)
| ClickResume (id app : string)
| ClickRestart (id app : string)
| ClickPause (name app : string)
| ClickResumeSchedule (name app : string)
| ClickTrigger (name app : string)
| ClickDeleteRule (id app : string)
| ClickRevoke (name : string)
| ClickDeleteRole (name : string)
| ClickGrant (username role : string)
| ClickRemoveMember (username : string)
| ClickDeletePolicy
| SubmitRole (name : string) (permissions : list string)
| SubmitKey (name scope : string)
| OpenOther                          (* a form or the drawer of a step *)
| ClickConfirm                       (* the button of the confirmation dialog *)
| ClickCloseModal
| KeyEscape
| KeyCopied                          (* Copy & Done of a new key *)
| ClickTheme
| SetTheme (theme : string)          (* a set_theme message *)
| ClickFold
| ClickMobile
| ClickCloseMobile.

(** The listener of data-navigate: apostrophes are dropped. *)
Definition drop_apostrophes (s : string) : string := sfilter (λ a, negb (Ascii.eqb a "'")) s.

Definition click_navigate (route app : string) (k : console) : console :=
  let navPath := drop_apostrophes route in
  if String.eqb app "" then navigate navPath k
  else
    match split_char "/" navPath with
    | r :: id :: _ =>
        if String.eqb r "workflow" && negb (String.eqb id "") then
          match decodeURIComponent id with
          | Some wf => navigate navPath (set_wf_app app (<[wf := app]> (k_wfApps k)) k)
          | None => set_wf_app app (k_wfApps k) k
          end
        else navigate navPath (set_wf_app app (k_wfApps k) k)
    | _ => navigate navPath (set_wf_app app (k_wfApps k) k)
    end.

Definition has_modal (k : console) : bool :=
  match k_page k with Some p => match p_modal p with NoModal => false | _ => true end | None => false end.

Definition handle (ev : event) (k : console) : console :=
  match ev with
  | HashSet x => set_hash x k
  | HashChange => handleRouting k
  | ClickNavigate route app => click_navigate route app k
  | Answered i r =>
      match k_tasks k !! i with
      | Some t => resume t r (set_tasks (delete i (k_tasks k)) k)
      | None => k
      end
  | SelectOrg v => onOrgChange v k
  | SelectApp v => onAppChange v k
  | SelectPoll v => setPollInterval v k
  | PollTick i focused => if some (λ t, (fst t =? i)%nat) (v_timers (k_live k)) then poll focused k else k
  | StreamMessage i => stream_message i k
  | DebounceFires i focused => debounce_fires i focused k
  | ClickRefresh => renderContentView false k
  | KeyRefresh => if has_modal k then k else showToast "Telemetry refreshed" "info" (renderContentView false k)
  | ClickSignIn => openSignInModal k
  | SubmitSignIn token => submitSignIn (trim token) k
  | ClickSignOut => signOut k
  | ClickCancel id app => cancelWorkflow (drop_apostrophes id) app k
  | ClickResume id app => resumeWorkflow (drop_apostrophes id) app k
  | ClickRestart id app => restartWorkflow (drop_apostrophes id) app k
  | ClickPause name app => pauseSchedule (drop_apostrophes name) app k
  | ClickResumeSchedule name app => resumeSchedule (drop_apostrophes name) app k
  | ClickTrigger name app => triggerSchedule (drop_apostrophes name) app k
  | ClickDeleteRule id app => deleteAlertRule (drop_apostrophes id) app k
  | ClickRevoke name => revokeKey (drop_apostrophes name) k
  | ClickDeleteRole name => deleteRole (drop_apostrophes name) k
  | ClickGrant username role => grantMemberRole (drop_apostrophes username) role k
  | ClickRemoveMember username => removeMember (drop_apostrophes username) k
  | ClickDeletePolicy => deleteAutoscalingPolicy k
  | SubmitRole name permissions => submitCreateRole name permissions k
  | SubmitKey name scope => submitCreateKey name scope k
  | OpenOther => set_modal OtherModal k
  | ClickConfirm =>
      match k_page k with
      | Some p => match p_modal p with ConfirmModal _ => executePendingConfirm k | _ => k end
      | None => k
      end
  | ClickCloseModal => closeModal k
  | KeyEscape => if h_mobile (k_shell k) then closeMobileNav k else closeModal k
  | KeyCopied => renderContentView false (showToast "API key copied to clipboard" "success" (closeModal k))
  | ClickTheme => toggleTheme k
  | SetTheme theme => applyTheme theme k
  | ClickFold => toggleSidebarFold k
  | ClickMobile => toggleMobileNav k
  | ClickCloseMobile => closeMobileNav k
  end.

(** The states of a session that has started with the given storages. *)
Inductive reachable : console → Prop :=
| reachable_start session local dark hash t s a o : reachable (start session local dark hash t s a o)
| reachable_next k ev : reachable k → reachable (handle ev k).
End Live.
