(* ===== verification/ConsoleSpec.v ===== *)
(** The console's application object: the invariant of its states, and what
    follows from it for the stored choices, the live telemetry, the shown screen
    and the commands that need a confirmation. *)

From Stdlib Require Import ZArith Lia Ascii String.
From stdpp Require Import base list strings gmap.
From S2P Require Import Prelude Html Uri ApiClient ConsoleView ConsoleState.

(** ** Shapes

    A screen changes only the content of its element, the application of the
    workflow shown, and adds requests that are not commands. *)

Definition is_command (x : option string * request) : bool :=
  match snd x with Command _ _ => true | _ => false end.

(** The screen [r] may be shown under [route]: they agree, or one of them is the
    screen of one workflow. *)
Definition fits (r route : string) : Prop :=
  r = route ∨ r = "workflow-detail" ∨ route = "workflow-detail".

Definition card_fits (route : string) (c : content) : Prop :=
  match c with
  | Loading => True
  | Card r c => fits r route ∧ match c with DataCard a _ _ => a_route a = r | _ => True end
  end.

(** A waiting call that will write into the element [el]. *)
Definition writes (el : nat) (t : task) (r : string) : Prop :=
  match t with
  | AwaitScreen e a => e = el ∧ a_route a = r
  | AwaitApps (AppsThenFleet e) => e = el ∧ r = "fleet"
  | _ => False
  end.

Definition task_el (t : task) : nat :=
  match t with AwaitScreen e _ => e | AwaitApps (AppsThenFleet e) => e | _ => 0 end.

Definition put (w : string) (c : content) (ts : list task) (ss : list (option string * request))
    (k : console) : console :=
  set_sent (k_sent k ++ ss) (set_tasks (k_tasks k ++ ts) (set_wf_app w (k_wfApps k) (set_content c k))).

Record harmless (k : console) (c : content) (ts : list task) (ss : list (option string * request)) : Prop := {
  hl_sent : Forall (λ x, is_command x = false) ss;
  hl_none : k_page k = None → ts = [];
  hl_content p : k_page k = Some p → c = p_content p ∨ card_fits (h_route (k_shell k)) c;
  hl_tasks p : k_page k = Some p →
    Forall (λ t, task_el t = p_el p ∧ ∀ r, writes (p_el p) t r → fits r (h_route (k_shell k))) ts }.

Lemma put_none k c : k_page k = None → put (k_wfApp k) c [] [] k = k.
Proof.
  intros Hp. unfold put. destruct k; cbn in *. subst.
  unfold set_sent, set_tasks, set_wf_app, set_content, set_page; cbn. by rewrite !app_nil_r.
Qed.

Lemma detail_shape silent k :
  ∃ w c ts ss, renderWorkflowDetailScreen silent k = put w c ts ss k ∧ harmless k c ts ss.
Proof.
  unfold renderWorkflowDetailScreen. destruct (k_page k) as [p|] eqn:Hp.
  - set (a := ask_of "workflow-detail" (target_app k) k).
    exists (target_app k), (if silent then p_content p else Loading),
      [AwaitScreen (p_el p) a], [(k_client k, ScreenRequests a)]. split.
    + destruct k; cbn in Hp; subst; destruct p, silent; reflexivity.
    + split; [by repeat constructor|congruence| |];
        intros p'; rewrite Hp; intros [= <-].
      * destruct silent; [by left|by right].
      * constructor; [|done]. split; [done|]. intros r [_ <-]. right; left. done.
  - exists (k_wfApp k), Loading, [], []. rewrite put_none by done. split; [done|].
    split; [done|done|congruence|congruence].
Qed.

Lemma fits_refl r : fits r r.
Proof. by left. Qed.

Lemma content_shape silent k :
  ∃ w c ts ss, renderContentView silent k = put w c ts ss k ∧ harmless k c ts ss.
Proof.
  unfold renderContentView. destruct (k_page k) as [p|] eqn:Hp.
  2:{ exists (k_wfApp k), Loading, [], []. rewrite put_none by done. split; [done|].
      split; [done|done|congruence|congruence]. }
  set (k0 := if silent then k else set_content Loading k).
  assert (H0 : k_shell k0 = k_shell k ∧ k_page k0 = (λ p, Page (p_el p)
      (if silent then p_content p else Loading) (p_modal p) (p_title p) (p_app p) (p_mobile p) (p_folded p)) <$> k_page k).
  { subst k0. destruct silent; [|done]. split; [done|]. rewrite Hp. by destruct p. }
  assert (Hk : ∀ c, set_content c k0 = set_content c k).
  { intros c. subst k0. destruct silent; [done|]. unfold set_content, set_page; cbn. by destruct (k_page k). }
  assert (Hput : ∀ ts ss, set_sent (k_sent k0 ++ ss) (set_tasks (k_tasks k0 ++ ts) k0) =
            put (k_wfApp k) (if silent then p_content p else Loading) ts ss k).
  { intros ts ss. subst k0. unfold put, set_content. destruct silent; [|reflexivity].
    destruct k; cbn in *; subst; destruct p; reflexivity. }
  destruct H0 as [Hs _]. rewrite Hs.
  set (route := h_route (k_shell k)).
  destruct (String.eqb_spec route "fleet") as [Hr|_].
  { exists (k_wfApp k), (if silent then p_content p else Loading).
    eexists [_], [_]. split; [apply Hput|]. split; [by repeat constructor|congruence| |];
      intros p'; rewrite Hp; intros [= <-]; [destruct silent; [by left|by right]|].
    constructor; [|done]. split; [done|]. intros r [_ ->]. fold route. rewrite Hr. apply fits_refl. }
  destruct (String.eqb_spec route "workflow-detail") as [Hr|_].
  { destruct (detail_shape silent k) as (w & c & ts & ss & E & Hh). exists w, c, ts, ss. split; [|done].
    rewrite <- E. subst k0. destruct silent; [done|].
    unfold renderWorkflowDetailScreen, set_content, set_page; cbn. rewrite Hp. by destruct k. }
  destruct (_ && String.eqb (h_app (k_shell k)) "").
  { eexists (k_wfApp k), _, [], []. rewrite Hk. split.
    - unfold put, set_content, set_page, set_sent, set_tasks, set_wf_app. cbn. by rewrite !app_nil_r.
    - split; [done|done| |done]. intros p' _. right. split; [apply fits_refl|done]. }
  destruct (mem route _).
  { exists (k_wfApp k), (if silent then p_content p else Loading).
    eexists [_], [_]. split; [apply Hput|]. split; [by repeat constructor|congruence| |];
      intros p'; rewrite Hp; intros [= <-]; [destruct silent; [by left|by right]|].
    constructor; [|done]. split; [done|]. intros r [_ <-]. cbn. apply fits_refl. }
  eexists (k_wfApp k), _, [], []. rewrite Hk. split.
  - unfold put, set_content, set_page, set_sent, set_tasks, set_wf_app. cbn. by rewrite !app_nil_r.
  - split; [done|done| |done]. intros p' _. right. split; [apply fits_refl|done].
Qed.

(** ** The invariant *)

Definition live_ok (m : poll_mode) (l : live) : Prop :=
  match m with
  | Stream => v_timer l = None ∧ v_timers l = [] ∧ ∃ i sc, v_source l = Some i ∧ v_sources l = [(i, sc)]
  | Every ms =>
      v_source l = None ∧ v_sources l = [] ∧
      (if 0 <? ms then ∃ i, v_timer l = Some i ∧ v_timers l = [(i, ms)]
       else v_timer l = None ∧ v_timers l = [])
  end.

(** What holds of the element on the page and of the calls that write into it. *)
Record page_ok (k : console) (p : page) : Prop := {
  pg_nav : p_mobile p = h_mobile (k_shell k) ∧ p_folded p = h_folded (k_shell k);
  pg_confirm d : p_modal p = ConfirmModal d →
    ∃ c org, k_pending k = Some c ∧ dialog_of org c = Some d;
  pg_el : (p_el p < k_next k)%nat;
  pg_content : card_fits (h_route (k_shell k)) (p_content p);
  pg_tasks : Forall (λ t, ∀ r, writes (p_el p) t r → fits r (h_route (k_shell k))) (k_tasks k) }.

Record console_ok (k : console) : Prop := {
  ok_client : k_client k = h_key (k_shell k);
  ok_session : h_key (k_shell k) = if has_key (k_session k) then k_session k else None;
  ok_theme : k_attr k = h_theme (k_shell k) ∧ k_local k !! theme_key = Some (h_theme (k_shell k));
  ok_org : k_local k !! org_key = Some (h_org (k_shell k)) ∨
           (stored org_key (k_local k) = None ∧ h_org (k_shell k) = "default");
  ok_next : Forall (λ t, (task_el t < k_next k)%nat) (k_tasks k) ∧ (0 < k_next k)%nat;
  ok_page p : k_page k = Some p → page_ok k p }.

Lemma page_ok_ext k k' p :
  k_shell k' = k_shell k → k_pending k' = k_pending k → k_next k' = k_next k → k_tasks k' = k_tasks k →
  page_ok k p → page_ok k' p.
Proof. intros H1 H2 H3 H4 [? ? ? ? ?]. split; congruence || (rewrite ?H1, ?H2, ?H3, ?H4; done). Qed.

Lemma card_fits_put c p route : c = p_content p ∨ card_fits route c →
  card_fits route (p_content p) → card_fits route c.
Proof. intros [->|]; done. Qed.

Lemma put_ok w c ts ss k : harmless k c ts ss → console_ok k → console_ok (put w c ts ss k).
Proof.
  intros [Hs Hn Hc Hf] [H1 H2 H3 H4 [H5 H6] H7]. split; try done.
  - split; [|done]. cbn. apply Forall_app. split; [done|].
    destruct (k_page k) as [p|] eqn:E; [|by rewrite Hn].
    eapply Forall_impl; [by apply Hf|]. intros t [Ht _]. cbn in *. rewrite Ht. by apply H7.
  - cbn. destruct (k_page k) as [p|] eqn:E; [|done]. intros p' [= <-].
    destruct (H7 p eq_refl) as [? Hm He Hct Htk]. split; try done.
    + by eapply card_fits_put; [apply Hc|].
    + cbn. apply Forall_app. split; [done|]. eapply Forall_impl; [by apply Hf|]. by intros t [].
Qed.

Lemma content_ok silent k : console_ok k → console_ok (renderContentView silent k).
Proof. destruct (content_shape silent k) as (w & c & ts & ss & -> & Hh). by apply put_ok. Qed.

Lemma detail_ok silent k : console_ok k → console_ok (renderWorkflowDetailScreen silent k).
Proof. destruct (detail_shape silent k) as (w & c & ts & ss & -> & Hh). by apply put_ok. Qed.

(** The calls that wait belong to earlier elements than the next one. *)
Lemma old_tasks k : console_ok k →
  Forall (λ t, ∀ r, writes (k_next k) t r → fits r (h_route (k_shell k))) (k_tasks k).
Proof.
  intros H. destruct (ok_next _ H) as [Hf _]. eapply Forall_impl; [exact Hf|].
  intros [| [| |e] | e a |]; cbn; try done; intros Hlt r [He _]; lia.
Qed.

(** What [render] needs: everything but the state of the page. *)
Record core_ok (k : console) : Prop := {
  co_client : k_client k = h_key (k_shell k);
  co_session : h_key (k_shell k) = if has_key (k_session k) then k_session k else None;
  co_theme : k_attr k = h_theme (k_shell k) ∧ k_local k !! theme_key = Some (h_theme (k_shell k));
  co_org : k_local k !! org_key = Some (h_org (k_shell k)) ∨
           (stored org_key (k_local k) = None ∧ h_org (k_shell k) = "default");
  co_next : Forall (λ t, (task_el t < k_next k)%nat) (k_tasks k) ∧ (0 < k_next k)%nat }.

Lemma ok_core k : console_ok k → core_ok k.
Proof. by intros []. Qed.

(** The elements that [render] makes, before their content. *)
Lemma new_page_ok k : core_ok k →
  console_ok (set_next (S (k_next k)) (set_page (Some (Page (k_next k) Loading NoModal
    (getRouteTitle (k_shell k)) (h_app (k_shell k)) (h_mobile (k_shell k)) (h_folded (k_shell k)))) k)).
Proof.
  intros [H1 H2 H3 H4 [H5 H6]]. split; try done; cbn.
  - split; [|lia]. eapply Forall_impl; [exact H5|]. intros t Ht. cbn in *. lia.
  - intros p [= <-]. split; cbn; try done; [lia|].
    eapply Forall_impl; [exact H5|].
    intros [| [| |e] | e a |]; cbn; try done; intros Hlt r [He _]; lia.
Qed.

Lemma render_ok k : core_ok k → console_ok (render k).
Proof. intros H. by apply content_ok, new_page_ok. Qed.

Lemma routing_ok k : console_ok k → console_ok (handleRouting k).
Proof.
  intros H. pose proof (ok_core _ H) as Hc. unfold handleRouting.
  assert (Hr : ∀ r wf, console_ok (render (set_shell (with_route r wf (k_shell k)) k))).
  { intros r wf. apply render_ok. by destruct Hc. }
  set (parts := split_char _ _). destruct parts as [|r [|id rest]]; [apply Hr..|].
  cbn [head default]. case_tests; [|apply Hr].
  destruct (decodeURIComponent id); [apply Hr|].
  destruct H as [H1 H2 H3 H4 H5 H6]. split; try done. intros p Hp.
  destruct (H6 p Hp) as [? ? ? Hct Htk]. split; try done; cbn.
  - destruct (p_content p) as [|r' c]; [done|]. destruct Hct as [_ Hd]. split; [|done].
    by right; right.
  - eapply Forall_impl; [exact Htk|]. intros t Ht r' Hw. by right; right.
Qed.

(** Operations that leave the page, the route and the pending calls alone. *)
Lemma frame_ok k k' :
  console_ok k →
  h_route (k_shell k') = h_route (k_shell k) →
  h_mobile (k_shell k') = h_mobile (k_shell k) → h_folded (k_shell k') = h_folded (k_shell k) →
  k_page k' = k_page k → k_pending k' = k_pending k → k_tasks k' = k_tasks k →
  (k_next k <= k_next k')%nat →
  (core_ok k → core_ok k') → console_ok k'.
Proof.
  intros H Hr Hm Hf Hp Hc Ht Hn Hcore. destruct (Hcore (ok_core _ H)) as [? ? ? ? ?].
  split; try done. intros p Hp'. rewrite Hp in Hp'. destruct (ok_page _ H p Hp') as [? ? ? ? ?].
  split; rewrite ?Hr, ?Hm, ?Hf, ?Hc, ?Ht; try done. lia.
Qed.

Lemma send_ok r t k :
  (∀ e x, ¬ writes e t x) → task_el t = 0%nat → console_ok k → console_ok (send r t k).
Proof.
  intros Hw He [H1 H2 H3 H4 [H5 H6] H7]. split; try done; cbn.
  - split; [|done]. apply Forall_app. split; [done|]. constructor; [|done]. by rewrite He.
  - intros p Hp. destruct (H7 p Hp) as [? ? ? ? Htk]. split; try done. cbn.
    apply Forall_app. split; [done|]. constructor; [|done]. intros x Hx. by destruct (Hw _ _ Hx).
Qed.

Lemma modal_ok m k : (∀ d, m ≠ ConfirmModal d) → console_ok k → console_ok (set_modal m k).
Proof.
  intros Hm [H1 H2 H3 H4 H5 H6]. split; try done. cbn.
  destruct (k_page k) as [p|]; [|done]. intros p' [= <-].
  destruct (H6 p eq_refl) as [? ? ? ? ?]. split; try done. intros d Hd. by destruct (Hm d).
Qed.

Lemma showConfirm_ok c k : console_ok k → console_ok (showConfirm c k).
Proof.
  intros H. unfold showConfirm. destruct (k_page k) as [p|] eqn:Hp; [|done].
  destruct (dialog_of _ c) as [d|] eqn:Hd; [|done].
  destruct H as [H1 H2 H3 H4 H5 H6]. split; try done. cbn. rewrite Hp. intros p' [= <-].
  destruct (H6 p Hp) as [? ? ? ? ?]. split; try done. cbn. intros d' [= <-]. eauto.
Qed.

Lemma confirm_ok k : console_ok k → console_ok (executePendingConfirm k).
Proof.
  intros H. unfold executePendingConfirm.
  assert (Hc : console_ok (closeModal (set_pending None k))).
  { destruct H as [H1 H2 H3 H4 H5 H6]. split; try done. cbn.
    destruct (k_page k) as [p|]; [|done]. intros p' [= <-].
    destruct (H6 p eq_refl) as [? ? ? ? ?]. by split. }
  destruct (k_pending k); [|done]. apply send_ok; [by intros ? ? []|done..].
Qed.

Lemma toast_ok m t k : console_ok k → console_ok (showToast m t k).
Proof. intros H. apply (frame_ok k); try done. by intros []. Qed.

Lemma wf_app_ok w m k : console_ok k → console_ok (set_wf_app w m k).
Proof. intros H. apply (frame_ok k); try done. by intros []. Qed.

Lemma hash_ok x k : console_ok k → console_ok (set_hash x k).
Proof. intros H. apply (frame_ok k); try done. by intros []. Qed.

Lemma header_ok t a k : console_ok k → console_ok (set_header t a k).
Proof.
  intros [H1 H2 H3 H4 H5 H6]. split; try done. cbn.
  destruct (k_page k) as [p|]; [|done]. intros p' [= <-].
  destruct (H6 p eq_refl) as [? ? ? ? ?]. by split.
Qed.

Lemma key_ok key k :
  (key ≠ Some "") → console_ok k → console_ok (setApiKey key k).
Proof.
  intros Hk H. apply (frame_ok k); try done. intros []. split; try done. cbn.
  destruct key as [s|]; [|done]. cbn. destruct (String.eqb_spec s ""); [congruence|]. cbn.
  by destruct (String.eqb_spec s "").
Qed.

Lemma stored_some key l s : stored key l = Some s → l !! key = Some s.
Proof. unfold stored. destruct (l !! key) as [v|]; [|done]. by case_tests. Qed.

Lemma organizations_ok r k : console_ok k → console_ok (loadOrganizations r k).
Proof.
  intros H. unfold loadOrganizations.
  assert (Hs : ∀ names, console_ok (match names with
    | n0 :: _ =>
        let org := match stored org_key (k_local k) with
                   | Some s => if mem s names then s else if mem "default" names then "default" else n0
                   | None => if mem "default" names then "default" else n0 end in
        set_local (<[org_key := org]> (k_local k)) (set_shell (with_orgs org names (k_shell k)) k)
    | [] => set_shell (with_orgs (default (h_org (k_shell k)) (stored org_key (k_local k))) [] (k_shell k)) k
    end)).
  { intros [|n0 names]; apply (frame_ok k); try done; intros [? ? ? Ho ?]; split; try done; cbn.
    - destruct (stored org_key (k_local k)) as [s|] eqn:E; [|done]. left. by apply stored_some.
    - by rewrite lookup_insert_ne.
    - left. by rewrite lookup_insert_eq. }
  destruct r as [l| |e]; [apply (Hs l)|apply (Hs [])|].
  destruct (status_is 404 e); [apply (Hs [])|].
  apply (frame_ok k); try done. by intros [].
Qed.

Lemma applications_ok r k : console_ok k → console_ok (loadApplications r k).
Proof.
  intros H. unfold loadApplications. destruct r; apply (frame_ok k); try done; by intros [].
Qed.

Section Live.
Context (can_open : string → string → bool).

Lemma poll_every_ok ms k : console_ok k → console_ok (poll_every ms k).
Proof.
  intros H. unfold poll_every. destruct (0 <? ms); apply (frame_ok k); try done; cbn; try lia.
  - intros [? ? ? ? [Hf ?]]. split; try done. cbn. split; [|lia].
    eapply Forall_impl; [exact Hf|]. intros t Ht. cbn in *. lia.
  - by intros [].
Qed.

Lemma startSSE_ok k : console_ok k → console_ok (startSSE can_open k).
Proof.
  intros H. unfold startSSE. cbn -[poll_every]. destruct (can_open _ _).
  - apply (frame_ok k); try done; cbn; try lia.
    intros [? ? ? ? [Hf ?]]. split; try done. cbn. split; [|lia].
    eapply Forall_impl; [exact Hf|]. intros t Ht. cbn in *. lia.
  - apply poll_every_ok. apply (frame_ok k); try done. by intros [].
Qed.

Lemma poll_ok focused k : console_ok k → console_ok (poll focused k).
Proof.
  intros H. unfold poll. destruct (k_page k) as [p|].
  - destruct (p_modal p); try done. destruct focused; [done|by apply content_ok].
  - destruct focused; [done|by apply content_ok].
Qed.
End Live.

Lemma frame_ok_none k k' :
  console_ok k → k_page k = None → k_page k' = None → (core_ok k → core_ok k') → console_ok k'.
Proof.
  intros H _ Hp Hcore. destruct (Hcore (ok_core _ H)). split; try done. congruence.
Qed.

(** ** Every event keeps the invariant *)

#[local] Hint Resolve content_ok detail_ok render_ok routing_ok toast_ok wf_app_ok hash_ok header_ok
  showConfirm_ok confirm_ok organizations_ok applications_ok poll_every_ok startSSE_ok poll_ok ok_core
  : console.

Lemma closeModal_ok k : console_ok k → console_ok (closeModal k).
Proof. by apply modal_ok. Qed.

Lemma run_command_ok c k : console_ok k → console_ok (run_command c k).
Proof. intros H. apply send_ok; [by intros ? ? []|done..]. Qed.

#[local] Hint Resolve closeModal_ok run_command_ok : console.

Lemma nav_ok m f k :
  console_ok k →
  console_ok (set_nav m f (set_shell (with_nav m f (k_shell k)) k)).
Proof.
  intros [H1 H2 H3 H4 H5 H6]. split; try done. cbn.
  destruct (k_page k) as [p|]; [|done]. intros p' [= <-].
  destruct (H6 p eq_refl) as [? ? ? ? ?]. by split.
Qed.

Lemma set_mobile_ok m k : console_ok k → console_ok (set_mobile m k).
Proof.
  intros H. unfold set_mobile. destruct (k_page k) as [p|] eqn:Hp.
  - destruct (ok_page _ H p Hp) as [[_ ->] _ _ _ _]. by apply nav_ok.
  - apply (frame_ok_none k); try done; cbn; [by rewrite Hp|by intros []].
Qed.

Lemma toggleSidebarFold_ok k : console_ok k → console_ok (toggleSidebarFold k).
Proof.
  intros H. unfold toggleSidebarFold. cbn -[set_nav fold_key].
  set (f := negb _). set (v := if f then _ else _).
  assert (Hl : ∀ k', console_ok k' → console_ok (set_local (<[fold_key := v]> (k_local k')) k')).
  { intros k' H'. apply (frame_ok k'); try done. intros [? ? [? ?] ? ?]. split; try done; cbn.
    - by rewrite lookup_insert_ne.
    - unfold stored. by rewrite !lookup_insert_ne. }
  destruct (k_page k) as [p|] eqn:Hp.
  - destruct (ok_page _ H p Hp) as [[-> _] _ _ _ _].
    apply (Hl (set_nav (h_mobile (k_shell k)) f (set_shell (with_nav (h_mobile (k_shell k)) f (k_shell k)) k))).
    by apply nav_ok.
  - apply (Hl (set_nav false f (set_shell (with_nav (h_mobile (k_shell k)) f (k_shell k)) k))).
    apply (frame_ok_none k); try done; cbn; [by rewrite Hp|by intros []].
Qed.

Lemma theme_ok t k : console_ok k → console_ok (applyTheme t k).
Proof.
  intros H. apply (frame_ok k); try done. intros [? ? ? ? ?]. split; try done; cbn.
  - by rewrite lookup_insert_eq.
  - unfold stored. by rewrite !lookup_insert_ne.
Qed.

#[local] Hint Resolve closeModal_ok set_mobile_ok toggleSidebarFold_ok theme_ok : console.

Lemma opened_ok app id k : console_ok k → console_ok (opened_workflow app id k).
Proof. intros H. unfold opened_workflow. apply hash_ok. case_tests; eauto with console. Qed.

Lemma command_ok c data k : console_ok k → console_ok (command_done c data k).
Proof.
  intros H. destruct c; cbn [command_done]; try apply opened_ok; try (by apply modal_ok);
    eauto 6 with console.
Qed.

Lemma write_ok el a r k : console_ok k →
  (∀ p, k_page k = Some p → el = p_el p → fits (a_route a) (h_route (k_shell k))) →
  console_ok (write_screen el a r k).
Proof.
  intros H Hf. unfold write_screen. destruct (k_page k) as [p|] eqn:Hp; [|done].
  destruct (Nat.eqb_spec (p_el p) el) as [He|]; [|done].
  destruct H as [H1 H2 H3 H4 H5 H6]. split; try done. cbn. rewrite Hp. intros p' [= <-].
  destruct (H6 p Hp) as [? ? ? ? ?]. split; try done. cbn. split; [by eapply Hf|].
  destruct r; try done. unfold failed_card. by case_tests.
Qed.

(** A waiting call is in order. *)
Definition task_ok (k : console) (t : task) : Prop :=
  (task_el t < k_next k)%nat ∧
  ∀ p, k_page k = Some p → ∀ r, writes (p_el p) t r → fits r (h_route (k_shell k)).

Lemma send_task_ok r t k : task_ok k t → console_ok k → console_ok (send r t k).
Proof.
  intros [Ht Hw] [H1 H2 H3 H4 [H5 H6] H7]. split; try done; cbn.
  - split; [|done]. apply Forall_app. split; [done|]. by constructor.
  - intros p Hp. destruct (H7 p Hp) as [? ? ? ? Htk]. split; try done. cbn.
    apply Forall_app. split; [done|]. constructor; [|done]. by apply Hw.
Qed.

Lemma console_tasks_ok k i t : console_ok k → k_tasks k !! i = Some t →
  task_ok k t ∧ console_ok (set_tasks (delete i (k_tasks k)) k).
Proof.
  intros H Hi. assert (Hsub : ∀ P, Forall P (k_tasks k) → Forall P (delete i (k_tasks k))).
  { intros P Hf. by apply Forall_delete. }
  split.
  - split.
    + destruct (ok_next _ H) as [Hf _]. by eapply Forall_lookup_1 in Hf.
    + intros p Hp. pose proof (pg_tasks _ _ (ok_page _ H p Hp)) as Hf.
      by eapply Forall_lookup_1 in Hf.
  - destruct H as [H1 H2 H3 H4 [H5 H6] H7]. split; try done; cbn.
    + split; [|done]. by apply Hsub.
    + intros p Hp. destruct (H7 p Hp) as [? ? ? ? ?]. split; try done. cbn. by apply Hsub.
Qed.

Lemma applications_frame r k :
  let k' := loadApplications r k in
  k_page k' = k_page k ∧ k_next k' = k_next k ∧ h_route (k_shell k') = h_route (k_shell k) ∧
  h_poll (k_shell k') = h_poll (k_shell k) ∧ k_live k' = k_live k ∧ k_sent k' = k_sent k.
Proof. by destruct r. Qed.

Section Events.
Context (can_open : string → string → bool).

Lemma resume_ok t r k : console_ok k → task_ok k t → console_ok (resume can_open t r k).
Proof.
  intros H [Ht Hw]. destruct t as [[|p]|[p| |el]|el a|c]; cbn [resume].
  - eauto with console.
  - apply send_ok; [by intros ? ? []|done|eauto with console].
  - pose proof (applications_ok r k H) as Ha. set (k' := loadApplications r k) in *. clearbody k'.
    case_tests; [|by apply routing_ok]. apply routing_ok. apply (frame_ok k'); try done. by intros [].
  - pose proof (applications_ok r k H) as Ha.
    destruct (h_poll _); eauto with console.
  - destruct (applications_frame r k) as (Hp & Hn & Hr & _).
    apply send_task_ok; [|by apply applications_ok]. split; [by rewrite Hn|].
    rewrite Hp, Hr. intros p E x [He <-]. apply (Hw p E). by split.
  - apply write_ok; [done|]. intros p Hp ->. by apply (Hw p Hp).
  - destruct r; eauto using command_ok with console.
Qed.

Lemma with_apps_ok a l k : console_ok k → console_ok (set_shell (with_apps a l (k_shell k)) k).
Proof. intros H. apply (frame_ok k); try done. by intros []. Qed.

Lemma app_local_ok l k :
  l !! theme_key = k_local k !! theme_key → l !! org_key = k_local k !! org_key →
  console_ok k → console_ok (set_local l k).
Proof.
  intros Ht Ho H. apply (frame_ok k); try done. intros [? ? ? ? ?]. split; try done; cbn.
  - by rewrite Ht.
  - unfold stored. by rewrite Ho.
Qed.

(** The page and the storage with another application. *)
Lemma app_chosen_ok v k :
  let h := with_apps v (h_apps (k_shell k)) (k_shell k) in
  console_ok k →
  console_ok (set_header (getRouteTitle h) v
    (set_local (if String.eqb v "" then delete app_key (k_local k) else <[app_key := v]> (k_local k)) (set_shell h k))).
Proof.
  intros h H. apply header_ok, app_local_ok; [..|by apply with_apps_ok];
    case_tests; cbn; by rewrite ?lookup_delete_ne, ?lookup_insert_ne.
Qed.

Lemma onAppChange_ok v k : console_ok k → console_ok (onAppChange can_open v k).
Proof.
  intros H. unfold onAppChange. apply content_ok. cbn -[startSSE set_header].
  pose proof (app_chosen_ok v k H) as H1. set (k1 := set_header _ _ _) in *.
  clearbody k1. destruct (h_poll (k_shell k)); eauto with console.
Qed.

Lemma onOrgChange_ok v k : console_ok k → console_ok (onOrgChange v k).
Proof.
  intros H. unfold onOrgChange. case_tests; [done|].
  apply send_ok; [by intros ? ? []|done|].
  set (k1 := match h_key (k_shell k) with Some _ => _ | None => _ end).
  assert (H1 : console_ok k1).
  { subst k1. destruct (h_key _); [|done]. case_tests; [|done]. by apply toast_ok, key_ok. }
  clearbody k1. apply (frame_ok k1); try done. intros [? ? [? ?] ? ?]. split; try done; cbn.
  - by rewrite lookup_delete_ne, lookup_insert_ne.
  - left. by rewrite lookup_delete_ne, lookup_insert_eq.
Qed.

Lemma setPollInterval_ok m k : console_ok k → console_ok (setPollInterval can_open m k).
Proof.
  intros H. unfold setPollInterval. case_tests; [|eauto with console].
  apply startSSE_ok. apply (frame_ok k); try done. by intros [].
Qed.

Lemma live_frame_ok l k : console_ok k → console_ok (set_live l k).
Proof. intros H. apply (frame_ok k); try done. by intros []. Qed.

Lemma sign_ok key k : key ≠ Some "" → console_ok k → console_ok (closeModal (setApiKey key k)).
Proof. intros. by apply closeModal_ok, key_ok. Qed.

Lemma navigate_click_ok r a k : console_ok k → console_ok (click_navigate r a k).
Proof.
  intros H. unfold click_navigate, navigate. case_tests; [eauto with console|].
  destruct (split_char _ _) as [|x [|y l]]; eauto with console.
  case_tests; [destruct (decodeURIComponent y)|]; eauto with console.
Qed.

Lemma console_handle_ok ev k : console_ok k → console_ok (handle can_open ev k).
Proof.
  intros H.
  destruct ev; cbn [handle]; eauto with console;
    try (unfold cancelWorkflow, deleteAlertRule, revokeKey, deleteRole, removeMember,
           deleteAutoscalingPolicy; by apply showConfirm_ok);
    try (unfold resumeWorkflow, restartWorkflow, pauseSchedule, resumeSchedule, triggerSchedule;
         by apply run_command_ok).
  - by apply navigate_click_ok.
  - destruct (k_tasks k !! i) as [t|] eqn:Hi; [|done].
    destruct (console_tasks_ok k i t H Hi) as [[Ht Hw] Hk]. by apply resume_ok.
  - by apply onOrgChange_ok.
  - by apply onAppChange_ok.
  - by apply setPollInterval_ok.
  - case_tests; eauto with console.
  - unfold stream_message. case_tests; [by apply live_frame_ok|done].
  - unfold debounce_fires. case_tests; [by apply poll_ok, live_frame_ok|done].
  - case_tests; eauto with console.
  - by apply modal_ok.
  - unfold submitSignIn. apply send_ok; [by intros ? ? []|done|].
    destruct (String.eqb_spec (trim token) ""); cbn [negb]; apply toast_ok, sign_ok; congruence.
  - unfold signOut. apply send_ok; [by intros ? ? []|done|]. by apply toast_ok, sign_ok.
  - unfold grantMemberRole. case_tests; eauto with console.
  - unfold submitCreateRole. case_tests; eauto with console.
  - unfold submitCreateKey. case_tests; eauto with console.
  - by apply modal_ok.
  - destruct (k_page k) as [p|]; [destruct (p_modal p)|]; eauto with console.
  - case_tests; [by apply set_mobile_ok|eauto with console].
  - unfold toggleTheme. eauto with console.
  - unfold toggleMobileNav. eauto with console.
  - unfold closeMobileNav. eauto with console.
Qed.

Lemma start_ok session local dark hash t s a o : console_ok (start session local dark hash t s a o).
Proof.
  unfold start, init. apply send_ok; [by intros ? ? []|done|].
  split; cbn -[org_key theme_key]; try done.
  - split; [done|]. by rewrite lookup_insert_eq.
  - unfold stored, or_else. rewrite !(lookup_insert_ne _ theme_key org_key) by done.
    destruct (String.eqb_spec o "") as [->|Ho].
    + assert (Ha : (if String.eqb a "" then local else <[app_key:=a]> local) !! org_key = local !! org_key).
      { case_tests; [done|]. by rewrite lookup_insert_ne. }
      rewrite Ha. destruct (local !! org_key) as [v|]; [|by right].
      destruct (String.eqb v ""); [by right|by left].
    + left. by rewrite lookup_insert_eq.
  - split; [done|lia].
Qed.

Lemma console_reachable_ok k : reachable can_open k → console_ok k.
Proof. induction 1; [apply start_ok|by apply console_handle_ok]. Qed.
End Events.

(** ** Live telemetry *)

(** The part of the state that says how the page is refreshed. *)
Definition telemetry (k : console) :=
  let l := k_live k in (h_poll (k_shell k), v_timer l, v_timers l, v_source l, v_sources l).

Definition telemetry_ok (k : console) : Prop := live_ok (h_poll (k_shell k)) (k_live k).

Lemma same_telemetry k k' : telemetry k' = telemetry k → telemetry_ok k → telemetry_ok k'.
Proof. unfold telemetry_ok, live_ok. intros [= -> -> -> -> ->]. done. Qed.

Lemma content_telemetry s k : telemetry (renderContentView s k) = telemetry k.
Proof. by destruct (content_shape s k) as (w & c & ts & ss & -> & _). Qed.

Lemma detail_telemetry s k : telemetry (renderWorkflowDetailScreen s k) = telemetry k.
Proof. by destruct (detail_shape s k) as (w & c & ts & ss & -> & _). Qed.

Lemma render_telemetry k : telemetry (render k) = telemetry k.
Proof. unfold render. by rewrite content_telemetry. Qed.

Lemma routing_telemetry k : telemetry (handleRouting k) = telemetry k.
Proof.
  unfold handleRouting. destruct (split_char _ _) as [|r [|id rest]]; cbn [head default];
    rewrite ?render_telemetry; try done.
  case_tests; [|by rewrite render_telemetry].
  destruct (decodeURIComponent id); [by rewrite render_telemetry|done].
Qed.

Lemma confirm_telemetry c k : telemetry (showConfirm c k) = telemetry k.
Proof. unfold showConfirm. destruct (k_page k); [|done]. by destruct (dialog_of _ c). Qed.

Lemma command_telemetry c d k : telemetry (command_done c d k) = telemetry k.
Proof.
  destruct c; cbn [command_done]; rewrite ?content_telemetry, ?detail_telemetry; try done;
    unfold opened_workflow; by case_tests.
Qed.

Lemma organizations_telemetry r k : telemetry (loadOrganizations r k) = telemetry k.
Proof. destruct r as [[|]| |e]; try done. cbn. by case_tests. Qed.

Lemma applications_telemetry r k : telemetry (loadApplications r k) = telemetry k.
Proof. by destruct r. Qed.

Lemma poll_telemetry f k : telemetry (poll f k) = telemetry k.
Proof.
  unfold poll. destruct (k_page k) as [p|]; [destruct (p_modal p)|]; try done;
    destruct f; rewrite ?content_telemetry; done.
Qed.

#[local] Hint Rewrite content_telemetry detail_telemetry render_telemetry routing_telemetry
  confirm_telemetry command_telemetry organizations_telemetry applications_telemetry
  poll_telemetry : telemetry.

Lemma drop_own {A} (i : nat) (x : A) : drop_key i [(i, x)] = [].
Proof. unfold drop_key, keep. cbn. by rewrite Nat.eqb_refl. Qed.

(** Switching everything off leaves nothing behind. *)
Definition silent_live (l : live) : Prop :=
  v_timer l = None ∧ v_timers l = [] ∧ v_source l = None ∧ v_sources l = [].

Lemma switched_off m l : live_ok m l → silent_live (close_source (clear_timer l)).
Proof.
  destruct l as [t ts s ss a], m as [|ms]; unfold live_ok, silent_live; cbn -[drop_key].
  - intros (-> & -> & i & sc & -> & ->). cbn -[drop_key]. by rewrite drop_own.
  - intros (-> & -> & Ht). destruct (0 <? ms).
    + destruct Ht as (i & -> & ->). cbn -[drop_key]. by rewrite drop_own.
    + by destruct Ht as [-> ->].
Qed.

Lemma poll_every_live ms k :
  silent_live (close_source (clear_timer (k_live k))) → telemetry_ok (poll_every ms k).
Proof.
  intros (H1 & H2 & H3 & H4). unfold poll_every, telemetry_ok, live_ok.
  destruct (0 <? ms) eqn:E; cbn -[close_source clear_timer]; rewrite E, ?H2, ?H3, ?H4; eauto.
Qed.

Section Telemetry.
Context (can_open : string → string → bool).

(** [startSSE] replaces the stream there is, or falls back to polling. *)
Lemma startSSE_live k :
  h_poll (k_shell k) = Stream → v_timer (k_live k) = None → v_timers (k_live k) = [] →
  v_sources (close_source (k_live k)) = [] →
  telemetry_ok (startSSE can_open k).
Proof.
  intros Hm Ht Hts Hs. unfold startSSE. cbn -[poll_every close_source].
  assert (Hc : v_timer (close_source (k_live k)) = None ∧ v_timers (close_source (k_live k)) = [] ∧
               v_source (close_source (k_live k)) = None).
  { unfold close_source. by destruct (v_source (k_live k)) eqn:E. }
  destruct Hc as (Hc1 & Hc2 & Hc3). destruct (can_open _ _).
  - unfold telemetry_ok, live_ok. cbn -[close_source]. rewrite Hm, Hs; cbn. eauto 6.
  - apply poll_every_live. cbn -[close_source clear_timer]. revert Hs Hc1 Hc2 Hc3.
    destruct (close_source (k_live k)) as [t ts s ss a]. cbn. intros -> -> -> ->. done.
Qed.

Lemma restart_live k :
  h_poll (k_shell k) = Stream → telemetry_ok k → telemetry_ok (startSSE can_open k).
Proof.
  unfold telemetry_ok at 1, live_ok. intros Hm. rewrite Hm. intros (Ht & Hts & i & sc & Hs & Hss).
  apply startSSE_live; try done. unfold close_source. rewrite Hs. cbn. by rewrite Hss, drop_own.
Qed.

Lemma setPollInterval_live m k : telemetry_ok k → telemetry_ok (setPollInterval can_open m k).
Proof.
  intros H%switched_off. unfold setPollInterval. case_tests; [|by apply poll_every_live].
  destruct H as (H1 & H2 & H3 & H4). apply startSSE_live; cbn -[close_source clear_timer]; try done.
  unfold close_source at 1. by rewrite H3.
Qed.

Lemma resume_live t r k : telemetry_ok k → telemetry_ok (resume can_open t r k).
Proof.
  intros H. destruct t as [[|p]|[p| |el]|el a|c]; cbn [resume].
  - eapply same_telemetry; [|exact H]. by autorewrite with telemetry.
  - eapply same_telemetry; [|exact H]. exact (organizations_telemetry r k).
  - eapply same_telemetry; [|exact H]. rewrite routing_telemetry.
    case_tests; exact (applications_telemetry r k).
  - assert (H' : telemetry_ok (render (loadApplications r k))).
    { eapply same_telemetry; [|exact H]. by autorewrite with telemetry. }
    assert (Hm : h_poll (k_shell (render (loadApplications r k))) = h_poll (k_shell (loadApplications r k))).
    { pose proof (render_telemetry (loadApplications r k)) as E. by injection E. }
    destruct (h_poll (k_shell (loadApplications r k))); [by apply restart_live|done].
  - eapply same_telemetry; [|exact H]. by destruct r.
  - eapply same_telemetry; [|exact H]. unfold write_screen. destruct (k_page k); [|done]. by case_tests.
  - eapply same_telemetry; [|exact H]. destruct r; by autorewrite with telemetry.
Qed.

Lemma handle_live ev k : telemetry_ok k → telemetry_ok (handle can_open ev k).
Proof.
  intros H.
  assert (Hs : ∀ k', telemetry k' = telemetry k → telemetry_ok k').
  { intros k' E. by eapply same_telemetry. }
  destruct ev; cbn [handle];
    try (apply Hs; unfold cancelWorkflow, deleteAlertRule, revokeKey, deleteRole, removeMember,
           deleteAutoscalingPolicy; by autorewrite with telemetry).
  - apply Hs. unfold click_navigate. case_tests; [done|].
    destruct (split_char _ _) as [|x [|y l]]; try done.
    case_tests; [by destruct (decodeURIComponent y)|done].
  - destruct (k_tasks k !! i); [by apply resume_live|done].
  - apply Hs. unfold onOrgChange. case_tests; [done|]. destruct (h_key (k_shell k)); [|done]. by case_tests.
  - unfold onAppChange. eapply same_telemetry; [apply content_telemetry|].
    cbn -[startSSE set_header]. destruct (h_poll (k_shell k)) eqn:E.
    + apply restart_live; [done|]. by apply Hs.
    + by apply Hs.
  - by apply setPollInterval_live.
  - apply Hs. case_tests; by autorewrite with telemetry.
  - apply Hs. unfold stream_message. by case_tests.
  - apply Hs. unfold debounce_fires. case_tests; by autorewrite with telemetry.
  - apply Hs. case_tests; [done|]. unfold showToast. by rewrite <- (content_telemetry false k).
  - apply Hs. unfold submitSignIn. by case_tests.
  - apply Hs. unfold grantMemberRole. by case_tests.
  - apply Hs. unfold submitCreateRole. by case_tests.
  - apply Hs. unfold submitCreateKey. by case_tests.
  - apply Hs. destruct (k_page k) as [p|]; [|done]. destruct (p_modal p); try done.
    unfold executePendingConfirm. by destruct (k_pending k).
  - apply Hs. by case_tests.
Qed.

Lemma reachable_live k : reachable can_open k → telemetry_ok k.
Proof.
  induction 1; [|by apply handle_live]. unfold telemetry_ok, live_ok, start, init. cbn -[applyTheme].
  by repeat split.
Qed.
End Telemetry.

(** ** Requests *)

(** A command that should have been confirmed. *)
Definition dangerous (x : option string * request) : bool :=
  match snd x with Command _ c => needs_confirm c | _ => false end.

(** From [k] to [k'] no such command is sent. *)
Definition safe (k k' : console) : Prop :=
  ∃ new, k_sent k' = k_sent k ++ new ∧ Forall (λ x, dangerous x = false) new.

Lemma safe_same k k' : k_sent k' = k_sent k → safe k k'.
Proof. intros E. exists []. by rewrite E, app_nil_r. Qed.

Lemma safe_trans a b c : safe a b → safe b c → safe a c.
Proof.
  intros (n & E & Hn) (m & E' & Hm). exists (n ++ m).
  rewrite E', E, <- app_assoc. split; [done|]. by apply Forall_app.
Qed.

Lemma safe_after a b c : k_sent b = k_sent a → safe b c → safe a c.
Proof. intros E (n & E' & Hn). exists n. by rewrite E', E. Qed.

Lemma safe_send r t k : dangerous (k_client k, r) = false → safe k (send r t k).
Proof. intros H. exists [(k_client k, r)]. split; [done|]. by repeat constructor. Qed.

Lemma safe_put w c ts ss k : harmless k c ts ss → safe k (put w c ts ss k).
Proof.
  intros [Hs _ _ _]. exists ss. split; [done|]. eapply Forall_impl; [exact Hs|].
  intros [o []]; cbn; congruence.
Qed.

Lemma content_safe s k : safe k (renderContentView s k).
Proof. destruct (content_shape s k) as (w & c & ts & ss & -> & Hh). by apply safe_put. Qed.

Lemma detail_safe s k : safe k (renderWorkflowDetailScreen s k).
Proof. destruct (detail_shape s k) as (w & c & ts & ss & -> & Hh). by apply safe_put. Qed.

Lemma render_safe k : safe k (render k).
Proof. eapply safe_after; [|apply content_safe]; done. Qed.

Lemma routing_safe k : safe k (handleRouting k).
Proof.
  unfold handleRouting.
  assert (Hr : ∀ r wf, safe k (render (set_shell (with_route r wf (k_shell k)) k))).
  { intros r wf. eapply safe_after; [|apply render_safe]; done. }
  destruct (split_char _ _) as [|r [|id rest]]; cbn [head default]; try apply Hr.
  case_tests; [|apply Hr]. destruct (decodeURIComponent id); [apply Hr|by apply safe_same].
Qed.

Lemma showConfirm_sent c k : k_sent (showConfirm c k) = k_sent k.
Proof. unfold showConfirm. destruct (k_page k); [|done]. by destruct (dialog_of _ c). Qed.

Lemma organizations_sent r k : k_sent (loadOrganizations r k) = k_sent k.
Proof. destruct r as [[|]| |e]; try done. cbn. by case_tests. Qed.

Lemma poll_safe f k : safe k (poll f k).
Proof.
  unfold poll. destruct (k_page k) as [p|]; [destruct (p_modal p)|]; try (by apply safe_same);
    destruct f; try (by apply safe_same); apply content_safe.
Qed.

Lemma command_safe c d k : safe k (command_done c d k).
Proof.
  assert (Hc : ∀ k', k_sent k' = k_sent k → safe k (renderContentView false k')).
  { intros k' E. eapply safe_after; [|apply content_safe]; done. }
  assert (Hd : ∀ k', k_sent k' = k_sent k → safe k (renderWorkflowDetailScreen false k')).
  { intros k' E. eapply safe_after; [|apply detail_safe]; done. }
  destruct c; cbn [command_done]; try (by apply Hc); try (by apply Hd); try (by apply safe_same);
    apply safe_same; unfold opened_workflow; by case_tests.
Qed.

Section Requests.
Context (can_open : string → string → bool).

Lemma startSSE_sent k : k_sent (startSSE can_open k) = k_sent k.
Proof. unfold startSSE. case_tests; [done|]. unfold poll_every. by case_tests. Qed.

Lemma resume_safe t r k : safe k (resume can_open t r k).
Proof.
  destruct t as [[|p]|[p| |el]|el a|c]; cbn [resume].
  - eapply safe_after; [apply organizations_sent|apply render_safe].
  - eapply safe_after; [apply organizations_sent|by apply safe_send].
  - eapply safe_after; [|apply routing_safe]. destruct r; by case_tests.
  - eapply (safe_trans k (render (loadApplications r k))).
    + eapply safe_after; [|apply render_safe]. by destruct r.
    + apply safe_same. destruct (h_poll _); [apply startSSE_sent|done].
  - eapply (safe_trans k (loadApplications r k)); [apply safe_same; by destruct r|by apply safe_send].
  - apply safe_same. unfold write_screen. destruct (k_page k); [|done]. by case_tests.
  - destruct r; [apply command_safe..|by apply safe_same].
Qed.

(** Only the button of the dialog sends a command that needs one. *)
Lemma handle_safe ev k : ev ≠ ClickConfirm → safe k (handle can_open ev k).
Proof.
  intros Hev.
  assert (Hc : ∀ k', k_sent k' = k_sent k → safe k (renderContentView false k')).
  { intros k' E. eapply safe_after; [|apply content_safe]; done. }
  destruct ev; cbn [handle]; try done;
    try (by apply safe_same); try (by apply safe_send); try (apply content_safe); try apply routing_safe;
    try (apply safe_same; unfold cancelWorkflow, deleteAlertRule, revokeKey, deleteRole, removeMember,
           deleteAutoscalingPolicy; apply showConfirm_sent).
  - apply safe_same. unfold click_navigate. case_tests; [done|].
    destruct (split_char _ _) as [|x [|y l]]; try done.
    case_tests; [by destruct (decodeURIComponent y)|done].
  - destruct (k_tasks k !! i) as [t|]; [|by apply safe_same].
    eapply safe_after; [|apply resume_safe]; done.
  - unfold onOrgChange. case_tests; [by apply safe_same|]. eapply safe_after; [|by apply safe_send].
    destruct (h_key (k_shell k)); [|done]. by case_tests.
  - unfold onAppChange. apply Hc. destruct (h_poll _); [by rewrite startSSE_sent|done].
  - apply safe_same. unfold setPollInterval. case_tests; [by rewrite startSSE_sent|].
    unfold poll_every. by case_tests.
  - case_tests; [apply poll_safe|by apply safe_same].
  - apply safe_same. unfold stream_message. by case_tests.
  - unfold debounce_fires. case_tests; [|by apply safe_same].
    eapply safe_after; [|apply poll_safe]; done.
  - case_tests; [by apply safe_same|]. eapply safe_trans; [apply content_safe|]. by apply safe_same.
  - unfold submitSignIn. eapply safe_after; [|by apply safe_send]. by case_tests.
  - unfold signOut. eapply safe_after; [|by apply safe_send]. done.
  - unfold grantMemberRole. case_tests; first [by apply safe_same|by apply safe_send].
  - unfold submitCreateRole. case_tests; first [by apply safe_same|by apply safe_send].
  - unfold submitCreateKey. case_tests; first [by apply safe_same|by apply safe_send].
  - apply safe_same. by case_tests.
  - by apply Hc.
Qed.

Lemma safe_new k k' new x :
  safe k k' → k_sent k' = k_sent k ++ new → x ∈ new → dangerous x = false.
Proof.
  intros (n & E & Hf) E' Hx. rewrite E in E'. apply app_inv_head in E' as <-.
  exact (proj1 (Forall_forall _ _) Hf x Hx).
Qed.
End Requests.

(** ** Properties *)

(** C18: whatever the user and the network do, the page is refreshed exactly in
    the way the selector says: with an interval of n milliseconds there is one
    running interval of n and no open stream, with the stream there is one open
    stream and no interval, and switched off there is neither.  No interval or
    stream is ever leaked. *)
Theorem live_refresh_is_exact can_open k :
  reachable can_open k → live_ok (h_poll (k_shell k)) (k_live k).
Proof. apply reachable_live. Qed.



(** The console after a reload is the console before it: the same key in the
    application and in its client, the same organization and the same theme come
    back from the browser's storages. *)
Theorem reload_keeps_session can_open k dark hash :
  reachable can_open k → h_theme (k_shell k) ≠ "" → h_org (k_shell k) ≠ "" →
  let k' := start (k_session k) (k_local k) dark hash "" "" "" "" in
  h_key (k_shell k') = h_key (k_shell k) ∧ k_client k' = k_client k ∧
  h_org (k_shell k') = h_org (k_shell k) ∧
  h_theme (k_shell k') = h_theme (k_shell k) ∧ k_attr k' = k_attr k.
Proof.
  intros Hr Ht Ho. destruct (console_reachable_ok can_open k Hr) as [H1 H2 [H3 H3'] H4 _ _].
  assert (Hth : stored theme_key (k_local k) = Some (h_theme (k_shell k))).
  { unfold stored. rewrite H3'. by destruct (String.eqb_spec (h_theme (k_shell k)) ""). }
  unfold start, init. cbn -[stored theme_key org_key]. rewrite Hth. cbn -[stored org_key].
  split_and!; try done; try (by rewrite H1); try (by rewrite H3).
  unfold or_else. cbn -[stored org_key]. destruct H4 as [H4|[H4 ->]]; [|by rewrite H4].
  unfold stored. rewrite H4. by destruct (String.eqb_spec (h_org (k_shell k)) "").
Qed.

(** An API key of the program never follows the user into another
    organization: choosing one removes the key from the application, its client
    and the session, selects the organization without an application, stores the
    choice, and the request that follows carries no key. *)
Theorem org_switch_forgets_key can_open k v key :
  h_key (k_shell k) = Some key → starts_with key "dbos_" = true →
  or_else v "default" ≠ h_org (k_shell k) →
  let k' := handle can_open (SelectOrg v) k in
  h_key (k_shell k') = None ∧ k_client k' = None ∧ k_session k' = None ∧
  h_org (k_shell k') = or_else v "default" ∧ h_app (k_shell k') = "" ∧
  k_local k' !! org_key = Some (or_else v "default") ∧ k_local k' !! app_key = None ∧
  k_sent k' = k_sent k ++ [(None, ListApplications (or_else v "default"))].
Proof.
  intros Hk Hs Ho. cbn [handle]. unfold onOrgChange.
  destruct (String.eqb_spec (or_else v "default") (h_org (k_shell k))); [done|].
  rewrite Hk, Hs. cbn. rewrite lookup_delete_eq, lookup_delete_ne, lookup_insert_eq by done.
  by split_and!.
Qed.

(** The link of a workflow leads to that workflow: following a row's link,
    whose identifier is encoded, sets the hash, and when the browser reports it
    the console shows the screen of one workflow and asks for exactly this
    workflow in the application the row names. *)
Theorem workflow_link_round_trip can_open k id app :
  id ≠ "" → app ≠ "" →
  drop_apostrophes (encodeURIComponent id) = encodeURIComponent id →
  let k1 := handle can_open (ClickNavigate ("workflow/" +:+ encodeURIComponent id) app) k in
  let k2 := handle can_open HashChange k1 in
  h_route (k_shell k2) = "workflow-detail" ∧ h_wf (k_shell k2) = Some id ∧
  k_wfApps k2 !! id = Some app ∧
  last (k_sent k2) = Some (k_client k, ScreenRequests
    (Ask "workflow-detail" (h_org (k_shell k)) app (Some id))).
Proof.
  intros Hid Happ Hq k1 k2.
  assert (Hdrop : drop_apostrophes ("workflow/" +:+ encodeURIComponent id) = "workflow/" +:+ encodeURIComponent id).
  { unfold drop_apostrophes in *. by rewrite sfilter_app, Hq. }
  assert (Hsplit : split_char "/" ("workflow/" +:+ encodeURIComponent id) = ["workflow"; encodeURIComponent id]).
  { change ("workflow/" +:+ encodeURIComponent id) with ("workflow" +:+ String "/" (encodeURIComponent id)).
    rewrite split_char_app by done. by rewrite split_char_none by apply encode_no_slash. }
  assert (Hne : String.eqb (encodeURIComponent id) "" = false).
  { apply String.eqb_neq. intros E%encode_empty. done. }
  assert (E1 : k1 = navigate ("workflow/" +:+ encodeURIComponent id)
                      (set_wf_app app (<[id := app]> (k_wfApps k)) k)).
  { unfold k1. cbn [handle]. unfold click_navigate. rewrite Hdrop, Hsplit.
    apply String.eqb_neq in Happ. rewrite Happ, Hne. cbn [String.eqb negb andb].
    by rewrite decode_encode. }
  assert (E2 : k2 = render (set_shell (with_route "workflow-detail" (Some id) (k_shell k1)) k1)).
  { unfold k2. cbn [handle]. unfold handleRouting.
    replace (strip_hash (k_hash k1)) with ("workflow/" +:+ encodeURIComponent id) by (by rewrite E1).
    replace (or_else ("workflow/" +:+ encodeURIComponent id) "fleet")
      with ("workflow/" +:+ encodeURIComponent id) by done.
    rewrite Hsplit. cbn [head default].
    rewrite Hne. cbn [String.eqb negb andb]. by rewrite decode_encode. }
  rewrite E2, E1. apply String.eqb_neq in Happ. unfold render, renderContentView, renderWorkflowDetailScreen.
  cbn -[last]. unfold target_app. cbn -[last]. unfold or_else. rewrite Happ.
  rewrite lookup_insert_eq, last_snoc. by split_and!.
Qed.

(** ** Sessions *)

Definition opens (org app : string) : bool := true.

Definition session (key : option string) (evs : list event) : console :=
  fold_left (λ k ev, handle opens ev k) evs (start key ∅ false "" "" "" "" "").

Lemma session_reachable key evs : reachable opens (session key evs).
Proof.
  unfold session. assert (Hs : reachable opens (start key ∅ false "" "" "" "" "")) by constructor.
  revert Hs. generalize (start key ∅ false "" "" "" "" "").
  induction evs as [|ev evs IH]; intros k Hk; [done|]. cbn. by apply IH, reachable_next.
Qed.

(** The console has started: two organizations and two applications. *)
Definition started : list event :=
  [Answered 0 (Names ["default"; "acme"]); Answered 0 (Names ["shop"; "bank"])].

Lemma live_refresh_is_exact_witness :
  let k := session None (started ++ [SelectPoll "stream"; SelectApp "shop"; SelectPoll "2000"]) in
  live_ok (Every 2000) (k_live k) ∧ length (v_timers (k_live k)) = 1%nat.
Proof.
  set (k := session None _).
  assert (Hm : h_poll (k_shell k) = Every 2000) by (vm_compute; reflexivity).
  assert (Hl : length (v_timers (k_live k)) = 1%nat) by (vm_compute; reflexivity).
  split; [|exact Hl]. rewrite <- Hm.
  exact (live_refresh_is_exact opens k (session_reachable None _)).
Defined.

(** A role is deleted through its dialog. *)
Definition asked : console :=
  session None (started ++ [HashSet "#/roles"; HashChange; ClickDeleteRole "viewer"]).


(** The user goes from the queues to the keys before the queues are there. *)
Definition went_on : console :=
  session None (started ++ [HashSet "#/queues"; HashChange; HashSet "#/keys"; HashChange;
    Answered 1 (Answer "queues"); Answered 1 (Answer "keys")]).


Lemma reload_keeps_session_witness :
  let k := session None (started ++ [SubmitSignIn " secret "; SelectOrg "acme"; ClickTheme]) in
  h_key (k_shell (start (k_session k) (k_local k) false "" "" "" "" "")) = Some "secret".
Proof.
  set (k := session None _).
  assert (H1 : h_theme (k_shell k) ≠ "") by (vm_compute; discriminate).
  assert (H2 : h_org (k_shell k) ≠ "") by (vm_compute; discriminate).
  assert (H3 : h_key (k_shell k) = Some "secret") by (vm_compute; reflexivity).
  cbv zeta. rewrite <- H3.
  exact (proj1 (reload_keeps_session opens k false "" (session_reachable None _) H1 H2)).
Defined.

Lemma org_switch_forgets_key_witness :
  k_session (handle opens (SelectOrg "acme") (session (Some "dbos_sec_1") started)) = None.
Proof.
  set (k := session (Some "dbos_sec_1") started).
  assert (H1 : h_key (k_shell k) = Some "dbos_sec_1") by (vm_compute; reflexivity).
  assert (H2 : or_else "acme" "default" ≠ h_org (k_shell k)) by (vm_compute; discriminate).
  exact (proj1 (proj2 (proj2 (org_switch_forgets_key opens k "acme" "dbos_sec_1" H1 eq_refl H2)))).
Defined.

Lemma workflow_link_round_trip_witness :
  h_wf (k_shell (handle opens HashChange (handle opens
    (ClickNavigate ("workflow/" +:+ encodeURIComponent "order/7 100%") "shop") (session None started)))) =
    Some "order/7 100%".
Proof.
  assert (H1 : "order/7 100%" ≠ "") by discriminate.
  assert (H2 : "shop" ≠ "") by discriminate.
  assert (H3 : drop_apostrophes (encodeURIComponent "order/7 100%") = encodeURIComponent "order/7 100%")
    by (vm_compute; reflexivity).
  exact (proj1 (proj2 (workflow_link_round_trip opens (session None started) "order/7 100%" "shop" H1 H2 H3))).
Defined.

(** ** What modelling showed *)

(** The server rejects a wrong key with the detail of the first error below and
    a missing one with that of the second; only the second is recognised. *)
Lemma rejected_key_not_recognised :
  isAuthError (Err (Some 401) "Invalid API key") = false ∧
  isAuthError (Err (Some 401) "Authorization header required") = true ∧
  failed_card "keys" (k_shell (session None started)) (Err (Some 401) "Invalid API key") =
    ErrorCard "API Keys" "Invalid API key".
Proof. split_and!; vm_compute; reflexivity. Qed.

(** An answer for the application chosen before is shown under the name of the
    one chosen now. *)
Lemma late_answer_names_other_application :
  let k := session None (started ++ [HashSet "#/queues"; HashChange; SelectApp "shop"; SelectApp "bank";
             Answered 3 (Answer "queues of bank"); Answered 2 (Answer "queues of shop")]) in
  p_content <$> k_page k =
    Some (Card "queues" (DataCard (Ask "queues" "default" "shop" None) "bank" "queues of shop")).
Proof. vm_compute. reflexivity. Qed.

(** A workflow is cancelled and the user goes to the keys: the answer replaces
    the keys with the workflow. *)
Lemma cancel_overwrites_screen :
  let k := session None (started ++ [ClickNavigate "workflow/w1" "shop"; HashChange;
             ClickCancel "w1" "shop"; ClickConfirm; HashSet "#/keys"; HashChange;
             Answered 3 (Answer "keys"); Answered 2 (Answer ""); Answered 2 (Answer "workflow w1")]) in
  h_route (k_shell k) = "keys" ∧
  p_content <$> k_page k =
    Some (Card "workflow-detail" (DataCard (Ask "workflow-detail" "default" "shop" (Some "w1")) "" "workflow w1")).
Proof. split; vm_compute; reflexivity. Qed.

(** A link whose identifier does not decode changes the route but nothing on the
    page: the screen and the title stay those of the old route. *)
Lemma undecodable_link_keeps_screen :
  let k := session None (started ++ [HashSet "#/keys"; HashChange; HashSet "#/workflow/100%"; HashChange]) in
  h_route (k_shell k) = "workflow-detail" ∧ (p_title <$> k_page k) = Some "API Keys".
Proof. split; vm_compute; reflexivity. Qed.

(** Signing in can select another organization; the stream stays that of the
    old one. *)
Lemma sign_in_leaves_stream :
  let k := session None (started ++ [SelectPoll "stream"; SubmitSignIn "key"; Answered 1 (Names ["acme"])]) in
  h_org (k_shell k) = "acme" ∧ snd <$> v_sources (k_live k) = [("default", "")].
Proof. split; vm_compute; reflexivity. Qed.

(** Between the choice of an organization and its answer the page still shows
    the old one: a role deleted there is deleted in the new one. *)
Lemma command_meets_other_organization :
  let k := session None (started ++ [HashSet "#/roles"; HashChange; Answered 1 (Answer "roles of default");
             SelectOrg "acme"; ClickDeleteRole "viewer"; ClickConfirm]) in
  p_content <$> k_page k =
    Some (Card "roles" (DataCard (Ask "roles" "default" "" None) "" "roles of default")) ∧
  last (k_sent k) = Some (None, Command "acme" (DeleteRole "viewer")).
Proof. split; vm_compute; reflexivity. Qed.

(** The link of a workflow with an apostrophe in its identifier leads elsewhere. *)
Lemma apostrophe_link :
  let k := session None (started ++ [ClickNavigate ("workflow/" +:+ encodeURIComponent "bob's") "shop"; HashChange]) in
  h_wf (k_shell k) = Some "bobs".
Proof. vm_compute. reflexivity. Qed.

(** A message of the stream still refreshes the page after the stream is off. *)
Lemma refresh_after_off :
  let k := session None (started ++ [HashSet "#/keys"; HashChange; SelectPoll "stream"]) in
  let i := default 0%nat (v_source (k_live k)) in
  let k' := handle opens (SelectPoll "0") (handle opens (StreamMessage i) k) in
  length (k_tasks (handle opens (DebounceFires i false) k')) = S (length (k_tasks k')).
Proof. vm_compute. reflexivity. Qed.

(** The titles of the error cards are escaped twice: the page shows entities. *)
Lemma error_title_escaped_twice :
  let h := with_apps "R&D" ["R&D"] (k_shell (session None started)) in
  ∃ html, card_html h "workflows" (failed_card "workflows" h (Err None "down")) = Some html ∧
    includes html "Workflows (R&amp;amp;D)" = true.
Proof. eexists. split; [vm_compute; reflexivity|vm_compute; reflexivity]. Qed.
