(* ===== verification/PlaygroundBus.v ===== *)
(** The playground's page and the console in its frame, together: the event
    source the bridge gives the console (site/playground/relay-bridge.js), the
    messages the page posts on the channel, and the frame's address, which the
    page sets when a run starts. *)

From Stdlib Require Import ZArith Lia Ascii String.
From stdpp Require Import base list strings gmap.
From S2P Require Import Prelude Html Json Uri BridgeState PlaygroundText Playground PlaygroundSpec.
From S2P Require Import ConsoleView ConsoleState ConsoleSpec.

(** ** The event source of the frame *)

(** A [MockEventSource]: its fields, which callbacks are set, and whether its
    handler is on the channel. *)
Record mock := Mock { m_url : string; m_readyState : Z; m_onopen : bool; m_onmessage : bool; m_listening : bool }.

Definition new_mock (url : string) : mock := Mock url 1 false false true.
Definition close (m : mock) : mock := Mock (m_url m) 2 (m_onopen m) (m_onmessage m) false.

Definition is_telemetry (data : jval) : bool := truthy data && is_str (field data "type") "relay_telemetry".

(** [this.handler]: the data handed to [onmessage]. *)
Definition mock_message (data : jval) (m : mock) : option string :=
  if m_listening m && m_onmessage m && is_telemetry data then stringify (field data "payload") else None.

(** The timer of the constructor calls [onopen] if one is set by then. *)
Definition mock_opens (m : mock) : bool := m_onopen m.

(** The methods an event source has: those of the class of the bridge, and
    those of the browser's own [EventSource]. *)
Definition mock_methods : list string := ["close"].
Definition native_methods : list string := ["addEventListener"; "removeEventListener"; "dispatchEvent"; "close"].

(** The indicator in the header. *)
Record dot := Dot { d_active : bool; d_error : bool; d_title : string }.

Record frame := Frame { f_console : console; f_sources : list (nat * mock); f_dot : dot }.

(** [sse.onopen]. *)
Definition sse_opened : dot := Dot true false "Live streaming (SSE) connected".

Definition polling_dot (ms : Z) : dot :=
  if 0 <? ms then Dot true false ("Live polling active (" +:+ string_of_Z (ms / 1000) +:+ "s)")
  else Dot false false "Live telemetry refresh off".

Definition close_sources (v : option nat) (l : list (nat * mock)) : list (nat * mock) :=
  map (λ x, match v with Some i => if (fst x =? i)%nat then (fst x, close (snd x)) else x | None => x end) l.

(** [startSSE()] over a class of event sources with these methods: a method the
    class does not have is not a function, and the call throws. *)
Definition start_stream (methods : list string) (url : string) (f : frame) : frame :=
  let sources := close_sources (v_source (k_live (f_console f))) (f_sources f) in
  let k := set_live (close_source (k_live (f_console f))) (f_console f) in
  let i := k_next k in
  let h := k_shell k in
  let l := k_live k in
  let k := set_next (S i) (set_live (Live (v_timer l) (v_timers l) (Some i)
             (v_sources l ++ [(i, (h_org h, h_app h))]) (v_armed l)) k) in
  let sources := sources ++ [(i, Mock url (m_readyState (new_mock url)) true false true)] in
  if mem "addEventListener" methods then Frame k sources (f_dot f)
  else Frame (poll_every 5000 k) (close_sources (Some i) sources) (polling_dot 5000).

(** After the constructor's delay. *)
Definition source_opens (i : nat) (f : frame) : frame :=
  if some (λ x, (fst x =? i)%nat && mock_opens (snd x)) (f_sources f)
  then Frame (f_console f) (f_sources f) sse_opened else f.

Definition fresh (k : console) : Prop := Forall (λ s, (fst s < k_next k)%nat) (v_sources (k_live k)).

Lemma drop_fresh {A} (i : nat) (l : list (nat * A)) :
  Forall (λ s, (fst s < i)%nat) l → drop_key i l = l.
Proof.
  unfold drop_key, keep. induction 1 as [|[j x] l Hj _ IH]; [done|]. cbn in *.
  assert ((j =? i)%nat = false) as -> by (apply Nat.eqb_neq; lia). cbn. by rewrite IH.
Qed.

Lemma drop_key_le {A} (j : nat) (P : nat → Prop) (l : list (nat * A)) :
  Forall (λ s, P (fst s)) l → Forall (λ s, P (fst s)) (drop_key j l).
Proof.
  intros Hl. unfold drop_key, keep. apply Forall_forall. intros x [Hx _]%list_elem_of_In%filter_In.
  by apply (proj1 (Forall_forall _ _) Hl), list_elem_of_In.
Qed.

Lemma drop_key_app {A} (i : nat) (l l' : list (nat * A)) : drop_key i (l ++ l') = drop_key i l ++ drop_key i l'.
Proof. apply List.filter_app. Qed.

(** Over a class with all the methods, this is the [startSSE] of the application
    object whose streams open; over the bridge's class it is the one whose
    streams cannot be opened, on the next number: the stream that was made is
    closed again and the console polls. *)
Lemma start_native url f :
  f_console (start_stream native_methods url f) = startSSE (λ _ _, true) (f_console f).
Proof. reflexivity. Qed.

Lemma closed_again n x (l : live) :
  v_source l = None → Forall (λ s, (fst s < n)%nat) (v_sources l) →
  close_source (clear_timer (Live (v_timer l) (v_timers l) (Some n) (v_sources l ++ [(n, x)]) (v_armed l))) =
  close_source (clear_timer l).
Proof.
  destruct l as [vt vts vs vss va]. cbn [v_source v_sources]. intros -> Hf.
  assert (drop_key n (vss ++ [(n, x)]) = vss) as E by by rewrite drop_key_app, drop_own, app_nil_r, drop_fresh.
  destruct vt as [t|]; unfold close_source, clear_timer; cbn [v_timer v_timers v_source v_sources v_armed]; by rewrite E.
Qed.

Lemma start_mock url f :
  fresh (f_console f) →
  f_console (start_stream mock_methods url f) =
    startSSE (λ _ _, false) (set_next (S (k_next (f_console f))) (f_console f)).
Proof.
  destruct f as [k sources d]. cbn [f_console]. intros Hf. unfold start_stream, startSSE.
  change (mem "addEventListener" mock_methods) with false. cbn [f_console].
  set (l := close_source (k_live k)).
  assert (v_source l = None) as Hn by (unfold l, close_source; destruct (v_source (k_live k)) eqn:E; [done|exact E]).
  assert (Forall (λ x, (fst x < k_next k)%nat) (v_sources l)) as Hs.
  { unfold l, close_source. destruct (v_source (k_live k)); [|done].
    by apply (drop_key_le n (λ i, (i < k_next k)%nat)). }
  pose proof (closed_again (k_next k) (h_org (k_shell k), h_app (k_shell k)) l Hn Hs) as E.
  unfold poll_every. change (0 <? 5000) with true. cbn [k_live set_next set_live k_next k_shell set_shell].
  fold l. rewrite E. destruct k. reflexivity.
Qed.

(** ** The channel *)

(** [channel.onmessage] of the bridge: the screen is drawn again, not silently. *)
Definition on_message (data : jval) (k : console) : console :=
  if is_telemetry data then renderContentView false k else k.

(** Whether the console of the frame can open a stream. *)
Definition frame_opens (org app : string) : bool := mem "addEventListener" mock_methods.

Section World.
Context {S : Type} `{Database S} (null_message : string).
Notation page := (@Playground.page S).

(** The page, the console in its frame, the messages delivered so far and the
    changes of the frame's address it has not been told of. *)
Record world := World { w_page : page; w_console : console; w_seen : nat; w_reports : nat }.

Inductive turn :=
| PageTurn (now : Z) (ev : @Playground.event S)
| UserTurn (ev : ConsoleState.event)
| Deliver                            (* the next message of the channel *)
| Report.                            (* hashchange in the frame *)

Definition changed (before after : string) : nat := if String.eqb before after then 0 else 1.

(** The address of the frame is one variable, which both write. *)
Definition take (t : turn) (w : world) : world :=
  let k := w_console w in
  match t with
  | PageTurn now ev =>
      let p := Playground.handle null_message now ev (Playground.set_sent (g_sent (w_page w)) (k_hash k) (w_page w)) in
      World p (set_hash (g_hash p) k) (w_seen w) (w_reports w + changed (k_hash k) (g_hash p))
  | UserTurn ev =>
      let k' := ConsoleState.handle frame_opens ev k in
      World (w_page w) k' (w_seen w) (w_reports w + changed (k_hash k) (k_hash k'))
  | Deliver =>
      match g_sent (w_page w) !! w_seen w with
      | Some m => World (w_page w) (on_message m k) (Datatypes.S (w_seen w)) (w_reports w)
      | None => w
      end
  | Report =>
      match w_reports w with
      | O => w
      | Datatypes.S n => World (w_page w) (handleRouting k) (w_seen w) n
      end
  end.

Definition play (ts : list turn) (w : world) : world := fold_left (λ w t, take t w) ts w.

(** ** A run of the demo workflow *)

(** The addresses a program gives the frame. *)
Fixpoint hashes (failure : bool) (k : script) : list string :=
  match k with
  | Done => []
  | SetHash h k' => h :: hashes failure k'
  | Log _ _ k' | Query _ _ k' | ExecuteSql _ k' | Sleep _ k' | Exec _ k' | Broadcast _ _ k' | RefreshConsole k' =>
      hashes failure k'
  | IfFailure a b => hashes failure (if failure then a else b)
  end.

(** A program whose statements are all queries, so that it goes on when they
    are answered. *)
Fixpoint plain (k : script) : Prop :=
  match k with
  | Done => True
  | Exec _ _ => False
  | SetHash _ k' | Log _ _ k' | Query _ _ k' | ExecuteSql _ k' | Sleep _ k' | Broadcast _ _ k' | RefreshConsole k' =>
      plain k'
  | IfFailure a b => plain a ∧ plain b
  end.

(** Nothing runs but a run with the rest [k], or it is over. *)
Definition running (k : script) (p : page) : Prop :=
  g_jobs p = [Job FromRun k] ∧ g_running p = true ∧ g_engine p ≠ NoEngine ∧ plain k.
Definition over (p : page) : Prop := g_jobs p = [] ∧ g_running p = false.

Lemma advance_run now k p :
  answers (S:=S) → g_jobs p = [] → g_running p = true → g_engine p ≠ NoEngine → plain k →
  let p' := advance null_message now (Job FromRun k) p in
  g_failure p' = g_failure p ∧
  (∃ new, g_sent p' = g_sent p ++ new ∧ Forall (λ m, is_telemetry m = true) new) ∧
  ∃ set rest, hashes (g_failure p) k = set ++ rest ∧
    g_hash p' = List.last set (g_hash p) ∧
    ((∃ k', running k' p' ∧ hashes (g_failure p) k' = rest) ∨ (over p' ∧ rest = [])).
Proof.
  intros Ha. revert p. induction k as [|msg type k IH|sql params k IH|sql k IH|o k IH|ms k IH
    |ev data k IH|k IH|h k IH|a IHa b IHb]; intros p Hj Hr He Hp; cbn [plain hashes] in *.
  - split_and!; [done|by exists []; rewrite app_nil_r|]. exists [], []. split_and!; [done|done|]. right. done.
  - apply (IH (log now msg type p)); done.
  - destruct (engine_answers null_message (g_engine p) sql (params now) Ha He) as (g' & rows & E & Hg).
    unfold advance. cbn [j_caller j_rest Playground.resume]. rewrite E. cbn.
    split_and!; [done|by exists []; rewrite app_nil_r|]. exists [], (hashes (g_failure p) k). split_and!; [done|done|].
    left. exists k. split; [|done]. unfold running, add_job. cbn. by rewrite Hj.
  - done.
  - assert (alone p) as Hal by done.
    destruct (executeSql_alone null_message o p Ha Hal) as ((H1 & H2 & H3) & _ & H4 & H5).
    assert (g_hash (executeSql null_message o p) = g_hash p) as Hh.
    { unfold executeSql. destruct (_ =? "")%string; [done|]. by destruct (engine_query _ _ _ _). }
    unfold advance. cbn [j_caller j_rest Playground.resume]. cbn.
    split_and!; [done|exists []; by rewrite app_nil_r, H4|]. exists [], (hashes (g_failure p) k). split_and!; [done|done|].
    left. exists k. split; [|done]. unfold running, add_job. cbn. by rewrite H1.
  - unfold advance. cbn. split_and!; [done|by exists []; rewrite app_nil_r|]. exists [], (hashes (g_failure p) k). split_and!; [done|done|].
    left. exists k. split; [|done]. unfold running, add_job. cbn. by rewrite Hj.
  - destruct (IH (broadcastUpdate now ev data p) Hj Hr He Hp) as (H1 & (new & H2 & Hn) & H3).
    split_and!; [exact H1| |exact H3]. eexists (_ :: new). split; [etrans; [exact H2|]; cbn; by rewrite <- app_assoc|by constructor].
  - destruct (IH (refreshConsole now p) Hj Hr He Hp) as (H1 & (new & H2 & Hn) & H3).
    split_and!; [exact H1| |exact H3]. eexists (_ :: new). split; [etrans; [exact H2|]; cbn; by rewrite <- app_assoc|by constructor].
  - destruct (IH (Playground.set_sent (g_sent p) h p) Hj Hr He Hp) as (H1 & H2 & set & rest & H3 & H4 & H5).
    split_and!; [exact H1|exact H2|]. exists (h :: set), rest. split_and!; [exact (f_equal (cons h) H3)| |exact H5].
    etrans; [exact H4|]. cbn. clear. destruct set as [|x l]; [done|]. revert x. induction l as [|y l IHl]; intros x; [done|exact (IHl y)].
  - destruct Hp as [Hpa Hpb]. unfold advance in *. cbn [j_caller j_rest Playground.resume] in *.
    destruct (g_failure p) eqn:Ef; [specialize (IHa p Hj Hr He Hpa)|specialize (IHb p Hj Hr He Hpb)];
      rewrite Ef in *; done.
Qed.

(** *** The console shows it *)

Definition address (n : Z) : string := "#/workflow/" +:+ wfId n.

Definition shows (n : Z) (k : console) : Prop :=
  k_page k ≠ None ∧ h_route (k_shell k) = "workflow-detail" ∧ h_wf (k_shell k) = Some (wfId n).

(** The last request is for the workflow of the run. *)
Definition asked (n : Z) (k : console) : Prop :=
  ∃ before app, k_sent k =
    before ++ [(k_client k, ScreenRequests (Ask "workflow-detail" (h_org (k_shell k)) app (Some (wfId n))))].

Lemma redraw_frame silent k :
  k_shell (renderContentView silent k) = k_shell k ∧ k_hash (renderContentView silent k) = k_hash k ∧
  k_client (renderContentView silent k) = k_client k ∧
  (k_page k ≠ None → k_page (renderContentView silent k) ≠ None) ∧
  prefix (k_sent k) (k_sent (renderContentView silent k)).
Proof.
  destruct (content_shape silent k) as (w & c & ts & ss & -> & _). unfold put. cbn.
  split_and!; try done; [|by apply prefix_app_r]. by destruct (k_page k).
Qed.

Lemma redraw_asks n k :
  shows n k →
  ∃ app, k_sent (renderContentView false k) =
    k_sent k ++ [(k_client k, ScreenRequests (Ask "workflow-detail" (h_org (k_shell k)) app (Some (wfId n))))].
Proof.
  intros (Hp & Hr & Hw). destruct (k_page k) as [p|] eqn:E; [|done]. exists (target_app k).
  unfold renderContentView. rewrite E. cbn [k_shell set_content set_page]. rewrite Hr.
  cbn [String.eqb Ascii.eqb Bool.eqb]. unfold renderWorkflowDetailScreen. unfold send, ask_of. cbn [k_page set_content set_page]. rewrite E. cbn -[target_app]. rewrite Hw.
  done.
Qed.

Lemma message_keeps n m k : shows n k → asked n k → shows n (on_message m k) ∧ asked n (on_message m k).
Proof.
  intros Hs Ha. unfold on_message. destruct (is_telemetry m); [|done].
  destruct (redraw_frame false k) as (H1 & _ & H2 & H3 & _). split.
  - destruct Hs as (Hp & Hr & Hw). split_and!; [by apply H3|by rewrite H1..].
  - destruct (redraw_asks n k Hs) as [app E]. exists (k_sent k), app. by rewrite E, H1, H2.
Qed.

Lemma digit_unreserved a : is_digit a = true → unreserved a = true.
Proof. unfold is_digit, unreserved, is_alnum. intros ->. done. Qed.

Lemma sforall_impl (f g : ascii → bool) s : (∀ a, f a = true → g a = true) → sforall f s = true → sforall g s = true.
Proof. intros H. induction s as [|a s IH]; [done|]. cbn. intros [?%H ?%IH]%andb_true_iff. by apply andb_true_iff. Qed.

Lemma plain_text s : sforall unreserved s = true → encodeURIComponent s = s.
Proof.
  induction s as [|a s IH]; [done|]. cbn [sforall encodeURIComponent]. intros [Ha Hs]%andb_true_iff.
  unfold encode_char. by rewrite Ha, IH.
Qed.

Lemma workflow_plain n : 0 <= n → encodeURIComponent (wfId n) = wfId n.
Proof.
  intros Hn. apply plain_text. unfold wfId. rewrite sforall_app.
  apply andb_true_iff. split; [done|].
  apply (sforall_impl is_digit); [apply digit_unreserved|]. by destruct (string_of_Z_decimal n Hn).
Qed.

Lemma routed n k : 0 <= n → k_page k ≠ None → k_hash k = address n → 
  let k' := handleRouting k in
  shows n k' ∧ k_hash k' = k_hash k ∧ k_client k' = k_client k ∧ h_org (k_shell k') = h_org (k_shell k) ∧
  ∃ app, k_sent k' =
    k_sent k ++ [(k_client k, ScreenRequests (Ask "workflow-detail" (h_org (k_shell k)) app (Some (wfId n))))].
Proof.
  intros Hn Hp Hh k'. unfold k'.
  assert (decodeURIComponent (wfId n) = Some (wfId n)) as Hd
    by (rewrite <- (workflow_plain n Hn) at 1; apply decode_encode).
  assert (split_char "/" ("workflow" +:+ String "/" (wfId n)) = ["workflow"; wfId n]) as Hsplit.
  { rewrite split_char_app, split_char_none; [done| |done]. rewrite <- workflow_plain by done. apply encode_no_slash. }
  unfold handleRouting. rewrite Hh.
  change (or_else (strip_hash (address n)) "fleet") with ("workflow" +:+ String "/" (wfId n)).
  rewrite Hsplit. cbv beta iota delta [head default from_option id]. rewrite Hd.
  change (("workflow" =? "workflow")%string && negb (wfId n =? "")%string) with true. cbv beta iota.
  set (k1 := set_shell _ k).
  unfold render. set (k2 := set_next _ _).
  assert (shows n k2) as Hs by done.
  destruct (redraw_frame false k2) as (H1 & H2 & H3 & H4 & _). split_and!.
  - split_and!; [by apply H4|by rewrite H1..].
  - by rewrite H2.
  - by rewrite H3.
  - by rewrite H1.
  - destruct (redraw_asks n k2 Hs) as [app E]. by exists app.
Qed.

Definition settled (w : world) : Prop := w_seen w = length (g_sent (w_page w)) ∧ w_reports w = 0%nat.

(** *** The run and the channel *)

(** What is left to set of the frame's address. *)
Definition left_to_set (p : page) (rest : list string) : Prop :=
  (∃ k, running k p ∧ hashes (g_failure p) k = rest) ∨ (over p ∧ rest = []).

(** Before the address is set, and after: then the frame has still to be told,
    or it shows the workflow. *)
Definition phase (n : Z) (rest : list string) (k : console) (reports : nat) : Prop :=
  (rest = [address n] ∧ k_hash k ≠ address n ∧ reports = 0%nat) ∨
  (rest = [] ∧ k_hash k = address n ∧
    (reports = 1%nat ∨ reports = 0%nat ∧ shows n k ∧ asked n k)).

Record in_run (n : Z) (w : world) : Prop := {
  ir_page : k_page (w_console w) ≠ None;
  ir_seen : (w_seen w <= length (g_sent (w_page w)))%nat;
  ir_posted : Forall (λ m, is_telemetry m = true) (drop (w_seen w) (g_sent (w_page w)));
  ir_phase : ∃ rest, left_to_set (w_page w) rest ∧ phase n rest (w_console w) (w_reports w) }.

Lemma changed_same x : changed x x = 0%nat.
Proof. unfold changed. by rewrite String.eqb_refl. Qed.

Lemma advance_in_run now n k p c seen reports :
  answers (S:=S) → g_jobs p = [] → g_running p = true → g_engine p ≠ NoEngine → plain k →
  g_hash p = k_hash c → k_page c ≠ None → (seen <= length (g_sent p))%nat →
  Forall (λ m, is_telemetry m = true) (drop seen (g_sent p)) →
  phase n (hashes (g_failure p) k) c reports →
  let p' := advance null_message now (Job FromRun k) p in
  in_run n (World p' (set_hash (g_hash p') c) seen (reports + changed (k_hash c) (g_hash p'))).
Proof.
  intros Ha Hj Hr He Hk Hh Hp Hs Ht Hph p'.
  destruct (advance_run now k p Ha Hj Hr He Hk) as (Hf & (new & Hn & Htn) & set & rest & Hset & Hlast & Hrest).
  fold p' in Hf, Hn, Hlast, Hrest. clearbody p'. split; cbn; [done|..].
  - rewrite Hn, length_app. lia.
  - rewrite Hn, drop_app_le by lia. by apply Forall_app.
  - exists rest. split.
    + destruct Hrest as [(k' & Hr' & Hk')|]; [left; exists k'; by rewrite Hf|by right].
    + rewrite Hlast, Hh. destruct Hph as [(Hr0 & Hne & Hz)|(Hr0 & He0 & Hd)]; rewrite Hset in Hr0.
      * destruct set as [|x set]; cbn in Hr0.
        { left. subst rest. cbn. rewrite changed_same. by rewrite Nat.add_0_r. }
        injection Hr0 as -> Hr0. apply app_eq_nil in Hr0 as [-> ->]. right. cbn. split_and!; [done|done|left].
        unfold changed. by rewrite (proj2 (String.eqb_neq _ _) Hne), Hz.
      * apply app_eq_nil in Hr0 as [-> ->]. right. cbn. rewrite changed_same, Nat.add_0_r. by split_and!.
Qed.

(** The turns of the world while the run goes on. *)
Definition own_turn (t : turn) : Prop := (∃ now, t = PageTurn now (Wake 0)) ∨ t = Deliver ∨ t = Report.

Lemma deliver_in_run n w : in_run n w → in_run n (take Deliver w).
Proof.
  intros [Hp Hs Ht (rest & Hl & Hph)]. cbn. destruct (g_sent (w_page w) !! w_seen w) as [m|] eqn:E; [|by split; try exists rest].
  destruct (redraw_frame false (w_console w)) as (H1 & H2 & H3 & H4 & _).
  assert (k_page (on_message m (w_console w)) ≠ None) as Hp' by (unfold on_message; case_match; auto).
  assert (k_hash (on_message m (w_console w)) = k_hash (w_console w)) as Hh by (unfold on_message; by case_match).
  split; cbn; [done| | |exists rest; split; [done|]].
  - apply lookup_lt_Some in E. lia.
  - rewrite (drop_S _ _ _ E) in Ht. by apply Forall_cons in Ht as [_ Ht].
  - destruct Hph as [(? & ? & ?)|(? & ? & Hd)]; [left; by rewrite Hh|right].
    rewrite Hh. split_and!; [done|done|]. destruct Hd as [|(? & Hsh & Ha)]; [by left|right].
    by destruct (message_keeps n m _ Hsh Ha).
Qed.

Lemma report_in_run n w : 0 <= n → in_run n w → in_run n (take Report w).
Proof.
  intros Hn [Hp Hs Ht (rest & Hl & Hph)]. cbn. destruct (w_reports w) as [|r] eqn:E; [split; try done; exists rest; by rewrite E|].
  destruct Hph as [(? & ? & ?)|(Hr & Hh & Hd)]; [done|]. destruct Hd as [[= ->]|(? & _)]; [|done].
  destruct (routed n (w_console w) Hn Hp Hh) as (H1 & H2 & H3 & H4 & app & H5).
  split; cbn; [by destruct H1|done|done|]. exists rest. split; [done|]. right. rewrite H2.
  split_and!; [done|done|right]. split_and!; [done|done|].
  exists (k_sent (w_console w)), app. by rewrite H5, H3, H4.
Qed.

Lemma wake_in_run now n w : answers (S:=S) → in_run n w → in_run n (take (PageTurn now (Wake 0)) w).
Proof.
  intros Ha [Hp Hs Ht (rest & Hl & Hph)]. cbn. destruct Hl as [(k & (Hj & Hr & He & Hk) & Hrest)|(Ho & ->)].
  - rewrite Hj. cbn. apply advance_in_run; try done. cbn. by rewrite Hrest.
  - destruct Ho as [Hj Hr]. rewrite Hj. cbn. rewrite changed_same, Nat.add_0_r.
    split; cbn; [done..|]. exists []. split; [by right|]. destruct Hph as [(? & ?)|Hph]; [done|by right].
Qed.

Lemma play_in_run n ts w : 0 <= n → answers (S:=S) → Forall own_turn ts → in_run n w → in_run n (play ts w).
Proof.
  intros Hn Ha Hts. revert w. induction Hts as [|t ts Ht _ IH]; intros w Hw; [done|]. apply IH.
  destruct Ht as [[now ->]|[->| ->]]; [by apply wake_in_run|by apply deliver_in_run|by apply report_in_run].
Qed.

Lemma click_in_run now n w :
  answers (S:=S) → over (w_page w) → g_engine (w_page w) ≠ NoEngine → settled w →
  k_page (w_console w) ≠ None → k_hash (w_console w) ≠ address n →
  in_run n (take (PageTurn now (ClickRun n)) w).
Proof.
  intros Ha [Hj Hr] He [Hs Hz] Hp Hh. cbn. unfold runWorkflow. cbn [g_running Playground.set_sent]. rewrite Hr.
  apply advance_in_run; try done.
  - cbn. lia.
  - cbn. by rewrite Hs, drop_all.
  - left. split_and!; [|done|done]. cbn. by destruct (g_failure (w_page w)).
Qed.

(** *** Draining *)

Definition draining (t : turn) : Prop := t = Deliver ∨ t = Report.

Lemma over_phase n w : in_run n w → over (w_page w) →
  k_hash (w_console w) = address n ∧ (w_reports w = 1%nat ∨ w_reports w = 0%nat ∧ shows n (w_console w) ∧ asked n (w_console w)).
Proof.
  intros [_ _ _ (rest & [(k & (Hj & _) & _)|[_ ->]] & Hph)] [Hj' _]; [by rewrite Hj' in Hj|].
  by destruct Hph as [(? & _)|(_ & ? & ?)].
Qed.

Lemma routing_prefix k : prefix (k_sent k) (k_sent (handleRouting k)).
Proof.
  assert (∀ h, prefix (k_sent k) (k_sent (render (set_shell h k)))) as Hr
    by (intros h; unfold render; apply (redraw_frame false (set_next _ (set_page _ (set_shell h k))))).
  unfold handleRouting. destruct (split_char _ _) as [|r [|i l]]; cbn [head default]; [apply Hr..|].
  destruct (_ && _); [|apply Hr]. destruct (decodeURIComponent i); [apply Hr|done].
Qed.

(** What a console sends is only ever added to; and when something was pending,
    draining it adds to it. *)
Lemma drain_prefix ds w : Forall draining ds → prefix (k_sent (w_console w)) (k_sent (w_console (play ds w))).
Proof.
  intros Hd. revert w. induction Hd as [|t ds Ht _ IH]; intros w; [done|]. etrans; [|apply IH].
  destruct Ht as [->| ->]; cbn.
  - case_match; [|done]. cbn. unfold on_message. case_match; [|done]. by apply redraw_frame.
  - case_match; [done|]. cbn. apply routing_prefix.
Qed.

Lemma drain_page ds w : Forall draining ds → w_page (play ds w) = w_page w.
Proof.
  intros Hd. revert w. induction Hd as [|t ds Ht _ IH]; intros w; [done|]. etrans; [apply IH|].
  destruct Ht as [->| ->]; cbn; by case_match.
Qed.

Lemma drain_grows n ds w :
  0 <= n → Forall draining ds → in_run n w → over (w_page w) → ¬ settled w → settled (play ds w) →
  (length (k_sent (w_console w)) < length (k_sent (w_console (play ds w))))%nat.
Proof.
  intros Hn Hd. revert w. induction Hd as [|t ds Ht Hds IH]; intros w Hw Ho Hu Hs; [done|].
  destruct (over_phase n w Hw Ho) as [Hh Hph]. pose proof (ir_page _ _ Hw) as Hp.
  change (play (t :: ds) w) with (play ds (take t w)) in *.
  pose proof (prefix_length _ _ (drain_prefix ds (take t w) Hds)) as Hle.
  destruct Ht as [->| ->].
  - pose proof (deliver_in_run n w Hw) as Hw'. destruct (g_sent (w_page w) !! w_seen w) as [m|] eqn:E.
    + assert (take Deliver w = World (w_page w) (on_message m (w_console w)) (Datatypes.S (w_seen w)) (w_reports w)) as Et
        by (cbn; by rewrite E).
      rewrite Et in *. destruct Hph as [H1|(_ & Hsh & _)].
      * eapply Nat.le_lt_trans; [|apply IH; try done; intros [_ Hz]; cbn in Hz; congruence].
        cbn. apply prefix_length. unfold on_message. case_match; [|done]. by apply redraw_frame.
      * eapply Nat.lt_le_trans; [|exact Hle]. cbn. pose proof (ir_posted _ _ Hw) as Ht.
        rewrite (drop_S _ _ _ E) in Ht. apply Forall_cons in Ht as [Ht _]. unfold on_message. rewrite Ht.
        destruct (redraw_asks n _ Hsh) as [app ->]. rewrite length_app. cbn. lia.
    + assert (take Deliver w = w) as Et by (cbn; by rewrite E). rewrite Et in *. by apply IH.
  - destruct Hph as [H1|(H1 & _)].
    + eapply Nat.lt_le_trans; [|exact Hle]. cbn. rewrite H1. cbn.
      destruct (routed n _ Hn Hp Hh) as (_ & _ & _ & _ & app & ->). rewrite length_app. cbn. lia.
    + assert (take Report w = w) as Et by (cbn; by rewrite H1). rewrite Et in *. by apply IH.
Qed.

Lemma prefix_before {A} (a b : list A) x : prefix a (b ++ [x]) → (length a < length (b ++ [x]))%nat → ∃ more, b = a ++ more.
Proof.
  intros [c E] Hl. destruct c as [|y c _] using rev_ind; [rewrite app_nil_r in E; rewrite E in Hl; lia|].
  rewrite app_assoc in E. apply app_inj_tail in E as [-> _]. by exists c.
Qed.

End World.

(** A playground whose fallback engine is ready, beside a console that shows the
    fleet; twenty turns of the page end the run. *)
Definition sample_world : world (S := store) :=
  World seeded (ConsoleSpec.session None started) (length (g_sent seeded)) 0.
Definition twenty_turns : list (turn (S := store)) := replicate 20 (PageTurn 0 (Wake 0)).


(** ** What modelling showed *)

(** The class the bridge gives the frame has no [addEventListener], which
    [startSSE] calls: choosing the live stream in the playground always ends with
    polling, and the indicator says that the stream is connected all the same. *)
Lemma playground_never_streams k :
  h_poll (k_shell (setPollInterval frame_opens "stream" k)) = Every 5000.
Proof. reflexivity. Qed.

Lemma closed_stream_shown_connected :
  let f := start_stream mock_methods "/events" (Frame (ConsoleSpec.session None started) [] (polling_dot 0)) in
  let f' := source_opens (k_next (ConsoleSpec.session None started)) f in
  m_readyState (snd (default (0%nat, new_mock "") (head (f_sources f')))) = 2 ∧
  h_poll (k_shell (f_console f')) = Every 5000 ∧
  d_title (f_dot f') = "Live streaming (SSE) connected".
Proof. vm_compute. repeat split. Qed.

(** A message redraws the screen while a field of it has the focus, and what was
    typed is lost; the console's own refresh leaves it alone. *)
Lemma message_redraws_under_input :
  let k := ConsoleSpec.session None started in
  poll true k = k ∧
  p_content <$> k_page (on_message (notice 0 "workflow_completed" "w" "SUCCESS") k) = Some Loading.
Proof. split; vm_compute; reflexivity. Qed.
