(* ===== verification/ConsoleClicks.v ===== *)
(** The console's listeners (console/src/app.js, from line 3533): what a click
    leads to, given the element it hits and the elements around it; the other
    listeners; and the zoom of the diagram. *)

From Stdlib Require Import ZArith Lia Ascii String.
From stdpp Require Import base list strings gmap.
From S2P Require Import Prelude Html Uri JsNumber ApiClient ConsoleView ConsoleState.

(** ** Elements *)

(** The data attributes of an element, by their names in [dataset].  A click
    goes to a path: the element that is hit, then its ancestors. *)
Record element := El { e_data : list (string * string) }.

Definition data (x : element) (name : string) : string := default "" (assoc name (e_data x)).
Definition has_data (names : list string) (x : element) : bool :=
  some (λ n, mem n (map fst (e_data x))) names.

(** [closest] of data attributes. *)
Definition closest (names : list string) (path : list element) : option element :=
  find (has_data names) path.

(** The attributes the click listener looks for. *)
Definition clickable : list string :=
  ["navigate"; "appChange"; "action"; "cancelWf"; "resumeWf"; "restartWf"; "wfTab"; "pauseSchedule";
   "resumeSchedule"; "triggerSchedule"; "deleteRule"; "revokeKey"; "copyAndClose"; "jsonMode"].

(** The part of the path from the element that was found. *)
Fixpoint from_target (path : list element) : list element :=
  match path with
  | [] => []
  | x :: rest => if has_data clickable x then path else from_target rest
  end.

(** ** What a click does *)

(** The fields of the open form, by the identifier of their element. *)
Record form := Form {
  f_value : string → option string;
  f_grant : string → string;          (* the select of a member, empty when there is none *)
  f_permissions : list string }.      (* the permissions that are checked *)

Inductive effect :=
| Nothing
| Event (ev : event)                  (* an operation of the application object *)
| SelectStep (json : string)
| CopyText (text : string)
| CopyAndClose (text : string)
| ViewChild (id : string)
| ExpandPayload (title raw : string)
| JsonMode (mode target : string)
| ZoomDag (percent : Z)
| ResetDagZoom
| WfTab (tab : string)
| Other (name : string).              (* an operation that is not modelled *)

Definition value_of (f : form) (id : string) : string := default "" (f_value f id).

Definition app_of (x : element) (path : list element) : string :=
  or_else (data x "wfApp")
    (match closest ["wfApp"] path with Some y => data y "wfApp" | None => "" end).

(** The chain of [else if] of the listener for the element [x] it found, in its
    order; [path] starts at [x]. *)
Definition branches (f : form) (x : element) (path : list element) : list (bool * effect) :=
  let has (n : string) := negb (String.eqb (data x n) "") in
  let action (n : string) := String.eqb (data x "action") n in
  [(has "navigate", Event (ClickNavigate (data x "navigate") (app_of x path)));
   (has "appChange", Event (SelectApp (drop_apostrophes (data x "appChange"))));
   (action "refresh", Event ClickRefresh);
   (action "toggleTheme", Event ClickTheme);
   (action "closeModal", Event ClickCloseModal);
   (action "closeMobileNav", Event ClickCloseMobile);
   (action "toggleMobileNav", Event ClickMobile);
   (action "toggleSidebarFold", Event ClickFold);
   (action "executePendingConfirm", Event ClickConfirm);
   (action "openSignIn", Event ClickSignIn);
   (action "signOut", Event ClickSignOut);
   (action "submitModalSignIn", Event (SubmitSignIn (value_of f "modal-auth-key-input")));
   (action "submitSignIn", Event (SubmitSignIn (value_of f "auth-key-input")));
   (action "viewChildWorkflow", ViewChild (data x "childWfId"));
   (action "expandPayload", ExpandPayload (data x "payloadTitle") (data x "payloadRaw"));
   (action "dagZoomIn", ZoomDag 15);
   (action "dagZoomOut", ZoomDag (-15));
   (action "dagReset", ResetDagZoom);
   (has "jsonMode", JsonMode (data x "jsonMode") (data x "targetId"));
   (action "readWorkflowEvent", Other "readWorkflowEvent");
   (action "openSendMessage", Event OpenOther);
   (action "submitSendMessage", Other "submitSendMessage");
   (has "cancelWf", Event (ClickCancel (data x "cancelWf") (data x "targetApp")));
   (has "resumeWf", Event (ClickResume (data x "resumeWf") (data x "targetApp")));
   (has "restartWf", Event (ClickRestart (data x "restartWf") (data x "targetApp")));
   (has "wfTab", WfTab (drop_apostrophes (data x "wfTab")));
   (has "pauseSchedule", Event (ClickPause (data x "pauseSchedule") (data x "scheduleApp")));
   (has "resumeSchedule", Event (ClickResumeSchedule (data x "resumeSchedule") (data x "scheduleApp")));
   (has "triggerSchedule", Event (ClickTrigger (data x "triggerSchedule") (data x "scheduleApp")));
   (action "openCreateAlert", Event OpenOther);
   (action "submitCreateAlert", Other "submitCreateAlert");
   (has "deleteRule", Event (ClickDeleteRule (data x "deleteRule") (data x "ruleApp")));
   (action "openCreateKey", Event OpenOther);
   (action "submitCreateKey", Event (SubmitKey (value_of f "new-key-name") (value_of f "new-key-app")));
   (action "openCreateRole", Event OpenOther);
   (action "submitCreateRole", Event (SubmitRole (value_of f "new-role-name") (f_permissions f)));
   (has "deleteRole", Event (ClickDeleteRole (data x "deleteRole")));
   (has "grantRole", Event (ClickGrant (data x "grantRole") (f_grant f (drop_apostrophes (data x "grantRole")))));
   (has "removeMember", Event (ClickRemoveMember (data x "removeMember")));
   (action "submitAppSettings", Other "submitAppSettings");
   (action "submitAutoscalingPolicy", Other "submitAutoscalingPolicy");
   (action "deleteAutoscalingPolicy", Event ClickDeletePolicy);
   (action "applyAuditFilters", Other "applyAuditFilters");
   (action "clearAuditFilters", Other "clearAuditFilters");
   (action "applyMetricsFilters", Other "applyMetricsFilters");
   (action "clearMetricsFilters", Other "clearMetricsFilters");
   (action "refreshMetrics", Event ClickRefresh);
   (action "auditPrevPage", Other "auditPrevPage");
   (action "auditNextPage", Other "auditNextPage");
   (has "revokeKey", Event (ClickRevoke (data x "revokeKey")));
   (has "copyAndClose", CopyAndClose (data x "copyAndClose"))].

Definition target_effect (f : form) (x : element) (path : list element) : effect :=
  match find fst (branches f x path) with Some (_, e) => e | None => Nothing end.

(** The click listener.  Without a target it looks for a step of the diagram and
    for a copy button (both when both are there; the step is then selected too). *)
Definition click (f : form) (path : list element) : list effect :=
  match from_target path with
  | x :: rest => [target_effect f x (x :: rest)]
  | [] =>
      (match path with
       | x :: _ => if String.eqb (data x "action") "closeModalOverlay" then [Event ClickCloseModal] else []
       | [] => []
       end) ++
      (match closest ["stepJson"] path with Some y => [SelectStep (data y "stepJson")] | None => [] end) ++
      (match closest ["copy"] path with Some y => [CopyText (data y "copy")] | None => [] end)
  end.

(** The change listener. *)
Definition change (path : list element) (value : string) : effect :=
  match closest ["change"] path with
  | None => Nothing
  | Some x =>
      let c := data x "change" in
      if String.eqb c "app" then Event (SelectApp value)
      else if String.eqb c "org" then Event (SelectOrg value)
      else if String.eqb c "wfStatus" then Other "filterWorkflowsStatus"
      else if String.eqb c "pollInterval" then Event (SelectPoll value)
      else Nothing
  end.

(** ** The keyboard *)

(** What the page offers to the keyboard listener: the tag of the element with
    the focus, whether it can be activated, and the filter field. *)
Record focus := Focus {
  fc_tag : option string;
  fc_clickable : bool;      (* clickable, a step, or a navigation item *)
  fc_filter : bool;         (* there is a filter field *)
  fc_modal : bool;
  fc_mobile : bool;         (* mobileNavOpen *)
  fc_items : nat;           (* the focusable elements of the dialog, when there is one *)
  fc_dialog : bool;
  fc_at : option nat }.     (* which of them has the focus *)

Inductive key_effect :=
| KeyNothing
| KeyEvent (ev : event)
| FocusFilter
| ActivateElement
| FocusItem (i : nat).

Definition is_field (tag : option string) : bool :=
  match tag with Some t => mem t ["INPUT"; "TEXTAREA"; "SELECT"] | None => false end.

Definition keydown (key : string) (ctrl shift : bool) (c : focus) : key_effect :=
  if String.eqb key "Escape" && (fc_mobile c || fc_modal c) then KeyEvent KeyEscape
  else if String.eqb key "/" && negb ctrl && (is_field (fc_tag c) || fc_filter c) then
    if is_field (fc_tag c) then KeyNothing else FocusFilter
  else if (String.eqb key "r" || String.eqb key "R") && negb ctrl then
    if is_field (fc_tag c) || fc_modal c then KeyNothing else KeyEvent KeyRefresh
  else if String.eqb key "Enter" || String.eqb key " " then
    match fc_tag c with
    | None => KeyNothing
    | Some t => if is_field (Some t) || String.eqb t "BUTTON" then KeyNothing
                else if fc_clickable c then ActivateElement else KeyNothing
    end
  else if String.eqb key "Tab" && fc_dialog c && negb (fc_items c =? 0)%nat then
    if shift then
      match fc_at c with Some 0%nat => FocusItem (fc_items c - 1) | _ => KeyNothing end
    else
      match fc_at c with
      | Some i => if (i =? fc_items c - 1)%nat then FocusItem 0 else KeyNothing
      | None => KeyNothing
      end
  else KeyNothing.

(** ** The viewport of the diagram *)

Record viewport := Viewport {
  vp_zoom : number; vp_x : Z; vp_y : Z; vp_panning : bool; vp_startX : Z; vp_startY : Z }.

Definition initial_viewport : viewport := Viewport (num 1) 0 0 false 0 0.

(** [Math.min(2.5, Math.max(0.3, zoom + delta))]. *)
Definition zoom_by (delta : number) (v : viewport) : viewport :=
  Viewport (clamp (dec 3 10) (dec 25 10) (nadd (vp_zoom v) delta)) (vp_x v) (vp_y v)
    (vp_panning v) (vp_startX v) (vp_startY v).

Inductive pointer :=
| MouseDown (x y : Z) (on_control : bool)
| MouseMove (x y : Z)
| MouseUp
| Wheel (up : bool)
| ZoomIn | ZoomOut | ResetZoom.

Definition point (ev : pointer) (v : viewport) : viewport :=
  match ev with
  | MouseDown x y on_control =>
      if on_control then v
      else Viewport (vp_zoom v) (vp_x v) (vp_y v) true (x - vp_x v) (y - vp_y v)
  | MouseMove x y =>
      if vp_panning v
      then Viewport (vp_zoom v) (x - vp_startX v) (y - vp_startY v) true (vp_startX v) (vp_startY v)
      else v
  | MouseUp => Viewport (vp_zoom v) (vp_x v) (vp_y v) false (vp_startX v) (vp_startY v)
  | Wheel up => zoom_by (if up then dec 8 100 else nsub (num 0) (dec 8 100)) v
  | ZoomIn => zoom_by (dec 15 100) v
  | ZoomOut => zoom_by (nsub (num 0) (dec 15 100)) v
  | ResetZoom => Viewport (num 1) 0 0 (vp_panning v) (vp_startX v) (vp_startY v)
  end.

(** ** Properties *)

Definition unmarked (x : element) : Prop := has_data clickable x = false.

Lemma from_target_inner inner x outer :
  Forall unmarked inner → has_data clickable x = true →
  from_target (inner ++ x :: outer) = x :: outer.
Proof. induction 1 as [|y l Hy _ IH]; intros Hx; cbn [from_target app]; [by rewrite Hx|by rewrite Hy, IH]. Qed.

Lemma click_target f inner x outer :
  Forall unmarked inner → has_data clickable x = true →
  click f (inner ++ x :: outer) = [target_effect f x (x :: outer)].
Proof. intros Hi Hx. unfold click. by rewrite from_target_inner. Qed.

(** The buttons of the templates that work, with the attributes they are given. *)
Inductive button :=
| BAction (a : string)
| BNavigate (route app : string)
| BApp (app : string)
| BCancel (id app : string)
| BResume (id app : string)
| BRestart (id app : string)
| BPause (name app : string)
| BResumeSchedule (name app : string)
| BTrigger (name app : string)
| BDeleteRule (id app : string)
| BRevoke (name : string)
| BCopyKey (token : string).

Definition attributes (b : button) : list (string * string) :=
  match b with
  | BAction a => [("action", a)]
  | BNavigate route app => [("navigate", route); ("wfApp", app)]
  | BApp app => [("appChange", app)]
  | BCancel id app => [("cancelWf", id); ("targetApp", app)]
  | BResume id app => [("resumeWf", id); ("targetApp", app)]
  | BRestart id app => [("restartWf", id); ("targetApp", app)]
  | BPause name app => [("pauseSchedule", name); ("scheduleApp", app)]
  | BResumeSchedule name app => [("resumeSchedule", name); ("scheduleApp", app)]
  | BTrigger name app => [("triggerSchedule", name); ("scheduleApp", app)]
  | BDeleteRule id app => [("deleteRule", id); ("ruleApp", app)]
  | BRevoke name => [("revokeKey", name)]
  | BCopyKey token => [("copyAndClose", token)]
  end.

(** What the attribute that makes it a button says. *)
Definition subject (b : button) : string :=
  match b with
  | BAction a => a
  | BNavigate r _ => r
  | BApp a => a
  | BCancel s _ | BResume s _ | BRestart s _ | BPause s _ | BResumeSchedule s _ | BTrigger s _
  | BDeleteRule s _ | BRevoke s | BCopyKey s => s
  end.

(** The operations of the buttons that have only an action. *)
Definition actions (f : form) : list (string * effect) :=
  [("refresh", Event ClickRefresh); ("refreshMetrics", Event ClickRefresh);
   ("toggleTheme", Event ClickTheme); ("closeModal", Event ClickCloseModal);
   ("closeMobileNav", Event ClickCloseMobile); ("toggleMobileNav", Event ClickMobile);
   ("toggleSidebarFold", Event ClickFold); ("executePendingConfirm", Event ClickConfirm);
   ("openSignIn", Event ClickSignIn); ("signOut", Event ClickSignOut);
   ("submitModalSignIn", Event (SubmitSignIn (value_of f "modal-auth-key-input")));
   ("submitSignIn", Event (SubmitSignIn (value_of f "auth-key-input")));
   ("dagZoomIn", ZoomDag 15); ("dagZoomOut", ZoomDag (-15)); ("dagReset", ResetDagZoom);
   ("openSendMessage", Event OpenOther); ("openCreateAlert", Event OpenOther);
   ("openCreateKey", Event OpenOther); ("openCreateRole", Event OpenOther);
   ("submitCreateKey", Event (SubmitKey (value_of f "new-key-name") (value_of f "new-key-app")));
   ("submitCreateRole", Event (SubmitRole (value_of f "new-role-name") (f_permissions f)));
   ("deleteAutoscalingPolicy", Event ClickDeletePolicy)] ++
  map (λ n, (n, Other n))
    ["readWorkflowEvent"; "submitSendMessage"; "submitCreateAlert"; "submitAppSettings";
     "submitAutoscalingPolicy"; "applyAuditFilters"; "clearAuditFilters"; "applyMetricsFilters";
     "clearMetricsFilters"; "auditPrevPage"; "auditNextPage"].

(** The operation a button stands for. *)
Definition meant (f : form) (b : button) : option effect :=
  match b with
  | BAction a => assoc a (actions f)
  | BNavigate route app => if String.eqb app "" then None else Some (Event (ClickNavigate route app))
  | BApp app => Some (Event (SelectApp (drop_apostrophes app)))
  | BCancel id app => Some (Event (ClickCancel id app))
  | BResume id app => Some (Event (ClickResume id app))
  | BRestart id app => Some (Event (ClickRestart id app))
  | BPause name app => Some (Event (ClickPause name app))
  | BResumeSchedule name app => Some (Event (ClickResumeSchedule name app))
  | BTrigger name app => Some (Event (ClickTrigger name app))
  | BDeleteRule id app => Some (Event (ClickDeleteRule id app))
  | BRevoke name => Some (Event (ClickRevoke name))
  | BCopyKey token => Some (CopyAndClose token)
  end.

(** An action of the table reaches its branch. *)
Lemma action_branch f a e outer :
  assoc a (actions f) = Some e →
  target_effect f (El [("action", a)]) (El [("action", a)] :: outer) = e.
Proof.
  intros H. assert (Hin : (a, e) ∈ actions f).
  { revert H. induction (actions f) as [|[k v] l IH]; [done|]. cbn.
    destruct (String.eqb_spec a k) as [->|]; [intros [= <-]; left|intros Hl; right; auto]. }
  clear H. revert Hin. unfold actions. cbn [app map].
  repeat (intros [[= -> ->]|Hin]%elem_of_cons; [reflexivity|revert Hin]).
  by intros Hin%elem_of_nil.
Qed.

(** A button reaches its branch. *)
Lemma button_click f b e inner outer :
  Forall unmarked inner → subject b ≠ "" → meant f b = Some e →
  click f (inner ++ El (attributes b) :: outer) = [e].
Proof.
  intros Hi Hs%String.eqb_neq He. rewrite click_target; [|done|by destruct b]. f_equal.
  destruct b; cbn [subject attributes meant] in *; [by apply action_branch|..];
    unfold target_effect, branches, find, data; cbn -[drop_apostrophes app_of];
    rewrite ?Hs; cbn -[drop_apostrophes app_of]; try (by injection He).
  unfold app_of, data. cbn. destruct (String.eqb app "") eqn:Ea; [done|].
  injection He as <-. unfold or_else. by rewrite Ea.
Qed.

(** A click on a button of the console, or on anything inside it, does what
    the button stands for and nothing else, wherever the button is on the page. *)
Theorem buttons_do_what_they_say f b e inner outer :
  Forall unmarked inner → subject b ≠ "" → meant f b = Some e →
  click f (inner ++ El (attributes b) :: outer) = [e].
Proof. apply button_click. Qed.

Lemma has_data_sub names names' x :
  has_data names x = false → names' ⊆ names → has_data names' x = false.
Proof.
  unfold has_data. rewrite !some_false. intros H Hs n Hn. by apply H, Hs.
Qed.

Lemma data_absent x n : has_data [n] x = false → data x n = "".
Proof.
  unfold has_data, data, mem. rewrite some_false. intros H. specialize (H n ltac:(set_solver)).
  destruct x as [l]. cbn [e_data] in *. induction l as [|[k u] l IH]; [done|]. cbn in *.
  apply orb_false_iff in H as [Hk Hl]. rewrite Hk. auto.
Qed.

(** The buttons of a role and of a member (delete, apply, remove) do
    nothing: the click listener does not look for their attributes. *)
Theorem role_and_member_buttons_are_dead f name v inner outer :
  name ∈ ["deleteRole"; "grantRole"; "removeMember"] →
  Forall (λ x, has_data ("stepJson" :: "copy" :: clickable) x = false) (inner ++ outer) →
  click f (inner ++ El [(name, v)] :: outer) = [].
Proof.
  intros Hn [Hi Ho]%Forall_app.
  assert (Hu : ∀ l, Forall (λ x, has_data ("stepJson" :: "copy" :: clickable) x = false) l →
            ∀ x, x ∈ l → has_data clickable x = false ∧ has_data ["stepJson"] x = false ∧
                         has_data ["copy"] x = false ∧ data x "action" = "").
  { intros l Hl x Hx. pose proof (proj1 (Forall_forall _ _) Hl x Hx) as Hf. cbv beta in Hf.
    split_and!; [eapply has_data_sub; [exact Hf|set_solver]..|].
    apply data_absent. eapply has_data_sub; [exact Hf|set_solver]. }
  assert (Hx : has_data clickable (El [(name, v)]) = false ∧ has_data ["stepJson"] (El [(name, v)]) = false ∧
               has_data ["copy"] (El [(name, v)]) = false ∧ data (El [(name, v)]) "action" = "").
  { repeat (apply elem_of_cons in Hn as [->|Hn]; [by split_and!|]). by apply elem_of_nil in Hn. }
  set (path := inner ++ El [(name, v)] :: outer).
  assert (Hall : ∀ x, x ∈ path → has_data clickable x = false ∧ has_data ["stepJson"] x = false ∧
                        has_data ["copy"] x = false ∧ data x "action" = "").
  { intros x [H|[->|H]%elem_of_cons]%elem_of_app; [by apply (Hu inner)|done|by apply (Hu outer)]. }
  assert (Hnone : ∀ l, (∀ x, x ∈ l → has_data clickable x = false) → from_target l = []).
  { induction l as [|y l IH]; intros Hl; [done|]. cbn [from_target]. rewrite Hl by set_solver. apply IH. set_solver. }
  unfold click. rewrite Hnone by (intros; by apply Hall).
  unfold closest. rewrite !(proj2 (find_none_elem _ _)) by (intros; by apply Hall).
  destruct path as [|x l] eqn:E; [done|]. destruct (Hall x) as (_ & _ & _ & ->); [set_solver|]. done.
Qed.

(** The zoom is a finite number between the limits of the code. *)
Definition zoom_ok (v : viewport) : Prop :=
  is_finite (vp_zoom v) = true ∧ nle (dec 3 10) (vp_zoom v) = true ∧ nle (vp_zoom v) (dec 25 10) = true.

Lemma zoom_by_ok delta v : is_finite delta = true → zoom_ok v → zoom_ok (zoom_by delta v).
Proof.
  intros Hd (Hf & _ & _). unfold zoom_ok, zoom_by; cbn [vp_zoom].
  apply clamp_bounds; try (vm_compute; reflexivity). by apply nadd_not_nan.
Qed.

Lemma point_ok ev v : zoom_ok v → zoom_ok (point ev v).
Proof.
  intros H. destruct ev as [x y c|x y| |up| | |]; cbn [point]; try done; case_tests; try done;
    try (apply zoom_by_ok; [vm_compute; reflexivity|done]).
Qed.

(** Whatever is done with the mouse, the wheel and the buttons, the zoom of
    the diagram stays a finite number between the two limits of the code, 0.3
    and 2.5, in the floating-point arithmetic the browser uses. *)
Theorem zoom_stays_in_bounds evs :
  zoom_ok (fold_left (λ v ev, point ev v) evs initial_viewport).
Proof.
  assert (H : zoom_ok initial_viewport) by (by repeat split; vm_compute).
  revert H. generalize initial_viewport. induction evs as [|ev evs IH]; intros v Hv; [done|].
  cbn. by apply IH, point_ok.
Qed.

(** ** Witnesses *)

Definition empty_form : form := Form (λ _, None) (λ _, "") [].

Lemma buttons_do_what_they_say_witness :
  click empty_form [El []; El [("revokeKey", "ci's key")]; El [("action", "closeModalOverlay")]] =
    [Event (ClickRevoke "ci's key")].
Proof.
  exact (buttons_do_what_they_say empty_form (BRevoke "ci's key") _ [El []] [El [("action", "closeModalOverlay")]]
    ltac:(repeat constructor) ltac:(discriminate) eq_refl).
Defined.

Lemma role_and_member_buttons_are_dead_witness :
  click empty_form [El [("deleteRole", "viewer")]; El []; El []] = [].
Proof.
  exact (role_and_member_buttons_are_dead empty_form "deleteRole" "viewer" [] [El []; El []]
    ltac:(repeat constructor) ltac:(repeat constructor)).
Defined.

(** ** What modelling showed *)

(** A click beside a dialog finds the overlay itself, whose action has no branch:
    the dialog does not close. *)
Lemma overlay_click_does_nothing :
  click empty_form [El [("action", "closeModalOverlay")]] = [Nothing].
Proof. vm_compute. reflexivity. Qed.

(** A copy button inside a dialog or drawer is never reached: the overlay around
    it is found first. *)
Lemma copy_in_dialog_does_nothing :
  click empty_form [El [("copy", "payload")]; El []; El [("action", "closeModalOverlay")]] = [Nothing].
Proof. vm_compute. reflexivity. Qed.

(** The button that shows all applications again has an empty value, which the
    listener takes for no value. *)
Lemma show_all_does_nothing : click empty_form [El [("appChange", "")]] = [Nothing].
Proof. vm_compute. reflexivity. Qed.

(** The buttons of an application that should also select it only navigate. *)
Lemma navigate_wins_over_application :
  click empty_form [El [("appChange", "shop"); ("navigate", "queues")]] =
    [Event (ClickNavigate "queues" "")].
Proof. vm_compute. reflexivity. Qed.
