(* ===== verification/ConsoleWidgets.v ===== *)
(** The small renderers the console's screens share: StatusPill.js,
    JsonViewer.js, the time and duration texts of app.js, the step drawer and
    the payload dialog, and the way from a click on a step of the diagram to
    its drawer.

    Statuses are texts.  The browser's rendering of a date in its locale, the
    present time and the random identifier of a viewer are parameters. *)

From Stdlib Require Import ZArith Lia Ascii String.
From stdpp Require Import base list strings gmap.
From S2P Require Import Prelude Html Json JsonSpec JsDate JsNumber Uri.

(** [escapeHtml(v)] on any value: nothing for [null] and [undefined]. *)
Definition escapeHtml (s : string) : string := escape_chain s.
Definition esc (v : jval) : string := if nullish v then "" else escapeHtml (js_string v).

(** [truncate(str, n)] of app.js. *)
Definition truncate (v : jval) (maxLen : Z) : jval :=
  if negb (truthy v) then JStr ""
  else
    let s := js_string v in
    if maxLen <? Z.of_nat (String.length s)
    then JStr (stake (Z.to_nat (maxLen - 1)) s +:+ ellipsis) else v.

(** ** StatusPill.js *)

Definition pill_class (s : string) : string :=
  if some (String.eqb s) ["SUCCESS"; "HEALTHY"; "AVAILABLE"] then "pill-success"
  else if some (String.eqb s) ["PENDING"; "ENQUEUED"; "RUNNING"] then "pill-info"
  else if some (String.eqb s) ["ERROR"; "DEAD"; "UNAVAILABLE"; "MAX_RECOVERY_ATTEMPTS_EXCEEDED"]
  then "pill-error"
  else if some (String.eqb s) ["CANCELLED"; "DISCONNECTED"] then "pill-warning"
  else if String.eqb s "DELAYED" then "pill-purple"
  else "pill-neutral".

Definition renderStatusPill (status : jval) : string :=
  let s := to_upper (js_string (jor status (JStr "UNKNOWN"))) in
  let colorClass := pill_class s in
  tpl [T "<span class=`status-pill ";
      H (colorClass);
      T "`><span class=`dot`></span>";
      H (escapeHtml s);
      T "</span>"].

(** ** JsonViewer.js: colours *)

Definition is_word (a : ascii) : bool := is_alnum a || Ascii.eqb a "_".

(** The end of a quoted text, after its opening quote: an escape of four
    letters or digits, an escape of one character, or any other character. *)
Fixpoint quoted_end (s : string) : option nat :=
  match s with
  | EmptyString => None
  | String a s' =>
      if Ascii.eqb a dquote then Some 1%nat
      else if Ascii.eqb a "\" then
        match s' with
        | String "u" (String b1 (String b2 (String b3 (String b4 s'')))) =>
            if is_alnum b1 && is_alnum b2 && is_alnum b3 && is_alnum b4
            then (λ n, 6 + n)%nat <$> quoted_end s'' else None
        | String "u" _ => None
        | String _ s'' => (λ n, 2 + n)%nat <$> quoted_end s''
        | EmptyString => None
        end
      else S <$> quoted_end s'
  end.

Fixpoint spaces_run (s : string) : nat :=
  match s with String a s' => if is_space a then S (spaces_run s') else O | _ => O end.

Fixpoint digits_run (s : string) : nat :=
  match s with String a s' => if is_digit a then S (digits_run s') else O | _ => O end.

(** The white space and the colon after a field's name. *)
Definition colon_run (s : string) : nat :=
  let n := spaces_run s in
  match sdrop n s with String ":" _ => S n | _ => O end.

(** A number: an optional minus sign, digits, then optionally a point with
    digits and an exponent (whose sign may also be a backslash). *)
Definition number_run (s : string) : nat :=
  let m := match s with String "-" _ => 1%nat | _ => O end in
  let i := digits_run (sdrop m s) in
  if (i =? 0)%nat then O
  else
    let n := (m + i)%nat in
    let n := match sdrop n s with String "." t => (n + 1 + digits_run t)%nat | _ => n end in
    match sdrop n s with
    | String c t =>
        if Ascii.eqb c "e" || Ascii.eqb c "E" then
          let k := match t with
                   | String d _ => if mem_char d "+\-" then 1%nat else O
                   | EmptyString => O
                   end in
          let x := digits_run (sdrop k t) in
          if (x =? 0)%nat then n else (n + 1 + k + x)%nat
        else n
    | EmptyString => n
    end.

(** [\b(true|false|null)\b]; [prev] is the character before. *)
Definition word_run (prev : option ascii) (s : string) : nat :=
  if match prev with Some p => is_word p | None => false end then O
  else
    match find (λ w, is_prefix w s &&
                     match sdrop (String.length w) s with String a _ => negb (is_word a) | _ => true end)
               ["true"; "false"; "null"] with
    | Some w => String.length w
    | None => O
    end.

(** The length of the match of the whole expression here, zero if none. *)
Definition token_run (prev : option ascii) (s : string) : nat :=
  let quoted :=
    match s with
    | String a s' =>
        if Ascii.eqb a dquote then
          match quoted_end s' with
          | Some n => (1 + n + colon_run (sdrop n s'))%nat
          | None => O
          end
        else O
    | EmptyString => O
    end in
  if (0 <? quoted)%nat then quoted
  else if (0 <? word_run prev s)%nat then word_run prev s
  else number_run s.

Definition token_class (match_ : string) : string :=
  match match_ with
  | String a _ =>
      if Ascii.eqb a dquote then (if ends_with match_ ":" then "json-key" else "json-string")
      else if includes match_ "true" || includes match_ "false" then "json-boolean"
      else if includes match_ "null" then "json-null"
      else "json-number"
  | EmptyString => "json-number"
  end.

(** [escaped.replace(regex, wrap)]: [fuel] bounds the number of characters. *)
Fixpoint highlight_from (fuel : nat) (prev : option ascii) (s : string) : string :=
  match fuel, s with
  | S f, String a s' =>
      let n := token_run prev s in
      if (n =? 0)%nat then String a (highlight_from f (Some a) s')
      else
        let m := stake n s in
        tpl [T "<span class=`"; H (token_class m); T "`>"; H m; T "</span>"] +:+
        highlight_from f (String.get (n - 1) s) (sdrop n s)
  | _, _ => s
  end.

Definition syntaxHighlight (json : string) : string :=
  let escaped := escapeHtml json in
  highlight_from (String.length escaped) None escaped.

Section Widgets.
(** [new Date(v).toLocaleString(undefined, { .. })]. *)
Context (locale : jval → string).
Context (now : Z).
(** ["json-" + Math.random().toString(36).substring(2, 9)]. *)
Context (viewer_id : string).

(** ** JsonViewer.js: the viewer *)

Definition viewer_html (id title raw formatted : string) : string :=
  tpl [T "
    <div class=`json-viewer` id=`";
      H (id);
      T "`>
      <div class=`json-header`>
        <div class=`json-header-left`>
          <span class=`json-title`>";
      H (escapeHtml title);
      T "</span>
          <div class=`json-segment-group` role=`group` aria-label=`Format mode`>
            <button class=`json-segment-btn active` data-json-mode=`decoded` data-target-id=`";
      H (id);
      T "` type=`button`>Decoded</button>
            <button class=`json-segment-btn` data-json-mode=`raw` data-target-id=`";
      H (id);
      T "` type=`button`>Raw</button>
          </div>
        </div>
        <div class=`json-header-right`>
          <button class=`btn btn-xs btn-secondary` data-action=`expandPayload` data-payload-title=`";
      H (escapeHtml title);
      T "` data-payload-raw=`";
      H (escapeHtml raw);
      T "` type=`button` title=`Expand to fullscreen modal`>
            <svg width=`11` height=`11` viewBox=`0 0 24 24` fill=`none` stroke=`currentColor` stroke-width=`2` aria-hidden=`true`><polyline points=`15 3 21 3 21 9`/><polyline points=`9 21 3 21 3 15`/><line x1=`21` y1=`3` x2=`14` y2=`10`/><line x1=`3` y1=`21` x2=`10` y2=`14`/></svg>
            <span style=`margin-left:4px;`>Expand</span>
          </button>
          <button class=`btn btn-xs btn-secondary copy-btn` data-copy=`";
      H (escapeHtml raw);
      T "` type=`button`>Copy</button>
        </div>
      </div>
      <pre class=`json-content`><code class=`json-view-decoded`>";
      H (formatted);
      T "</code><code class=`json-view-raw` style=`display:none;`>";
      H (escapeHtml raw);
      T "</code></pre>
    </div>
  "].

Definition renderJsonViewer (data : jval) (title : string) : string :=
  if nullish data || is_str data "" then
    tpl [T "<div class=`json-viewer empty`><em>No data</em></div>"]
  else
    let raw := match data with JStr s => s | v => default "undefined" (stringify_pretty 0 v) end in
    let formatted :=
      match data with
      | JStr s =>
          match json_parse s with
          | Some v => syntaxHighlight (default "undefined" (stringify_pretty 0 v))
          | None => tpl [T "<span class=`json-string`>"; H (escapeHtml s); T "</span>"]
          end
      | _ => syntaxHighlight raw
      end in
    viewer_html viewer_id title raw formatted.

(** ** Times *)

Definition formatTimestamp (v : jval) : string := if truthy v then locale v else "-".

(** [new Date(v).getTime()] of what the API sends as a time. *)
Definition time_of (v : jval) : option Z :=
  match v with JStr s => date_ms s | JNum n => Some n | _ => None end.

(** The text of a number of milliseconds. *)
Definition duration_text (ms : Z) : string :=
  if ms <? 1000 then string_of_Z ms +:+ "ms"
  else if ms <? 60000 then to_fixed 1 (dec ms 1000) +:+ "s"
  else string_of_Z (ms / 60000) +:+ "m " +:+ string_of_Z (ms mod 60000 / 1000) +:+ "s".

Definition terminal (status : jval) : bool :=
  some (String.eqb (to_upper (js_string (jor status (JStr ""))))) ["SUCCESS"; "ERROR"; "CANCELLED"].

Definition calculateDuration (startStr endStr status durationMs : jval) : string :=
  let measured :=
    if nullish durationMs then None
    else match js_number durationMs with
         | Some ms => if 0 <? ms then Some (duration_text ms) else None
         | None => None
         end in
  match measured with
  | Some t => t
  | None =>
      if negb (truthy startStr) then "-"
      else
        let isRunning := negb (terminal status) && negb (truthy endStr) in
        let end_ :=
          if truthy endStr then time_of endStr
          else if terminal status then time_of startStr else Some now in
        let str :=
          match time_of startStr, end_ with
          | Some a, Some b => duration_text (Z.max 0 (b - a))
          | _, _ => "NaNm NaNs"
          end in
        if isRunning then str +:+ " (running)" else str
  end.

Definition formatRelativeTime (v : jval) : string :=
  if negb (truthy v) then "-"
  else
    match time_of v with
    | None => "NaNd ago"
    | Some t =>
        let diff := (now - t) / 1000 in
        if diff <? 5 then "just now"
        else if diff <? 60 then string_of_Z diff +:+ "s ago"
        else if diff <? 3600 then string_of_Z (diff / 60) +:+ "m ago"
        else if diff <? 86400 then string_of_Z (diff / 3600) +:+ "h ago"
        else string_of_Z (diff / 86400) +:+ "d ago"
    end.

(** ** The step drawer *)

(** [window.selectStep]: the step it shows; [None] when nothing parses. *)
Definition selectStep (encodedStepJson : string) : option jval :=
  match json_parse encodedStepJson with
  | Some step => Some step
  | None =>
      match decodeURIComponent encodedStepJson with
      | Some t => json_parse t
      | None => None
      end
  end.

Definition step_id (step : jval) : jval :=
  if negb (nullish (field step "stepId")) then field step "stepId"
  else if negb (nullish (field step "functionId")) then field step "functionId"
  else if negb (nullish (field step "function_id")) then field step "function_id"
  else JStr "0".

Definition step_name (step : jval) : jval :=
  jor (jor (jor (jor (field step "stepName") (field step "name")) (field step "functionName"))
           (field step "step_name")) (JStr "step").

Definition step_status (step : jval) : string :=
  let status := field step "status" in
  let up := to_upper (js_string status) in
  let isError := truthy (field step "error") || (truthy status && String.eqb up "ERROR") in
  let isSuccess := (truthy status && (String.eqb up "SUCCESS" || String.eqb up "COMPLETED")) ||
                   truthy (field step "completedAt") in
  if isError then "ERROR"
  else if isSuccess then "SUCCESS"
  else if truthy status then up else "PENDING".

Definition renderStepDrawer (step : jval) : string :=
  let stepId := step_id step in
  let stepName := step_name step in
  let stepStatus := step_status step in
  tpl [T "
      <div class=`drawer-overlay` data-action=`closeModalOverlay` role=`dialog` aria-modal=`true` aria-labelledby=`drawer-step-title`>
        <aside class=`drawer-panel` role=`document`>
          <div class=`drawer-header`>
            <span id=`drawer-step-title`>Step #";
      H (js_string stepId);
      T ": ";
      H (esc stepName);
      T "</span>
            <button class=`btn btn-xs btn-secondary` data-action=`closeModal` aria-label=`Close inspector`>
              <svg width=`14` height=`14` viewBox=`0 0 24 24` fill=`none` stroke=`currentColor` stroke-width=`2` aria-hidden=`true`><line x1=`18` y1=`6` x2=`6` y2=`18`/><line x1=`6` y1=`6` x2=`18` y2=`18`/></svg>
            </button>
          </div>
          <div class=`drawer-body`>
            <div style=`display:flex; justify-content:space-between; align-items:center;`>
              <span class=`stat-label`>Status</span>
              ";
      H (renderStatusPill (JStr stepStatus));
      T "
            </div>
            <div>
              <span class=`stat-label`>Execution Time</span>
              <div style=`font-size:12px; margin-top:2px;`>
                Started: ";
      H (formatTimestamp (field step "startedAt"));
      T "<br>
                Completed: ";
      H (formatTimestamp (field step "completedAt"));
      T "
              </div>
            </div>
            ";
      H (if truthy (field step "childWorkflowId") then tpl [T "
              <div>
                <span class=`stat-label`>Child Workflow</span>
                <div style=`margin-top:4px;`>
                  <a class=`btn btn-xs btn-primary` data-action=`viewChildWorkflow` data-child-wf-id=`";
      H (esc (field step "childWorkflowId"));
      T "`>
                    View Child Workflow: ";
      H (esc (field step "childWorkflowId"));
      T "
                  </a>
                </div>
              </div>
            "] else "");
      T "
            <div>
              <span class=`stat-label`>Output / Result</span>
              ";
      H (renderJsonViewer (field step "output") "Step Output");
      T "
            </div>
            ";
      H (if truthy (field step "error") then tpl [T "
              <div>
                <span class=`stat-label` style=`color:var(--error);`>Error Stack</span>
                ";
      H (renderJsonViewer (field step "error") "Error Details");
      T "
              </div>
            "] else "");
      T "
          </div>
          <div class=`drawer-footer`>
            <button class=`btn btn-sm btn-secondary` data-action=`closeModal`>Close</button>
          </div>
        </aside>
      </div>
    "].

(** ** The payload dialog *)

Definition openExpandPayloadModal (title raw : string) : string :=
  let formatted :=
    match json_parse raw with
    | Some parsed => default "undefined" (stringify_pretty 0 parsed)
    | None => raw
    end in
  tpl [T "
      <div class=`modal-overlay` data-action=`closeModalOverlay` role=`dialog` aria-modal=`true` aria-labelledby=`payload-modal-title`>
        <div class=`modal-dialog modal-dialog-large` role=`document`>
          <div class=`modal-header`>
            <h3 class=`modal-title` id=`payload-modal-title`>";
      H (escapeHtml (or_else title "Payload Details"));
      T "</h3>
            <button class=`btn btn-xs btn-secondary` data-action=`closeModal` aria-label=`Close dialog`>
              <svg width=`14` height=`14` viewBox=`0 0 24 24` fill=`none` stroke=`currentColor` stroke-width=`2` aria-hidden=`true`><line x1=`18` y1=`6` x2=`6` y2=`18`/><line x1=`6` y1=`6` x2=`18` y2=`18`/></svg>
            </button>
          </div>
          <div class=`modal-body`>
            <div class=`json-viewer` id=`modal-expanded-viewer`>
              <div class=`json-header`>
                <span class=`json-title`>";
      H (escapeHtml title);
      T "</span>
                <button class=`btn btn-xs btn-secondary copy-btn` data-copy=`";
      H (escapeHtml raw);
      T "`>Copy Payload</button>
              </div>
              <pre class=`json-content` style=`max-height: 55vh;`><code>";
      H (escapeHtml formatted);
      T "</code></pre>
            </div>
          </div>
          <div class=`modal-footer`>
            <button class=`btn btn-sm btn-secondary` data-action=`closeModal`>Close</button>
          </div>
        </div>
      </div>
    "].
End Widgets.

(** ** Highlighting only adds colours *)

(** The text of a page without its tags. *)
Fixpoint strip_tags (inside : bool) (s : string) : string :=
  match s with
  | EmptyString => ""
  | String a s' =>
      if inside then strip_tags (negb (Ascii.eqb a ">")) s'
      else if Ascii.eqb a "<" then strip_tags true s'
      else String a (strip_tags false s')
  end.

Definition no_tag (s : string) : bool := sforall (λ a, negb (Ascii.eqb a "<")) s.

Lemma strip_text m t : no_tag m = true → strip_tags false (m +:+ t) = m +:+ strip_tags false t.
Proof.
  unfold no_tag. induction m as [|a m IH]; intros H; [by rewrite !app_empty_str|].
  cbn [sforall] in H. apply andb_true_iff in H as [Ha H]. apply negb_true_iff in Ha.
  rewrite !app_cons_str. cbn [strip_tags]. by rewrite Ha, IH.
Qed.

Lemma strip_inside c t :
  sforall (λ a, negb (Ascii.eqb a ">")) c = true →
  strip_tags true (c +:+ String ">" t) = strip_tags false t.
Proof.
  induction c as [|a c IH]; intros H; [done|].
  cbn [sforall] in H. apply andb_true_iff in H as [Ha H].
  rewrite app_cons_str. cbn [strip_tags]. by rewrite Ha, IH.
Qed.

Lemma strip_span c m t :
  sforall (λ a, negb (Ascii.eqb a ">")) c = true → no_tag m = true →
  strip_tags false (tpl [T "<span class=`"; H c; T "`>"; H m; T "</span>"] +:+ t) =
  m +:+ strip_tags false t.
Proof.
  intros Hc Hm.
  assert (E : tpl [T "<span class=`"; H c; T "`>"; H m; T "</span>"] +:+ t =
    String "<" ((q "span class=`" +:+ c +:+ String dquote "") +:+
                String ">" (m +:+ q "</span>" +:+ t))).
  { cbn [tpl chunk_text]. rewrite app_nil_r_str, !app_assoc_str. reflexivity. }
  rewrite E. cbn [strip_tags]. rewrite Ascii.eqb_refl, strip_inside.
  - rewrite strip_text by done. reflexivity.
  - rewrite !sforall_app, Hc. reflexivity.
Qed.

Lemma token_class_closed m : sforall (λ a, negb (Ascii.eqb a ">")) (token_class m) = true.
Proof. unfold token_class. destruct m as [|a m]; [done|]. by case_tests. Qed.

Lemma no_tag_split n s : no_tag s = true → no_tag (stake n s) = true ∧ no_tag (sdrop n s) = true.
Proof.
  unfold no_tag. intros H. rewrite <- (stake_sdrop n s), sforall_app in H.
  by apply andb_true_iff in H.
Qed.

Lemma strip_highlight fuel prev s :
  no_tag s = true → strip_tags false (highlight_from fuel prev s) = s.
Proof.
  revert prev s. induction fuel as [|f IH]; intros prev s H; cbn [highlight_from].
  - pose proof (strip_text s "" H) as E. rewrite !app_nil_r_str in E. exact E.
  - destruct s as [|a s']; [done|]. destruct (token_run prev (String a s') =? 0)%nat eqn:En.
    + unfold no_tag in H. cbn [sforall] in H. apply andb_true_iff in H as [Ha H].
      apply negb_true_iff in Ha. cbn [strip_tags]. rewrite Ha. f_equal. by apply IH.
    + destruct (no_tag_split (token_run prev (String a s')) _ H) as [H1 H2].
      rewrite strip_span; [|apply token_class_closed|done]. rewrite IH by done. apply stake_sdrop.
Qed.

Lemma escaped_no_tag s : no_tag (escapeHtml s) = true.
Proof.
  unfold escapeHtml. rewrite escape_chain_all. unfold no_tag.
  induction s as [|a s IH]; [done|]. cbn [escape_all]. rewrite sforall_app, IH, andb_true_r.
  destruct a as [[] [] [] [] [] [] [] []]; reflexivity.
Qed.

(** Whatever the payload, colouring it only wraps parts of its escaped text
    in elements of the viewer: without them the page shows exactly the escaped
    text, so a payload can neither add markup of its own nor lose a character. *)
Theorem highlight_only_wraps json :
  strip_tags false (syntaxHighlight json) = escapeHtml json.
Proof. unfold syntaxHighlight. apply strip_highlight, escaped_no_tag. Qed.

(** ** What the colours miss *)

(** The text is escaped before it is coloured: its quotes are entities by then,
    so names and texts are never coloured, and the digits of the apostrophe's
    entity are taken for a number, which breaks the entity. *)
Lemma apostrophe_broken :
  syntaxHighlight "it's" =
  tpl [T "it&#<span class=`json-number`>039</span>;s"].
Proof. vm_compute. reflexivity. Qed.

Lemma names_uncoloured :
  includes (syntaxHighlight (default "" (stringify_pretty 0 (JObj [("name", JStr "n")])))) "json-key" = false.
Proof. vm_compute. reflexivity. Qed.

(** A minute less a few milliseconds is shown as sixty seconds. *)
Lemma sixty_seconds : duration_text 59960 = "60.0s".
Proof. vm_compute. reflexivity. Qed.

(** The number of a step is interpolated as it is: a text there is markup. *)
Lemma step_number_is_markup :
  includes (renderStepDrawer (λ _, "") "json-1"
    (JObj [("stepId", JStr "<b>")])) "Step #<b>: step" = true.
Proof. vm_compute. reflexivity. Qed.
