(* ===== verification/ConsoleDetail.v ===== *)
(** From the diagram to the drawer: a step drawn by WorkflowDAG.js carries
    itself as the JSON text of an attribute; a click reads the attribute and
    app.js shows the step it finds there. *)

From Stdlib Require Import ZArith Lia Ascii String.
From stdpp Require Import base list strings.
From S2P Require Import Prelude Html Json JsonSpec JsDate JsNumber Uri WorkflowDag ConsoleWidgets.

(** ** Reading an attribute of the page

    [el.getAttribute(name)] on the first element of a text that has it: the
    text between the quotes, with its entities decoded. *)

Fixpoint upto_quote (s : string) : string :=
  match s with
  | EmptyString => ""
  | String a s' => if Ascii.eqb a dquote then "" else String a (upto_quote s')
  end.

Fixpoint raw_attribute (mark : string) (s : string) : option string :=
  if is_prefix mark s then Some (upto_quote (sdrop (String.length mark) s))
  else match s with EmptyString => None | String _ s' => raw_attribute mark s' end.

Definition getAttribute (name html : string) : option string :=
  decode_entities <$> raw_attribute (name +:+ q "=`") html.

(** The click of a node: the drawer opened for it. *)
Definition open_step (html : string) : option jval :=
  getAttribute "data-step-json" html ≫= selectStep.

(** ** Lemmas *)

Lemma upto_quote_inert s t : Inert s → upto_quote (s +:+ String dquote t) = s.
Proof.
  unfold Inert, skeleton. induction s as [|a s IH]; intros H; [reflexivity|].
  rewrite app_cons_str. cbn [sfilter upto_quote] in *.
  destruct (Ascii.eqb_spec a dquote) as [->|]; [done|].
  destruct (is_markup a); [done|]. by rewrite IH.
Qed.

Lemma raw_attribute_here mark t :
  raw_attribute mark (mark +:+ t) = Some (upto_quote t).
Proof.
  assert (sdrop (String.length mark) (mark +:+ t) = t) as E.
  { induction mark as [|b m IH]; [by destruct t|exact IH]. }
  assert (raw_attribute mark (mark +:+ t) =
    if is_prefix mark (mark +:+ t)
    then Some (upto_quote (sdrop (String.length mark) (mark +:+ t)))
    else match mark +:+ t with EmptyString => None | String _ s' => raw_attribute mark s' end) as ->
    by (by destruct (mark +:+ t)).
  by rewrite is_prefix_app, E.
Qed.

(** Texts in which no mark begins are passed over. *)
Fixpoint differ (mark s : string) : bool :=
  match mark, s with
  | String a m, String b s' => negb (Ascii.eqb a b) || differ m s'
  | _, _ => false
  end.

Fixpoint no_mark (mark s : string) : bool :=
  match s with EmptyString => true | String _ s' => differ mark s && no_mark mark s' end.

Lemma differ_prefix mark s t : differ mark s = true → is_prefix mark (s +:+ t) = false.
Proof.
  revert s. induction mark as [|a m IH]; intros [|b s] H; try done.
  rewrite app_cons_str. cbn [differ is_prefix] in *.
  destruct (Ascii.eqb a b); [by apply IH|reflexivity].
Qed.

Lemma raw_attribute_skip mark s t :
  no_mark mark s = true → raw_attribute mark (s +:+ t) = raw_attribute mark t.
Proof.
  induction s as [|b s IH]; intros H; [by rewrite app_empty_str|].
  cbn [no_mark] in H. apply andb_true_iff in H as [Hb H].
  apply (differ_prefix _ _ t) in Hb. rewrite app_cons_str in *. cbn [raw_attribute].
  rewrite Hb. by apply IH.
Qed.

Lemma no_mark_number a m n :
  is_digit a = false → a ≠ "-"%char → no_mark (String a m) (string_of_Z n) = true.
Proof.
  intros Ha Hm.
  assert (∀ s, sforall is_digit s = true → no_mark (String a m) s = true) as Hd.
  { induction s as [|b s IH]; [done|]. cbn [sforall no_mark differ]. intros H.
    apply andb_true_iff in H as [Hb H]. rewrite IH by done. rewrite andb_true_r.
    destruct (Ascii.eqb_spec a b) as [<-|]; [congruence|reflexivity]. }
  destruct (Z.ltb_spec n 0) as [Hn|Hn].
  - rewrite string_of_neg by done. cbn [no_mark differ].
    rewrite Hd by (apply string_of_Z_decimal; lia).
    destruct (Ascii.eqb_spec a "-") as [|_]; [done|reflexivity].
  - apply Hd, string_of_Z_decimal, Hn.
Qed.

(** A drawn step carries itself: nothing before its attribute is taken for it. *)
Lemma step_attribute n t :
  stringify (Layout.n_step n) = Some t →
  getAttribute "data-step-json" (Svg.node_svg n) = Some t.
Proof.
  intros Ht. unfold getAttribute, Svg.node_svg, Svg.renderStepNodeSvg, Svg.Zs. rewrite Ht.
  cbn [default from_option id tpl chunk_text]. rewrite dag_escapeHtml_chain. cbn [js_string].
  rewrite raw_attribute_skip by reflexivity.
  rewrite raw_attribute_skip by (unfold Svg.getStepStatusMeta; by case_tests).
  rewrite raw_attribute_skip by reflexivity.
  rewrite raw_attribute_skip by by apply no_mark_number.
  rewrite raw_attribute_skip by reflexivity.
  rewrite raw_attribute_skip by by apply no_mark_number.
  match goal with |- context [q ?c +:+ (escape_chain t +:+ q ?d +:+ ?r)] =>
    change (q c) with (q ")`
     " +:+ ("data-step-json" +:+ q "=`"));
    change (q d) with (String dquote (q (sdrop 1 d))) end.
  rewrite app_assoc_str, raw_attribute_skip by reflexivity.
  rewrite raw_attribute_here, app_cons_str, upto_quote_inert by apply _.
  cbn [fmap option_fmap option_map]. by rewrite esc_decode.
Qed.

(** ** The drawer and the diagram agree *)

Lemma upper_of_truthy v :
  Svg.upper_of v = if truthy v then to_upper (js_string v) else "".
Proof. unfold Svg.upper_of, jor. by destruct (truthy v). Qed.

Lemma status_agrees step :
  (step_status step = "ERROR" ↔ Svg.statusText (Svg.getStepStatusMeta step) = "ERROR") ∧
  (step_status step = "SUCCESS" ↔ Svg.statusText (Svg.getStepStatusMeta step) = "COMPLETED").
Proof.
  unfold step_status, Svg.getStepStatusMeta. rewrite upper_of_truthy.
  generalize (to_upper (js_string (field step "status"))). intros u.
  destruct (truthy (field step "error")); [by split|].
  destruct (truthy (field step "status")), (truthy (field step "completedAt")),
    (truthy (field step "startedAt")); cbn;
  destruct (String.eqb_spec u "ERROR") as [?|?];
  destruct (String.eqb_spec u "SUCCESS") as [?|?];
  destruct (String.eqb_spec u "COMPLETED") as [?|?];
  destruct (String.eqb_spec u "RUNNING") as [?|?]; cbn; split; split; congruence.
Qed.

(** C16: a click on a step of the diagram opens the drawer of exactly that step:
    the attribute it was drawn with, whatever the step holds, reads back to the
    step, and the drawer calls it failed or successful exactly when the diagram
    coloured it as failed or completed. *)
Theorem clicked_step_opens n :
  proper_value (Layout.n_step n) = true →
  full_value (Layout.n_step n) = true →
  open_step (Svg.node_svg n) = Some (Layout.n_step n) ∧
  (step_status (Layout.n_step n) = "ERROR" ↔
   Svg.statusText (Svg.getStepStatusMeta (Layout.n_step n)) = "ERROR") ∧
  (step_status (Layout.n_step n) = "SUCCESS" ↔
   Svg.statusText (Svg.getStepStatusMeta (Layout.n_step n)) = "COMPLETED").
Proof.
  intros Hp Hf. destruct (stringify_full _ Hf) as [t Ht]. split; [|apply status_agrees].
  unfold open_step. rewrite (step_attribute n t Ht). cbn [mbind option_bind].
  unfold selectStep. by rewrite (parse_stringify _ t Hp Ht), clean_full.
Qed.

Definition quoted_step : jval :=
  JObj [("stepId", JNum 3); ("stepName", JStr "it's a <b>"); ("status", JStr "error");
        ("output", JArr [JStr (String dquote ""); JNull])].

Lemma clicked_step_opens_witness :
  open_step (Svg.node_svg (Layout.Node quoted_step (-16) 222)) = Some quoted_step ∧
  step_status quoted_step = "ERROR".
Proof.
  destruct (clicked_step_opens (Layout.Node quoted_step (-16) 222) eq_refl eq_refl)
    as (H & E & _).
  split; [exact H|]. apply E. reflexivity.
Defined.

(** The diagram shows a started step without a status as running; its drawer
    calls it pending. *)
Lemma started_step_pending :
  let step := JObj [("stepId", JNum 0); ("startedAt", JStr "2026-01-01T00:00:00Z")] in
  Svg.statusText (Svg.getStepStatusMeta step) = "RUNNING" ∧ step_status step = "PENDING".
Proof. split; reflexivity. Qed.
