(* ===== verification/Exposition.v ===== *)
(** The reader of the metrics text (app.js, [parsePrometheusExposition]): the
    lines of a scrape become families of samples.  A printer of the same format
    is given as the reference, and what it prints is read back. *)

From Stdlib Require Import ZArith Lia Ascii String SpecFloat.
From stdpp Require Import base list strings gmap.
From S2P Require Import Prelude Html JsNumber JsDecimal.

Definition newline_char : ascii := "010"%char.

(** The object [labels] of a sample is a finite map. *)
Record sample := Sample { labels : gmap string string; value : number }.
Record family := Family { name : string; help : string; type : string; samples : list sample }.

(** ** The expressions *)

(** [.]: anything but a line break. *)
Definition dot (a : ascii) : bool := negb ((code a =? 10) || (code a =? 13)).

Definition letter_ (a : ascii) : bool :=
  ((65 <=? code a) && (code a <=? 90)) || ((97 <=? code a) && (code a <=? 122)) || Ascii.eqb a "_".
Definition name_start (a : ascii) : bool := letter_ a || Ascii.eqb a ":".
Definition name_char (a : ascii) : bool := name_start a || is_digit a.
Definition label_char (a : ascii) : bool := letter_ a || is_digit a.
(** [[0-9.eE+-]]. *)
Definition value_char (a : ascii) : bool :=
  is_digit a || Ascii.eqb a "." || Ascii.eqb a "e" || Ascii.eqb a "E" || Ascii.eqb a "+" || Ascii.eqb a "-".

(** The longest run of characters of a class, and the rest. *)
Fixpoint run (f : ascii → bool) (s : string) : string * string :=
  match s with
  | EmptyString => ("", "")
  | String a s' => if f a then let '(u, t) := run f s' in (String a u, t) else ("", s)
  end.

(** [(-?[0-9.eE+-]+|NaN|\+Inf|-Inf)]: the class of the first alternative holds
    the minus sign, so it matches the longest run of the class. *)
Definition value_match (s : string) : option string :=
  let u := fst (run value_char s) in
  if negb (String.eqb u "") then Some u
  else find (λ w, is_prefix w s) ["NaN"; "+Inf"; "-Inf"].

(** [\s+] and the value. *)
Definition after_space (s : string) : option string :=
  let '(u, t) := run is_space s in
  if String.eqb u "" then None else value_match t.

(** The braces and the value: the longest text without a line break that a
    closing brace, white space and a value follow. *)
Fixpoint in_braces (s : string) : option (string * string) :=
  match s with
  | EmptyString => None
  | String a s' =>
      match (if dot a then in_braces s' else None) with
      | Some (l, v) => Some (String a l, v)
      | None => if Ascii.eqb a "}" then (λ v, ("", v)) <$> after_space s' else None
      end
  end.

(** [sampleRe.exec(line)]: the name, the text in braces (empty when there are
    none) and the value. *)
Definition sample_match (line : string) : option (string * string * string) :=
  match line with
  | String a _ =>
      if name_start a then
        let '(n, t) := run name_char line in
        match t with
        | String "{" t' => (λ lv, (n, fst lv, snd lv)) <$> in_braces t'
        | _ => (λ v, (n, "", v)) <$> after_space t
        end
      else None
  | EmptyString => None
  end.

(** A quoted text, after its opening quote: up to the closing quote, a
    backslash taking the next character along; and the rest. *)
Fixpoint quoted_match (s : string) : option (string * string) :=
  match s with
  | EmptyString => None
  | String a s' =>
      if Ascii.eqb a dquote then Some ("", s')
      else if Ascii.eqb a "\" then
        match s' with
        | String b s'' =>
            if dot b then (λ r, (String a (String b (fst r)), snd r)) <$> quoted_match s'' else None
        | EmptyString => None
        end
      else (λ r, (String a (fst r), snd r)) <$> quoted_match s'
  end.

(** [labelRe] at one position: the name, the raw value and the rest. *)
Definition label_match (s : string) : option (string * string * string) :=
  match s with
  | String a _ =>
      if letter_ a then
        let '(k, t) := run label_char s in
        match t with
        | String "=" (String b t') =>
            if Ascii.eqb b dquote then (λ r, (k, fst r, snd r)) <$> quoted_match t' else None
        | _ => None
        end
      else None
  | EmptyString => None
  end.

(** [value.replace(/\\n/g, "\n")] and [value.replace(/\\(.)/g, "$1")]. *)
Fixpoint newlines (s : string) : string :=
  match s with
  | String a ((String b s'') as s') =>
      if Ascii.eqb a "\" && Ascii.eqb b "n" then String newline_char (newlines s'')
      else String a (newlines s')
  | _ => s
  end.

Fixpoint unslash (s : string) : string :=
  match s with
  | String a ((String b s'') as s') =>
      if Ascii.eqb a "\" && dot b then String b (unslash s'') else String a (unslash s')
  | _ => s
  end.

Definition unescape (s : string) : string := unslash (newlines s).

(** The loop over [labelRe.exec]: a match ends where the next one is looked
    for, [skip] characters from here.  (A text assigned to [__proto__] is
    dropped by the language.) *)
Fixpoint scan_labels (skip : nat) (s : string) (m : gmap string string) : gmap string string :=
  match s with
  | EmptyString => m
  | String _ s' =>
      match skip with
      | S k => scan_labels k s' m
      | O =>
          match label_match s with
          | Some (k, raw, rest) =>
              scan_labels (String.length s' - String.length rest) s'
                (if String.eqb k "__proto__" then m else <[k := unescape raw]> m)
          | None => scan_labels 0 s' m
          end
      end
  end.

(** ** The families *)

(** [familyOf(name)], then an update of it: a new family goes to the end. *)
Fixpoint in_family (n : string) (f : family → family) (fs : list family) : list family :=
  match fs with
  | [] => [f (Family n "" "" [])]
  | x :: fs' => if String.eqb (name x) n then f x :: fs' else x :: in_family n f fs'
  end.

Definition set_help (h : string) (x : family) : family := Family (name x) h (type x) (samples x).
Definition set_type (t : string) (x : family) : family := Family (name x) (help x) t (samples x).
Definition push_sample (s : sample) (x : family) : family :=
  Family (name x) (help x) (type x) (samples x ++ [s]).

(** [s.split(/\s+/)]. *)
Fixpoint split_ws (skipping : bool) (s : string) : list string :=
  match s with
  | EmptyString => [""]
  | String a s' =>
      if is_space a then (if skipping then split_ws true s' else "" :: split_ws true s')
      else match split_ws false s' with [] => [String a ""] | w :: ws => String a w :: ws end
  end.

Definition sample_value (raw : string) : number :=
  if String.eqb raw "NaN" then S754_nan
  else if String.eqb raw "+Inf" then S754_infinity false
  else if String.eqb raw "-Inf" then S754_infinity true
  else parse_float raw.

(** One line of the text. *)
Definition read_line (families : list family) (rawLine : string) : list family :=
  let line := trim rawLine in
  if String.eqb line "" then families
  else if starts_with line "# HELP " then
    let rest := sdrop 7 line in
    match index_of " " rest with
    | None => in_family rest (set_help "") families
    | Some sp => in_family (stake sp rest) (set_help (sdrop (sp + 1) rest)) families
    end
  else if starts_with line "# TYPE " then
    match split_ws false (sdrop 7 line) with
    | n :: t :: _ => in_family n (set_type t) families
    | _ => families
    end
  else if starts_with line "#" then families
  else
    match sample_match line with
    | Some (n, braces, raw) =>
        in_family n (push_sample (Sample (scan_labels 0 braces ∅) (sample_value raw))) families
    | None => families
    end.

Definition parsePrometheusExposition (text : string) : list family :=
  foldl read_line [] (split_char newline_char text).

(** ** The printer

    The text format of the metrics: a family with its help, its type and its
    samples, whose values are given by their texts. *)

Record exposed := Exposed {
  x_name : string; x_help : string; x_type : string;
  x_samples : list (list (string * string) * string) }.

(** A label value between quotes: the backslash, the quote and the line break
    are escaped. *)
Definition escape_char (a : ascii) : string :=
  if Ascii.eqb a "\" then "\\" else if Ascii.eqb a dquote then String "\" (String dquote "")
  else if Ascii.eqb a newline_char then "\n" else String a "".

Fixpoint escape_label (v : string) : string :=
  match v with EmptyString => "" | String a v' => escape_char a +:+ escape_label v' end.

Definition print_label (kv : string * string) : string :=
  fst kv +:+ q "=`" +:+ escape_label (snd kv) +:+ q "`".

Definition print_sample (n : string) (s : list (string * string) * string) : string :=
  n +:+ (if fst s is [] then "" else "{" +:+ join "," (map print_label (fst s)) +:+ "}") +:+
  " " +:+ snd s.

Definition print_family (x : exposed) : list string :=
  ("# HELP " +:+ x_name x +:+ " " +:+ x_help x) ::
  ("# TYPE " +:+ x_name x +:+ " " +:+ x_type x) ::
  map (print_sample (x_name x)) (x_samples x).

Fixpoint lines_text (l : list string) : string :=
  match l with [] => "" | x :: l' => x +:+ String newline_char (lines_text l') end.

Definition print_exposition (l : list exposed) : string := lines_text (concat (map print_family l)).

Definition sample_of (s : list (string * string) * string) : sample :=
  Sample (list_to_map (fst s)) (sample_value (snd s)).
Definition family_of (x : exposed) : family :=
  Family (x_name x) (x_help x) (x_type x) (map sample_of (x_samples x)).

(** What can be printed: names of the format, a help without line break that
    does not end with white space, a type of one word, label values without
    carriage return and without a backslash followed by [n], and values the
    reader's number class covers. *)
Definition is_name (first rest : ascii → bool) (s : string) : bool :=
  match s with String a _ => first a && sforall rest s | EmptyString => false end.

Definition no_space (s : string) : bool := sforall (λ a, negb (is_space a)) s.
Definition filled (s : string) : bool := negb (String.eqb s "").

Definition good_label (kv : string * string) : bool :=
  is_name letter_ label_char (fst kv) && negb (String.eqb (fst kv) "__proto__") &&
  sforall (λ a, negb (Ascii.eqb a "013"%char)) (snd kv) && negb (includes (snd kv) "\n").

Definition good_value (raw : string) : bool :=
  String.eqb raw "NaN" || (filled raw && sforall value_char raw).

Definition good_sample (s : list (string * string) * string) : bool :=
  forallb good_label (fst s) && bool_decide (NoDup (map fst (fst s))) && good_value (snd s).

Definition good_family (x : exposed) : bool :=
  is_name name_start name_char (x_name x) &&
  (filled (x_help x) && String.eqb (trim_end (x_help x)) (x_help x) &&
   sforall (λ a, negb (Ascii.eqb a newline_char)) (x_help x)) &&
  (filled (x_type x) && no_space (x_type x)) && forallb good_sample (x_samples x).

(** ** Lemmas: classes of characters *)

(** A fact about every character, checked on all of them. *)
Definition all_chars : list ascii := map ascii_of_nat (seq 0 256).

Lemma every_char (P : ascii → bool) : forallb P all_chars = true → ∀ a, P a = true.
Proof.
  intros H a. apply (proj1 (forallb_forall P all_chars) H). unfold all_chars.
  apply in_map_iff. exists (nat_of_ascii a). split; [apply ascii_nat_embedding|].
  apply in_seq. pose proof (nat_ascii_bounded a). lia.
Qed.

Lemma class_incl (f g : ascii → bool) :
  forallb (λ a, negb (f a) || g a) all_chars = true →
  ∀ s, sforall f s = true → sforall g s = true.
Proof.
  intros H s. induction s as [|a s IH]; [done|]. cbn [sforall]. intros [Ha Hs]%andb_true_iff.
  rewrite IH by done. pose proof (every_char _ H a) as E. cbn in E. rewrite Ha in E. cbn in E.
  by rewrite E.
Qed.

Lemma char_incl (f g : ascii → bool) a :
  forallb (λ a, negb (f a) || g a) all_chars = true → f a = true → g a = true.
Proof. intros H Ha. pose proof (every_char _ H a) as E. cbn in E. by rewrite Ha in E. Qed.

(** Texts of the class [f] are in the class of the goal. *)
Ltac by_class f := apply (class_incl f); [vm_compute; reflexivity|assumption].

Lemma run_stop f u b t :
  sforall f u = true → f b = false → run f (u +:+ String b t) = (u, String b t).
Proof.
  induction u as [|a u IH]; intros Hu Hb.
  - rewrite app_empty_str. cbn [run]. by rewrite Hb.
  - rewrite app_cons_str. cbn [run sforall] in *. apply andb_true_iff in Hu as [Ha Hu].
    by rewrite Ha, IH.
Qed.

Lemma run_all f u : sforall f u = true → run f u = (u, "").
Proof.
  induction u as [|a u IH]; [done|]. cbn [run sforall]. intros [Ha Hu]%andb_true_iff.
  by rewrite Ha, IH.
Qed.

(** ** Trimming *)

Lemma trim_end_solid s : no_space s = true → trim_end s = s.
Proof.
  unfold no_space. induction s as [|a s IH]; [done|]. cbn [sforall trim_end].
  intros [Ha Hs]%andb_true_iff. rewrite IH by done. apply negb_true_iff in Ha. rewrite Ha.
  by destruct s.
Qed.

Lemma trim_end_app s t : t ≠ "" → trim_end t = t → trim_end (s +:+ t) = s +:+ t.
Proof.
  intros Hn Ht. induction s as [|a s IH]; [done|]. rewrite app_cons_str. cbn [trim_end].
  rewrite IH. destruct s; [rewrite app_empty_str; by destruct t|reflexivity].
Qed.

Lemma trim_line a s t :
  is_space a = false → t ≠ "" → trim_end t = t → trim (String a (s +:+ t)) = String a (s +:+ t).
Proof.
  intros Ha Hn Ht. unfold trim. cbn [trim_start]. rewrite Ha.
  rewrite <- app_cons_str. by apply trim_end_app.
Qed.

(** ** Label values *)

Lemma newlines_other a s : a ≠ "\"%char → newlines (String a s) = String a (newlines s).
Proof.
  intros Ha. cbn [newlines]. destruct s as [|b s]; [done|].
  destruct (Ascii.eqb_spec a "\"); [done|reflexivity].
Qed.

Lemma newlines_slash b s :
  b ≠ "n"%char → newlines (String "\" (String b s)) = String "\" (newlines (String b s)).
Proof. intros Hb. cbn [newlines]. by destruct (Ascii.eqb_spec b "n"). Qed.

Lemma unslash_other a s : a ≠ "\"%char → unslash (String a s) = String a (unslash s).
Proof.
  intros Ha. cbn [unslash]. destruct s as [|b s]; [done|].
  destruct (Ascii.eqb_spec a "\"); [done|reflexivity].
Qed.

(** The escaped text once the line breaks are back. *)
Fixpoint half (v : string) : string :=
  match v with
  | EmptyString => ""
  | String a v' =>
      (if Ascii.eqb a newline_char then String newline_char "" else escape_char a) +:+ half v'
  end.

Lemma includes_cons a v p : includes (String a v) p = false → includes v p = false.
Proof.
  intros H. destruct (includes v p) eqn:E; [|done]. apply includes_spec in E as (x & y & ->).
  rewrite <- H. symmetry. apply includes_spec. exists (String a x), y. by rewrite app_cons_str.
Qed.

Lemma escape_label_head v b t :
  includes (String "\" v) "\n" = false → escape_label v = String b t → b ≠ "n"%char.
Proof.
  intros Hi E. destruct v as [|a v]; [done|]. intros ->. cbn [escape_label] in E.
  unfold escape_char in E.
  destruct (Ascii.eqb_spec a "\"); [by rewrite app_cons_str in E|].
  destruct (Ascii.eqb_spec a dquote); [by rewrite app_cons_str in E|].
  destruct (Ascii.eqb_spec a newline_char); [by rewrite app_cons_str in E|].
  rewrite app_cons_str in E. injection E as -> _.
  assert (includes (String "\" (String "n" v)) "\n" = true) as H; [|congruence].
  apply includes_spec. by exists "", v.
Qed.

Lemma newlines_escaped v : includes v "\n" = false → newlines (escape_label v) = half v.
Proof.
  induction v as [|a v IH]; intros H; [done|]. pose proof (includes_cons _ _ _ H) as Hv.
  specialize (IH Hv). cbn [escape_label half]. unfold escape_char.
  destruct (Ascii.eqb_spec a "\") as [->|Ha].
  - change (Ascii.eqb "\" newline_char) with false. cbv iota.
    rewrite !app_cons_str, !app_empty_str, newlines_slash by done.
    f_equal. rewrite <- IH.
    destruct (escape_label v) as [|b t] eqn:E; [done|].
    apply newlines_slash. by eapply escape_label_head.
  - destruct (Ascii.eqb_spec a dquote) as [->|Hq].
    + change (Ascii.eqb dquote newline_char) with false. cbv iota.
      rewrite !app_cons_str, !app_empty_str. rewrite newlines_slash by done.
      rewrite newlines_other by done. by rewrite IH.
    + destruct (Ascii.eqb_spec a newline_char) as [->|Hn].
      * rewrite !app_cons_str, app_empty_str. by rewrite <- IH.
      * rewrite !app_cons_str, !app_empty_str, newlines_other by done. by rewrite IH.
Qed.

Lemma unslash_half v : unslash (half v) = v.
Proof.
  induction v as [|a v IH]; [done|]. cbn [half]. unfold escape_char.
  destruct (Ascii.eqb_spec a newline_char) as [->|Hn].
  - rewrite app_cons_str, app_empty_str, unslash_other by done. by rewrite IH.
  - destruct (Ascii.eqb_spec a "\") as [->|Ha]; [|destruct (Ascii.eqb_spec a dquote) as [->|Hq]].
    + change ("\\" +:+ half v) with (String "\" (String "\" (half v))). cbn [unslash].
      by rewrite IH.
    + rewrite !app_cons_str, app_empty_str. cbn [unslash]. by rewrite IH.
    + rewrite app_cons_str, app_empty_str, unslash_other by done. by rewrite IH.
Qed.

Lemma unescape_label v : includes v "\n" = false → unescape (escape_label v) = v.
Proof. intros H. unfold unescape. by rewrite newlines_escaped, unslash_half. Qed.

Lemma quoted_escaped v rest :
  quoted_match (escape_label v +:+ String dquote rest) = Some (escape_label v, rest).
Proof.
  induction v as [|a v IH]; [reflexivity|]. cbn [escape_label]. unfold escape_char.
  destruct (Ascii.eqb_spec a "\") as [->|Ha];
    [|destruct (Ascii.eqb_spec a dquote) as [->|Hq];
      [|destruct (Ascii.eqb_spec a newline_char) as [->|Hn]]];
    rewrite !app_cons_str, !app_empty_str; cbn [quoted_match].
  1-3: by rewrite IH.
  rewrite (proj2 (Ascii.eqb_neq _ _) Hq), (proj2 (Ascii.eqb_neq _ _) Ha). by rewrite IH.
Qed.

(** ** The labels of a sample *)

Lemma is_name_opens f g s : is_name f g s = true → ∃ a t, s = String a t ∧ f a = true.
Proof. destruct s as [|a t]; [done|]. cbn. intros [H _]%andb_true_iff. eauto. Qed.

Lemma label_match_printed kv rest :
  good_label kv = true →
  label_match (print_label kv +:+ rest) = Some (fst kv, escape_label (snd kv), rest).
Proof.
  destruct kv as [k v]. unfold good_label, print_label. cbn [fst snd].
  rewrite !andb_true_iff. intros [[[Hk _] _] _].
  destruct (is_name_opens _ _ _ Hk) as (a & t & -> & Ha).
  unfold is_name in Hk. apply andb_true_iff in Hk as [_ Hk].
  rewrite !app_assoc_str. change (q "`" +:+ rest) with (String dquote rest).
  change (q "=`" +:+ ?x) with (String "=" (String dquote x)). rewrite app_cons_str.
  cbn [label_match]. rewrite Ha, <- app_cons_str.
  rewrite run_stop by done. by rewrite Ascii.eqb_refl, quoted_escaped.
Qed.

Lemma scan_skip u t m : scan_labels (String.length u) (u +:+ t) m = scan_labels 0 t m.
Proof. induction u as [|a u IH]; [reflexivity|]. rewrite app_cons_str. cbn. apply IH. Qed.

Lemma scan_label kv rest m :
  good_label kv = true →
  scan_labels 0 (print_label kv +:+ rest) m = scan_labels 0 rest (<[fst kv := snd kv]> m).
Proof.
  intros H. pose proof (label_match_printed kv rest H) as E.
  unfold good_label in H. rewrite !andb_true_iff in H. destruct H as [[[Hk Hp] _] Hv].
  apply negb_true_iff in Hp, Hv.
  destruct (is_name_opens _ _ _ Hk) as (a & t & Hs & _).
  assert (∃ u, print_label kv = String a u) as [u Hu].
  { unfold print_label. rewrite Hs, app_cons_str. eauto. }
  rewrite Hu, app_cons_str in *. cbn [scan_labels]. rewrite E, Hp, unescape_label by done.
  rewrite length_app_str. replace (String.length u + String.length rest - String.length rest)%nat
    with (String.length u) by lia. apply scan_skip.
Qed.

Lemma scan_printed ls m :
  forallb good_label ls = true →
  scan_labels 0 (join "," (map print_label ls)) m =
  foldl (λ m kv, <[fst kv := snd kv]> m) m ls.
Proof.
  revert m. induction ls as [|kv ls IH]; intros m H; [done|]. cbn [forallb] in H.
  apply andb_true_iff in H as [Hkv H]. cbn [map foldl]. destruct ls as [|kv' ls].
  - cbn [map join foldl]. pose proof (scan_label kv "" m Hkv) as E.
    by rewrite app_nil_r_str in E.
  - change (map print_label (kv' :: ls)) with (print_label kv' :: map print_label ls).
    change (join "," (?x :: ?y :: ?l)) with (x +:+ "," +:+ join "," (y :: l)).
    rewrite scan_label by done. rewrite app_cons_str, app_empty_str. cbn [scan_labels].
    exact (IH _ H).
Qed.

Lemma inserted_map (ls : list (string * string)) (m : gmap string string) :
  NoDup (map fst ls) → (∀ k, k ∈ map fst ls → m !! k = None) →
  foldl (λ m kv, <[fst kv := snd kv]> m) m ls = list_to_map ls ∪ m.
Proof.
  revert m. induction ls as [|[k v] ls IH]; intros m Hd Hm; cbn [foldl map fst snd].
  - by rewrite list_to_map_nil, (left_id_L ∅ (∪)).
  - cbn [map fst] in *. apply NoDup_cons in Hd as [Hk Hd]. rewrite IH; [|done|].
    + rewrite list_to_map_cons. rewrite <- insert_union_r; [|by apply not_elem_of_list_to_map_1].
      by rewrite insert_union_l.
    + intros k' Hk'. rewrite lookup_insert_ne by (intros ->; contradiction).
      apply Hm. by right.
Qed.

Lemma labels_read ls :
  forallb good_label ls = true → NoDup (map fst ls) →
  scan_labels 0 (join "," (map print_label ls)) ∅ = list_to_map ls.
Proof.
  intros H Hd. rewrite scan_printed by done. rewrite inserted_map; [|done|].
  - apply (right_id_L ∅ (∪)).
  - intros k _. apply lookup_empty.
Qed.

(** ** The lines *)

Lemma split_lines l :
  Forall (λ x, sforall (λ a, negb (Ascii.eqb a newline_char)) x = true) l →
  split_char newline_char (lines_text l) = l ++ [""].
Proof.
  induction 1 as [|x l Hx _ IH]; [done|]. cbn [lines_text].
  rewrite split_char_app by done. by rewrite IH.
Qed.

Lemma value_opens raw :
  good_value raw = true →
  raw ≠ "" ∧ no_space raw = true ∧ value_match raw = Some raw ∧
  sforall (λ a, negb (Ascii.eqb a newline_char)) raw = true ∧
  sforall (λ a, negb (Ascii.eqb a "}")) raw = true.
Proof.
  unfold good_value. destruct (String.eqb_spec raw "NaN") as [->|_]; [done|]. cbn [orb].
  intros [Hf Hv]%andb_true_iff. unfold filled in Hf. split_and!.
  - by intros ->.
  - by_class value_char.
  - unfold value_match. rewrite run_all by done. cbn [fst]. by rewrite Hf.
  - by_class value_char.
  - by_class value_char.
Qed.

Lemma in_braces_none s : sforall (λ a, negb (Ascii.eqb a "}")) s = true → in_braces s = None.
Proof.
  induction s as [|a s IH]; [done|]. cbn [sforall in_braces]. intros [Ha Hs]%andb_true_iff.
  apply negb_true_iff in Ha. rewrite IH by done. rewrite Ha. by destruct (dot a).
Qed.

Lemma after_space_value raw : good_value raw = true → after_space (" " +:+ raw) = Some raw.
Proof.
  intros H. destruct (value_opens _ H) as (Hn & Hs & Hv & _).
  destruct raw as [|b t]; [done|]. unfold after_space.
  rewrite (run_stop is_space " " b t); [exact Hv|done|].
  unfold no_space in Hs. cbn [sforall] in Hs. apply andb_true_iff in Hs as [Hb _].
  by apply negb_true_iff in Hb.
Qed.

Lemma in_braces_value u raw :
  sforall dot u = true → good_value raw = true →
  in_braces (u +:+ "} " +:+ raw) = Some (u, raw).
Proof.
  intros Hu H. destruct (value_opens _ H) as (_ & _ & _ & _ & Hb).
  induction u as [|a u IH].
  - rewrite app_empty_str. change ("} " +:+ raw) with (String "}" (" " +:+ raw)).
    cbn [in_braces]. rewrite in_braces_none.
    + rewrite (after_space_value raw H). reflexivity.
    + rewrite app_cons_str, app_empty_str. cbn [sforall]. by rewrite Hb.
  - rewrite app_cons_str. cbn [in_braces sforall] in *. apply andb_true_iff in Hu as [Ha Hu].
    by rewrite Ha, (IH Hu).
Qed.

(** The printed labels hold no line break. *)
Lemma escape_dot v :
  sforall (λ a, negb (Ascii.eqb a "013"%char)) v = true → sforall dot (escape_label v) = true.
Proof.
  induction v as [|a v IH]; [done|]. cbn [sforall escape_label]. intros [Ha Hv]%andb_true_iff.
  rewrite sforall_app, IH by done. rewrite andb_true_r.
  assert (forallb (λ a, Ascii.eqb a "013"%char || sforall dot (escape_char a)) all_chars = true) as E
    by (vm_compute; reflexivity).
  pose proof (every_char _ E a) as Hd. cbn beta in Hd. apply negb_true_iff in Ha.
  by rewrite Ha in Hd.
Qed.

Lemma print_label_dot kv : good_label kv = true → sforall dot (print_label kv) = true.
Proof.
  destruct kv as [k v]. unfold good_label, print_label. cbn [fst snd].
  rewrite !andb_true_iff. intros [[[Hk _] Hv] _].
  destruct (is_name_opens _ _ _ Hk) as (a & t & -> & _). apply andb_true_iff in Hk as [_ Hk].
  rewrite !sforall_app, escape_dot by done.
  rewrite (class_incl label_char dot) by ((vm_compute; reflexivity) || done). reflexivity.
Qed.

Lemma labels_dot ls : forallb good_label ls = true → sforall dot (join "," (map print_label ls)) = true.
Proof.
  induction ls as [|kv ls IH]; [done|]. cbn [forallb]. intros [Hkv H]%andb_true_iff.
  destruct ls as [|kv' ls]; [by apply print_label_dot|].
  change (join "," (map print_label (kv :: kv' :: ls)))
    with (print_label kv +:+ "," +:+ join "," (map print_label (kv' :: ls))).
  rewrite !sforall_app, IH, print_label_dot by done. done.
Qed.

Lemma sample_match_printed n s :
  is_name name_start name_char n = true → good_sample s = true →
  sample_match (print_sample n s) =
  Some (n, join "," (map print_label (fst s)), snd s).
Proof.
  intros Hn H. destruct s as [ls raw]. unfold good_sample in H. cbn [fst snd] in *.
  rewrite !andb_true_iff in H. destruct H as [[Hl _] Hr].
  destruct (is_name_opens _ _ _ Hn) as (a & t & -> & Ha). apply andb_true_iff in Hn as [_ Hn].
  unfold print_sample. cbn [fst snd]. rewrite app_cons_str. cbn [sample_match].
  rewrite Ha, <- app_cons_str.
  destruct ls as [|kv ls].
  - rewrite app_empty_str. change (" " +:+ raw) with (String " " raw).
    rewrite run_stop by done. change (String " " raw) with (" " +:+ raw).
    by rewrite after_space_value.
  - rewrite !app_assoc_str. change ("{" +:+ ?x) with (String "{" x).
    rewrite run_stop by done.
    change ("}" +:+ " " +:+ raw) with ("} " +:+ raw).
    by rewrite in_braces_value by (done || by apply labels_dot).
Qed.

(** ** The families *)

Lemma in_family_new n f fs :
  n ∉ map name fs → in_family n f fs = fs ++ [f (Family n "" "" [])].
Proof.
  induction fs as [|x fs IH]; intros H; [done|]. cbn [in_family map] in *.
  apply not_elem_of_cons in H as [Hx H].
  destruct (String.eqb_spec (name x) n); [congruence|]. by rewrite IH.
Qed.

Lemma in_family_last n f fs x :
  n ∉ map name fs → name x = n → in_family n f (fs ++ [x]) = fs ++ [f x].
Proof.
  intros H Hx. induction fs as [|y fs IH]; cbn [in_family Datatypes.app map] in *.
  - by rewrite Hx, String.eqb_refl.
  - apply not_elem_of_cons in H as [Hy H].
    destruct (String.eqb_spec (name y) n); [congruence|]. by rewrite IH.
Qed.

Lemma index_space u t :
  no_space u = true → index_of " " (u +:+ " " +:+ t) = Some (String.length u).
Proof.
  induction u as [|a u IH]; intros H; [by destruct t|]. unfold no_space in *. cbn [sforall] in H.
  apply andb_true_iff in H as [Ha H]. rewrite app_cons_str. cbn [index_of is_prefix String.length].
  destruct (Ascii.eqb_spec " " a) as [<-|_]; [done|]. cbn [andb]. by rewrite IH.
Qed.

Lemma name_no_space n : is_name name_start name_char n = true → no_space n = true.
Proof.
  intros H. destruct (is_name_opens _ _ _ H) as (a & t & -> & _). apply andb_true_iff in H as [_ H].
  by_class name_char.
Qed.

Lemma split_ws_word u : no_space u = true → u ≠ "" → split_ws false u = [u].
Proof.
  unfold no_space. induction u as [|a u IH]; intros H Hn; [done|]. cbn [sforall split_ws] in *.
  apply andb_true_iff in H as [Ha H]. apply negb_true_iff in Ha. rewrite Ha.
  destruct u as [|b u]; [done|]. by rewrite IH.
Qed.

Lemma split_ws_two u t :
  no_space u = true → no_space t = true → t ≠ "" → split_ws false (u +:+ " " +:+ t) = [u; t].
Proof.
  intros Hu Ht Hn. induction u as [|a u IH].
  - rewrite app_empty_str. change (" " +:+ t) with (String " " t). cbn [split_ws].
    change (is_space " ") with true. cbv iota. f_equal.
    pose proof (split_ws_word t Ht Hn) as E. destruct t as [|b t]; [done|].
    cbn [split_ws] in *. unfold no_space in Ht. cbn [sforall] in Ht.
    apply andb_true_iff in Ht as [Hb _]. apply negb_true_iff in Hb. by rewrite Hb in *.
  - rewrite app_cons_str. cbn [split_ws]. unfold no_space in Hu. cbn [sforall] in Hu.
    apply andb_true_iff in Hu as [Ha Hu]. apply negb_true_iff in Ha. rewrite Ha.
    by rewrite (IH Hu).
Qed.

Lemma stake_exact u t : stake (String.length u) (u +:+ t) = u.
Proof. rewrite stake_app_ge by lia. rewrite Nat.sub_diag. apply app_nil_r_str. Qed.

Lemma sdrop_after u a t : sdrop (String.length u + 1) (u +:+ String a t) = t.
Proof. induction u as [|b u IH]; [reflexivity|exact IH]. Qed.

Section Family.
Context (n : string) (fs : list family).
Hypothesis Hn : is_name name_start name_char n = true.
Hypothesis Hnew : n ∉ map name fs.

Lemma name_shape : ∃ a t, n = String a t ∧ is_space a = false ∧ Ascii.eqb "#" a = false.
Proof.
  destruct (is_name_opens _ _ _ Hn) as (a & t & -> & Ha). exists a, t. split_and!; [done| |].
  - apply negb_true_iff. apply (char_incl name_start (λ a, negb (is_space a)));
      [vm_compute; reflexivity|done].
  - apply negb_true_iff. apply (char_incl name_start (λ a, negb (Ascii.eqb "#" a)));
      [vm_compute; reflexivity|done].
Qed.

Lemma read_help h :
  h ≠ "" → trim_end h = h →
  read_line fs ("# HELP " +:+ n +:+ " " +:+ h) = fs ++ [Family n h "" []].
Proof.
  intros Hh Ht. unfold read_line.
  change ("# HELP " +:+ n +:+ " " +:+ h) with (String "#" (" HELP " +:+ n +:+ " " +:+ h)).
  assert (trim (String "#" (" HELP " +:+ n +:+ " " +:+ h)) =
          String "#" (" HELP " +:+ n +:+ " " +:+ h)) as ->.
  { rewrite <- !app_assoc_str. by apply trim_line. }
  change (String.eqb (String "#" ?x) "") with false. cbv iota.
  change (starts_with (String "#" (" HELP " +:+ n +:+ " " +:+ h)) "# HELP ") with true. cbv iota.
  change (sdrop 7 (String "#" (" HELP " +:+ n +:+ " " +:+ h))) with (n +:+ " " +:+ h).
  rewrite index_space by by apply name_no_space.
  rewrite in_family_new.
  - unfold set_help. cbn [name type samples]. rewrite stake_exact.
    change (" " +:+ h) with (String " " h). by rewrite sdrop_after.
  - by rewrite stake_exact.
Qed.

Lemma read_type x t :
  name x = n → t ≠ "" → no_space t = true →
  read_line (fs ++ [x]) ("# TYPE " +:+ n +:+ " " +:+ t) = fs ++ [set_type t x].
Proof.
  intros Hx Ht Hs. unfold read_line.
  change ("# TYPE " +:+ n +:+ " " +:+ t) with (String "#" (" TYPE " +:+ n +:+ " " +:+ t)).
  assert (trim (String "#" (" TYPE " +:+ n +:+ " " +:+ t)) =
          String "#" (" TYPE " +:+ n +:+ " " +:+ t)) as ->.
  { rewrite <- !app_assoc_str. apply trim_line; [done..|by apply trim_end_solid]. }
  change (String.eqb (String "#" ?x) "") with false. cbv iota.
  change (starts_with (String "#" (" TYPE " +:+ n +:+ " " +:+ t)) "# HELP ") with false.
  change (starts_with (String "#" (" TYPE " +:+ n +:+ " " +:+ t)) "# TYPE ") with true. cbv iota.
  change (sdrop 7 (String "#" (" TYPE " +:+ n +:+ " " +:+ t))) with (n +:+ " " +:+ t).
  rewrite split_ws_two by (done || by apply name_no_space).
  by apply in_family_last.
Qed.

Lemma read_sample x s :
  name x = n → good_sample s = true →
  read_line (fs ++ [x]) (print_sample n s) = fs ++ [push_sample (sample_of s) x].
Proof.
  intros Hx Hs. pose proof Hs as Hs'. destruct s as [ls raw]. unfold good_sample in Hs'.
  cbn [fst snd] in Hs'. rewrite !andb_true_iff in Hs'. destruct Hs' as [[Hl Hd] Hr].
  apply bool_decide_eq_true in Hd. destruct (value_opens raw Hr) as (Hne & Hsp & _).
  destruct name_shape as (a & t & En & Ha & Hc).
  unfold read_line. assert (trim (print_sample n (ls, raw)) = print_sample n (ls, raw)) as ->.
  { unfold print_sample. cbn [fst snd]. rewrite En, app_cons_str, <- !app_assoc_str.
    apply trim_line; [done..|by apply trim_end_solid]. }
  pose proof (sample_match_printed n (ls, raw) Hn Hs) as Em. cbn [fst snd] in Em.
  assert (∃ u, print_sample n (ls, raw) = String a u) as [u Eu].
  { unfold print_sample. rewrite En, app_cons_str. eauto. }
  rewrite Eu in *. unfold starts_with. cbn [String.eqb is_prefix]. rewrite Hc. cbn [andb].
  rewrite Em, in_family_last by done. unfold sample_of. cbn [fst snd].
  by rewrite labels_read.
Qed.

Lemma read_samples ss x :
  name x = n → forallb good_sample ss = true →
  foldl read_line (fs ++ [x]) (map (print_sample n) ss) =
  fs ++ [Family n (help x) (type x) (samples x ++ map sample_of ss)].
Proof.
  revert x. induction ss as [|s ss IH]; intros x Hx H; cbn [map foldl].
  - rewrite app_nil_r. subst n. by destruct x.
  - cbn [forallb] in H. apply andb_true_iff in H as [Hs H].
    rewrite read_sample, IH by done. cbn [push_sample help type samples].
    by rewrite <- app_assoc.
Qed.
End Family.

Lemma read_family x fs :
  good_family x = true → x_name x ∉ map name fs →
  foldl read_line fs (print_family x) = fs ++ [family_of x].
Proof.
  intros H Hn. unfold good_family in H. rewrite !andb_true_iff in H.
  destruct H as [[[Hname [[Hh Ht] _]] [Hy Hy']] Hs].
  apply String.eqb_eq in Ht. unfold filled in *.
  apply negb_true_iff, String.eqb_neq in Hh, Hy.
  unfold print_family. cbn [foldl].
  rewrite (read_help _ _ Hname Hn) by done.
  rewrite (read_type _ _ Hname Hn) by done. by rewrite (read_samples _ _ Hname Hn).
Qed.

Lemma read_families l fs :
  forallb good_family l = true → NoDup (map name fs ++ map x_name l) →
  foldl read_line fs (concat (map print_family l)) = fs ++ map family_of l.
Proof.
  revert fs. induction l as [|x l IH]; intros fs H Hd; cbn [map concat foldl].
  - by rewrite app_nil_r.
  - cbn [forallb map] in *. apply andb_true_iff in H as [Hx H].
    rewrite foldl_app, read_family; [|done|].
    + rewrite IH; [by rewrite <- app_assoc|done|].
      rewrite map_app. cbn [map family_of name]. by rewrite <- app_assoc.
    + intros Hin. apply NoDup_app in Hd as (_ & Hd & _). apply (Hd _ Hin). by left.
Qed.

Lemma family_lines x :
  good_family x = true →
  Forall (λ u, sforall (λ a, negb (Ascii.eqb a newline_char)) u = true) (print_family x).
Proof.
  intros H. unfold good_family in H. rewrite !andb_true_iff in H.
  destruct H as [[[Hname [_ Hh]] [_ Hy]] Hs].
  assert (sforall (λ a, negb (Ascii.eqb a newline_char)) (x_name x) = true) as Hn.
  { destruct (is_name_opens _ _ _ Hname) as (a & t & E & _). rewrite E in *.
    apply andb_true_iff in Hname as [_ Hname]. by_class name_char. }
  unfold print_family. apply Forall_cons; split; [|apply Forall_cons; split].
  - by rewrite !sforall_app, Hn, Hh.
  - rewrite !sforall_app, Hn. cbn [andb].
    by_class (λ a, negb (is_space a)).
  - apply Forall_fmap, Forall_forall. intros s Hin.
    assert (good_sample s = true) as Hg.
    { apply (proj1 (forallb_forall _ _) Hs). by apply list_elem_of_In. }
    unfold good_sample in Hg. rewrite !andb_true_iff in Hg. destruct Hg as [[Hl _] Hr].
    destruct (value_opens _ Hr) as (_ & _ & _ & Hv & _).
    unfold compose, print_sample. rewrite !sforall_app, Hn, Hv.
    assert (sforall (λ a, negb (Ascii.eqb a newline_char))
              (join "," (map print_label (fst s))) = true) as E
      by (pose proof (labels_dot _ Hl); by_class dot).
    destruct (fst s); [done|]. by rewrite !sforall_app, E.
Qed.

Lemma exposition_reads l :
  forallb good_family l = true → NoDup (map x_name l) →
  parsePrometheusExposition (lines_text (concat (map print_family l))) = map family_of l.
Proof.
  intros H Hd. unfold parsePrometheusExposition.
  rewrite split_lines.
  - rewrite foldl_app, read_families by done. reflexivity.
  - apply Forall_concat, Forall_fmap, Forall_forall. intros x Hx. apply family_lines.
    apply (proj1 (forallb_forall _ _) H). by apply list_elem_of_In.
Qed.


Definition two_families : list exposed :=
  [Exposed "executor_count" "Number of executors." "gauge"
     [([("application", q "say `hi`, {ok} 5"); ("status", String newline_char "up")], "12.5");
      ([], "NaN")];
   Exposed "failed:rate" "Rate" "counter" [([("p", "c:\tmp")], "-3e-2")]].


(** ** What is read differently *)

(** An escaped backslash before the letter [n] is taken for a line break: the
    line breaks are put back before the backslashes. *)
Lemma backslash_n_misread :
  unescape (escape_label "C:\new") = String.append "C:\" (String newline_char "ew").
Proof. vm_compute. reflexivity. Qed.

(** The infinities of the format are read as [NaN]: the class of the first
    alternative matches their sign alone. *)
Lemma infinity_misread :
  map (λ l, map value (flat_map samples (parsePrometheusExposition l))) ["m +Inf"; "m -Inf"] =
  [[S754_nan]; [S754_nan]].
Proof. vm_compute. reflexivity. Qed.

Lemma infinity_unreachable s w :
  value_match s = Some w → w ≠ "+Inf" ∧ w ≠ "-Inf".
Proof.
  unfold value_match. destruct (String.eqb_spec (fst (run value_char s)) "") as [E|E]; cbn [negb].
  - intros Hw. apply find_some_elem in Hw as [_ Hp].
    apply is_prefix_spec in Hp as [t ->].
    split; intros ->; by cbn in E.
  - intros [= <-]. revert E. clear. intros _.
    assert (sforall value_char (fst (run value_char s)) = true) as H.
    { induction s as [|a s IH]; [done|]. cbn [run]. destruct (value_char a) eqn:Ea; [|done].
      destruct (run value_char s) as [u t]. cbn [fst sforall] in *. by rewrite Ea. }
    split; intros E; by rewrite E in H.
Qed.
