(* ===== verification/ConsoleMetrics.v ===== *)
(** The metrics screen (app.js): from the families of a scrape to the totals,
    the cards and their bars, the filters of the screen and the request they
    make; and what the screen shows of the control plane's own metrics. *)

From Stdlib Require Import ZArith Lia Ascii String SpecFloat.
From stdpp Require Import base list strings gmap.
From S2P Require Import Prelude Html Json JsonSpec JsDate JsNumber JsDecimal JsInteger Uri.
From S2P Require Import BridgeState BridgeRoutes ApiTypes ApiClient ClientServe ClientSpec.
From S2P Require Import ConsoleWidgets Exposition.
Import ApiClient.Client.

(** ** Numbers *)

Definition zero : number := S754_zero false.

(** [formatMetricValue(v)] of a number. *)
Definition formatMetricValue (v : number) : string :=
  if negb (is_finite v) then "n/a"
  else if is_integer v then number_text v
  else match nround (nmul v (num 1000)) with
       | Some n => number_text (ndiv (num n) (num 1000))
       | None => "n/a"
       end.

(** [x.toFixed(1)]: a number of 22 digits or more is written in full. *)
Definition fixed1 (x : number) : string :=
  if nle x (num (- 10 ^ 21)) then number_text x else to_fixed_signed 1 x.

Definition bar_percent (value max : number) : number :=
  if nlt zero max && is_finite value then nmin (num 100) (nmul (ndiv value max) (num 100)) else zero.

Definition metricBar (value max : number) (color : string) : string :=
  let pct := bar_percent value max in
  let label := formatMetricValue value +:+ " of " +:+ formatMetricValue max in
  tpl [T "<div class=`metric-bar` role=`img` aria-label=`"; H (escapeHtml label);
       T "`><div class=`metric-bar-fill` style=`width:"; H (fixed1 pct); T "%;";
       H (if String.eqb color "" then "" else tpl [T "background:"; H color; T ";"]);
       T "`></div></div>"].

(** ** Samples *)

Definition P_ : string := "dbos_conductor_v1_".

(** [byName.get(name) || { samples: [] }]: a later family of the same name
    would win, but names are distinct. *)
Definition samplesOf (families : list family) (n : string) : list sample :=
  match find (λ x, String.eqb (name x) n) families with Some x => samples x | None => [] end.

(** [isFinite(s.value) ? s.value : 0]. *)
Definition finite_value (s : sample) : number := if is_finite (value s) then value s else zero.

Definition sum (l : list sample) : number := foldl (λ acc s, nadd acc (finite_value s)) zero l.

Definition total (families : list family) (short : string) : number :=
  sum (samplesOf families (P_ +:+ short)).

(** [s.labels.k || ""]. *)
Definition label (k : string) (s : sample) : string := default "" (labels s !! k).

(** [`${a}\0${b}`]. *)
Definition pair_key (a b : string) : string := a +:+ String "000"%char b.

(** A [Map] from keys to rows that keeps the order of first insertion. *)
Fixpoint upsert {A} (k : string) (new : A) (f : A → A) (l : list (string * A)) : list (string * A) :=
  match l with
  | [] => [(k, f new)]
  | (k', x) :: l' => if String.eqb k' k then (k', f x) :: l' else (k', x) :: upsert k new f l'
  end.

(** One [collect(name, field)]: every sample updates the row of its key. *)
Definition collect {A} (key : sample → string) (new : sample → A) (f : sample → A → A)
    (l : list sample) (rows : list (string * A)) : list (string * A) :=
  foldl (λ rows s, upsert (key s) (new s) (f s) rows) rows l.

(** [(a, b) => key(b) - key(a)]: a difference that is not a number counts as
    zero. *)
Definition sign (d : number) : Z := if nlt zero d then 1 else if nlt d zero then -1 else 0.
Definition by_value {A} (key : A → number) (l : list A) : list A :=
  js_sort (λ a b, sign (nsub (key b) (key a))) l.

(** [Math.max(...l, 0)]. *)
Definition max_of (l : list number) : number := foldr nmax zero l.

(** ** The cards *)

Record workflow_line := WorkflowRate {
  wr_application : string; wr_workflow : string;
  wr_started : number; wr_success : number; wr_failed : number; wr_cancelled : number }.

Definition workflow_rates (families : list family) : list workflow_line :=
  let key s := pair_key (label "application" s) (label "workflow_name" s) in
  let new s := WorkflowRate (label "application" s) (label "workflow_name" s) zero zero zero zero in
  let collect f n rows := collect key new f (samplesOf families (P_ +:+ n)) rows in
  let rows := collect (λ s r, WorkflowRate (wr_application r) (wr_workflow r)
      (nadd (wr_started r) (finite_value s)) (wr_success r) (wr_failed r) (wr_cancelled r))
      "workflow_started_rate" [] in
  let rows := collect (λ s r, WorkflowRate (wr_application r) (wr_workflow r) (wr_started r)
      (nadd (wr_success r) (finite_value s)) (wr_failed r) (wr_cancelled r))
      "workflow_success_rate" rows in
  let rows := collect (λ s r, WorkflowRate (wr_application r) (wr_workflow r) (wr_started r)
      (wr_success r) (nadd (wr_failed r) (finite_value s)) (wr_cancelled r))
      "workflow_failed_rate" rows in
  let rows := collect (λ s r, WorkflowRate (wr_application r) (wr_workflow r) (wr_started r)
      (wr_success r) (wr_failed r) (nadd (wr_cancelled r) (finite_value s)))
      "workflow_cancelled_rate" rows in
  by_value wr_success (map snd rows).

Definition renderWorkflowRateCard (families : list family) : string :=
  let rows := workflow_rates families in
  if (length rows =? 0)%nat then ""
  else
    let max := max_of (map wr_success rows) in
    tpl [T "
      <div class=`card`>
        <div class=`card-header`><div><span class=`card-title`>Workflow Rates</span>
        <span class=`card-note`>per second by workflow</span></div></div>
        <div class=`table-container`>
          <table class=`data-table workflow-rates-table`>
            <thead><tr><th>Workflow</th><th>Application</th><th>Started/s</th><th>Success/s</th><th>Failed/s</th><th>Cancelled/s</th><th style=`width:25%;`>Success Share</th></tr></thead>
            <tbody>
              ";
      H (map_join (λ r, tpl [T "
                <tr>
                  <td><code>";
      H (escapeHtml (wr_workflow r));
      T "</code></td>
                  <td>";
      H (escapeHtml (wr_application r));
      T "</td>
                  <td>";
      H (formatMetricValue (wr_started r));
      T "</td>
                  <td>";
      H (formatMetricValue (wr_success r));
      T "</td>
                  <td>";
      H (formatMetricValue (wr_failed r));
      T "</td>
                  <td>";
      H (formatMetricValue (wr_cancelled r));
      T "</td>
                  <td>";
      H (metricBar (wr_success r) max "var(--success)");
      T "</td>
                </tr>"]) rows);
      T "
            </tbody>
          </table>
        </div>
      </div>
    "].

Record queue_line := QueueDepth {
  qd_queue : string; qd_workflow : string; qd_enqueued : number; qd_pending : number }.

Definition depth (r : queue_line) : number := nadd (qd_enqueued r) (qd_pending r).

Definition queue_depths (families : list family) : list queue_line :=
  let key s := pair_key (label "queue_name" s) (label "workflow_name" s) in
  let new s := QueueDepth (label "queue_name" s) (label "workflow_name" s) zero zero in
  let collect f n rows := collect key new f (samplesOf families (P_ +:+ n)) rows in
  let rows := collect (λ s r, QueueDepth (qd_queue r) (qd_workflow r)
      (nadd (qd_enqueued r) (finite_value s)) (qd_pending r)) "workflow_enqueued_count" [] in
  let rows := collect (λ s r, QueueDepth (qd_queue r) (qd_workflow r)
      (qd_enqueued r) (nadd (qd_pending r) (finite_value s))) "workflow_pending_count" rows in
  by_value depth (map snd rows).

Definition renderQueueDepthCard (families : list family) : string :=
  let rows := queue_depths families in
  if (length rows =? 0)%nat then ""
  else
    let max := max_of (map depth rows) in
    tpl [T "
      <div class=`card`>
        <div class=`card-header`><div><span class=`card-title`>Queue Depth</span>
        <span class=`card-note`>enqueued and pending by queue</span></div></div>
        <div class=`table-container`>
          <table class=`data-table queue-depth-table`>
            <thead><tr><th>Queue</th><th>Workflow</th><th>Enqueued</th><th>Pending</th><th style=`width:25%;`>Backlog Share</th></tr></thead>
            <tbody>
              ";
      H (map_join (λ r, tpl [T "
                <tr>
                  <td><code>";
      H (escapeHtml (or_else (qd_queue r) "n/a"));
      T "</code></td>
                  <td>";
      H (escapeHtml (qd_workflow r));
      T "</td>
                  <td>";
      H (formatMetricValue (qd_enqueued r));
      T "</td>
                  <td>";
      H (formatMetricValue (qd_pending r));
      T "</td>
                  <td>";
      H (metricBar (nadd (qd_enqueued r) (qd_pending r)) max "var(--info)");
      T "</td>
                </tr>"]) rows);
      T "
            </tbody>
          </table>
        </div>
      </div>
    "].

Record latency_line := LatencyRow {
  la_workflow : string; la_wait : option number; la_latency : option number }.

(** [if (isFinite(s.value)) row[field] = s.value]. *)
Definition last_finite (s : sample) (old : option number) : option number :=
  if is_finite (value s) then Some (value s) else old.

Definition latencies (families : list family) : list latency_line :=
  let key s := label "workflow_name" s in
  let new s := LatencyRow (label "workflow_name" s) None None in
  let collect f n rows := collect key new f (samplesOf families (P_ +:+ n)) rows in
  let rows := collect (λ s r, LatencyRow (la_workflow r) (last_finite s (la_wait r)) (la_latency r))
      "workflow_max_queue_wait_seconds" [] in
  let rows := collect (λ s r, LatencyRow (la_workflow r) (la_wait r) (last_finite s (la_latency r)))
      "workflow_max_total_latency_seconds" rows in
  by_value (λ r, default zero (la_latency r)) (map snd rows).

Definition step_durations (families : list family) : list (string * number) :=
  by_value snd
    (foldl (λ rows s, if is_finite (value s)
                      then upsert (label "step_name" s) zero (λ _, value s) rows else rows)
           [] (samplesOf families (P_ +:+ "step_max_duration_seconds"))).

Definition option_text (v : option number) : string :=
  match v with None => "n/a" | Some x => formatMetricValue x end.

Definition renderLatencyCard (families : list family) : string :=
  let rows := latencies families in
  let stepRows := step_durations families in
  if (length rows =? 0)%nat && (length stepRows =? 0)%nat then ""
  else
    tpl [T "
      <div class=`card`>
        <div class=`card-header`><div><span class=`card-title`>Latency Maxima</span>
        <span class=`card-note`>windowed maxima in seconds</span></div></div>
        <div class=`table-container`>
          <table class=`data-table latency-table`>
            <thead><tr><th>Workflow / Step</th><th>Max Queue Wait (s)</th><th>Max Total Latency (s)</th><th>Max Step Duration (s)</th></tr></thead>
            <tbody>
              ";
      H (map_join (λ r, tpl [T "
                <tr>
                  <td><code>";
      H (escapeHtml (la_workflow r));
      T "</code></td>
                  <td>";
      H (option_text (la_wait r));
      T "</td>
                  <td>";
      H (option_text (la_latency r));
      T "</td>
                  <td>-</td>
                </tr>"]) rows);
      T "
              ";
      H (map_join (λ kv, tpl [T "
                <tr>
                  <td><code>";
      H (escapeHtml (fst kv));
      T "</code> <span class=`text-secondary` style=`font-size:11px;`>(step)</span></td>
                  <td>-</td>
                  <td>-</td>
                  <td>";
      H (formatMetricValue (snd kv));
      T "</td>
                </tr>"]) stepRows);
      T "
            </tbody>
          </table>
        </div>
      </div>
    "].

Record executor_line := ExecutorRow {
  ex_application : string; ex_version : string; ex_status : string; ex_count : number }.

Definition executor_rows (families : list family) : list executor_line :=
  by_value ex_count
    (map (λ s, ExecutorRow (label "application" s) (label "application_version" s)
                 (label "status" s) (finite_value s))
         (samplesOf families (P_ +:+ "executor_count"))).

Definition renderExecutorCard (families : list family) : string :=
  let rows := executor_rows families in
  if (length rows =? 0)%nat then ""
  else
    let max := max_of (map ex_count rows) in
    tpl [T "
      <div class=`card`>
        <div class=`card-header`><div><span class=`card-title`>Executors</span>
        <span class=`card-note`>registered by application version and status</span></div></div>
        <div class=`table-container`>
          <table class=`data-table executor-metrics-table`>
            <thead><tr><th>Application</th><th>Version</th><th>Status</th><th>Count</th><th style=`width:25%;`>Share</th></tr></thead>
            <tbody>
              ";
      H (map_join (λ r, tpl [T "
                <tr>
                  <td>";
      H (escapeHtml (ex_application r));
      T "</td>
                  <td><code>";
      H (escapeHtml (ex_version r));
      T "</code></td>
                  <td>";
      H (escapeHtml (ex_status r));
      T "</td>
                  <td>";
      H (formatMetricValue (ex_count r));
      T "</td>
                  <td>";
      H (metricBar (ex_count r) max "var(--warning)");
      T "</td>
                </tr>"]) rows);
      T "
            </tbody>
          </table>
        </div>
      </div>
    "].

Record step_line := StepRate {
  sr_application : string; sr_step : string; sr_success : number; sr_failed : number }.

Definition step_rates (families : list family) : list step_line :=
  let key s := pair_key (label "application" s) (label "step_name" s) in
  let new s := StepRate (label "application" s) (label "step_name" s) zero zero in
  let collect f n rows := collect key new f (samplesOf families (P_ +:+ n)) rows in
  let rows := collect (λ s r, StepRate (sr_application r) (sr_step r)
      (nadd (sr_success r) (finite_value s)) (sr_failed r)) "step_success_rate" [] in
  let rows := collect (λ s r, StepRate (sr_application r) (sr_step r)
      (sr_success r) (nadd (sr_failed r) (finite_value s))) "step_failed_rate" rows in
  by_value sr_success (map snd rows).

Definition renderStepRateCard (families : list family) : string :=
  let rows := step_rates families in
  if (length rows =? 0)%nat then ""
  else
    let max := max_of (map sr_success rows) in
    tpl [T "
      <div class=`card`>
        <div class=`card-header`><div><span class=`card-title`>Step Rates</span>
        <span class=`card-note`>per second by step</span></div></div>
        <div class=`table-container`>
          <table class=`data-table step-rates-table`>
            <thead><tr><th>Step</th><th>Application</th><th>Success/s</th><th>Failed/s</th><th style=`width:25%;`>Success Share</th></tr></thead>
            <tbody>
              ";
      H (map_join (λ r, tpl [T "
                <tr>
                  <td><code>";
      H (escapeHtml (sr_step r));
      T "</code></td>
                  <td>";
      H (escapeHtml (sr_application r));
      T "</td>
                  <td>";
      H (formatMetricValue (sr_success r));
      T "</td>
                  <td>";
      H (formatMetricValue (sr_failed r));
      T "</td>
                  <td>";
      H (metricBar (sr_success r) max "var(--success)");
      T "</td>
                </tr>"]) rows);
      T "
            </tbody>
          </table>
        </div>
      </div>
    "].

(** ** The screen *)

Record metricsFilters := MetricsFilters {
  mf_application : string; mf_workflowName : string; mf_family : string }.

(** The query of the request. *)
Definition metrics_query (f : metricsFilters) : MetricsQuery :=
  Metrics (mf_application f) (mf_workflowName f)
    (if String.eqb (mf_family f) "all" then [] else [mf_family f]).

Definition short_name (n : string) : string :=
  if starts_with n P_ then sdrop (String.length P_) n else n.

Definition family_options (f : metricsFilters) (families : list family) : string :=
  tpl [T "<option value=`all`"; H (if String.eqb (mf_family f) "all" then " selected" else "");
       T ">All families</option>"] +:+
  map_join (λ fam,
    tpl [T "<option value=`"; H (escapeHtml (name fam)); T "`";
         H (if String.eqb (mf_family f) (name fam) then " selected" else ""); T ">";
         H (escapeHtml (short_name (name fam))); T "</option>"]) families.

Definition no_samples (families : list family) : bool :=
  forallb (λ x, (length (samples x) =? 0)%nat) families.

Definition metrics_sections (families : list family) : string :=
  if no_samples families then
    tpl [T "<div class=`empty-state`><div class=`empty-state-title`>No metric samples</div><p class=`empty-state-desc`>The scrape returned no series. Adjust or clear the filters.</p></div>"]
  else
    renderWorkflowRateCard families +:+ renderQueueDepthCard families +:+
    renderLatencyCard families +:+ renderExecutorCard families +:+ renderStepRateCard families.

Definition renderMetricsScreen (f : metricsFilters) (text : string) : string :=
  let families := parsePrometheusExposition text in
  tpl [T "
        <div class=`toolbar`>
          <div class=`filter-group`>
            <input type=`text` id=`metrics-application` class=`input-text` placeholder=`Application` aria-label=`Filter by application` value=`";
      H (escapeHtml (mf_application f));
      T "` style=`width:180px;`>
            <input type=`text` id=`metrics-workflow` class=`input-text` placeholder=`Workflow name` aria-label=`Filter by workflow name` value=`";
      H (escapeHtml (mf_workflowName f));
      T "` style=`width:200px;`>
            <select id=`metrics-family` class=`input-text` aria-label=`Filter by metric family` style=`width:240px;`>";
      H ((family_options f families));
      T "</select>
          </div>
          <div class=`filter-group`>
            <button class=`btn btn-sm btn-primary` data-action=`applyMetricsFilters`>Apply Filters</button>
            <button class=`btn btn-sm btn-secondary` data-action=`clearMetricsFilters`>Clear</button>
            <button class=`btn btn-sm btn-secondary` data-action=`refreshMetrics`>Refresh</button>
          </div>
        </div>

        <div class=`stat-grid metrics-grid`>
          <div class=`stat-card`><span class=`stat-label`>Workflow Success Rate</span><span class=`stat-value`>";
      H (formatMetricValue (total families "workflow_success_rate"));
      T "/s</span></div>
          <div class=`stat-card`><span class=`stat-label`>Workflow Failed Rate</span><span class=`stat-value is-error`>";
      H (formatMetricValue (total families "workflow_failed_rate"));
      T "/s</span></div>
          <div class=`stat-card`><span class=`stat-label`>Enqueued Workflows</span><span class=`stat-value`>";
      H (formatMetricValue (total families "workflow_enqueued_count"));
      T "</span></div>
          <div class=`stat-card`><span class=`stat-label`>Pending Workflows</span><span class=`stat-value`>";
      H (formatMetricValue (total families "workflow_pending_count"));
      T "</span></div>
          <div class=`stat-card`><span class=`stat-label`>Registered Executors</span><span class=`stat-value`>";
      H (formatMetricValue (total families "executor_count"));
      T "</span></div>
        </div>
        ";
      H ((metrics_sections families));
      T "
      "].

(** [applyMetricsFilters]: the fields of the form by their identifiers. *)
Definition applyMetricsFilters (form : string → option string) : metricsFilters :=
  let val id := match form id with Some v => trim v | None => "" end in
  MetricsFilters (val "metrics-application") (val "metrics-workflow")
    (match form "metrics-family" with Some v => v | None => "all" end).

Definition clearMetricsFilters : metricsFilters := MetricsFilters "" "" "all".

(** ** The control plane's own metrics *)

(** The samples the filters ask for. *)
Definition wanted (f : metricsFilters) (n : string) (s : sample) : bool :=
  (String.eqb (mf_family f) "all" || String.eqb n (mf_family f)) &&
  (String.eqb (mf_application f) "" || String.eqb (label "application" s) (mf_application f)) &&
  (String.eqb (mf_workflowName f) "" || String.eqb (label "workflow_name" s) (mf_workflowName f) ||
   String.eqb (label "step_name" s) (mf_workflowName f)).

(** What the screen should show of the families [fs]: the wanted samples, and
    the families that have one. *)
Definition shown (f : metricsFilters) (fs : list family) : list family :=
  keep (λ x, negb (length (samples x) =? 0)%nat)
    (map (λ x, Family (name x) (help x) (type x) (keep (wanted f (name x)) (samples x))) fs).

(** The metrics of relay-bridge.js as families. *)
Definition all_families : list family := parsePrometheusExposition (lines_text exposition).

Fixpoint take_bits {A} (bs : list bool) (l : list A) : list A :=
  match bs, l with b :: bs', x :: l' => if b then x :: take_bits bs' l' else take_bits bs' l' | _, _ => [] end.

Fixpoint vectors (n : nat) : list (list bool) :=
  match n with O => [[]] | S n' => flat_map (λ v, [true :: v; false :: v]) (vectors n') end.

Lemma vectors_all bs : bs ∈ vectors (length bs).
Proof.
  induction bs as [|b bs IH]; [by left|]. cbn [length vectors].
  apply list_elem_of_In, in_flat_map. exists bs. split; [by apply list_elem_of_In|].
  destruct b; cbn; auto.
Qed.

Lemma keep_bits {A} (p : A → bool) l : keep p l = take_bits (map p l) l.
Proof. unfold keep. induction l as [|x l IH]; [done|]. cbn. by destruct (p x); rewrite IH. Qed.

(** The metrics of the control plane as printed families. *)
Definition bridge_exposed : list exposed :=
  let app := ("application", "ecommerce-checkout") in
  let wf := ("workflow_name", "ProcessCheckoutWorkflow") in
  let queue := ("queue_name", "orders-standard") in
  let x n h ls v := Exposed (P_ +:+ n) h "gauge" [(app :: ls, v)] in
  [x "executor_count" "Number of registered executors."
     [("application_version", "1.0.0"); ("status", "HEALTHY")] "1";
   x "workflow_success_rate" "Workflows that completed successfully per second." [wf; queue] "0.42";
   x "workflow_failed_rate" "Workflows that terminated with an error per second." [wf; queue] "0.01";
   x "workflow_started_rate" "Workflows created per second." [wf; queue] "0.45";
   x "workflow_enqueued_count" "Workflows currently in the ENQUEUED state." [wf; queue] "3";
   x "workflow_pending_count" "Workflows currently in the PENDING state." [wf] "2";
   x "workflow_max_queue_wait_seconds"
     "Maximum queue wait across workflows completed successfully in the window." [wf; queue] "1.8";
   x "workflow_max_total_latency_seconds"
     "Maximum end-to-end latency across workflows completed successfully in the window." [wf; queue] "4.2";
   x "step_success_rate" "Workflow steps that completed successfully per second."
     [("step_name", "validate_customer")] "0.4";
   x "step_failed_rate" "Workflow steps that terminated with an error per second."
     [("step_name", "charge_card")] "0.005"].

Lemma bridge_exposition : exposition = concat (map print_family bridge_exposed).
Proof. vm_compute. reflexivity. Qed.

Definition sample_lines : list string :=
  flat_map (λ x, map (print_sample (x_name x)) (x_samples x)) bridge_exposed.

(** The lines that survive when the samples [sel] do. *)
Definition surviving (sel : list string) : list string :=
  let live := map metric_name sel in
  keep (λ line,
          if negb (starts_with line "#") then some (String.eqb line) sel
          else some (String.eqb (default "" (split_char " "%char line !! 2%nat))) live)
       exposition.

Definition texts_eqb (l l' : list string) : bool := bool_decide (l = l').

Lemma texts_eqb_eq l l' : texts_eqb l l' = true → l = l'.
Proof. apply bool_decide_eq_true_1. Qed.

Lemma forallb_elem {A} (p : A → bool) l x : forallb p l = true → x ∈ l → p x = true.
Proof. intros H Hx. apply (proj1 (forallb_forall p l) H). by apply list_elem_of_In. Qed.

Lemma surviving_all :
  forallb (λ bs, texts_eqb (surviving (take_bits bs sample_lines))
    (concat (map print_family (take_bits bs bridge_exposed)))) (vectors 10) = true.
Proof. vm_compute. reflexivity. Qed.

Lemma surviving_families bs :
  length bs = 10%nat →
  surviving (take_bits bs sample_lines) = concat (map print_family (take_bits bs bridge_exposed)).
Proof.
  intros Hl. apply texts_eqb_eq. revert bs Hl.
  assert (∀ bs, bs ∈ vectors 10 → texts_eqb (surviving (take_bits bs sample_lines))
    (concat (map print_family (take_bits bs bridge_exposed))) = true) as H.
  { intros bs. exact (forallb_elem _ _ bs surviving_all). }
  intros bs Hl. apply H. rewrite <- Hl. apply vectors_all.
Qed.

Lemma take_bits_elem {A} bs (l : list A) x : x ∈ take_bits bs l → x ∈ l.
Proof.
  revert bs. induction l as [|y l IH]; intros [|[] bs] H; cbn in H; try by apply not_elem_of_nil in H.
  - apply elem_of_cons in H as [->|H]; [by left|right; eauto].
  - right. eauto.
Qed.

Lemma take_bits_map {A B} (g : A → B) bs l : take_bits bs (map g l) = map g (take_bits bs l).
Proof. revert bs. induction l as [|y l IH]; intros [|[] bs]; cbn; try done; by rewrite IH. Qed.

Lemma take_bits_NoDup {A} bs (l : list A) : NoDup l → NoDup (take_bits bs l).
Proof.
  intros H. revert bs. induction H as [|y l Hy _ IH]; intros [|[] bs]; cbn; try constructor; auto.
  intros Hin. by apply take_bits_elem in Hin.
Qed.

Lemma read_surviving bs :
  length bs = 10%nat →
  parsePrometheusExposition (lines_text (surviving (take_bits bs sample_lines))) =
  take_bits bs (map family_of bridge_exposed).
Proof.
  intros Hl. rewrite surviving_families by done. rewrite take_bits_map. apply exposition_reads.
  - apply forallb_forall. intros x Hx. apply list_elem_of_In, take_bits_elem, list_elem_of_In in Hx.
    revert x Hx. apply forallb_forall. vm_compute. reflexivity.
  - rewrite <- take_bits_map. apply take_bits_NoDup. apply (bool_decide_eq_true_1 _).
    vm_compute. reflexivity.
Qed.

Lemma text_of_lines l : join newline l +:+ newline = lines_text l ∨ l = [].
Proof.
  destruct l as [|x l]; [by right|left]. revert x. induction l as [|y l IH]; intros x; [done|].
  change (join newline (x :: y :: l)) with (x +:+ newline +:+ join newline (y :: l)).
  rewrite !app_assoc_str, IH. reflexivity.
Qed.

Lemma parse_lines l :
  parsePrometheusExposition (join newline l +:+ newline) = parsePrometheusExposition (lines_text l).
Proof. destruct (text_of_lines l) as [E| ->]; [by rewrite E|reflexivity]. Qed.

Lemma keep_samples only app wf l :
  keep (is_sample only app wf) (concat (map print_family l)) =
  keep (is_sample only app wf) (flat_map (λ x, map (print_sample (x_name x)) (x_samples x)) l).
Proof.
  induction l as [|x l IH]; [done|]. cbn [map concat flat_map].
  unfold keep in *. rewrite !List.filter_app, IH. f_equal.
Qed.

Lemma keep_bridge only app wf :
  keep (is_sample only app wf) exposition = keep (is_sample only app wf) sample_lines.
Proof. rewrite bridge_exposition. apply keep_samples. Qed.

Definition first_sample (x : family) : sample := default (Sample ∅ zero) (head (samples x)).

Lemma shown_single f fs :
  Forall (λ x, ∃ s, samples x = [s]) fs →
  shown f fs = take_bits (map (λ x, wanted f (name x) (first_sample x)) fs) fs.
Proof.
  induction 1 as [|x fs [s Hs] _ IH]; [done|]. unfold shown in *. cbn [map].
  unfold first_sample at 1. rewrite Hs. cbn [head default from_option id take_bits].
  unfold keep in *. cbn [List.filter samples].
  destruct (wanted f (name x) s); cbn [List.filter samples length Nat.eqb negb]; rewrite IH; [|done].
  f_equal. destruct x; cbn in *. by subst.
Qed.

Lemma single_samples : Forall (λ x, ∃ s, samples x = [s]) (map family_of bridge_exposed).
Proof. repeat constructor; eexists; reflexivity. Qed.

Lemma bridge_ten : length bridge_exposed = 10%nat.
Proof. reflexivity. Qed.

(** A line of the exposition and the family it belongs to agree on what the
    filters look at. *)
Definition agree (line : string) (x : family) : bool :=
  negb (starts_with line "#") && String.eqb (metric_name line) (name x) &&
  forallb (λ k, String.eqb (labelValue line k) (label k (first_sample x)))
    ["application"; "workflow_name"; "step_name"].

Fixpoint all_agree (lines : list string) (fs : list family) : bool :=
  match lines, fs with
  | [], [] => true
  | l :: lines', x :: fs' => agree l x && all_agree lines' fs'
  | _, _ => false
  end.

Lemma lines_agree : all_agree sample_lines (map family_of bridge_exposed) = true.
Proof. vm_compute. reflexivity. Qed.

#[local] Opaque exposition bridge_exposed sample_lines.

Section Wanted.
Context (f : metricsFilters).

Definition kept_line : string → bool :=
  is_sample (m_metrics (metrics_query f)) (m_applications (metrics_query f))
    (m_workflowNames (metrics_query f)).

Lemma agree_wanted line x :
  agree line x = true → kept_line line = wanted f (name x) (first_sample x).
Proof.
  unfold agree, kept_line. cbn [forallb]. rewrite !andb_true_iff, !String.eqb_eq.
  intros ((Hs & Hn) & Ha & Hw & Hst & _). unfold is_sample, wanted, metrics_query.
  cbn [m_metrics m_applications m_workflowNames]. rewrite Hs, Hn, Ha, Hw, Hst. cbn [andb].
  destruct (String.eqb (mf_family f) "all"); cbn [some existsb orb]; [done|].
  by rewrite orb_false_r.
Qed.

Lemma all_wanted lines fs :
  all_agree lines fs = true →
  map kept_line lines = map (λ x, wanted f (name x) (first_sample x)) fs.
Proof.
  revert fs. induction lines as [|l lines IH]; intros [|x fs] H; try done.
  cbn [all_agree map] in *. apply andb_true_iff in H as [Hx H].
  by rewrite (agree_wanted l x Hx), (IH fs H).
Qed.

Lemma bits_wanted :
  map kept_line sample_lines =
  map (λ x, wanted f (name x) (first_sample x)) (map family_of bridge_exposed).
Proof. apply all_wanted, lines_agree. Qed.
End Wanted.

Lemma all_families_of : all_families = map family_of bridge_exposed.
Proof.
  unfold all_families. rewrite bridge_exposition. apply exposition_reads.
  - vm_compute. reflexivity.
  - apply (bool_decide_eq_true_1 _). vm_compute. reflexivity.
Qed.

Lemma metric_lines_surviving only app wf :
  metric_lines only app wf = surviving (keep (is_sample only app wf) exposition).
Proof. reflexivity. Qed.

Lemma samples_wanted f :
  keep (is_sample (m_metrics (metrics_query f)) (m_applications (metrics_query f))
    (m_workflowNames (metrics_query f))) exposition =
  take_bits (map (λ x, wanted f (name x) (first_sample x)) (map family_of bridge_exposed))
    sample_lines.
Proof.
  rewrite keep_bridge, keep_bits. fold (kept_line f). by rewrite bits_wanted.
Qed.

Lemma scraped f :
  parsePrometheusExposition (join newline (metric_lines (m_metrics (metrics_query f))
    (m_applications (metrics_query f)) (m_workflowNames (metrics_query f))) +:+ newline) =
  shown f all_families.
Proof.
  rewrite parse_lines, metric_lines_surviving, samples_wanted.
  rewrite read_surviving by (by rewrite !length_map, bridge_ten).
  rewrite all_families_of. symmetry. apply shown_single, single_samples.
Qed.

(** C14: with any filters the metrics screen shows exactly the samples of the
    control plane's metrics that satisfy them (family, application, and the
    name of the workflow or of the step), under the families that have one:
    the request of the client, the filtering of the control plane and the
    console's reader of the text format agree. *)
Theorem metrics_screen_shows_wanted db e network k s f :
  ∃ t, exchange db e network k s (GetMetricsText (metrics_query f)) = (s, GotText t) ∧
       parsePrometheusExposition t = shown f all_families.
Proof.
  eexists. rewrite exchange_serve by reflexivity. split; [|apply scraped]. reflexivity.
Qed.

(** ** The bars *)

Lemma nmul_hundred a : nonneg a = true → nonneg (nmul a (num 100)) = true.
Proof. intros H. by apply nmul_nonneg. Qed.

Lemma nmin_hundred y :
  nonneg y = true →
  let p := nmin (num 100) y in is_finite p = true ∧ nle zero p = true ∧ nle p (num 100) = true.
Proof.
  intros Hy p. unfold p, nmin.
  assert (is_nan y = false) as -> by (by destruct y as [|[]| |[]]).
  change (is_nan (num 100)) with false. cbn [orb].
  destruct (nlt y (num 100)) eqn:E; [|by vm_compute].
  split_and!.
  - by destruct y as [|[]| |[]].
  - by destruct y as [|[]| |[]].
  - revert E. unfold nlt, nle, SFltb, SFleb. by destruct (SFcompare y (num 100)) as [[]|].
Qed.

(** The bar of a row never leaves its cell: whatever the value (infinite
    and undefined ones included, provided a finite one is not negative) and
    whatever the largest value of the column, its width is a finite number of
    per cent between 0 and 100. *)
Theorem bar_within value max :
  (is_finite value = true → nonneg value = true) →
  let p := bar_percent value max in
  is_finite p = true ∧ nle zero p = true ∧ nle p (num 100) = true.
Proof.
  intros Hv. unfold bar_percent.
  destruct (nlt zero max) eqn:Hm; cbn [andb]; [|by vm_compute].
  destruct (is_finite value) eqn:Hf; [|by vm_compute].
  apply nmin_hundred, nmul_hundred, ndiv_nonneg; auto.
Qed.

Lemma bar_within_witness :
  nle zero (bar_percent (dec 1 3) (dec 2 3)) = true ∧ fixed1 (bar_percent (dec 1 3) (dec 2 3)) = "50.0".
Proof.
  split; [|vm_compute; reflexivity].
  apply (bar_within (dec 1 3) (dec 2 3)). intros _. vm_compute. reflexivity.
Defined.

(** A gauge may be negative: the bar of such a row has a negative width, which
    the page ignores. *)
Lemma negative_bar : fixed1 (bar_percent (num (-1)) (num 2)) = "-50.0".
Proof. vm_compute. reflexivity. Qed.

(** The totals at the top of the screen without filters. *)
Example bridge_totals :
  map (λ n, formatMetricValue (total all_families n))
    ["workflow_success_rate"; "workflow_failed_rate"; "workflow_enqueued_count";
     "workflow_pending_count"; "executor_count"] = ["0.42"; "0.01"; "3"; "2"; "1"].
Proof. vm_compute. reflexivity. Qed.
