(* ===== verification/ConsoleForms.v ===== *)
(** The forms of the console (app.js): what each dialog shows, what a press of
    its button reads from the page, which inputs it refuses and the call it
    makes otherwise.

    The elements of a form are given by their identifiers.  What is typed into
    a number field is a decimal text (the browser empties the field for
    anything else). *)

From Stdlib Require Import ZArith Lia Ascii String SpecFloat.
From stdpp Require Import base list strings gmap.
From S2P Require Import Prelude Html Json JsonSpec JsDate JsNumber JsDecimal JsInteger Uri.
From S2P Require Import BridgeState BridgeRoutes BridgeSpec ApiTypes ApiClient ClientServe ConsoleWidgets.
Import ApiClient.Client.

(** The values of the elements that exist, the state of the checkboxes, and the
    values of the checked boxes of a group. *)
Record dom := Dom {
  el_value : string → option string;
  el_checked : string → option bool;
  checked_boxes : list string }.

(** What a press of the button does: a message and nothing else, or a call with
    the message that follows its success; [Throws] when an element the code
    reads without a test is missing. *)
Inductive submitted := Notice (text : string) | Sends (op : operation) (done_ : string) | Throws.

(** ** Application settings *)

(** [msToHours(ms)]. *)
Definition msToHours (ms : jval) : string :=
  if nullish ms then ""
  else match js_number ms with
       | Some n => number_text (ndiv (num n) (num 3600000))
       | None => "NaN"
       end.

(** [v ?? ""] in a template. *)
Definition opt_text (v : jval) : string := js_string (if nullish v then JStr "" else v).

Definition settings_html (app : jval) : string :=
  tpl [T "
        <div class=`card`>
          <div class=`card-header`>
            <div>
              <span class=`card-title`>Retention & Timeouts</span>
              <span class=`card-note`>Blank leaves the current value unchanged</span>
            </div>
            <button class=`btn btn-sm btn-primary` data-action=`submitAppSettings`>Save settings</button>
          </div>
          <div class=`card-body settings-form`>
            <div class=`form-field`>
              <label class=`form-label` for=`set-gc-rows`>Retention: completed workflows kept</label>
              <input type=`number` id=`set-gc-rows` class=`input-text` min=`0` placeholder=`Unset (keep all)` value=`";
      H (js_string (if nullish (field app "gcRowsThreshold") then JStr "" else field app "gcRowsThreshold"));
      T "`>
            </div>
            <div class=`form-field`>
              <label class=`form-label` for=`set-gc-hours`>Retention: history age (hours after completion)</label>
              <input type=`number` id=`set-gc-hours` class=`input-text` min=`0` step=`any` placeholder=`Unset (keep all)` value=`";
      H (msToHours (field app "gcTimeThresholdMs"));
      T "`>
            </div>
            <div class=`form-field`>
              <label class=`form-label` for=`set-global-hours`>Global workflow timeout (hours after creation; overdue workflows are cancelled)</label>
              <input type=`number` id=`set-global-hours` class=`input-text` min=`0` step=`any` placeholder=`Unset (no timeout)` value=`";
      H (msToHours (field app "globalTimeoutMs"));
      T "`>
            </div>
            <div class=`form-field`>
              <label class=`form-label` for=`set-exec-timeout`>Executor timeout (seconds before an idle executor is considered gone)</label>
              <input type=`number` id=`set-exec-timeout` class=`input-text` min=`1` value=`";
      H (js_string (if nullish (field app "executorTimeoutSecs") then JStr "" else field app "executorTimeoutSecs"));
      T "`>
            </div>
            <div class=`form-field`>
              <label class=`form-label` for=`set-private-mode`>
                <input type=`checkbox` id=`set-private-mode` ";
      H (if truthy (field app "privateMode") then "checked" else "");
      T " style=`margin-right:8px;`>Private mode (executors omit workflow inputs, outputs, and events)
              </label>
            </div>
          </div>
        </div>
      "].

(** What the fields of the page just drawn hold. *)
Definition settings_dom (app : jval) : dom := Dom
  (λ id,
    if String.eqb id "set-gc-rows" then Some (opt_text (field app "gcRowsThreshold"))
    else if String.eqb id "set-gc-hours" then Some (msToHours (field app "gcTimeThresholdMs"))
    else if String.eqb id "set-global-hours" then Some (msToHours (field app "globalTimeoutMs"))
    else if String.eqb id "set-exec-timeout" then Some (opt_text (field app "executorTimeoutSecs"))
    else None)
  (λ id, if String.eqb id "set-private-mode" then Some (truthy (field app "privateMode")) else None)
  [].

(** [readNum]: [null], [NaN] or a number. *)
Inductive reading := Blank | NotANumber | Reads (x : number).

Definition readNum (raw : string) (min : Z) : reading :=
  let raw := trim raw in
  if String.eqb raw "" then Blank
  else
    let n := number_of_text raw in
    if is_finite n && nle (num min) n then Reads n else NotANumber.

Definition is_bad (r : reading) : bool := match r with NotANumber => true | _ => false end.

(** [Math.floor(x)] in the body of the request: an infinite number is written
    as [null]. *)
Definition floor_json (x : number) : jval :=
  match nfloor x with Some n => JNum n | None => JNull end.

Definition optional (name : string) (f : number → jval) (r : reading) : list (string * jval) :=
  match r with Reads x => [(name, f x)] | _ => [] end.

Definition invalid_field (label : string) (min : Z) : string :=
  "Invalid " +:+ label +:+ ": enter a number at least " +:+ string_of_Z min +:+ " or blank".

Definition hours_ms (x : number) : jval := floor_json (nmul x (num 3600000)).

Definition submitAppSettings (org app : string) (d : dom) : submitted :=
  match el_value d "set-gc-rows", el_value d "set-gc-hours",
        el_value d "set-global-hours", el_value d "set-exec-timeout" with
  | Some t1, Some t2, Some t3, Some t4 =>
      let gcRows := readNum t1 0 in
      let gcHours := readNum t2 0 in
      let globalHours := readNum t3 0 in
      let execTimeout := readNum t4 1 in
      match find (λ f, is_bad (snd (fst f)))
              [("retention rows", gcRows, 0); ("retention hours", gcHours, 0);
               ("global timeout", globalHours, 0); ("executor timeout", execTimeout, 1)] with
      | Some (label, _, min) => Notice (invalid_field label min)
      | None =>
          match el_checked d "set-private-mode" with
          | None => Throws
          | Some b =>
              Sends (UpdateApp org app (JObj ([("privateMode", JBool b)] ++
                optional "gcRowsThreshold" floor_json gcRows ++
                optional "gcTimeThresholdMs" hours_ms gcHours ++
                optional "globalTimeoutMs" hours_ms globalHours ++
                optional "executorTimeoutSecs" floor_json execTimeout)))
                "Application settings saved"
          end
      end
  | _, _, _, _ => Throws
  end.

(** ** Autoscaling policy *)

(** [new Date(v).toISOString()] of a number of milliseconds ([null] counts as 0);
    [None], it throws: the time is out of range or missing.  The answers carry
    nothing else there. *)
Definition iso_of (v : jval) : option string :=
  match v with
  | JNum ms => if Z.abs ms <=? 8640000000000000 then Some (to_iso ms) else None
  | JNull => Some (to_iso 0)
  | _ => None
  end.

Section Autoscaling.
Context (locale : jval → string).
Notation formatTimestamp := (ConsoleWidgets.formatTimestamp locale).

Definition isSome {A} (o : option A) : bool := match o with Some _ => true | None => false end.

(** [v > n]. *)
Definition js_gt (v : jval) (n : Z) : bool :=
  match js_number v with Some m => n <? m | None => false end.

(** [!q.partitionQueue && q.workerConcurrency > 0]. *)
Definition can_drive (x : jval) : bool :=
  negb (truthy (field x "partitionQueue")) && js_gt (field x "workerConcurrency") 0.
Definition eligible (queueList : list jval) : list jval := keep can_drive queueList.

Definition queue_options (policy : jval) (queueList : list jval) : string :=
  map_join (λ x, let ok := can_drive x in
    tpl [T "<option value=`";
      H (esc (field x "name"));
      T "` ";
      H (if (truthy (policy)) && (key_eqb (field policy "queue") (field x "name")) then "selected" else "");
      T " ";
      H (if ok then "" else "disabled");
      T ">";
      H (esc (field x "name"));
      H (if ok then tpl [T " (concurrency ";
      H (js_string (field x "workerConcurrency"));
      T ")"] else " (ineligible)");
      T "</option>"]) queueList.

(** [(policy && policy.rollout) || {}]. *)
Definition rollout_of (policy : jval) : jval :=
  jor (if truthy policy then field policy "rollout" else policy) (JObj []).

(** The screen once its three requests have settled: the list of queues or the
    message of its failure, the policy ([JNull] when there is none), and the
    recommendations or the message of theirs; [None] when drawing a row throws. *)
Definition autoscaling_html (queueList : list jval) (queuesError : option string) (policy : jval)
    (recs : list jval) (recsError : option string) : option string :=
  let rollout := rollout_of policy in
  if isSome recsError || forallb (λ r, isSome (iso_of (field r "observedAt"))) recs then
  Some (tpl [T "
        <div class=`card`>
          <div class=`card-header`>
            <div>
              <span class=`card-title`>Policy</span>
              <span class=`card-note`>Backlog on the policy queue drives desired executors; the orchestrator actuates</span>
            </div>
            <div class=`header-actions`>
              ";
      H (if truthy (policy) then tpl [T "<button class=`btn btn-sm btn-danger` data-action=`deleteAutoscalingPolicy`>Delete policy</button>"] else "");
      T "
              <button class=`btn btn-sm btn-primary` data-action=`submitAutoscalingPolicy`>Save policy</button>
            </div>
          </div>
          <div class=`card-body`>
            <div class=`form-field`>
              <label class=`form-label` for=`scale-queue`>Policy queue</label>
              <select id=`scale-queue` class=`select-sm`>
                <option value=``>Select a queue...</option>
                ";
      H ((queue_options policy queueList));
      T "
              </select>
            </div>
            <div class=`form-field`>
              <label class=`form-label` for=`scale-max-old`>Maximum old versions (blank = latest only)</label>
              <input type=`number` id=`scale-max-old` class=`input-text` min=`0` value=`";
      H (js_string (if nullish (field rollout "maxOldApplicationVersions") then JStr "" else field rollout "maxOldApplicationVersions"));
      T "`>
            </div>
            <div class=`form-field`>
              <label class=`form-label` for=`scale-max-exec`>Maximum executors per old version (blank = uncapped)</label>
              <input type=`number` id=`scale-max-exec` class=`input-text` min=`0` placeholder=`Uncapped` value=`";
      H (js_string (if nullish (field rollout "maxExecutorsForOldApplicationVersions") then JStr "" else field rollout "maxExecutorsForOldApplicationVersions"));
      T "`>
            </div>
            ";
      H (if isSome queuesError then tpl [T "<p style=`font-size:12px; color:var(--error);`>Queues unavailable: ";
      H (escapeHtml (default "" queuesError));
      T "</p>"] else if (Z.of_nat (length (eligible queueList))) =? 0 then tpl [T "<p style=`font-size:12px; color:var(--faint);`>No eligible queues: a policy queue must exist, be unpartitioned, and have worker concurrency set.</p>"] else "");
      T "
          </div>
        </div>

        <div class=`card`>
          <div class=`card-header`>
            <div><span class=`card-title`>Desired Executors</span>
            <span class=`card-note`>Live recommendation per application version</span></div>
            <span class=`badge badge-neutral`>";
      H (string_of_Z (Z.of_nat (length recs)));
      T " versions</span>
          </div>
          <div class=`table-container`>
            <table class=`data-table autoscale-table`>
              <thead>
                <tr>
                  <th>Version</th>
                  <th>Latest</th>
                  <th>Desired</th>
                  <th>Queue Depth</th>
                  <th>Queue</th>
                  <th>Observed</th>
                </tr>
              </thead>
              <tbody>
                ";
      H (if isSome recsError then tpl [T "<tr><td colspan=`6` style=`text-align:center; color:var(--faint); padding:24px;`>";
      H (if truthy (policy) then tpl [T "Recommendations unavailable: ";
      H (escapeHtml (default "" recsError))] else "Attach a policy to see recommendations.");
      T "</td></tr>"] else if 0 <? (Z.of_nat (length recs)) then map_join (λ r, tpl [T "
                  <tr>
                    <td><code>";
      H (esc (field r "applicationVersion"));
      T "</code></td>
                    <td>";
      H (if truthy (field r "isLatest") then tpl [T "<span class=`badge badge-info`>latest</span>"] else "-");
      T "</td>
                    <td><strong>";
      H (js_string (field r "desiredExecutors"));
      T "</strong></td>
                    <td>";
      H (js_string (field r "queueDepth"));
      T "</td>
                    <td>";
      H (esc (field r "queueName"));
      T "</td>
                    <td>";
      H (formatTimestamp (JStr (default "" (iso_of (field r "observedAt")))));
      T "</td>
                  </tr>
                "]) recs else tpl [T "<tr><td colspan=`6` style=`text-align:center; color:var(--faint); padding:24px;`>";
      H (if truthy (policy) then "No versions to report." else "Attach a policy to see recommendations.");
      T "</td></tr>"]);
      T "
              </tbody>
            </table>
          </div>
        </div>
      "])
  else None.
End Autoscaling.

(** [policyRes.value ? (policyRes.value.policy || policyRes.value) : null]. *)
Definition policy_of (answer : jval) : jval :=
  if truthy answer then jor (field answer "policy") answer else JNull.

(** The queue the select element holds after drawing: that of the last option
    marked as selected, else the placeholder's empty value. *)
Definition selected_queue (policy : jval) (queueList : list jval) : string :=
  match List.rev (keep (λ x, truthy policy && key_eqb (field policy "queue") (field x "name")) queueList) with
  | x :: _ => js_string (field x "name")
  | [] => ""
  end.

Definition autoscaling_dom (policy : jval) (queueList : list jval) : dom :=
  let rollout := rollout_of policy in
  Dom (λ id,
    if String.eqb id "scale-queue" then Some (selected_queue policy queueList)
    else if String.eqb id "scale-max-old" then Some (opt_text (field rollout "maxOldApplicationVersions"))
    else if String.eqb id "scale-max-exec" then
      Some (opt_text (field rollout "maxExecutorsForOldApplicationVersions"))
    else None) (λ _, None) [].

(** [readOpt]. *)
Inductive cap := NoCap | BadCap | Cap_ (n : Z).

Definition readOpt (raw : string) : cap :=
  let raw := trim raw in
  if String.eqb raw "" then NoCap
  else match nfloor (number_of_text raw) with
       | Some n => if n <? 0 then BadCap else Cap_ n
       | None => BadCap
       end.

Definition cap_field (name : string) (c : cap) : list (string * jval) :=
  match c with Cap_ n => [(name, JNum n)] | _ => [] end.

(** The policy sent: the rollout only when one of its caps is set. *)
Definition policy_value (queue : string) (maxOld maxExec : cap) : jval :=
  let caps := cap_field "maxOldApplicationVersions" maxOld ++
              cap_field "maxExecutorsForOldApplicationVersions" maxExec in
  JObj (("queue", JStr queue) :: match caps with [] => [] | _ => [("rollout", JObj caps)] end).

Definition submitAutoscalingPolicy (org app : string) (d : dom) : submitted :=
  match el_value d "scale-queue" with
  | None => Throws
  | Some queue =>
      if String.eqb queue "" then Notice "Select a policy queue first"
      else
        match el_value d "scale-max-old", el_value d "scale-max-exec" with
        | Some t1, Some t2 =>
            match readOpt t1, readOpt t2 with
            | BadCap, _ | _, BadCap => Notice "Rollout caps must be non-negative numbers or blank"
            | maxOld, maxExec =>
                Sends (SetAutoscalingPolicy org app (policy_value queue maxOld maxExec))
                  "Autoscaling policy saved"
            end
        | _, _ => Throws
        end
  end.

(** ** Roles, keys, alert rules, messages *)

Definition create_role_html (rolePermissions : list string) : string :=
  let catalog :=
    match rolePermissions with
    | [] => ["application.read"; "application.write"; "websocket.connect"; "metric.read";
             "organization.read"; "organization.write"; "token.read"; "token.write"]
    | l => l
    end in
  tpl [T "
      <div class=`modal-overlay` data-action=`closeModalOverlay` role=`dialog` aria-modal=`true` aria-labelledby=`modal-role-title`>
        <div class=`modal-dialog`>
          <div class=`modal-header`>
            <span id=`modal-role-title`>Create Custom Role</span>
            <button class=`btn btn-xs btn-secondary` data-action=`closeModal` aria-label=`Close dialog`>
              <svg width=`14` height=`14` viewBox=`0 0 24 24` fill=`none` stroke=`currentColor` stroke-width=`2` aria-hidden=`true`><line x1=`18` y1=`6` x2=`6` y2=`18`/><line x1=`6` y1=`6` x2=`18` y2=`18`/></svg>
            </button>
          </div>
          <div class=`modal-body`>
            <div class=`form-field`>
              <label class=`form-label` for=`new-role-name`>Role Name (3-30 characters)</label>
              <input type=`text` id=`new-role-name` class=`input-text` placeholder=`e.g. deploy-operator`>
            </div>
            <div class=`form-field`>
              <span class=`form-label`>Permissions</span>
              ";
      H (map_join (λ p, tpl [T "
                <label style=`display:block; font-size:13px; margin:4px 0;`>
                  <input type=`checkbox` data-role-permission value=`";
      H (escapeHtml p);
      T "`> <code>";
      H (escapeHtml p);
      T "</code>
                </label>"]) catalog);
      T "
            </div>
          </div>
          <div class=`modal-footer`>
            <button class=`btn btn-sm btn-secondary` data-action=`closeModal`>Cancel</button>
            <button class=`btn btn-sm btn-primary` data-action=`submitCreateRole`>Create Role</button>
          </div>
        </div>
      </div>
    "].

Definition submitCreateRole (org : string) (d : dom) : submitted :=
  let name := match el_value d "new-role-name" with Some v => trim v | None => "" end in
  if (String.length name <? 3)%nat || (30 <? String.length name)%nat then
    Notice "Role name must be between 3 and 30 characters"
  else Sends (CreateRole org name (checked_boxes d))
         (tpl [T "Role `"; H name; T "` created"]).

Definition create_key_html (apps : list jval) : string :=
  tpl [T "
      <div class=`modal-overlay` data-action=`closeModalOverlay` role=`dialog` aria-modal=`true` aria-labelledby=`modal-key-title`>
        <div class=`modal-dialog`>
          <div class=`modal-header`>
            <span id=`modal-key-title`>Mint Scoped API Key</span>
            <button class=`btn btn-xs btn-secondary` data-action=`closeModal` aria-label=`Close dialog`>
              <svg width=`14` height=`14` viewBox=`0 0 24 24` fill=`none` stroke=`currentColor` stroke-width=`2` aria-hidden=`true`><line x1=`18` y1=`6` x2=`6` y2=`18`/><line x1=`6` y1=`6` x2=`18` y2=`18`/></svg>
            </button>
          </div>
          <div class=`modal-body`>
            <div class=`form-field`>
              <label class=`form-label` for=`new-key-name`>Key Name</label>
              <input type=`text` id=`new-key-name` class=`input-text` placeholder=`e.g. ci-deploy-key`>
            </div>
            <div class=`form-field`>
              <label class=`form-label` for=`new-key-app`>Application Scope</label>
              <select id=`new-key-app` class=`select-sm`>
                <option value=``>All Applications</option>
                ";
      H (map_join (λ a, tpl [T "<option value=`";
      H (esc (field a "name"));
      T "`>";
      H (esc (field a "name"));
      T "</option>"]) apps);
      T "
              </select>
            </div>
          </div>
          <div class=`modal-footer`>
            <button class=`btn btn-sm btn-secondary` data-action=`closeModal`>Cancel</button>
            <button class=`btn btn-sm btn-primary` data-action=`submitCreateKey`>Mint Key</button>
          </div>
        </div>
      </div>
    "].

Definition submitCreateKey (org : string) (d : dom) : submitted :=
  match el_value d "new-key-name" with
  | None => Throws
  | Some v =>
      let name := trim v in
      if String.eqb name "" then Notice "Key name is required"
      else match el_value d "new-key-app" with
           | None => Throws
           | Some appScope =>
               Sends (CreateAPIKey org name ["*"] (if String.eqb appScope "" then [] else [appScope])) ""
           end
  end.

(** The dialog that shows the new key instead of a message. *)
Definition key_created_html (name : string) (token : jval) : string :=
  tpl [T "
      <div class=`modal-overlay` role=`dialog` aria-modal=`true` aria-labelledby=`modal-key-created-title`>
        <div class=`modal-dialog`>
          <div class=`modal-header`>
            <span id=`modal-key-created-title`>API Key Created: ";
      H (escapeHtml name);
      T "</span>
          </div>
          <div class=`modal-body`>
            <p style=`font-size:13px; color:var(--warning); font-weight:500;`>
              Please copy this key now. It will not be shown again.
            </p>
            <div class=`json-viewer` style=`padding:12px; margin-top:8px;`>
              <code style=`word-break:break-all; font-weight:700;`>";
      H (esc token);
      T "</code>
            </div>
          </div>
          <div class=`modal-footer`>
            <button class=`btn btn-sm btn-primary` data-copy-and-close='";
      H (esc token);
      T "'>Copy & Done</button>
          </div>
        </div>
      </div>
    "].

Definition create_alert_html (apps : list jval) (appName : string) : string :=
  let appOptions := map_join (λ a, tpl [T "<option value=`";
      H (esc (field a "name"));
      T "` ";
      H (if is_str (field a "name") appName then "selected" else "");
      T ">";
      H (esc (field a "name"));
      T "</option>"]) apps in
  tpl [T "
      <div class=`modal-overlay` data-action=`closeModalOverlay` role=`dialog` aria-modal=`true` aria-labelledby=`modal-alert-title`>
        <div class=`modal-dialog`>
          <div class=`modal-header`>
            <span id=`modal-alert-title`>Create Alert Rule</span>
            <button class=`btn btn-xs btn-secondary` data-action=`closeModal` aria-label=`Close dialog`>
              <svg width=`14` height=`14` viewBox=`0 0 24 24` fill=`none` stroke=`currentColor` stroke-width=`2` aria-hidden=`true`><line x1=`18` y1=`6` x2=`6` y2=`18`/><line x1=`6` y1=`6` x2=`18` y2=`18`/></svg>
            </button>
          </div>
          <div class=`modal-body`>
            <div class=`form-field`>
              <label class=`form-label` for=`new-rule-app`>Application</label>
              <select id=`new-rule-app` class=`select-sm`>
                ";
      H (appOptions);
      T "
              </select>
            </div>
            <div class=`form-field`>
              <label class=`form-label` for=`new-rule-type`>Rule Type</label>
              <select id=`new-rule-type` class=`select-sm`>
                <option value=`WorkflowFailure`>WorkflowFailure</option>
                <option value=`SlowQueue`>SlowQueue</option>
                <option value=`UnresponsiveApplication`>UnresponsiveApplication</option>
              </select>
            </div>
            <div class=`form-field`>
              <label class=`form-label` for=`new-rule-interval`>Min Interval (seconds)</label>
              <input type=`number` id=`new-rule-interval` class=`input-text` value=`300` min=`0`>
            </div>
            <div class=`form-field`>
              <label class=`form-label` for=`new-rule-meta`>Rule Metadata (JSON)</label>
              <textarea id=`new-rule-meta` class=`input-text` rows=`4` style=`font-family:var(--font-mono); font-size:12px;`>{`threshold`: 10}</textarea>
            </div>
          </div>
          <div class=`modal-footer`>
            <button class=`btn btn-sm btn-secondary` data-action=`closeModal`>Cancel</button>
            <button class=`btn btn-sm btn-primary` data-action=`submitCreateAlert`>Create Rule</button>
          </div>
        </div>
      </div>
    "].

(** [appSelect ? appSelect.value : (this.appName || (this.apps[0] ? .. : ""))]. *)
Definition alert_app (appName : string) (apps : list jval) (d : dom) : string :=
  match el_value d "new-rule-app" with
  | Some v => v
  | None => or_else appName (match apps with a :: _ => js_string (field a "name") | [] => "" end)
  end.

Definition submitCreateAlert (org appName : string) (apps : list jval) (d : dom) : submitted :=
  match el_value d "new-rule-type", el_value d "new-rule-interval", el_value d "new-rule-meta" with
  | Some ruleType, Some interval, Some meta =>
      match json_parse meta with
      | None => Notice "Invalid JSON in rule metadata"
      | Some ruleMetadata =>
          Sends (CreateAlertingRule org (alert_app appName apps d)
                   (JObj [("ruleType", JStr ruleType);
                          ("minIntervalSecs", JNum (default 0 (parse_int interval)));
                          ("ruleMetadata", ruleMetadata)]))
            "Alert rule created successfully"
      end
  | _, _, _ => Throws
  end.

Definition send_message_html (workflowId targetApp : string) : string :=
  tpl [T "
      <div class=`modal-overlay` data-action=`closeModalOverlay` role=`dialog` aria-modal=`true` aria-labelledby=`send-message-title`>
        <div class=`modal-dialog`>
          <div class=`modal-header`>
            <span id=`send-message-title`>Send Message</span>
            <button class=`btn btn-xs btn-secondary` data-action=`closeModal` aria-label=`Close dialog`>
              <svg width=`14` height=`14` viewBox=`0 0 24 24` fill=`none` stroke=`currentColor` stroke-width=`2` aria-hidden=`true`><line x1=`18` y1=`6` x2=`6` y2=`18`/><line x1=`6` y1=`6` x2=`18` y2=`18`/></svg>
            </button>
          </div>
          <div class=`modal-body`>
            <p style=`font-size:12px; color:var(--muted); margin:0;`>
              Writes a message for <code>";
      H (escapeHtml workflowId);
      T "</code> in ";
      H (escapeHtml (or_else targetApp "this application"));
      T ". Relay stores the payload with the DBOS portable JSON serializer.
            </p>
            <div class=`form-field`>
              <label class=`form-label` for=`send-message-topic`>Topic (optional)</label>
              <input type=`text` id=`send-message-topic` class=`input-text` placeholder=`orders`>
            </div>
            <div class=`form-field`>
              <label class=`form-label` for=`send-message-payload`>Payload (JSON)</label>
              <textarea id=`send-message-payload` class=`input-text` rows=`8` placeholder='{`status`:`ready`}' style=`font-family:var(--font-mono); font-size:12px; height:auto; padding:9px;`></textarea>
            </div>
          </div>
          <div class=`modal-footer`>
            <button class=`btn btn-sm btn-secondary` data-action=`closeModal`>Cancel</button>
            <button class=`btn btn-sm btn-primary` data-action=`submitSendMessage`>Send</button>
          </div>
        </div>
      </div>
    "].

(** The field for the payload is the one tested: nothing happens without it. *)
Definition submitSendMessage (org targetApp workflowId : string) (d : dom) : option submitted :=
  match el_value d "send-message-payload" with
  | None => None
  | Some v =>
      let raw := trim v in
      Some
        (if String.eqb raw "" then Notice "Payload is required"
         else match json_parse raw with
              | None => Notice "Payload must be valid JSON"
              | Some payload =>
                  let topic := match el_value d "send-message-topic" with Some t => trim t | None => "" end in
                  Sends (SendWorkflowMessage org targetApp workflowId payload topic)
                    ("Message sent to workflow " +:+ workflowId)
              end)
  end.

(** The button that reads one event: the key, or the message. *)
Definition readWorkflowEvent (org targetApp workflowId : string) (d : dom) : option submitted :=
  match el_value d "event-key-input", el_value d "event-read-result" with
  | Some v, Some _ =>
      let key := trim v in
      Some (if String.eqb key "" then Notice "Enter an event key to read"
            else Sends (GetWorkflowEvent org targetApp workflowId key) "")
  | _, _ => None
  end.

(** ** Reading back what was drawn *)

Lemma digit_no_space a : is_digit a = true → is_space a = false.
Proof.
  unfold is_digit, is_space. intros [H1 H2]%andb_true_iff. zbool.
Qed.

Lemma digits_trim D : sforall is_digit D = true → trim D = D.
Proof.
  intros H. unfold trim.
  assert (trim_start D = D) as ->.
  { destruct D as [|a D]; [done|]. cbn [sforall trim_start] in *.
    apply andb_true_iff in H as [Ha _]. by rewrite digit_no_space. }
  induction D as [|a D IH]; [done|]. cbn [sforall trim_end] in *.
  apply andb_true_iff in H as [Ha H]. rewrite IH by done. rewrite digit_no_space by done.
  by destruct D.
Qed.

Lemma integer_trim n : 0 <= n → trim (string_of_Z n) = string_of_Z n ∧ String.eqb (string_of_Z n) "" = false.
Proof.
  intros Hn. destruct (integer_opens n Hn) as (a & D & E & _). split.
  - apply digits_trim, string_of_Z_decimal, Hn.
  - by rewrite E.
Qed.

Lemma readNum_integer n min :
  0 <= min <= 1 → min <= n < 2 ^ 53 → readNum (string_of_Z n) min = Reads (int_number n).
Proof.
  intros Hm Hn. destruct (integer_trim n) as [Ht He]; [lia|].
  unfold readNum. rewrite Ht, He, number_of_integer, finite_integer by lia. cbn [andb].
  assert (nle (num min) (int_number n) = true) as ->; [|done].
  assert (min = 0 ∨ min = 1) as [->| ->] by lia; [apply zero_le_integer|apply one_le_integer; lia].
Qed.

Lemma readOpt_integer n : 0 <= n < 2 ^ 53 → readOpt (string_of_Z n) = Cap_ n.
Proof.
  intros Hn. destruct (integer_trim n) as [Ht He]; [lia|].
  unfold readOpt. rewrite Ht, He, number_of_integer, floor_integer by lia.
  by rewrite (proj2 (Z.ltb_ge n 0)) by lia.
Qed.

(** Ages and timeouts of a whole number of hours, up to thirty days, survive
    the conversion to hours and back. *)
Definition hour_kept (h : Z) : bool :=
  match readNum (msToHours (JNum (h * 3600000))) 0 with
  | Reads x => match hours_ms x with JNum m => m =? h * 3600000 | _ => false end
  | _ => false
  end.

Definition hour_range : list Z := map Z.of_nat (seq 0 721).

Lemma hours_kept : forallb hour_kept hour_range = true.
Proof. vm_compute. reflexivity. Qed.

Lemma hours_read h :
  0 <= h <= 720 →
  ∃ x, readNum (msToHours (JNum (h * 3600000))) 0 = Reads x ∧ hours_ms x = JNum (h * 3600000).
Proof.
  intros Hh. assert (hour_kept h = true) as H.
  { pose proof hours_kept as H. rewrite forallb_forall in H. apply H.
    apply in_map_iff. exists (Z.to_nat h). split; [lia|]. apply in_seq. lia. }
  unfold hour_kept in H. destruct (readNum _ 0) as [| |x]; try done. exists x. split; [done|].
  destruct (hours_ms x); try done. apply Z.eqb_eq in H. by subst.
Qed.

(** ** The settings form *)

(** A setting that is unset or an integer the screen can show. *)
Definition whole_hours (v : option Z) : Prop :=
  v = None ∨ ∃ h, v = Some (h * 3600000) ∧ 0 <= h <= 720.
Definition showable (v : option Z) : Prop := v = None ∨ ∃ n, v = Some n ∧ 0 <= n < 2 ^ 53.

Lemma rows_field v :
  showable v →
  ∃ r, readNum (opt_text (jopt_num v)) 0 = r ∧ is_bad r = false ∧
       optional "gcRowsThreshold" floor_json r =
       match v with Some n => [("gcRowsThreshold", JNum n)] | None => [] end.
Proof.
  intros [->|(n & -> & Hn)]; eexists; (split; [reflexivity|]); [done|].
  cbn [jopt_num opt_text nullish js_string]. rewrite readNum_integer by lia. split; [done|].
  cbn [optional]. unfold floor_json. by rewrite floor_integer.
Qed.

Lemma hours_field name v :
  whole_hours v →
  ∃ r, readNum (msToHours (jopt_num v)) 0 = r ∧ is_bad r = false ∧
       optional name hours_ms r = match v with Some n => [(name, JNum n)] | None => [] end.
Proof.
  intros [->|(h & -> & Hh)]; eexists; (split; [reflexivity|]); [done|].
  destruct (hours_read h Hh) as (x & E & Hx). cbn [jopt_num]. rewrite E. split; [done|].
  cbn [optional]. by rewrite Hx.
Qed.

(** The request of the unchanged form. *)
Lemma unchanged_request org app c :
  showable (cf_gcRowsThreshold c) → 1 <= cf_executorTimeoutSecs c < 2 ^ 53 →
  whole_hours (cf_gcTimeThresholdMs c) → whole_hours (cf_globalTimeoutMs c) →
  ∃ input,
    submitAppSettings org app (settings_dom (JObj (config_fields c))) =
      Sends (UpdateApp org app input) "Application settings saved" ∧
    apply_settings (sent_value input) c = Some (c, true).
Proof.
  intros Hr He Hg Ho.
  destruct (rows_field _ Hr) as (r1 & E1 & B1 & O1).
  destruct (hours_field "gcTimeThresholdMs" _ Hg) as (r2 & E2 & B2 & O2).
  destruct (hours_field "globalTimeoutMs" _ Ho) as (r3 & E3 & B3 & O3).
  unfold submitAppSettings, settings_dom. cbn [el_value el_checked String.eqb Ascii.eqb Bool.eqb].
  unfold field, config_fields. cbn [jget assoc String.eqb Ascii.eqb Bool.eqb default from_option id].
  rewrite E1, E2, E3.
  assert (readNum (opt_text (JNum (cf_executorTimeoutSecs c))) 1 =
          Reads (int_number (cf_executorTimeoutSecs c))) as -> by (apply readNum_integer; lia).
  cbn [find List.find fst snd]. rewrite B1, B2, B3. cbn [is_bad].
  rewrite O1, O2, O3. cbn [optional]. unfold floor_json. rewrite floor_integer by lia.
  eexists. split; [reflexivity|].
  destruct c as [pm et gr gt gl]. cbn [cf_privateMode cf_executorTimeoutSecs cf_gcRowsThreshold
    cf_gcTimeThresholdMs cf_globalTimeoutMs].
  destruct pm, gr, gt, gl; reflexivity.
Qed.

(** C24: saving the settings screen as it was drawn changes nothing: for any
    settings it can show (numbers below 2^53, ages and timeouts of whole hours
    up to thirty days, or unset) every field passes the checks, and the request
    it makes, applied by the control plane, gives the same settings. *)
Theorem unchanged_settings_saved org app c :
  showable (cf_gcRowsThreshold c) → 1 <= cf_executorTimeoutSecs c < 2 ^ 53 →
  whole_hours (cf_gcTimeThresholdMs c) → whole_hours (cf_globalTimeoutMs c) →
  ∃ input,
    submitAppSettings org app (settings_dom (JObj (config_fields c))) =
      Sends (UpdateApp org app input) "Application settings saved" ∧
    apply_settings (sent_value input) c = Some (c, true).
Proof. apply unchanged_request. Qed.

Definition tuned : appConfig := AppConfig true 90 (Some 1000) (Some (48 * 3600000)) None.

Lemma unchanged_settings_saved_witness :
  ∃ input,
    submitAppSettings "default" "shop" (settings_dom (JObj (config_fields tuned))) =
      Sends (UpdateApp "default" "shop" input) "Application settings saved" ∧
    apply_settings (sent_value input) tuned = Some (tuned, true).
Proof.
  apply (unchanged_settings_saved "default" "shop" tuned).
  - right. exists 1000. split; [reflexivity|lia].
  - cbn. lia.
  - right. exists 48. split; [reflexivity|lia].
  - left. reflexivity.
Defined.

(** Other timeouts drift: sixty-five minutes become a millisecond less each
    time the form is saved. *)
Lemma minutes_drift :
  match readNum (msToHours (JNum 3900000)) 0 with Reads x => hours_ms x | _ => JNull end = JNum 3899999.
Proof. vm_compute. reflexivity. Qed.

(** A field cannot be emptied again: a blank one is left out of the request, so
    the setting stays. *)
Lemma blank_keeps_setting :
  let d := Dom (λ _, Some " ") (λ _, Some false) [] in
  match submitAppSettings "default" "shop" d with
  | Sends (UpdateApp _ _ input) _ =>
      apply_settings (sent_value input) tuned =
      Some (AppConfig false 90 (Some 1000) (Some (48 * 3600000)) None, true)
  | _ => False
  end.
Proof. vm_compute. reflexivity. Qed.

(** ** The autoscaling form *)

Definition showable_cap (c : cap) : Prop := c = NoCap ∨ ∃ n, c = Cap_ n ∧ 0 <= n < 2 ^ 53.

Lemma shown_caps queue c1 c2 :
  let rollout := rollout_of (policy_value queue c1 c2) in
  field rollout "maxOldApplicationVersions" =
    match c1 with Cap_ n => JNum n | _ => JUndef end ∧
  field rollout "maxExecutorsForOldApplicationVersions" =
    match c2 with Cap_ n => JNum n | _ => JUndef end.
Proof. destruct c1, c2; split; reflexivity. Qed.

Lemma cap_read c :
  showable_cap c → readOpt (opt_text (match c with Cap_ n => JNum n | _ => JUndef end)) = c.
Proof.
  intros [->|(n & -> & Hn)]; [reflexivity|]. cbn [opt_text nullish js_string].
  by apply readOpt_integer.
Qed.

Lemma selected_present queue c1 c2 queueList :
  (∃ x, x ∈ queueList ∧ field x "name" = JStr queue) →
  selected_queue (policy_value queue c1 c2) queueList = queue.
Proof.
  intros (x & Hx & Hn). unfold selected_queue.
  set (l := keep _ queueList).
  assert (∀ y, y ∈ List.rev l → field y "name" = JStr queue) as Hl.
  { intros y Hy. apply list_elem_of_In, in_rev, list_elem_of_In in Hy.
    apply keep_elem in Hy as [Hk _]. apply andb_true_iff in Hk as [_ Hk].
    apply key_eqb_eq in Hk. exact (eq_sym Hk). }
  assert (x ∈ List.rev l) as Hin.
  { apply list_elem_of_In. rewrite <- in_rev. apply list_elem_of_In, keep_elem. split; [|done].
    rewrite Hn. by apply String.eqb_refl. }
  destruct (List.rev l) as [|y r]; [by apply not_elem_of_nil in Hin|].
  rewrite (Hl y) by left. reflexivity.
Qed.

(** Saving the autoscaling screen as it was drawn sends the policy it shows,
    whether or not its rollout caps are set, zero included, as long as its
    queue is still listed. *)
Theorem unchanged_policy_saved org app queue c1 c2 queueList :
  queue ≠ "" → (∃ x, x ∈ queueList ∧ field x "name" = JStr queue) →
  showable_cap c1 → showable_cap c2 →
  submitAutoscalingPolicy org app (autoscaling_dom (policy_value queue c1 c2) queueList) =
  Sends (SetAutoscalingPolicy org app (policy_value queue c1 c2)) "Autoscaling policy saved".
Proof.
  intros Hq Hx H1 H2. unfold submitAutoscalingPolicy, autoscaling_dom.
  cbn [el_value String.eqb Ascii.eqb Bool.eqb]. rewrite selected_present by done.
  rewrite (proj2 (String.eqb_neq _ _) Hq).
  destruct (shown_caps queue c1 c2) as [-> ->]. rewrite !cap_read by done.
  destruct H1 as [->|(n & -> & _)], H2 as [->|(m & -> & _)]; reflexivity.
Qed.

Lemma unchanged_policy_saved_witness :
  submitAutoscalingPolicy "default" "shop"
    (autoscaling_dom (policy_value "orders" (Cap_ 0) NoCap) [JObj [("name", JStr "orders")]]) =
  Sends (SetAutoscalingPolicy "default" "shop" (policy_value "orders" (Cap_ 0) NoCap))
    "Autoscaling policy saved".
Proof.
  apply unchanged_policy_saved; [discriminate| | |by left].
  - exists (JObj [("name", JStr "orders")]). split; [by left|reflexivity].
  - right. exists 0. split; [reflexivity|lia].
Defined.

(** ** The role form *)

Lemma trim_start_fix s : trim_start (trim_start s) = trim_start s.
Proof.
  induction s as [|a s IH]; [done|]. cbn [trim_start]. destruct (is_space a) eqn:E; [done|].
  cbn [trim_start]. by rewrite E.
Qed.

Lemma trim_end_fix s : trim_end (trim_end s) = trim_end s.
Proof.
  induction s as [|a s IH]; [done|]. cbn [trim_end]. destruct (trim_end s) as [|b t] eqn:E.
  - destruct (is_space a) eqn:Ea; [done|]. cbn [trim_end]. by rewrite Ea.
  - cbn [trim_end] in *. by rewrite IH.
Qed.

Lemma trim_end_start s : trim_start s = s → trim_start (trim_end s) = trim_end s.
Proof.
  destruct s as [|a s]; [done|]. cbn [trim_start trim_end]. destruct (is_space a) eqn:Ea.
  - intros E. assert (String.length (trim_start s) <= String.length s)%nat as H.
    { clear. induction s as [|b s IH]; [done|]. cbn. destruct (is_space b); cbn; lia. }
    rewrite E in H. cbn in H. lia.
  - intros _. destruct (trim_end s); cbn [trim_start]; by rewrite Ea.
Qed.

Lemma trim_fix s : trim (trim s) = trim s.
Proof.
  unfold trim. rewrite trim_end_start by apply trim_start_fix. apply trim_end_fix.
Qed.

Definition refused_with (message : string) (o : outcome) : Prop :=
  o = problem 400 "Bad Request" message.

(** The console's form and the control plane agree on the names of roles:
    the form sends exactly the names the control plane would not refuse for
    their length, with its message, and the name that is sent is the one that
    was typed without the space around it. *)
Theorem role_form_agrees e s org d text :
  el_value d "new-role-name" = Some text →
  let served := snd (post_role e s (JObj [("name", JStr text); ("permissions", json_strings (checked_boxes d))])) in
  (∃ m, submitCreateRole org d = Notice m ∧ refused_with m served) ∨
  (submitCreateRole org d =
     Sends (CreateRole org (trim text) (checked_boxes d)) (tpl [T "Role `"; H (trim text); T "` created"]) ∧
   ¬ refused_with "Role name must be between 3 and 30 characters" served ∧
   snd (post_role e s (JObj [("name", JStr (trim text));
                             ("permissions", json_strings (checked_boxes d))])) = served).
Proof.
  intros Ht served. unfold submitCreateRole. rewrite Ht.
  assert (∀ t, read_role_name (JObj [("name", JStr t);
    ("permissions", json_strings (checked_boxes d))]) = Some (trim t)) as Hn.
  { intros t. unfold read_role_name, jor. cbn [jget assoc String.eqb Ascii.eqb Bool.eqb default from_option id].
    destruct t; reflexivity. }
  unfold served, post_role. rewrite !Hn, trim_fix.
  destruct ((String.length (trim text) <? 3)%nat || (30 <? String.length (trim text))%nat).
  - left. eexists. split; reflexivity.
  - right. split_and!; [reflexivity| |reflexivity].
    unfold refused_with. destruct (some _ (s_roles s)); discriminate.
Qed.

Definition named_role : dom := Dom (λ id, if String.eqb id "new-role-name" then Some " ops team " else None) (λ _, None) ["token.read"].

Lemma role_form_agrees_witness :
  let asked name := snd (post_role sample_env (initial_state "t")
    (JObj [("name", JStr name); ("permissions", json_strings ["token.read"])])) in
  submitCreateRole "default" named_role =
    Sends (CreateRole "default" "ops team" ["token.read"]) (tpl [T "Role `ops team` created"]) ∧
  asked "ops team" = asked " ops team ".
Proof.
  destruct (role_form_agrees sample_env (initial_state "t") "default" named_role " ops team " eq_refl)
    as [(m & H & _)|(H & _ & E)].
  - discriminate H.
  - split; [exact H|exact E].
Defined.

(** ** Only valid settings are sent *)

Definition valid_setting (v : jval) : Prop :=
  (∃ b, v = JBool b) ∨ v = JNull ∨ ∃ n, v = JNum n ∧ 0 <= n.

Lemma floor_valid x : nonneg x = true → valid_setting (floor_json x).
Proof.
  intros Hx. unfold floor_json. destruct (nfloor x) as [n|] eqn:E; [|by right; left].
  right; right. exists n. split; [done|]. by eapply nfloor_nonneg.
Qed.

Lemma readNum_nonneg raw min x : 0 <= min <= 1 → readNum raw min = Reads x → nonneg x = true.
Proof.
  intros Hm. unfold readNum. destruct (String.eqb (trim raw) ""); [done|].
  destruct (is_finite _) eqn:Hf; [|done]. destruct (nle _ _) eqn:Hn; [|done]. intros [= <-].
  assert (min = 0 ∨ min = 1) as [->| ->] by lia; [by apply zero_le_nonneg|].
  revert Hn. by destruct (number_of_text (trim raw)) as [s|[]| |[]].
Qed.

Lemma optional_valid name f r k v :
  (∀ x, r = Reads x → valid_setting (f x)) → (k, v) ∈ optional name f r → valid_setting v.
Proof.
  intros Hf. destruct r as [| |x]; cbn [optional]; try by intros H%not_elem_of_nil.
  intros [= _ ->]%list_elem_of_singleton. by apply Hf.
Qed.


Definition typed_settings : dom := Dom
  (λ id, Some (if String.eqb id "set-gc-hours" then "1.5" else " 7.9 ")) (λ _, Some true) [].


(** The first invalid field is named, and nothing is sent. *)
Lemma invalid_field_named :
  submitAppSettings "default" "shop"
    (Dom (λ id, Some (if String.eqb id "set-exec-timeout" then "0.5" else "")) (λ _, Some true) []) =
  Notice "Invalid executor timeout: enter a number at least 1 or blank".
Proof. vm_compute. reflexivity. Qed.

(** An age too large to be a number of milliseconds unsets the setting. *)
Lemma huge_age_unset :
  match submitAppSettings "default" "shop"
    (Dom (λ id, Some (if String.eqb id "set-gc-hours" then "1e303" else "")) (λ _, Some true) []) with
  | Sends (UpdateApp _ _ input) _ =>
      option_map (λ r, cf_gcTimeThresholdMs (fst r)) (apply_settings (sent_value input) tuned) = Some None
  | _ => False
  end.
Proof. vm_compute. reflexivity. Qed.
