(* ===== verification/ConsoleAudit.v ===== *)
(** The audit log screen (app.js): its filters, the query they make, the page of
    entries it draws and the way through the log with its two buttons, over the
    client and the control plane of the playground.

    A time typed into the form is local time: its conversion is a parameter. *)

From Stdlib Require Import ZArith Lia Ascii String.
From stdpp Require Import base list strings gmap.
From S2P Require Import Prelude Html Json JsonSpec JsDate JsNumber Uri.
From S2P Require Import BridgeState BridgeRoutes BridgeSpec ApiTypes ApiClient ClientServe ClientSpec ClientTypes.
From S2P Require Import ConsoleWidgets.
Import ApiClient.Client.

Record auditFilters := AuditFilters {
  af_operation : string; af_subject : string; af_target : string;
  af_startTime : string; af_endTime : string; af_limit : Z; af_offset : Z }.

(** The buttons Prev and Next are disabled. *)
Definition prev_disabled (f : auditFilters) : bool := af_offset f =? 0.
Definition next_disabled (f : auditFilters) (rows : list jval) : bool :=
  Z.of_nat (length rows) <? af_limit f.

Section AuditScreen.
(** [new Date(v).getTime()] of a time of the form, [None] when it is not a date;
    and the browser's rendering of a date. *)
Context (local_ms : string → option Z) (locale : jval → string).
Notation formatTimestamp := (ConsoleWidgets.formatTimestamp locale).

(** [new Date(v).toISOString()] of a filter that is set: it throws for what is
    not a date. *)
Definition time_filter (v : string) : option string :=
  if String.eqb v "" then Some "" else to_iso <$> local_ms v.

(** The query of the request; [None] when building it throws. *)
Definition audit_query (f : auditFilters) : option AuditLogQuery :=
  match time_filter (af_startTime f), time_filter (af_endTime f) with
  | Some t1, Some t2 =>
      Some (AuditQuery t1 t2 (af_operation f) (af_subject f) (af_target f)
              (Some (af_limit f)) (Some (af_offset f)))
  | _, _ => None
  end.

Definition renderAuditScreen (orgName : string) (f : auditFilters) (rows : list jval) : string :=
  tpl [T "
        <div class=`toolbar`>
          <div class=`filter-group`>
            <input type=`text` id=`audit-operation` class=`input-text` placeholder=`Operation (e.g. workflow.cancel)` aria-label=`Filter by operation` value=`";
      H (escapeHtml (af_operation f));
      T "` style=`width:220px;`>
            <input type=`text` id=`audit-subject` class=`input-text` placeholder=`Subject` aria-label=`Filter by subject` value=`";
      H (escapeHtml (af_subject f));
      T "` style=`width:160px;`>
            <input type=`text` id=`audit-target` class=`input-text` placeholder=`Target` aria-label=`Filter by target` value=`";
      H (escapeHtml (af_target f));
      T "` style=`width:160px;`>
            <input type=`datetime-local` id=`audit-start` class=`input-text` aria-label=`Filter by start time` value=`";
      H (escapeHtml (af_startTime f));
      T "` style=`width:170px;`>
            <input type=`datetime-local` id=`audit-end` class=`input-text` aria-label=`Filter by end time` value=`";
      H (escapeHtml (af_endTime f));
      T "` style=`width:170px;`>
          </div>
          <div class=`filter-group`>
            <button class=`btn btn-sm btn-primary` data-action=`applyAuditFilters`>Apply Filters</button>
            <button class=`btn btn-sm btn-secondary` data-action=`clearAuditFilters`>Clear</button>
          </div>
        </div>

        <div class=`card`>
          <div class=`card-header`>
            <div><span class=`card-title`>Audit Log</span>
            <span class=`card-note`>";
      H (escapeHtml orgName);
      T " &middot; newest first</span></div>
            <div>
              <button class=`btn btn-xs btn-secondary` data-action=`auditPrevPage` ";
      H (if prev_disabled f then "disabled" else "");
      T ">Prev</button>
              <button class=`btn btn-xs btn-secondary` data-action=`auditNextPage` ";
      H (if next_disabled f rows then "disabled" else "");
      T ">Next</button>
            </div>
          </div>
          <div class=`table-container`>
            <table class=`data-table audit-table`>
              <thead>
                <tr>
                  <th>Time</th>
                  <th>Operation</th>
                  <th>Status</th>
                  <th>Subject</th>
                  <th>Target</th>
                  <th>Source IP</th>
                </tr>
              </thead>
              <tbody>
                ";
      H (if 0 <? (Z.of_nat (length rows)) then map_join (λ e, tpl [T "
                  <tr>
                    <td>";
      H (formatTimestamp (field e "emitTime"));
      T "</td>
                    <td><code>";
      H (esc (field e "operation"));
      T "</code></td>
                    <td>";
      H (if is_str (field e "status") "success" then tpl [T "<span class=`badge badge-success`>success</span>"] else tpl [T "<span class=`badge badge-danger`>failure</span>"]);
      T "</td>
                    <td>";
      H (esc (if truthy (field e "subject") then field (field e "subject") "display" else JStr ""));
      T " <span class=`text-secondary` style=`font-size:11px;`>(";
      H (esc (if truthy (field e "subject") then field (field e "subject") "type" else JStr ""));
      T ")</span></td>
                    <td>";
      H (if truthy (field e "target") then tpl [T "<code>";
      H (esc (field (field e "target") "id"));
      T "</code> <span class=`text-secondary` style=`font-size:11px;`>(";
      H (esc (field (field e "target") "type"));
      T ")</span>"] else "-");
      T "</td>
                    <td><code>";
      H (esc (jor (field e "sourceIp") (JStr "")));
      T "</code></td>
                  </tr>
                "]) rows else tpl [T "<tr><td colspan=`6` style=`text-align:center; color:var(--faint); padding:24px;`>No audit entries match.</td></tr>"]);
      T "
              </tbody>
            </table>
          </div>
        </div>
      "].

(** ** The filters *)

Definition clearAuditFilters : auditFilters := AuditFilters "" "" "" "" "" 100 0.

(** The fields of the form by their identifiers. *)
Definition applyAuditFilters (form : string → option string) (f : auditFilters) : auditFilters :=
  let val id := match form id with Some v => trim v | None => "" end in
  AuditFilters (val "audit-operation") (val "audit-subject") (val "audit-target")
    (val "audit-start") (val "audit-end") (af_limit f) 0.

Definition at_offset (n : Z) (f : auditFilters) : auditFilters :=
  AuditFilters (af_operation f) (af_subject f) (af_target f) (af_startTime f) (af_endTime f)
    (af_limit f) n.

Definition auditPrevPage (f : auditFilters) : auditFilters :=
  at_offset (Z.max 0 (af_offset f - af_limit f)) f.
Definition auditNextPage (f : auditFilters) : auditFilters :=
  at_offset (af_offset f + af_limit f) f.

End AuditScreen.

(** ** Walking through the log *)

Section Walk.
Context (local_ms : string → option Z) (db : option (string → list jval → option (list jval))).
Context (e : env) (network : option http) (k : option string) (org : string) (s : state).

(** [const rows = entries || []] of the page the filters ask for. *)
Definition audit_rows (f : auditFilters) : list jval :=
  match audit_query local_ms f with
  | None => []
  | Some query =>
      match snd (exchange db e network k s (ListAuditLogs org query)) with
      | Got (JArr rows) => rows
      | _ => []
      end
  end.

(** The pages shown from [f] on, pressing Next until it is disabled. *)
Fixpoint pages (fuel : nat) (f : auditFilters) : list (list jval) :=
  match fuel with
  | O => []
  | S n =>
      let rows := audit_rows f in
      rows :: if next_disabled f rows then [] else pages n (auditNextPage f)
  end.

(** The entries of the log that match the filters, newest first, as the client
    gets them. *)
Definition matching (query : AuditLogQuery) : list jval :=
  map (λ a, clean (audit_json a))
    (js_sort audit_order
      (keep (audit_matches (BridgeRoutes.AuditQuery (a_operation query) (a_subject query)
               (a_target query) (a_startTime query) (a_endTime query) 0 0)) (s_auditLog s))).

Definition query_at (n : Z) (query : AuditLogQuery) : AuditLogQuery :=
  AuditQuery (a_startTime query) (a_endTime query) (a_operation query) (a_subject query)
    (a_target query) (a_limit query) (Some n).

Lemma audit_query_at n f query :
  audit_query local_ms f = Some query → audit_query local_ms (at_offset n f) = Some (query_at n query).
Proof.
  unfold audit_query, at_offset. cbn [af_startTime af_endTime af_operation af_subject af_target af_limit af_offset].
  destruct (time_filter local_ms (af_startTime f)), (time_filter local_ms (af_endTime f)); try done.
  by intros [= <-].
Qed.

Context (Hused : used s).

Lemma page_rows f query n :
  audit_query local_ms f = Some query → addressable (ListAuditLogs org query) = true →
  1 <= af_limit f <= 1000 → 0 <= n →
  audit_rows (at_offset n f) =
  take (Z.to_nat (af_limit f)) (drop (Z.to_nat n) (matching query)).
Proof.
  intros Hq Ha Hl Hn. unfold audit_rows. rewrite (audit_query_at n f query Hq).
  assert (a_limit query = Some (af_limit f)) as Hlim.
  { unfold audit_query in Hq. destruct (time_filter local_ms (af_startTime f)), (time_filter local_ms (af_endTime f)); try done.
    by injection Hq as <-. }
  assert (addressable (ListAuditLogs org (query_at n query)) = true) as Ha'.
  { revert Ha. apply addressable_same; reflexivity. }
  rewrite exchange_serve by done. cbn [serve snd]. unfold audit_query_of, query_at.
  cbn [a_limit a_offset a_operation a_subject a_target a_startTime a_endTime default from_option id].
  rewrite Hlim. cbn [default from_option id].
  rewrite (proj2 (Z.ltb_ge _ 0)), (proj2 (Z.ltb_ge n 0)), (proj2 (Z.ltb_ge 1000 _)) by lia.
  rewrite (proj2 (Z.eqb_neq _ 0)) by lia. cbn [orb list_audit].
  set (l := audit_page _ _).
  assert (matching query = map (λ a, clean (audit_json a)) (js_sort audit_order
    (keep (audit_matches (BridgeRoutes.AuditQuery (a_operation query) (a_subject query)
       (a_target query) (a_startTime query) (a_endTime query) (af_limit f) n)) (s_auditLog s)))) as ->
    by reflexivity.
  assert (Forall typed_audit l) as Hl'.
  { apply Forall_forall. intros a Hin. apply list_slice_elem, js_sort_elem, keep_elem in Hin as [_ Hin].
    pose proof (ty_audit s (used_typed s Hused)) as H. rewrite Forall_forall in H. by apply H. }
  rewrite got_json; [|reflexivity|lia|lia| |reflexivity].
  - cbn [clean]. rewrite map_map. unfold l, audit_page, list_slice.
    cbn [aq_offset aq_limit]. rewrite skipn_map, firstn_map.
    replace (Z.to_nat (n + af_limit f) - Z.to_nat n)%nat with (Z.to_nat (af_limit f)) by lia.
    by apply map_ext.
  - cbn [proper_value]. apply forallb_forall. intros v Hv.
    apply in_map_iff in Hv as (a & <- & Hin). apply list_elem_of_In in Hin.
    rewrite Forall_forall in Hl'. by apply Hl'.
Qed.
(** Some fuel is always enough: one more than the number of entries left. *)
Lemma pages_from f query fuel n :
  audit_query local_ms f = Some query → addressable (ListAuditLogs org query) = true →
  1 <= af_limit f <= 1000 → 0 <= n →
  (length (drop (Z.to_nat n) (matching query)) < fuel)%nat →
  concat (pages fuel (at_offset n f)) = drop (Z.to_nat n) (matching query) ∧
  ∃ full last, pages fuel (at_offset n f) = full ++ [last] ∧
    Forall (λ rows, Z.of_nat (length rows) = af_limit f) full ∧
    Z.of_nat (length last) < af_limit f.
Proof.
  intros Hq Ha Hl. revert n. induction fuel as [|fuel IH]; intros n Hn Hf; [lia|].
  cbn [pages]. rewrite (page_rows f query n) by done.
  set (m := Z.to_nat (af_limit f)). set (l := drop (Z.to_nat n) (matching query)) in *.
  unfold next_disabled. cbn [at_offset af_limit]. rewrite length_take.
  destruct (Z.ltb_spec (Z.of_nat (m `min` length l)) (af_limit f)) as [Hs|Hs].
  - assert (take m l = l) as -> by (apply take_ge; lia). split.
    + cbn [concat]. apply app_nil_r.
    + exists [], l. repeat split; [constructor|lia].
  - assert (drop (Z.to_nat (n + af_limit f)) (matching query) = drop m l) as Ed.
    { unfold l, m. rewrite drop_drop. f_equal. lia. }
    destruct (IH (n + af_limit f)) as (Hc & full & last & Hp & Hfull & Hlast).
    + lia.
    + rewrite Ed, length_drop. lia.
    + change (auditNextPage (at_offset n f)) with (at_offset (n + af_limit f) f).
      rewrite Ed in Hc. split.
      * cbn [concat]. rewrite Hc. apply take_drop.
      * rewrite Hp. exists (take m l :: full), last. split; [done|]. split; [|done].
        constructor; [rewrite length_take; lia|done].
Qed.
End Walk.

(** C23: the Next button walks through the whole audit log: starting from the
    first page, the pages shown until the button is disabled hold, together,
    exactly the entries that match the filters, each once and newest first;
    every page but the last is full.  One press per entry is always enough to
    get there. *)
Theorem next_walks_the_log local_ms db e network k org s f query :
  used s → audit_query local_ms f = Some query →
  addressable (ListAuditLogs org query) = true → 1 <= af_limit f <= 1000 →
  let shown := pages local_ms db e network k org s (S (length (matching s query))) (at_offset 0 f) in
  concat shown = matching s query ∧
  ∃ full last, shown = full ++ [last] ∧
    Forall (λ rows, Z.of_nat (length rows) = af_limit f) full ∧
    Z.of_nat (length last) < af_limit f.
Proof.
  intros Hu Hq Ha Hl.
  destruct (pages_from local_ms db e network k org s Hu f query (S (length (matching s query))) 0)
    as [Hc Hp]; try done.
  change (Z.to_nat 0) with 0%nat. rewrite drop_0. lia.
Qed.

(** The seeded log, two entries at a time. *)
Definition two_by_two : auditFilters := AuditFilters "" "" "" "" "" 2 0.

Lemma next_walks_the_log_witness :
  ∃ query, audit_query date_ms two_by_two = Some query ∧
    concat (pages date_ms no_db sample_env None None "default" (initial_state "t")
              (S (length (matching (initial_state "t") query))) (at_offset 0 two_by_two)) =
    matching (initial_state "t") query ∧
    length (matching (initial_state "t") query) ≠ 0%nat.
Proof.
  eexists. split; [reflexivity|]. split; [|by vm_compute].
  exact (proj1 (next_walks_the_log date_ms no_db sample_env None None "default" (initial_state "t")
    two_by_two _ (used_start "t") eq_refl ltac:(vm_compute; reflexivity) ltac:(cbn; lia))).
Defined.

(** Prev undoes Next. *)
Lemma prev_undoes_next f : 0 <= af_offset f → 0 <= af_limit f → auditPrevPage (auditNextPage f) = f.
Proof.
  intros Ho Hl. destruct f as [a b c d e l o]. unfold auditPrevPage, auditNextPage, at_offset.
  cbn [af_operation af_subject af_target af_startTime af_endTime af_limit af_offset] in *.
  f_equal. lia.
Qed.

(** A log of exactly full pages ends with an empty one, which says that no
    entry matches. *)
Lemma last_page_empty :
  map (λ l, length l)
    (pages date_ms no_db sample_env None None "default" (initial_state "t") 9
       (AuditFilters "" "" "" "" "" 1 0)) =
  repeat 1%nat (length (s_auditLog (initial_state "t"))) ++ [0%nat].
Proof. vm_compute. reflexivity. Qed.
