(* ===== verification/ConsoleLists.v ===== *)
(** The list screens of the console (app.js): the workflows, queues, schedules
    and alert rules of one application or of all of them, the API keys, the
    roles and members; how their rows are gathered from the answers, what is
    drawn, and the buttons the drawn page offers.

    [request] gives what awaiting a call of the client ends with.  Identifiers
    and names are texts; the browser's rendering of a date is a parameter. *)

From Stdlib Require Import ZArith Lia Ascii String.
From stdpp Require Import base list strings gmap.
From S2P Require Import Prelude Html HtmlScan Json JsonSpec JsDate JsNumber Uri.
From S2P Require Import WorkflowDag ApiClient ClientServe ConsoleView ConsoleState ConsoleWidgets.
Import Client.

(** ** Rows *)

(** [{ ...w, appName: name }]; a row that is not an object has none of the
    fields the screens read. *)
Definition tagged (name w : jval) : jval :=
  match w with
  | JObj fields => JObj (put "appName" name fields)
  | _ => JObj [("appName", name)]
  end.

(** What is left of an awaited call that fails: the error of the answer, or an
    exception of the browser, which has its own text. *)
Definition failure (a : Client.answer) : option err :=
  match a with Refused e => Some e | _ => None end.

(** The rows of an answer, with [|| []] or without: [.map] throws on what is
    not an array. *)
Definition rows_of (or_empty : bool) (a : Client.answer) : option err + list jval :=
  match a with
  | Got (JArr l) => inr l
  | Got v => if or_empty && negb (truthy v) then inr [] else inl None
  | _ => inl (failure a)
  end.

(** [new Date(v).getTime()]; [null] is the time 0. *)
Definition created (w : jval) : option Z :=
  match field w "createdAt" with JNull => Some 0 | v => time_of v end.

(** [(a, b) => new Date(b.createdAt) - new Date(a.createdAt)]: [NaN] counts as 0. *)
Definition newest (a b : jval) : Z :=
  match created b, created a with Some y, Some x => y - x | _, _ => 0 end.

Definition js_length (v : jval) : Z :=
  match v with
  | JArr l => Z.of_nat (length l)
  | JStr s => Z.of_nat (String.length s)
  | _ => 0
  end.

(** [v.join(sep)] of an array. *)
Definition join_values (sep : string) (v : jval) : string :=
  match v with
  | JArr l => join sep (map (λ x, if nullish x then "" else js_string x) l)
  | _ => ""
  end.

Definition is_null (v : jval) : bool := match v with JNull => true | _ => false end.

(** [v.join] exists, or is not reached because [v] is falsy. *)
Definition joinable (v : jval) : bool := match v with JArr _ => true | _ => negb (truthy v) end.

(** What a screen ends with: its page, the error of an answer, or an exception
    of the browser. *)
Inductive screen := Drawn (html : string) | Fails (e : option err).

(** The content of the screen: its page, or the card of its [catch]. *)
Definition screen_html (h : shell) (route : string) (s : screen) : option string :=
  match s with
  | Drawn html => Some html
  | Fails (Some e) => card_html h route (failed_card route h e)
  | Fails None => None
  end.

Section Gather.
Context (request : operation → Client.answer).

(** One application, or all of them; an application that fails has no rows. *)
Definition app_rows (op : string → operation) (or_empty : bool) (app : jval) : list jval :=
  match rows_of or_empty (request (op (js_string (field app "name")))) with
  | inr l => map (tagged (field app "name")) l
  | inl _ => []
  end.

Definition gather (op : string → operation) (or_empty : bool) (appName : string) (apps : list jval)
    : option err + list jval :=
  if String.eqb appName "" then inr (concat (map (app_rows op or_empty) apps))
  else match rows_of or_empty (request (op appName)) with
       | inr l => inr (map (tagged (JStr appName)) l)
       | inl e => inl e
       end.

(** The query [{ limit: n }]. *)
Definition limited (n : Z) : WorkflowSearchQuery :=
  Search [] [] [] [] [] [] [] "" "" (Some n) None None.

(** The rows of the workflows screen: those of all applications are sorted. *)
Definition workflow_rows (org appName : string) (apps : list jval) : option err + list jval :=
  match gather (λ app, ListWorkflows org app (limited 50)) false appName apps with
  | inr l => inr (if String.eqb appName "" then js_sort newest l else l)
  | inl e => inl e
  end.

(** [workflowAppMap.set(w.workflowId, w.appName)] of the rows that have one. *)
Definition record_apps (rows : list jval) (m : gmap string string) : gmap string string :=
  foldl (λ m w, if truthy (field w "appName")
                then <[js_string (field w "workflowId") := js_string (field w "appName")]> m else m) m rows.
End Gather.

(** ** The filters of the workflows table *)

(** The text of a row of the page and whether it is displayed. *)
Record table_row := Row { r_text : string; r_shown : bool }.

Definition filterWorkflowsTable (query : string) (rows : list table_row) : list table_row :=
  let query := to_lower query in
  map (λ r, Row (r_text r) (includes (to_lower (r_text r)) query)) rows.

Definition filterWorkflowsStatus (status : string) (rows : list table_row) : list table_row :=
  map (λ r, Row (r_text r)
        (if String.eqb status "" then true else includes (to_upper (r_text r)) status)) rows.

(** ** The pages *)

Section Pages.
Context (locale : jval → string) (now : Z).
Notation formatTimestamp := (ConsoleWidgets.formatTimestamp locale).
Notation calculateDuration := (ConsoleWidgets.calculateDuration now).

Definition workflow_row (wf : jval) : string :=
  tpl [T "
                  <tr class=`clickable` tabindex=`0` role=`button` aria-label=`View workflow ";
      H (esc (field wf "workflowId"));
      T "` data-navigate='workflow/";
      H (encodeURIComponent (js_string (field wf "workflowId")));
      T "' data-wf-app=`";
      H (esc (jor (field wf "appName") (JStr "")));
      T "`>
                    <td><code>";
      H (esc (field wf "workflowId"));
      T "</code></td>
                    <td><span class=`badge badge-info`>";
      H (esc (jor (field wf "appName") (JStr "default")));
      T "</span></td>
                    <td>";
      H (renderStatusPill (field wf "status"));
      T "</td>
                    <td><strong>";
      H (esc (jor (field wf "workflowName") (JStr "unnamed")));
      T "</strong></td>
                    <td>";
      H (esc (jor (field wf "queueName") (JStr "default")));
      T "</td>
                    <td>";
      H (esc (jor (field wf "appVersion") (JStr "-")));
      T "</td>
                    <td>";
      H (formatTimestamp (field wf "createdAt"));
      T "</td>
                    <td>";
      H (calculateDuration (field wf "createdAt") (field wf "completedAt") (field wf "status") (jor (field wf "durationMs") (field wf "duration_ms")));
      T "</td>
                  </tr>
                "].

Definition queue_row (q : jval) : string :=
  tpl [T "
                  <tr>
                    <td><strong>";
      H (esc (field q "name"));
      T "</strong></td>
                    <td><span class=`badge badge-info`>";
      H (esc (jor (field q "appName") (JStr "default")));
      T "</span></td>
                    <td>";
      H (js_string (if negb (is_null (field q "concurrency")) then field q "concurrency" else JStr "Unlimited"));
      T "</td>
                    <td>";
      H (js_string (if negb (is_null (field q "workerConcurrency")) then field q "workerConcurrency" else JStr "-"));
      T "</td>
                    <td>";
      H (if truthy (field q "rateLimitMax") then tpl [H (js_string (field q "rateLimitMax"));
      T " / ";
      H (js_string (field q "rateLimitPeriodSecs"));
      T "s"] else "None");
      T "</td>
                    <td>";
      H (if truthy (field q "priorityEnabled") then "Yes" else "No");
      T "</td>
                    <td>";
      H (if truthy (field q "partitionQueue") then "Yes" else "No");
      T "</td>
                  </tr>
                "].

Definition schedule_row (s : jval) : string :=
  tpl [T "
                  <tr>
                    <td><strong>";
      H (esc (field s "scheduleName"));
      T "</strong></td>
                    <td><span class=`badge badge-info`>";
      H (esc (jor (field s "appName") (JStr "default")));
      T "</span></td>
                    <td>";
      H (esc (field s "workflowName"));
      T "</td>
                    <td><code>";
      H (esc (field s "cronExpression"));
      T "</code></td>
                    <td>";
      H (renderStatusPill (field s "status"));
      T "</td>
                    <td>";
      H (formatTimestamp (field s "lastFiredAt"));
      T "</td>
                    <td>
                      <div style=`display:flex; gap:4px;`>
                        ";
      H (if is_str (field s "status") "ACTIVE" then tpl [T "
                          <button class=`btn btn-xs btn-secondary` data-pause-schedule='";
      H (esc (field s "scheduleName"));
      T "' data-schedule-app='";
      H (esc (jor (field s "appName") (JStr "")));
      T "'>Pause</button>
                        "] else tpl [T "
                          <button class=`btn btn-xs btn-secondary` data-resume-schedule='";
      H (esc (field s "scheduleName"));
      T "' data-schedule-app='";
      H (esc (jor (field s "appName") (JStr "")));
      T "'>Resume</button>
                        "]);
      T "
                        <button class=`btn btn-xs btn-primary` data-trigger-schedule='";
      H (esc (field s "scheduleName"));
      T "' data-schedule-app='";
      H (esc (jor (field s "appName") (JStr "")));
      T "'>Trigger Now</button>
                      </div>
                    </td>
                  </tr>
                "].

Definition alert_row (r : jval) : string :=
  tpl [T "
                  <tr>
                    <td><code>";
      H (esc (field r "id"));
      T "</code></td>
                    <td><span class=`badge badge-info`>";
      H (esc (jor (field r "appName") (JStr "default")));
      T "</span></td>
                    <td><strong>";
      H (esc (field r "ruleType"));
      T "</strong></td>
                    <td>";
      H (js_string (jor (field r "minIntervalSecs") (JNum 0)));
      T "s</td>
                    <td><code>";
      H (escapeHtml (default "undefined" (stringify (jor (field r "ruleMetadata") (JObj [])))));
      T "</code></td>
                    <td>";
      H (formatTimestamp (field r "lastFiredAt"));
      T "</td>
                    <td>
                      <button class=`btn btn-xs btn-danger` data-delete-rule='";
      H (esc (field r "id"));
      T "' data-rule-app='";
      H (esc (jor (field r "appName") (JStr "")));
      T "'>Delete</button>
                    </td>
                  </tr>
                "].

Definition key_row (k : jval) : string :=
  tpl [T "
                  <tr>
                    <td><strong>";
      H (esc (field k "tokenName"));
      T "</strong></td>
                    <td><code>";
      H (escapeHtml (if truthy (field k "permissions") then join_values ", " (field k "permissions") else ""));
      T "</code></td>
                    <td>";
      H (if (truthy (field k "appIds")) && (0 <? (js_length (field k "appIds"))) then escapeHtml (join_values ", " (field k "appIds")) else "All Applications");
      T "</td>
                    <td>";
      H (formatTimestamp (field k "createdAt"));
      T "</td>
                    <td>
                      <button class=`btn btn-xs btn-danger` data-revoke-key='";
      H (esc (field k "tokenName"));
      T "'>Revoke</button>
                    </td>
                  </tr>
                "].

Definition role_row (r : jval) : string :=
  tpl [T "
                  <tr>
                    <td><strong>";
      H (esc (field r "name"));
      T "</strong></td>
                    <td>";
      H (if truthy (field r "isGlobal") then tpl [T "<span class=`badge badge-neutral`>built-in</span>"] else tpl [T "<span class=`badge badge-info`>custom</span>"]);
      T "</td>
                    <td><code>";
      H (escapeHtml (join_values ", " (jor (field r "permissions") (JArr []))));
      T "</code></td>
                    <td>";
      H (if truthy (field r "isGlobal") then tpl [T "<span class=`text-secondary` style=`font-size:11px;`>cannot delete</span>"] else tpl [T "<button class=`btn btn-xs btn-danger` data-delete-role='";
      H (esc (field r "name"));
      T "'>Delete</button>"]);
      T "</td>
                  </tr>"].

Definition role_option (role : jval) (r : jval) : string :=
  tpl [T "<option value=`";
      H (esc (field r "name"));
      T "`";
      H (if (truthy role) && (key_eqb (field role "name") (field r "name")) then " selected" else "");
      T ">";
      H (esc (field r "name"));
      T "</option>"].

Definition member_row (roleList : list jval) (kv : string * jval) : string :=
  tpl [T "
                  <tr>
                    <td><strong>";
      H (escapeHtml (fst kv));
      T "</strong></td>
                    <td>";
      H (if truthy ((snd kv)) then tpl [T "<code>";
      H (esc (field (snd kv) "name"));
      T "</code>"] else tpl [T "<span class=`text-secondary`>none</span>"]);
      T "</td>
                    <td>
                      <select class=`select-sm` data-grant-select=`";
      H (escapeHtml (fst kv));
      T "` aria-label=`Grant role to ";
      H (escapeHtml (fst kv));
      T "`>
                        ";
      H (map_join (role_option (snd kv)) roleList);
      T "
                      </select>
                      <button class=`btn btn-xs btn-secondary` data-grant-role='";
      H (escapeHtml (fst kv));
      T "' style=`margin-left:6px;`>Apply</button>
                    </td>
                    <td><button class=`btn btn-xs btn-danger` data-remove-member='";
      H (escapeHtml (fst kv));
      T "'>Remove</button></td>
                  </tr>"].

Definition workflows_html (appName : string) (workflows : list jval) : string :=
  tpl [T "
        <div class=`toolbar`>
          <div class=`filter-group`>
            <input type=`text` id=`filter-id` class=`input-text` placeholder=`Search workflows... [/]` data-input=`wfTable` aria-label=`Search workflows by ID or name`>
            <select id=`filter-status` class=`select-sm` data-change=`wfStatus` aria-label=`Filter workflows by status`>
              <option value=``>All Statuses</option>
              <option value=`SUCCESS`>SUCCESS</option>
              <option value=`PENDING`>PENDING</option>
              <option value=`ERROR`>ERROR</option>
              <option value=`CANCELLED`>CANCELLED</option>
              <option value=`ENQUEUED`>ENQUEUED</option>
            </select>
          </div>
          <div>
            <span class=`text-secondary` style=`font-size:12px;`>Showing ";
      H (string_of_Z (Z.of_nat (length workflows)));
      T " workflows";
      H (if negb (String.eqb appName "") then tpl [T " (";
      H (escapeHtml appName);
      T ")"] else "");
      T "</span>
          </div>
        </div>

        <div class=`card`>
          <div class=`table-container`>
            <table class=`data-table workflow-table` id=`workflows-table`>
              <thead>
                <tr>
                  <th>Workflow ID</th>
                  <th>Application</th>
                  <th>Status</th>
                  <th>Workflow Name</th>
                  <th>Queue</th>
                  <th>Version</th>
                  <th>Created At</th>
                  <th>Duration</th>
                </tr>
              </thead>
              <tbody>
                ";
      H (if 0 <? (Z.of_nat (length workflows)) then map_join workflow_row workflows else tpl [T "<tr><td colspan=`8` style=`text-align:center; color:var(--faint); padding:24px;`>No workflows found.</td></tr>"]);
      T "
              </tbody>
            </table>
          </div>
        </div>
      "].

Definition queues_html (appName : string) (queues : list jval) : string :=
  tpl [T "
        <div class=`card`>
          <div class=`card-header`>
            <div>
              <span class=`card-title`>Queues</span>
              <span class=`card-note`>";
      H (if negb (String.eqb appName "") then escapeHtml appName else "Across all applications");
      T "</span>
            </div>
            <div style=`display:flex; align-items:center; gap:8px;`>
              <span class=`badge badge-neutral`>";
      H (string_of_Z (Z.of_nat (length queues)));
      T " total</span>
              <button class=`btn btn-xs btn-secondary` data-action=`refresh`>Refresh</button>
            </div>
          </div>
          <div class=`table-container`>
            <table class=`data-table queue-table`>
              <thead>
                <tr>
                  <th>Queue Name</th>
                  <th>Application</th>
                  <th>Concurrency</th>
                  <th>Worker Concurrency</th>
                  <th>Rate Limit</th>
                  <th>Priority</th>
                  <th>Partitioned</th>
                </tr>
              </thead>
              <tbody>
                ";
      H (if 0 <? (Z.of_nat (length queues)) then map_join queue_row queues else tpl [T "<tr><td colspan=`7` style=`text-align:center; color:var(--faint); padding:24px;`>No queues configured.</td></tr>"]);
      T "
              </tbody>
            </table>
          </div>
        </div>
      "].

Definition schedules_html (appName : string) (schedules : list jval) : string :=
  tpl [T "
        <div class=`card`>
          <div class=`card-header`>
            <div>
              <span class=`card-title`>Scheduled Jobs</span>
              <span class=`card-note`>";
      H (if negb (String.eqb appName "") then escapeHtml appName else "Across all applications");
      T "</span>
            </div>
            <div style=`display:flex; align-items:center; gap:8px;`>
              <span class=`badge badge-neutral`>";
      H (string_of_Z (Z.of_nat (length schedules)));
      T " total</span>
              <button class=`btn btn-xs btn-secondary` data-action=`refresh`>Refresh</button>
            </div>
          </div>
          <div class=`table-container`>
            <table class=`data-table schedule-table`>
              <thead>
                <tr>
                  <th>Schedule Name</th>
                  <th>Application</th>
                  <th>Workflow Name</th>
                  <th>Cron Expression</th>
                  <th>Status</th>
                  <th>Last Fired</th>
                  <th>Actions</th>
                </tr>
              </thead>
              <tbody>
                ";
      H (if 0 <? (Z.of_nat (length schedules)) then map_join schedule_row schedules else tpl [T "<tr><td colspan=`7` style=`text-align:center; color:var(--faint); padding:24px;`>No schedules configured.</td></tr>"]);
      T "
              </tbody>
            </table>
          </div>
        </div>
      "].

Definition alerts_html (appName : string) (rules : list jval) : string :=
  tpl [T "
        <div class=`card`>
          <div class=`card-header`>
            <div>
              <span class=`card-title`>Alert Rules</span>
              <span class=`card-note`>";
      H (if negb (String.eqb appName "") then escapeHtml appName else "Across all applications");
      T "</span>
            </div>
            <div class=`header-actions`>
              <span class=`badge badge-neutral`>";
      H (string_of_Z (Z.of_nat (length rules)));
      T " total</span>
              <button class=`btn btn-sm btn-primary` data-action=`openCreateAlert`>New alert rule</button>
            </div>
          </div>
          <div class=`table-container`>
            <table class=`data-table alert-table`>
              <thead>
                <tr>
                  <th>Rule ID</th>
                  <th>Application</th>
                  <th>Type</th>
                  <th>Min Interval</th>
                  <th>Metadata</th>
                  <th>Last Fired</th>
                  <th>Actions</th>
                </tr>
              </thead>
              <tbody>
                ";
      H (if 0 <? (Z.of_nat (length rules)) then map_join alert_row rules else tpl [T "<tr><td colspan=`7` style=`text-align:center; color:var(--faint); padding:24px;`>No alerting rules configured.</td></tr>"]);
      T "
              </tbody>
            </table>
          </div>
        </div>
      "].

Definition keys_html (orgName : string) (keys : list jval) : string :=
  tpl [T "
        <div class=`card`>
          <div class=`card-header`>
            <div>
              <span class=`card-title`>API Keys</span>
              <span class=`card-note`>";
      H (string_of_Z (Z.of_nat (length keys)));
      T " ";
      H (if (Z.of_nat (length keys)) =? 1 then "key" else "keys");
      T " in ";
      H (escapeHtml orgName);
      T "</span>
            </div>
            <button class=`btn btn-sm btn-primary` data-action=`openCreateKey`>Mint API key</button>
          </div>
          <div class=`table-container`>
            <table class=`data-table keys-table`>
              <thead>
                <tr>
                  <th>Key Name</th>
                  <th>Permissions</th>
                  <th>Scoped Apps</th>
                  <th>Created At</th>
                  <th>Actions</th>
                </tr>
              </thead>
              <tbody>
                ";
      H (if 0 <? (Z.of_nat (length keys)) then map_join key_row keys else tpl [T "<tr><td colspan=`5` style=`text-align:center; color:var(--faint);`>No API keys found.</td></tr>"]);
      T "
              </tbody>
            </table>
          </div>
        </div>
      "].

Definition roles_html (orgName : string) (roleList : list jval) (memberRows : list (string * jval)) : string :=
  tpl [T "
        <div class=`card`>
          <div class=`card-header`>
            <div>
              <span class=`card-title`>Roles</span>
              <span class=`card-note`>";
      H (string_of_Z (Z.of_nat (length roleList)));
      T " roles in ";
      H (escapeHtml orgName);
      T "</span>
            </div>
            <button class=`btn btn-sm btn-primary` data-action=`openCreateRole`>New role</button>
          </div>
          <div class=`table-container`>
            <table class=`data-table roles-table`>
              <thead><tr><th>Role</th><th>Type</th><th>Permissions</th><th>Actions</th></tr></thead>
              <tbody>
                ";
      H (if 0 <? (Z.of_nat (length roleList)) then map_join role_row roleList else tpl [T "<tr><td colspan=`4` style=`text-align:center; color:var(--faint);`>No roles found.</td></tr>"]);
      T "
              </tbody>
            </table>
          </div>
        </div>

        <div class=`card`>
          <div class=`card-header`><div><span class=`card-title`>Members</span>
          <span class=`card-note`>";
      H (string_of_Z (Z.of_nat (length memberRows)));
      T " members</span></div></div>
          <div class=`table-container`>
            <table class=`data-table members-table`>
              <thead><tr><th>User</th><th>Current Role</th><th>Grant Role</th><th>Actions</th></tr></thead>
              <tbody>
                ";
      H (if 0 <? (Z.of_nat (length memberRows)) then map_join (member_row roleList) memberRows else tpl [T "<tr><td colspan=`4` style=`text-align:center; color:var(--faint);`>No members found.</td></tr>"]);
      T "
              </tbody>
            </table>
          </div>
        </div>
      "].

(** ** The screens *)

Context (request : operation → Client.answer).

Definition draw (html : list jval → string) (rows : option err + list jval) : screen :=
  match rows with inr l => Drawn (html l) | inl e => Fails e end.

(** The screen, and the map of the applications of the workflows. *)
Definition renderWorkflowsScreen (org appName : string) (apps : list jval) (m : gmap string string)
    : screen * gmap string string :=
  let rows := workflow_rows request org appName apps in
  (draw (workflows_html appName) rows, match rows with inr l => record_apps l m | inl _ => m end).

Definition renderQueuesScreen (org appName : string) (apps : list jval) : screen :=
  draw (queues_html appName) (gather request (ListQueues org) true appName apps).

Definition renderSchedulesScreen (org appName : string) (apps : list jval) : screen :=
  draw (schedules_html appName) (gather request (ListSchedules org) true appName apps).

Definition renderAlertingScreen (org appName : string) (apps : list jval) : screen :=
  draw (alerts_html appName) (gather request (ListAlertingRules org) true appName apps).

(** A key whose lists are not arrays makes the template throw. *)
Definition drawable_key (k : jval) : bool :=
  negb (nullish k) && joinable (field k "permissions") &&
  match field k "appIds" with JStr s => String.eqb s "" | _ => true end.

(** [keys.length] and [keys.map] of what is not an array throw. *)
Definition renderKeysScreen (org : string) : screen :=
  match request (ListAPIKeys org) with
  | Got (JArr keys) => if forallb drawable_key keys then Drawn (keys_html org keys) else Fails None
  | a => Fails (failure a)
  end.

Definition drawable_role (r : jval) : bool := negb (nullish r) && joinable (field r "permissions").

(** [(members && members.users) || {}] and its entries. *)
Definition users_of (members : jval) : list (string * jval) :=
  match jor (if truthy members then field members "users" else members) (JObj []) with
  | JObj users => users
  | _ => []
  end.

(** [Promise.all]: the first two calls must succeed; the third may fail.  The
    permissions are kept for the dialog. *)
Definition renderRolesScreen (org : string) : screen * option jval :=
  match request (ListRoles org), request (ListMembers org) with
  | Got roles, Got members =>
      let permissions := match request (ListPermissions org) with Got v => jor v (JArr []) | _ => JArr [] end in
      (match jor roles (JArr []) with
       | JArr roleList =>
           if forallb drawable_role roleList
           then Drawn (roles_html org roleList (users_of members)) else Fails None
       | _ => Fails None
       end, Some permissions)
  | Got _, a | a, _ => (Fails (failure a), None)
  end.
End Pages.

(** ** What the pages offer *)

#[export] Instance wesc_escapeHtml_inert s : Inert (ConsoleWidgets.escapeHtml s).
Proof. apply escape_chain_inert. Qed.
#[export] Instance esc_value_inert v : Inert (esc v).
Proof. unfold esc. destruct (nullish v); apply _. Qed.

Lemma pill_offers_nothing v : scans Text (renderStatusPill v) [] Text.
Proof.
  unfold renderStatusPill. set (s := to_upper _). cbv zeta.
  assert (Inert (pill_class s)) as Hc.
  { unfold pill_class. repeat match goal with |- context [if ?b then _ else _] => destruct b end; apply _. }
  hide (escapeHtml s). revert Hc. generalize (pill_class s). intros c Hc.
  read_all. same_offer.
Qed.
#[export] Hint Resolve pill_offers_nothing : page.

(** A number, or nothing. *)
Definition numeric (v : jval) : bool :=
  match v with JNum _ | JNull | JUndef => true | _ => false end.

Lemma numeric_inert v : numeric v = true → Inert (js_string v).
Proof. destruct v; try done; intros _; cbn [js_string]; apply _. Qed.

Section Offers.
Context (locale : jval → string) (now : Z) (locale_inert : ∀ v, Inert (locale v)).
Notation formatTimestamp := (ConsoleWidgets.formatTimestamp locale).
Notation calculateDuration := (ConsoleWidgets.calculateDuration now).

Local Instance timestamp_inert v : Inert (formatTimestamp v).
Proof. unfold ConsoleWidgets.formatTimestamp. destruct (truthy v); [apply locale_inert|apply _]. Qed.

Local Instance shown_duration_inert ms : Inert (ConsoleWidgets.duration_text ms).
Proof. unfold ConsoleWidgets.duration_text. repeat case_match; apply _. Qed.

Local Instance duration_inert a b s d : Inert (calculateDuration a b s d).
Proof.
  unfold ConsoleWidgets.calculateDuration.
  match goal with |- context [match ?x with Some _ => _ | None => _ end] => destruct x eqn:E end.
  - revert E. repeat case_match; try done. intros [= <-]. apply _.
  - repeat case_match; apply _.
Qed.

(** The attributes of a row's button, by their names in the page. *)
Definition two (n1 : string) (v1 : string) (n2 : string) (v2 : string) : dataset := [(n1, v1); (n2, v2)].

Lemma alert_offers r :
  numeric (field r "minIntervalSecs") = true →
  scans Text (alert_row locale r)
    [two "data-delete-rule" (esc (field r "id")) "data-rule-app" (esc (jor (field r "appName") (JStr "")))] Text.
Proof.
  intros Hn. unfold alert_row.
  assert (Inert (js_string (jor (field r "minIntervalSecs") (JNum 0)))).
  { apply numeric_inert. unfold jor. by destruct (truthy _). }
  hide (esc (field r "id")). hide (esc (jor (field r "appName") (JStr ""))).
  read_all. same_offer.
Qed.

Lemma schedule_offers s :
  let name := esc (field s "scheduleName") in
  let app := esc (jor (field s "appName") (JStr "")) in
  scans Text (schedule_row locale s)
    [two (if is_str (field s "status") "ACTIVE" then "data-pause-schedule" else "data-resume-schedule") name
       "data-schedule-app" app;
     two "data-trigger-schedule" name "data-schedule-app" app] Text.
Proof.
  cbv zeta. unfold schedule_row.
  hide (esc (field s "scheduleName")). hide (esc (jor (field s "appName") (JStr ""))).
  read_all. same_offer.
Qed.

Lemma key_offers k :
  scans Text (key_row locale k) [[("data-revoke-key", esc (field k "tokenName"))]] Text.
Proof.
  unfold key_row. hide (esc (field k "tokenName")). read_all. same_offer.
Qed.

Lemma role_offers r :
  scans Text (role_row r)
    (if truthy (field r "isGlobal") then [] else [[("data-delete-role", esc (field r "name"))]]) Text.
Proof using.
  unfold role_row. hide (esc (field r "name")). read_all. same_offer.
Qed.

Lemma option_offers_nothing role r : scans Text (role_option role r) [] Text.
Proof using.
  unfold role_option. hide (esc (field r "name")).
  destruct (_ && _); read_all; reflexivity.
Qed.

Lemma member_offers roles kv :
  let user := escapeHtml (fst kv) in
  scans Text (member_row roles kv)
    [[("data-grant-select", user)]; [("data-grant-role", user)]; [("data-remove-member", user)]] Text.
Proof using.
  cbv zeta. unfold member_row.
  pose proof (offers_nothing (role_option (snd kv)) roles (option_offers_nothing _)) as Ho.
  revert Ho. generalize (map_join (role_option (snd kv)) roles). intros opts Ho.
  hide (escapeHtml (fst kv)). read_all. same_offer.
Qed.

Lemma queue_offers_nothing x :
  numeric (field x "concurrency") = true → numeric (field x "workerConcurrency") = true →
  numeric (field x "rateLimitMax") = true → numeric (field x "rateLimitPeriodSecs") = true →
  scans Text (queue_row x) [] Text.
Proof using.
  intros H1%numeric_inert H2%numeric_inert H3%numeric_inert H4%numeric_inert. unfold queue_row.
  assert (∀ b v t, Inert (js_string v) → Inert t → Inert (js_string (if b : bool then v else JStr t))) as Hif
    by (by intros []).
  pose proof (Hif (negb (is_null (field x "concurrency"))) _ "Unlimited" H1 _).
  pose proof (Hif (negb (is_null (field x "workerConcurrency"))) _ "-" H2 _).
  read_all. same_offer.
Qed.

(** An identifier without apostrophes is inert once encoded. *)
Lemma encode_char_inert a : Ascii.eqb a "'" = false → Inert (encode_char a).
Proof using. by destruct a as [[] [] [] [] [] [] [] []]. Qed.

Lemma encoded_inert s : held "'" s = true → Inert (encodeURIComponent s).
Proof using.
  induction s as [|a s IH]; intros H; [apply _|].
  change (held "'" (String a s)) with (negb (Ascii.eqb a "'") && held "'" s) in H.
  apply andb_true_iff in H as [Ha%negb_true_iff Hs]. cbn [encodeURIComponent].
  apply inert_append; [by apply encode_char_inert|by apply IH].
Qed.

Lemma workflow_offers w :
  held "'" (js_string (field w "workflowId")) = true →
  scans Text (workflow_row locale now w)
    [two "data-navigate" ("workflow/" +:+ encodeURIComponent (js_string (field w "workflowId")))
       "data-wf-app" (esc (jor (field w "appName") (JStr "")))] Text.
Proof.
  intros Hi%encoded_inert. unfold workflow_row. revert Hi.
  hide (esc (field w "workflowId")). hide (esc (jor (field w "appName") (JStr ""))).
  generalize (encodeURIComponent (js_string (field w "workflowId"))). intros y Hy.
  read_all. reflexivity.
Qed.
End Offers.

(** The text of a value in the page. *)
Definition shown (v : jval) : string := if nullish v then "" else js_string v.

Lemma decode_esc v : decode_entities (esc v) = shown v.
Proof. unfold esc, shown. destruct (nullish v); [done|apply esc_decode]. Qed.

Lemma encoded_no_amp s : held "&" (encodeURIComponent s) = true.
Proof.
  induction s as [|a s IH]; [done|]. cbn [encodeURIComponent]. unfold held in *. rewrite sforall_app, IH.
  by destruct a as [[] [] [] [] [] [] [] []].
Qed.

(** What the rows' buttons say, by the data attributes. *)
Definition shown_app (r : jval) : string := shown (jor (field r "appName") (JStr "")).

Definition rule_button (r : jval) : dataset :=
  [("deleteRule", shown (field r "id")); ("ruleApp", shown_app r)].

Definition schedule_buttons (s : jval) : list dataset :=
  [[(if is_str (field s "status") "ACTIVE" then "pauseSchedule" else "resumeSchedule",
     shown (field s "scheduleName")); ("scheduleApp", shown_app s)];
   [("triggerSchedule", shown (field s "scheduleName")); ("scheduleApp", shown_app s)]].

Definition key_button (k : jval) : dataset := [("revokeKey", shown (field k "tokenName"))].

Definition role_buttons (r : jval) : list dataset :=
  if truthy (field r "isGlobal") then [] else [[("deleteRole", shown (field r "name"))]].

Definition member_buttons (user : string) : list dataset :=
  [[("grantSelect", user)]; [("grantRole", user)]; [("removeMember", user)]].

Definition workflow_link (w : jval) : dataset :=
  [("navigate", "workflow/" +:+ encodeURIComponent (js_string (field w "workflowId"))); ("wfApp", shown_app w)].

Lemma read_rows {A} (g : A → list dataset) (g' : A → list dataset) l :
  (∀ x, x ∈ l → map (map read_attr) (g x) = g' x) →
  map (map read_attr) (concat (map g l)) = concat (map g' l).
Proof.
  induction l as [|x l IH]; intros H; [done|]. cbn [map concat]. rewrite map_app, H, IH; set_solver.
Qed.

Lemma singletons {A B} (f : A → B) l : concat (map (λ x, [f x]) l) = map f l.
Proof. induction l; [done|]. cbn [map concat]. by rewrite IHl. Qed.

Lemma roles_elements org roles members :
  elements (roles_html org roles members) =
  [("action", "openCreateRole")] :: concat (map role_buttons roles) ++
  concat (map (λ kv, member_buttons (fst kv)) members).
Proof.
  assert (offers_rows role_row _ roles) as Ho by (intros r _; apply role_offers).
  assert (offers_rows (member_row roles) _ members) as Hm by (intros kv _; apply member_offers).
  erewrite elements_of by (unfold roles_html; read_page).
  offered. f_equal. rewrite map_app. f_equal; apply read_rows.
  - intros r _. unfold role_buttons. destruct (truthy _); [done|].
    cbn [map]. unfold read_attr. cbn [fst snd]. by rewrite !decode_esc.
  - intros kv _. cbn [map]. unfold read_attr. cbn [fst snd].
    by rewrite (esc_decode (fst kv) : decode_entities (escapeHtml (fst kv)) = fst kv).
Qed.

Lemma queues_elements name queues :
  Forall (λ x, forallb (λ k, numeric (field x k))
    ["concurrency"; "workerConcurrency"; "rateLimitMax"; "rateLimitPeriodSecs"] = true) queues →
  elements (queues_html name queues) = [[("action", "refresh")]].
Proof.
  intros Hq. rewrite Forall_forall in Hq.
  assert (offers_rows queue_row (λ _, []) queues) as Ho.
  { intros x Hin. specialize (Hq x Hin). cbn [forallb] in Hq. rewrite !andb_true_iff in Hq.
    destruct Hq as (H1 & H2 & H3 & H4 & _). by apply queue_offers_nothing. }
  erewrite elements_of by (unfold queues_html; read_page).
  offered. f_equal. induction queues as [|x l IH]; [done|].
  cbn [map concat app]. apply IH; [|]; intros y Hy; [apply Hq|apply Ho]; set_solver.
Qed.

Section Screens.
Context (locale : jval → string) (now : Z) (locale_inert : ∀ v, Inert (locale v)).

Lemma alerts_elements name rules :
  Forall (λ r, numeric (field r "minIntervalSecs") = true) rules →
  elements (alerts_html locale name rules) = [("action", "openCreateAlert")] :: map rule_button rules.
Proof.
  intros Hr. rewrite Forall_forall in Hr.
  assert (offers_rows (alert_row locale) _ rules) as Ho
    by (intros r Hin; apply (alert_offers locale locale_inert r (Hr r Hin))).
  erewrite elements_of by (unfold alerts_html; read_page).
  offered. f_equal.
  rewrite (read_rows _ (λ r, [rule_button r])), singletons; [done|].
  intros r _. unfold two. cbn [map]. unfold read_attr. cbn [fst snd]. by rewrite !decode_esc.
Qed.

Lemma schedules_elements name schedules :
  elements (schedules_html locale name schedules) =
  [("action", "refresh")] :: concat (map schedule_buttons schedules).
Proof.
  assert (offers_rows (schedule_row locale) _ schedules) as Ho
    by (intros s _; apply (schedule_offers locale locale_inert s)).
  erewrite elements_of by (unfold schedules_html; read_page).
  offered. f_equal. apply read_rows.
  intros s _. unfold two, schedule_buttons. cbn [map]. unfold read_attr. cbn [fst snd]. rewrite !decode_esc.
  by destruct (is_str _ _).
Qed.

Lemma keys_elements org keys :
  elements (keys_html locale org keys) = [("action", "openCreateKey")] :: map key_button keys.
Proof.
  assert (offers_rows (key_row locale) _ keys) as Ho by (intros k _; apply (key_offers locale locale_inert k)).
  erewrite elements_of by (unfold keys_html; read_page).
  offered. f_equal.
  rewrite (read_rows _ (λ k, [key_button k])), singletons; [done|].
  intros k _. cbn [map]. unfold read_attr. cbn [fst snd]. by rewrite !decode_esc.
Qed.

Lemma workflows_elements name workflows :
  Forall (λ w, held "'" (js_string (field w "workflowId")) = true) workflows →
  elements (workflows_html locale now name workflows) =
  [("input", "wfTable")] :: [("change", "wfStatus")] :: map workflow_link workflows.
Proof.
  intros Hw. rewrite Forall_forall in Hw.
  assert (offers_rows (workflow_row locale now) _ workflows) as Ho
    by (intros w Hin; apply (workflow_offers locale now locale_inert w (Hw w Hin))).
  erewrite elements_of by (unfold workflows_html; read_page).
  offered. f_equal. f_equal.
  rewrite (read_rows _ (λ w, [workflow_link w])), singletons; [done|].
  intros w _. unfold two. cbn [map]. unfold read_attr. cbn [fst snd]. rewrite decode_esc.
  rewrite decode_plain; [done|]. apply encoded_no_amp.
Qed.
End Screens.
