(* ===== verification/ConsoleListsSpec.v ===== *)
(** What the list screens promise: every application's rows are there, what a
    press on a row's button does, and the screens over the playground's control
    plane. *)

From Stdlib Require Import ZArith Lia Ascii String Sorted.
From stdpp Require Import base list strings gmap sets.
From S2P Require Import Prelude Html HtmlScan Json JsonSpec JsDate JsNumber Uri.
From S2P Require Import BridgeState BridgeRoutes BridgeSpec ApiClient ClientServe ClientSpec.
From S2P Require Import ConsoleView ConsoleState ConsoleClicks ConsoleWidgets ConsoleLists.
Import Client.

(** ** Gathering *)

Lemma field_put k v fs k' :
  field (JObj (put k v fs)) k' = if String.eqb k' k then v else field (JObj fs) k'.
Proof.
  unfold field, jget. induction fs as [|[k0 v0] fs IH]; cbn [put assoc].
  - by destruct (String.eqb k' k).
  - destruct (String.eqb_spec k k0) as [->|Hk]; cbn [assoc].
    + by destruct (String.eqb_spec k' k0).
    + destruct (String.eqb_spec k' k0) as [->|]; [|exact IH].
      by destruct (String.eqb_spec k0 k) as [->|].
Qed.

(** A row names its application and is otherwise the row of the answer. *)
Lemma tagged_app name w : field (tagged name w) "appName" = name.
Proof. destruct w; try reflexivity. unfold tagged. by rewrite field_put. Qed.

Lemma tagged_field name w k : k ≠ "appName" → nullish w = false → field (tagged name w) k = field w k.
Proof.
  intros Hk Hw. apply String.eqb_neq in Hk. destruct w; try done.
  5:{ unfold tagged. by rewrite field_put, Hk. }
  all: unfold field, tagged; cbn [jget assoc]; by rewrite Hk.
Qed.

(** The map of applications holds, for every identifier listed, the application
    of a row with that identifier. *)
Lemma recorded rows m w :
  w ∈ rows → truthy (field w "appName") = true →
  ∃ w', w' ∈ rows ∧ js_string (field w' "workflowId") = js_string (field w "workflowId") ∧
    record_apps rows m !! js_string (field w "workflowId") = Some (js_string (field w' "appName")).
Proof.
  unfold record_apps. induction rows as [|w0 rows IH] using rev_ind; [set_solver|].
  intros Hin Ht. rewrite foldl_app. cbn [foldl]. apply elem_of_app in Hin as [Hin|Hin].
  - destruct (IH Hin Ht) as (w' & Hw' & Hid & Hl).
    destruct (truthy (field w0 "appName")); [|exists w'; split; [set_solver|done]].
    destruct (decide (js_string (field w0 "workflowId") = js_string (field w "workflowId"))) as [E|E].
    + exists w0. rewrite E, lookup_insert_eq. split; [set_solver|done].
    + exists w'. rewrite lookup_insert_ne by done. split; [set_solver|done].
  - apply list_elem_of_singleton in Hin as ->. exists w0. rewrite Ht, lookup_insert_eq. split; [set_solver|done].
Qed.

(** Only the order of the elements sorted counts. *)
Lemma js_sort_ext {A} (f g : A → A → Z) l :
  (∀ x y, x ∈ l → y ∈ l → f x y = g x y) → js_sort f l = js_sort g l.
Proof.
  induction l as [|x l IH]; intros H; [done|]. cbn [js_sort]. rewrite IH by set_solver.
  assert (∀ y, y ∈ js_sort g l → f x y = g x y) as Hs
    by (intros y; rewrite js_sort_elem; set_solver).
  revert Hs. generalize (js_sort g l). intros s. clear IH.
  induction s as [|y s IH]; intros Hs; [done|]. cbn [insert_by].
  rewrite (Hs y), IH by set_solver. done.
Qed.

Lemma newest_sorted l :
  (∀ w, w ∈ l → is_Some (created w)) →
  StronglySorted (λ a b, default 0 (created b) <= default 0 (created a)) (js_sort newest l).
Proof.
  intros Hl. rewrite (js_sort_ext newest (λ a b, default 0 (created b) - default 0 (created a))); [apply js_sort_desc|].
  intros x y [tx Ex]%Hl [ty Ey]%Hl. unfold newest. by rewrite Ex, Ey.
Qed.

(** C38: with no application chosen the workflows screen always draws a page,
    whatever fails: its rows are exactly those of the applications that answer,
    each with the name of its application, newest first when their dates can be
    read; and the map that opens a row knows an application for every row. *)
Theorem every_application_listed locale now request org apps m :
  ∃ rows,
    renderWorkflowsScreen locale now request org "" apps m =
      (Drawn (workflows_html locale now "" rows), record_apps rows m) ∧
    rows ≡ₚ concat (map (app_rows request (λ app, ListWorkflows org app (limited 50)) false) apps) ∧
    (∀ app w, app ∈ apps →
      w ∈ app_rows request (λ app, ListWorkflows org app (limited 50)) false app →
      field w "appName" = field app "name" ∧ w ∈ rows) ∧
    ((∀ w, w ∈ rows → is_Some (created w)) →
      StronglySorted (λ a b, default 0 (created b) <= default 0 (created a)) rows) ∧
    (∀ w, w ∈ rows → truthy (field w "appName") = true →
      ∃ w', w' ∈ rows ∧ js_string (field w' "workflowId") = js_string (field w "workflowId") ∧
        record_apps rows m !! js_string (field w "workflowId") = Some (js_string (field w' "appName"))).
Proof.
  set (op := λ app, ListWorkflows org app (limited 50)).
  set (l := concat (map (app_rows request op false) apps)).
  exists (js_sort newest l). split_and!.
  - reflexivity.
  - apply js_sort_perm.
  - intros app w Ha Hw. split.
    + unfold app_rows in Hw. destruct (rows_of _ _) as [|ws]; [set_solver|].
      apply list_elem_of_In, in_map_iff in Hw as (w0 & <- & _). apply tagged_app.
    + rewrite js_sort_elem. apply list_elem_of_In, in_concat. exists (app_rows request op false app).
      split; [by apply in_map, list_elem_of_In|by apply list_elem_of_In].
  - intros Hd. apply newest_sorted. intros w Hw. apply Hd. by rewrite js_sort_elem.
  - intros w Hw Ht. by apply recorded.
Qed.

(** ** The buttons of the rows *)

Section Buttons.
Context (f : form) (inner outer : list element) (Hin : Forall unmarked inner).

(** A press on an element of the page, or on anything in it. *)
Definition press (d : dataset) : list effect := click f (inner ++ El d :: outer).

Lemma press_button b e :
  subject b ≠ "" → meant f b = Some e → press (attributes b) = [e].
Proof. by apply button_click. Qed.

Lemma press_rule r :
  shown (field r "id") ≠ "" →
  press (rule_button r) = [Event (ClickDeleteRule (shown (field r "id")) (shown_app r))].
Proof. intros H. by apply (press_button (BDeleteRule _ _)). Qed.

Lemma press_schedule s :
  shown (field s "scheduleName") ≠ "" →
  map press (schedule_buttons s) =
  [[Event (if is_str (field s "status") "ACTIVE"
           then ClickPause (shown (field s "scheduleName")) (shown_app s)
           else ClickResumeSchedule (shown (field s "scheduleName")) (shown_app s))];
   [Event (ClickTrigger (shown (field s "scheduleName")) (shown_app s))]].
Proof.
  intros H. unfold schedule_buttons. cbn [map].
  rewrite (press_button (BTrigger _ _) _ H eq_refl : press [("triggerSchedule", _); ("scheduleApp", _)] = _).
  destruct (is_str _ _).
  - by rewrite (press_button (BPause _ _) _ H eq_refl : press [("pauseSchedule", _); ("scheduleApp", _)] = _).
  - by rewrite (press_button (BResumeSchedule _ _) _ H eq_refl : press [("resumeSchedule", _); ("scheduleApp", _)] = _).
Qed.

Lemma press_key k :
  shown (field k "tokenName") ≠ "" → press (key_button k) = [Event (ClickRevoke (shown (field k "tokenName")))].
Proof. intros H. by apply (press_button (BRevoke _)). Qed.

Lemma press_workflow w :
  shown_app w ≠ "" →
  press (workflow_link w) =
  [Event (ClickNavigate ("workflow/" +:+ encodeURIComponent (js_string (field w "workflowId"))) (shown_app w))].
Proof.
  intros H%String.eqb_neq. apply (press_button (BNavigate _ _)); [done|]. cbn [meant]. by rewrite H.
Qed.
End Buttons.


Definition hostile_rule : jval :=
  JObj [("id", JStr (q "r' data-revoke-key='x`><img>&amp;")); ("appName", JStr "shop & co"); ("minIntervalSecs", JNum 60)].
Definition plain_dates (v : jval) : string := "date".


(** An apostrophe is left by [encodeURIComponent], and the link of a row is in
    apostrophes: the link is cut, and the rest of the identifier becomes an
    attribute. *)
Lemma apostrophe_cuts_link :
  elements (workflow_row plain_dates 0 (JObj [("workflowId", JStr "it's"); ("appName", JStr "shop")])) =
    [[("navigate", "workflow/it"); ("wfApp", "shop")]].
Proof. vm_compute. reflexivity. Qed.

(** The two filters of the table overwrite each other: only the last one used
    counts. *)
Lemma filters_overwrite status query rows :
  filterWorkflowsStatus status (filterWorkflowsTable query rows) = filterWorkflowsStatus status rows ∧
  filterWorkflowsTable query (filterWorkflowsStatus status rows) = filterWorkflowsTable query rows.
Proof. unfold filterWorkflowsStatus, filterWorkflowsTable. by rewrite !map_map. Qed.

(** The status filter reads the whole text of a row: a workflow named after a
    status is shown under it. *)
Lemma status_found_in_name :
  map r_shown (filterWorkflowsStatus "ERROR" [Row "wf-1 shop SUCCESS error-report default" true]) = [true].
Proof. vm_compute. reflexivity. Qed.

(** ** Over the control plane *)

Lemma concat_insert {A} (F G : string → list A) (x : A) (a : string) names :
  NoDup names → a ∈ names → G a = x :: F a → (∀ b, b ≠ a → G b = F b) →
  concat (map G names) ≡ₚ x :: concat (map F names).
Proof.
  intros Hn Ha HG HF. induction Hn as [|b names Hb Hn IH]; [set_solver|]. cbn [map concat].
  apply elem_of_cons in Ha as [<-|Ha].
  - rewrite HG, <- app_comm_cons. constructor. f_equiv.
    rewrite (map_ext_in G F); [done|]. intros c Hc%list_elem_of_In. apply HF. set_solver.
  - rewrite (HF b) by set_solver. rewrite IH by done. symmetry. apply Permutation_middle.
Qed.

(** The lists of the names together are the whole list. *)
Lemma concat_by_name {A} (name : A → string) (l : list A) names :
  NoDup names → (∀ x, x ∈ l → name x ∈ names) →
  concat (map (λ a, keep (λ x, String.eqb (name x) a) l) names) ≡ₚ l.
Proof.
  intros Hn. induction l as [|x l IH]; intros Hl.
  - clear. induction names; done.
  - rewrite (concat_insert (λ a, keep (λ x, String.eqb (name x) a) l) _ x (name x)).
    + constructor. apply IH. set_solver.
    + done.
    + set_solver.
    + cbn [keep List.filter]. by rewrite String.eqb_refl.
    + intros b Hb. cbn [keep List.filter]. by rewrite (proj2 (String.eqb_neq _ _) (not_eq_sym Hb)).
Qed.

Lemma mem_elem x l : mem x l = true → x ∈ l.
Proof. unfold mem, some. intros (y & Hy & ->%String.eqb_eq)%existsb_exists. by apply list_elem_of_In. Qed.

Section Served.
Context (e : env) (network : option http) (k : option string) (s : state) (org : string).

(** A call of the client, over the control plane without a database. *)
Definition served (op : operation) : Client.answer := snd (exchange no_db e network k s op).

Definition named (x : BridgeState.queue) : jval := tagged (JStr (q_appName x)) (queue_json x).

Lemma served_apps :
  addressable (ClientServe.ListApplications org) = true →
  served (ClientServe.ListApplications org) = Got (JArr (map (λ a, JObj (app_fields a)) (s_apps s))).
Proof.
  intros H. unfold served. rewrite exchange_serve by done. cbn [serve snd]. unfold list_apps.
  cbn [queryDb no_db some_rows]. rewrite got_json; [|reflexivity|lia|lia| |reflexivity].
  - cbn [clean]. by rewrite map_map.
  - cbn [proper_value]. apply forallb_forall. intros v (a & <- & _)%in_map_iff. reflexivity.
Qed.

Lemma served_queues app :
  addressable (ListQueues org app) = true →
  served (ListQueues org app) =
  Got (JArr (map queue_json (keep (λ x, String.eqb (q_appName x) app) (s_queues s)))).
Proof.
  intros H. unfold served. rewrite exchange_serve by done. cbn [serve snd]. unfold list_queues.
  rewrite got_json; [|reflexivity|lia|lia| |reflexivity].
  - cbn [clean]. by rewrite map_map.
  - cbn [proper_value]. apply forallb_forall. intros v (a & <- & _)%in_map_iff. reflexivity.
Qed.
End Served.

(** C19: the queues screen over the playground's control plane: with no
    application chosen, the applications the client has loaded and the queues
    it asks each of them for give a page with every queue of the control plane
    exactly once, under its own application, and no text of a queue adds
    anything a click can act on. *)
Theorem served_queues_listed_once e network k s org :
  addressable (ClientServe.ListApplications org) = true →
  (∀ a, a ∈ s_apps s → addressable (ListQueues org (app_name a)) = true) →
  NoDup (map app_name (s_apps s)) →
  (∀ x, x ∈ s_queues s → q_appName x ∈ map app_name (s_apps s)) →
  ∃ apps rows,
    served e network k s (ClientServe.ListApplications org) = Got (JArr apps) ∧
    renderQueuesScreen (served e network k s) org "" apps = Drawn (queues_html "" rows) ∧
    rows ≡ₚ map named (s_queues s) ∧
    elements (queues_html "" rows) = [[("action", "refresh")]].
Proof.
  intros Ho Ha Hn Hq.
  set (rows := concat (map (λ a, map named (keep (λ x, String.eqb (q_appName x) a) (s_queues s)))
                         (map app_name (s_apps s)))).
  assert (Hrows : rows ≡ₚ map named (s_queues s)).
  { unfold rows. etrans; [|apply Permutation_map, (concat_by_name q_appName (s_queues s) _ Hn Hq)].
    by rewrite concat_map, !map_map. }
  exists (map (λ a, JObj (app_fields a)) (s_apps s)), rows. split_and!.
  - by apply served_apps.
  - unfold renderQueuesScreen, gather, draw. cbn [String.eqb]. do 2 f_equal. unfold rows.
    rewrite !map_map. f_equal. apply map_ext_in. intros a Hin%list_elem_of_In. unfold app_rows.
    change (js_string (field (JObj (app_fields a)) "name")) with (app_name a).
    change (field (JObj (app_fields a)) "name") with (JStr (app_name a)).
    rewrite served_queues by auto. cbn [rows_of]. rewrite map_map. apply map_ext_in.
    intros x [_ E%String.eqb_eq]%filter_In. unfold named. by rewrite E.
  - done.
  - apply queues_elements. rewrite Hrows. apply Forall_forall. intros v Hv.
    apply list_elem_of_In, in_map_iff in Hv as (x & <- & _). reflexivity.
Qed.

Lemma served_queues_listed_once_witness :
  ∃ apps rows,
    served sample_env None None (initial_state "t") (ClientServe.ListApplications "default") = Got (JArr apps) ∧
    renderQueuesScreen (served sample_env None None (initial_state "t")) "default" "" apps =
      Drawn (queues_html "" rows) ∧
    rows ≡ₚ map named (s_queues (initial_state "t")) ∧
    elements (queues_html "" rows) = [[("action", "refresh")]].
Proof.
  apply (served_queues_listed_once sample_env None None (initial_state "t") "default").
  - vm_compute. reflexivity.
  - intros a Ha. apply (proj1 (forallb_forall (λ a, addressable (ListQueues "default" (app_name a)))
      (s_apps (initial_state "t"))) ltac:(vm_compute; reflexivity)), list_elem_of_In, Ha.
  - apply (bool_decide_unpack (NoDup (map app_name (s_apps (initial_state "t"))))). vm_compute. exact I.
  - intros x Hx. apply mem_elem.
    apply (proj1 (forallb_forall (λ x, mem (q_appName x) (map app_name (s_apps (initial_state "t"))))
      (s_queues (initial_state "t"))) ltac:(vm_compute; reflexivity)), list_elem_of_In, Hx.
Defined.
