(* ===== verification/ConsoleFleet.v ===== *)
(** The fleet screen of the console (app.js): what it asks of each application
    in scope, the totals it makes of the answers, and the page: banner, cards,
    table of applications, recent workflows and executors. *)

From Stdlib Require Import ZArith Lia Ascii String Sorted.
From stdpp Require Import base list strings gmap sets.
From S2P Require Import Prelude Html HtmlScan Json JsonSpec JsDate JsNumber Uri.
From S2P Require Import BridgeState BridgeSpec.
From S2P Require Import WorkflowDag ApiClient ClientServe ConsoleView ConsoleState ConsoleWidgets ConsoleLists ConsoleListsSpec.
Import Client.

(** ** The answers *)

(** What the four calls about an application give. *)
Record overview := Overview {
  o_app : jval; o_executors : list jval; o_workflows : list jval;
  o_queues : list jval; o_schedules : list jval }.

Section Fleet.
Context (request : operation → Client.answer) (org : string).

(** A call that fails counts as an empty list; [None]: the answer is no list,
    and the screen's loops do not go over it. *)
Definition settled_rows (a : Client.answer) : option (list jval) :=
  match a with
  | Got (JArr l) => Some l
  | Got v => if truthy v then None else Some []
  | GotText s => if String.eqb s "" then Some [] else None
  | Refused _ | Broken => Some []
  end.

Definition ask_overview (app : jval) : option overview :=
  let name := js_string (field app "name") in
  match settled_rows (request (ListExecutors org name)),
        settled_rows (request (ListWorkflows org name (limited 25))),
        settled_rows (request (ListQueues org name)),
        settled_rows (request (ListSchedules org name)) with
  | Some executors, Some workflows, Some queues, Some schedules =>
      (* the status of [null] and its identifier throw *)
      if forallb (λ v, negb (nullish v)) (executors ++ workflows)
      then Some (Overview app executors workflows queues schedules) else None
  | _, _, _, _ => None
  end.

(** The applications the screen asks about: the chosen one, or all of them when
    none is chosen or the chosen one is not there. *)
Definition effective_apps (appName : string) (allApps : list jval) : list jval :=
  let appsToQuery :=
    if negb (String.eqb appName "") then keep (λ a, is_str (field a "name") appName) allApps else allApps in
  if 0 <? Z.of_nat (length appsToQuery) then appsToQuery else allApps.

Definition selected_app (appName : string) (allApps : list jval) : jval :=
  if negb (String.eqb appName "")
  then default JUndef (find (λ a, is_str (field a "name") appName) allApps) else JNull.

(** ** The totals *)

Record app_metrics := Metrics_ {
  m_executors : list jval; m_healthyExecutors : Z; m_workflowsCount : Z; m_queuesCount : Z; m_schedulesCount : Z }.

Definition status_count (statuses : list string) (l : list jval) : Z :=
  Z.of_nat (length (keep (λ x, some (is_str (field x "status")) statuses) l)).

Definition metrics_entry (o : overview) : jval * app_metrics :=
  (field (o_app o) "name",
   Metrics_ (o_executors o) (status_count ["HEALTHY"] (o_executors o))
     (Z.of_nat (length (o_workflows o))) (Z.of_nat (length (o_queues o))) (Z.of_nat (length (o_schedules o)))).

(** [appMetrics.get(a.name) || { .. }]: what was set last counts. *)
Definition metrics_of (metrics : list (jval * app_metrics)) (a : jval) : app_metrics :=
  match find (λ e, key_eqb (fst e) (field a "name")) (List.rev metrics) with
  | Some (_, m) => m
  | None => Metrics_ [] 0 0 0 0
  end.

Record totals := Totals {
  t_executors : list jval; t_workflows : list jval; t_queues : Z; t_schedules : Z;
  t_metrics : list (jval * app_metrics); t_map : gmap string string }.

Definition add_overview (t : totals) (o : overview) : totals :=
  let name := field (o_app o) "name" in
  Totals (t_executors t ++ map (tagged name) (o_executors o))
    (t_workflows t ++ map (tagged name) (o_workflows o))
    (t_queues t + Z.of_nat (length (o_queues o))) (t_schedules t + Z.of_nat (length (o_schedules o)))
    (t_metrics t ++ [metrics_entry o])
    (foldl (λ m w, <[js_string (field w "workflowId") := js_string name]> m) (t_map t) (o_workflows o)).

Definition totals_of (m : gmap string string) (os : list overview) : totals :=
  foldl add_overview (Totals [] [] 0 0 [] m) os.

Definition recent_workflows (allWorkflows : list jval) : list jval := take 8 (js_sort newest allWorkflows).

(** ** The page *)

Context (locale : jval → string) (now : Z).
Notation formatTimestamp := (ConsoleWidgets.formatTimestamp locale).
Notation calculateDuration := (ConsoleWidgets.calculateDuration now).
Notation formatRelativeTime := (ConsoleWidgets.formatRelativeTime now).

Definition filter_banner_html (appName : string) (isFiltered : bool) (selectedApp : jval) : string :=
  if isFiltered then tpl [T "
        <div class=`scope-banner`>
          <div class=`scope-banner-context`>
            <span class=`scope-label`>Filtered to application</span>
            <span class=`badge`>";
      H (escapeHtml appName);
      T "</span>
            ";
      H (if truthy (selectedApp) then tpl [T "<span class=`badge`>";
      H (esc (jor (field selectedApp "language") (JStr "dbos")));
      T "</span>"] else "");
      T "
            ";
      H (if truthy (selectedApp) then renderStatusPill (field selectedApp "status") else "");
      T "
          </div>
          <button class=`btn btn-xs btn-secondary` data-app-change=`` aria-label=`Reset filter to all applications`>Show all applications</button>
        </div>
      "] else "".

Definition kpi_cards_html (isFiltered : bool) (selectedApp : jval) (allApps allWorkflows : list jval)
    (activeExecutors disconnectedExecutors inFlightWfs failedWfs totalQueues totalSchedules : Z) : string :=
  if isFiltered then tpl [T "
        <div class=`stat-grid`>
          <div class=`stat-card`>
            <span class=`stat-label`>Application Status</span>
            <div style=`margin-top:6px;`>
              ";
      H (if truthy (selectedApp) then renderStatusPill (field selectedApp "status") else tpl [T "<span class=`badge badge-neutral`>UNKNOWN</span>"]);
      T "
            </div>
            <div class=`kpi-subtext`>
              <span class=`kpi-sub-pill`>";
      H (if (truthy (selectedApp)) && (truthy (field selectedApp "privateMode")) then "Private mode" else "Public mode");
      T "</span>
              <span class=`kpi-sub-pill`>";
      H (js_string (if truthy (selectedApp) then jor (field selectedApp "executorTimeoutSecs") (JNum 60) else JNum 60));
      T "s timeout</span>
            </div>
          </div>
          <div class=`stat-card`>
            <span class=`stat-label`>Connected Executors</span>
            <span class=`stat-value`>";
      H (string_of_Z activeExecutors);
      T "</span>
            <div class=`kpi-subtext`>
              <span class=`kpi-sub-pill kpi-success`>";
      H (string_of_Z activeExecutors);
      T " healthy</span>
              ";
      H (if 0 <? disconnectedExecutors then tpl [T "<span class=`kpi-sub-pill kpi-error`>";
      H (string_of_Z disconnectedExecutors);
      T " disconnected</span>"] else tpl [T "<span class=`kpi-sub-pill`>0 disconnected</span>"]);
      T "
            </div>
          </div>
          <div class=`stat-card`>
            <span class=`stat-label`>Workflows</span>
            <span class=`stat-value`>";
      H (string_of_Z (Z.of_nat (length allWorkflows)));
      T "</span>
            <div class=`kpi-subtext`>
              <span class=`kpi-sub-pill kpi-info`>";
      H (string_of_Z inFlightWfs);
      T " in flight</span>
              <span class=`kpi-sub-pill ";
      H (if 0 <? failedWfs then "kpi-error" else "kpi-success");
      T "`>";
      H (string_of_Z failedWfs);
      T " errors</span>
            </div>
          </div>
          <div class=`stat-card`>
            <span class=`stat-label`>Active Queues & Schedules</span>
            <span class=`stat-value`>";
      H (string_of_Z (totalQueues + totalSchedules));
      T "</span>
            <div class=`kpi-subtext`>
              <span class=`kpi-sub-pill`>";
      H (string_of_Z totalQueues);
      T " queues</span>
              <span class=`kpi-sub-pill`>";
      H (string_of_Z totalSchedules);
      T " schedules</span>
            </div>
          </div>
        </div>
      "] else tpl [T "
        <div class=`stat-grid`>
          <div class=`stat-card`>
            <span class=`stat-label`>Applications</span>
            <span class=`stat-value`>";
      H (string_of_Z (Z.of_nat (length allApps)));
      T "</span>
            <div class=`kpi-subtext`>
              <span class=`kpi-sub-pill kpi-success`>";
      H (string_of_Z (Z.of_nat (length (keep (λ a, is_str (field a "status") "AVAILABLE") allApps))));
      T " active</span>
            </div>
          </div>
          <div class=`stat-card`>
            <span class=`stat-label`>Connected Executors</span>
            <span class=`stat-value`>";
      H (string_of_Z activeExecutors);
      T "</span>
            <div class=`kpi-subtext`>
              <span class=`kpi-sub-pill kpi-success`>";
      H (string_of_Z activeExecutors);
      T " healthy</span>
              ";
      H (if 0 <? disconnectedExecutors then tpl [T "<span class=`kpi-sub-pill kpi-error`>";
      H (string_of_Z disconnectedExecutors);
      T " disconnected</span>"] else tpl [T "<span class=`kpi-sub-pill`>0 disconnected</span>"]);
      T "
            </div>
          </div>
          <div class=`stat-card`>
            <span class=`stat-label`>Fleet Workflows</span>
            <span class=`stat-value`>";
      H (string_of_Z (Z.of_nat (length allWorkflows)));
      T "</span>
            <div class=`kpi-subtext`>
              <span class=`kpi-sub-pill kpi-info`>";
      H (string_of_Z inFlightWfs);
      T " in flight</span>
              <span class=`kpi-sub-pill ";
      H (if 0 <? failedWfs then "kpi-error" else "kpi-success");
      T "`>";
      H (string_of_Z failedWfs);
      T " errors</span>
            </div>
          </div>
          <div class=`stat-card`>
            <span class=`stat-label`>Active Queues & Schedules</span>
            <span class=`stat-value`>";
      H (string_of_Z (totalQueues + totalSchedules));
      T "</span>
            <div class=`kpi-subtext`>
              <span class=`kpi-sub-pill`>";
      H (string_of_Z totalQueues);
      T " queues</span>
              <span class=`kpi-sub-pill`>";
      H (string_of_Z totalSchedules);
      T " schedules</span>
            </div>
          </div>
        </div>
      "].

Definition app_row (metrics : list (jval * app_metrics)) (a : jval) : string :=
  let m := metrics_of metrics a in tpl [T "
                    <tr>
                      <td>
                        <a href=`#/fleet` class=`clickable-app-name` data-app-change='";
      H (esc (field a "name"));
      T "' style=`font-weight:600; text-decoration:none; color:inherit;` title=`Inspect ";
      H (esc (field a "name"));
      T " details on Fleet view`>
                          ";
      H (esc (field a "name"));
      T "
                        </a>
                      </td>
                      <td>";
      H (renderStatusPill (field a "status"));
      T "</td>
                      <td><span class=`badge badge-neutral`>";
      H (esc (jor (field a "language") (JStr "dbos")));
      T "</span></td>
                      <td>
                        <span class=`badge ";
      H (if 0 <? (m_healthyExecutors m) then "badge-success" else "badge-neutral");
      T "`>
                          ";
      H (string_of_Z (m_healthyExecutors m));
      T " live
                        </span>
                      </td>
                      <td>
                        <span class=`badge ";
      H (if 0 <? (m_healthyExecutors m) then "badge-success" else "badge-warning");
      T "` style=`font-size:11px;` title=`";
      H (if 0 <? (m_healthyExecutors m) then ("Data plane active via " +:+ (string_of_Z (m_healthyExecutors m))) +:+ " connected executor(s)" else "No live executors connected");
      T "`>
                          ";
      H (if 0 <? (m_healthyExecutors m) then "Executor Hub" else "No Executors");
      T "
                        </span>
                      </td>
                      <td>";
      H (string_of_Z (m_workflowsCount m));
      T " recorded</td>
                      <td>";
      H (string_of_Z (m_queuesCount m));
      T "q / ";
      H (string_of_Z (m_schedulesCount m));
      T "s</td>
                      <td>
                        <div style=`display:flex; gap:6px;`>
                          <button class=`btn btn-xs btn-secondary` data-app-change='";
      H (esc (field a "name"));
      T "' title=`Inspect application details on Fleet view`>Details</button>
                          <button class=`btn btn-xs btn-secondary` data-app-change='";
      H (esc (field a "name"));
      T "' data-navigate=`workflows`>Workflows</button>
                        </div>
                      </td>
                    </tr>
                  "].

Definition app_section_html (appName : string) (isFiltered : bool) (selectedApp : jval) (allApps : list jval)
    (activeExecutors : Z) (metrics : list (jval * app_metrics)) : string :=
  if isFiltered then tpl [T "
        <div class=`card`>
          <div class=`card-header`>
            <div>
              <span class=`card-title`>Application Details: ";
      H (escapeHtml appName);
      T "</span>
              <span class=`card-note`>Runtime configuration</span>
            </div>
            <div style=`display:flex; gap:6px;`>
              <button class=`btn btn-xs btn-secondary` data-app-change='";
      H (escapeHtml appName);
      T "' data-navigate=`workflows`>Workflows</button>
              <button class=`btn btn-xs btn-secondary` data-app-change='";
      H (escapeHtml appName);
      T "' data-navigate=`queues`>Queues</button>
            </div>
          </div>
          <div class=`card-body`>
            <div class=`stat-grid`>
              <div>
                <span class=`stat-label`>Application Name</span>
                <div><strong>";
      H (escapeHtml appName);
      T "</strong></div>
              </div>
              <div>
                <span class=`stat-label`>Runtime Language</span>
                <div><span class=`badge badge-neutral`>";
      H (esc (if truthy (selectedApp) then jor (field selectedApp "language") (JStr "dbos") else JStr "-"));
      T "</span></div>
              </div>
              <div>
                <span class=`stat-label`>Executor Timeout</span>
                <div>";
      H (js_string (if truthy (selectedApp) then jor (field selectedApp "executorTimeoutSecs") (JNum 60) else JNum 60));
      T " seconds</div>
              </div>
              <div>
                <span class=`stat-label`>Network Mode</span>
                <div>";
      H (if (truthy (selectedApp)) && (truthy (field selectedApp "privateMode")) then "Private network" else "Public access");
      T "</div>
              </div>
              <div>
                <span class=`stat-label`>Live Executors</span>
                <div>
                  <span class=`badge ";
      H (if 0 <? activeExecutors then "badge-success" else "badge-neutral");
      T "`>
                    ";
      H (string_of_Z activeExecutors);
      T " live
                  </span>
                </div>
              </div>
              <div>
                <span class=`stat-label`>Data Access Mode</span>
                <div>
                  <span class=`badge ";
      H (if 0 <? activeExecutors then "badge-success" else "badge-warning");
      T "` title=`";
      H (if 0 <? activeExecutors then "Operational telemetry accessible via active executor runtime" else "No live executors connected for application database queries");
      T "`>
                    ";
      H (if 0 <? activeExecutors then tpl [T "Executor Hub (";
      H (string_of_Z activeExecutors);
      T " active)"] else "No Live Executors");
      T "
                  </span>
                </div>
              </div>
            </div>
            <div class=`data-plane-note`>
              <svg width=`16` height=`16` viewBox=`0 0 24 24` fill=`none` stroke=`currentColor` stroke-width=`1.8` stroke-linecap=`round` stroke-linejoin=`round` aria-hidden=`true`>
                <ellipse cx=`12` cy=`5` rx=`9` ry=`3`></ellipse>
                <path d=`M21 12c0 1.66-4 3-9 3s-9-1.34-9-3`></path>
                <path d=`M3 5v14c0 1.66 4 3 9 3s9-1.34 9-3V5`></path>
              </svg>
              <div>
                <div class=`data-plane-note-title`>Application data plane</div>
                <div>
                  ";
      H (if 0 <? activeExecutors then tpl [T "Operational telemetry and workflow dispatches are serviced via ";
      H (string_of_Z activeExecutors);
      T " connected ";
      H (if activeExecutors =? 1 then "executor" else "executors");
      T " connecting to the application system database. Relay coordinates executions without storing database credentials."] else "No executors are currently connected. Live dispatch and queue operations require an active executor connected to the application database (or direct data plane fallback configured in Relay server).");
      T "
                </div>
              </div>
            </div>
          </div>
        </div>
      "] else tpl [T "
        <div class=`card`>
          <div class=`card-header`>
            <div>
              <span class=`card-title`>Applications</span>
              <span class=`card-note`>Registered applications in fleet</span>
            </div>
            <span class=`badge badge-neutral`>";
      H (string_of_Z (Z.of_nat (length allApps)));
      T " total</span>
          </div>
          <div class=`table-container`>
            <table class=`data-table app-table`>
              <thead>
                <tr>
                  <th>Application</th>
                  <th>Status</th>
                  <th>Runtime</th>
                  <th>Live Executors</th>
                  <th>Data Access</th>
                  <th>Workflows</th>
                  <th>Queues / Schedules</th>
                  <th>Actions</th>
                </tr>
              </thead>
              <tbody>
                ";
      H (if 0 <? (Z.of_nat (length allApps)) then map_join (app_row metrics) allApps else tpl [T "<tr><td colspan=`8` style=`text-align:center; color:var(--faint); padding:24px;`>No applications registered.</td></tr>"]);
      T "
              </tbody>
            </table>
          </div>
        </div>
      "].

Definition recent_row (isFiltered : bool) (w : jval) : string :=
  tpl [T "
                  <tr class=`clickable` tabindex=`0` role=`button` aria-label=`View workflow ";
      H (esc (field w "workflowId"));
      T "` data-navigate=`workflow/";
      H (esc (field w "workflowId"));
      T "` data-wf-app=`";
      H (esc (field w "appName"));
      T "`>
                    <td>";
      H (renderStatusPill (field w "status"));
      T "</td>
                    ";
      H (if negb isFiltered then tpl [T "<td><span class=`badge badge-info`>";
      H (esc (field w "appName"));
      T "</span></td>"] else "");
      T "
                    <td><code>";
      H (esc (truncate (field w "workflowId") 22));
      T "</code></td>
                    <td><strong>";
      H (esc (jor (field w "workflowName") (JStr "unnamed")));
      T "</strong></td>
                    <td>";
      H (esc (jor (field w "queueName") (JStr "default")));
      T "</td>
                    <td>
                      <span class=`relative-time` title=`";
      H (formatTimestamp (field w "createdAt"));
      T "`>
                        ";
      H (formatRelativeTime (field w "createdAt"));
      T "
                      </span>
                    </td>
                    <td>";
      H (calculateDuration (field w "createdAt") (field w "completedAt") (field w "status") (jor (field w "durationMs") (field w "duration_ms")));
      T "</td>
                    <td>
                      <a href=`#/workflow/";
      H (esc (field w "workflowId"));
      T "` class=`btn btn-xs btn-secondary` data-navigate=`workflow/";
      H (esc (field w "workflowId"));
      T "` data-wf-app=`";
      H (esc (field w "appName"));
      T "`>Inspect</a>
                    </td>
                  </tr>
                "].

Definition executor_row (isFiltered : bool) (e : jval) : string :=
  tpl [T "
                  <tr>
                    <td><code>";
      H (esc (field e "executorId"));
      T "</code></td>
                    ";
      H (if negb isFiltered then tpl [T "<td><span class=`badge badge-info`>";
      H (esc (field e "appName"));
      T "</span></td>"] else "");
      T "
                    <td>";
      H (renderStatusPill (field e "status"));
      T "</td>
                    <td>";
      H (esc (jor (field e "hostname") (JStr "localhost")));
      T "</td>
                    <td><span class=`badge`>";
      H (esc (jor (field e "appVersion") (JStr "v1.0.0")));
      T "</span></td>
                    <td>";
      H (esc (jor (field e "language") (JStr "unknown")));
      T "</td>
                    <td>";
      H (formatTimestamp (field e "updatedAt"));
      T "</td>
                  </tr>
                "].

Definition fleet_page_html (appName : string) (isFiltered : bool) (recentWorkflows allExecutors : list jval)
    (filterBannerHtml kpiCardsHtml appSectionHtml : string) : string :=
  tpl [T "
        ";
      H (filterBannerHtml);
      T "
        ";
      H (kpiCardsHtml);
      T "
        ";
      H (appSectionHtml);
      T "

        <div class=`card`>
          <div class=`card-header`>
            <div>
              <span class=`card-title`>";
      H (if isFiltered then tpl [T "Recent Workflows (";
      H (escapeHtml appName);
      T ")"] else "Recent Fleet Workflows");
      T "</span>
              <span class=`card-note`>
                ";
      H (if isFiltered then tpl [T "Live operational telemetry for ";
      H (escapeHtml appName)] else "Live operational telemetry across applications");
      T "
              </span>
            </div>
            <a href=`#/workflows` class=`btn btn-xs btn-secondary` data-navigate=`workflows`>
              ";
      H (if isFiltered then "View app workflows" else "View all workflows");
      T "
            </a>
          </div>
          <div class=`table-container`>
            <table class=`data-table workflow-table`>
              <thead>
                <tr>
                  <th>Status</th>
                  ";
      H (if negb isFiltered then "<th>Application</th>" else "");
      T "
                  <th>Workflow ID</th>
                  <th>Name</th>
                  <th>Queue</th>
                  <th>Started</th>
                  <th>Duration</th>
                  <th>Action</th>
                </tr>
              </thead>
              <tbody>
                ";
      H (if 0 <? (Z.of_nat (length recentWorkflows)) then map_join (recent_row isFiltered) recentWorkflows else tpl [T "<tr><td colspan=`";
      H (if isFiltered then "7" else "8");
      T "` style=`text-align:center; color:var(--faint); padding:24px;`>No workflow executions recorded";
      H (if isFiltered then tpl [T " for ";
      H (escapeHtml appName)] else " across applications");
      T ".</td></tr>"]);
      T "
              </tbody>
            </table>
          </div>
        </div>

        <div class=`card`>
          <div class=`card-header`>
            <div>
              <span class=`card-title`>";
      H (if isFiltered then tpl [T "Connected Executors (";
      H (escapeHtml appName);
      T ")"] else "Connected Executors");
      T "</span>
              <span class=`card-note`>
                ";
      H (if isFiltered then tpl [T "Live nodes connected for ";
      H (escapeHtml appName)] else "Live nodes connected to Relay");
      T "
              </span>
            </div>
            <span class=`badge badge-neutral`>";
      H (string_of_Z (Z.of_nat (length allExecutors)));
      T " total</span>
          </div>
          <div class=`table-container`>
            <table class=`data-table executor-table`>
              <thead>
                <tr>
                  <th>Executor ID</th>
                  ";
      H (if negb isFiltered then "<th>Application</th>" else "");
      T "
                  <th>Status</th>
                  <th>Hostname</th>
                  <th>Version</th>
                  <th>Language</th>
                  <th>Last Seen</th>
                </tr>
              </thead>
              <tbody>
                ";
      H (if 0 <? (Z.of_nat (length allExecutors)) then map_join (executor_row isFiltered) allExecutors else tpl [T "<tr><td colspan=`";
      H (if isFiltered then "6" else "7");
      T "` style=`text-align:center; color:var(--faint); padding:24px;`>No executors currently connected";
      H (if isFiltered then tpl [T " for ";
      H (escapeHtml appName)] else "");
      T ".</td></tr>"]);
      T "
              </tbody>
            </table>
          </div>
        </div>
      "].

Definition fleet_html (appName : string) (allApps : list jval) (t : totals) : string :=
  let isFiltered := negb (String.eqb appName "") in
  let selectedApp := selected_app appName allApps in
  let activeExecutors := status_count ["HEALTHY"] (t_executors t) in
  fleet_page_html appName isFiltered (recent_workflows (t_workflows t)) (t_executors t)
    (filter_banner_html appName isFiltered selectedApp)
    (kpi_cards_html isFiltered selectedApp allApps (t_workflows t) activeExecutors
       (status_count ["DISCONNECTED"] (t_executors t))
       (status_count ["PENDING"; "ENQUEUED"] (t_workflows t)) (status_count ["ERROR"] (t_workflows t))
       (t_queues t) (t_schedules t))
    (app_section_html appName isFiltered selectedApp allApps activeExecutors (t_metrics t)).

(** The screen, once the applications are loaded, and the map of the
    applications of the workflows; [None]: an answer is no list, or has no
    objects, and the screen throws or counts what is not there. *)
Definition renderFleetScreen (appName : string) (allApps : list jval) (m : gmap string string)
    : option (string * gmap string string) :=
  match mapM ask_overview (effective_apps appName allApps) with
  | None => None
  | Some os => let t := totals_of m os in Some (fleet_html appName allApps t, t_map t)
  end.
End Fleet.

(** ** Properties *)

(** The sum of a count over the applications. *)
Definition sum_by {A} (f : A → Z) (l : list A) : Z := fold_right (λ x n, f x + n) 0 l.

Lemma sum_by_app {A} (f : A → Z) l l' : sum_by f (l ++ l') = sum_by f l + sum_by f l'.
Proof. unfold sum_by. induction l as [|x l IH]; [done|]. rewrite <- app_comm_cons. cbn [fold_right]. lia. Qed.

Lemma sum_by_one {A} (f : A → Z) x : sum_by f [x] = f x.
Proof. unfold sum_by. cbn. lia. Qed.

Lemma sum_by_ext {A} (f g : A → Z) l : (∀ x, x ∈ l → f x = g x) → sum_by f l = sum_by g l.
Proof.
  unfold sum_by. induction l as [|x l IH]; intros H; [done|]. cbn [fold_right].
  rewrite H, IH; [done| |]; set_solver.
Qed.

Lemma sum_by_map {A B} (f : B → Z) (g : A → B) l : sum_by f (map g l) = sum_by (λ x, f (g x)) l.
Proof. unfold sum_by. induction l as [|x l IH]; [done|]. cbn. by rewrite IH. Qed.

Lemma status_count_app st l l' : status_count st (l ++ l') = status_count st l + status_count st l'.
Proof. unfold status_count, keep. rewrite List.filter_app, length_app. lia. Qed.

(** Rows keep their status when they are given an application. *)
Lemma status_count_tagged st name l :
  forallb (λ v, negb (nullish v)) l = true → status_count st (map (tagged name) l) = status_count st l.
Proof.
  intros H. unfold status_count. f_equal. induction l as [|x l IH]; [done|].
  cbn [forallb] in H. apply andb_true_iff in H as [Hx%negb_true_iff Hl].
  unfold keep in *. cbn [map List.filter]. rewrite (tagged_field name x "status") by done.
  destruct (some _ _); cbn [length]; by rewrite IH.
Qed.

Definition clean_rows (o : overview) : Prop :=
  forallb (λ v, negb (nullish v)) (o_executors o) = true ∧ forallb (λ v, negb (nullish v)) (o_workflows o) = true.

(** The totals, as sums over the answers. *)
Record sums (t : totals) (os : list overview) : Prop := {
  su_executors : t_executors t = concat (map (λ o, map (tagged (field (o_app o) "name")) (o_executors o)) os);
  su_workflows : t_workflows t = concat (map (λ o, map (tagged (field (o_app o) "name")) (o_workflows o)) os);
  su_queues : t_queues t = sum_by (λ o, Z.of_nat (length (o_queues o))) os;
  su_schedules : t_schedules t = sum_by (λ o, Z.of_nat (length (o_schedules o))) os;
  su_metrics : t_metrics t = map metrics_entry os }.

Lemma totals_sums m os : sums (totals_of m os) os.
Proof.
  unfold totals_of. induction os as [|o os IH] using rev_ind; [by split|].
  rewrite foldl_app. cbn [foldl]. revert IH. generalize (foldl add_overview (Totals [] [] 0 0 [] m) os).
  intros t [H1 H2 H3 H4 H5].
  split; unfold add_overview; cbn [t_executors t_workflows t_queues t_schedules t_metrics];
    rewrite ?H1, ?H2, ?H3, ?H4, ?H5, ?map_app, ?concat_app, ?sum_by_app, ?sum_by_one;
    cbn [map concat]; by rewrite ?app_nil_r.
Qed.

Lemma sums_statuses t os st :
  sums t os → Forall clean_rows os →
  status_count st (t_executors t) = sum_by (λ o, status_count st (o_executors o)) os ∧
  status_count st (t_workflows t) = sum_by (λ o, status_count st (o_workflows o)) os.
Proof.
  intros [He Hw _ _ _] Hc. rewrite He, Hw. clear He Hw.
  induction Hc as [|o os [H1 H2] _ [IH1 IH2]]; [done|]. cbn [map concat]. unfold sum_by in *. cbn [fold_right].
  rewrite !status_count_app, !status_count_tagged, IH1, IH2 by done. done.
Qed.

(** With distinct names, an application finds the counts of its own answers. *)
Lemma own_metrics os o :
  NoDup (map (λ o, js_string (field (o_app o) "name")) os) →
  Forall (λ o, ∃ n, field (o_app o) "name" = JStr n) os → o ∈ os →
  metrics_of (map metrics_entry os) (o_app o) = snd (metrics_entry o).
Proof.
  intros Hn Hs Ho. unfold metrics_of.
  assert (Hf : ∀ l, (∀ x, x ∈ l → x ∈ os) → o ∈ l →
    find (λ e, key_eqb (fst e) (field (o_app o) "name")) (map metrics_entry l) = Some (metrics_entry o)).
  { rewrite Forall_forall in Hs. destruct (Hs o Ho) as [n En].
    induction l as [|x l IH]; intros Hl Hin; [set_solver|]. unfold find in *. cbn [map List.find].
    destruct (Hs x (Hl x ltac:(set_solver))) as [n' En'].
    unfold metrics_entry at 1. cbn [fst]. rewrite En, En'. cbn [key_eqb].
    destruct (String.eqb_spec n' n) as [->|Hne].
    - f_equal. f_equal. apply list_elem_of_lookup in Ho as [i Hi].
      destruct (proj1 (list_elem_of_lookup _ _) (Hl x ltac:(set_solver))) as [j Hj].
      assert (i = j) as <-; [|congruence].
      eapply (NoDup_lookup _ i j _ Hn); rewrite list_lookup_fmap, ?Hi, ?Hj; cbn; by rewrite ?En, ?En'.
    - rewrite <- En. apply IH; [set_solver|]. apply elem_of_cons in Hin as [->|Hin]; [congruence|done]. }
  rewrite <- map_rev. rewrite (Hf (List.rev os)).
  - by destruct (metrics_entry o).
  - intros x. by rewrite !list_elem_of_In, <- in_rev.
  - rewrite list_elem_of_In, <- in_rev. by apply list_elem_of_In.
Qed.

(** What the calls about an application gave, when the screen draws. *)
Lemma asked_clean request org apps os :
  mapM (ask_overview request org) apps = Some os →
  map o_app os = apps ∧ Forall clean_rows os.
Proof.
  intros H%mapM_Some. induction H as [|a o apps os Ha _ [<- IH]]; [by split|].
  unfold ask_overview in Ha. repeat case_match; try done. injection Ha as <-.
  match goal with E : forallb _ _ = true |- _ => rewrite forallb_app, andb_true_iff in E end.
  split; [done|]. by constructor.
Qed.


(** The recent workflows are the newest: those left out are not newer. *)
Lemma recent_newest l :
  (∀ w, w ∈ l → is_Some (created w)) →
  ∃ rest, recent_workflows l ++ rest ≡ₚ l ∧ (length (recent_workflows l) = 8%nat ∨ rest = []) ∧
    ∀ a b, a ∈ recent_workflows l → b ∈ rest → default 0 (created b) <= default 0 (created a).
Proof.
  intros Hl. pose proof (newest_sorted l Hl) as Hs. exists (drop 8 (js_sort newest l)).
  unfold recent_workflows. split_and!.
  - rewrite take_drop. apply js_sort_perm.
  - destruct (decide (8 <= length (js_sort newest l))%nat).
    + left. rewrite length_take. lia.
    + right. apply drop_ge. lia.
  - intros a b Ha Hb. rewrite <- (take_drop 8 (js_sort newest l)) in Hs.
    revert Hs Ha. generalize (take 8 (js_sort newest l)). intros pre Hs Ha.
    induction pre as [|x pre IH]; [set_solver|]. rewrite <- app_comm_cons in Hs.
    apply StronglySorted_inv in Hs as [Hs Hf]. rewrite Forall_forall in Hf.
    apply elem_of_cons in Ha as [->|Ha]; [apply Hf; set_solver|by apply IH].
Qed.

(** ** What the page offers *)

Section Offers.
Context (locale : jval → string) (now : Z) (locale_inert : ∀ v, Inert (locale v)).

Local Instance fleet_timestamp_inert v : Inert (formatTimestamp locale v).
Proof. by apply timestamp_inert. Qed.
Local Instance fleet_duration_inert a b s d : Inert (calculateDuration now a b s d).
Proof. apply duration_inert. Qed.
Local Instance relative_inert v : Inert (formatRelativeTime now v).
Proof. unfold formatRelativeTime. repeat case_match; apply _. Qed.

Lemma app_row_offers metrics a :
  let name := esc (field a "name") in
  scans Text (app_row metrics a)
    [[("data-app-change", name)]; [("data-app-change", name)];
     [("data-app-change", name); ("data-navigate", "workflows")]] Text.
Proof.
  cbv zeta. unfold app_row. generalize (metrics_of metrics a). intros mt. cbv zeta.
  hide (esc (field a "name")). read_all. same_offer.
Qed.

Lemma executor_row_offers isFiltered x : scans Text (executor_row locale isFiltered x) [] Text.
Proof. unfold executor_row. read_all. same_offer. Qed.

Definition raw_link (w : jval) : dataset :=
  two "data-navigate" ("workflow/" +:+ esc (field w "workflowId")) "data-wf-app" (esc (field w "appName")).

Lemma recent_row_offers isFiltered w :
  scans Text (recent_row locale now isFiltered w) [raw_link w; raw_link w] Text.
Proof.
  unfold recent_row, raw_link. hide (esc (field w "workflowId")). hide (esc (field w "appName")).
  read_all. same_offer.
Qed.

Lemma banner_offers appName isFiltered sel :
  scans Text (filter_banner_html appName isFiltered sel)
    (if isFiltered then [[("data-app-change", "")]] else []) Text.
Proof. unfold filter_banner_html. destruct isFiltered; [|apply scans_empty]. read_all. same_offer. Qed.

Lemma timeout_inert sel :
  numeric (field sel "executorTimeoutSecs") = true →
  Inert (js_string (if truthy sel then jor (field sel "executorTimeoutSecs") (JNum 60) else JNum 60)).
Proof.
  intros H. apply numeric_inert. destruct (truthy sel); [|done]. unfold jor. by destruct (truthy _).
Qed.

Lemma kpi_offers isFiltered sel apps wfs a b c d e g :
  numeric (field sel "executorTimeoutSecs") = true →
  scans Text (kpi_cards_html isFiltered sel apps wfs a b c d e g) [] Text.
Proof.
  intros H%timeout_inert. unfold kpi_cards_html. destruct isFiltered; (eapply scans_to; [read_page|same_offer]).
Qed.

Lemma section_offers appName isFiltered sel apps active metrics :
  numeric (field sel "executorTimeoutSecs") = true →
  scans Text (app_section_html appName isFiltered sel apps active metrics)
    (if isFiltered
     then [[("data-app-change", escapeHtml appName); ("data-navigate", "workflows")];
           [("data-app-change", escapeHtml appName); ("data-navigate", "queues")]]
     else concat (map (λ a, let name := esc (field a "name") in
            [[("data-app-change", name)]; [("data-app-change", name)];
             [("data-app-change", name); ("data-navigate", "workflows")]]) apps)) Text.
Proof.
  intros H%timeout_inert. unfold app_section_html. destruct isFiltered.
  - hide (escapeHtml appName). read_all. same_offer.
  - assert (offers_rows (app_row metrics) _ apps) as Ho by (intros a _; apply app_row_offers).
    read_all. by offered.
Qed.

(** The names the page gives its elements are those of the applications and
    workflows shown, as they are. *)
Definition app_buttons (a : jval) : list dataset :=
  let name := shown (field a "name") in
  [[("appChange", name)]; [("appChange", name)]; [("appChange", name); ("navigate", "workflows")]].

Definition unencoded_link (w : jval) : dataset :=
  [("navigate", "workflow/" +:+ shown (field w "workflowId")); ("wfApp", shown (field w "appName"))].

Lemma decode_link v : decode_entities ("workflow/" +:+ esc v) = "workflow/" +:+ shown v.
Proof. rewrite <- decode_esc. reflexivity. Qed.

Lemma page_offers appName fil recent execs banner ob cards section oa :
  scans Text banner ob Text → scans Text cards [] Text → scans Text section oa Text →
  scans Text (fleet_page_html locale now appName fil recent execs banner cards section)
    (ob ++ oa ++ [("data-navigate", "workflows")] :: concat (map (λ w, [raw_link w; raw_link w]) recent)) Text.
Proof.
  intros Hb Hk Ha.
  assert (offers_rows (recent_row locale now fil) _ recent) as Hr by (intros w _; apply recent_row_offers).
  assert (offers_rows (executor_row locale fil) (λ _, []) execs) as He by (intros x _; apply executor_row_offers).
  unfold fleet_page_html. read_all. offered. repeat f_equal.
  assert (concat (map (λ _ : jval, []) execs) = ([] : list dataset)) as -> by (clear; by induction execs).
  by rewrite app_nil_r.
Qed.

Lemma read_link w : map read_attr (raw_link w) = unencoded_link w.
Proof.
  unfold raw_link, two. cbn [map]. unfold read_attr. cbn [fst snd]. by rewrite decode_link, decode_esc.
Qed.

(** The fleet page offers exactly the buttons of the applications and the
    links of the recent workflows, whatever names and identifiers the answers
    hold: reading the drawn page back finds, in order, the buttons of the scope,
    the link to the workflows and two links for every recent workflow, with that
    workflow's identifier and application, and nothing else. *)
Theorem fleet_page_offers appName apps t :
  numeric (field (selected_app appName apps) "executorTimeoutSecs") = true →
  elements (fleet_html locale now appName apps t) =
  (if negb (String.eqb appName "")
   then [[("appChange", "")]; [("appChange", appName); ("navigate", "workflows")];
         [("appChange", appName); ("navigate", "queues")]]
   else concat (map app_buttons apps)) ++
  [[("navigate", "workflows")]] ++
  concat (map (λ w, [unencoded_link w; unencoded_link w]) (recent_workflows (t_workflows t))).
Proof.
  intros Hn. unfold fleet_html. cbv zeta. set (fil := negb (String.eqb appName "")).
  erewrite elements_of by
    (apply page_offers; [apply banner_offers|by apply kpi_offers|by apply section_offers]).
  rewrite map_app, map_app. cbn [map].
  rewrite (read_rows _ (λ w, [unencoded_link w; unencoded_link w]))
    by (intros w _; cbn [map]; by rewrite read_link).
  destruct fil; cbn [map].
  - unfold read_attr. cbn [fst snd].
    by rewrite (esc_decode appName : decode_entities (escapeHtml appName) = appName).
  - rewrite (read_rows _ app_buttons); [done|].
    intros a _. unfold app_buttons. cbn [map]. unfold read_attr. cbn [fst snd]. by rewrite decode_esc.
Qed.
End Offers.

(** ** The fleet screen over the control plane *)

Definition listed : jval :=
  JObj [("workflowId", JStr "order/7 100%"); ("appName", JStr "shop"); ("status", JStr "PENDING")].

Definition shop_fleet : list jval := map (λ a, JObj (app_fields a)) (s_apps (initial_state "t")).


Lemma fleet_page_offers_witness :
  elements (fleet_html plain_dates 0 "it's & co" [] (Totals [] [listed] 0 0 [] ∅)) =
    [[("appChange", "")]; [("appChange", "it's & co"); ("navigate", "workflows")];
     [("appChange", "it's & co"); ("navigate", "queues")]; [("navigate", "workflows")];
     unencoded_link listed; unencoded_link listed].
Proof.
  exact (fleet_page_offers plain_dates 0 ltac:(intros v; vm_compute; reflexivity) "it's & co" []
    (Totals [] [listed] 0 0 [] ∅) eq_refl).
Defined.

(** A chosen application that is not there: the page says it is filtered to it
    and shows the answers of all the others. *)
Lemma missing_application_shows_all :
  effective_apps "gone" shop_fleet = shop_fleet ∧ selected_app "gone" shop_fleet = JUndef ∧
  includes (filter_banner_html "gone" true JUndef) "Filtered to application" = true.
Proof. vm_compute. repeat split. Qed.
