(* ===== verification/ConsoleLinks.v ===== *)
(** From a row of a drawn page to the screen it opens: the page, the click, the
    address and the request of the next screen, together. *)

From Stdlib Require Import ZArith Lia Ascii String.
From stdpp Require Import base list strings gmap sets.
From S2P Require Import Prelude Html HtmlScan Json JsonSpec JsDate JsNumber Uri.
From S2P Require Import BridgeState BridgeSpec ApiClient ClientServe.
From S2P Require Import ConsoleView ConsoleState ConsoleSpec ConsoleClicks ConsoleWidgets.
From S2P Require Import ConsoleLists ConsoleListsSpec ConsoleFleet.
Import Client.

Lemma held_drop s : held "'" s = true → drop_apostrophes s = s.
Proof.
  unfold drop_apostrophes. induction s as [|a s IH]; intros H; [done|].
  change (held "'" (String a s)) with (negb (Ascii.eqb a "'") && held "'" s) in H.
  apply andb_true_iff in H as [Ha Hs]. cbn [sfilter]. by rewrite Ha, IH.
Qed.



(** The links of the fleet page are not encoded: an identifier with a slash
    opens another workflow. *)
Lemma fleet_link_not_encoded :
  unencoded_link listed = [("navigate", "workflow/order/7 100%"); ("wfApp", "shop")] ∧
  h_wf (k_shell (handle opens HashChange (handle opens
    (ClickNavigate "workflow/order/7 100%" "shop") (session None started)))) = Some "order".
Proof. split; vm_compute; reflexivity. Qed.
