(* ===== verification/ConsoleWorkflow.v ===== *)
(** The screen of one workflow (app.js): the application it is found in, the
    workflow with its steps and the workflows its steps started, the page, and
    the tabs below the diagram. *)

From Stdlib Require Import ZArith Lia Ascii String.
From stdpp Require Import base list strings gmap sets.
From S2P Require Import Prelude Html HtmlScan Json JsonSpec JsDate JsNumber Uri.
From S2P Require Import WorkflowDag ApiClient ClientServe ConsoleView ConsoleState ConsoleWidgets ConsoleLists.
Import Client.

(** What a call that succeeds gives; [None]: it throws. *)
Definition resolved (a : Client.answer) : option jval :=
  match a with Got v => Some v | GotText s => Some (JStr s) | Refused _ | Broken => None end.

Definition fields_of (v : jval) : list (string * jval) := match v with JObj fs => fs | _ => [] end.

(** [workflowId] and [workflowName] of a workflow, with what stands in for them. *)
Definition workflow_id (wf id : jval) : jval := jor (jor (field wf "workflowId") (field wf "workflow_id")) id.
Definition workflow_name (wf id : jval) : jval :=
  jor (jor (jor (field wf "workflowName") (field wf "workflow_name")) (field wf "name")) id.

Section Data.
Context (request : operation → Client.answer) (org : string).

(** ** The application of the workflow *)

(** The first application that answers for the workflow. *)
Definition owner (apps : list jval) (id : string) : option jval :=
  find (λ app, match resolved (request (GetWorkflow org (js_string (field app "name")) id)) with
               | Some _ => true | None => false end) apps.

Definition remembered (selectedApp appName : string) (m : gmap string string) (id : string) : string :=
  or_else selectedApp (or_else (default "" (m !! id)) appName).

Definition first_app (appName : string) (apps : list jval) : string :=
  or_else appName (match apps with app :: _ => js_string (field app "name") | [] => "default" end).

(** The application asked, and the map of the applications of the workflows. *)
Definition resolve_app (selectedApp appName : string) (apps : list jval) (m : gmap string string) (id : string)
    : string * gmap string string :=
  let target := remembered selectedApp appName m id in
  if negb (String.eqb target "") then (target, m)
  else match owner apps id with
       | Some app =>
           let name := js_string (field app "name") in
           (or_else name (first_app appName apps), <[id := name]> m)
       | None => (first_app appName apps, m)
       end.

(** ** The workflows the steps started *)

Definition spawned (step : jval) : jval := jor (field step "childWorkflowId") (field step "child_workflow_id").

Definition child_data (targetApp : string) (step : jval) : jval :=
  let childId := spawned step in
  let stepId := jor (field step "stepId")
                  (JStr (js_string (jor (field step "function_id") (field step "functionId")))) in
  let '(workflow, steps) := default
    (JObj [("workflowId", childId); ("status", JStr "UNKNOWN"); ("workflowName", JStr "Child Workflow")], JArr [])
    match resolved (request (GetWorkflow org targetApp (js_string childId))),
          resolved (request (ListSteps org targetApp (js_string childId))) with
    | Some childWf, Some childSteps =>
        if nullish childWf then None
        else Some (JObj (put "workflowName" (workflow_name childWf childId)
                          (put "workflowId" (workflow_id childWf childId) (fields_of childWf))),
                   jor childSteps (JArr []))
    | _, _ => None
    end in
  JObj [("stepId", stepId); ("childWorkflowId", childId); ("workflow", workflow); ("steps", steps)].

Definition child_workflows (targetApp : string) (steps : list jval) : list jval :=
  map (child_data targetApp) (keep (λ s, truthy (spawned s)) steps).
End Data.

Definition family_data (wf : jval) (steps : list jval) (workflowId workflowName : jval) (children : list jval) : jval :=
  JObj [("root", JObj [
           ("workflow", JObj (put "status" (field wf "status")
              (put "workflowName" workflowName (put "workflowId" workflowId (fields_of wf)))));
           ("steps", JArr steps)]);
        ("children", JArr children)].

(** ** The page *)

Definition status_dot (wf : jval) : string :=
  if is_str (field wf "status") "SUCCESS" then "dot-success"
  else if is_str (field wf "status") "ERROR" then "dot-error"
  else if is_str (field wf "status") "PENDING" || is_str (field wf "status") "ENQUEUED" then "dot-running"
  else "dot-pending".

Definition parent_dot (parentInfo : jval) : string :=
  if truthy parentInfo then
    if is_str (field parentInfo "parentStatus") "SUCCESS" then "dot-success"
    else if is_str (field parentInfo "parentStatus") "ERROR" then "dot-error" else "dot-running"
  else "dot-pending".

Section Page.
Context (locale : jval → string) (now : Z).
(** The random identifier of the viewer of a value. *)
Context (viewer_id : jval → string → string).
Notation formatTimestamp := (ConsoleWidgets.formatTimestamp locale).
Notation calculateDuration := (ConsoleWidgets.calculateDuration now).

Definition viewer (data : jval) (title : string) : string := renderJsonViewer (viewer_id data title) data title.

Definition breadcrumbs_html (wf : jval) (targetApp : string) (workflowName parentInfo : jval) : string :=
  tpl [T "
        <nav class=`wf-breadcrumbs` aria-label=`Workflow Navigation Breadcrumbs`>
          <a href=`#/workflows` class=`wf-breadcrumb-link` data-navigate=`workflows` aria-label=`All workflows`>
            <svg width=`14` height=`14` viewBox=`0 0 24 24` fill=`none` stroke=`currentColor` stroke-width=`2` aria-hidden=`true`><polyline points=`15 18 9 12 15 6`/></svg>
            <span>Workflows</span>
          </a>
          <span class=`wf-breadcrumb-separator` aria-hidden=`true`>/</span>
          <span class=`badge badge-info` style=`font-size:11px;`>";
      H (escapeHtml targetApp);
      T "</span>
          <span class=`wf-breadcrumb-separator` aria-hidden=`true`>/</span>
          ";
      H (if truthy (parentInfo) then tpl [T "
            <a href=`#/workflow/";
      H (encodeURIComponent (js_string (field parentInfo "parentId")));
      T "` class=`wf-breadcrumb-link` data-navigate=`workflow/";
      H (encodeURIComponent (js_string (field parentInfo "parentId")));
      T "` data-wf-app=`";
      H (escapeHtml targetApp);
      T "` aria-label=`Parent workflow ";
      H (esc (field parentInfo "parentName"));
      T "`>
              <span class=`status-dot ";
      H ((parent_dot parentInfo));
      T "`></span>
              <span>";
      H (esc (truncate (jor (field parentInfo "parentName") (field parentInfo "parentId")) 20));
      T "</span>
            </a>
            <span class=`wf-breadcrumb-separator` aria-hidden=`true`>/</span>
          "] else "");
      T "
          <span class=`wf-breadcrumb-current` aria-current=`page`>
            <span class=`status-dot ";
      H ((status_dot wf));
      T "`></span>
            <span class=`wf-breadcrumb-name`>";
      H (esc workflowName);
      T "</span>
          </span>
        </nav>
      "].

Definition detail_html (wf : jval) (steps childWorkflows : list jval) (targetApp : string)
    (workflowId workflowName parentInfo : jval) : string :=
  tpl [T "
        ";
      H ((breadcrumbs_html wf targetApp workflowName parentInfo));
      T "

        <div class=`card`>
          <div class=`card-header`>
            <div style=`display:flex; align-items:center; gap:12px; min-width:0; overflow:hidden;`>
              <span class=`card-title` style=`white-space:nowrap; overflow:hidden; text-overflow:ellipsis; min-width:0;`>Workflow: <code>";
      H (esc workflowId);
      T "</code></span>
              ";
      H (renderStatusPill (field wf "status"));
      T "
            </div>
            <div style=`display:flex; gap:8px; flex-shrink:0;`>
              ";
      H (if (is_str (field wf "status") "PENDING") || (is_str (field wf "status") "ENQUEUED") then tpl [T "
                <button class=`btn btn-sm btn-danger` data-cancel-wf='";
      H (esc workflowId);
      T "' data-target-app='";
      H (escapeHtml targetApp);
      T "'>Cancel</button>
              "] else "");
      T "
              ";
      H (if is_str (field wf "status") "CANCELLED" then tpl [T "
                <button class=`btn btn-sm btn-primary` data-resume-wf='";
      H (esc workflowId);
      T "' data-target-app='";
      H (escapeHtml targetApp);
      T "'>Resume</button>
              "] else "");
      T "
              ";
      H (if is_str (field wf "status") "ERROR" then tpl [T "
                <button class=`btn btn-sm btn-primary` data-restart-wf='";
      H (esc workflowId);
      T "' data-target-app='";
      H (escapeHtml targetApp);
      T "'>Restart</button>
              "] else "");
      T "
              <button class=`btn btn-sm btn-secondary` data-action=`openSendMessage`>Send</button>
            </div>
          </div>
          <div class=`card-body`>
            <div class=`stat-grid`>
              <div>
                <span class=`stat-label`>Application</span>
                <div><span class=`badge badge-info`>";
      H (escapeHtml targetApp);
      T "</span></div>
              </div>
              <div>
                <span class=`stat-label`>Workflow Name</span>
                <div style=`word-break:break-all;`><strong>";
      H (esc workflowName);
      T "</strong></div>
              </div>
              <div>
                <span class=`stat-label`>Queue</span>
                <div>";
      H (esc (jor (jor (field wf "queueName") (field wf "queue_name")) (JStr "default")));
      T "</div>
              </div>
              <div>
                <span class=`stat-label`>Created At</span>
                <div>";
      H (formatTimestamp (jor (field wf "createdAt") (field wf "created_at")));
      T "</div>
              </div>
              <div>
                <span class=`stat-label`>Duration</span>
                <div>";
      H (calculateDuration (jor (field wf "createdAt") (field wf "created_at")) (jor (field wf "completedAt") (field wf "completed_at")) (field wf "status") (jor (field wf "durationMs") (field wf "duration_ms")));
      T "</div>
              </div>
            </div>
          </div>
        </div>

        <div class=`card`>
          <div class=`card-header`>
            <span class=`card-title`>Execution Steps (";
      H (string_of_Z (Z.of_nat (length steps)));
      H (if 0 <? (Z.of_nat (length childWorkflows)) then tpl [T " + ";
      H (string_of_Z (Z.of_nat (length childWorkflows)));
      T " child workflows"] else "");
      T ")</span>
            <span style=`font-size:12px; color:var(--muted);`>Click any step to inspect parameters, output, or child executions</span>
          </div>
          <div class=`card-body` style=`padding:0;`>
            ";
      H (Svg.renderWorkflowDAG (family_data wf steps workflowId workflowName childWorkflows));
      T "
          </div>
        </div>

        <div class=`card`>
          <div class=`tab-list`>
            <button class=`tab-btn active` id=`tab-btn-io` data-wf-tab='io'>Inputs & Outputs</button>
            <button class=`tab-btn` id=`tab-btn-events` data-wf-tab='events'>Events</button>
            <button class=`tab-btn` id=`tab-btn-notifications` data-wf-tab='notifications'>Notifications</button>
          </div>
          <div class=`card-body` id=`wf-tab-content`>
            <div style=`display:grid; grid-template-columns: repeat(auto-fit, minmax(280px, 1fr)); gap: 16px;`>
              <div>
                <h4 style=`margin-bottom:8px; font-size:13px;`>Workflow Input</h4>
                ";
      H (viewer (field wf "input") "Input");
      T "
              </div>
              <div>
                <h4 style=`margin-bottom:8px; font-size:13px;`>Workflow Output / Error</h4>
                ";
      H (if truthy (field wf "error") then viewer (field wf "error") "Error" else viewer (field wf "output") "Output");
      T "
              </div>
            </div>
          </div>
        </div>
      "].

(** ** The tabs *)

Definition io_html (wf : jval) : string :=
  tpl [T "
        <div style=`display:grid; grid-template-columns: repeat(auto-fit, minmax(280px, 1fr)); gap: 16px;`>
          <div>
            <h4 style=`margin-bottom:8px; font-size:13px;`>Workflow Input</h4>
            ";
      H (viewer (field wf "input") "Input");
      T "
          </div>
          <div>
            <h4 style=`margin-bottom:8px; font-size:13px;`>Workflow Output / Error</h4>
            ";
      H (if truthy (field wf "error") then viewer (field wf "error") "Error" else viewer (field wf "output") "Output");
      T "
          </div>
        </div>
      "].

(** [list] is the content of the element event-list-container, first the loading
    text, then the list. *)
Definition events_tab_html (list : string) : string :=
  tpl [T "
        <div class=`toolbar` style=`margin-bottom:12px;`>
          <div class=`filter-group`>
            <input type=`text` id=`event-key-input` class=`input-text` placeholder=`Event key` aria-label=`Workflow event key`>
            <button class=`btn btn-sm btn-secondary` data-action=`readWorkflowEvent`>Read event</button>
          </div>
          <span class=`text-secondary` style=`font-size:12px;`>Read one event by key. The full list comes from a live executor.</span>
        </div>
        <div id=`event-read-result` style=`margin-bottom:12px;`></div>
        <div id=`event-list-container`>";
      H list;
      T "</div>
      "].

Definition event_row (e : jval) : string :=
  tpl [T "
                <tr><td><code>";
      H (esc (field e "key"));
      T "</code></td><td>";
      H (viewer (field e "value") "");
      T "</td></tr>
              "].

Definition events_html (events : list jval) : string :=
  tpl [T "
          <table class=`data-table`>
            <thead><tr><th>Event Key</th><th>Value</th></tr></thead>
            <tbody>
              ";
      H (if 0 <? (Z.of_nat (length events)) then map_join event_row events else tpl [T "<tr><td colspan=`2` style=`text-align:center; color:var(--faint);`>No events recorded.</td></tr>"]);
      T "
            </tbody>
          </table>
        "].

Definition events_need_executor_html : string :=
  tpl [T "
            <div class=`empty-state` style=`padding:24px; text-align:left;`>
              <h4 class=`empty-state-title` style=`font-size:13px;`>Event listing needs a live executor</h4>
              <p class=`empty-state-desc` style=`margin-bottom:0;`>This application serves workflow events from its system database. Read one event by key with the control above, or connect an executor to list every event.</p>
            </div>
          "].

Definition events_failed_html (message : string) : string :=
  tpl [T "
            <div class=`empty-state` style=`padding:24px; text-align:left;`>
              <h4 class=`empty-state-title` style=`font-size:13px;`>Unable to load events</h4>
              <p class=`empty-state-desc` style=`margin-bottom:0;`>";
      H (escapeHtml message);
      T "</p>
            </div>
          "].

Definition notifications_loading_html : string :=
  tpl [T "<div class=`loading-spinner`>Loading notifications...</div>"].

Definition notification_row (n : jval) : string :=
  tpl [T "
              <tr>
                <td><code>";
      H (esc (jor (field n "topic") (JStr "-")));
      T "</code></td>
                <td>";
      H (esc (field n "message"));
      T "</td>
                <td>";
      H (if truthy (field n "consumed") then "Yes" else "No");
      T "</td>
                <td>";
      H (formatTimestamp (field n "createdAt"));
      T "</td>
              </tr>
            "].

Definition notifications_html (notifs : list jval) : string :=
  tpl [T "
        <table class=`data-table`>
          <thead><tr><th>Topic</th><th>Message</th><th>Consumed</th><th>Time</th></tr></thead>
          <tbody>
            ";
      H (if 0 <? (Z.of_nat (length notifs)) then map_join notification_row notifs else tpl [T "<tr><td colspan=`4` style=`text-align:center; color:var(--faint);`>No notifications recorded.</td></tr>"]);
      T "
          </tbody>
        </table>
      "].

(** ** The screen and its tabs over the answers *)

Context (request : operation → Client.answer) (org : string).

Definition renderWorkflowDetailScreen (targetApp id : string) (parentInfo : jval) : screen :=
  match request (GetWorkflow org targetApp id) with
  | Got wf =>
      match request (ListSteps org targetApp id) with
      | Got (JArr steps) =>
          if nullish wf || negb (forallb (λ s, negb (nullish s)) steps) then Fails None
          else Drawn (detail_html wf steps (child_workflows request org targetApp steps) targetApp
                        (workflow_id wf (JStr id)) (workflow_name wf (workflow_id wf (JStr id))) parentInfo)
      | a => Fails (failure a)
      end
  | a => Fails (failure a)
  end.

(** The list of events: a call that fails is explained in its place; [None]:
    the text is that of an exception of the browser. *)
Definition list_events (targetApp id : string) : option string :=
  match request (GetWorkflowEvents org targetApp id) with
  | Got (JArr events) =>
      if forallb (λ e, negb (nullish e)) events then Some (events_html events) else None
  | Refused e =>
      Some (if isNoExecutorError e || status_is 503 e then events_need_executor_html
            else events_failed_html (e_message e))
  | _ => None
  end.

(** What the panel under the tabs shows once the answers are there: the tabs of
    the inputs and of the notifications do not catch, and what was shown when
    the call was made stays. *)
Definition switchWfTab (tab : string) (targetApp id : string) (before : string) : option string :=
  if String.eqb tab "io" then
    match request (GetWorkflow org targetApp id) with
    | Got wf => Some (if nullish wf then before else io_html wf)
    | _ => Some before
    end
  else if String.eqb tab "events" then
    events_tab_html <$> list_events targetApp id
  else if String.eqb tab "notifications" then
    match request (GetWorkflowNotifications org targetApp id) with
    | Got (JArr notifs) =>
        Some (if forallb (λ n, negb (nullish n)) notifs then notifications_html notifs
              else notifications_loading_html)
    | _ => Some notifications_loading_html
    end
  else Some before.
End Page.

(** ** The application of a workflow *)

Definition answers_for (request : operation → Client.answer) (org id : string) (app : jval) : Prop :=
  resolved (request (GetWorkflow org (js_string (field app "name")) id)) ≠ None.

Lemma owner_none request org apps id :
  (∀ a, a ∈ apps → ¬ answers_for request org id a) → owner request org apps id = None.
Proof.
  unfold owner, find. induction apps as [|a apps IH]; intros H; [done|]. cbn [List.find].
  destruct (resolved _) eqn:E; [|apply IH; set_solver].
  exfalso. apply (H a); [set_solver|]. unfold answers_for. by rewrite E.
Qed.

Lemma owner_first request org pre app post id :
  (∀ a, a ∈ pre → ¬ answers_for request org id a) → answers_for request org id app →
  owner request org (pre ++ app :: post) id = Some app.
Proof.
  intros Hp Ha. unfold owner, find. induction pre as [|a pre IH]; cbn [List.app List.find].
  - unfold answers_for in Ha. by destruct (resolved _).
  - destruct (resolved _) eqn:E; [|apply IH; set_solver].
    exfalso. apply (Hp a); [set_solver|]. unfold answers_for. by rewrite E.
Qed.

(** The screen of a workflow looks in one application.  When the row that
    was clicked, the map of the listed workflows or the choice in the header
    names one, it is that one and nothing is asked; otherwise it is the first
    application, in the order of the list, that answers for the workflow, and the
    map remembers it; and when none answers, the map is left alone and the first
    application of the list is asked, or the one called default when there is
    none. *)
Theorem workflow_found_in_its_application request org selectedApp appName apps m id :
  let '(target, m') := resolve_app request org selectedApp appName apps m id in
  (remembered selectedApp appName m id ≠ "" → target = remembered selectedApp appName m id ∧ m' = m) ∧
  (remembered selectedApp appName m id = "" →
    (∀ pre app post name, apps = pre ++ app :: post → field app "name" = JStr name → name ≠ "" →
      (∀ a, a ∈ pre → ¬ answers_for request org id a) → answers_for request org id app →
      target = name ∧ m' !! id = Some name ∧ ∀ i, i ≠ id → m' !! i = m !! i) ∧
    ((∀ a, a ∈ apps → ¬ answers_for request org id a) →
      m' = m ∧ target = match apps with a :: _ => js_string (field a "name") | [] => "default" end)).
Proof.
  unfold resolve_app. set (r := remembered selectedApp appName m id).
  destruct (String.eqb_spec r "") as [Er|Er]; cbn [negb].
  - assert (appName = "") as Happ.
    { revert Er. unfold r, remembered, or_else.
      destruct (String.eqb_spec selectedApp ""); [|done]. destruct (String.eqb_spec (default "" (m !! id)) ""); done. }
    destruct (owner request org apps id) as [app0|] eqn:Eo.
    + split; [done|]. intros _. split.
      * intros pre app post name -> Hn Hne Hp Ha. rewrite (owner_first _ _ _ _ _ _ Hp Ha) in Eo.
        injection Eo as <-. rewrite Hn. cbn [js_string]. split; [|split].
        -- unfold or_else. by rewrite (proj2 (String.eqb_neq _ _) Hne).
        -- by rewrite lookup_insert_eq.
        -- intros i Hi. by rewrite lookup_insert_ne.
      * intros Hno. by rewrite (owner_none _ _ _ _ Hno) in Eo.
    + split; [done|]. intros _. split.
      * intros pre app post name -> _ _ Hp Ha. by rewrite (owner_first _ _ _ _ _ _ Hp Ha) in Eo.
      * intros _. split; [done|]. unfold first_app. by rewrite Happ.
  - split; [done|]. intros E. done.
Qed.

(** ** The workflows the steps started, in the diagram *)

Section Children.
Import Layout Geometry.

Lemma coord_get_some m k p : (JStr k, p) ∈ m → ∃ p', coord_get m (JStr k) = Some p'.
Proof.
  induction m as [|[k' p'] m IH]; [set_solver|]. intros H. cbn [coord_get].
  destruct (key_eqb (JStr k) k') eqn:E; [by exists p'|]. apply IH.
  apply elem_of_cons in H as [[= <- <-]|H]; [|done]. cbn [key_eqb] in E. by rewrite String.eqb_refl in E.
Qed.

Lemma record_step_keeps m n k p : (k, p) ∈ m → (k, p) ∈ record_step m n.
Proof. unfold record_step, coord_set. case_tests; set_solver. Qed.

(** A step is recorded under the workflow it started. *)
Lemma started_recorded nodes n k :
  n ∈ nodes → field (n_step n) "childWorkflowId" = JStr k → k ≠ "" →
  ∃ p, (JStr k, p) ∈ parent_coords nodes.
Proof.
  intros Hn Hk Hne. unfold parent_coords.
  assert (∀ m, ((∃ p, (JStr k, p) ∈ m) ∨ n ∈ nodes) → ∃ p, (JStr k, p) ∈ fold_left record_step nodes m) as Hg;
    [|apply Hg; by right].
  clear Hn. induction nodes as [|x nodes IH]; intros m H; cbn [fold_left].
  - destruct H as [H|H]; [done|set_solver].
  - apply IH. destruct H as [[p H]|H].
    + left. exists p. by apply record_step_keeps.
    + apply elem_of_cons in H as [<-|H]; [|by right]. left. exists (n_x n, n_y n).
      unfold record_step, coord_set. rewrite Hk. cbn [truthy].
      rewrite (proj2 (String.eqb_neq _ _) Hne) by done. cbn [negb]. set_solver.
Qed.

Lemma started_has_parent nodes child n k :
  n ∈ nodes → field (n_step n) "childWorkflowId" = JStr k → k ≠ "" →
  field child "childWorkflowId" = JStr k → ∃ p, parent_of (parent_coords nodes) child = Some p.
Proof.
  intros Hn Hk Hne Hc. unfold parent_of.
  destruct (coord_get _ (field child "stepId")) as [p|]; [by exists p|].
  destruct (coord_get _ (JStr _)) as [p|]; [by exists p|]. rewrite Hc.
  destruct (started_recorded nodes n k Hn Hk Hne) as [p Hp]. by apply (coord_get_some _ _ p).
Qed.

Lemma place_children_children m childY cur children :
  map c_child (place_children m childY cur children) = children.
Proof.
  revert cur. induction children as [|child children IH]; intros cur; [done|].
  cbn -[place_child]. by rewrite IH, (proj1 (place_child_steps _ _ _ _)).
Qed.

(** The family of a workflow with steps is drawn. *)
Lemma family_drawn wf steps workflowId workflowName kids :
  steps ≠ [] →
  ∃ l sx sy, compute (family_data wf steps workflowId workflowName kids) = Some l ∧
    l_nodes l = place_row sx sy (js_sort step_order steps) ∧
    l_cards l = place_children (parent_coords (l_nodes l)) 222 24 kids.
Proof.
  intros Hs. set (input := family_data wf steps workflowId workflowName kids).
  assert (∃ l, compute input = Some l) as [l Hl].
  { unfold compute, input, family_data. cbn -[place_row place_children js_sort Z.max].
    destruct steps as [|s0 steps]; [done|]. destruct kids; eexists; reflexivity. }
  pose proof (compute_shape input l Hl) as (? & root0 & ch & Hr & sx & sy & _ & _ & Hn & _ & Hc & _).
  cbn in Hr. injection Hr as _ <- <-. exists l, sx, sy. by rewrite Hc, Hn.
Qed.
End Children.


(** Nothing answers. *)
Definition offline (op : operation) : Client.answer := Refused (Err (Some 503) "No live executor").

Definition starting : list jval :=
  [JObj [("stepId", JStr "1"); ("stepName", JStr "charge"); ("childWorkflowId", JStr "pay/1")];
   JObj [("stepId", JStr "2"); ("stepName", JStr "ship")]].


(** ** What modelling showed *)

(** The notifications tab does not catch: when its call fails, the loading text
    stays. *)
Lemma notifications_failure_hangs :
  switchWfTab (λ _, "date") (λ _ _, "") offline "default" "notifications" "shop" "o" "" =
    Some notifications_loading_html.
Proof. reflexivity. Qed.

(** A step with the names of the other spelling starts a workflow whose card is
    not linked: the step is recorded by the first spelling only. *)
Lemma other_spelling_not_linked :
  let steps := [JObj [("function_id", JNum 3); ("child_workflow_id", JStr "pay/1")]] in
  option_map (λ l, map Layout.c_family (Layout.l_cards l))
    (Layout.compute (family_data (JObj []) steps (JStr "o") (JStr "order")
       (child_workflows offline "default" "shop" steps))) = Some [None].
Proof. vm_compute. reflexivity. Qed.
