(* ===== verification/ConsolePages.v ===== *)
(** What the page of a workflow offers: the viewer of a value, the diagram and
    the page around them, read back as the browser reads them. *)

From Stdlib Require Import ZArith Lia Ascii String.
From stdpp Require Import base list strings gmap sets.
From S2P Require Import Prelude Html HtmlScan Json JsonSpec JsDate JsNumber Uri.
From S2P Require Import WorkflowDag ApiClient ClientServe ConsoleView ConsoleState ConsoleClicks ConsoleWidgets.
From S2P Require Import ConsoleDetail ConsoleLists ConsoleListsSpec ConsoleWorkflow.

(** ** The viewer of a value *)

Lemma token_class_inert m : Inert (token_class m).
Proof. unfold token_class. destruct m as [|a m]; [apply _|]. repeat case_match; apply _. Qed.

Lemma inert_split n s : Inert s → Inert (stake n s) ∧ Inert (sdrop n s).
Proof.
  unfold Inert. rewrite <- (stake_sdrop n s) at 1. rewrite skeleton_app.
  destruct (skeleton (stake n s)); [|done]. cbn. done.
Qed.

(** Colouring adds elements that offer nothing. *)
Lemma highlight_offers_nothing fuel prev s :
  Inert s → scans Text (highlight_from fuel prev s) [] Text.
Proof.
  revert prev s. induction fuel as [|f IH]; intros prev s Hs; cbn [highlight_from]; [by apply scans_text|].
  destruct s as [|a s']; [by apply scans_text|]. destruct (_ =? 0)%nat.
  - apply inert_cons in Hs as [Ha Hs']. change (String a (highlight_from f (Some a) s'))
      with (String a "" +:+ highlight_from f (Some a) s').
    eapply scans_to; [eapply scans_app; [apply (scans_text (String a ""))|by apply IH]|done].
    unfold Inert, skeleton. cbn [sfilter]. by rewrite Ha.
  - set (n := token_run prev (String a s')). destruct (inert_split n _ Hs) as [H1 H2].
    pose proof (token_class_inert (stake n (String a s'))).
    eapply scans_to; [eapply scans_app; [read_page|by apply IH]|done].
Qed.

Lemma coloured_offers_nothing json : scans Text (syntaxHighlight json) [] Text.
Proof. unfold syntaxHighlight. apply highlight_offers_nothing, _. Qed.

Definition viewer_marks (id title raw : string) : list dataset :=
  [[("data-json-mode", "decoded"); ("data-target-id", id)]; [("data-json-mode", "raw"); ("data-target-id", id)];
   [("data-action", "expandPayload"); ("data-payload-title", escapeHtml title); ("data-payload-raw", escapeHtml raw)];
   [("data-copy", escapeHtml raw)]].

Lemma viewer_html_offers id title raw formatted :
  Inert id → scans Text formatted [] Text →
  scans Text (viewer_html id title raw formatted) (viewer_marks id title raw) Text.
Proof.
  intros Hi Hf. unfold viewer_html, viewer_marks. hide (escapeHtml title). hide (escapeHtml raw).
  read_all. same_offer.
Qed.

(** The text a viewer shows and copies. *)
Definition raw_text (data : jval) : string :=
  match data with JStr s => s | v => default "undefined" (stringify_pretty 0 v) end.

Definition no_data (data : jval) : bool := nullish data || is_str data "".

Lemma viewer_offers id data title :
  Inert id →
  scans Text (renderJsonViewer id data title)
    (if no_data data then [] else viewer_marks id title (raw_text data)) Text.
Proof.
  intros Hi. unfold renderJsonViewer, no_data. destruct (nullish data || is_str data "").
  - read_all. reflexivity.
  - fold (raw_text data). apply viewer_html_offers; [done|].
    destruct data; try apply coloured_offers_nothing.
    destruct (json_parse _); [apply coloured_offers_nothing|read_all; reflexivity].
Qed.

(** ** The diagram *)

Section Diagram.
Import Layout Svg.

Local Instance Zs_inert n : Inert (Zs n).
Proof. unfold Zs. apply _. Qed.

Definition step_mark (n : node) : dataset :=
  [("data-step-json", escapeHtml (JStr (default "undefined" (stringify (n_step n)))))].

Lemma node_offers n : id_safe (n_step n) → scans Text (node_svg n) [step_mark n] Text.
Proof.
  intros Hi. unfold node_svg, renderStepNodeSvg, step_mark, id_safe in *.
  destruct (meta_inert (n_step n)) as (? & ? & ?). pose proof (step_duration_inert (n_step n)).
  hide (escapeHtml (JStr (default "undefined" (stringify (n_step n))))).
  read_all. same_offer.
Qed.

Lemma root_edge_offers e : scans Text (root_edge_svg e) [] Text.
Proof. unfold root_edge_svg. read_all. reflexivity. Qed.

Lemma child_edge_offers e : scans Text (child_edge_svg e) [] Text.
Proof. unfold child_edge_svg. read_all. reflexivity. Qed.

Definition card_mark (c : card) : dataset :=
  [("data-action", "viewChildWorkflow"); ("data-child-wf-id", escapeHtml (field (c_child c) "childWorkflowId"))].

Lemma card_offers c : scans Text (card_svg c) [card_mark c] Text.
Proof.
  unfold card_svg, card_mark. hide (escapeHtml (field (c_child c) "childWorkflowId")).
  eapply scans_to; [eapply scans_app; [read_page|]|].
  - instantiate (1 := []). destruct (c_steps c); [|apply scans_empty]. read_all. reflexivity.
  - same_offer.
Qed.

Lemma family_edge_offers c : scans Text (family_edge_svg c) [] Text.
Proof. unfold family_edge_svg. destruct (c_family c); [read_all; reflexivity|apply scans_empty]. Qed.

Lemma root_card_offers l w h : scans Text (root_card_svg l w h) [] Text.
Proof. unfold root_card_svg. read_all. reflexivity. Qed.

Definition diagram_marks (l : layout) : list dataset :=
  [[("data-action", "dagZoomIn")]; [("data-action", "dagZoomOut")]; [("data-action", "dagReset")]] ++
  map card_mark (l_cards l) ++ map step_mark (all_nodes l).

Lemma nodes_offer ns : Forall (λ n, id_safe (n_step n)) ns → scans Text (map_join node_svg ns) (map step_mark ns) Text.
Proof.
  intros H. rewrite Forall_forall in H. rewrite <- singletons. apply scans_map_join.
  intros n Hn. by apply node_offers, H.
Qed.

Lemma layout_offers l :
  Forall (λ n, id_safe (n_step n)) (all_nodes l) → scans Text (render_layout l) (diagram_marks l) Text.
Proof.
  intros H. unfold all_nodes in H. apply Forall_app in H as [Hr Hk].
  assert (Hcards : scans Text
    (match l_rootCard l with Some (w, h) => root_card_svg l w h | None => "" end +:+ map_join card_svg (l_cards l))
    (map card_mark (l_cards l)) Text).
  { eapply (scans_app _ _ _ [] Text (map card_mark (l_cards l))).
    - destruct (l_rootCard l) as [[w h]|]; [apply root_card_offers|apply scans_empty].
    - rewrite <- singletons. apply scans_map_join. intros c _. apply card_offers. }
  assert (Hfam : scans Text (map_join family_edge_svg (l_cards l)) [] Text)
    by (apply offers_nothing, family_edge_offers).
  assert (Hedges : scans Text
    (map_join root_edge_svg (l_edges l) +:+ map_join (λ c, map_join child_edge_svg (c_edges c)) (l_cards l)) [] Text).
  { apply (scans_app _ _ _ [] Text []).
    - apply offers_nothing, root_edge_offers.
    - apply offers_nothing. intros c. apply offers_nothing, child_edge_offers. }
  assert (Hnodes : scans Text
    (map_join node_svg (l_nodes l) +:+ map_join (λ c, map_join node_svg (c_nodes c)) (l_cards l))
    (map step_mark (all_nodes l)) Text).
  { unfold all_nodes. rewrite map_app. apply scans_app with Text; [by apply nodes_offer|].
    rewrite concat_map, map_map. apply scans_map_join. intros c Hc. apply nodes_offer.
    rewrite Forall_forall in Hk |- *. intros n Hn. apply Hk, list_elem_of_In, in_concat.
    exists (c_nodes c). split; [by apply in_map, list_elem_of_In|by apply list_elem_of_In]. }
  unfold render_layout, diagram_marks. revert Hcards Hfam Hedges Hnodes. cbv zeta.
  generalize (map_join node_svg (l_nodes l) +:+ map_join (λ c, map_join node_svg (c_nodes c)) (l_cards l)).
  generalize (map_join root_edge_svg (l_edges l) +:+ map_join (λ c, map_join child_edge_svg (c_edges c)) (l_cards l)).
  generalize (map_join family_edge_svg (l_cards l)).
  generalize (match l_rootCard l with Some (w, h) => root_card_svg l w h | None => "" end +:+ map_join card_svg (l_cards l)).
  intros cards fam edges nodes Hcards Hfam Hedges Hnodes.
  read_all. offered. by destruct (l_cards l).
Qed.
End Diagram.

(** What the diagram offers: the three controls, the child workflows and the
    steps with their JSON text. *)
Definition diagram_elements (l : Layout.layout) : list dataset :=
  [[("action", "dagZoomIn")]; [("action", "dagZoomOut")]; [("action", "dagReset")]] ++
  map (λ c, [("action", "viewChildWorkflow");
             ("childWfId", js_string (field (Layout.c_child c) "childWorkflowId"))]) (Layout.l_cards l) ++
  map (λ n, [("stepJson", default "undefined" (stringify (Layout.n_step n)))]) (Layout.all_nodes l).

Lemma decode_dag v : decode_entities (Svg.escapeHtml v) = js_string v.
Proof. apply (esc_decode (esc := escape_chain)). Qed.

Lemma read_diagram l : map (map read_attr) (diagram_marks l) = diagram_elements l.
Proof.
  unfold diagram_marks, diagram_elements. rewrite !map_app, !map_map. f_equal. f_equal; apply map_ext.
  - intros c. unfold card_mark. cbn [map]. unfold read_attr. cbn [fst snd]. by rewrite decode_dag.
  - intros n. unfold step_mark. cbn [map]. unfold read_attr. cbn [fst snd]. by rewrite decode_dag.
Qed.

Definition drawn_marks (input : jval) : list dataset :=
  match Layout.compute input with Some l => diagram_marks l | None => [] end.

(** The identifiers of the steps drawn are put into the page as they are. *)
Definition safe_steps (input : jval) : Prop :=
  match Layout.compute input with
  | Some l => Forall (λ n, id_safe (Layout.n_step n)) (Layout.all_nodes l)
  | None => True
  end.

Lemma diagram_offers input :
  safe_steps input → scans Text (Svg.renderWorkflowDAG input) (drawn_marks input) Text.
Proof.
  unfold safe_steps, Svg.renderWorkflowDAG, drawn_marks.
  destruct (Layout.compute input); [apply layout_offers|]. intros _. unfold Svg.renderEmptyDAG. read_all. reflexivity.
Qed.

(** ** The page *)

Section DetailPage.
Context (locale : jval → string) (now : Z) (viewer_id : jval → string → string).
Context (locale_inert : ∀ v, Inert (locale v)) (viewer_id_inert : ∀ d t, Inert (viewer_id d t)).

Local Instance page_timestamp_inert v : Inert (formatTimestamp locale v).
Proof. by apply timestamp_inert. Qed.
Local Instance page_duration_inert a b s d : Inert (calculateDuration now a b s d).
Proof. apply duration_inert. Qed.
Local Instance dot_inert wf : Inert (status_dot wf).
Proof. unfold status_dot. repeat case_match; apply _. Qed.
Local Instance parent_dot_inert p : Inert (parent_dot p).
Proof. unfold parent_dot. repeat case_match; apply _. Qed.

Definition shown_viewer (data : jval) (title : string) : list dataset :=
  if no_data data then [] else viewer_marks (viewer_id data title) title (raw_text data).

Lemma shown_viewer_offers data title :
  scans Text (viewer viewer_id data title) (shown_viewer data title) Text.
Proof. by apply viewer_offers. Qed.

Definition crumbs (targetApp : string) (parentInfo : jval) : list dataset :=
  [("data-navigate", "workflows")] ::
  (if truthy parentInfo
   then [two "data-navigate" ("workflow/" +:+ encodeURIComponent (js_string (field parentInfo "parentId")))
           "data-wf-app" (escapeHtml targetApp)]
   else []).

Lemma encoded_held s : held dquote (encodeURIComponent s) = true.
Proof.
  clear. induction s as [|a s IH]; [done|]. cbn [encodeURIComponent]. unfold held in *. rewrite sforall_app, IH.
  by destruct a as [[] [] [] [] [] [] [] []].
Qed.

Lemma crumbs_offer wf targetApp workflowName parentInfo :
  scans Text (breadcrumbs_html wf targetApp workflowName parentInfo) (crumbs targetApp parentInfo) Text.
Proof.
  unfold breadcrumbs_html, crumbs. pose proof (encoded_held (js_string (field parentInfo "parentId"))) as He. revert He.
  generalize (encodeURIComponent (js_string (field parentInfo "parentId"))). intros y He.
  hide (escapeHtml targetApp). read_all. offered. by destruct (truthy parentInfo).
Qed.

Definition status_buttons (wf : jval) (targetApp id : string) : list dataset :=
  let is_ := is_str (field wf "status") in
  (if is_ "PENDING" || is_ "ENQUEUED" then [two "data-cancel-wf" id "data-target-app" targetApp] else []) ++
  (if is_ "CANCELLED" then [two "data-resume-wf" id "data-target-app" targetApp] else []) ++
  (if is_ "ERROR" then [two "data-restart-wf" id "data-target-app" targetApp] else []).

Definition result_viewer (wf : jval) : list dataset :=
  if truthy (field wf "error") then shown_viewer (field wf "error") "Error"
  else shown_viewer (field wf "output") "Output".

Lemma detail_offers wf steps kids targetApp workflowId workflowName parentInfo :
  let family := family_data wf steps workflowId workflowName kids in
  safe_steps family →
  scans Text (detail_html locale now viewer_id wf steps kids targetApp workflowId workflowName parentInfo)
    (crumbs targetApp parentInfo ++ status_buttons wf (escapeHtml targetApp) (esc workflowId) ++
     [("data-action", "openSendMessage")] :: drawn_marks family ++
     [[("data-wf-tab", "io")]; [("data-wf-tab", "events")]; [("data-wf-tab", "notifications")]] ++
     shown_viewer (field wf "input") "Input" ++ result_viewer wf) Text.
Proof.
  intros family Hs. pose proof (diagram_offers family Hs) as Hd.
  pose proof (crumbs_offer wf targetApp workflowName parentInfo) as Hc.
  pose proof (shown_viewer_offers (field wf "input") "Input") as Hi.
  pose proof (shown_viewer_offers (field wf "error") "Error") as He.
  pose proof (shown_viewer_offers (field wf "output") "Output") as Ho.
  unfold detail_html, status_buttons, result_viewer. fold family.
  revert Hd Hc Hi He Ho. generalize (Svg.renderWorkflowDAG family). intros dag Hd.
  generalize (breadcrumbs_html wf targetApp workflowName parentInfo). intros bc Hc.
  generalize (viewer viewer_id (field wf "input") "Input"). intros vi Hi.
  generalize (viewer viewer_id (field wf "error") "Error"). intros ve He.
  generalize (viewer viewer_id (field wf "output") "Output"). intros vo Ho.
  hide (esc workflowId). hide (escapeHtml targetApp).
  read_all. offered. unfold two. by rewrite <- !app_assoc.
Qed.

(** The buttons of the status, and what they stand for. *)
Definition status_actions (wf : jval) (targetApp id : string) : list dataset :=
  let is_ := is_str (field wf "status") in
  (if is_ "PENDING" || is_ "ENQUEUED" then [[("cancelWf", id); ("targetApp", targetApp)]] else []) ++
  (if is_ "CANCELLED" then [[("resumeWf", id); ("targetApp", targetApp)]] else []) ++
  (if is_ "ERROR" then [[("restartWf", id); ("targetApp", targetApp)]] else []).

Definition status_events (wf : jval) (targetApp id : string) : list event :=
  let is_ := is_str (field wf "status") in
  (if is_ "PENDING" || is_ "ENQUEUED" then [ClickCancel id targetApp] else []) ++
  (if is_ "CANCELLED" then [ClickResume id targetApp] else []) ++
  (if is_ "ERROR" then [ClickRestart id targetApp] else []).

Definition parent_link (targetApp : string) (parentInfo : jval) : list dataset :=
  if truthy parentInfo
  then [[("navigate", "workflow/" +:+ encodeURIComponent (js_string (field parentInfo "parentId"))); ("wfApp", targetApp)]]
  else [].

(** The buttons of a viewer: they switch, expand and copy exactly the text of
    the value. *)
Definition viewer_elements (data : jval) (title : string) : list dataset :=
  if no_data data then []
  else let id := decode_entities (viewer_id data title) in
       [[("jsonMode", "decoded"); ("targetId", id)]; [("jsonMode", "raw"); ("targetId", id)];
        [("action", "expandPayload"); ("payloadTitle", title); ("payloadRaw", raw_text data)];
        [("copy", raw_text data)]].

Lemma decode_text s : decode_entities (escapeHtml s) = s.
Proof. apply (esc_decode (esc := escape_chain)). Qed.

Lemma read_viewer data title : map (map read_attr) (shown_viewer data title) = viewer_elements data title.
Proof.
  unfold shown_viewer, viewer_elements, viewer_marks. destruct (no_data data); [done|].
  cbn [map]. unfold read_attr. cbn [fst snd]. by rewrite !decode_text.
Qed.

Lemma read_crumbs targetApp parentInfo :
  map (map read_attr) (crumbs targetApp parentInfo) = [("navigate", "workflows")] :: parent_link targetApp parentInfo.
Proof.
  unfold crumbs, parent_link, two. destruct (truthy parentInfo); [|done]. cbn [map]. unfold read_attr. cbn [fst snd].
  rewrite decode_text, (decode_plain ("workflow/" +:+ _)); [done|]. apply encoded_no_amp.
Qed.

Lemma read_status wf targetApp id :
  map (map read_attr) (status_buttons wf (escapeHtml targetApp) (esc id)) = status_actions wf targetApp (shown id).
Proof.
  unfold status_buttons, status_actions, two. rewrite !map_app.
  f_equal; [|f_equal]; case_match; try done; cbn [map]; unfold read_attr; cbn [fst snd];
    by rewrite decode_text, decode_esc.
Qed.

Lemma press_status f inner outer wf targetApp id :
  Forall unmarked inner → id ≠ "" →
  map (press f inner outer) (status_actions wf targetApp id) = map (λ ev, [Event ev]) (status_events wf targetApp id).
Proof.
  intros Hi Hid. unfold status_actions, status_events. rewrite !map_app.
  f_equal; [|f_equal]; case_match; try done; cbn [map]; f_equal.
  - by apply (press_button f inner outer Hi (BCancel _ _)).
  - by apply (press_button f inner outer Hi (BResume _ _)).
  - by apply (press_button f inner outer Hi (BRestart _ _)).
Qed.

End DetailPage.

Definition broken_order : jval :=
  JObj [("workflowId", JStr "o'1"); ("status", JStr "ERROR"); ("input", JStr "<b>1</b>"); ("error", JStr "no `stock`")].
Definition its_steps : list jval :=
  [JObj [("stepId", JStr "1"); ("stepName", JStr "<charge>"); ("childWorkflowId", JStr "pay/1")]].
Definition its_children : list jval :=
  [JObj [("stepId", JStr "1"); ("childWorkflowId", JStr "pay/1"); ("workflow", JObj []); ("steps", JArr [])]].

