(* ===== verification/ConsoleScreens.v ===== *)
(** The screens of the console over the answers of the server (app.js): the
    screens of settings, autoscaling, the audit log and the metrics from their
    requests to their pages, and the switch of [renderContentView] over all
    twelve.  The types the client declares for the answers (client.ts) are
    enough for every screen.

    [request] gives what awaiting a call of the client ends with; [browser] is
    the text of an exception of the browser. *)

From Stdlib Require Import ZArith Lia Ascii String.
From stdpp Require Import base list strings gmap.
From S2P Require Import Prelude Html Json JsonSpec ApiTypes ApiClient ClientServe ClientTypes.
From S2P Require Import ConsoleView ConsoleState ConsoleWidgets ConsoleMetrics ConsoleForms ConsoleAudit.
From S2P Require Import ConsoleLists ConsoleFleet ConsoleWorkflow.
Import Client.

(** ** The types of the answers *)

(** The results of the methods of the client; [None]: nothing is returned. *)
Definition declared (op : operation) : option shape :=
  match op with
  | GetHealth => Some (TObject [req "status" TString])
  | ClientServe.ListApplications _ => Some (TArray Application)
  | GetApplication _ _ => Some Application
  | ListExecutors _ _ => Some (TArray Executor)
  | ListWorkflows _ _ _ => Some (TArray Workflow)
  | GetWorkflow _ _ _ => Some Workflow
  | ListSteps _ _ _ => Some (TArray Step)
  | GetWorkflowEvents _ _ _ => Some (TArray Event)
  | GetWorkflowEvent _ _ _ _ => Some WorkflowEvent
  | GetWorkflowNotifications _ _ _ => Some (TArray Notification)
  | GetWorkflowStreams _ _ _ _ => Some (TArray StreamEntry)
  | ForkWorkflow _ _ _ _ | ClientServe.TriggerSchedule _ _ _ => Some (TObject [req "workflowId" TString])
  | ListQueues _ _ => Some (TArray Queue)
  | ListSchedules _ _ => Some (TArray Schedule)
  | ListAlertingRules _ _ => Some (TArray AlertingRule)
  | CreateAlertingRule _ _ _ => Some AlertingRule
  | ListAPIKeys _ => Some (TArray Token)
  | CreateAPIKey _ _ _ _ => Some TokenCreated
  | GetAutoscalingPolicy _ _ | SetAutoscalingPolicy _ _ _ => Some (TObject [req "policy" AutoscalePolicy])
  | GetAutoscale _ _ => Some (TArray QueueAutoscale)
  | ListAuditLogs _ _ => Some (TArray AuditLogEntry)
  | ListRoles _ => Some (TArray ApiTypes.Role)
  | ClientServe.CreateRole _ _ _ => Some (TObject [req "name" TString; req "permissions" (TArray TString)])
  | ListMembers _ => Some OrgMembers
  | ListPermissions _ | ClientServe.ListOrganizations => Some (TArray TString)
  | _ => None
  end.

(** The metrics are a text. *)
Definition is_text (op : operation) : bool := match op with GetMetricsText _ => true | _ => false end.

(** An answer of the declared type, or one the client refuses. *)
Definition keeps_type (op : operation) (a : Client.answer) : bool :=
  match a with
  | Got v => match declared op with Some t => conforms t v | None => negb (is_text op) end
  | GotText _ => is_text op
  | Refused _ => true
  | Broken => false
  end.

(** The type by which the control plane of the playground was judged is the
    declared one. *)
Lemma result_type_declared op t : result_type op = Some t → declared op = Some t.
Proof. destruct op; cbn; try done; by case_match. Qed.

(** ** The screens *)

(** [Promise.allSettled] of one call. *)
Definition settled (a : Client.answer) : option err + jval :=
  match resolved a with Some v => inr v | None => inl (failure a) end.

(** [v || []] where a list is needed; [None]: the [length] and [map] of another
    value are not modelled. *)
Definition or_list (v : jval) : option (list jval) :=
  match jor v (JArr []) with JArr l => Some l | _ => None end.

(** [list.some(a => a.name === name)]; [None]: reading the name throws. *)
Fixpoint some_named (name : string) (l : list jval) : option bool :=
  match l with
  | [] => Some false
  | a :: l => if nullish a then None else if is_str (field a "name") name then Some true else some_named name l
  end.

Record view := View {
  v_shell : shell;                     (* currentRoute, orgName, appName, selectedWorkflowId *)
  v_apps : list jval;                  (* apps *)
  v_saved : string;                    (* relay_selected_app of the storage *)
  v_map : gmap string string;          (* workflowAppMap *)
  v_wfApp : string;                    (* selectedWorkflowApp *)
  v_parent : jval;                     (* parentWorkflowMap.get(selectedWorkflowId) *)
  v_audit : auditFilters;
  v_metrics : metricsFilters }.

Section Screens.
Context (request : operation → Client.answer) (browser : string).
Context (locale : jval → string) (now : Z) (viewer_id : jval → string → string) (local_ms : string → option Z).

(** [loadApplications()]: the applications and the one selected; [None]: what
    came is kept although it is no list. *)
Definition loadApplications (org saved : string) : option (list jval * string) :=
  match request (ClientServe.ListApplications org) with
  | Got (JArr apps) =>
      if String.eqb saved "" then Some (apps, "")
      else match some_named saved apps with
           | Some b => Some (apps, if b then saved else "")
           | None => Some ([], "")
           end
  | Got _ => if String.eqb saved "" then None else Some ([], "")
  | _ => Some ([], "")
  end.

Definition renderSettingsScreen (org app : string) : screen :=
  if String.eqb app "" then Drawn (no_application_html
    "Choose an application in the header to view and edit its retention and timeout settings.")
  else match settled (request (GetApplication org app)) with
       | inr v => if nullish v then Fails None else Drawn (settings_html v)
       | inl e => Fails e
       end.

Definition reason_message (e : option err) : string := match e with Some e => e_message e | None => browser end.

Definition error_of (r : option err + jval) : option string :=
  match r with inl e => Some (reason_message e) | inr _ => None end.

Definition list_of (r : option err + jval) : option (list jval) :=
  match r with inr v => or_list v | inl _ => Some [] end.

(** The policy of the application: none when the server answers 404. *)
Definition settled_policy (r : option err + jval) : option err + jval :=
  match r with
  | inr v => inr (policy_of v)
  | inl (Some e) => if status_is 404 e then inr JNull else inl (Some e)
  | inl None => inl None
  end.

Definition renderAutoscalingScreen (org app : string) : option screen :=
  if String.eqb app "" then Some (Drawn (no_application_html
    "Choose an application in the header to review and set its autoscaling policy."))
  else
    let queues := settled (request (ListQueues org app)) in
    let policyRes := settled (request (GetAutoscalingPolicy org app)) in
    let recsRes := settled (request (GetAutoscale org app)) in
    match list_of queues, settled_policy policyRes, list_of recsRes with
    | Some _, inl e, Some _ => Some (Fails e)
    | Some queueList, inr policy, Some recs =>
        Some (if forallb (λ x, negb (nullish x)) queueList then
                match autoscaling_html locale queueList (error_of queues) policy recs (error_of recsRes) with
                | Some html => Drawn html
                | None => Fails None
                end
              else Fails None)
    | _, _, _ => None
    end.

Definition renderMetricsScreen (f : metricsFilters) : screen :=
  match request (GetMetricsText (metrics_query f)) with
  | GotText text => Drawn (ConsoleMetrics.renderMetricsScreen f text)
  | a => Fails (failure a)
  end.

Definition renderAuditScreen (org : string) (f : auditFilters) : option screen :=
  match audit_query local_ms f with
  | None => Some (Fails None)
  | Some query =>
      match settled (request (ListAuditLogs org query)) with
      | inl e => Some (Fails e)
      | inr v =>
          match or_list v with
          | Some rows => Some (if forallb (λ x, negb (nullish x)) rows
                               then Drawn (ConsoleAudit.renderAuditScreen locale org f rows) else Fails None)
          | None => None
          end
      end
  end.

(** ** [renderContentView] *)

(** What the element ends up with, once the answers of the screen are there;
    [None]: an answer is no list where one is needed.  The screen of a workflow is
    only shown with an identifier. *)
Definition content (v : view) : option screen :=
  let org := h_org (v_shell v) in
  let app := h_app (v_shell v) in
  let route := h_route (v_shell v) in
  if String.eqb route "fleet" then
    match loadApplications org (v_saved v) with
    | Some (apps, app) =>
        match renderFleetScreen request org locale now app apps (v_map v) with
        | Some (html, _) => Some (Drawn html)
        | None => None
        end
    | None => None
    end
  else if String.eqb route "workflows" then
    Some (fst (renderWorkflowsScreen locale now request org app (v_apps v) (v_map v)))
  else if String.eqb route "workflow-detail" then
    let id := default "" (h_wf (v_shell v)) in
    let target := fst (resolve_app request org (v_wfApp v) app (v_apps v) (v_map v) id) in
    Some (ConsoleWorkflow.renderWorkflowDetailScreen locale now viewer_id request org target id (v_parent v))
  else if String.eqb route "queues" then Some (renderQueuesScreen request org app (v_apps v))
  else if String.eqb route "schedules" then Some (renderSchedulesScreen locale request org app (v_apps v))
  else if String.eqb route "alerting" then Some (renderAlertingScreen locale request org app (v_apps v))
  else if String.eqb route "metrics" then Some (renderMetricsScreen (v_metrics v))
  else if String.eqb route "keys" then Some (renderKeysScreen locale request org)
  else if String.eqb route "roles" then Some (fst (renderRolesScreen request org))
  else if String.eqb route "autoscaling" then renderAutoscalingScreen org app
  else if String.eqb route "settings" then Some (renderSettingsScreen org app)
  else if String.eqb route "audit" then renderAuditScreen org (v_audit v)
  else Drawn <$> card_html (v_shell v) route SelectView.
End Screens.

(** ** Values of the types *)

Lemma typed_list t v : conforms (TArray t) v = true → ∃ l, v = JArr l ∧ Forall (λ x, conforms t x = true) l.
Proof.
  destruct v as [| | | | |l|]; try done. cbn [conforms]. rewrite forallb_forall. intros H. exists l. split; [done|].
  apply Forall_forall. intros x Hx. by apply H, list_elem_of_In.
Qed.

Lemma typed_object fs v : conforms (TObject fs) v = true → nullish v = false ∧ truthy v = true.
Proof. by destruct v. Qed.

Lemma typed_rows fs l : Forall (λ x, conforms (TObject fs) x = true) l → forallb (λ x, negb (nullish x)) l = true.
Proof.
  intros H. apply forallb_forall. intros x Hx%list_elem_of_In. apply negb_true_iff.
  by apply (typed_object fs), (proj1 (Forall_forall _ _) H).
Qed.

Lemma required k t ts v : conforms (TObject ts) v = true → (k, (false, t)) ∈ ts → conforms t (field v k) = true.
Proof.
  destruct v as [| | | | | |fs]; try done. cbn [conforms]. rewrite forallb_forall.
  intros H Hin%list_elem_of_In. specialize (H _ Hin). cbn [fst snd] in H.
  unfold field. cbn [jget]. destruct (assoc k fs) as [x|]; [|done]. by destruct x.
Qed.

Ltac member := repeat first [apply list_elem_of_here | apply list_elem_of_further].

(** Keys and roles of their types can be drawn. *)
Lemma token_drawable x : conforms Token x = true → drawable_key x = true.
Proof.
  intros Hx. unfold drawable_key. rewrite (proj1 (typed_object _ _ Hx)).
  destruct (typed_list _ _ (required "permissions" _ _ _ Hx ltac:(member))) as (l1 & -> & _).
  by destruct (typed_list _ _ (required "appIds" _ _ _ Hx ltac:(member))) as (l2 & -> & _).
Qed.

Lemma role_drawable x : conforms ApiTypes.Role x = true → drawable_role x = true.
Proof.
  intros Hx. unfold drawable_role. rewrite (proj1 (typed_object _ _ Hx)).
  by destruct (typed_list _ _ (required "permissions" _ _ _ Hx ltac:(member))) as (l1 & -> & _).
Qed.

(** ** Every screen keeps to the answers *)

(** The operations a screen may ask for. *)
Definition asked_by (route : string) (op : operation) : bool :=
  match op with
  | ClientServe.ListApplications _ | ListExecutors _ _ => mem route ["fleet"]
  | ListWorkflows _ _ _ => mem route ["fleet"; "workflows"]
  | ListQueues _ _ => mem route ["fleet"; "queues"; "autoscaling"]
  | ListSchedules _ _ => mem route ["fleet"; "schedules"]
  | ListAlertingRules _ _ => mem route ["alerting"]
  | GetWorkflow _ _ _ | ListSteps _ _ _ => mem route ["workflow-detail"]
  | GetMetricsText _ => mem route ["metrics"]
  | ListAPIKeys _ => mem route ["keys"]
  | ListRoles _ | ListMembers _ | ListPermissions _ => mem route ["roles"]
  | GetAutoscalingPolicy _ _ | GetAutoscale _ _ => mem route ["autoscaling"]
  | GetApplication _ _ => mem route ["settings"]
  | ListAuditLogs _ _ => mem route ["audit"]
  | _ => false
  end.

Section Typed.
Context (request : operation → Client.answer) (browser : string).
Context (locale : jval → string) (now : Z) (viewer_id : jval → string → string) (local_ms : string → option Z).

(** How a screen may end: with its page, or with the error of an answer to one of
    its own requests. *)
Definition accounted (route : string) (s : screen) : Prop :=
  match s with
  | Drawn _ => True
  | Fails (Some e) => ∃ op, asked_by route op = true ∧ request op = Refused e
  | Fails None => False
  end.

Context (route : string) (Htyped : ∀ op, asked_by route op = true → keeps_type op (request op) = true).

(** What an answer that keeps its type is. *)
Lemma typed_answer op t :
  asked_by route op = true → declared op = Some t →
  (∃ v, request op = Got v ∧ conforms t v = true) ∨ (∃ e, request op = Refused e ∧ failure (request op) = Some e).
Proof.
  intros Ha Ht. specialize (Htyped op Ha). unfold keeps_type in Htyped.
  destruct (request op) as [v|s|e|] eqn:E; [|by destruct op|right; by exists e|done].
  left. exists v. rewrite Ht in Htyped. done.
Qed.

Lemma typed_rows_of or_empty op fs :
  asked_by route op = true → declared op = Some (TArray (TObject fs)) →
  (∃ l, request op = Got (JArr l) ∧ rows_of or_empty (request op) = inr l ∧ forallb (λ x, negb (nullish x)) l = true ∧
     Forall (λ x, conforms (TObject fs) x = true) l) ∨
  (∃ e, request op = Refused e ∧ rows_of or_empty (request op) = inl (Some e)).
Proof.
  intros Ha Ht. destruct (typed_answer op _ Ha Ht) as [(v & E & Hv)|(e & E & _)]; rewrite E; [left|right; by exists e].
  destruct (typed_list _ _ Hv) as (l & -> & Hl). exists l. split_and!; [done|done|by eapply typed_rows|done].
Qed.

Lemma gathered html op or_empty app apps fs :
  (∀ a, asked_by route (op a) = true) → (∀ a, declared (op a) = Some (TArray (TObject fs))) →
  accounted route (draw html (gather request op or_empty app apps)).
Proof.
  intros Ha Ht. unfold gather. destruct (String.eqb app ""); [done|].
  destruct (typed_rows_of or_empty (op app) fs (Ha _) (Ht _)) as [(l & _ & E & _)|(e & E & E')]; [by rewrite E|].
  rewrite E'. exists (op app). by split.
Qed.
Lemma workflows_accounted org app apps m :
  route = "workflows" → accounted route (fst (renderWorkflowsScreen locale now request org app apps m)).
Proof.
  intros Hr. unfold renderWorkflowsScreen, workflow_rows. cbn [fst].
  assert (accounted route (draw (workflows_html locale now app)
    (gather request (λ a, ListWorkflows org a (limited 50)) false app apps))) as H
    by (eapply gathered; [by subst|done]).
  by destruct (gather _ _ _ _ _).
Qed.

Lemma settled_typed op fs :
  asked_by route op = true → declared op = Some (TArray (TObject fs)) →
  ∃ l, settled_rows (request op) = Some l ∧ forallb (λ x, negb (nullish x)) l = true.
Proof.
  intros Ha Ht. destruct (typed_rows_of false op fs Ha Ht) as [(l & E & _ & Hn & _)|(e & E & _)]; rewrite E; [by exists l|by exists []].
Qed.

Lemma overview_typed org app : route = "fleet" → is_Some (ask_overview request org app).
Proof.
  intros Hr. unfold ask_overview.
  destruct (settled_typed (ListExecutors org (js_string (field app "name"))) _ ltac:(by subst) eq_refl) as (l1 & -> & H1).
  destruct (settled_typed (ListWorkflows org (js_string (field app "name")) (limited 25)) _ ltac:(by subst) eq_refl) as (l2 & -> & H2).
  destruct (settled_typed (ListQueues org (js_string (field app "name"))) _ ltac:(by subst) eq_refl) as (l3 & -> & _).
  destruct (settled_typed (ListSchedules org (js_string (field app "name"))) _ ltac:(by subst) eq_refl) as (l4 & -> & _).
  rewrite forallb_app, H1, H2. by eexists.
Qed.

Lemma some_named_typed name l : forallb (λ x, negb (nullish x)) l = true → is_Some (some_named name l).
Proof.
  induction l as [|a l IH]; [by eexists|]. cbn [forallb some_named]. intros [Ha%negb_true_iff Hl]%andb_true_iff.
  rewrite Ha. destruct (is_str _ _); [by eexists|auto].
Qed.

Lemma load_typed org saved : route = "fleet" → is_Some (loadApplications request org saved).
Proof.
  intros Hr. assert (asked_by route (ClientServe.ListApplications org) = true) as Ha by by subst.
  unfold loadApplications.
  destruct (typed_rows_of false _ _ Ha eq_refl) as [(l & -> & _)|(e & -> & _)]; [|by eexists].
  destruct (String.eqb saved ""); [by eexists|]. destruct (some_named saved l); by eexists.
Qed.

Lemma keys_accounted org : route = "keys" → accounted route (renderKeysScreen locale request org).
Proof.
  intros Hr. assert (asked_by route (ListAPIKeys org) = true) as Ha by by subst.
  unfold renderKeysScreen.
  destruct (typed_rows_of false _ _ Ha eq_refl) as [(l & -> & _ & _ & Hl)|(e & E & _)].
  - assert (forallb drawable_key l = true) as ->; [|done].
    apply forallb_forall. intros x Hx%list_elem_of_In. by apply token_drawable, (proj1 (Forall_forall _ _) Hl).
  - rewrite E. by exists (ListAPIKeys org).
Qed.

Lemma roles_accounted org : route = "roles" → accounted route (fst (renderRolesScreen request org)).
Proof.
  intros Hr. assert (asked_by route (ListRoles org) = true ∧ asked_by route (ListMembers org) = true) as [Ha Hb] by by subst.
  unfold renderRolesScreen.
  destruct (typed_answer (ListMembers org) _ Hb eq_refl) as [(m & E' & _)|(e' & E' & _)]; rewrite E';
  destruct (typed_rows_of false _ _ Ha eq_refl) as [(l & -> & _ & _ & Hl)|(e & E & _)]; try rewrite E.
  - cbn [fst]. cbn [jor truthy].
    assert (forallb drawable_role l = true) as ->; [|done].
    apply forallb_forall. intros x Hx%list_elem_of_In. by apply role_drawable, (proj1 (Forall_forall _ _) Hl).
  - by exists (ListRoles org).
  - by exists (ListMembers org).
  - by exists (ListRoles org).
Qed.

Lemma workflow_accounted org target id parent :
  route = "workflow-detail" →
  accounted route (ConsoleWorkflow.renderWorkflowDetailScreen locale now viewer_id request org target id parent).
Proof.
  intros Hr.
  assert (asked_by route (GetWorkflow org target id) = true ∧ asked_by route (ListSteps org target id) = true) as [Ha Hb] by by subst.
  unfold ConsoleWorkflow.renderWorkflowDetailScreen.
  destruct (typed_answer _ _ Ha eq_refl) as [(wf & -> & Hw)|(e & E & _)]; [|rewrite E; by exists (GetWorkflow org target id)].
  rewrite (proj1 (typed_object _ _ Hw)).
  destruct (typed_rows_of false _ _ Hb eq_refl) as [(l & -> & _ & -> & _)|(e & E & _)]; [done|].
  rewrite E. by exists (ListSteps org target id).
Qed.

Lemma settings_accounted org app : route = "settings" → accounted route (renderSettingsScreen request org app).
Proof.
  intros Hr. assert (asked_by route (GetApplication org app) = true) as Ha by by subst.
  unfold renderSettingsScreen. destruct (String.eqb app ""); [done|]. unfold settled.
  destruct (typed_answer _ _ Ha eq_refl) as [(v & -> & Hv)|(e & E & _)].
  - cbn [resolved]. by rewrite (proj1 (typed_object _ _ Hv)).
  - rewrite E. by exists (GetApplication org app).
Qed.

Lemma metrics_accounted f : route = "metrics" → accounted route (renderMetricsScreen request f).
Proof.
  intros Hr. assert (asked_by route (GetMetricsText (metrics_query f)) = true) as Ha by by subst.
  unfold renderMetricsScreen. specialize (Htyped _ Ha).
  destruct (request (GetMetricsText (metrics_query f))) as [v|s|e|] eqn:E; try done. by exists (GetMetricsText (metrics_query f)).
Qed.

Lemma audit_accounted org f :
  route = "audit" → is_Some (audit_query local_ms f) →
  ∃ s, renderAuditScreen request locale local_ms org f = Some s ∧ accounted route s.
Proof.
  intros Hr [query Hq]. assert (asked_by route (ListAuditLogs org query) = true) as Ha by by subst.
  unfold renderAuditScreen, settled. rewrite Hq.
  destruct (typed_rows_of false _ _ Ha eq_refl) as [(l & -> & _ & Hn & _)|(e & E & _)].
  - cbn. rewrite Hn. by eexists.
  - rewrite E. eexists. split; [done|]. by exists (ListAuditLogs org query).
Qed.
Lemma list_typed op fs :
  asked_by route op = true → declared op = Some (TArray (TObject fs)) →
  ∃ l, list_of (settled (request op)) = Some l ∧ forallb (λ x, negb (nullish x)) l = true ∧
    (error_of browser (settled (request op)) = None → request op = Got (JArr l)).
Proof.
  intros Ha Ht. unfold settled.
  destruct (typed_rows_of false _ _ Ha Ht) as [(l & E & _ & Hn & _)|(e & E & _)]; rewrite E; [by exists l|by exists []].
Qed.

(** The times of the recommendations are times. *)
Definition times_in_range (org app : string) : Prop :=
  ∀ l r, request (GetAutoscale org app) = Got (JArr l) → r ∈ l → is_Some (iso_of (field r "observedAt")).

Lemma autoscaling_accounted org app :
  route = "autoscaling" → times_in_range org app →
  ∃ s, renderAutoscalingScreen request browser locale org app = Some s ∧ accounted route s.
Proof.
  intros Hr Htimes. unfold renderAutoscalingScreen. destruct (String.eqb app ""); [by eexists|].
  destruct (list_typed (ListQueues org app) _ ltac:(by subst) eq_refl) as (queues & -> & Hn & _).
  destruct (list_typed (GetAutoscale org app) _ ltac:(by subst) eq_refl) as (recs & -> & _ & Hrecs). rewrite Hn.
  assert (∀ policy, ∃ html, autoscaling_html locale queues (error_of browser (settled (request (ListQueues org app)))) policy recs
    (error_of browser (settled (request (GetAutoscale org app)))) = Some html) as Hdraw.
  { intros policy. unfold autoscaling_html. destruct (error_of browser (settled (request (GetAutoscale org app)))); cbn [isSome orb]; [by eexists|].
    assert (forallb (λ r, isSome (iso_of (field r "observedAt"))) recs = true) as ->; [|by eexists].
    apply forallb_forall. intros r Hin%list_elem_of_In. by destruct (Htimes _ _ (Hrecs eq_refl) Hin) as [x ->]. }
  unfold settled at 1.
  destruct (typed_answer (GetAutoscalingPolicy org app) _ ltac:(by subst) eq_refl) as [(v & -> & _)|(e & E & _)]; [|rewrite E]; cbn [resolved settled_policy failure].
  - destruct (Hdraw (policy_of v)) as [html ->]. by eexists.
  - destruct (status_is 404 e); [destruct (Hdraw JNull) as [html ->]; by eexists|].
    eexists. split; [done|]. exists (GetAutoscalingPolicy org app). by subst.
Qed.
End Typed.

Lemma failed_card_html route h e : is_Some (card_html h route (failed_card route h e)).
Proof. unfold failed_card. repeat case_match; by eexists. Qed.

(** C11: answers of the types the client declares are enough for every screen.
    Whatever the route, when the calls of its screen are answered with values of
    the declared types or refused with an error, the screen never ends with an
    exception of the browser: it draws its page, or the card of an error that one
    of its own requests was refused with, and when none is refused it is the
    page.  (The recommendations carry times, and the dates of the audit filters
    are dates.) *)
Theorem typed_answers_make_pages request browser locale now viewer_id local_ms v :
  (∀ op, asked_by (h_route (v_shell v)) op = true → keeps_type op (request op) = true) →
  times_in_range request (h_org (v_shell v)) (h_app (v_shell v)) →
  is_Some (audit_query local_ms (v_audit v)) →
  ∃ s html, content request browser locale now viewer_id local_ms v = Some s ∧
    screen_html (v_shell v) (h_route (v_shell v)) s = Some html ∧
    match s with
    | Drawn _ => True
    | Fails e => ∃ op e', e = Some e' ∧ asked_by (h_route (v_shell v)) op = true ∧ request op = Refused e'
    end.
Proof.
  intros Hty Htimes Haudit.
  assert (∃ s, content request browser locale now viewer_id local_ms v = Some s ∧ accounted request (h_route (v_shell v)) s) as (s & Hs & Ha).
  { unfold content.
    repeat match goal with |- context [if String.eqb (h_route (v_shell v)) ?r then _ else _] =>
      destruct (String.eqb_spec (h_route (v_shell v)) r) as [Hr|_] end.
    - destruct (load_typed request (h_route (v_shell v)) Hty (h_org (v_shell v)) (v_saved v) Hr) as [[apps app] ->].
      unfold renderFleetScreen. destruct (mapM _ _) eqn:E; [by eexists|]. apply mapM_None, Exists_exists in E as (a & _ & E).
      destruct (overview_typed request (h_route (v_shell v)) Hty (h_org (v_shell v)) a Hr) as [o Eo]. congruence.
    - eexists. split; [done|]. by apply workflows_accounted.
    - eexists. split; [done|]. by apply workflow_accounted.
    - eexists. split; [done|]. eapply gathered; [done|by intros a; rewrite Hr|done].
    - eexists. split; [done|]. eapply gathered; [done|by intros a; rewrite Hr|done].
    - eexists. split; [done|]. eapply gathered; [done|by intros a; rewrite Hr|done].
    - eexists. split; [done|]. by apply metrics_accounted.
    - eexists. split; [done|]. by apply keys_accounted.
    - eexists. split; [done|]. by apply roles_accounted.
    - by apply autoscaling_accounted.
    - eexists. split; [done|]. by apply settings_accounted.
    - by apply audit_accounted.
    - by eexists. }
  exists s. destruct s as [html|[e|]]; [by exists html| |done].
  destruct (failed_card_html (h_route (v_shell v)) (v_shell v) e) as [html Hh]. exists html. split_and!; [done|done|].
  destruct Ha as (op & H1 & H2). by exists op, e.
Qed.

(** The autoscaling screen of an application with a policy. *)
Definition orders_queue : jval := JObj
  [("name", JStr "orders"); ("workerConcurrency", JNum 4); ("priorityEnabled", JBool false);
   ("partitionQueue", JBool false); ("pollingIntervalSecs", JNum 1)].

Definition orders_answers (op : operation) : Client.answer :=
  match op with
  | ListQueues _ _ => Got (JArr [orders_queue])
  | GetAutoscalingPolicy _ _ => Got (JObj [("policy", JObj [("queue", JStr "orders")])])
  | GetAutoscale _ _ => Got (JArr [JObj
      [("applicationVersion", JStr "v2"); ("isLatest", JBool true); ("desiredExecutors", JNum 3);
       ("queueName", JStr "orders"); ("queueDepth", JNum 9); ("observedAt", JNum 1700000000000)]])
  | _ => Refused (Err (Some 401) "authentication required")
  end.

Definition shell_at (route app : string) : shell :=
  Shell (Some "k") route "acme" ["acme"] app [app] None "dark" (Every 5000) false false.

Definition view_at (route app : string) : view :=
  View (shell_at route app) [] "" ∅ "" JUndef ConsoleAudit.clearAuditFilters ConsoleMetrics.clearMetricsFilters.

Lemma typed_answers_make_pages_witness :
  ∃ html, content orders_answers "" (λ _, "") 0 (λ _ _, "") (λ _, None) (view_at "autoscaling" "shop") = Some (Drawn html).
Proof.
  destruct (typed_answers_make_pages orders_answers "" (λ _, "") 0 (λ _ _, "") (λ _, None) (view_at "autoscaling" "shop"))
    as (s & html & Hs & _ & Ha).
  - intros [] H; solve [vm_compute in H; discriminate H | vm_compute; reflexivity].
  - intros l r [= <-] Hr. apply list_elem_of_singleton in Hr as ->. vm_compute. by eexists.
  - vm_compute. by eexists.
  - destruct s as [h|e]; [exists h; exact Hs|]. exfalso. destruct Ha as (op & e' & _ & H & E).
    destruct op; vm_compute in H, E; discriminate.
Defined.

(** ** What modelling showed *)

(** A queue may leave its limits out: the screen compares them with [null] only
    and shows the word undefined. *)
Lemma absent_limit_shown_undefined :
  conforms Queue orders_queue = true ∧ includes (queue_row orders_queue) "<td>undefined</td>" = true.
Proof. split; vm_compute; reflexivity. Qed.

(** One recommendation with a time that is none takes the policy's form with it. *)
Lemma odd_time_hides_policy :
  content (λ op, match op with
    | GetAutoscale _ _ => Got (JArr [JObj
      [("applicationVersion", JStr "v2"); ("isLatest", JBool true); ("desiredExecutors", JNum 3);
       ("queueName", JStr "orders"); ("queueDepth", JNum 9); ("observedAt", JNum (10 ^ 18))]])
    | _ => orders_answers op end) "" (λ _, "") 0 (λ _ _, "") (λ _, None) (view_at "autoscaling" "shop") = Some (Fails None).
Proof. vm_compute. reflexivity. Qed.
