(* ===== verification/ConsoleChrome.v ===== *)
(** The parts of the console's frame that are changed in place (app.js): the
    folded sidebar and the open one of small screens, the theme and its button,
    the indicator of the live refresh, and the toasts; beside what [render] draws
    for the same state. *)

From Stdlib Require Import ZArith Lia Ascii String.
From stdpp Require Import base list strings gmap.
From S2P Require Import Prelude Html ConsoleView ConsoleState PlaygroundBus.

(** ** The elements *)

Record button := Button { b_label : string; b_title : string; b_stroke : string; b_shape : string }.

(** The elements of one [render()]: [c_gen] tells them from those of another. *)
Record chrome := Chrome {
  c_gen : nat;
  c_overlay : bool;      (* .mobile-overlay.active *)
  c_mobile : bool;       (* .sidebar.mobile-open *)
  c_folded : bool;       (* .sidebar.folded *)
  c_theme : button;      (* [data-action='toggleTheme'] *)
  c_fold : button;       (* .sidebar-collapse-btn, the only toggleSidebarFold *)
  c_dot : dot }.         (* .poll-dot *)

Definition moon : string := q "<path d=`M20 14.2A8.2 8.2 0 0 1 9.8 4a8.5 8.5 0 1 0 10.2 10.2Z`/>".
Definition sun : string := q "<circle cx=`12` cy=`12` r=`4`/><path d=`M12 2.8V5M12 19v2.2M21.2 12H19M5 12H2.8M18.5 5.5l-1.6 1.6M7.1 16.9l-1.6 1.6M18.5 18.5l-1.6-1.6M7.1 7.1 5.5 5.5`/>".

(** What [applyTheme] makes of the button of the theme. *)
Definition theme_button (theme : string) : button :=
  let label := if String.eqb theme "dark" then "Switch to light theme" else "Switch to dark theme" in
  Button label label "1.8" (if String.eqb theme "dark" then moon else sun).

Definition fold_label (folded : bool) : string := if folded then "Expand sidebar" else "Fold sidebar".
Definition fold_shape (folded : bool) : string :=
  if folded then q "<polyline points=`9 18 15 12 9 6`/>" else q "<polyline points=`15 18 9 12 15 6`/>".

(** What [render()] draws. *)
Definition drawn (gen : nat) (h : shell) : chrome :=
  Chrome gen (h_mobile h) (h_mobile h) (h_folded h) (theme_button (h_theme h))
    (Button (fold_label (h_folded h)) (fold_label (h_folded h)) "1.8" (fold_shape (h_folded h)))
    (Dot (poll_active (h_poll h)) false "").

(** The text of an element's class, its button, its icon. *)
Definition on (c : string) (b : bool) : string := if b then c else "".

Definition button_tag (class action : string) (b : button) : string :=
  tpl [T "<button class=`"; H class; T "` type=`button` data-action=`"; H action; T "` aria-label=`"; H (b_label b);
       T "` title=`"; H (b_title b); T "`>"].

Definition svg_tag (b : button) : string :=
  tpl [T "<svg width=`12` height=`12` viewBox=`0 0 24 24` fill=`none` stroke=`currentColor` stroke-width=`"; H (b_stroke b);
       T "` aria-hidden=`true`>"].

(** ** The frame *)

Record ui := Ui {
  u_shell : shell;
  u_attr : string;                  (* data-theme *)
  u_local : gmap string string;     (* localStorage *)
  u_chrome : option chrome;         (* the elements of the page, once there is one *)
  u_stream : option (option nat);   (* the stream that is open, and the elements its callbacks hold *)
  u_posted : list string;           (* the themes posted to the parent *)
  u_embedded : bool;                (* the page is in a frame *)
  u_next : nat }.

Definition with_chrome (g : chrome → chrome) (f : ui) : ui :=
  Ui (u_shell f) (u_attr f) (u_local f) (g <$> u_chrome f) (u_stream f) (u_posted f) (u_embedded f) (u_next f).

Definition with_shell (g : shell → shell) (f : ui) : ui :=
  Ui (g (u_shell f)) (u_attr f) (u_local f) (u_chrome f) (u_stream f) (u_posted f) (u_embedded f) (u_next f).

Definition stored_value (k v : string) (f : ui) : ui :=
  Ui (u_shell f) (u_attr f) (<[k := v]> (u_local f)) (u_chrome f) (u_stream f) (u_posted f) (u_embedded f) (u_next f).

Definition set_mobile (m : bool) (f : ui) : ui :=
  with_chrome (λ c, Chrome (c_gen c) m m (c_folded c) (c_theme c) (c_fold c) (c_dot c))
    (with_shell (λ h, with_nav m (h_folded h) h) f).

Definition toggleMobileNav (f : ui) : ui := set_mobile (negb (h_mobile (u_shell f))) f.
Definition closeMobileNav (f : ui) : ui := set_mobile false f.

(** The icon is written anew, with another width of stroke. *)
Definition toggleSidebarFold (f : ui) : ui :=
  let folded := negb (h_folded (u_shell f)) in
  with_chrome (λ c, Chrome (c_gen c) (c_overlay c) (c_mobile c) folded (c_theme c)
                      (Button (fold_label folded) (fold_label folded) "2" (fold_shape folded)) (c_dot c))
    (stored_value fold_key (if folded then "true" else "false")
      (with_shell (λ h, with_nav (h_mobile h) folded h) f)).

Definition applyTheme (theme : string) (f : ui) : ui :=
  let f := stored_value theme_key theme (with_shell (with_theme theme) f) in
  with_chrome (λ c, Chrome (c_gen c) (c_overlay c) (c_mobile c) (c_folded c) (theme_button theme) (c_fold c) (c_dot c))
    (Ui (u_shell f) theme (u_local f) (u_chrome f) (u_stream f) (u_posted f) (u_embedded f) (u_next f)).

Definition toggleTheme (f : ui) : ui :=
  let next := if String.eqb (h_theme (u_shell f)) "dark" then "light" else "dark" in
  let f := applyTheme next f in
  if u_embedded f then
    Ui (u_shell f) (u_attr f) (u_local f) (u_chrome f) (u_stream f) (u_posted f ++ [next]) (u_embedded f) (u_next f)
  else f.

Definition set_dot (d : dot) (c : chrome) : chrome :=
  Chrome (c_gen c) (c_overlay c) (c_mobile c) (c_folded c) (c_theme c) (c_fold c) d.

Definition set_stream (s : option (option nat)) (f : ui) : ui :=
  Ui (u_shell f) (u_attr f) (u_local f) (u_chrome f) s (u_posted f) (u_embedded f) (u_next f).

(** [setPollInterval(mode)]: the stream's callbacks hold the indicator there is. *)
Definition setPollInterval (mode : poll_mode) (f : ui) : ui :=
  let f := with_shell (with_poll mode) f in
  match mode with
  | Stream => set_stream (Some (c_gen <$> u_chrome f)) f
  | Every ms => with_chrome (set_dot (polling_dot ms)) (set_stream None f)
  end.

(** A callback of the stream: it writes to the elements it holds, which may be
    gone from the page. *)
Definition stream_writes (d : dot) (f : ui) : ui :=
  match u_stream f with
  | Some (Some gen) => with_chrome (λ c, if (c_gen c =? gen)%nat then set_dot d c else c) f
  | _ => f
  end.

Definition stream_lost : dot := Dot false true "Streaming disconnected, attempting reconnect...".

(** [render()] replaces all the elements. *)
Definition render (f : ui) : ui :=
  Ui (u_shell f) (u_attr f) (u_local f) (Some (drawn (u_next f) (u_shell f))) (u_stream f) (u_posted f) (u_embedded f)
    (S (u_next f)).

Inductive event :=
| Fold | ToggleNav | CloseNav | ToggleTheme | SetTheme (theme : string) | SelectPoll (mode : poll_mode)
| StreamOpens | StreamFails | Navigate (route : string).

Definition step (ev : event) (f : ui) : ui :=
  match ev with
  | Fold => toggleSidebarFold f
  | ToggleNav => toggleMobileNav f
  | CloseNav => closeMobileNav f
  | ToggleTheme => toggleTheme f
  | SetTheme theme => applyTheme theme f
  | SelectPoll mode => setPollInterval mode f
  | StreamOpens => stream_writes sse_opened f
  | StreamFails => stream_writes stream_lost f
  | Navigate route => render (with_shell (λ h, Shell (h_key h) route (h_org h) (h_orgs h) (h_app h) (h_apps h) (h_wf h)
                                (h_theme h) (h_poll h) (h_mobile h) (h_folded h)) f)
  end.

Definition steps (evs : list event) (f : ui) : ui := fold_left (λ f ev, step ev f) evs f.

(** ** What is drawn, as text *)

(** The texts are parts of [s], one after the other. *)
Fixpoint in_order (l : list string) (s : string) : Prop :=
  match l with
  | [] => True
  | x :: l => ∃ a r, s = a +:+ x +:+ r ∧ in_order l r
  end.

Fixpoint cut (x s : string) : option string :=
  if is_prefix x s then Some (sdrop (String.length x) s)
  else match s with EmptyString => None | String _ s => cut x s end.

Fixpoint in_orderb (l : list string) (s : string) : bool :=
  match l with
  | [] => true
  | x :: l => match cut x s with Some r => in_orderb l r | None => false end
  end.

Lemma cut_spec x s r : cut x s = Some r → ∃ a, s = a +:+ x +:+ r.
Proof.
  revert r. induction s as [|c s IH]; intros r; cbn [cut];
    destruct (is_prefix x _) eqn:E; try done.
  1,2: intros [= <-]; exists ""; by apply prefix_drop.
  intros [a ->]%IH. by exists (String c a).
Qed.

Lemma in_orderb_spec l s : in_orderb l s = true → in_order l s.
Proof.
  revert s. induction l as [|x l IH]; intros s; [done|]. cbn [in_orderb in_order].
  destruct (cut x s) as [r|] eqn:E; [|done]. intros H. destruct (cut_spec _ _ _ E) as [a ->]. exists a, r. auto.
Qed.

Lemma in_order_skip l s r : in_order l r → in_order l (s +:+ r).
Proof. destruct l as [|x l]; [done|]. intros (a & r' & -> & H). exists (s +:+ a), r'. by rewrite !app_assoc_str. Qed.

Lemma in_order_app l l' s s' : in_order l s → in_order l' s' → in_order (l ++ l') (s +:+ s').
Proof.
  revert s. induction l as [|x l IH]; intros s; cbn [in_order app]; [intros _; apply in_order_skip|].
  intros (a & r & -> & H) H'. exists a, (r +:+ s'). split; [by rewrite !app_assoc_str|auto].
Qed.

Lemma in_order_prefix l l' s : in_order (l ++ l') s → in_order l s.
Proof.
  revert s. induction l as [|x l IH]; intros s; [done|]. intros (a & r & -> & H). exists a, r. eauto.
Qed.

Lemma in_order_suffix l l' s : in_order (l ++ l') s → in_order l' s.
Proof.
  revert s. induction l as [|x l IH]; intros s; [done|]. intros (a & r & -> & H%IH). by apply in_order_skip, in_order_skip.
Qed.

(** The texts of the elements, in the order of the page. *)
Definition side_texts (c : chrome) : list string :=
  [tpl [T "<div class=`mobile-overlay "; H (on "active" (c_overlay c)); T "` data-action=`closeMobileNav`>"];
   tpl [T "<aside class=`sidebar "; H (on "mobile-open" (c_mobile c)); T " "; H (on "folded" (c_folded c)); T "`>"]].

Definition button_texts (c : chrome) : list string :=
  [button_tag "btn btn-xs btn-secondary" "toggleTheme" (c_theme c); svg_tag (c_theme c) +:+ b_shape (c_theme c);
   button_tag "btn btn-xs btn-secondary sidebar-collapse-btn" "toggleSidebarFold" (c_fold c); svg_tag (c_fold c);
   b_shape (c_fold c)].

Definition dot_texts (c : chrome) : list string :=
  [tpl [T "<span class=`poll-dot "; H (on "active" (d_active (c_dot c))); T "`>"]].

Lemma in_order_tpl l xs ys : in_order l (tpl ys) → in_order l (tpl (xs ++ ys)).
Proof. intros H. induction xs as [|x xs IH]; [done|]. by apply in_order_skip. Qed.

Lemma tpl_app xs ys : tpl (xs ++ ys) = tpl xs +:+ tpl ys.
Proof. induction xs as [|x xs IH]; [done|]. cbn [app tpl]. by rewrite IH, app_assoc_str. Qed.

(** A list of chunks, cut before its [n]th. *)
Lemma tpl_cut n l : tpl l = tpl (firstn n l) +:+ tpl (skipn n l).
Proof. by rewrite <- tpl_app, firstn_skipn. Qed.

Lemma in_order_left l s r : in_order l s → in_order l (s +:+ r).
Proof. intros H. rewrite <- (app_nil_r l). by apply in_order_app. Qed.

Lemma sidebar_drawn gen h :
  let c := drawn gen h in in_order (skipn 1 (side_texts c) ++ button_texts c) (renderSidebar h).
Proof.
  unfold renderSidebar. rewrite (tpl_cut 5). apply in_order_app.
  - apply in_orderb_spec. unfold drawn, side_texts. cbn [c_mobile c_folded].
    destruct (h_mobile h), (h_folded h); vm_compute; reflexivity.
  - cbn [skipn tpl]. apply in_order_skip.
    match goal with |- in_order _ (chunk_text ?a +:+ ?r) => change (chunk_text a +:+ r) with (tpl [a] +:+ r) end.
    apply in_orderb_spec. unfold drawn, button_texts, theme_button. cbn [c_theme c_fold].
    destruct (String.eqb (h_theme h) "dark"), (h_folded h); vm_compute; reflexivity.
Qed.

Lemma dot_drawn gen h : in_order (dot_texts (drawn gen h)) (renderTopHeader h).
Proof.
  unfold renderTopHeader. rewrite (tpl_cut 10), (tpl_cut 3 (skipn 10 _)). apply in_order_skip, in_order_left.
  apply in_orderb_spec. unfold drawn, dot_texts. cbn [c_dot d_active firstn skipn].
  destruct (poll_active (h_poll h)); vm_compute; reflexivity.
Qed.

(** [drawn] is what the templates of the shell hold. *)
Lemma drawn_in_page gen h :
  let c := drawn gen h in in_order (side_texts c ++ button_texts c ++ dot_texts c) (shell_html h).
Proof.
  intros c. unfold shell_html. rewrite (tpl_cut 3). apply (in_order_app [_] (_ :: button_texts c ++ dot_texts c)).
  { apply in_orderb_spec. unfold c, drawn. cbn [c_overlay]. destruct (h_mobile h); vm_compute; reflexivity. }
  cbn [skipn tpl chunk_text]. apply (in_order_app (_ :: button_texts c)); [apply (sidebar_drawn gen h)|].
  apply in_order_skip, in_order_left, (dot_drawn gen h).
Qed.

(** ** What is changed in place is what would be drawn *)

(** A button that says and shows the same, whatever the width of its stroke. *)
Definition same_button (a b : button) : Prop :=
  b_label a = b_label b ∧ b_title a = b_title b ∧ b_shape a = b_shape b.

Definition same_dot (a b : dot) : Prop := d_active a = d_active b ∧ d_error a = d_error b.

(** The elements are those [render] would draw now; the indicator is left aside
    while a stream is chosen, whose callbacks it then waits for. *)
Record up_to_date (c : chrome) (f : ui) : Prop := {
  up_overlay : c_overlay c = c_overlay (drawn (c_gen c) (u_shell f));
  up_mobile : c_mobile c = c_mobile (drawn (c_gen c) (u_shell f));
  up_folded : c_folded c = c_folded (drawn (c_gen c) (u_shell f));
  up_theme : c_theme c = c_theme (drawn (c_gen c) (u_shell f));
  up_fold : same_button (c_fold c) (c_fold (drawn (c_gen c) (u_shell f)));
  up_dot : h_poll (u_shell f) ≠ Stream → same_dot (c_dot c) (c_dot (drawn (c_gen c) (u_shell f))) }.

(** What is kept for the next visit. *)
Record kept (f : ui) : Prop := {
  kp_attr : u_attr f = h_theme (u_shell f);
  kp_theme : u_local f !! theme_key = Some (h_theme (u_shell f));
  kp_fold : u_local f !! fold_key = Some (if h_folded (u_shell f) then "true" else "false") ∨
            u_local f !! fold_key = None ∧ h_folded (u_shell f) = false;
  kp_stream : u_stream f ≠ None → h_poll (u_shell f) = Stream }.

Definition current (f : ui) : Prop := (∃ c, u_chrome f = Some c ∧ up_to_date c f) ∧ kept f.

Lemma drawn_up_to_date gen f : up_to_date (drawn gen (u_shell f)) f.
Proof. split; try done. Qed.

Lemma theme_not_fold : theme_key ≠ fold_key.
Proof. done. Qed.

Lemma step_current ev f : current f → current (step ev f).
Proof.
  destruct f as [[key route org orgs app apps wf theme poll mobile folded] attr local chr stream posted emb next].
  intros [(c & Hc & Hu) Hk]. cbn in Hc. subst chr. destruct c as [gen overlay mob fold bt bf d].
  destruct Hu as [H1 H2 H3 H4 H5 H6], Hk as [K1 K2 K3 K4]. cbn in * |-. subst.
  assert (N : fold_key ≠ theme_key) by done.
  destruct ev as [| | | |t|mode| | |route']; unfold current, step.
  - split; [eexists; split; [reflexivity|by split]|]. split; cbn; [done|by rewrite lookup_insert_ne| |done].
    left. by rewrite lookup_insert_eq.
  - split; [eexists; split; [reflexivity|by split]|by split].
  - split; [eexists; split; [reflexivity|by split]|by split].
  - unfold toggleTheme. cbn. destruct emb; (split; [eexists; split; [reflexivity|by split]|];
      split; cbn; [done|by rewrite lookup_insert_eq|by rewrite lookup_insert_ne|done]).
  - split; [eexists; split; [reflexivity|by split]|]. split; cbn; [done|by rewrite lookup_insert_eq|by rewrite lookup_insert_ne|done].
  - destruct mode as [|ms]; (split; [eexists; split; [reflexivity|]|by split]).
    + by split.
    + split; try done. intros _. cbn. unfold polling_dot. destruct (0 <? ms); done.
  - cbn. destruct stream as [[g|]|]; cbn.
    + split; [eexists; split; [reflexivity|]|by split]. destruct (gen =? g)%nat; split; try done.
      intros Hp. destruct Hp. by apply K4.
    + split; [eexists; split; [reflexivity|by split]|by split].
    + split; [eexists; split; [reflexivity|by split]|by split].
  - cbn. destruct stream as [[g|]|]; cbn.
    + split; [eexists; split; [reflexivity|]|by split]. destruct (gen =? g)%nat; split; try done.
      intros Hp. destruct Hp. by apply K4.
    + split; [eexists; split; [reflexivity|by split]|by split].
    + split; [eexists; split; [reflexivity|by split]|by split].
  - split; [eexists; split; [reflexivity|by split]|by split].
Qed.

Lemma steps_current evs f : current f → current (steps evs f).
Proof. revert f. induction evs as [|ev evs IH]; intros f H; [done|]. by apply IH, step_current. Qed.


(** The page as it is first drawn, in a dark theme. *)
Definition first_page (embedded : bool) : ui :=
  render (Ui (Shell None "fleet" "default" ["default"] "" [] None "dark" (Every 0) false false) "dark"
            {[theme_key := "dark"]} None None [] embedded 0).

Lemma first_page_current embedded : current (first_page embedded).
Proof. split; [eexists; split; [reflexivity|by split]|split; try done]. by right. Qed.

Definition busy_hour : list event :=
  [Fold; ToggleTheme; SelectPoll Stream; StreamOpens; Navigate "queues"; ToggleNav; StreamFails; Fold; Fold;
   SelectPoll (Every 5000); CloseNav; SetTheme "dark"; ToggleTheme].


(** ** Toasts *)

(** A toast fades 3.5 seconds after it was shown and is removed a quarter of a
    second later; each timer acts on its own element. *)
Inductive timer := Fade (i : nat) | Remove (i : nat).
Record toast := Toast { t_id : nat; t_class : string; t_html : string; t_faded : bool }.
Record tray := Tray { y_toasts : list toast; y_timers : list (Z * timer); y_next : nat }.

Definition showToast (now : Z) (message type : string) (y : tray) : tray :=
  Tray (y_toasts y ++ [Toast (y_next y) ("toast toast-" +:+ type) (toast_html message type) false])
    (y_timers y ++ [(now + 3500, Fade (y_next y))]) (S (y_next y)).

(** The timer that is due first fires; the browser fires those of the same time
    in the order they were set. *)
Definition fire (t : Z * timer) (y : tray) : tray :=
  match snd t with
  | Fade i => Tray (map (λ x, if (t_id x =? i)%nat then Toast i (t_class x) (t_html x) true else x) (y_toasts y))
                (y_timers y ++ [(fst t + 250, Remove i)]) (y_next y)
  | Remove i => Tray (keep (λ x, negb (t_id x =? i)%nat) (y_toasts y)) (y_timers y) (y_next y)
  end.

(** The next timer: the earliest, and of these the first that was set. *)
Fixpoint next_due (l : list (Z * timer)) : option ((Z * timer) * list (Z * timer)) :=
  match l with
  | [] => None
  | t :: l =>
      match next_due l with
      | Some (u, l') => if fst u <? fst t then Some (u, t :: l') else Some (t, l)
      | None => Some (t, l)
      end
  end.

(** Everything that happens up to a time. *)
Fixpoint pass (fuel : nat) (now : Z) (y : tray) : tray :=
  match fuel with
  | O => y
  | S fuel =>
      match next_due (y_timers y) with
      | Some (t, rest) => if fst t <=? now then pass fuel now (fire t (Tray (y_toasts y) rest (y_next y))) else y
      | None => y
      end
  end.

(** Two messages, the second two seconds later: at four seconds only the second
    is left, and six seconds after the start there is none. *)
Example toasts_go :
  let y := showToast 2000 "Role created" "success" (showToast 0 "Telemetry refreshed" "info" (Tray [] [] 0)) in
  map t_id (y_toasts (pass 9 3499 y)) = [0; 1]%nat ∧ map t_faded (y_toasts (pass 9 3500 y)) = [true; false] ∧
  map t_id (y_toasts (pass 9 4000 y)) = [1]%nat ∧ pass 9 5750 y = Tray [] [] 2.
Proof. vm_compute. repeat split. Qed.

(** ** What modelling showed *)

(** Folding the sidebar draws its icon with a thicker stroke than the page had,
    until the next navigation. *)
Lemma folding_thickens_icon :
  (b_stroke ∘ c_fold <$> u_chrome (first_page false)) = Some "1.8" ∧
  (b_stroke ∘ c_fold <$> u_chrome (steps [Fold; Fold] (first_page false))) = Some "2".
Proof. split; reflexivity. Qed.

(** The callbacks of a stream keep the indicator of the page they were made on:
    after a navigation a lost stream is still shown as live. *)
Lemma lost_stream_shown_live :
  let shown evs := (λ c, (d_active (c_dot c), d_error (c_dot c))) <$> u_chrome (steps evs (first_page false)) in
  shown [SelectPoll Stream; StreamOpens; StreamFails] = Some (false, true) ∧
  shown [SelectPoll Stream; StreamOpens; Navigate "queues"; StreamFails] = Some (true, false).
Proof. split; reflexivity. Qed.
