(* ===== verification/ConsoleSystem.v ===== *)
(** The whole system in one machine: the user's events, the console's application
    object (app.js) with the calls that wait, the client (client.ts) and the
    control plane of the playground (relay-bridge.js), which answers the requests
    in any order; the data of a screen is the text of its page.

    From this: what a command on the registry does is on the screen when the
    answers are in. *)

From Stdlib Require Import ZArith Lia Ascii String.
From stdpp Require Import base list strings gmap.
From S2P Require Import Prelude Html HtmlScan Json JsonSpec Uri ApiTypes ApiClient.
From S2P Require Import BridgeState BridgeRoutes BridgeSpec ClientServe ClientSpec ClientTypes.
From S2P Require Import ConsoleView ConsoleState ConsoleSpec ConsoleWidgets ConsoleMetrics ConsoleForms ConsoleAudit.
From S2P Require Import ConsoleLists ConsoleListsSpec ConsoleScreens.
Import Client.

(** ** From commands to calls *)

(** What the function behind a command calls. *)
Definition operation_of (org : string) (c : command) : operation :=
  match c with
  | ConsoleState.CancelWorkflow app id => ClientServe.CancelWorkflow org app id
  | ConsoleState.ResumeWorkflow app id => ClientServe.ResumeWorkflow org app id
  | RestartWorkflow app id => ForkWorkflow org app id 0
  | ConsoleState.PauseSchedule app name => ClientServe.PauseSchedule org app name
  | ConsoleState.ResumeSchedule app name => ClientServe.ResumeSchedule org app name
  | ConsoleState.TriggerSchedule app name => ClientServe.TriggerSchedule org app name
  | DeleteRule app id => DeleteAlertingRule org app id
  | RevokeKey name => RevokeAPIKey org name
  | ConsoleState.DeleteRole name => ClientServe.DeleteRole org name
  | ConsoleState.RemoveMember username => ClientServe.RemoveMember org username
  | DeletePolicy app => DeleteAutoscalingPolicy org app
  | GrantRole username role => GrantMemberRole org username role
  | ConsoleState.CreateRole name permissions => ClientServe.CreateRole org name permissions
  | CreateKey name apps => CreateAPIKey org name ["*"] apps
  end.

Section System.
Context (opens : string → string → bool).       (* which streams can be opened *)
Context (e : env) (network : option http) (browser : string).
Context (locale : jval → string) (now : Z) (viewer_id : jval → string → string) (local_ms : string → option Z).
Context (audit : auditFilters) (metrics : metricsFilters).

(** A string of the answer that the code goes on with; [None]: it is no string. *)
Definition text_at (v : jval) (k : string) : option string :=
  match field v k with JStr s => Some s | _ => None end.

(** What an awaited call is for the code after it. *)
Definition await (data : jval → option string) (a : Client.answer) : option ConsoleState.answer :=
  match a with
  | Got v => Answer <$> data v
  | GotText s => Some (Answer s)
  | Refused er => Some (Failed er)
  | Broken => Some (Failed (Err None browser))
  end.

Definition data_of (c : command) (v : jval) : option string :=
  match c with
  | RestartWorkflow _ _ | ConsoleState.TriggerSchedule _ _ => text_at v "workflowId"
  | CreateKey _ _ => text_at v "token"
  | _ => Some ""
  end.

(** The fields a screen reads, at the time of its requests. *)
Definition view_of (k : console) (a : ask) : view :=
  let h := k_shell k in
  View (Shell (h_key h) (a_route a) (a_org a) (h_orgs h) (a_app a) (h_apps h) (a_wf a) (h_theme h) (h_poll h)
          (h_mobile h) (h_folded h))
    (map (λ n, JObj [("name", JStr n)]) (h_apps h)) (default "" (stored app_key (k_local k))) (k_wfApps k) (a_app a)
    JUndef audit metrics.

Definition names_of (name : jval → option string) (a : Client.answer) : option ConsoleState.answer :=
  match a with
  | Got (JArr l) => Names <$> mapM name l
  | Refused er => Some (Failed er)
  | Broken => Some (Failed (Err None browser))
  | _ => None
  end.

(** The answer to a request, and the control plane after it; [None]: the answer is
    none the model reads.  A screen's requests are answered at one moment. *)
Definition reply (key : option string) (r : ConsoleState.request) (k : console) (s : state) : option (state * ConsoleState.answer) :=
  let call op := exchange no_db e network key s op in
  match r with
  | ListOrganizations =>
      let (s', a) := call ClientServe.ListOrganizations in
      pair s' <$> names_of (λ v, match v with JStr n => Some n | _ => None end) a
  | ListApplications org =>
      let (s', a) := call (ClientServe.ListApplications org) in
      pair s' <$> names_of (λ v, text_at v "name") a
  | ScreenRequests a =>
      match content (served e network key s) browser locale now viewer_id local_ms (view_of k a) with
      | Some (Drawn html) => Some (s, Answer html)
      | Some (Fails (Some er)) => Some (s, Failed er)
      | Some (Fails None) => Some (s, Failed (Err None browser))
      | None => None
      end
  | Command org c =>
      let (s', a) := call (operation_of org c) in
      pair s' <$> await (data_of c) a
  end.

(** A request that a waiting call has made, and its answer once the control plane
    has given one. *)
Record asked := Asked { q_key : option string; q_request : ConsoleState.request; q_answer : option ConsoleState.answer }.

Record system := System {
  y_console : console;
  y_state : state;           (* the control plane *)
  y_asked : list asked }.    (* what the calls that wait have asked, in their order *)

(** What the console asks on its way from [k] to [k']. *)
Definition unanswered (x : option string * ConsoleState.request) : asked := Asked (fst x) (snd x) None.
Definition asks (k k' : console) : list asked := map unanswered (drop (length (k_sent k)) (k_sent k')).

(** The control plane answers a request; the call that waits for it goes on, then
    or later. *)
Definition process (i : nat) (y : system) : system :=
  match y_asked y !! i with
  | Some (Asked key r None) =>
      match reply key r (y_console y) (y_state y) with
      | Some (s', a) => System (y_console y) s' (<[i := Asked key r (Some a)]> (y_asked y))
      | None => y
      end
  | _ => y
  end.

Definition deliver (i : nat) (y : system) : system :=
  match y_asked y !! i with
  | Some (Asked _ _ (Some a)) =>
      let k' := handle opens (Answered i a) (y_console y) in
      System k' (y_state y) (delete i (y_asked y) ++ asks (y_console y) k')
  | _ => y
  end.

Inductive act := User (ev : event) | Process (i : nat) | Deliver (i : nat).

Definition sys_step (a : act) (y : system) : system :=
  match a with
  | User ev =>
      let k' := handle opens ev (y_console y) in System k' (y_state y) (y_asked y ++ asks (y_console y) k')
  | Process i => process i y
  | Deliver i => deliver i y
  end.

Definition run (l : list act) (y : system) : system := fold_left (λ y a, sys_step a y) l y.

(** Nothing waits. *)
Definition idle (y : system) : Prop := k_tasks (y_console y) = [] ∧ y_asked y = [].
End System.

Lemma asks_new k k' new : k_sent k' = k_sent k ++ new → asks k k' = map unanswered new.
Proof. intros E. unfold asks. by rewrite E, drop_app_length. Qed.

(** ** The pages of the registry *)

(** The buttons a page of the registry should offer. *)
Definition registry_buttons (route : string) (s : state) : list dataset :=
  if String.eqb route "keys" then
    [("action", "openCreateKey")] :: map (λ x, [("revokeKey", k_tokenName x)]) (s_keys s)
  else
    [("action", "openCreateRole")] ::
    map (λ x, [("deleteRole", ro_name x)]) (keep (λ x, negb (ro_isGlobal x)) (s_roles s)) ++
    concat (map (λ m, member_buttons (fst m)) (map_to_list (s_members s))).

(** The organization's paths are those of its registry and nothing else. *)
Definition registry_paths (org : string) : Prop :=
  addressable (ListAPIKeys org) = true ∧ addressable (ListRoles org) = true ∧
  addressable (ListMembers org) = true ∧ addressable (ListPermissions org) = true.

Section Registry.
Context (e : env) (network : option http) (key : option string) (s : state) (org : string).
Context (Hused : used s) (Horg : registry_paths org).
Notation served := (served e network key s).

Lemma values_answer {A} (f : A → jval) (P : A → Prop) op l :
  (∀ x, P x → proper_value (f x) = true) → (∀ x, is_undef (f x) = false) → Forall P l → read_of op = read_answer →
  answer_to network op (json 200 (JArr (map f l))) = Got (JArr (map (λ x, clean (f x)) l)).
Proof.
  intros Hf Hd Hl Hr. rewrite got_json; [|done|lia|lia| |done].
  - cbn [clean]. rewrite map_map. do 2 f_equal. apply map_ext. intros x. by rewrite Hd.
  - cbn [proper_value]. by apply (values_proper proper_value f P).
Qed.

Lemma served_keys : served (ListAPIKeys org) = Got (JArr (map (λ x, clean (key_json x)) (s_keys s))).
Proof.
  unfold served. rewrite exchange_serve by apply Horg. cbn [serve snd].
  eapply values_answer; [|done|apply (ty_keys s), used_typed, Hused|done]. intros x Hx. by apply key_value.
Qed.

Lemma served_roles : served (ListRoles org) = Got (JArr (map (λ x, clean (role_json x)) (s_roles s))).
Proof.
  unfold served. rewrite exchange_serve by apply Horg. cbn [serve snd].
  eapply values_answer; [|done|apply (ty_roles s), used_typed, Hused|done]. intros x Hx. by apply role_value.
Qed.
Lemma served_members :
  ∃ users, served (ListMembers org) = Got (JObj [("orgName", JStr (encodeURIComponent org)); ("users", JObj users)]) ∧
    map fst users = map fst (map_to_list (s_members s)).
Proof.
  unfold served. rewrite exchange_serve by apply Horg. cbn [serve snd]. unfold list_members.
  destruct (members_answer s (encodeURIComponent org) (used_typed s Hused)) as [H|(st & v & Ev & Hv)]; [discriminate H|].
  unfold list_members in Ev. injection Ev as <- <-.
  destruct (Hv ltac:(lia)) as (_ & _ & Hp & _). rewrite got_json; [|done|lia|lia|exact Hp|done].
  eexists. split; [cbn; reflexivity|].
  clear Hv Hp. induction (map_to_list (s_members s)) as [|[u n] l IH]; [done|]. cbn. f_equal. exact IH.
Qed.

Context (browser : string) (locale : jval → string) (now : Z) (viewer_id : jval → string → string).
Context (local_ms : string → option Z) (locale_inert : ∀ v, Inert (locale v)).
Notation content := (content served browser locale now viewer_id local_ms).

(** The screens of the registry over the control plane: their pages, and what
    these offer. *)
Lemma keys_page : ∃ html, renderKeysScreen locale served org = Drawn html ∧ elements html = registry_buttons "keys" s.
Proof.
  unfold renderKeysScreen. rewrite served_keys.
  assert (forallb drawable_key (map (λ x, clean (key_json x)) (s_keys s)) = true) as ->.
  { apply forallb_forall. intros v (x & <- & Hx%list_elem_of_In)%in_map_iff. apply token_drawable.
    destruct (key_value x) as [Hc Hp]; [by apply (proj1 (Forall_forall _ _) (ty_keys s (used_typed s Hused)))|].
    by apply conforms_clean. }
  eexists. split; [reflexivity|]. rewrite (keys_elements locale locale_inert). unfold registry_buttons. cbn [String.eqb].
  f_equal. rewrite map_map. by apply map_ext.
Qed.

Lemma roles_page : ∃ html, fst (renderRolesScreen served org) = Drawn html ∧ elements html = registry_buttons "roles" s.
Proof.
  unfold renderRolesScreen. rewrite served_roles. destruct served_members as (users & -> & Hu). cbn [jor truthy fst].
  assert (forallb drawable_role (map (λ x, clean (role_json x)) (s_roles s)) = true) as ->.
  { apply forallb_forall. intros v (x & <- & Hx%list_elem_of_In)%in_map_iff. apply role_drawable.
    destruct (role_value x) as [Hc Hp]; [by apply (proj1 (Forall_forall _ _) (ty_roles s (used_typed s Hused)))|].
    by apply conforms_clean. }
  eexists. split; [reflexivity|]. rewrite roles_elements. unfold registry_buttons. cbn [String.eqb]. f_equal. f_equal.
  - clear. induction (s_roles s) as [|x l IH]; [done|]. cbn [map concat keep List.filter]. rewrite IH.
    destruct x as [n [] p]; reflexivity.
  - unfold users_of. cbn -[member_buttons]. rewrite <- (map_map fst member_buttons), Hu, map_map. done.
Qed.

Context (audit : auditFilters) (metrics : metricsFilters).

(** Whatever else the console's fields are. *)
Lemma registry_pages route : route ∈ ["keys"; "roles"] →
  ∃ html, elements html = registry_buttons route s ∧
    ∀ k a, a_org a = org → a_route a = route → content (view_of audit metrics k a) = Some (Drawn html).
Proof.
  rewrite !elem_of_cons. intros [->|[->|[]%elem_of_nil]].
  - destruct keys_page as (html & H1 & H2). exists html. split; [done|].
    intros k [r o a w]. cbn [a_org a_route]. intros -> ->. unfold ConsoleScreens.content, view_of. cbn -[renderKeysScreen]. by rewrite H1.
  - destruct roles_page as (html & H1 & H2). exists html. split; [done|].
    intros k [r o a w]. cbn [a_org a_route]. intros -> ->. unfold ConsoleScreens.content, view_of. cbn -[renderRolesScreen]. by rewrite H1.
Qed.
End Registry.

(** ** A command of the registry is on the screen *)

(** The commands that change the keys, the roles and the members, and go back to
    the screen they came from. *)
Definition of_registry (c : command) : bool :=
  match c with
  | RevokeKey _ | ConsoleState.DeleteRole _ | ConsoleState.RemoveMember _ | ConsoleState.CreateRole _ _ | GrantRole _ _ => true
  | _ => false
  end.

(** An event that starts a command, through the dialog where it needs one. *)
Definition begins (ev : event) (c : command) : Prop :=
  ∀ opens k, handle opens ev k = if needs_confirm c then showConfirm c k else run_command c k.

(** The acts of a command, with the answers to its two requests: its own and that
    of the screen. *)
Definition acts_of (ev : event) (c : command) : list act :=
  User ev :: (if needs_confirm c then [User ClickConfirm] else []) ++ [Process 0; Deliver 0; Process 0; Deliver 0].

(** No dialog is open, or the command closes the form it comes from. *)
Definition leaves_no_modal (c : command) (p : page) : Prop :=
  match c with ConsoleState.CreateRole _ _ => True | _ => needs_confirm c = true ∨ p_modal p = NoModal end.

(** The screen of the page, with the data the answer to its requests carries. *)
Definition shows_page (k : console) (route html : string) : Prop :=
  ∃ p a, k_page k = Some p ∧ p_modal p = NoModal ∧ a_route a = route ∧ a_org a = h_org (k_shell k) ∧
    p_content p = Card route (DataCard a (h_app (k_shell k)) html).

Section Round.
Context (opens : string → string → bool) (e : env) (network : option http) (browser : string).
Context (locale : jval → string) (now : Z) (viewer_id : jval → string → string) (local_ms : string → option Z).
Context (audit : auditFilters) (metrics : metricsFilters).
Notation run := (run opens e network browser locale now viewer_id local_ms audit metrics).
Notation reply := (reply e network browser locale now viewer_id local_ms audit metrics).

(** The only call that waits goes on with the answer to its request. *)
Lemma serve_one k s key r s' a t l :
  k_tasks k = [t] → reply key r k s = Some (s', a) →
  run (Process 0 :: Deliver 0 :: l) (System k s [Asked key r None]) =
  let k' := resume opens t a (set_tasks [] k) in run l (System k' s' (asks k k')).
Proof.
  intros Et Er. unfold run. cbn [fold_left sys_step]. unfold process. cbn [y_asked y_console y_state lookup list_lookup].
  rewrite Er. unfold deliver. cbn [y_asked y_console y_state list_insert insert list_lookup lookup handle]. by rewrite Et.
Qed.

Context (c : command) (Hreg : of_registry c = true) (s s' : state) (html : string).

(** The command is out and its call waits. *)
Record sent_out (k : console) (p : page) (l : list (option string * ConsoleState.request)) : Prop := {
  so_tasks : k_tasks k = [AwaitCommand c];
  so_sent : k_sent k = l ++ [(k_client k, Command (h_org (k_shell k)) c)];
  so_page : k_page k = Some p;
  so_modal : match c with ConsoleState.CreateRole _ _ => True | _ => p_modal p = NoModal end }.

Definition answered (k : console) : Prop :=
  ∃ v, exchange no_db e network (k_client k) s (operation_of (h_org (k_shell k)) c) = (s', Got v).

Definition drawn_then (k : console) : Prop :=
  ∀ k' a, a_org a = h_org (k_shell k) → a_route a = h_route (k_shell k) →
    content (served e network (k_client k) s') browser locale now viewer_id local_ms (view_of audit metrics k' a) = Some (Drawn html).

Lemma answers_round k p l :
  sent_out k p l → h_route (k_shell k) ∈ ["keys"; "roles"] → answered k → drawn_then k →
  let y' := run [Process 0; Deliver 0; Process 0; Deliver 0]
    (System k s [Asked (k_client k) (Command (h_org (k_shell k)) c) None]) in
  idle y' ∧ y_state y' = s' ∧ k_toasts (y_console y') = k_toasts k ++ [(success_toast c "", "success")] ∧
  k_client (y_console y') = k_client k ∧ shows_page (y_console y') (h_route (k_shell k)) html.
Proof.
  intros [Ht Hs Hp Hm] Hr [v Hx] Hc.
  destruct k as [h client session local attr hash wfApp wfApps pending page live tasks sent toasts next].
  cbn [k_shell k_tasks k_page k_sent k_client k_toasts] in *. subst tasks page.
  set (page m c := Some (Page (p_el p) c m (p_title p) (p_app p) (p_mobile p) (p_folded p))).
  set (state_of pg tasks sent toasts :=
    Console h client session local attr hash wfApp wfApps pending pg live tasks sent toasts next).
  set (a := Ask (h_route h) (h_org h) (h_app h) (h_wf h)).
  set (toasts' := toasts ++ [(success_toast c "", "success")]).
  assert (Hdraw : command_done c "" (state_of (Some p) [] sent toasts) =
          state_of (page NoModal Loading) [AwaitScreen (p_el p) a] (sent ++ [(client, ScreenRequests a)]) toasts').
  { unfold state_of, page, a. clear - Hreg Hm Hr. destruct p as [el cont mod_ ti ap mo fo]. cbn [p_modal] in Hm.
    rewrite !elem_of_cons in Hr.
    destruct c; try discriminate Hreg; try subst mod_; unfold command_done, renderContentView;
      cbn [showToast set_toasts closeModal set_modal k_page k_shell set_content set_page fmap option_fmap option_map];
      (destruct Hr as [E|[E|[]%elem_of_nil]]; rewrite E; reflexivity). }
  rewrite (serve_one _ s client _ s' (Answer "") (AwaitCommand c)); [|reflexivity|].
  2:{ unfold reply. rewrite Hx. clear - Hreg. by destruct c. }
  cbn [resume answer_data]. change (set_tasks [] _) with (state_of (Some p) [] sent toasts).
  rewrite Hdraw. rewrite (asks_new _ _ [(client, ScreenRequests a)]) by done. cbn [map unanswered fst snd].
  rewrite (serve_one _ s' client (ScreenRequests a) s' (Answer html) (AwaitScreen (p_el p) a)); [|reflexivity|].
  2:{ unfold reply. by rewrite Hc. }
  cbn [resume]. unfold write_screen. cbn [set_tasks state_of k_page page]. cbn [p_el]. rewrite Nat.eqb_refl.
  rewrite (asks_new _ _ []) by (symmetry; apply app_nil_r).
  split_and!; try done. eexists _, a. split_and!; reflexivity.
Qed.
End Round.

(** The user's part: the dialog, or the command at once. *)
Lemma command_out opens ev c k p :
  k_tasks k = [] → k_page k = Some p → leaves_no_modal c p → of_registry c = true → begins ev c →
  ∃ k1 p1, handle opens ev k = (if needs_confirm c then showConfirm c k else run_command c k) ∧
    (if needs_confirm c then handle opens ClickConfirm (showConfirm c k) else run_command c k) = k1 ∧
    sent_out c k1 p1 (k_sent k) ∧ k_shell k1 = k_shell k ∧ k_client k1 = k_client k ∧ k_toasts k1 = k_toasts k.
Proof.
  intros Ht Hp Hm Hreg Hev. destruct (needs_confirm c) eqn:En.
  - assert (is_Some (dialog_of (h_org (k_shell k)) c)) as [d Ed] by (destruct c; try discriminate En; by eexists).
    eexists _, (Page (p_el p) (p_content p) NoModal (p_title p) (p_app p) (p_mobile p) (p_folded p)).
    split; [by rewrite Hev, En|]. split; [reflexivity|].
    unfold showConfirm. rewrite Hp, Ed. unfold handle. cbn [set_modal set_page set_pending k_page fmap option_fmap option_map p_modal].
    rewrite Hp. cbn [fmap option_fmap option_map p_modal]. split_and!; try done.
    split; cbn; rewrite ?Ht, ?Hp; try done. by destruct c.
  - exists (run_command c k), p. split; [by rewrite Hev, En|]. split_and!; try done.
    split; cbn; rewrite ?Ht, ?Hp; try done. destruct c; try done; by destruct Hm.
Qed.

(** ** What is seen *)

(** The button of what a command removes, or makes. *)
Definition removes (c : command) : option dataset :=
  match c with
  | RevokeKey name => Some [("revokeKey", name)]
  | ConsoleState.DeleteRole name => Some [("deleteRole", name)]
  | ConsoleState.RemoveMember username => Some [("removeMember", username)]
  | _ => None
  end.

Definition makes (c : command) : option dataset :=
  match c with ConsoleState.CreateRole name _ => Some [("deleteRole", trim name)] | _ => None end.

(** What offers a button of the registry's pages. *)
Lemma revoke_offered name route s :
  [("revokeKey", name)] ∈ registry_buttons route s → ∃ x, x ∈ s_keys s ∧ k_tokenName x = name.
Proof.
  unfold registry_buttons. destruct (String.eqb route "keys"); intros [|H]%elem_of_cons; try done.
  - apply list_elem_of_In, in_map_iff in H as (x & [= E] & Hx%list_elem_of_In). by exists x.
  - apply elem_of_app in H as [H|H]; apply list_elem_of_In in H.
    + by apply in_map_iff in H as (x & [=] & _).
    + apply in_concat in H as (l & (m & <- & _)%in_map_iff & H). by repeat destruct H as [[=]|H].
Qed.

Lemma delete_offered name route s :
  [("deleteRole", name)] ∈ registry_buttons route s → ∃ x, x ∈ s_roles s ∧ ro_name x = name.
Proof.
  unfold registry_buttons. destruct (String.eqb route "keys"); intros [|H]%elem_of_cons; try done.
  - by apply list_elem_of_In, in_map_iff in H as (x & [=] & _).
  - apply elem_of_app in H as [H|H]; apply list_elem_of_In in H.
    + apply in_map_iff in H as (x & [= E] & [_ Hx]%list_elem_of_In%keep_elem). by exists x.
    + apply in_concat in H as (l & (m & <- & _)%in_map_iff & H). by repeat destruct H as [[=]|H].
Qed.

Lemma remove_offered username route s :
  [("removeMember", username)] ∈ registry_buttons route s → is_Some (s_members s !! username).
Proof.
  unfold registry_buttons. destruct (String.eqb route "keys"); intros [|H]%elem_of_cons; try done.
  - by apply list_elem_of_In, in_map_iff in H as (x & [=] & _).
  - apply elem_of_app in H as [H|H]; apply list_elem_of_In in H.
    + by apply in_map_iff in H as (x & [=] & _).
    + apply in_concat in H as (l & ([u n] & <- & Hm%list_elem_of_In)%in_map_iff & H).
      apply elem_of_map_to_list in Hm. destruct H as [[=]|[[=]|[[= <-]|[]]]]. by exists n.
Qed.

(** The control plane after a call that is not refused has no such thing. *)
Lemma removed_gone e network key s org c b route v :
  addressable (operation_of org c) = true → removes c = Some b →
  snd (exchange no_db e network key s (operation_of org c)) = Got v →
  b ∉ registry_buttons route (fst (exchange no_db e network key s (operation_of org c))).
Proof.
  intros Ha Hb. rewrite exchange_serve by done. cbn [fst snd].
  destruct c; try discriminate Hb; injection Hb as <-; cbn [operation_of serve].
  - intros _ (x & Hx & E)%revoke_offered. apply keep_elem in Hx as [Hx _].
    by rewrite E, String.eqb_refl in Hx.
  - unfold delete_role. destruct (find _ _) as [r|]; [|done]. destruct (ro_isGlobal r); [done|].
    intros _ (x & Hx & E)%delete_offered. apply keep_elem in Hx as [Hx _]. by rewrite E, String.eqb_refl in Hx.
  - unfold remove_member. destruct (negb _); [done|].
    intros _ [n H]%remove_offered. cbn in H. by rewrite lookup_delete_eq in H.
Qed.

(** The control plane after a role is made offers it. *)
Lemma made_there e network key s org c b v :
  addressable (operation_of org c) = true → makes c = Some b →
  snd (exchange no_db e network key s (operation_of org c)) = Got v →
  b ∈ registry_buttons "roles" (fst (exchange no_db e network key s (operation_of org c))).
Proof.
  intros Ha Hb. rewrite exchange_serve by done. cbn [fst snd].
  destruct c; try discriminate Hb; injection Hb as <-; cbn [operation_of serve].
  unfold post_role. assert (∀ b, read_role_name (JObj [("name", JStr name); b]) = Some (trim name)) as ->.
  { intros f. unfold read_role_name, jor. cbn [jget assoc String.eqb Ascii.eqb Bool.eqb default from_option id]. by destruct name. }
  destruct (_ || _); [done|]. destruct (some _ _); [done|]. intros _. cbn. apply list_elem_of_further, elem_of_app. left.
  unfold keep. rewrite List.filter_app, map_app. apply elem_of_app. right. left.
Qed.


(** A console on the screen of the keys. *)
Definition on_keys : console :=
  Console (Shell None "keys" "default" ["default"] "" [] None "dark" (Every 0) false false) None None ∅ "dark" "#/keys" "" ∅
    None (Some (Page 0 Loading NoModal "API Keys" "" false false)) (Live None [] None [] []) [] [] [] 1.

Notation run_plain := (run (λ _ _, true) sample_env None "" plain_dates 0 (λ _ _, "") (λ _, None)
  ConsoleAudit.clearAuditFilters ConsoleMetrics.clearMetricsFilters).


(** The forms begin their commands. *)
Lemma role_form_begins name permissions :
  ((String.length (trim name) <? 3)%nat || (30 <? String.length (trim name))%nat)%bool = false →
  begins (SubmitRole name permissions) (ConsoleState.CreateRole (trim name) permissions).
Proof. intros H opens k. cbn [handle needs_confirm]. unfold ConsoleState.submitCreateRole. cbv zeta. by rewrite H. Qed.

Lemma grant_begins username role :
  role ≠ "" → begins (ClickGrant username role) (GrantRole (drop_apostrophes username) role).
Proof. intros H opens k. cbn [handle needs_confirm]. unfold ConsoleState.grantMemberRole. by rewrite (proj2 (String.eqb_neq _ _) H). Qed.

(** ** What modelling showed *)

(** The listener drops the apostrophes of a name: of two keys whose names differ in
    one, asking to revoke the first revokes the second. *)
Definition two_keys : state :=
  fst (exchange no_db sample_env None None
         (fst (exchange no_db sample_env None None (initial_state "t") (CreateAPIKey "default" "bob's key" ["*"] [])))
         (CreateAPIKey "default" "bobs key" ["*"] [])).

Lemma other_key_revoked :
  map k_tokenName (s_keys two_keys) = ["dev-local-key"; "bob's key"; "bobs key"] ∧
  map k_tokenName (s_keys (y_state
    (run_plain [User (ClickRevoke "bob's key"); User ClickConfirm; Process 0; Deliver 0; Process 0; Deliver 0] (System on_keys two_keys [])))) =
  ["dev-local-key"; "bob's key"].
Proof. split; vm_compute; reflexivity. Qed.
