(* ===== verification/ConsoleOrder.v ===== *)
(** Answers in any order: the machine of [ConsoleSystem] under every sequence of
    the user's events, of requests that are answered and of calls that go on.

    A page of the registry is not stale when nothing waits, as long as two answers
    for one element of the page come in the order of their requests and the dialog
    of a new key is left by its button; without either it can be.  The waiting ends:
    every call asks for less than the one it follows. *)

From Stdlib Require Import ZArith Lia Ascii String.
From stdpp Require Import base list strings gmap.
From S2P Require Import Prelude Html HtmlScan Json JsonSpec Uri ApiTypes ApiClient.
From S2P Require Import BridgeState BridgeRoutes BridgeSpec ClientServe ClientSpec ClientTypes.
From S2P Require Import ConsoleView ConsoleState ConsoleSpec ConsoleWidgets ConsoleMetrics ConsoleForms ConsoleAudit.
From S2P Require Import ConsoleLists ConsoleListsSpec ConsoleScreens ConsoleSystem.
Import Client.

(** ** What a step of the console does to its page and its calls *)

(** A waiting call and the request it has made. *)
Definition waits_for (t : task) (q : asked) : Prop :=
  match t, q_request q with
  | AwaitOrgs _, ConsoleState.ListOrganizations | AwaitApps _, ConsoleState.ListApplications _ => True
  | AwaitScreen _ a, ScreenRequests a' => a = a' ∧ ∀ l, q_answer q ≠ Some (Names l)
  | AwaitCommand c, Command _ c' => c = c'
  | _, _ => False
  end.

(** The screen a call will write into the element [el]. *)
Definition screen_of (el : nat) (t : task) : option ask :=
  match t with AwaitScreen e a => if (e =? el)%nat then Some a else None | _ => None end.

(** A call that leads to a card in the element. *)
Definition fills (el : nat) (t : task) : Prop :=
  match t with AwaitScreen e _ | AwaitApps (AppsThenFleet e) => e = el | _ => False end.

Definition key_dialog (p : page) : bool := match p_modal p with KeyCreatedModal _ _ => true | _ => false end.

Definition key_dialog_open (k : console) : bool :=
  match k_page k with Some p => key_dialog p | None => false end.

(** The same element with the same content; the dialog of a new key stays. *)
Definition same_page (a b : option page) : Prop :=
  match a, b with
  | Some p, Some p' => p_el p' = p_el p ∧ p_content p' = p_content p ∧ (key_dialog p = true → key_dialog p' = true)
  | None, None => True
  | _, _ => False
  end.

Definition on_registry (route : string) : Prop := route ∈ ["keys"; "roles"].

(** Nothing of the registry is on the page or on its way to it. *)
Definition off_registry (k : console) (p : page) : Prop :=
  (∀ t a, t ∈ k_tasks k → screen_of (p_el p) t = Some a → ¬ on_registry (a_route a)) ∧
  ∀ r c, p_content p = Card r c → ¬ on_registry r.

(** The page is asked for anew. *)
Definition redrawn (k : console) (ts : list task) : Prop :=
  ∀ p, k_page k = Some p →
    (∃ a, ts = [AwaitScreen (p_el p) a]) ∨
    (Forall (λ t, ∀ el, screen_of el t = None) ts ∧ off_registry k p ∧
     (p_content p = Loading → Exists (fills (p_el p)) ts)).

(** A call that will not write a screen into the page. *)
Definition elsewhere (k : console) (t : task) : Prop := ∀ p, k_page k = Some p → screen_of (p_el p) t = None.

(** The calls [ts] are added, with their requests. *)
Record sends (k k' : console) (ts : list task) : Prop := {
  sn_tasks : k_tasks k' = k_tasks k ++ ts;
  sn_asks : Forall2 waits_for ts (asks k k') }.

Definition changed (k k' : console) : Prop :=
  ∃ ts, sends k k' ts ∧
    ((same_page (k_page k) (k_page k') ∧ Forall (elsewhere k') ts) ∨ redrawn k' ts).

Lemma same_page_refl o : same_page o o.
Proof. by destruct o. Qed.

Lemma asks_same k k' : k_sent k' = k_sent k → asks k k' = [].
Proof. intros E. rewrite (asks_new k k' []); [done|]. by rewrite E, app_nil_r. Qed.

Lemma step_same k k' :
  k_tasks k' = k_tasks k → k_sent k' = k_sent k → same_page (k_page k) (k_page k') → changed k k'.
Proof.
  intros H1 H2 H3. exists []. split; [split|left].
  - by rewrite H1, app_nil_r.
  - by rewrite asks_same.
  - by split.
Qed.

Lemma step_send r t k k' :
  k_tasks k' = k_tasks k → k_sent k' = k_sent k → same_page (k_page k) (k_page k') →
  waits_for t (Asked (k_client k') r None) → (∀ el, screen_of el t = None) → changed k (ConsoleState.send r t k').
Proof.
  intros H1 H2 H3 H4 H5. exists [t]. split; [split|left].
  - cbn. by rewrite H1.
  - rewrite (asks_new _ _ [(k_client k', r)]); [by repeat constructor|]. cbn. by rewrite H2.
  - split; [done|]. constructor; [|done]. intros p _. apply H5.
Qed.

(** Steps before and after the page is asked for. *)
Lemma sends_before k k1 k' ts :
  k_tasks k1 = k_tasks k → k_sent k1 = k_sent k → sends k1 k' ts → sends k k' ts.
Proof. intros H1 H2 [H3 H4]. split; [by rewrite <- H1|]. unfold asks in *. by rewrite <- H2. Qed.

Definition asked_anew (k k' : console) : Prop := ∃ ts, sends k k' ts ∧ redrawn k' ts.

Lemma anew_changed k k' : asked_anew k k' → changed k k'.
Proof. intros (ts & H & Hr). exists ts. split; [done|by right]. Qed.

Lemma anew_before k k1 k' :
  k_tasks k1 = k_tasks k → k_sent k1 = k_sent k → asked_anew k1 k' → asked_anew k k'.
Proof. intros H1 H2 (ts & H & Hr). exists ts. split; [|done]. by apply (sends_before k k1). Qed.

Lemma anew_after k k1 k' :
  k_tasks k' = k_tasks k1 → k_sent k' = k_sent k1 → same_page (k_page k1) (k_page k') →
  asked_anew k k1 → asked_anew k k'.
Proof.
  intros H1 H2 H3 (ts & [Ht Hs] & Hr). exists ts. split; [split|].
  - by rewrite H1.
  - unfold asks in *. by rewrite H2.
  - intros p' Hp'. rewrite Hp' in H3. destruct (k_page k1) as [p|] eqn:Ep; [|done].
    destruct H3 as (He & Hc & _). destruct (Hr p Ep) as [[a ->]|(Hf & Ho & Hl)].
    + left. exists a. by rewrite He.
    + right. unfold off_registry. rewrite He, Hc, H1. done.
Qed.

(** ** Asking for the page *)

Lemma fits_registry r route : fits r route → on_registry r → route = r ∨ route = "workflow-detail".
Proof.
  unfold on_registry. rewrite !elem_of_cons. intros [->|[-> | ->]] Hr; [by left| |by right].
  destruct Hr as [?|[?|[]%elem_of_nil]]; discriminate.
Qed.

Lemma off_registry_ok k p :
  console_ok k → k_page k = Some p →
  h_route (k_shell k) ≠ "workflow-detail" → ¬ on_registry (h_route (k_shell k)) → off_registry k p.
Proof.
  intros H Hp Hd Hr. destruct (ok_page _ H p Hp) as [_ _ _ Hc Ht]. split.
  - intros t a Hin Ha Hreg. rewrite Forall_forall in Ht.
    assert (fits (a_route a) (h_route (k_shell k))) as Hf.
    { apply (Ht t Hin). destruct t; try discriminate Ha. cbn in Ha |- *.
      destruct (Nat.eqb_spec el (p_el p)); [|done]. by injection Ha as ->. }
    destruct (fits_registry _ _ Hf Hreg) as [E|]; [|done]. by rewrite E in Hr.
  - intros r c E Hreg. rewrite E in Hc. destruct Hc as [Hf _].
    destruct (fits_registry _ _ Hf Hreg) as [E'|]; [|done]. by rewrite E' in Hr.
Qed.

Lemma detail_anew s k : asked_anew k (renderWorkflowDetailScreen s k).
Proof.
  unfold renderWorkflowDetailScreen. destruct (k_page k) as [p|] eqn:Hp.
  - set (a := ask_of "workflow-detail" (target_app k) (if s then k else set_content Loading k)).
    exists [AwaitScreen (p_el p) a]. destruct k; cbn in Hp; subst. split.
    + split; [by destruct s|]. rewrite (asks_new _ _ [(k_client, ScreenRequests a)]) by (by destruct s).
      repeat constructor. done.
    + intros p' E. left. exists a. destruct s; injection E as <-; done.
  - exists []. split; [split|].
    + by rewrite app_nil_r.
    + by rewrite asks_same.
    + intros p'. by rewrite Hp.
Qed.

Lemma content_route s k : h_route (k_shell (renderContentView s k)) = h_route (k_shell k).
Proof. by destruct (content_shape s k) as (w & c & ts & ss & -> & _). Qed.

(** A view off the registry: its own calls, if any, are no screens yet. *)
Lemma anew_off s k ts :
  console_ok k → h_route (k_shell k) ≠ "workflow-detail" → ¬ on_registry (h_route (k_shell k)) →
  sends k (renderContentView s k) ts → Forall (λ t, ∀ el, screen_of el t = None) ts →
  (∀ p, k_page (renderContentView s k) = Some p → p_content p = Loading → Exists (fills (p_el p)) ts) →
  asked_anew k (renderContentView s k).
Proof.
  intros Hok Hd Hr Hs Ht Hl. exists ts. split; [done|]. intros p Hp. right.
  split_and!; [done| |by apply Hl].
  apply off_registry_ok; rewrite ?content_route; try done. by apply content_ok.
Qed.

Lemma content_anew s k : console_ok k → asked_anew k (renderContentView s k).
Proof.
  intros Hok. destruct (k_page k) as [p|] eqn:Hp.
  2:{ exists []. unfold renderContentView. rewrite Hp. split; [split|].
      - by rewrite app_nil_r.
      - by rewrite asks_same.
      - intros p'. by rewrite Hp. }
  set (k0 := if s then k else set_content Loading k).
  assert (H0 : k_tasks k0 = k_tasks k ∧ k_sent k0 = k_sent k ∧ k_shell k0 = k_shell k) by (subst k0; by destruct s).
  assert (Hel : ∃ c, k_page k0 = Some (Page (p_el p) c (p_modal p) (p_title p) (p_app p) (p_mobile p) (p_folded p))).
  { subst k0. destruct s; [exists (p_content p); rewrite Hp; by destruct p|]. exists Loading. cbn. by rewrite Hp. }
  destruct H0 as (Ht & Hs & Hh), Hel as [c Hel].
  pose proof (λ ts, anew_off s k ts Hok) as Hoff.
  remember (renderContentView s k) as k' eqn:E. unfold renderContentView in E. rewrite Hp in E. fold k0 in E.
  rewrite Hh in E. set (route := h_route (k_shell k)) in *.
  destruct (String.eqb_spec route "fleet") as [Er|Hf].
  { apply (Hoff [AwaitApps (AppsThenFleet (p_el p))]); subst k'.
    - by rewrite Er.
    - rewrite Er. unfold on_registry. set_solver.
    - split; [cbn; by rewrite Ht|].
      rewrite (asks_new _ _ [(k_client k0, ConsoleState.ListApplications (h_org (k_shell k)))]) by (cbn; by rewrite Hs).
      by repeat constructor.
    - by repeat constructor.
    - cbn. rewrite Hel. intros p' [= <-] _. by constructor. }
  destruct (String.eqb_spec route "workflow-detail") as [Er|Hd].
  { subst k'. apply (anew_before k k0); [done..|apply detail_anew]. }
  destruct (_ && String.eqb (h_app (k_shell k)) "") eqn:Eapp.
  { apply (Hoff []); [done| |subst k'..].
    - apply andb_true_iff in Eapp as [Eapp _]. apply orb_true_iff in Eapp as [Er|Er];
        apply String.eqb_eq in Er; rewrite Er; unfold on_registry; set_solver.
    - split; [by rewrite app_nil_r|]. by rewrite asks_same.
    - constructor.
    - cbn. rewrite Hel. by intros p' [= <-]. }
  destruct (mem route _) eqn:Em.
  { set (a := ask_of route (h_app (k_shell k)) k0) in E. exists [AwaitScreen (p_el p) a]. subst k'. split.
    - split; [cbn; by rewrite Ht|].
      rewrite (asks_new _ _ [(k_client k0, ScreenRequests a)]) by (cbn; by rewrite Hs). repeat constructor. done.
    - cbn. unfold redrawn. cbn. rewrite Hel. intros p' [= <-]. left. by exists a. }
  apply (Hoff []); [done| |subst k'..].
  - intros Hr. assert (route = "keys" ∨ route = "roles") as [Er|Er]; [|by rewrite Er in Em..].
    unfold on_registry in Hr. set_solver.
  - split; [by rewrite app_nil_r|]. by rewrite asks_same.
  - constructor.
  - cbn. rewrite Hel. by intros p' [= <-].
Qed.

Lemma render_anew k : core_ok k → asked_anew k (render k).
Proof. intros H. eapply anew_before; [..|by apply content_anew, new_page_ok]; done. Qed.

Lemma routing_changed k : console_ok k → changed k (handleRouting k).
Proof.
  intros H. unfold handleRouting.
  assert (Hr : ∀ r wf, changed k (render (set_shell (with_route r wf (k_shell k)) k))).
  { intros r wf. apply anew_changed. eapply anew_before; [..|apply render_anew]; [done..|]. by destruct H. }
  destruct (split_char _ _) as [|r [|id rest]]; cbn [head default]; try apply Hr.
  case_tests; [|apply Hr]. destruct (decodeURIComponent id); [apply Hr|].
  apply step_same; try done. apply same_page_refl.
Qed.

(** ** Every event *)

Lemma set_modal_page m k :
  key_dialog_open k = false ∨ (∃ n t, m = KeyCreatedModal n t) → same_page (k_page k) (k_page (set_modal m k)).
Proof.
  unfold key_dialog_open. cbn. destruct (k_page k) as [p|]; [|done]. cbn.
  intros [H|(n & t & ->)]; split_and!; try done. by rewrite H.
Qed.

Lemma set_nav_page m f k k1 : k_page k1 = k_page k → same_page (k_page k) (k_page (set_nav m f k1)).
Proof. intros E. cbn. rewrite E. by destruct (k_page k). Qed.

(** What leaves the dialog of a new key without its button. *)
Definition leaves_key_dialog (ev : event) : bool :=
  match ev with
  | ClickCloseModal | KeyEscape | OpenOther | ClickSignIn | ConsoleState.SubmitSignIn _ | ClickSignOut
  | ClickCancel _ _ | ClickDeleteRule _ _ | ClickRevoke _ | ClickDeleteRole _ | ClickRemoveMember _
  | ClickDeletePolicy => true
  | _ => false
  end.

Definition is_answer (ev : event) : bool := match ev with Answered _ _ => true | _ => false end.

Section Events.
Context (opens : string → string → bool).

Lemma startSSE_frame k :
  k_tasks (startSSE opens k) = k_tasks k ∧ k_page (startSSE opens k) = k_page k.
Proof. unfold startSSE. case_tests; [done|]. unfold poll_every. by case_tests. Qed.

Lemma sse_frame h k :
  let k' := match h_poll h with Stream => startSSE opens k | Every _ => k end in
  k_tasks k' = k_tasks k ∧ k_sent k' = k_sent k ∧ k_page k' = k_page k.
Proof.
  destruct (h_poll h); [|done]. destruct (startSSE_frame k) as [H1 H2]. split_and!; [done|apply startSSE_sent|done].
Qed.

Lemma poll_frame m k :
  let k' := setPollInterval opens m k in k_tasks k' = k_tasks k ∧ k_sent k' = k_sent k ∧ k_page k' = k_page k.
Proof.
  unfold setPollInterval. case_tests.
  - set (k1 := set_shell _ _). destruct (startSSE_frame k1) as [-> ->]. by rewrite startSSE_sent.
  - unfold poll_every. by case_tests.
Qed.

Lemma run_changed c k : changed k (run_command c k).
Proof. apply step_send; try done. apply same_page_refl. Qed.

Lemma run_after c k k1 :
  k_tasks k1 = k_tasks k → k_sent k1 = k_sent k → same_page (k_page k) (k_page k1) → changed k (run_command c k1).
Proof. intros. by apply step_send. Qed.

Lemma showConfirm_changed c k : key_dialog_open k = false → changed k (showConfirm c k).
Proof.
  intros H. unfold showConfirm. destruct (k_page k) as [p|] eqn:Hp; [|by apply step_same; rewrite ?Hp].
  destruct (dialog_of _ _); [|by apply step_same; rewrite ?Hp; try apply same_page_refl].
  apply step_same; try done. apply (set_modal_page _ k). by left.
Qed.

Lemma poll_changed f k : console_ok k → changed k (poll f k).
Proof.
  intros H. assert (changed k k) as Hk by (apply step_same; try done; apply same_page_refl).
  unfold poll. destruct (k_page k) as [p|]; [destruct (p_modal p)|]; try done; destruct f; try done;
    by apply anew_changed, content_anew.
Qed.

Lemma step_none k k' : k' = k → changed k k'.
Proof. intros ->. apply step_same; try done. apply same_page_refl. Qed.

Lemma onAppChange_changed v k : console_ok k → changed k (onAppChange opens v k).
Proof.
  intros H. unfold onAppChange. pose proof (app_chosen_ok v k H) as Hk1.
  set (k1 := set_header _ _ _) in *.
  destruct (sse_frame (with_apps v (h_apps (k_shell k)) (k_shell k)) k1) as (H1 & H2 & H3). cbv zeta.
  apply anew_changed. eapply anew_before; [| |apply content_anew]; [by rewrite H1|by rewrite H2|].
  destruct (h_poll _); [by apply startSSE_ok|done].
Qed.

Lemma onOrgChange_changed v k : changed k (onOrgChange v k).
Proof.
  unfold onOrgChange. case_tests; [by apply step_none|].
  apply step_send; try done; destruct (h_key (k_shell k)); try (case_tests; done);
    cbn; case_tests; apply same_page_refl.
Qed.

Lemma handle_changed ev k :
  console_ok k → is_answer ev = false → key_dialog_open k && leaves_key_dialog ev = false → changed k (handle opens ev k).
Proof.
  intros H Ha Hd. assert (Hq : leaves_key_dialog ev = true → key_dialog_open k = false).
  { intros E. by rewrite E, andb_true_r in Hd. }
  assert (Hm : leaves_key_dialog ev = true → ∀ m, same_page (k_page k) (k_page (set_modal m k))).
  { intros E m. apply set_modal_page. left. by apply Hq. }
  destruct ev; cbn [handle]; try discriminate Ha;
    try (apply step_same; done || apply same_page_refl || by apply Hm);
    try (by apply run_changed); try (apply showConfirm_changed, Hq; done);
    try (apply anew_changed, content_anew; done).
  - by apply routing_changed.
  - unfold click_navigate, navigate. case_tests; [by apply step_same; try apply same_page_refl|].
    destruct (split_char _ _) as [|x [|y l]]; try (by apply step_same; try apply same_page_refl).
    case_tests; [destruct (decodeURIComponent y)|]; by apply step_same; try apply same_page_refl.
  - apply onOrgChange_changed.
  - by apply onAppChange_changed.
  - destruct (poll_frame v k) as (H1 & H2 & H3). apply step_same; try done. rewrite H3. apply same_page_refl.
  - case_tests; [by apply poll_changed|by apply step_none].
  - unfold stream_message. case_tests; [|by apply step_none]. apply step_same; try done. apply same_page_refl.
  - unfold debounce_fires. case_tests; [|by apply step_none].
    set (k1 := set_live _ k). assert (console_ok k1) as H1 by (by apply live_frame_ok).
    destruct (poll_changed focused k1 H1) as (ts & Hs & Hc). exists ts. split; [|done]. by apply (sends_before k k1).
  - case_tests; [by apply step_none|]. apply anew_changed.
    eapply anew_after; [..|by apply content_anew]; try done. apply same_page_refl.
  - unfold submitSignIn. destruct (negb _); apply step_send; try done; by apply Hm.
  - unfold signOut. apply step_send; try done. by apply Hm.
  - unfold ConsoleState.grantMemberRole. case_tests; [apply step_same; try done; apply same_page_refl|apply run_changed].
  - unfold ConsoleState.submitCreateRole. case_tests; try apply run_changed; apply step_same; try done; apply same_page_refl.
  - unfold ConsoleState.submitCreateKey. case_tests; [apply step_same; try done; apply same_page_refl|apply run_changed..].
  - destruct (k_page k) as [p|] eqn:Hp; [|by apply step_none].
    destruct (p_modal p) eqn:Em; try by apply step_none. unfold executePendingConfirm.
    assert (same_page (k_page k) (k_page (closeModal (set_pending None k)))) as Hs.
    { apply (set_modal_page NoModal k). left. unfold key_dialog_open, key_dialog. by rewrite Hp, Em. }
    destruct (k_pending k); [by apply run_after|by apply step_same].
  - case_tests; apply step_same; try done; [by apply set_nav_page|by apply Hm].
  - apply anew_changed. eapply anew_before; [..|apply content_anew]; try done. by apply toast_ok, closeModal_ok.
  - apply step_same; try done. by apply set_nav_page.
  - apply step_same; try done. by apply set_nav_page.
  - apply step_same; try done. by apply set_nav_page.
Qed.

(** A call goes on. *)
Lemma applications_calls r k :
  k_tasks (ConsoleState.loadApplications r k) = k_tasks k ∧ k_sent (ConsoleState.loadApplications r k) = k_sent k ∧
  k_page (ConsoleState.loadApplications r k) = k_page k.
Proof. by destruct r. Qed.

Lemma organizations_calls r k :
  k_tasks (ConsoleState.loadOrganizations r k) = k_tasks k ∧ k_sent (ConsoleState.loadOrganizations r k) = k_sent k ∧
  k_page (ConsoleState.loadOrganizations r k) = k_page k.
Proof. destruct r as [[|]| |e]; try done. cbn. by case_tests. Qed.

Lemma fleet_changed el r k :
  changed k (resume opens (AwaitApps (AppsThenFleet el)) r k).
Proof.
  cbn [resume]. destruct (applications_calls r k) as (H1 & H2 & H3).
  set (k1 := ConsoleState.loadApplications r k) in *. set (a := ask_of _ _ _). exists [AwaitScreen el a]. split.
  - split; [cbn; by rewrite H1|]. rewrite (asks_new _ _ [(k_client k1, ScreenRequests a)]) by (cbn; by rewrite H2).
    by repeat constructor.
  - destruct (k_page k) as [p|] eqn:Hp.
    + destruct (Nat.eqb_spec el (p_el p)) as [->|Hel].
      * right. intros p'. cbn. rewrite H3. intros [= <-]. left. by exists a.
      * left. split; [cbn; rewrite H3; done|]. constructor; [|done]. intros p'. cbn. rewrite H3. intros [= <-].
        by apply Nat.eqb_neq in Hel as ->.
    + left. split; [cbn; by rewrite H3|]. constructor; [|done]. intros p'. cbn. by rewrite H3.
Qed.

Lemma command_changed c d k : console_ok k →
  (∀ n s, c ≠ CreateKey n s) → changed k (command_done c d k) ∧
  (of_registry c = true → asked_anew k (command_done c d k)).
Proof.
  intros H Hk.
  assert (Hr : ∀ k1, console_ok k1 → k_tasks k1 = k_tasks k → k_sent k1 = k_sent k →
            asked_anew k (renderContentView false k1)).
  { intros k1 H1 Ht Hs. eapply anew_before; [exact Ht|exact Hs|by apply content_anew]. }
  assert (Hg : ∀ k1, k_tasks k1 = k_tasks k → k_sent k1 = k_sent k → asked_anew k (renderWorkflowDetailScreen false k1)).
  { intros k1 Ht Hs. eapply anew_before; [exact Ht|exact Hs|by apply detail_anew]. }
  assert (Ho : ∀ app m, changed k (opened_workflow app d (showToast m "success" k))).
  { intros app m. unfold opened_workflow. case_tests; apply step_same; try done; apply same_page_refl. }
  destruct c; cbn [command_done of_registry]; try (by destruct (Hk name apps));
    (split; [|first [discriminate|intros _]]);
    try apply Ho; try apply anew_changed; try (apply Hg; done);
    (apply Hr; [|done..]); by repeat first [apply toast_ok|apply closeModal_ok].
Qed.

Lemma resume_changed t r k : console_ok k → (∀ el a, t ≠ AwaitScreen el a) → changed k (resume opens t r k).
Proof.
  intros H Ht. destruct t as [[|q]|[q| |el]|el a|c]; cbn [resume].
  - destruct (organizations_calls r k) as (H1 & H2 & H3). apply anew_changed.
    eapply anew_before; [exact H1|exact H2|]. apply render_anew, ok_core, organizations_ok, H.
  - destruct (organizations_calls r k) as (H1 & H2 & H3). apply step_send; try done.
    rewrite H3. apply same_page_refl.
  - destruct (applications_calls r k) as (H1 & H2 & H3). pose proof (applications_ok r k H) as Ha.
    set (k1 := ConsoleState.loadApplications r k) in *. clearbody k1.
    match goal with |- context [handleRouting ?x] => set (k2 := x) end.
    assert (console_ok k2 ∧ k_tasks k2 = k_tasks k1 ∧ k_sent k2 = k_sent k1 ∧ k_page k2 = k_page k1) as (Hk & Et & Es & Ep).
    { subst k2. case_tests; split_and!; try done. by apply with_apps_ok. }
    destruct (routing_changed k2 Hk) as (ts & Hs & Hc). exists ts. split.
    + apply (sends_before k k2); [by rewrite Et|by rewrite Es|done].
    + destruct Hc as [[Hp Hf]|Hc]; [left|by right]. by rewrite <- H3, <- Ep.
  - destruct (applications_calls r k) as (H1 & H2 & H3). cbv zeta. apply anew_changed.
    set (k1 := ConsoleState.loadApplications r k) in *.
    destruct (sse_frame (k_shell k1) (render k1)) as (E1 & E2 & E3).
    eapply anew_after; [exact E1|exact E2|rewrite E3; apply same_page_refl|].
    eapply anew_before; [exact H1|exact H2|]. by apply render_anew, ok_core, applications_ok.
  - apply fleet_changed.
  - by destruct (Ht el a).
  - assert (Hd : ∀ d, changed k (command_done c d k)).
    { intros d. destruct c; try (by apply command_changed). cbn [command_done].
      apply step_same; try done. apply set_modal_page. right. by eexists _, _. }
    destruct r; [apply Hd..|]. apply step_same; try done. apply same_page_refl.
Qed.
End Events.

(** ** How much a call still asks for *)

(** The calls that can follow from one, itself included. *)
Definition weight (t : task) : nat :=
  match t with
  | AwaitScreen _ _ => 1
  | AwaitApps (AppsThenFleet _) => 2
  | AwaitOrgs (OrgsThenInit _) => 4
  | _ => 3
  end.

Definition work (l : list task) : nat := list_sum (map weight l).

Lemma work_app l m : work (l ++ m) = (work l + work m)%nat.
Proof. unfold work. by rewrite map_app, list_sum_app. Qed.

(** From [k] to [k'] at most [n] is added. *)
Definition adds (n : nat) (k k' : console) : Prop :=
  ∃ ts, k_tasks k' = k_tasks k ++ ts ∧ (work ts ≤ n)%nat.

Lemma adds_none n k k' : k_tasks k' = k_tasks k → adds n k k'.
Proof. intros E. exists []. rewrite app_nil_r. split; [done|apply Nat.le_0_l]. Qed.

Lemma adds_one n k k' t : k_tasks k' = k_tasks k ++ [t] → (weight t ≤ n)%nat → adds n k k'.
Proof. intros E H. exists [t]. split; [done|]. unfold work. cbn. lia. Qed.

Lemma adds_from n k k1 k' : k_tasks k1 = k_tasks k → adds n k1 k' → adds n k k'.
Proof. intros E (ts & Ht & Hw). exists ts. by rewrite <- E. Qed.

Lemma adds_to n k k1 k' : k_tasks k' = k_tasks k1 → adds n k k1 → adds n k k'.
Proof. intros E (ts & Ht & Hw). exists ts. by rewrite E. Qed.

Lemma adds_more n m k k' : (n ≤ m)%nat → adds n k k' → adds m k k'.
Proof. intros E (ts & Ht & Hw). exists ts. split; [done|lia]. Qed.

Lemma detail_adds s k : adds 2 k (renderWorkflowDetailScreen s k).
Proof.
  unfold renderWorkflowDetailScreen. destruct (k_page k); [|by apply adds_none].
  eapply adds_one; [by destruct s|cbn; lia].
Qed.

Lemma content_adds s k : adds 2 k (renderContentView s k).
Proof.
  unfold renderContentView. destruct (k_page k); [|by apply adds_none].
  set (k0 := if s then k else set_content Loading k). assert (E : k_tasks k0 = k_tasks k) by (subst k0; by destruct s).
  cbv zeta. apply (adds_from _ k k0 _ E).
  case_tests; try (by apply adds_none); try (eapply adds_one; [reflexivity|cbn; lia]); apply detail_adds.
Qed.

Lemma render_adds k : adds 2 k (render k).
Proof. eapply adds_from; [|apply content_adds]. done. Qed.

Lemma routing_adds k : adds 2 k (handleRouting k).
Proof.
  unfold handleRouting.
  assert (Hr : ∀ h, adds 2 k (render (set_shell h k))) by (intros h; eapply adds_from; [|apply render_adds]; done).
  destruct (split_char _ _) as [|r [|id rest]]; cbn [head default]; try apply Hr.
  case_tests; [|apply Hr]. destruct (decodeURIComponent id); [apply Hr|by apply adds_none].
Qed.

Lemma command_adds c d k : adds 2 k (command_done c d k).
Proof.
  assert (Hr : ∀ s k1, k_tasks k1 = k_tasks k → adds 2 k (renderContentView s k1)).
  { intros s k1 E. apply (adds_from _ _ _ _ E), content_adds. }
  assert (Hd : ∀ s k1, k_tasks k1 = k_tasks k → adds 2 k (renderWorkflowDetailScreen s k1)).
  { intros s k1 E. apply (adds_from _ _ _ _ E), detail_adds. }
  destruct c; cbn [command_done]; try (by apply Hr); try (by apply Hd); try (by apply adds_none);
    apply adds_none; unfold opened_workflow; by case_tests.
Qed.

Lemma resume_lighter opens t r k : ∃ ts, k_tasks (resume opens t r k) = k_tasks k ++ ts ∧ (work ts < weight t)%nat.
Proof.
  assert (∀ n, adds n k (resume opens t r k) → (n < weight t)%nat → ∃ ts, k_tasks (resume opens t r k) = k_tasks k ++ ts ∧ (work ts < weight t)%nat) as H.
  { intros n (ts & Ht & Hw) Hlt. exists ts. split; [done|lia]. }
  destruct t as [[|q]|[q| |el]|el a|c]; cbn [resume weight] in *.
  - destruct (organizations_calls r k) as (E & _). apply (H 2%nat); [|lia]. apply (adds_from _ _ _ _ E), render_adds.
  - destruct (organizations_calls r k) as (E & _). apply (H 3%nat); [|lia].
    eapply adds_one; [cbn; by rewrite E|done].
  - destruct (applications_calls r k) as (E & _). apply (H 2%nat); [|lia].
    eapply adds_from; [|apply routing_adds]. by case_tests.
  - destruct (applications_calls r k) as (E & _). apply (H 2%nat); [|lia]. cbv zeta.
    set (k1 := ConsoleState.loadApplications r k) in *.
    destruct (sse_frame opens (k_shell k1) (render k1)) as (E1 & _).
    apply (adds_to _ _ _ _ E1), (adds_from _ _ _ _ E), render_adds.
  - destruct (applications_calls r k) as (E & _). apply (H 1%nat); [|lia]. eapply adds_one; [cbn; by rewrite E|done].
  - apply (H 0%nat); [|lia]. apply adds_none. unfold write_screen. destruct (k_page k); [|done]. by case_tests.
  - apply (H 2%nat); [|lia]. destruct r; [apply command_adds..|by apply adds_none].
Qed.

(** ** What a command does to the registry *)

(** The screens whose buttons a command may change. *)
Definition touches (c : command) : list string :=
  match c with
  | RevokeKey _ | CreateKey _ _ => ["keys"]
  | ConsoleState.DeleteRole _ | ConsoleState.RemoveMember _ | ConsoleState.CreateRole _ _ | GrantRole _ _ => ["roles"]
  | _ => []
  end.

Lemma answers_got network op t st v :
  read_of op = read_answer → answers t (json st v) → 200 <= st < 300 → ∃ w, answer_to network op (json st v) = Got w.
Proof.
  intros Hr [Ho|(st' & v' & Ho & Hv)] Hst; [discriminate|]. injection Ho as <- <-.
  destruct (Hv Hst) as (H & _ & Hp & Hu). eexists. by apply got_json.
Qed.

Lemma no_content_got network op : read_of op = read_answer → answer_to network op no_content = Got JUndef.
Proof. intros Hr. cbn. by rewrite Hr. Qed.

Lemma buttons_same route s s' :
  s_keys s' = s_keys s → s_roles s' = s_roles s → s_members s' = s_members s →
  registry_buttons route s' = registry_buttons route s.
Proof. intros H1 H2 H3. unfold registry_buttons. by rewrite H1, H2, H3. Qed.

Lemma buttons_of_keys s s' : s_keys s' = s_keys s → registry_buttons "keys" s' = registry_buttons "keys" s.
Proof. intros H. unfold registry_buttons. cbn [String.eqb Ascii.eqb Bool.eqb]. by rewrite H. Qed.

Lemma buttons_of_roles s s' :
  s_roles s' = s_roles s → s_members s' = s_members s → registry_buttons "roles" s' = registry_buttons "roles" s.
Proof. intros H1 H2. unfold registry_buttons. cbn [String.eqb Ascii.eqb Bool.eqb]. by rewrite H1, H2. Qed.

(** What a screen of the registry offers changes only with a command that is about
    it, and then the command succeeds. *)
Lemma command_effect e network key s org c route :
  addressable (operation_of org c) = true → on_registry route →
  let (s', a) := exchange no_db e network key s (operation_of org c) in
  registry_buttons route s' = registry_buttons route s ∨ (route ∈ touches c ∧ ∃ v, a = Got v).
Proof.
  intros Ha Hr. rewrite exchange_serve by done.
  assert (route = "keys" ∨ route = "roles") as Hr' by (unfold on_registry in Hr; set_solver).
  destruct c; cbn [operation_of serve touches fst snd] in *; try (left; by apply buttons_same).
  - destruct Hr' as [-> | ->]; [right|left; by apply buttons_of_roles]. split; [by left|]. eexists. by apply no_content_got.
  - destruct Hr' as [-> | ->]; unfold delete_role.
    + left. apply buttons_of_keys. destruct (find _ _) as [r|]; [|done]. by destruct (ro_isGlobal r).
    + destruct (find _ _) as [r|]; [|by left]. destruct (ro_isGlobal r); [by left|].
      right. split; [by left|]. eexists. by apply no_content_got.
  - destruct Hr' as [-> | ->]; unfold remove_member.
    + left. apply buttons_of_keys. by destruct (negb _).
    + destruct (negb _); [by left|]. right. split; [by left|]. eexists. by apply got_json.
  - left. unfold delete_policy. destruct (has_prop _ _); by apply buttons_same.
  - destruct Hr' as [-> | ->]; unfold grant.
    + left. apply buttons_of_keys. destruct (negb _); [done|]. by destruct (negb _).
    + destruct (negb _); [by left|]. destruct (negb _); [by left|].
      right. split; [by left|]. eexists. by apply no_content_got.
  - pose proof (post_role_answer e s name permissions) as Hans. unfold post_role in *.
    destruct (read_role_name _) as [n|]; [|by left]. destruct (_ || _); [by left|].
    destruct (some _ _); [by left|]. cbn [fst snd] in *.
    destruct Hr' as [-> | ->]; [left; by apply buttons_of_keys|]. right. split; [by left|].
    by eapply answers_got; [|exact Hans|lia].
  - pose proof (create_key_answer e s name ["*"] apps) as Hans. unfold create_key in *.
    cbn [jget assoc String.eqb Ascii.eqb Bool.eqb default from_option id fst snd] in *.
    destruct Hr' as [-> | ->]; [right|left; by apply buttons_of_roles]. split; [by left|].
    by eapply answers_got; [|exact Hans|lia].
Qed.

(** ** Calls and their requests, side by side *)

Lemma zip_delete {A B} i (l : list A) (m : list B) : zip (delete i l) (delete i m) = delete i (zip l m).
Proof.
  revert l m. induction i as [|i IH]; intros [|x l] [|y m]; try done.
  - cbn. by destruct l.
  - cbn. f_equal. apply IH.
Qed.

Lemma zip_insert {A B} i (l : list A) (m : list B) x y :
  l !! i = Some x → zip l (<[i := y]> m) = <[i := (x, y)]> (zip l m).
Proof.
  revert l m. induction i as [|i IH]; intros [|z l] [|w m] H; try done.
  - injection H as ->. done.
  - cbn. f_equal. by apply IH.
Qed.

Lemma omap_delete {A B} (f : A → option B) i (l : list A) x : l !! i = Some x → f x = None → omap f (delete i l) = omap f l.
Proof.
  intros H Hf. rewrite delete_take_drop, omap_app. rewrite <- (take_drop_middle l i x H) at 3.
  rewrite omap_app. cbn. by rewrite Hf.
Qed.

Lemma omap_nothing {A B} (f : A → option B) (l : list A) : Forall (λ x, f x = None) l → omap f l = [].
Proof. induction 1 as [|x l H _ IH]; [done|]. cbn. by rewrite H. Qed.

Lemma omap_delete_first {A B} (f : A → option B) i (l : list A) x y :
  l !! i = Some x → f x = Some y → Forall (λ x, f x = None) (take i l) → omap f l = y :: omap f (delete i l).
Proof.
  intros H Hf Ht. rewrite delete_take_drop, omap_app. rewrite <- (take_drop_middle l i x H) at 1.
  rewrite omap_app. cbn. by rewrite Hf, (omap_nothing _ _ Ht).
Qed.

Lemma last_some_app {A} (l m : list A) : m ≠ [] → last (l ++ m) = last m.
Proof. destruct m as [|x m]; [done|]. intros _. apply last_app_cons. Qed.

(** Only the changed element can be a new last one. *)
Lemma omap_insert_last {A B} (f : A → option B) i (l : list A) x x' :
  l !! i = Some x → (is_Some (f x') ↔ is_Some (f x)) →
  last (omap f (<[i := x']> l)) = last (omap f l) ∨
  (last (omap f (<[i := x']> l)) = f x' ∧ is_Some (f x')).
Proof.
  intros H Hf. rewrite (insert_take_drop l i x') by by eapply lookup_lt_Some.
  rewrite <- (take_drop_middle l i x H) at 3. rewrite !omap_app. cbn.
  destruct (f x) as [y|], (f x') as [y'|]; try done.
  - destruct (omap f (drop (S i) l)) as [|z r].
    + right. by rewrite last_snoc.
    + left. by rewrite !last_some_app by done.
  - exfalso. by destruct Hf as [_ [? ?]].
  - exfalso. by destruct Hf as [[? ?] _].
  - by left.
Qed.

(** The screens that are on their way to the element, in order, with their answers. *)
Definition to_element (el : nat) (x : task * asked) : option (ask * option ConsoleState.answer) :=
  (λ a, (a, q_answer (snd x))) <$> screen_of el (fst x).

Definition screens (el : nat) (l : list (task * asked)) := omap (to_element el) l.

(** A command that is answered, and not with a failure, but has not gone on. *)
Definition pending_change (route : string) (x : task * asked) : Prop :=
  match fst x, q_answer (snd x) with
  | AwaitCommand _, Some (Failed _) => False
  | AwaitCommand c, Some _ => route ∈ touches c
  | _, _ => False
  end.

Definition good (route : string) (s : state) (x : ask * option ConsoleState.answer) : Prop :=
  a_route (fst x) = route →
  match snd x with
  | Some (Answer html) => elements html = registry_buttons route s
  | Some (Failed _) => False
  | _ => True
  end.

Definition good_content (route : string) (s : state) (c : ConsoleState.content) : Prop :=
  match c with
  | Card r c =>
      r = route → match c with DataCard _ _ html => elements html = registry_buttons route s | _ => False end
  | Loading => True
  end.

(** What will be on the page when the calls have gone on is what the control plane
    has, unless a change is still to be noticed. *)
Definition current (route : string) (s : state) (p : page) (l : list (task * asked)) : Prop :=
  (route = "keys" → key_dialog p = false) → ¬ Exists (pending_change route) l →
  match last (screens (p_el p) l) with
  | Some x => good route s x
  | None => good_content route s (p_content p)
  end.

Lemma current_state route s s' p l :
  registry_buttons route s' = registry_buttons route s → current route s p l → current route s' p l.
Proof.
  intros E H Hk Hn. specialize (H Hk Hn). unfold good, good_content in *. by rewrite E.
Qed.

Lemma fresh_unanswered ts k k' (x : task * asked) : x ∈ zip ts (asks k k') → q_answer (snd x) = None.
Proof.
  destruct x as [t q]. intros H%elem_of_zip_r. unfold asks in H.
  apply list_elem_of_In, in_map_iff in H as (y & <- & _). done.
Qed.

Lemma fresh_calm route ts k k' : ¬ Exists (pending_change route) (zip ts (asks k k')).
Proof.
  intros (x & Hx & Hd)%Exists_exists. apply fresh_unanswered in Hx. unfold pending_change in Hd.
  rewrite Hx in Hd. by destruct (fst x).
Qed.

Lemma screens_app el l m : screens el (l ++ m) = screens el l ++ screens el m.
Proof. apply omap_app. Qed.

Lemma elsewhere_screens k p ts qs : k_page k = Some p → Forall (elsewhere k) ts → screens (p_el p) (zip ts qs) = [].
Proof.
  intros Hp Hf. apply omap_nothing, Forall_forall. intros [t q] H%elem_of_zip_l.
  unfold to_element. cbn. rewrite Forall_forall in Hf. by rewrite (Hf t H p Hp).
Qed.

(** A step that leaves the page alone. *)
Lemma current_calm route s k k' ts (l : list (task * asked)) p' :
  same_page (k_page k) (k_page k') → Forall (elsewhere k') ts → k_page k' = Some p' →
  ((route = "keys" → key_dialog p' = false) → ∀ p, k_page k = Some p → current route s p l) →
  current route s p' (l ++ zip ts (asks k k')).
Proof.
  intros Hs Hf Hp' Hc Hk Hn. rewrite Hp' in Hs. destruct (k_page k) as [p|] eqn:Hp; [|done].
  destruct Hs as (He & Hct & Hd). rewrite screens_app, (elsewhere_screens k') by done.
  rewrite app_nil_r, He, Hct. apply (Hc Hk p eq_refl).
  - intros E. specialize (Hk E). destruct (key_dialog p); [|done]. by rewrite Hd in Hk.
  - intros Hx. apply Hn. apply Exists_app. by left.
Qed.

(** A step that asks for the page anew. *)
Lemma current_anew route s k ts (qs : list asked) (l : list (task * asked)) p :
  on_registry route → k_page k = Some p → redrawn k ts → length ts = length qs →
  Forall (λ q, q_answer q = None) qs → Forall (λ x, fst x ∈ k_tasks k) l →
  current route s p (l ++ zip ts qs).
Proof.
  intros Hr Hp Hd Hlen Hq Hl _ _. destruct (Hd p Hp) as [[a ->]|(Hf & [Ho1 Ho2] & _)].
  - destruct qs as [|q [|]]; try done. apply Forall_cons_1 in Hq as [Hq _].
    rewrite screens_app. cbn. unfold to_element. cbn. rewrite Nat.eqb_refl. cbn. rewrite last_snoc.
    unfold good. cbn. by rewrite Hq.
  - assert (screens (p_el p) (zip ts qs) = []) as E.
    { apply omap_nothing, Forall_forall. intros [t q] H%elem_of_zip_l. unfold to_element. cbn.
      rewrite Forall_forall in Hf. by rewrite (Hf t H (p_el p)). }
    rewrite screens_app, E, app_nil_r. destruct (last _) as [[a ans]|] eqn:El.
    + apply last_Some_elem_of, list_elem_of_omap in El as ([t q] & Hin & Ha). unfold to_element in Ha. cbn in Ha.
      destruct (screen_of _ t) as [a'|] eqn:Es; [|done]. injection Ha as -> <-.
      rewrite Forall_forall in Hl. intros E'. cbn in E'. subst route. by destruct (Ho1 t a (Hl _ Hin) Es).
    + unfold good_content. destruct (p_content p) as [|r c]; [done|]. intros ->. by destruct (Ho2 route c eq_refl).
Qed.

Lemma Exists_delete {A} (P : A → Prop) i (l : list A) x :
  l !! i = Some x → ¬ P x → Exists P l → Exists P (delete i l).
Proof.
  intros H Hx He. rewrite <- (take_drop_middle l i x H) in He. rewrite delete_take_drop.
  apply Exists_app in He. apply Exists_app. destruct He as [He|He]; [by left|right].
  apply Exists_cons in He as [He|He]; [done|exact He].
Qed.

Lemma current_delete route s p i (l : list (task * asked)) x :
  l !! i = Some x → to_element (p_el p) x = None → ¬ pending_change route x →
  current route s p l → current route s p (delete i l).
Proof.
  intros Hi Hx Hp Hc Hk Hn. unfold screens. rewrite (omap_delete _ _ _ _ Hi Hx). apply Hc; [done|].
  intros He. apply Hn. by eapply Exists_delete.
Qed.

(** A page that loads has a call that fills it. *)
Definition loading_filled (k : console) : Prop :=
  ∀ p, k_page k = Some p → p_content p = Loading → Exists (fills (p_el p)) (k_tasks k).

Lemma loading_changed k k' ts :
  k_tasks k' = k_tasks k ++ ts → same_page (k_page k) (k_page k') ∨ redrawn k' ts →
  loading_filled k → loading_filled k'.
Proof.
  intros Ht [Hs|Hr] Hl p' Hp' Hc; rewrite Ht; apply Exists_app.
  - left. rewrite Hp' in Hs. destruct (k_page k) as [p|] eqn:Hp; [|done]. destruct Hs as (-> & Ec & _).
    apply Hl; [done|]. by rewrite <- Ec.
  - right. destruct (Hr p' Hp') as [[a ->]|(_ & _ & H)]; [by constructor|by apply H].
Qed.

(** ** The machine *)

(** The names that can stand in an address. *)
Definition sendable (r : ConsoleState.request) : bool :=
  match r with
  | ConsoleState.ListOrganizations => true
  | ConsoleState.ListApplications org => addressable (ClientServe.ListApplications org)
  | ScreenRequests a =>
      forallb addressable [ListAPIKeys (a_org a); ListRoles (a_org a); ListMembers (a_org a); ListPermissions (a_org a)]
  | Command org c => addressable (operation_of org c)
  end.

(** No earlier call will write a screen into the same element. *)
Definition in_order (i : nat) (l : list task) : bool :=
  match l !! i with
  | Some (AwaitScreen el _) => forallb (λ t, match screen_of el t with Some _ => false | None => true end) (take i l)
  | _ => true
  end.

(** The steps that are considered: those of the user, the timers and the browser
    that do not leave the dialog of a new key; answers to requests whose names can
    stand in an address; and calls that go on, in any order but for two answers for
    the same element. *)
Definition allowed (a : act) (y : system) : bool :=
  match a with
  | User ev => negb (is_answer ev) && negb (key_dialog_open (y_console y) && leaves_key_dialog ev)
  | Process i => match y_asked y !! i with Some (Asked _ r None) => sendable r | _ => true end
  | Deliver i => in_order i (k_tasks (y_console y))
  end.

Section Order.
Context (opens : string → string → bool) (e : env) (network : option http) (browser : string).
Context (locale : jval → string) (now : Z) (viewer_id : jval → string → string) (local_ms : string → option Z).
Context (audit : auditFilters) (metrics : metricsFilters) (locale_inert : ∀ v, Inert (locale v)).
Notation sys_step := (sys_step opens e network browser locale now viewer_id local_ms audit metrics).
Notation run := (run opens e network browser locale now viewer_id local_ms audit metrics).
Notation reply := (reply e network browser locale now viewer_id local_ms audit metrics).

(** The sessions: a console that has started over a control plane in use, and every
    step from there. *)
Inductive reached : system → Prop :=
| reached_start session local dark hash t s a o st :
    used st → let k := start session local dark hash t s a o in reached (System k st (map unanswered (k_sent k)))
| reached_step x y : reached y → allowed x y = true → reached (sys_step x y).

Record order_ok (y : system) : Prop := {
  oo_console : console_ok (y_console y);
  oo_used : used (y_state y);
  oo_calls : Forall2 waits_for (k_tasks (y_console y)) (y_asked y);
  oo_page p route : k_page (y_console y) = Some p → on_registry route →
    current route (y_state y) p (zip (k_tasks (y_console y)) (y_asked y));
  oo_loading : loading_filled (y_console y) }.

Lemma started_ok session local dark hash t s a o st :
  used st → let k := start session local dark hash t s a o in order_ok (System k st (map unanswered (k_sent k))).
Proof.
  intros Hu k. split; [apply start_ok|done|by repeat constructor|intros p route; discriminate|].
  intros p; discriminate.
Qed.

Lemma new_asks ts k k' : Forall2 waits_for ts (asks k k') → Forall (λ q, q_answer q = None) (asks k k').
Proof. intros _. apply Forall_forall. intros q H. unfold asks in H. by apply list_elem_of_In, in_map_iff in H as (y & <- & _). Qed.

(** A step of the console from a state in order. *)
Lemma changed_loading k k' : changed k k' → loading_filled k → loading_filled k'.
Proof.
  intros (ts & [Ht _] & Hd). eapply loading_changed; [exact Ht|]. destruct Hd as [[Hs _]|Hd]; [by left|by right].
Qed.

Lemma anew_ok k k' s qs :
  console_ok k' → used s → Forall2 waits_for (k_tasks k) qs → loading_filled k' →
  asked_anew k k' → order_ok (System k' s (qs ++ asks k k')).
Proof.
  intros Hk Hu Hq Hl (ts & [Ht Ha] & Hd). pose proof (Forall2_length _ _ _ Hq) as Hlen.
  split; cbn [y_console y_state y_asked]; try done; rewrite Ht.
  - by apply Forall2_app.
  - intros p' route Hp' Hr. rewrite zip_with_app by done.
    apply (current_anew route s k'); try done; [by eapply Forall2_length|by eapply new_asks|].
    apply Forall_forall. intros [t q] H%elem_of_zip_l. cbn. rewrite Ht. apply elem_of_app. by left.
Qed.

Lemma changed_ok k k' s qs :
  console_ok k' → used s → Forall2 waits_for (k_tasks k) qs → loading_filled k' →
  (∀ p p' route, k_page k = Some p → k_page k' = Some p' → on_registry route →
     (route = "keys" → key_dialog p' = false) → current route s p (zip (k_tasks k) qs)) →
  changed k k' → order_ok (System k' s (qs ++ asks k k')).
Proof.
  intros Hk Hu Hq Hl Hc (ts & Hs & [[Hp Hf]|Hd]); [|by apply anew_ok; try done; exists ts].
  destruct Hs as [Ht Ha]. split; cbn [y_console y_state y_asked]; try done; rewrite Ht.
  - by apply Forall2_app.
  - intros p' route Hp' Hr. rewrite zip_with_app by by eapply Forall2_length.
    eapply current_calm; [exact Hp|exact Hf|exact Hp'|]. intros Hkey p Hp0. by eapply Hc.
Qed.

Lemma user_ok ev y :
  allowed (User ev) y = true → order_ok y → order_ok (sys_step (User ev) y).
Proof.
  intros [Ha Hd]%andb_true_iff [H1 H2 H3 H4 H5]. apply negb_true_iff in Ha, Hd.
  assert (changed (y_console y) (handle opens ev (y_console y))) as Hc by by apply handle_changed.
  apply changed_ok; try done; [by apply console_handle_ok|by eapply changed_loading|].
  intros p p' route Hp _ Hr _. by apply H4.
Qed.

(** *** The control plane answers *)

Lemma used_after key s org c : used s → addressable (operation_of org c) = true →
  used (fst (exchange no_db e network key s (operation_of org c))).
Proof. intros Hu Ha. apply used_call; [done|done|by destruct c]. Qed.

Lemma reply_command key org c k s s' a :
  used s → sendable (Command org c) = true → reply key (Command org c) k s = Some (s', a) →
  used s' ∧ ∀ route, on_registry route →
    registry_buttons route s' = registry_buttons route s ∨ (route ∈ touches c ∧ ∀ er, a ≠ Failed er).
Proof.
  intros Hu Ha. unfold ConsoleSystem.reply. pose proof (used_after key s org c Hu Ha) as Hu'.
  pose proof (command_effect e network key s org c) as Hc.
  destruct (exchange _ _ _ _ _ _) as [s1 a1]. cbn in Hu'. intros H.
  destruct (await browser (data_of c) a1) as [a2|] eqn:Ea; [|done]. injection H as -> ->. split; [done|].
  intros route Hr. destruct (Hc route Ha Hr) as [E|(Ht & v & ->)]; [by left|right]. split; [done|].
  intros er ->. cbn in Ea. by destruct (data_of c v).
Qed.

Lemma reply_screen key ak k s s' a :
  used s → sendable (ScreenRequests ak) = true → reply key (ScreenRequests ak) k s = Some (s', a) →
  s' = s ∧ (∀ l, a ≠ Names l) ∧ ∀ route, on_registry route → good route s (ak, Some a).
Proof.
  intros Hu Ha. unfold ConsoleSystem.reply. intros H. cbn [sendable forallb] in Ha.
  apply andb_true_iff in Ha as [A1 Ha]. apply andb_true_iff in Ha as [A2 Ha].
  apply andb_true_iff in Ha as [A3 Ha]. apply andb_true_iff in Ha as [A4 _].
  assert (Hdrawn : ∀ route, on_registry route → a_route ak = route → ∃ html,
    content (served e network key s) browser locale now viewer_id local_ms (view_of audit metrics k ak) = Some (Drawn html) ∧
    elements html = registry_buttons route s).
  { intros route Hr Er.
    destruct (registry_pages e network key s (a_org ak) Hu (conj A1 (conj A2 (conj A3 A4)))
                browser locale now viewer_id local_ms locale_inert audit metrics route Hr) as (h & Hh & Hd).
    exists h. split; [by apply Hd|done]. }
  destruct (content _ _ _ _ _ _ _) as [[html|[er|]]|] eqn:Ec; try done; injection H as <- <-; (split_and!; [done..|]);
    intros route Hr Er; destruct (Hdrawn route Hr Er) as (h & [= <-] & Hh); exact Hh.
Qed.

Lemma reply_list key r k s s' a :
  (r = ConsoleState.ListOrganizations ∨ ∃ org, r = ConsoleState.ListApplications org) → sendable r = true →
  reply key r k s = Some (s', a) → s' = s.
Proof.
  intros [->|[org ->]] Ha; unfold ConsoleSystem.reply; rewrite exchange_serve by done; cbn [serve fst];
    destruct (names_of _ _); intros [= <- _] || done; done.
Qed.

Lemma answered_ok i k s s' qs t q0 q :
  order_ok (System k s qs) → used s' → k_tasks k !! i = Some t → qs !! i = Some q0 → q_answer q0 = None →
  waits_for t q →
  (∀ route, on_registry route →
     (registry_buttons route s' = registry_buttons route s ∨ pending_change route (t, q)) ∧
     ∀ el x, to_element el (t, q) = Some x → good route s' x) →
  order_ok (System k s' (<[i := q]> qs)).
Proof.
  intros [H1 H2 H3 H4 H5] Hu Ht Hq Hno Hw Hgo. cbn in *. split; cbn; try done.
  - rewrite <- (list_insert_id _ _ _ Ht). by apply Forall2_insert.
  - intros p route Hp Hr Hk Hn. rewrite (zip_insert _ _ _ t) in Hn |- * by done.
    set (l := zip (k_tasks k) qs) in *.
    assert (Hz : l !! i = Some (t, q0)) by (apply lookup_zip_with_Some; eauto).
    assert (Hlt : (i < length l)%nat) by by eapply lookup_lt_Some.
    destruct (Hgo route Hr) as [[Hs|Hs] Hg]; [|exfalso; apply Hn].
    2:{ apply Exists_exists. exists (t, q). split; [|done]. by apply list_elem_of_insert. }
    assert (Hold : match last (screens (p_el p) l) with
      | Some x => good route s' x | None => good_content route s' (p_content p) end).
    { apply (current_state route s s' p l Hs (H4 p route Hp Hr)); [done|]. intros He. apply Hn.
      apply (Exists_delete _ _ _ _ Hz) in He.
      2:{ unfold pending_change. cbn. intros Hx. destruct t; try done. by rewrite Hno in Hx. }
      rewrite insert_take_drop by done. rewrite delete_take_drop in He. apply Exists_app in He. apply Exists_app.
      destruct He as [He|He]; [by left|right]. by apply Exists_cons_tl. }
    destruct (omap_insert_last (to_element (p_el p)) i l (t, q0) (t, q) Hz) as [E|[E [x Ex]]].
    + unfold to_element. cbn. by destruct (screen_of _ t).
    + unfold screens. by rewrite E.
    + unfold screens. rewrite E, Ex. by eapply Hg.
Qed.

Lemma process_ok i y : allowed (Process i) y = true → order_ok y → order_ok (sys_step (Process i) y).
Proof.
  intros Ha H. destruct y as [k s qs]. cbn [ConsoleSystem.sys_step]. unfold process. cbn [y_asked y_console y_state].
  cbn in Ha. destruct (qs !! i) as [[key r [|]]|] eqn:Hi; try done. cbn in Ha.
  destruct (reply key r k s) as [[s' a]|] eqn:Hr; [|done].
  pose proof (oo_used _ H) as Hu. cbn in Hu.
  destruct (Forall2_lookup_r _ _ _ _ _ (oo_calls _ H) Hi) as (t & Ht & Hw). cbn in Ht.
  assert (Hno : (r = ConsoleState.ListOrganizations ∨ ∃ org, r = ConsoleState.ListApplications org) →
            (∀ el, screen_of el t = None) → waits_for t (Asked key r (Some a)) →
            order_ok (System k s' (<[i := Asked key r (Some a)]> qs))).
  { intros Hl Hs Hq. rewrite (reply_list _ _ _ _ _ _ Hl Ha Hr). eapply answered_ok; try done.
    intros route _. split; [by left|]. intros el x. unfold to_element. cbn. by rewrite Hs. }
  destruct t as [n|n|el ak|c], r as [|org|ak'|org c']; try done.
  - by apply Hno; [left|..].
  - apply Hno; [by right; exists org|done..].
  - destruct Hw as [<- _]. destruct (reply_screen _ _ _ _ _ _ Hu Ha Hr) as (-> & Hn & Hg).
    eapply answered_ok; try done.
    + split; [done|]. cbn. intros l [= E]. by apply (Hn l).
    + intros route Hreg. split; [by left|]. intros el' x. unfold to_element. cbn.
      destruct (_ =? _)%nat; [|done]. intros [= <-]. by apply Hg.
  - cbn in Hw. subst c'. destruct (reply_command _ _ _ _ _ _ _ Hu Ha Hr) as [Hu' Hg].
    eapply answered_ok; try done. intros route Hreg. split; [|done].
    destruct (Hg route Hreg) as [E|[Hin Hf]]; [by left|right]. unfold pending_change. cbn.
    destruct a as [l|d|er]; try done. by destruct (Hf er).
Qed.

(** *** A call goes on *)

Lemma answered_deliver i k s qs t key r a :
  k_tasks k !! i = Some t → qs !! i = Some (Asked key r (Some a)) →
  sys_step (Deliver i) (System k s qs) =
  let k0 := set_tasks (delete i (k_tasks k)) k in
  let k' := resume opens t a k0 in System k' s (delete i qs ++ asks k0 k').
Proof.
  intros Ht Hq. cbn [ConsoleSystem.sys_step]. unfold deliver. cbn [y_asked y_console y_state]. rewrite Hq.
  cbn [handle]. by rewrite Ht.
Qed.

(** What the rest keeps when a call that writes no screen is gone. *)
Lemma current_without route s p k qs i t q :
  Forall2 waits_for (k_tasks k) qs → k_tasks k !! i = Some t → qs !! i = Some q →
  (∀ el, screen_of el t = None) → ¬ pending_change route (t, q) →
  current route s p (zip (k_tasks k) qs) → current route s p (zip (delete i (k_tasks k)) (delete i qs)).
Proof.
  intros Hw Ht Hq Hs Hn Hc. rewrite zip_delete. eapply current_delete; [|..|exact Hc].
  - apply lookup_zip_with_Some. eauto.
  - unfold to_element. cbn. by rewrite Hs.
  - done.
Qed.

(** A screen is written. *)
Lemma take_not_screen i l el el' a :
  in_order i l = true → l !! i = Some (AwaitScreen el' a) → el' = el →
  Forall (λ t, screen_of el t = None) (take i l).
Proof.
  intros Ho Hi ->. unfold in_order in Ho. rewrite Hi in Ho. rewrite forallb_forall in Ho.
  apply Forall_forall. intros t Ht. apply list_elem_of_In in Ht. specialize (Ho t Ht). by destruct (screen_of el t).
Qed.

Lemma zip_take_forall {B} (P : task → Prop) i l (m : list B) :
  Forall P (take i l) → Forall (λ x, P (fst x)) (take i (zip l m)).
Proof.
  revert l m. induction i as [|i IH]; intros [|x l] [|y m] H; try constructor.
  - by apply Forall_cons_1 in H as [H _].
  - apply IH. by apply Forall_cons_1 in H as [_ H].
Qed.

Lemma screen_ok i k s qs el ak key r a :
  order_ok (System k s qs) → k_tasks k !! i = Some (AwaitScreen el ak) → qs !! i = Some (Asked key r (Some a)) →
  in_order i (k_tasks k) = true → order_ok (sys_step (Deliver i) (System k s qs)).
Proof.
  intros [H1 H2 H3 H4 H5] Ht Hq Ho. cbn in H1, H2, H3, H4, H5. rewrite (answered_deliver _ _ _ _ _ _ _ _ Ht Hq).
  destruct (console_tasks_ok k i _ H1 Ht) as [Hto Hk0]. set (k0 := set_tasks (delete i (k_tasks k)) k) in *.
  assert (Hnames : ∀ l, a ≠ Names l).
  { pose proof (Forall2_lookup_lr _ _ _ _ _ _ H3 Ht Hq) as Hw. destruct r as [| |ak'|]; try done.
    destruct Hw as [_ Hw]. intros l ->. by apply (Hw l). }
  pose proof (resume_ok opens _ a k0 Hk0 Hto) as Hk'. cbn [resume] in Hk' |- *. cbv zeta.
  assert (Hz : zip (k_tasks k) qs !! i = Some (AwaitScreen el ak, Asked key r (Some a))) by (apply lookup_zip_with_Some; eauto).
  assert (asks k0 (write_screen el ak a k0) = [] ∧ k_tasks (write_screen el ak a k0) = delete i (k_tasks k)) as [-> Et].
  { unfold write_screen. destruct (k_page k0); [case_tests|]; split; try done; by apply asks_same. }
  rewrite app_nil_r. split; cbn [y_console y_state y_asked]; try done; rewrite ?Et.
  - by apply Forall2_delete.
  - intros p' route Hp' Hr. rewrite zip_delete. set (l := zip (k_tasks k) qs) in *.
    unfold write_screen in Hp'. change (k_page k0) with (k_page k) in Hp'. destruct (k_page k) as [p|] eqn:Hp.
    2:{ change (k_page k0) with (k_page k) in Hp'. by rewrite Hp in Hp'. }
    pose proof (H4 p route eq_refl Hr) as Hc. destruct (Nat.eqb_spec (p_el p) el) as [He|He].
    + cbn in Hp'. rewrite Hp in Hp'. injection Hp' as <-. intros Hk Hn. cbn [p_el p_content key_dialog] in *.
      assert (Hs : screens (p_el p) l = (ak, Some a) :: screens (p_el p) (delete i l)).
      { apply (omap_delete_first _ _ _ _ _ Hz).
        - unfold to_element. cbn. by rewrite He, Nat.eqb_refl.
        - eapply Forall_impl; [apply zip_take_forall, (take_not_screen _ _ (p_el p) _ _ Ho Ht); by rewrite He|].
          intros [t q] E. unfold to_element. cbn in *. by rewrite E. }
      assert (Hn' : ¬ Exists (pending_change route) l).
      { intros Hx. apply Hn. eapply Exists_delete; [exact Hz|by intros []|exact Hx]. }
      specialize (Hc Hk Hn'). rewrite Hs in Hc. destruct (screens (p_el p) (delete i l)) as [|z zs] eqn:Ez; cbn [last] in *.
      * unfold good in Hc. cbn in Hc |- *. intros Er. specialize (Hc Er).
        destruct a as [ns|d|er]; [by destruct (Hnames ns)|exact Hc|destruct Hc].
      * destruct (last (z :: zs)) eqn:El; [exact Hc|by apply last_None in El].
    + change (k_page k0) with (k_page k) in Hp'. rewrite Hp in Hp'. injection Hp' as <-.
      eapply current_delete; [exact Hz| |by intros []|exact Hc]. unfold to_element. cbn.
      by rewrite (proj2 (Nat.eqb_neq _ _) (not_eq_sym He)).
  - intros p'. rewrite Et. unfold write_screen. change (k_page k0) with (k_page k).
    destruct (k_page k) as [p|] eqn:Hp; [|change (k_page k0) with (k_page k); by rewrite Hp].
    destruct (Nat.eqb_spec (p_el p) el) as [He|He].
    + cbn. rewrite Hp. by intros [= <-].
    + change (k_page k0) with (k_page k). rewrite Hp. intros [= <-] Hc.
      eapply Exists_delete; [exact Ht| |by apply H5]. cbn. congruence.
Qed.

(** A command whose success asks for the page. *)
Definition redraws (t : task) (a : ConsoleState.answer) : bool :=
  match t, a with AwaitCommand _, Failed _ => false | AwaitCommand c, _ => of_registry c | _, _ => false end.

Lemma redraws_anew t a k : console_ok k → redraws t a = true → asked_anew k (resume opens t a k).
Proof.
  intros Hk E. destruct t as [| | |c]; try done. cbn [resume].
  destruct a; try done; (apply command_changed; [done| |exact E]); by intros n w ->.
Qed.

(** Else only a new key is not noticed, and its dialog is open. *)
Lemma noticed t q a k route p :
  q_answer q = Some a → redraws t a = false → k_page (resume opens t a k) = Some p →
  pending_change route (t, q) → route = "keys" ∧ key_dialog p = true.
Proof.
  intros Hq Hr Hp. unfold pending_change. cbn [fst snd]. rewrite Hq. destruct t as [| | |c]; try done.
  destruct a as [l|d|er]; try done; destruct c; try discriminate Hr; cbn [touches]; try (by intros []%elem_of_nil);
    intros ->%list_elem_of_singleton; split; try done; revert Hp; cbn; destruct (k_page k); try done; by intros [= <-].
Qed.

Lemma rest_loading i k t :
  k_tasks k !! i = Some t → (∀ el, ¬ fills el t) → loading_filled k → loading_filled (set_tasks (delete i (k_tasks k)) k).
Proof. intros Ht Hf Hl p Hp Hc. cbn in *. eapply Exists_delete; [exact Ht|apply Hf|by apply Hl]. Qed.

Lemma fleet_loading i k el a :
  k_tasks k !! i = Some (AwaitApps (AppsThenFleet el)) → loading_filled k →
  loading_filled (resume opens (AwaitApps (AppsThenFleet el)) a (set_tasks (delete i (k_tasks k)) k)).
Proof.
  intros Ht Hl p. cbn [resume]. set (k0 := set_tasks _ k). destruct (applications_calls a k0) as (H1 & _ & H3).
  cbn. rewrite H1, H3. intros Hp Hc. apply Exists_app. destruct (decide (el = p_el p)) as [->|He].
  - right. by constructor.
  - left. subst k0. cbn in *. eapply Exists_delete; [exact Ht|done|by apply Hl].
Qed.

Lemma call_ok i k s qs t key r a :
  order_ok (System k s qs) → k_tasks k !! i = Some t → qs !! i = Some (Asked key r (Some a)) →
  (∀ el ak, t ≠ AwaitScreen el ak) → order_ok (sys_step (Deliver i) (System k s qs)).
Proof.
  intros [H1 H2 H3 H4 H5] Ht Hq Hno. cbn in H1, H2, H3, H4, H5. rewrite (answered_deliver _ _ _ _ _ _ _ _ Ht Hq).
  destruct (console_tasks_ok k i _ H1 Ht) as [Hto Hk0].
  pose proof (resume_ok opens t a _ Hk0 Hto) as Hk'. pose proof (resume_changed opens t a _ Hk0 Hno) as Hc.
  assert (Hl : loading_filled (resume opens t a (set_tasks (delete i (k_tasks k)) k))).
  { destruct t as [n|[p| |el]|el ak|c]; try (by destruct (Hno el ak)); try (by apply fleet_loading);
      (eapply changed_loading; [exact Hc|]; eapply rest_loading; [exact Ht|by intros ? []|exact H5]). }
  cbv zeta. set (k0 := set_tasks (delete i (k_tasks k)) k) in *.
  assert (Hw : Forall2 waits_for (k_tasks k0) (delete i qs)) by by apply Forall2_delete.
  assert (Hbase : ∀ route, ¬ pending_change route (t, Asked key r (Some a)) →
            ∀ p, k_page k = Some p → on_registry route → current route s p (zip (k_tasks k0) (delete i qs))).
  { intros route Hn p Hp Hr. eapply current_without; [exact H3|exact Ht|exact Hq| |exact Hn|by apply H4].
    destruct t; try done. by destruct (Hno el a0). }
  destruct (redraws t a) eqn:Er.
  - apply anew_ok; try done. by apply redraws_anew.
  - apply changed_ok; try done. intros p p' route Hp Hp' Hreg Hkey. apply Hbase; try done.
    intros Hn. destruct (noticed t (Asked key r (Some a)) a k0 route p' eq_refl Er Hp' Hn) as [-> Hd]. by rewrite Hkey in Hd.
Qed.

Lemma deliver_ok i y : allowed (Deliver i) y = true → order_ok y → order_ok (sys_step (Deliver i) y).
Proof.
  intros Ha H. destruct y as [k s qs]. cbn in Ha.
  destruct (qs !! i) as [[key r [a|]]|] eqn:Hq; [|cbn [ConsoleSystem.sys_step]; unfold deliver; cbn [y_asked]; by rewrite Hq..].
  destruct (Forall2_lookup_r _ _ _ _ _ (oo_calls _ H) Hq) as (t & Ht & _). cbn in Ht.
  destruct t; try (eapply call_ok; [exact H|exact Ht|exact Hq|done]). by eapply screen_ok.
Qed.

Lemma reached_ok y : reached y → order_ok y.
Proof.
  induction 1 as [|[ev|i|i] y _ IH Ha]; [by apply started_ok|by apply user_ok|by apply process_ok|by apply deliver_ok].
Qed.

Fixpoint all_allowed (l : list act) (y : system) : bool :=
  match l with [] => true | x :: l => allowed x y && all_allowed l (sys_step x y) end.

Lemma run_reached l y : reached y → all_allowed l y = true → reached (run l y).
Proof.
  revert y. induction l as [|x l IH]; intros y Hy; [done|]. intros [Hx Hl]%andb_true_iff.
  apply (IH (sys_step x y)); [by apply reached_step|done].
Qed.

(** *** Answering what has waited longest *)

Definition serving (n : nat) : list act := concat (replicate n [Process 0; Deliver 0]).

(** The control plane has no answer the model reads to the request that has waited
    longest. *)
Definition stuck (y : system) : Prop :=
  ∃ key r rest, y_asked y = Asked key r None :: rest ∧
    (sendable r = false ∨ reply key r (y_console y) (y_state y) = None).

Lemma serve_step y :
  reached y → ¬ idle y →
  stuck y ∨
  (reached (run [Process 0; Deliver 0] y) ∧
   (work (k_tasks (y_console (run [Process 0; Deliver 0] y))) < work (k_tasks (y_console y)))%nat).
Proof.
  intros Hy Hi. pose proof (oo_calls _ (reached_ok y Hy)) as Hc. destruct y as [k s qs]. cbn in Hc.
  destruct qs as [|[key r ans] qs].
  { exfalso. apply Hi. by apply Forall2_nil_inv_r in Hc. }
  apply Forall2_cons_inv_r in Hc as (t & ts & _ & _ & Et).
  assert (Hgo : ∀ s' a, reached (System k s' (Asked key r (Some a) :: qs)) →
    let y' := sys_step (Deliver 0) (System k s' (Asked key r (Some a) :: qs)) in
    reached y' ∧ (work (k_tasks (y_console y')) < work (k_tasks k))%nat).
  { intros s' a Hr y'. split.
    - apply reached_step; [done|]. cbn. unfold in_order. rewrite Et. by destruct t.
    - subst y'. rewrite (answered_deliver 0 k s' _ t key r a) by (done || by rewrite Et). cbn [y_console].
      destruct (resume_lighter opens t a (set_tasks (delete 0%nat (k_tasks k)) k)) as (new & -> & Hlt).
      cbn [k_tasks set_tasks]. rewrite Et, work_app. unfold work in *. cbn. lia. }
  unfold run. cbn [fold_left ConsoleSystem.run]. destruct ans as [a|].
  - right. apply (Hgo s a). exact Hy.
  - destruct (sendable r) eqn:Ha; [|left; exists key, r, qs; split; [done|by left]].
    destruct (reply key r k s) as [[s' a]|] eqn:Er; [|left; exists key, r, qs; split; [done|by right]].
    right. assert (sys_step (Process 0) (System k s (Asked key r None :: qs)) = System k s' (Asked key r (Some a) :: qs)) as E.
    { cbn. unfold process. cbn. by rewrite Er. }
    rewrite E. apply Hgo. rewrite <- E. apply reached_step; [done|]. cbn. exact Ha.
Qed.

Lemma waiting_ends_lemma n y :
  reached y → (work (k_tasks (y_console y)) ≤ n)%nat →
  ∃ m, (m ≤ n)%nat ∧ reached (run (serving m) y) ∧ (idle (run (serving m) y) ∨ stuck (run (serving m) y)).
Proof.
  revert y. induction n as [|n IH]; intros y Hy Hn.
  - exists 0%nat. split_and!; [done|exact Hy|left]. pose proof (oo_calls _ (reached_ok y Hy)) as Hc.
    destruct (k_tasks (y_console y)) as [|t ts] eqn:Et.
    + apply Forall2_nil_inv_l in Hc. by split.
    + exfalso. unfold work in Hn. cbn in Hn. destruct t as [[]|[]| |]; cbn in Hn; lia.
  - destruct (decide (k_tasks (y_console y) = [] ∧ y_asked y = [])) as [Hi|Hi].
    { exists 0%nat. split_and!; [lia|exact Hy|by left]. }
    destruct (serve_step y Hy Hi) as [Hs|[Hr Hw]].
    { exists 0%nat. split_and!; [lia|exact Hy|by right]. }
    destruct (IH _ Hr ltac:(lia)) as (m & Hm & H). exists (S m). split; [lia|exact H].
Qed.
End Order.

(** ** Properties *)



Notation plain f := (f (λ _ _, true) sample_env (Some (Http 404 "" "" None)) "" plain_dates 0 (λ _ _, "") (λ _, None)
  ConsoleAudit.clearAuditFilters ConsoleMetrics.clearMetricsFilters).

Definition roles_started : system :=
  let k := start None ∅ true "#/roles" "" "" "" "" in System k (initial_state "t") (map unanswered (k_sent k)).

(** Two members are removed; the later command is answered and goes on first, and a
    refresh that was answered before both goes on in between. *)
Definition tangled : list act :=
  [Process 0; Deliver 0; Process 0; Deliver 0; Process 0; Deliver 0;
   User ClickRefresh; Process 0;
   User (ClickRemoveMember "alice@example.com"); User ClickConfirm;
   User (ClickRemoveMember "bob@example.com"); User ClickConfirm;
   Process 2; Process 1; Deliver 2; Process 2; Deliver 0; Deliver 1; Deliver 0; Process 0; Deliver 0].

Definition page_buttons (y : system) : option (list dataset) :=
  match k_page (y_console y) with
  | Some p => match p_content p with Card _ (DataCard _ _ html) => Some (elements html) | _ => None end
  | None => None
  end.



(** ** What modelling showed *)

Definition offered (b : dataset) (y : system) : option bool := some (λ x, bool_decide (x = b)) <$> page_buttons y.

(** A screen writes what it was answered without asking whether a later answer is on
    the page already: a refresh asked for before a member is removed, whose answer
    comes last, brings the removed member back, and nothing waits any more. *)
Lemma late_answer_overwrites :
  let y := plain run
    [Process 0; Deliver 0; Process 0; Deliver 0; Process 0; Deliver 0; User ClickRefresh; Process 0;
     User (ClickRemoveMember "bob@example.com"); User ClickConfirm; Process 1; Deliver 1; Process 1; Deliver 1; Deliver 0]
    roles_started in
  idle y ∧ s_members (y_state y) !! "bob@example.com" = None ∧
  offered [("removeMember", "bob@example.com")] y = Some true.
Proof. split; [split|split]; vm_compute; reflexivity. Qed.

(** The dialog of a new key asks for the page only from its button: after Escape the
    key is missing on the page, and nothing waits. *)
Lemma escaped_key_is_missing :
  let y := plain run
    [Process 0; Deliver 0; Process 0; Deliver 0; Process 0; Deliver 0;
     User (SubmitKey "ci" ""); Process 0; Deliver 0; User KeyEscape]
    (let k := start None ∅ true "#/keys" "" "" "" "" in System k (initial_state "t") (map unanswered (k_sent k))) in
  idle y ∧ map k_tokenName (s_keys (y_state y)) = ["dev-local-key"; "ci"] ∧
  offered [("revokeKey", "dev-local-key")] y = Some true ∧ offered [("revokeKey", "ci")] y = Some false.
Proof. split; [split|split_and!]; vm_compute; reflexivity. Qed.
