(* ===== verification/BuildLinks.v ===== *)
(** The links to the built script and style sheet in a page, and their
    replacement by the build (console/build.js): the four expressions
    [/assets\/app\.js/g], [/assets\/app\.css/g] and their fingerprinted forms,
    and what replacing them does to the links of a text. *)

From Stdlib Require Import ZArith Lia Ascii String.
From stdpp Require Import base list strings sets.
From S2P Require Import Prelude.

Inductive ext := Js | Css.
#[export] Instance ext_eq_dec : EqDecision ext.
Proof. solve_decision. Defined.

Definition ext_name (e : ext) : string := match e with Js => "js" | Css => "css" end.

(** [[0-9a-f]] and [[0-9a-f]{12}]. *)
Definition hex (a : ascii) : bool :=
  let c := code a in ((48 <=? c) && (c <=? 57)) || ((97 <=? c) && (c <=? 102)).
Definition hex12 (s : string) : bool :=
  (String.length (stake 12 s) =? 12)%nat && sforall hex (stake 12 s).

(** The length of the match at the start of a text, 0 for none. *)
Definition plain_at (e : ext) (s : string) : nat :=
  let p := "assets/app." +:+ ext_name e in if is_prefix p s then String.length p else 0.

Definition hashed_at (e : ext) (s : string) : nat :=
  if is_prefix "assets/app." s && hex12 (sdrop 11 s) && is_prefix ("." +:+ ext_name e) (sdrop 23 s)
  then 24 + String.length (ext_name e) else 0.

(** [s.replace(re, rep)] of an expression with the flag g: [skip] characters of a
    match are still to be passed over.  The replacements hold no [$]. *)
Fixpoint replace_from (at_ : string → nat) (rep : string) (skip : nat) (s : string) : string :=
  match s with
  | EmptyString => ""
  | String a s' =>
      match skip with
      | S k => replace_from at_ rep k s'
      | O => match at_ s with
             | S n => rep +:+ replace_from at_ rep n s'
             | O => String a (replace_from at_ rep 0 s')
             end
      end
  end.

Definition replace_all (at_ : string → nat) (rep s : string) : string := replace_from at_ rep 0 s.

(** ** Links *)

Record link := Link { l_ext : ext; l_hash : option string }.
#[export] Instance link_eq_dec : EqDecision link.
Proof. solve_decision. Defined.

Definition text (l : link) : string :=
  "assets/app." +:+ (match l_hash l with Some h => h +:+ "." | None => "" end) +:+ ext_name (l_ext l).

Definition well_formed (l : link) : Prop :=
  match l_hash l with Some h => String.length h = 12%nat ∧ sforall hex h = true | None => True end.

(** The link a text starts with. *)
Definition link_at (s : string) : option link :=
  if is_prefix "assets/app." s then
    let r := sdrop 11 s in
    if is_prefix "js" r then Some (Link Js None)
    else if is_prefix "css" r then Some (Link Css None)
    else if hex12 r then
      if is_prefix ".js" (sdrop 12 r) then Some (Link Js (Some (stake 12 r)))
      else if is_prefix ".css" (sdrop 12 r) then Some (Link Css (Some (stake 12 r)))
      else None
    else None
  else None.

Fixpoint links_from (skip : nat) (s : string) : list link :=
  match s with
  | EmptyString => []
  | String _ s' =>
      match skip with
      | S k => links_from k s'
      | O => match link_at s with
             | Some l => l :: links_from (String.length (text l) - 1) s'
             | None => links_from 0 s'
             end
      end
  end.

(** The links of a page, in order. *)
Definition links (s : string) : list link := links_from 0 s.

(** ** Reading a link *)

Lemma hex12_spec s : hex12 s = true ↔ ∃ h r, s = h +:+ r ∧ String.length h = 12%nat ∧ sforall hex h = true.
Proof.
  unfold hex12. split.
  - intros [H1%Nat.eqb_eq H2]%andb_true_iff. exists (stake 12 s), (sdrop 12 s). by rewrite stake_sdrop.
  - intros (h & r & -> & Hl & Hh). rewrite <- Hl, stake_app_len. by rewrite Nat.eqb_refl, Hh.
Qed.

Lemma link_at_spec s l : link_at s = Some l → well_formed l ∧ ∃ r, s = text l +:+ r.
Proof.
  unfold link_at. destruct (is_prefix "assets/app." s) eqn:E; [|done]. apply prefix_drop in E. cbn [String.length] in E.
  set (r := sdrop 11 s) in *. rewrite E. clearbody r.
  destruct (is_prefix "js" r) eqn:Ej; [intros [= <-]; split; [done|]|].
  { apply prefix_drop in Ej. rewrite Ej. eexists. reflexivity. }
  destruct (is_prefix "css" r) eqn:Ec; [intros [= <-]; split; [done|]|].
  { apply prefix_drop in Ec. rewrite Ec. eexists. reflexivity. }
  destruct (hex12 r) eqn:Eh; [|done]. apply hex12_spec in Eh as (h & x & -> & Hl & Hh).
  rewrite <- Hl, sdrop_app_len, stake_app_len.
  destruct (is_prefix ".js" x) eqn:Exj; [|destruct (is_prefix ".css" x) eqn:Exc; [|done]]; intros [= <-];
    (split; [done|]); unfold text; cbn [l_hash l_ext ext_name].
  - apply prefix_drop in Exj. rewrite Exj. eexists. rewrite !app_assoc_str. reflexivity.
  - apply prefix_drop in Exc. rewrite Exc. eexists. rewrite !app_assoc_str. reflexivity.
Qed.

Lemma hex_not_ext h r : String.length h = 12%nat → sforall hex h = true →
  is_prefix "js" (h +:+ r) = false ∧ is_prefix "css" (h +:+ r) = false.
Proof.
  destruct h as [|a [|b h]]; try done. intros _ H. cbn in H. apply andb_true_iff in H as [Ha H].
  apply andb_true_iff in H as [Hb _].
  split; apply not_true_is_false; intros [t E]%is_prefix_spec; rewrite !app_cons_str in E;
    first [by injection E as -> _|by injection E as _ -> _].
Qed.

Lemma link_at_text l r : well_formed l → link_at (text l +:+ r) = Some l.
Proof.
  intros Hw. unfold link_at, text. rewrite !app_assoc_str, is_prefix_app.
  change (sdrop 11 ("assets/app." +:+ ?x)) with x. cbv zeta.
  destruct l as [e [h|]]; cbn [l_hash l_ext].
  - destruct Hw as [Hl Hh]. cbn [l_hash] in *. rewrite !app_assoc_str.
    destruct (hex_not_ext h ("." +:+ ext_name e +:+ r) Hl Hh) as [-> ->].
    assert (hex12 (h +:+ "." +:+ ext_name e +:+ r) = true) as -> by (apply hex12_spec; eauto).
    rewrite <- Hl, sdrop_app_len, stake_app_len. by destruct e.
  - by destruct e.
Qed.

(** The expressions match exactly the links of their kind. *)
Definition selects (at_ : string → nat) (c : link → bool) : Prop :=
  ∀ s, at_ s = match link_at s with Some l => if c l then String.length (text l) else 0 | None => 0 end%nat.

Definition is_plain (e : ext) (l : link) : bool := bool_decide (l = Link e None).
Definition is_hashed (e : ext) (l : link) : bool :=
  bool_decide (l_ext l = e) && match l_hash l with Some _ => true | None => false end.

Lemma plain_selects e : selects (plain_at e) (is_plain e).
Proof.
  intros s. unfold plain_at, is_plain. destruct (is_prefix _ s) eqn:E.
  - apply is_prefix_spec in E as [r ->]. pose proof (link_at_text (Link e None) r I) as Hx.
    change (text (Link e None)) with ("assets/app." +:+ ext_name e) in Hx. rewrite Hx.
    by rewrite bool_decide_true.
  - destruct (link_at s) as [l|] eqn:El; [|done]. case_bool_decide as Hl; [|done]. subst l.
    apply link_at_spec in El as (_ & r & ->). change (text (Link e None)) with ("assets/app." +:+ ext_name e) in E.
    by rewrite is_prefix_app in E.
Qed.

Lemma hashed_text e h : text (Link e (Some h)) = "assets/app." +:+ h +:+ "." +:+ ext_name e.
Proof. unfold text. cbn [l_hash l_ext]. by rewrite app_assoc_str. Qed.

Lemma hashed_selects e : selects (hashed_at e) (is_hashed e).
Proof.
  intros s. unfold hashed_at, is_hashed. destruct (_ && _) eqn:E.
  - apply andb_true_iff in E as [E E3]. apply andb_true_iff in E as [E1 E2]. apply prefix_drop in E1.
    cbn [String.length] in E1. apply hex12_spec in E2 as (h & r & E2 & Hl & Hh). rewrite E2 in E1.
    rewrite E1 in E3. change (sdrop 23 ("assets/app." +:+ ?x)) with (sdrop 12 x) in E3.
    rewrite <- Hl, sdrop_app_len in E3. apply is_prefix_spec in E3 as [x ->]. subst s.
    assert (Hw : well_formed (Link e (Some h))) by (split; done).
    pose proof (link_at_text _ x Hw) as Hx. rewrite hashed_text in Hx. rewrite !app_assoc_str in Hx. rewrite !app_assoc_str, Hx.
    cbn [l_ext l_hash]. rewrite bool_decide_true by done. cbn [andb].
    rewrite hashed_text, !length_app_str, Hl. cbn [String.length]. lia.
  - destruct (link_at s) as [[e' [h|]]|] eqn:El; [|by cbn; rewrite andb_false_r|done]. cbn [l_ext l_hash].
    case_bool_decide as He; [|done]. subst e'. exfalso.
    apply link_at_spec in El as ((Hl & Hh) & r & ->). cbn [l_hash] in *. rewrite hashed_text in E.
    rewrite !app_assoc_str, is_prefix_app in E.
    change (sdrop 11 ("assets/app." +:+ ?x)) with x in E. change (sdrop 23 ("assets/app." +:+ ?x)) with (sdrop 12 x) in E.
    assert (hex12 (h +:+ "." +:+ ext_name e +:+ r) = true) as Ex by (apply hex12_spec; eauto).
    rewrite Ex in E. rewrite <- Hl, sdrop_app_len in E. rewrite <- app_assoc_str, is_prefix_app in E. done.
Qed.

(** ** Texts without the start of a link *)

(** No a is followed by an s, and the text does not end in a. *)
Fixpoint calm (u : string) : bool :=
  match u with
  | EmptyString => true
  | String a u' =>
      negb (Ascii.eqb a "a" && match u' with String b _ => Ascii.eqb b "s" | EmptyString => true end) && calm u'
  end.

Definition starts_as (s : string) : Prop := ∃ x, s = String "a" (String "s" x).

Lemma calm_not_as a u r : calm (String a u) = true → ¬ starts_as (String a (u +:+ r)).
Proof. intros Hc [x E]. injection E as -> E. destruct u as [|b u]; [done|]. injection E as -> E. done. Qed.

Lemma calm_hex h t : sforall hex h = true → calm (String "a" t) = true → calm (h +:+ t) = true.
Proof.
  intros Hh Hc. induction h as [|a h IH].
  - cbn in Hc. by apply andb_true_iff in Hc as [_ Hc].
  - cbn in Hh. apply andb_true_iff in Hh as [Ha Hh]. rewrite app_cons_str. cbn [calm]. rewrite IH, andb_true_r by done.
    destruct h as [|b h]; [rewrite app_empty_str|rewrite app_cons_str].
    + destruct (Ascii.eqb a "a"); [|done]. cbn in Hc. by apply andb_true_iff in Hc as [Hc _].
    + cbn in Hh. apply andb_true_iff in Hh as [Hb _]. destruct (Ascii.eqb_spec b "s") as [->|]; [done|].
      by rewrite andb_false_r.
Qed.

Lemma text_calm l : well_formed l → ∃ u, text l = String "a" u ∧ calm u = true.
Proof.
  intros Hw. destruct l as [e [h|]]; [|eexists; split; [reflexivity|by destruct e]].
  destruct Hw as [_ Hh]. cbn [l_hash] in Hh. eexists. split; [reflexivity|].
  assert (calm (String "." ((h +:+ ".") +:+ ext_name e)) = true) as Hc
    by (rewrite app_assoc_str; apply (calm_hex h ("." +:+ ext_name e)); [done|by destruct e]).
  exact Hc.
Qed.

Lemma link_starts s l : link_at s = Some l → starts_as s.
Proof. intros (_ & r & ->)%link_at_spec. unfold text. eexists. reflexivity. Qed.

(** ** Replacing *)

Lemma links_skip k s : links_from k s = links (sdrop k s).
Proof. unfold links. revert s. induction k as [|k IH]; intros [|a s]; cbn; try done. Qed.

Lemma links_cons a s : link_at (String a s) = None → links (String a s) = links s.
Proof. intros E. unfold links at 1. cbn [links_from]. by rewrite E. Qed.

Lemma links_calm u r : calm u = true → links (u +:+ r) = links r.
Proof.
  induction u as [|a u IH]; intros Hc; [done|]. rewrite app_cons_str, links_cons.
  - apply IH. cbn in Hc. by apply andb_true_iff in Hc as [_ Hc].
  - destruct (link_at _) eqn:E; [|done]. by apply link_starts, calm_not_as in E.
Qed.

Lemma links_text l r : well_formed l → links (text l +:+ r) = l :: links r.
Proof.
  intros Hw. pose proof (link_at_text l r Hw) as E. destruct (text_calm l Hw) as (u & Eu & _). rewrite Eu in *.
  rewrite app_cons_str in *. unfold links at 1. cbn [links_from]. rewrite E, links_skip, Eu. cbn [String.length].
  by rewrite Nat.sub_succ, Nat.sub_0_r, sdrop_app_len.
Qed.

Section Replace.
Context (at_ : string → nat) (c : link → bool) (Hsel : selects at_ c).
Context (l0 : link) (Hw0 : well_formed l0).
Notation R := (replace_all at_ (text l0)).

Lemma replace_skip k s : replace_from at_ (text l0) k s = R (sdrop k s).
Proof. unfold replace_all. revert s. induction k as [|k IH]; intros [|a s]; cbn; try done. Qed.

Lemma replace_cons a s : at_ (String a s) = 0%nat → R (String a s) = String a (R s).
Proof. intros E. unfold replace_all at 1. cbn [replace_from]. by rewrite E. Qed.

Lemma replace_hit l r : well_formed l → c l = true → R (text l +:+ r) = text l0 +:+ R r.
Proof.
  intros Hw Hc. pose proof (Hsel (text l +:+ r)) as E. rewrite link_at_text, Hc in E by done.
  destruct (text_calm l Hw) as (u & Eu & _). rewrite Eu in *. rewrite app_cons_str in *.
  unfold replace_all at 1. cbn [replace_from String.length] in *. rewrite E, replace_skip. by rewrite sdrop_app_len.
Qed.

Lemma at_starts s : at_ s ≠ 0%nat → starts_as s.
Proof. rewrite (Hsel s). destruct (link_at s) eqn:E; [|done]. intros _. by eapply link_starts. Qed.

Lemma replace_calm u r : calm u = true → R (u +:+ r) = u +:+ R r.
Proof.
  induction u as [|a u IH]; intros Hc; [done|]. rewrite !app_cons_str, replace_cons.
  - f_equal. apply IH. cbn in Hc. by apply andb_true_iff in Hc as [_ Hc].
  - destruct (at_ _) eqn:E; [done|]. exfalso. apply (calm_not_as a u r Hc), at_starts. by rewrite E.
Qed.

Lemma replace_miss l r : well_formed l → c l = false → R (text l +:+ r) = text l +:+ R r.
Proof.
  intros Hw Hc. pose proof (Hsel (text l +:+ r)) as E. rewrite link_at_text, Hc in E by done.
  destruct (text_calm l Hw) as (u & Eu & Hu). rewrite Eu in *. rewrite !app_cons_str in *.
  by rewrite replace_cons, replace_calm.
Qed.

(** What a replaced text starts with, if it is calm, the text started with. *)
Lemma replaced_calm u s z : calm u = true → R s = u +:+ z → ∃ r, s = u +:+ r ∧ z = R r.
Proof.
  revert s. induction u as [|a u IH]; intros s Hc E; [by exists s|].
  destruct s as [|b s]; [done|]. destruct (at_ (String b s)) eqn:Ea.
  - rewrite replace_cons in E by done. rewrite app_cons_str in E. injection E as -> E.
    cbn in Hc. apply andb_true_iff in Hc as [_ Hc]. destruct (IH s Hc E) as (r & -> & ->). by exists r.
  - exfalso. unfold replace_all in E. cbn [replace_from] in E. rewrite Ea in E.
    apply (calm_not_as a u z Hc). rewrite app_cons_str in E. rewrite <- E. unfold text. eexists. reflexivity.
Qed.

Lemma replace_no_link a s : link_at (String a s) = None → link_at (String a (R s)) = None.
Proof.
  intros E. destruct (link_at (String a (R s))) as [l|] eqn:El; [|done]. exfalso.
  apply link_at_spec in El as (Hw & z & Ez). destruct (text_calm l Hw) as (u & Eu & Hu). rewrite Eu, app_cons_str in Ez.
  injection Ez as -> Ez. destruct (replaced_calm u s z Hu Ez) as (r & -> & _).
  rewrite <- app_cons_str, <- Eu, link_at_text in E; done.
Qed.

(** A text is read from one link to the next. *)
Lemma text_ind (P : string → Prop) :
  P "" → (∀ l r, well_formed l → P r → P (text l +:+ r)) →
  (∀ a s, link_at (String a s) = None → P s → P (String a s)) → ∀ s, P s.
Proof.
  intros H0 Hl Ha s. remember (String.length s) as n eqn:En. revert s En.
  induction n as [n IH] using lt_wf_ind. intros s ->. destruct s as [|a s]; [done|].
  destruct (link_at (String a s)) as [l|] eqn:E.
  - apply link_at_spec in E as (Hw & r & E). rewrite E. apply Hl; [done|]. eapply IH; [|done].
    rewrite E, length_app_str. destruct (text_calm l Hw) as (u & -> & _). cbn. lia.
  - apply Ha; [done|]. eapply IH; [|done]. cbn. lia.
Qed.

Lemma replace_links s : links (R s) = map (λ l, if c l then l0 else l) (links s).
Proof.
  induction s as [|l r Hw IH|a s E IH] using text_ind; [done| |].
  - rewrite (links_text l r Hw). cbn [map]. destruct (c l) eqn:Ec.
    + by rewrite (replace_hit l r Hw Ec), links_text, IH.
    + by rewrite (replace_miss l r Hw Ec), links_text, IH.
  - rewrite (links_cons a s E), <- IH, replace_cons by (rewrite (Hsel (String a s)); by rewrite E).
    by apply links_cons, replace_no_link.
Qed.

(** Nothing changes where every selected link is the new one already. *)
Lemma replace_id s : (∀ l, l ∈ links s → c l = true → l = l0) → R s = s.
Proof.
  induction s as [|l r Hw IH|a s E IH] using text_ind; intros Hs; [done| |].
  - rewrite (links_text l r Hw) in Hs. assert (R r = r) as Er by (apply IH; intros x Hx; apply Hs; set_solver).
    destruct (c l) eqn:Ec.
    + rewrite (replace_hit l r Hw Ec), Er. by rewrite (Hs l) by set_solver.
    + by rewrite (replace_miss l r Hw Ec), Er.
  - rewrite (links_cons a s E) in Hs. rewrite replace_cons by (rewrite (Hsel (String a s)); by rewrite E).
    by rewrite IH.
Qed.
End Replace.

(** ** White space around a page *)

Lemma trim_start_around s : ∃ w, s = w +:+ trim_start s ∧ sforall is_space w = true.
Proof.
  induction s as [|a s (w & E & Hw)]; [by exists ""|]. cbn. destruct (is_space a) eqn:Ea; [|by exists ""].
  exists (String a w). rewrite app_cons_str, <- E. cbn. by rewrite Ea.
Qed.

Lemma trim_end_around s : ∃ w, s = trim_end s +:+ w ∧ sforall is_space w = true.
Proof.
  induction s as [|a s (w & E & Hw)]; [by exists ""|]. cbn. destruct (trim_end s) as [|b t] eqn:Et.
  - rewrite app_empty_str in E. subst w. destruct (is_space a) eqn:Ea.
    + exists (String a s). cbn. by rewrite Ea.
    + exists s. done.
  - exists w. rewrite app_cons_str, <- E. done.
Qed.

Lemma spaces_calm w : sforall is_space w = true → calm w = true.
Proof.
  induction w as [|a w IH]; [done|]. cbn. intros [Ha Hw]%andb_true_iff. rewrite IH, andb_true_r by done.
  destruct (Ascii.eqb_spec a "a") as [->|]; [done|done].
Qed.

Definition solid (p : string) : bool := sforall (λ a, negb (is_space a)) p.

Lemma solid_text l : well_formed l → solid (text l) = true.
Proof.
  intros Hw. unfold solid, text. rewrite !sforall_app. destruct l as [e [h|]]; cbn [l_hash l_ext]; [|by destruct e].
  destruct Hw as [_ Hh]. cbn [l_hash] in Hh. rewrite sforall_app.
  assert (sforall (λ a, negb (is_space a)) h = true) as ->; [|by destruct e].
  clear -Hh. induction h as [|a h IH]; [done|]. cbn in *. apply andb_true_iff in Hh as [Ha Hh].
  rewrite IH, andb_true_r by done. clear IH Hh. revert Ha. unfold hex, is_space. intros Ha.
  apply negb_true_iff, not_true_is_false. intros Hs.
  apply orb_true_iff in Ha. rewrite !andb_true_iff, !Z.leb_le in Ha.
  rewrite !orb_true_iff, !andb_true_iff, !Z.leb_le, !Z.eqb_eq in Hs. lia.
Qed.

Lemma solid_prefix p z s w : solid p = true → sforall is_space w = true → p +:+ z = s +:+ w → ∃ z', s = p +:+ z'.
Proof.
  revert s. induction p as [|a p IH]; intros s Hp Hw E; [by exists s|]. cbn in Hp. apply andb_true_iff in Hp as [Ha Hp].
  destruct s as [|b s].
  - rewrite app_empty_str in E. subst w. rewrite app_cons_str in Hw. cbn in Hw.
    apply andb_true_iff in Hw as [Hw _]. by rewrite Hw in Ha.
  - rewrite !app_cons_str in E. injection E as -> E. destruct (IH s Hp Hw E) as [z' ->]. by exists z'.
Qed.

Lemma links_end s w : sforall is_space w = true → links (s +:+ w) = links s.
Proof.
  intros Hw. induction s as [|l r Hl IH|a s E IH] using text_ind.
  - rewrite app_empty_str, <- (app_nil_r_str w), links_calm; [done|by apply spaces_calm].
  - rewrite app_assoc_str, !links_text, IH by done. done.
  - assert (link_at (String a (s +:+ w)) = None) as El; [|by rewrite app_cons_str, (links_cons a s E), links_cons, IH].
    destruct (link_at (String a (s +:+ w))) as [l|] eqn:El; [|done]. exfalso.
    apply link_at_spec in El as (Hl & z & Ez). rewrite <- app_cons_str in Ez.
    destruct (solid_prefix _ _ _ _ (solid_text l Hl) Hw (eq_sym Ez)) as [z' Ez']. rewrite Ez', link_at_text in E; done.
Qed.

Lemma links_trim s : links (trim s) = links s.
Proof.
  destruct (trim_start_around s) as (w1 & E1 & H1). destruct (trim_end_around (trim_start s)) as (w2 & E2 & H2).
  transitivity (links (trim_start s)); [|by rewrite E1 at 2; rewrite links_calm by by apply spaces_calm].
  symmetry. rewrite E2 at 1. by rewrite links_end.
Qed.
