(* ===== verification/ConsoleBuild.v ===== *)
(** The build of the console (console/build.js): the bundle and the style sheet
    get names made from their content, older ones are removed, and the pages that
    load them are rewritten.

    The directories the script reads and writes are finite maps from file names
    to contents.  esbuild, the hash of node:crypto and [node --check] are
    parameters.  The source assets are files, as they are in the repository. *)

From Stdlib Require Import ZArith Lia Ascii String.
From stdpp Require Import base list strings gmap sets.
From S2P Require Import Prelude BuildLinks.

Record disk := Disk {
  d_css : option string;                      (* src/app.css *)
  d_index : option string;                    (* src/index.html *)
  d_assets : option (gmap string string);     (* src/assets *)
  d_dist_index : option string;               (* internal/dashboard/dist/index.html *)
  d_dist : option (gmap string string);       (* internal/dashboard/dist/assets *)
  d_playground : option (gmap string string); (* site/playground/assets *)
  d_console : option string }.                (* site/playground/console.html *)

Definition set_dist_index (x : string) (d : disk) : disk :=
  Disk (d_css d) (d_index d) (d_assets d) (Some x) (d_dist d) (d_playground d) (d_console d).
Definition set_dist (x : gmap string string) (d : disk) : disk :=
  Disk (d_css d) (d_index d) (d_assets d) (d_dist_index d) (Some x) (d_playground d) (d_console d).
Definition set_playground (x : gmap string string) (d : disk) : disk :=
  Disk (d_css d) (d_index d) (d_assets d) (d_dist_index d) (d_dist d) (Some x) (d_console d).
Definition set_console (x : string) (d : disk) : disk :=
  Disk (d_css d) (d_index d) (d_assets d) (d_dist_index d) (d_dist d) (d_playground d) (Some x).

(** The script ends by an exception or with [process.exit(1)], or goes on. *)
Inductive stop := Threw | Exit1.
Definition M (A : Type) : Type := disk → disk * (stop + A).
Definition ret {A} (a : A) : M A := λ d, (d, inr a).
Definition bind {A B} (m : M A) (f : A → M B) : M B :=
  λ d, match m d with (d', inr a) => f a d' | (d', inl e) => (d', inl e) end.
Definition need {A} (o : option A) : M A := λ d, (d, match o with Some a => inr a | None => inl Threw end).
Definition get {A} (f : disk → A) : M A := λ d, (d, inr (f d)).
Definition put (f : disk → disk) : M unit := λ d, (f d, inr tt).

Declare Scope build_scope.
Delimit Scope build_scope with build.
Notation "x <- m ;; k" := (bind m (λ x, k)) (at level 100, m at next level, right associativity) : build_scope.
Notation "m ;;; k" := (bind m (λ _, k)) (at level 100, right associativity) : build_scope.

(** [readFileSync]: a file that is not there throws. *)
Definition read (f : disk → option string) : M string := λ d, need (f d) d.

Section Build.
Context (sha256 : string → string) (bundle : option string) (valid : string → bool).

Definition fingerprintedName (base ext content : string) : string :=
  base +:+ "." +:+ slice 0 12 (sha256 content) +:+ "." +:+ ext.

(** The files [cleanStaleBundles] removes; [base] holds no character that means
    something in an expression. *)
Definition stale (base file : string) : bool :=
  String.eqb file (base +:+ ".js") || String.eqb file (base +:+ ".css") ||
  (is_prefix (base +:+ ".") file && hex12 (sdrop (String.length base + 1) file) &&
   let e := sdrop (String.length base + 13) file in String.eqb e ".js" || String.eqb e ".css").

Definition cleanStaleBundles (dir : gmap string string) (base : string) : gmap string string :=
  filter (λ x, stale base (fst x) = false) dir.

(** The index refers to the names without a fingerprint; the playground's page to
    those of the last build, or to the names without one. *)
Definition index_links (jsName cssName html : string) : string :=
  replace_all (plain_at Js) ("assets/" +:+ jsName) (replace_all (plain_at Css) ("assets/" +:+ cssName) html).

Definition console_links (jsName cssName html : string) : string :=
  replace_all (plain_at Css) ("assets/" +:+ cssName)
    (replace_all (plain_at Js) ("assets/" +:+ jsName)
      (replace_all (hashed_at Css) ("assets/" +:+ cssName)
        (replace_all (hashed_at Js) ("assets/" +:+ jsName) html))).

Definition nl : string := String "010" "".

(** Steps 1 to 4: the bundle, the style sheet, the index and the static files. *)
Definition assemble : M (string * string) :=
  (put (λ d, set_dist (default ∅ (d_dist d)) d) ;;;
   js <- need bundle ;;
   css <- read d_css ;;
   let jsName := fingerprintedName "app" "js" js in
   let appCss := trim css +:+ nl in
   let cssName := fingerprintedName "app" "css" appCss in
   put (λ d, set_dist (<[cssName := appCss]> (<[jsName := js]> (cleanStaleBundles (default ∅ (d_dist d)) "app"))) d) ;;;
   indexHtml <- read d_index ;;
   put (set_dist_index (trim (index_links jsName cssName indexHtml) +:+ nl)) ;;;
   put (λ d, set_dist (default ∅ (d_assets d) ∪ default ∅ (d_dist d)) d) ;;;
   ret (jsName, cssName))%build.

(** The fonts that are there among the static assets. *)
Definition fonts (assets : gmap string string) : gmap string string :=
  filter (λ x, fst x = "archivo-latin.woff2" ∨ fst x = "OFL.txt") assets.

(** [copyFileSync] of a file of the built assets. *)
Definition copy (name : string) : M unit :=
  (content <- read (λ d, default ∅ (d_dist d) !! name) ;;
   put (λ d, set_playground (<[name := content]> (default ∅ (d_playground d))) d))%build.

(** Step 6: the playground's copies and its page. *)
Definition sync (jsName cssName : string) : M unit :=
  (pg <- get d_playground ;;
   match pg with
   | None => ret tt
   | Some pg =>
       put (set_playground (cleanStaleBundles pg "app")) ;;;
       copy jsName ;;;
       copy cssName ;;;
       put (λ d, set_playground (fonts (default ∅ (d_assets d)) ∪ default ∅ (d_playground d)) d) ;;;
       consoleHtml <- read d_console ;;
       put (set_console (console_links jsName cssName consoleHtml))
   end)%build.

Definition build : M unit :=
  (names <- assemble ;;
   dist <- get (λ d, default ∅ (d_dist d)) ;;
   (if valid (default "" (dist !! fst names)) then ret tt else λ d, (d, inl Exit1)) ;;;
   sync (fst names) (snd names))%build.
End Build.

(** ** What a build leaves *)

Section Spec.
Context (sha256 : string → string) (bundle : option string) (valid : string → bool).
(** A digest is at least twelve digits of base 16. *)
Context (sha_hex : ∀ s, hex12 (sha256 s) = true).
Notation run := (build sha256 bundle valid).
Notation style css := (trim css +:+ nl).
Notation script_name js := (fingerprintedName sha256 "app" "js" js).
Notation style_name css := (fingerprintedName sha256 "app" "css" (style css)).

Definition dist_after (js css : string) (d : disk) : gmap string string :=
  default ∅ (d_assets d) ∪
  <[style_name css := style css]> (<[script_name js := js]> (cleanStaleBundles (default ∅ (d_dist d)) "app")).

Definition playground_after (js css : string) (d : disk) (pg : gmap string string) : gmap string string :=
  let dist := dist_after js css d in
  fonts (default ∅ (d_assets d)) ∪
  <[style_name css := default "" (dist !! style_name css)]>
    (<[script_name js := default "" (dist !! script_name js)]> (cleanStaleBundles pg "app")).

(** The disk after a build that got through. *)
Definition disk_after (js css html : string) (d : disk) : disk :=
  Disk (d_css d) (d_index d) (d_assets d)
    (Some (trim (index_links (script_name js) (style_name css) html) +:+ nl))
    (Some (dist_after js css d))
    (playground_after js css d <$> d_playground d)
    (match d_playground d with
     | Some _ => console_links (script_name js) (style_name css) <$> d_console d
     | None => d_console d
     end).

Lemma dist_has js css d :
  is_Some (dist_after js css d !! script_name js) ∧ is_Some (dist_after js css d !! style_name css).
Proof.
  unfold dist_after. split; apply lookup_union_is_Some; right; [|by rewrite lookup_insert_eq].
  destruct (decide (style_name css = script_name js)) as [->|]; [by rewrite lookup_insert_eq|].
  by rewrite lookup_insert_ne, lookup_insert_eq.
Qed.

Lemma build_spec d d' :
  run d = (d', inr tt) ↔
  ∃ js css html, bundle = Some js ∧ d_css d = Some css ∧ d_index d = Some html ∧
    valid (default "" (dist_after js css d !! script_name js)) = true ∧
    (d_playground d ≠ None → d_console d ≠ None) ∧ d' = disk_after js css html d.
Proof.
  unfold build, assemble, sync, copy, read, need, bind, get, put, ret.
  destruct d as [css index assets di dist pg con]. destruct bundle as [js|]; [|by split; [|intros (? & ? & ? & ? & _)]].
  destruct css as [css|]; [|by split; [|intros (? & ? & ? & _ & ? & _)]].
  destruct index as [html|]; [|by split; [|intros (? & ? & ? & _ & _ & ? & _)]].
  cbn [d_css d_index d_assets d_dist d_playground d_console set_dist set_dist_index default from_option fst snd id].
  set (m := _ ∪ _). change m with (dist_after js css (Disk (Some css) (Some html) assets di dist pg con)). clear m.
  set (d := Disk _ _ assets di dist pg con). destruct (dist_has js css d) as [[cj Ej] [cc Ec]].
  destruct (valid _) eqn:Ev.
  - cbn. destruct pg as [pg|].
    + cbn. rewrite Ej. cbn. rewrite Ec. cbn. destruct con as [page|].
      * split.
        -- intros [= <-]. exists js, css, html. split_and!; try done. unfold disk_after, playground_after. fold d.
           by rewrite Ej, Ec.
        -- intros (js' & css' & html' & [= <-] & [= <-] & [= <-] & _ & _ & ->). unfold disk_after, playground_after.
           fold d. by rewrite Ej, Ec.
      * split; [done|]. by intros (js' & css' & html' & _ & _ & _ & _ & Hc & _); destruct (Hc ltac:(done)).
    + split; [intros [= <-]; by exists js, css, html|].
      by intros (js' & css' & html' & [= <-] & [= <-] & [= <-] & _ & _ & ->).
  - split; [done|]. intros (js' & css' & html' & [= <-] & [= <-] & [= <-] & Hv & _). fold d in Hv. cbn in Ev. congruence.
Qed.

(** *** Names *)

Definition script_link (js : string) : link := Link Js (Some (slice 0 12 (sha256 js))).
Definition style_link (css : string) : link := Link Css (Some (slice 0 12 (sha256 (style css)))).
(** The link to the new bundle of a kind. *)
Definition new_link (js css : string) (e : ext) : link := match e with Js => script_link js | Css => style_link css end.

Lemma digest_ok s : String.length (slice 0 12 (sha256 s)) = 12%nat ∧ sforall hex (slice 0 12 (sha256 s)) = true.
Proof. pose proof (sha_hex s) as H. unfold hex12 in H. by apply andb_true_iff in H as [?%Nat.eqb_eq ?]. Qed.

Lemma new_link_ok js css e : well_formed (new_link js css e).
Proof. destruct e; apply digest_ok. Qed.

Lemma script_text js : text (script_link js) = "assets/" +:+ script_name js.
Proof. unfold script_link. by rewrite hashed_text. Qed.
Lemma style_text css : text (style_link css) = "assets/" +:+ style_name css.
Proof. unfold style_link. by rewrite hashed_text. Qed.

Lemma names_differ js css : script_name js ≠ style_name css.
Proof.
  intros E. apply (f_equal String.length) in E. unfold fingerprintedName in E. rewrite !length_app_str in E.
  rewrite !(proj1 (digest_ok _)) in E. done.
Qed.

Lemma stale_bundle h e : String.length h = 12%nat → sforall hex h = true →
  stale "app" ("app" +:+ "." +:+ h +:+ "." +:+ ext_name e) = true.
Proof.
  intros Hl Hh. unfold stale. apply orb_true_iff. right. rewrite <- !(app_assoc_str "app" "."), is_prefix_app.
  change (sdrop (String.length "app" + 1) (("app" +:+ ".") +:+ ?x)) with x.
  change (sdrop (String.length "app" + 13) (("app" +:+ ".") +:+ ?x)) with (sdrop 12 x).
  rewrite <- Hl, sdrop_app_len.
  assert (hex12 (h +:+ "." +:+ ext_name e) = true) as -> by (apply hex12_spec; eauto). by destruct e.
Qed.

Lemma stale_script js : stale "app" (script_name js) = true.
Proof. destruct (digest_ok js). by apply (stale_bundle _ Js). Qed.
Lemma stale_style css : stale "app" (style_name css) = true.
Proof. destruct (digest_ok (style css)). by apply (stale_bundle _ Css). Qed.

(** *** Directories *)

(** No static asset is called like a bundle. *)
Definition static_names (d : disk) : Prop := ∀ f, is_Some (default ∅ (d_assets d) !! f) → stale "app" f = false.

Lemma clean_lookup dir f : cleanStaleBundles dir "app" !! f = if stale "app" f then None else dir !! f.
Proof.
  unfold cleanStaleBundles. destruct (stale "app" f) eqn:E.
  - apply map_lookup_filter_None. right. intros x _. cbn. by rewrite E.
  - destruct (dir !! f) as [x|] eqn:Ex.
    + apply map_lookup_filter_Some. by rewrite Ex.
    + apply map_lookup_filter_None. by left.
Qed.

(** A directory of static files over the two new bundles and what was there. *)
Definition placed (static old : gmap string string) (js css cj cc : string) : gmap string string :=
  static ∪ <[style_name css := cc]> (<[script_name js := cj]> (cleanStaleBundles old "app")).

Lemma placed_lookup static old js css cj cc f :
  (∀ f, is_Some (static !! f) → stale "app" f = false) →
  placed static old js css cj cc !! f =
    if stale "app" f then
      if decide (f = style_name css) then Some cc else if decide (f = script_name js) then Some cj else None
    else match static !! f with Some x => Some x | None => old !! f end.
Proof.
  intros Hs. unfold placed. destruct (stale "app" f) eqn:E.
  - rewrite lookup_union_r by (destruct (static !! f) eqn:Ef; [rewrite Hs in E by eauto; done|done]).
    destruct (decide (f = style_name css)) as [->|]; [by rewrite lookup_insert_eq|].
    rewrite lookup_insert_ne by done. destruct (decide (f = script_name js)) as [->|]; [by rewrite lookup_insert_eq|].
    by rewrite lookup_insert_ne, clean_lookup, E.
  - assert (f ≠ style_name css) as H1 by (intros ->; by rewrite stale_style in E).
    assert (f ≠ script_name js) as H2 by (intros ->; by rewrite stale_script in E).
    rewrite lookup_union, !lookup_insert_ne, clean_lookup, E by done. by destruct (static !! f), (old !! f).
Qed.

(** Placing the same bundles again changes nothing. *)
Lemma placed_again static old js css cj cc :
  (∀ f, is_Some (static !! f) → stale "app" f = false) →
  placed static (placed static old js css cj cc) js css cj cc = placed static old js css cj cc.
Proof.
  intros Hs. apply map_eq. intros f. rewrite !placed_lookup by done. destruct (stale "app" f); [done|].
  by destruct (static !! f).
Qed.

Lemma dist_placed js css d :
  dist_after js css d = placed (default ∅ (d_assets d)) (default ∅ (d_dist d)) js css js (style css).
Proof. done. Qed.

Lemma dist_bundles js css d : static_names d →
  dist_after js css d !! script_name js = Some js ∧ dist_after js css d !! style_name css = Some (style css).
Proof.
  intros Hs. rewrite dist_placed, !placed_lookup by done. rewrite stale_script, stale_style.
  rewrite (decide_False (P := script_name js = _)) by apply names_differ. by rewrite !decide_True.
Qed.

Lemma fonts_static d : static_names d → ∀ f, is_Some (fonts (default ∅ (d_assets d)) !! f) → stale "app" f = false.
Proof. intros Hs f [x Hx]. apply map_lookup_filter_Some in Hx as [Hx _]. apply Hs. eauto. Qed.

Lemma playground_placed js css d pg : static_names d →
  playground_after js css d pg = placed (fonts (default ∅ (d_assets d))) pg js css js (style css).
Proof. intros Hs. unfold playground_after. destruct (dist_bundles js css d Hs) as [-> ->]. done. Qed.

(** *** Links *)

Lemma index_links_spec js css html :
  links (index_links (script_name js) (style_name css) html) =
  map (λ l, match l_hash l with Some _ => l | None => new_link js css (l_ext l) end) (links html).
Proof.
  unfold index_links. rewrite <- script_text, <- style_text.
  rewrite (replace_links _ _ (plain_selects Js)), (replace_links _ _ (plain_selects Css)) by apply digest_ok.
  rewrite map_map. apply map_ext. intros [[] [h|]]; unfold is_plain; by repeat case_bool_decide.
Qed.

Lemma console_links_spec js css html :
  links (console_links (script_name js) (style_name css) html) = map (λ l, new_link js css (l_ext l)) (links html).
Proof.
  unfold console_links. rewrite <- script_text, <- style_text.
  rewrite (replace_links _ _ (plain_selects Css)), (replace_links _ _ (plain_selects Js)),
    (replace_links _ _ (hashed_selects Css)), (replace_links _ _ (hashed_selects Js)) by apply digest_ok.
  rewrite !map_map. apply map_ext. intros [[] [h|]]; unfold is_plain, is_hashed; cbn; by repeat case_bool_decide.
Qed.

Lemma console_links_again js css html :
  (∀ l, l ∈ links html → l = new_link js css (l_ext l)) →
  console_links (script_name js) (style_name css) html = html.
Proof.
  intros Hl. unfold console_links. rewrite <- script_text, <- style_text.
  change (script_link js) with (new_link js css Js). change (style_link css) with (new_link js css Css).
  assert (∀ at_ c e, selects at_ c → (∀ l, c l = true → l_ext l = e) →
    replace_all at_ (text (new_link js css e)) html = html) as Hr.
  { intros at_ c e Hs Hc. apply (replace_id _ _ Hs); [by apply new_link_ok|]. intros l Hin Hcl. rewrite (Hl l Hin). by rewrite (Hc l Hcl). }
  rewrite (Hr _ _ Js (hashed_selects Js)) by (intros l [H _]%andb_true_iff; by case_bool_decide).
  rewrite (Hr _ _ Css (hashed_selects Css)) by (intros l [H _]%andb_true_iff; by case_bool_decide).
  rewrite (Hr _ _ Js (plain_selects Js)) by (unfold is_plain; intros l H; by case_bool_decide; subst).
  apply (Hr _ _ Css (plain_selects Css)). unfold is_plain. intros l H; by case_bool_decide; subst.
Qed.

Lemma link_file l f : text l = "assets/" +:+ f → sdrop 7 (text l) = f.
Proof. intros ->. by apply (sdrop_app_len "assets/"). Qed.

(** C31: the pages a build leaves load the bundle and the style sheet it made.
    When the build gets through, every link of the index and, where there is a
    playground, of its page names a file of the assets beside it with exactly the
    new content, whatever older bundles the page referred to; no link is lost,
    added or moved.  (The index of the sources has links without a fingerprint,
    and no static asset is called like a bundle.) *)
Theorem built_pages_resolve d d' js css html :
  run d = (d', inr tt) → bundle = Some js → d_css d = Some css → d_index d = Some html → static_names d →
  (∀ l, l ∈ links html → l_hash l = None) →
  let content l := match l_ext l with Js => js | Css => style css end in
  let resolves page dir := ∀ l, l ∈ links page → dir !! sdrop 7 (text l) = Some (content l) in
  (∃ page dir, d_dist_index d' = Some page ∧ d_dist d' = Some dir ∧
     map l_ext (links page) = map l_ext (links html) ∧ resolves page dir) ∧
  (∀ old, d_playground d = Some old → ∃ before page dir,
     d_console d = Some before ∧ d_console d' = Some page ∧ d_playground d' = Some dir ∧
     map l_ext (links page) = map l_ext (links before) ∧ resolves page dir).
Proof.
  intros (js' & css' & html' & Ej & Ec & Eh & _ & Hpg & ->)%build_spec Ej' Ec' Eh' Hs Hp content resolves.
  rewrite Ej' in Ej. rewrite Ec' in Ec. rewrite Eh' in Eh. injection Ej as <-. injection Ec as <-. injection Eh as <-.
  assert (Hnew : ∀ static old, (∀ f, is_Some (static !! f) → stale "app" f = false) → ∀ l e,
    l = new_link js css e → placed static old js css js (style css) !! sdrop 7 (text l) = Some (content l)).
  { intros static old Hst l e ->. destruct e; cbn [new_link].
    - rewrite (link_file _ _ (script_text js)), placed_lookup, stale_script by done.
      rewrite decide_False by apply names_differ. by rewrite decide_True.
    - rewrite (link_file _ _ (style_text css)), placed_lookup, stale_style by done. by rewrite decide_True. }
  split.
  - eexists _, _. split_and!; [reflexivity|reflexivity| |].
    + rewrite links_end, links_trim, index_links_spec, map_map by done. apply map_ext_in.
      intros l Hin%list_elem_of_In. rewrite (Hp l Hin). by destruct (l_ext l).
    + intros l Hin. rewrite links_end, links_trim, index_links_spec in Hin by done.
      apply list_elem_of_In, in_map_iff in Hin as (l' & <- & Hin%list_elem_of_In). rewrite (Hp l' Hin).
      rewrite dist_placed. by eapply Hnew.
  - intros old Eo. unfold disk_after. cbn [d_playground d_console]. rewrite Eo in *. cbn [fmap option_fmap option_map].
    destruct (d_console d) as [before|]; [|by destruct Hpg]. eexists _, _, _. split_and!; [done|reflexivity|reflexivity| |].
    + rewrite console_links_spec, map_map. apply map_ext. by intros [[] h].
    + intros l Hin. rewrite console_links_spec in Hin. apply list_elem_of_In, in_map_iff in Hin as (l' & <- & _).
      rewrite playground_placed by done. eapply Hnew; [by apply fonts_static|done].
Qed.

(** C32: a build leaves one generation of bundles: of all the files called like a
    bundle, with or without a fingerprint, the assets have exactly the new script
    and the new style sheet, however many older ones were there, and so has the
    playground; every other file is the static asset of that name or what was
    there before. *)
Theorem one_generation d d' js css :
  run d = (d', inr tt) → bundle = Some js → d_css d = Some css → static_names d →
  let only old static dir := ∀ f,
    if stale "app" f then is_Some (dir !! f) ↔ f = script_name js ∨ f = style_name css
    else dir !! f = match static !! f with Some x => Some x | None => old !! f end in
  (∃ dir, d_dist d' = Some dir ∧ only (default ∅ (d_dist d)) (default ∅ (d_assets d)) dir) ∧
  (∀ old, d_playground d = Some old → ∃ dir,
     d_playground d' = Some dir ∧ only old (fonts (default ∅ (d_assets d))) dir).
Proof.
  intros (js' & css' & html & Ej & Ec & _ & _ & _ & ->)%build_spec Ej' Ec' Hs only.
  rewrite Ej' in Ej. rewrite Ec' in Ec. injection Ej as <-. injection Ec as <-.
  assert (Honly : ∀ static old, (∀ f, is_Some (static !! f) → stale "app" f = false) →
    only old static (placed static old js css js (style css))).
  { intros static old Hst f. rewrite placed_lookup by done. destruct (stale "app" f); [|done].
    repeat case_decide; split; try (intros _; by auto); try done; intros [->| ->]; done. }
  split.
  - eexists. split; [reflexivity|]. rewrite dist_placed. by apply Honly.
  - intros old Eo. unfold disk_after. cbn [d_playground]. rewrite Eo. eexists. split; [reflexivity|].
    rewrite playground_placed by done. by apply Honly, fonts_static.
Qed.

(** Building again changes nothing: a second build over the same sources ends
    the same way and leaves every file as it is. *)
Theorem rebuild_changes_nothing d d' :
  run d = (d', inr tt) → static_names d → run d' = (d', inr tt).
Proof.
  intros (js & css & html & Ej & Ec & Eh & Hv & Hpg & ->)%build_spec Hs. apply build_spec.
  exists js, css, html. set (d' := disk_after js css html d).
  assert (dist_after js css d' = dist_after js css d) as Ed by (rewrite !dist_placed; by apply placed_again).
  split_and!; [done|done|done|by rewrite Ed| |].
  - intros Hp. unfold d', disk_after in *. cbn [d_playground d_console] in *.
    destruct (d_playground d); [|done]. cbn. destruct (d_console d); [done|]. by destruct Hpg.
  - unfold disk_after. rewrite Ed.
    change (d_playground d') with (playground_after js css d <$> d_playground d).
    change (d_console d') with (match d_playground d with
      | Some _ => console_links (script_name js) (style_name css) <$> d_console d | None => d_console d end).
    unfold d' at 1. unfold disk_after at 1. f_equal; destruct (d_playground d) as [pg|]; try done; cbn.
    + f_equal. rewrite (playground_placed js css d pg Hs), (playground_placed js css d' _ Hs). symmetry.
      apply placed_again. by apply fonts_static.
    + destruct (d_console d) as [page|]; [|done]. cbn. f_equal.
      symmetry. apply console_links_again. intros l Hin. rewrite console_links_spec in Hin.
      apply list_elem_of_In, in_map_iff in Hin as (l' & <- & _). by destruct l' as [[] ?].
Qed.
End Spec.

(** ** A build *)

(** A digest that is only good for an example. *)
Definition toy_sha (s : string) : string :=
  String (digit (Z.of_nat (String.length s) mod 10)) "123456789abcdef0123456789abcdef".

Lemma toy_hex s : hex12 (toy_sha s) = true.
Proof.
  unfold toy_sha, digit. pose proof (Z.mod_pos_bound (Z.of_nat (String.length s)) 10 ltac:(lia)) as H.
  assert (∃ n, (n < 10)%nat ∧ Z.of_nat (String.length s) mod 10 = Z.of_nat n) as (n & Hn & ->)
    by (exists (Z.to_nat (Z.of_nat (String.length s) mod 10)); lia).
  do 10 (destruct n as [|n]; [vm_compute; reflexivity|]). lia.
Qed.

Definition page (q1 q2 : string) : string := "<link href=" +:+ q1 +:+ "><script src=" +:+ q2 +:+ "></script>".

Definition checkout : disk :=
  Disk (Some " body {} ") (Some (page "assets/app.css" "assets/app.js"))
    (Some {["logo.svg" := "<svg/>"; "OFL.txt" := "licence"]})
    None (Some {["app.aaaaaaaaaaaa.js" := "older"; "app.css" := "oldest"]})
    (Some {["app.aaaaaaaaaaaa.js" := "older"; "app.bbbbbbbbbbbb.css" := "older"]})
    (Some (page "assets/app.bbbbbbbbbbbb.css" "assets/app.aaaaaaaaaaaa.js")).

Definition built : disk := fst (build toy_sha (Some "run()") (λ _, true) checkout).

Lemma checkout_built : build toy_sha (Some "run()") (λ _, true) checkout = (built, inr tt).
Proof. vm_compute. reflexivity. Qed.

Lemma checkout_static : static_names checkout.
Proof.
  intros f [x Hx]. cbn in Hx. apply lookup_insert_Some in Hx as [[<- _]|[_ Hx]]; [reflexivity|].
  apply lookup_singleton_Some in Hx as [<- _]. reflexivity.
Qed.

Lemma built_pages_resolve_witness :
  ∃ page dir, d_dist_index built = Some page ∧ d_dist built = Some dir ∧
    map l_ext (links page) = [Css; Js] ∧ ∀ l, l ∈ links page → is_Some (dir !! sdrop 7 (text l)).
Proof.
  destruct (built_pages_resolve toy_sha (Some "run()") (λ _, true) toy_hex checkout built "run()" " body {} "
    (page "assets/app.css" "assets/app.js") checkout_built eq_refl eq_refl eq_refl checkout_static) as [(p & dir & H1 & H2 & H3 & H4) _].
  - apply Forall_forall. vm_compute. repeat constructor.
  - exists p, dir. split; [exact H1|]. split; [exact H2|]. split; [exact H3|].
    intros l Hl. rewrite (H4 l Hl). by eexists.
Defined.

Lemma one_generation_witness :
  ∃ dir, d_playground built = Some dir ∧ dir !! "app.aaaaaaaaaaaa.js" = None.
Proof.
  destruct (one_generation toy_sha (Some "run()") (λ _, true) toy_hex checkout built "run()" " body {} "
    checkout_built eq_refl eq_refl checkout_static) as [_ H].
  destruct (H _ eq_refl) as (dir & Hd & Ho). exists dir. split; [exact Hd|].
  specialize (Ho "app.aaaaaaaaaaaa.js").
  change (stale "app" "app.aaaaaaaaaaaa.js") with true in Ho. cbv iota in Ho.
  destruct (dir !! "app.aaaaaaaaaaaa.js") as [x|] eqn:E; [|reflexivity].
  exfalso. destruct (proj1 Ho (ex_intro _ x eq_refl)) as [Ha|Ha]; vm_compute in Ha; discriminate Ha.
Defined.

Lemma rebuild_changes_nothing_witness : build toy_sha (Some "run()") (λ _, true) built = (built, inr tt).
Proof. exact (rebuild_changes_nothing toy_sha (Some "run()") (λ _, true) toy_hex checkout built checkout_built checkout_static). Defined.

(** The bundle is checked after the older ones are gone and the index refers to
    it: a bundle that does not pass is what is left to serve. *)
Lemma invalid_bundle_left :
  let r := build toy_sha (Some "run(") (λ _, false) checkout in
  snd r = inl Exit1 ∧
  (links <$> d_dist_index (fst r)) = Some [style_link toy_sha " body {} "; script_link toy_sha "run("] ∧
  (d_dist (fst r) ≫= lookup "app.aaaaaaaaaaaa.js") = None ∧
  (d_dist (fst r) ≫= lookup (fingerprintedName toy_sha "app" "js" "run(")) = Some "run(".
Proof. vm_compute. repeat split. Qed.
